(* ===== verification/_CoqProject ===== *)
-Q . S2P
Prelude.v
MessageQueue.v
WireFormat.v
FlowTypes.v
FlowCodec.v
FlowCodecFacts.v
Decimal.v
RaftMessage.v
Session.v
LogStorage.v
Logging.v
ClusterManager.v
ClientManager.v
Configuration.v
ClusterNode.v
ClusterNodeFacts.v
NodeElection.v
NodeLog.v
NodeTypes.v
NodeVotes.v
NodeQueue.v
NodeCommit.v
NodeDelivery.v
NodePending.v
NodeRanges.v
NodeRecovery.v
Network.v
ClusterElection.v
ClusterLog.v
ClusterMatching.v
ClusterReplicas.v
ClusterProgress.v
ClusterReplication.v
ClusterCatchUp.v
ClusterMaster.v
Link.v
Clients.v
Console.v
