(* ===== verification/Prelude.v ===== *)
(** * flowmq: a verification development

    flowmq is a replicated message queue in C++. A server process hosts one
    node per partition; the nodes of a partition on different servers agree on
    a log of operations by a protocol modelled on Raft, and every node applies
    the committed entries to a message queue. Clients put messages, open a
    partition to have its messages delivered, and commit what they have
    received. All messages travel as length-prefixed protobuf envelopes over
    TCP sessions.

    ** Conventions

    Code that can fail returns an [outcome]: [Ret] of a value, or [Fault] with
    the reason for which a C++ program stops (a failed assertion, an access out
    of range, a signed overflow, a null dereference, an uncaught exception).
    Machine integers are in [Z], with [to_int] and the like where the source
    converts, and checked operations ([int_add], [int_sub]) where a signed
    overflow is possible. Bytes are a list of [Byte.byte]. A class is a record
    whose fields carry the names of the members; an operation takes and returns
    the object. What is asynchronous is an explicit input: the completion of a
    socket operation, a timer that fires, a posted closure that runs, a round of
    the storage thread. The order of these inputs is left open, so theorems
    over runs hold for every schedule. The clock, [std::rand], the random
    message ids, the result of a name resolution, whether a port can be listened
    on and the initial value of members without initializer are arguments.

    ** Files (sources under src/src/flowmq unless another path is given)

    - [Prelude] (this file): outcomes, machine integers, finite maps with the
      behaviour of [operator[]], tactics, hint databases, shared lemmas.
    - [MessageQueue]: message_queue.hpp/.cpp. The queue of one partition, an
      abstract specification (every stored message is undelivered, held by one
      consumer, or committed) and the refinement between them.
    - [WireFormat]: what the generated code uses of the protobuf runtime, as a
      class of operations [ProtobufRuntime] with its documented laws
      [ProtobufLaws], and an instance with real varints that shows the laws can
      hold. The runtime itself is not part of the repository.
    - [FlowTypes], [FlowCodec], [FlowCodecFacts]: flow_message.pb.h/.cc. The
      message classes with their has-bits and accessors; sizes, serialization,
      parsing, [MergeFrom] and [CopyFrom]; round trips for every class.
    - [Decimal]: [operator<<], [operator>>], [stoi], [atoi] and [to_string] on
      decimal integers, which the formats below rely on.
    - [RaftMessage]: message.hpp and raft_message.hpp, the length-prefixed
      buffer and the typed envelope.
    - [Session]: session.hpp/.cpp, the read state machine of a connection.
    - [LogStorage]: log_entry.hpp, log_entry_storage.hpp/.cpp,
      cluster_node_storage.hpp/.cpp. The file formats, the buffered storage with
      its background thread, the storage interface as a class
      [ClusterNodeStorageInterface] with the real storage and the mock as
      instances, and what nodes rely on as [ClusterNodeStorageLaws].
    - [Logging]: logging.hpp, the levels, the output file and the records that
      several threads write under one mutex.
    - [ClusterManager]: cluster_manager.hpp/.cpp, connections between servers;
      the interface the nodes use is the class [ClusterManagerInterface] with
      [ClusterManagerLaws].
    - [ClientManager]: client_manager.hpp/.cpp, client sessions, consumer lists
      and round-robin delivery, behind [ClientManagerInterface].
    - [Configuration]: configuration.hpp/.cpp, the loader.
    - [ClusterNode]: cluster_node.hpp/.cpp, the whole node: constructor, timers,
      the handler of every message type, the log, commit and delivery.
      [ClusterNodeFacts] says for each handler what it may change and send,
      against the interfaces of the managers and the storage.
      [NodeElection] has the properties of votes and terms, [NodeVotes] those of
      the votes among the messages sent, [NodeLog] those of the log, [NodeTypes]
      those of the integers that are sent and of what their receivers see,
      [NodeRanges] those of the other integer members, [NodeQueue] those of the queue the log drives, [NodeCommit] those of the
      commit index, [NodeDelivery] those of a round of deliveries,
      [NodePending] those of the count of unanswered requests, [NodeRecovery]
      those of a restart.
    - [Network]: several nodes of a partition and the messages between them, as
      a cluster whose steps are those of its nodes, arrivals and losses of
      messages in any order, and restarts; with a rule for invariants of all
      nodes and all messages under way. [ClusterElection] has the properties of
      elections in a cluster, [ClusterLog] those of what its logs and queues
      hold, [ClusterMatching] those of the agreement of its logs and
      [ClusterReplicas] those of the agreement of its queues;
      [ClusterProgress], [ClusterReplication] and [ClusterCatchUp] give
      schedules in which elections, replication and the repair of a log that
      lags behind succeed.
    - [ClusterMaster]: cluster_master.hpp/.cpp and
      src/src/application/cluster_node.cpp, the server process: its
      construction from a configuration file and its steps.
    - [Link]: two server processes and the byte stream between them, from the
      step of a node to the task of its peer.
    - [Clients]: generic_client.hpp/.cpp and
      src/src/flowmq_client/simple_client.hpp, the client library.
    - [Console]: src/src/application/client.cpp, the interactive client.

    ** What is proved

    Of one node, over every run (any messages, any schedule of timers and
    closures): the votes it sends are for at most one candidate per term
    ([NodeVotes]), it becomes leader only as a candidate with a majority of
    votes, and its term and commit index never decrease ([NodeElection]); its
    integer members stay in the ranges of their types, and what it sends is what
    its receivers decode ([NodeTypes], [NodeRanges]); its log is changed only by appending on a leader
    and by the append rule of Raft on a request, which is proved equivalent to
    a reference definition and to preserve log matching, and entries carry
    their positions ([NodeLog]); the queue is exactly the replay of the committed
    prefix of the log, up to deliveries and disconnects ([NodeQueue]); the commit
    index moves only to what a leader announced or what a majority, the node
    included, has acknowledged ([NodeCommit]); a round of deliveries of a leader
    gives every undelivered message to a consumer, in order of their ids and in
    turns, with the queue, the consumer's session and the counter of turns in
    step ([NodeDelivery]); a node that started without files and commits one
    entry at a time, its storage thread running beside it, gets its committed
    log and queue back from a restart, with every message that is not committed
    undelivered ([NodeRecovery]). Of its queue: each of the five containers holds
    what the abstract queue says ([message_queue_refines]), and a committed
    message is never delivered again.

    Of a cluster, over every run of fresh nodes with any delays, reorderings,
    losses and crashes but no restart: no two nodes are elected in the same
    term ([election_safety]). The proof keeps the votes cast as a ghost history
    and shows that votes counted and votes under way are different votes. What
    the logs, queues and messages under way hold was put or committed by a
    client ([message_integrity]). Logs match: an entry of the same term at the
    same place is the same in two nodes, with everything before it, in the runs
    in which no leader changes its term or drops entries while it leads
    ([log_matching]); the code does not ensure this condition, and without it
    logs differ ([disorderly_logs_differ]). The proof keeps the entries created
    as a ghost history. Where in addition committed entries stay in place, the
    replicas of the queue agree ([replicas_agree]). A candidate whose requests and answers arrive
    is elected, for every size of the cluster from two on
    ([election_succeeds]), and a leader with its followers in sync commits a
    message put to it after one exchange with half of them
    ([put_is_committed]). A follower that has only a part of the leader's log
    gets all of it ([follower_catches_up]), unless [MAX_PENDING_APPEND] requests
    to it were lost: as long as it answers no more than the heartbeats sent
    since, it gets no entry from this leader ([lost_requests_stop_replication],
    and for a cluster [two_lost_heartbeats_stop_cluster]). What the cluster does
    not guarantee: a node votes for whoever asks in a later term, and lets
    requests of that term overwrite what it has committed
    ([committed_entry_overwritten]); a leader does not survive the answer of a
    follower whose log is longer than its own
    ([longer_follower_crashes_leader]). Concrete runs of fresh clusters end in
    these states: two nodes that commit different messages at the same place
    ([committed_message_replaced]), a new leader that crashes on the answer of
    its predecessor ([leader_change_crashes]), two nodes acting as leaders of one
    term ([two_leaders_in_term]) and two nodes elected in one term after a
    restart ([restart_elects_second]).

    Of the layers below: what a node asks to be sent to a peer becomes, over the
    sessions and masters of the two processes, the tasks of the peer's node, each
    message once and in order ([messages_reach_peer]); round trips of messages through serialization, of a
    sequence of messages through a session's byte stream, of the log and the
    configuration through their files; durability of the storage under every
    interleaving with its thread; log records of several threads that do not
    mix; deliveries that go to a connected consumer if there is one, in turns;
    one connection attempt per server at any time, and never none. Of the
    process: it starts on every configuration with a partition whose ids are
    positions, if its ports are free and its files can be used
    ([server_starts]); each step gives the node of a partition exactly the
    messages of that partition and the disconnections, or runs its own closure,
    or leaves it alone ([server_partitions_invariant]); and it carries a client's
    put into the leader's log. Of the client library:
    deliveries reach the application, redirections are followed. Of the
    interactive client: a typed line is put in partition 0.

    Where the code does not do what it means to, the theorem states what it
    does: a commit of several entries stores only the last
    ([commit_stores_last_entry]), a restart forgets term and vote
    ([restart_forgets_vote]), a leader keeps its role in a newer term
    ([leader_survives_newer_term]), a late append response makes a follower send
    as a leader ([follower_sends_append_request]), a client can stop the server
    ([client_message_stops_server]) or make a delivery crash, whatever
    partition it opens twice ([double_open_crashes]), the length in a header is trusted
    ([oversized_header_overruns]), a torn record is accepted
    ([torn_record_accepted]), the storage thread may overwrite the metadata before
    they are loaded ([first_round_clobbers_metadata]), [close] re-arms the
    disconnect handler ([close_repeats_disconnect]), ids that are not positions
    break a server ([sparse_ids_break_server]), [open_queue_sync] cannot report
    failure ([open_queue_never_fails]), a client that was not started cannot
    be stopped ([unstarted_client_crashes]), a cluster of one node never has a
    leader ([single_node_never_leads]), and the interactive client reads message
    ids that are smaller than those the servers give out
    ([console_commits_small_ids]).

    ** Bounds and fuel

    Loops of the source are structural recursions over the container they walk
    over. Where the source loops until a condition holds there is fuel: the
    length of the input (parsing a message, loading a file: every round consumes
    a byte), the ten bytes of a varint, the twenty digits of a 64-bit integer,
    the distance between two indices (the entries of a commit); the lemmas show
    that it is enough. The model of a byte stream that feeds a session takes its
    fuel as an argument, and the theorem asks for two rounds per message. The
    bounds of the theorems are
    those of the code: [INT_MAX] for the size of a log, 1000 bytes for a message;
    [put_is_committed] asks for at most 800 bytes, which leave room for the
    fields around the message in an append request, as do the logs of
    [follower_catches_up], which takes at most two exchanges per entry: one to
    go back, one to go forward.

    ** Not modelled

    The arenas, reflection, swaps and text formats of the generated classes;
    the words of the log records ([Logging] models which records are written
    and how, the components do not carry the calls); the contents of TCP
    segments below whole reads and writes; and data races: the model runs one
    closure at a time, so it says nothing about the unsynchronized use of the
    managers from the nodes' threads, and a client that sends and then waits
    ([open_queue_sync]) does both in one step, so it says nothing about an answer
    that comes in between. The benchmark, the integration test and
    the unit tests (src/src/application/test.t.cpp among them, which is written
    for an older interface) are drivers around the components above. *)

From stdpp Require Export base list gmap sets sorting strings.
From Stdlib Require Export ZArith Lia.
From Stdlib Require Strings.Byte.

Local Open Scope Z_scope.

(** ** Faults and outcomes

    A C++ call either returns or runs into one of the behaviours the source
    does not recover from: a failed [assert], an access outside a container, a
    signed overflow, a null dereference, or an exception nobody catches. *)

Inductive fault :=
  | AssertFailed
  | OutOfRange
  | SignedOverflow
  | NullDeref
  | Thrown.

#[export] Instance fault_eq_dec : EqDecision fault.
Proof. solve_decision. Defined.

Inductive outcome (A : Type) :=
  | Ret (a : A)
  | Fault (f : fault).
Arguments Ret {A} _.
Arguments Fault {A} _.

#[export] Instance outcome_eq_dec {A : Type} `{EqDecision A} : EqDecision (outcome A).
Proof. solve_decision. Defined.

Definition obind {A B : Type} (c : outcome A) (k : A -> outcome B) : outcome B :=
  match c with
  | Ret a => k a
  | Fault f => Fault f
  end.

Declare Scope outcome_scope.
Delimit Scope outcome_scope with outcome.
Open Scope outcome_scope.

Notation "'let*' x ':=' c 'in' k" := (obind c (fun x => k))
  (at level 10, x binder, c at level 200, k at level 200,
   format "'[v' 'let*'  x  ':='  c  'in' '/' k ']'") : outcome_scope.

Definition is_ret {A : Type} (c : outcome A) : bool :=
  match c with Ret _ => true | Fault _ => false end.

(** [assert(b)]: the build sets no [NDEBUG], so a failed assertion ends the
    process. *)
Definition assert (b : bool) : outcome unit :=
  if b then Ret tt else Fault AssertFailed.

Lemma obind_ret {A B : Type} (c : outcome A) (k : A -> outcome B) (y : B) :
  obind c k = Ret y <-> exists x, c = Ret x /\ k x = Ret y.
Proof. destruct c; simpl; naive_solver. Qed.

Lemma assert_ret (b : bool) (u : unit) : assert b = Ret u <-> b = true.
Proof. destruct b, u; simpl; naive_solver. Qed.

(** ** Machine integers

    [int] is 32 bits wide and [int64_t] 64 bits on every platform the build
    targets. Signed arithmetic that leaves the range is undefined in C++, so
    the checked operations below report it as a fault. *)

Definition INT_MIN : Z := -2147483648.
Definition INT_MAX : Z := 2147483647.
Definition INT64_MIN : Z := -9223372036854775808.
Definition INT64_MAX : Z := 9223372036854775807.

Definition int32 (z : Z) : bool := (INT_MIN <=? z) && (z <=? INT_MAX).
Definition int64 (z : Z) : bool := (INT64_MIN <=? z) && (z <=? INT64_MAX).

Definition int_checked (z : Z) : outcome Z :=
  if int32 z then Ret z else Fault SignedOverflow.
Definition int_add (a b : Z) : outcome Z := int_checked (a + b).
Definition int_sub (a b : Z) : outcome Z := int_checked (a - b).

(** [static_cast<int>(n)] of a [size_t]: the value modulo 2^32, read as a
    signed number. *)
Definition to_int (z : Z) : Z :=
  let r := z mod 2 ^ 32 in if r <? 2 ^ 31 then r else r - 2 ^ 32.

Lemma int32_spec z : int32 z = true <-> INT_MIN <= z <= INT_MAX.
Proof. unfold int32. rewrite andb_true_iff, !Z.leb_le. lia. Qed.

Lemma int64_spec z : int64 z = true <-> INT64_MIN <= z <= INT64_MAX.
Proof. unfold int64. rewrite andb_true_iff, !Z.leb_le. lia. Qed.

Lemma int_checked_ret z r : int_checked z = Ret r <-> r = z /\ int32 z = true.
Proof. unfold int_checked. destruct (int32 z); naive_solver. Qed.

Lemma int_add_ret a b r : int_add a b = Ret r <-> r = a + b /\ int32 (a + b) = true.
Proof. apply int_checked_ret. Qed.

Lemma int_sub_ret a b r : int_sub a b = Ret r <-> r = a - b /\ int32 (a - b) = true.
Proof. apply int_checked_ret. Qed.

Lemma to_int_small z : 0 <= z <= INT_MAX -> to_int z = z.
Proof.
  unfold INT_MAX, to_int. intros H. rewrite Z.mod_small by lia.
  destruct (Z.ltb_spec z (2 ^ 31)); lia.
Qed.

Lemma to_int_range z : INT_MIN <= to_int z <= INT_MAX.
Proof.
  unfold INT_MIN, INT_MAX, to_int. pose proof (Z.mod_pos_bound z (2 ^ 32)).
  destruct (Z.ltb_spec (z mod 2 ^ 32) (2 ^ 31)); lia.
Qed.

(** ** Vectors

    [v[i]] with an [int] or [size_t] index: anything outside [0, size) is an
    access outside the container. *)

Definition vec_at {A : Type} (v : list A) (i : Z) : outcome A :=
  if i <? 0 then Fault OutOfRange
  else match v !! Z.to_nat i with
       | Some x => Ret x
       | None => Fault OutOfRange
       end.

Definition vec_back {A : Type} (v : list A) : outcome A :=
  match last v with
  | Some x => Ret x
  | None => Fault OutOfRange
  end.

Definition zlength {A : Type} (v : list A) : Z := Z.of_nat (length v).

Lemma vec_at_ret {A : Type} (v : list A) (i : Z) (x : A) :
  vec_at v i = Ret x <-> 0 <= i /\ v !! Z.to_nat i = Some x.
Proof.
  unfold vec_at. destruct (Z.ltb_spec i 0); [naive_solver lia|].
  destruct (v !! Z.to_nat i); naive_solver.
Qed.

Lemma vec_at_in_range {A : Type} (v : list A) (i : Z) :
  0 <= i < zlength v -> exists x, vec_at v i = Ret x /\ v !! Z.to_nat i = Some x.
Proof.
  unfold zlength. intros H.
  destruct (lookup_lt_is_Some_2 v (Z.to_nat i)) as [x Hx]; [lia|].
  exists x. split; [apply vec_at_ret|]; auto with lia.
Qed.

Lemma vec_back_ret {A : Type} (v : list A) (x : A) :
  vec_back v = Ret x <-> last v = Some x.
Proof. unfold vec_back. destruct (last v); naive_solver. Qed.

(** ** Ordered containers

    [std::set] and [std::map] iterate in increasing key order. *)

Definition set_iter (s : gset Z) : list Z := merge_sort Z.le (elements s).

Definition key_le {A : Type} (p q : Z * A) : Prop := p.1 <= q.1.
#[export] Instance key_le_dec {A : Type} (p q : Z * A) : Decision (key_le p q) := Z_le_dec p.1 q.1.

Definition map_iter {A : Type} (m : gmap Z A) : list (Z * A) :=
  merge_sort key_le (map_to_list m).

(** [m[k]] reads a default-constructed value where the key is absent; the
    insertion it makes is written out by [map_touch]. *)
Definition map_at {A : Type} (d : A) (m : gmap Z A) (k : Z) : A := default d (m !! k).
Definition map_touch {A : Type} (d : A) (m : gmap Z A) (k : Z) : gmap Z A :=
  <[k := map_at d m k]> m.

Lemma map_at_insert {A : Type} (d : A) m k v j : map_at d (<[k := v]> m) j = if decide (j = k) then v else map_at d m j.
Proof. unfold map_at. destruct (decide (j = k)) as [->|Ne]; [by rewrite lookup_insert_eq|by rewrite lookup_insert_ne]. Qed.

Lemma map_at_touch {A : Type} (d : A) m k j : map_at d (map_touch d m k) j = map_at d m j.
Proof. unfold map_touch. rewrite map_at_insert. by destruct (decide (j = k)) as [->|]. Qed.

Lemma set_iter_perm s : set_iter s ≡ₚ elements s.
Proof. apply merge_sort_Permutation. Qed.

Lemma elem_of_set_iter x s : x ∈ set_iter s <-> x ∈ s.
Proof. rewrite set_iter_perm. apply elem_of_elements. Qed.

Lemma set_iter_NoDup s : NoDup (set_iter s).
Proof. rewrite set_iter_perm. apply NoDup_elements. Qed.

Lemma set_iter_sorted s : Sorted Z.le (set_iter s).
Proof. apply Sorted_merge_sort. intros x y. lia. Qed.

Lemma map_iter_perm {A : Type} (m : gmap Z A) : map_iter m ≡ₚ map_to_list m.
Proof. apply merge_sort_Permutation. Qed.

Lemma elem_of_map_iter {A : Type} k (x : A) m : (k, x) ∈ map_iter m <-> m !! k = Some x.
Proof. rewrite map_iter_perm. apply elem_of_map_to_list. Qed.

Lemma map_iter_sorted {A : Type} (m : gmap Z A) : Sorted key_le (map_iter m).
Proof. apply Sorted_merge_sort. intros [x a] [y b]. unfold key_le. simpl. lia. Qed.

(** ** Strings

    A [std::string] or a [char] buffer is a list of bytes. *)

Abbreviation bytes := (list Byte.byte).

#[export] Instance byte_eq_dec : EqDecision Byte.byte := Byte.byte_eq_dec.

Definition str (s : string) : bytes := String.list_byte_of_string s.
Arguments str _%_string_scope.

(** Bytes as numbers from 0 to 255. *)
Definition byte_of_Z (z : Z) : Byte.byte :=
  default Byte.x00 (Byte.of_N (Z.to_N (z mod 256))).
Definition Z_of_byte (b : Byte.byte) : Z := Z.of_N (Byte.to_N b).

Lemma Z_of_byte_range b : 0 <= Z_of_byte b < 256.
Proof. unfold Z_of_byte. pose proof (Byte.to_N_bounded b). lia. Qed.

Lemma Z_of_byte_of_Z z : 0 <= z < 256 -> Z_of_byte (byte_of_Z z) = z.
Proof.
  intros H. unfold byte_of_Z, Z_of_byte. rewrite Z.mod_small by lia.
  destruct (Byte.of_N (Z.to_N z)) as [b|] eqn:E; simpl.
  - apply Byte.to_of_N in E. rewrite E. lia.
  - apply Byte.of_N_None_iff in E. lia.
Qed.

Lemma zlength_app {A : Type} (a b : list A) : zlength (a ++ b) = zlength a + zlength b.
Proof. unfold zlength. rewrite length_app. lia. Qed.

Lemma zlength_nonneg {A : Type} (a : list A) : 0 <= zlength a.
Proof. unfold zlength. lia. Qed.

(** ** Automation *)

Create HintDb flowmq.

(** Breaks a hypothesis [e = Ret r] made of [let*] and checked operations
    into the facts that make it so. *)
Ltac inv_ret :=
  repeat match goal with
    | H : obind _ _ = Ret _ |- _ =>
        apply obind_ret in H; destruct H as (? & ? & H)
    | H : assert _ = Ret _ |- _ => apply assert_ret in H
    | H : int_add _ _ = Ret _ |- _ => apply int_add_ret in H; destruct H as [? H]
    | H : int_sub _ _ = Ret _ |- _ => apply int_sub_ret in H; destruct H as [? H]
    | H : vec_at _ _ = Ret _ |- _ => apply vec_at_ret in H; destruct H as [? H]
    | H : vec_back _ = Ret _ |- _ => apply vec_back_ret in H
    | H : Ret _ = Ret _ |- _ => injection H as H
    | H : Fault _ = Ret _ |- _ => discriminate H
    | x : Z, H : ?x = _ |- _ => subst x
    end.

(** Splits on the first [if] or [match] of the goal or of a hypothesis. *)
Ltac split_if :=
  match goal with
  | |- context [if ?b then _ else _] => destruct b eqn:?
  | H : context [if ?b then _ else _] |- _ => destruct b eqn:?
  end.

(** Boolean comparisons to their propositions. *)
Ltac to_prop :=
  repeat match goal with
    | H : (_ && _) = true |- _ => apply andb_true_iff in H; destruct H
    | H : (_ || _) = false |- _ => apply orb_false_iff in H; destruct H
    | H : negb _ = true |- _ => apply negb_true_iff in H
    | H : negb _ = false |- _ => apply negb_false_iff in H
    | H : (_ <? _) = true |- _ => apply Z.ltb_lt in H
    | H : (_ <? _) = false |- _ => apply Z.ltb_ge in H
    | H : (_ <=? _) = true |- _ => apply Z.leb_le in H
    | H : (_ <=? _) = false |- _ => apply Z.leb_gt in H
    | H : (_ =? _) = true |- _ => apply Z.eqb_eq in H
    | H : (_ =? _) = false |- _ => apply Z.eqb_neq in H
    | H : int32 _ = true |- _ => apply int32_spec in H
    | H : int64 _ = true |- _ => apply int64_spec in H
    | H : bool_decide _ = true |- _ => apply bool_decide_eq_true_1 in H
    | H : bool_decide _ = false |- _ => apply bool_decide_eq_false_1 in H
    end.

(** Proves a decidable closed goal by evaluating its decision procedure. *)
Ltac by_eval := apply (bool_decide_unpack _); vm_compute; exact I.
