(* ===== verification/MessageQueue.v ===== *)
(** * The message queue of a partition

    Models [MessageQueue] (src/src/flowmq/message_queue.hpp and
    message_queue.cpp): the persisted state, rebuilt from the log, and the
    transient state that records which consumer holds which message. The
    header of the class says that a message is at any time in exactly one of
    three states; [Spec] states that as an abstract machine, [queue_wf] is the
    representation invariant, and [represents] says what each container holds
    for an abstract queue. *)

From S2P Require Import Prelude.

Local Open Scope Z_scope.

(** ** The class *)

Record MessageQueue := mkMessageQueue {
  message_store_ : gmap Z bytes;
  undelivered_messages_ : gset Z;
  committed_messages_ : gset Z;
  consumer_id_delivered_messages_ : gmap Z (gset Z);
  message_id_to_consumer_ : gmap Z Z
}.

(** [message_queue_()] in the constructor of [ClusterNode]. *)
Definition MessageQueue_new : MessageQueue := mkMessageQueue ∅ ∅ ∅ ∅ ∅.

Definition insert_message (message_id : Z) (message : bytes) (q : MessageQueue) : Z * MessageQueue :=
  match message_store_ q !! message_id with
  | Some _ => (1, q)
  | None =>
      (0, {| message_store_ := <[message_id := message]> (message_store_ q);
             undelivered_messages_ := {[message_id]} ∪ undelivered_messages_ q;
             committed_messages_ := committed_messages_ q;
             consumer_id_delivered_messages_ := consumer_id_delivered_messages_ q;
             message_id_to_consumer_ := message_id_to_consumer_ q |})
  end.

(** The block of [commit_message] that runs when a consumer holds the
    message. *)
Definition release_from_consumer (message_id : Z) (q : MessageQueue) : MessageQueue :=
  match message_id_to_consumer_ q !! message_id with
  | None => q
  | Some consumer_id =>
      let held := map_at ∅ (consumer_id_delivered_messages_ q) consumer_id in
      {| message_store_ := message_store_ q;
         undelivered_messages_ := undelivered_messages_ q;
         committed_messages_ := committed_messages_ q;
         consumer_id_delivered_messages_ :=
           <[consumer_id := held ∖ {[message_id]}]> (consumer_id_delivered_messages_ q);
         message_id_to_consumer_ := delete message_id (message_id_to_consumer_ q) |}
  end.

Definition commit_message (message_id : Z) (q : MessageQueue) : Z * MessageQueue :=
  match message_store_ q !! message_id with
  | None => (1, q)
  | Some _ =>
      let q := release_from_consumer message_id q in
      (0, {| message_store_ := message_store_ q;
             undelivered_messages_ := undelivered_messages_ q ∖ {[message_id]};
             committed_messages_ := {[message_id]} ∪ committed_messages_ q;
             consumer_id_delivered_messages_ := consumer_id_delivered_messages_ q;
             message_id_to_consumer_ := message_id_to_consumer_ q |})
  end.

(** [operator[]] on the store inserts an empty message for an unknown id. *)
Definition get_message (message_id : Z) (q : MessageQueue) : bytes * MessageQueue :=
  (map_at [] (message_store_ q) message_id,
   {| message_store_ := map_touch [] (message_store_ q) message_id;
      undelivered_messages_ := undelivered_messages_ q;
      committed_messages_ := committed_messages_ q;
      consumer_id_delivered_messages_ := consumer_id_delivered_messages_ q;
      message_id_to_consumer_ := message_id_to_consumer_ q |}).

(** Appends to the caller's vector, in the order of the set. *)
Definition get_all_undelivered_messages (message_ids : list Z) (q : MessageQueue) : Z * list Z :=
  (0, message_ids ++ set_iter (undelivered_messages_ q)).

Definition deliver_message_to_client_id (message_id client_id : Z) (q : MessageQueue) : Z * MessageQueue :=
  let held := map_at ∅ (consumer_id_delivered_messages_ q) client_id in
  (0, {| message_store_ := message_store_ q;
         undelivered_messages_ := undelivered_messages_ q ∖ {[message_id]};
         committed_messages_ := committed_messages_ q;
         consumer_id_delivered_messages_ :=
           <[client_id := {[message_id]} ∪ held]> (consumer_id_delivered_messages_ q);
         message_id_to_consumer_ := <[message_id := client_id]> (message_id_to_consumer_ q) |}).

(** One round of the loop of [handle_client_disconnected]. *)
Definition put_back (q : MessageQueue) (msg_id : Z) : MessageQueue :=
  {| message_store_ := message_store_ q;
     undelivered_messages_ := {[msg_id]} ∪ undelivered_messages_ q;
     committed_messages_ := committed_messages_ q;
     consumer_id_delivered_messages_ := consumer_id_delivered_messages_ q;
     message_id_to_consumer_ := delete msg_id (message_id_to_consumer_ q) |}.

Definition handle_client_disconnected (client_id : Z) (q : MessageQueue) : Z * MessageQueue :=
  match consumer_id_delivered_messages_ q !! client_id with
  | None => (1, q)
  | Some held =>
      let q := foldl put_back q (set_iter held) in
      (0, {| message_store_ := message_store_ q;
             undelivered_messages_ := undelivered_messages_ q;
             committed_messages_ := committed_messages_ q;
             consumer_id_delivered_messages_ :=
               delete client_id (consumer_id_delivered_messages_ q);
             message_id_to_consumer_ := message_id_to_consumer_ q |})
  end.

(** ** The abstract queue

    What the class promises: every stored message has one of three states,
    and each call moves messages between them. *)

Module Spec.

Inductive mstate := Undelivered | Delivered (client : Z) | Committed.

Abbreviation queue := (gmap Z (bytes * mstate)).

Definition insert_msg (id : Z) (m : bytes) (s : queue) : Z * queue :=
  match s !! id with Some _ => (1, s) | None => (0, <[id := (m, Undelivered)]> s) end.

Definition commit (id : Z) (s : queue) : Z * queue :=
  match s !! id with
  | None => (1, s)
  | Some (m, _) => (0, <[id := (m, Committed)]> s)
  end.

Definition deliver (id client : Z) (s : queue) : queue :=
  alter (fun p => (p.1, Delivered client)) id s.

Definition requeue (client : Z) (p : bytes * mstate) : bytes * mstate :=
  match p.2 with
  | Delivered c => if c =? client then (p.1, Undelivered) else p
  | _ => p
  end.

Definition disconnect (client : Z) (s : queue) : queue := requeue client <$> s.

End Spec.

(** The state the representation gives a stored message. *)
Definition state_of (q : MessageQueue) (id : Z) : Spec.mstate :=
  if decide (id ∈ committed_messages_ q) then Spec.Committed
  else match message_id_to_consumer_ q !! id with
       | Some c => Spec.Delivered c
       | None => Spec.Undelivered
       end.

Definition abs (q : MessageQueue) : Spec.queue :=
  map_imap (fun id m => Some (m, state_of q id)) (message_store_ q).

(** ** The representation invariant *)

Record queue_wf (q : MessageQueue) : Prop := {
  wf_undelivered : forall id, (id ∈ undelivered_messages_ q) <->
    is_Some (message_store_ q !! id) /\ id ∉ committed_messages_ q /\
    message_id_to_consumer_ q !! id = None;
  wf_committed : forall id, (id ∈ committed_messages_ q) ->
    is_Some (message_store_ q !! id) /\ message_id_to_consumer_ q !! id = None;
  wf_delivered : forall id c, message_id_to_consumer_ q !! id = Some c ->
    is_Some (message_store_ q !! id);
  wf_consumers : forall id c, message_id_to_consumer_ q !! id = Some c <->
    exists held, consumer_id_delivered_messages_ q !! c = Some held /\ id ∈ held
}.

(** ** Calls on the queue

    The calls [ClusterNode] makes. [deliver_message_to_client_id] is only
    called by [trigger_message_delivery], on an id it has just read from the
    set of undelivered messages, and [get_message] likewise. *)

Inductive call :=
  | Insert (id : Z) (m : bytes)
  | Commit (id : Z)
  | Deliver (id client : Z)
  | Disconnect (client : Z)
  | Get (id : Z).

Definition exec (q : MessageQueue) (c : call) : MessageQueue :=
  match c with
  | Insert id m => (insert_message id m q).2
  | Commit id => (commit_message id q).2
  | Deliver id client => (deliver_message_to_client_id id client q).2
  | Disconnect client => (handle_client_disconnected client q).2
  | Get id => (get_message id q).2
  end.

Definition call_ok (q : MessageQueue) (c : call) : Prop :=
  match c with
  | Deliver id _ | Get id => id ∈ undelivered_messages_ q
  | _ => True
  end.

Inductive reachable : MessageQueue -> Prop :=
  | reach_new : reachable MessageQueue_new
  | reach_call q c : reachable q -> call_ok q c -> reachable (exec q c).

Definition spec_exec (s : Spec.queue) (c : call) : Spec.queue :=
  match c with
  | Insert id m => (Spec.insert_msg id m s).2
  | Commit id => (Spec.commit id s).2
  | Deliver id client => Spec.deliver id client s
  | Disconnect client => Spec.disconnect client s
  | Get _ => s
  end.

(** ** Lemmas on the helpers *)

Lemma abs_lookup q id : abs q !! id = (fun m => (m, state_of q id)) <$> message_store_ q !! id.
Proof. unfold abs. rewrite map_lookup_imap. by destruct (message_store_ q !! id). Qed.

Lemma abs_None q id : message_store_ q !! id = None <-> abs q !! id = None.
Proof. rewrite abs_lookup. destruct (message_store_ q !! id); naive_solver. Qed.

Section put_back_loop.
Context (q : MessageQueue) (l : list Z).

Lemma put_back_store : message_store_ (foldl put_back q l) = message_store_ q.
Proof. revert q. induction l as [|x l' IH]; intros q0; simpl; [done|]. by rewrite IH. Qed.

Lemma put_back_committed : committed_messages_ (foldl put_back q l) = committed_messages_ q.
Proof. revert q. induction l as [|x l' IH]; intros q0; simpl; [done|]. by rewrite IH. Qed.

Lemma put_back_consumers :
  consumer_id_delivered_messages_ (foldl put_back q l) = consumer_id_delivered_messages_ q.
Proof. revert q. induction l as [|x l' IH]; intros q0; simpl; [done|]. by rewrite IH. Qed.

Lemma put_back_undelivered id :
  id ∈ undelivered_messages_ (foldl put_back q l) <-> (id ∈ l) \/ id ∈ undelivered_messages_ q.
Proof.
  revert q. induction l as [|x l' IH]; intros q0; simpl; [set_solver|].
  rewrite IH. simpl. set_solver.
Qed.

Lemma put_back_holder id :
  message_id_to_consumer_ (foldl put_back q l) !! id =
  if decide (id ∈ l) then None else message_id_to_consumer_ q !! id.
Proof.
  revert q. induction l as [|x l' IH]; intros q0; simpl.
  { done. }
  rewrite IH. simpl. rewrite lookup_delete.
  repeat case_decide; try done; set_unfold; naive_solver.
Qed.
End put_back_loop.

(** ** The invariant *)

(** Membership facts of the goal, for [set_solver] and [naive_solver]. *)
Ltac queue_sets :=
  repeat match goal with
    | |- context [_ ∈ {[_]} ∪ _] => rewrite elem_of_union, elem_of_singleton
    | |- context [_ ∈ _ ∖ {[_]}] => rewrite elem_of_difference, elem_of_singleton
    | H : context [_ ∈ {[_]} ∪ _] |- _ => rewrite elem_of_union, elem_of_singleton in H
    | H : context [_ ∈ _ ∖ {[_]}] |- _ => rewrite elem_of_difference, elem_of_singleton in H
    end.

Lemma queue_wf_new : queue_wf MessageQueue_new.
Proof. split; simpl; intros; rewrite ?lookup_empty in *; set_solver. Qed.

Lemma not_stored q id :
  queue_wf q -> message_store_ q !! id = None ->
  id ∉ committed_messages_ q /\ message_id_to_consumer_ q !! id = None.
Proof.
  intros [Hu Hc Hd Hk] E. split.
  - intros H. apply Hc in H as [[m Hm] _]. congruence.
  - destruct (message_id_to_consumer_ q !! id) eqn:E'; [|done].
    apply Hd in E' as [m Hm]. congruence.
Qed.

Lemma insert_message_wf id m q : queue_wf q -> queue_wf (insert_message id m q).2.
Proof.
  intros W. unfold insert_message.
  destruct (message_store_ q !! id) eqn:E; [done|].
  destruct (not_stored q id W E) as [Hnc Hnd]. destruct W as [Hu Hc Hd Hk].
  split; simpl.
  - intros i. queue_sets. rewrite Hu. rewrite lookup_insert. case_decide; subst; [|naive_solver].
    split; [intros _|by left]. split; [by eexists|]. done.
  - intros i Hi. apply Hc in Hi. rewrite lookup_insert. case_decide; naive_solver.
  - intros i c Hi. apply Hd in Hi. rewrite lookup_insert. case_decide; naive_solver.
  - done.
Qed.

Lemma release_from_consumer_wf_fields id q :
  queue_wf q ->
  message_store_ (release_from_consumer id q) = message_store_ q /\
  undelivered_messages_ (release_from_consumer id q) = undelivered_messages_ q /\
  committed_messages_ (release_from_consumer id q) = committed_messages_ q /\
  (forall i, message_id_to_consumer_ (release_from_consumer id q) !! i =
     if decide (i = id) then None else message_id_to_consumer_ q !! i) /\
  (forall i c, (exists held, consumer_id_delivered_messages_ (release_from_consumer id q) !! c = Some held /\ i ∈ held)
     <-> i <> id /\ exists held, consumer_id_delivered_messages_ q !! c = Some held /\ i ∈ held).
Proof.
  intros [Hu Hc Hd Hk]. unfold release_from_consumer.
  destruct (message_id_to_consumer_ q !! id) as [c0|] eqn:E; simpl.
  - split_and!; try done.
    + intros i. rewrite lookup_delete. repeat case_decide; congruence.
    + intros i c. apply Hk in E as (h0 & Eh & Hin).
      rewrite lookup_insert. unfold map_at. rewrite Eh. simpl. case_decide; subst.
      * split; [intros (h & [= <-] & Hi); set_solver|].
        intros (Hne & h & Eh' & Hi). simplify_eq. eexists. split; [done|]. set_solver.
      * split; [|naive_solver]. intros (h & Eh' & Hi). split; [|eauto].
        intros ->. assert (message_id_to_consumer_ q !! id = Some c) by (apply Hk; eauto).
        assert (message_id_to_consumer_ q !! id = Some c0) by (apply Hk; eauto). congruence.
  - split_and!; try done.
    + intros i. case_decide; congruence.
    + intros i c. split; [|naive_solver]. intros (h & Eh' & Hi). split; [|eauto].
      intros ->. assert (message_id_to_consumer_ q !! id = Some c) by (apply Hk; eauto). congruence.
Qed.

Lemma commit_message_wf id q : queue_wf q -> queue_wf (commit_message id q).2.
Proof.
  intros W. unfold commit_message.
  destruct (message_store_ q !! id) eqn:E; [|done].
  destruct (release_from_consumer_wf_fields id q W) as (F1 & F2 & F3 & F4 & F5).
  destruct W as [Hu Hc Hd Hk]. split; simpl; rewrite ?F1, ?F2, ?F3.
  - intros i. queue_sets. rewrite F4, Hu. case_decide; naive_solver.
  - intros i. queue_sets. rewrite F4. intros [->|Hi].
    + rewrite decide_True by done. naive_solver.
    + apply Hc in Hi. case_decide; naive_solver.
  - intros i c. rewrite F4. case_decide; [done|apply Hd].
  - intros i c. rewrite F4, F5, <- Hk. case_decide; naive_solver.
Qed.

Lemma deliver_message_wf id c q :
  id ∈ undelivered_messages_ q -> queue_wf q -> queue_wf (deliver_message_to_client_id id c q).2.
Proof.
  intros Hin [Hu Hc Hd Hk]. unfold deliver_message_to_client_id.
  apply Hu in Hin as (Hs & Hnc & Hnd). split; simpl.
  - intros i. queue_sets. rewrite Hu, lookup_insert. case_decide; naive_solver.
  - intros i Hi. rewrite lookup_insert. pose proof (Hc _ Hi). case_decide; naive_solver.
  - intros i c'. rewrite lookup_insert. case_decide; [naive_solver|apply Hd].
  - intros i c'. rewrite !lookup_insert. unfold map_at.
    destruct (decide (c = c')) as [<-|]; destruct (decide (id = i)) as [<-|].
    + split; [intros _|done]. eexists. split; [done|]. set_solver.
    + rewrite Hk. split.
      * intros (h & -> & Hi). eexists. split; [done|]. simpl. set_solver.
      * intros (h & [= <-] & Hi). destruct (consumer_id_delivered_messages_ q !! c); set_solver.
    + split; [naive_solver|]. intros Hx. apply Hk in Hx. congruence.
    + apply Hk.
Qed.

Lemma handle_client_disconnected_wf c q :
  queue_wf q -> queue_wf (handle_client_disconnected c q).2.
Proof.
  intros [Hu Hc Hd Hk]. unfold handle_client_disconnected.
  destruct (consumer_id_delivered_messages_ q !! c) as [held|] eqn:E; [|by split].
  assert (Hheld : forall i, (i ∈ held) <-> message_id_to_consumer_ q !! i = Some c).
  { intros i. rewrite Hk. split; [eauto|]. intros (h & ? & ?). by simplify_eq. }
  split; simpl; rewrite ?put_back_store, ?put_back_committed, ?put_back_consumers.
  - intros i. rewrite put_back_undelivered, put_back_holder, Hu.
    case_decide as D; [|naive_solver]. apply elem_of_set_iter, Hheld in D.
    split; [intros _|rewrite elem_of_set_iter; naive_solver].
    split; [eauto|]. split; [|done]. intros Hi. apply Hc in Hi. naive_solver.
  - intros i Hi. rewrite put_back_holder. pose proof (Hc _ Hi). case_decide; naive_solver.
  - intros i c'. rewrite put_back_holder. case_decide; [done|apply Hd].
  - intros i c'. rewrite put_back_holder, lookup_delete.
    case_decide as D; rewrite elem_of_set_iter, Hheld in D.
    + split; [done|]. intros (h & Eh & Hi). case_decide; [done|].
      assert (message_id_to_consumer_ q !! i = Some c') by (apply Hk; eauto). congruence.
    + rewrite Hk. case_decide; subst; [|done].
      split; [|naive_solver]. intros Hx. apply Hk in Hx. congruence.
Qed.

Lemma get_message_wf id q :
  id ∈ undelivered_messages_ q -> queue_wf q -> (get_message id q).2 = q.
Proof.
  intros Hin [Hu Hc Hd Hk]. apply Hu in Hin as ([m Hm] & _).
  destruct q as [st u cm k h]; simpl in *. unfold get_message, map_touch, map_at. simpl.
  rewrite Hm. simpl. by rewrite insert_id.
Qed.

#[export] Hint Resolve queue_wf_new insert_message_wf commit_message_wf deliver_message_wf
  handle_client_disconnected_wf : flowmq.

Lemma exec_wf q c : call_ok q c -> queue_wf q -> queue_wf (exec q c).
Proof.
  intros Hok W. destruct c; unfold exec; [auto with flowmq..|].
  by rewrite get_message_wf.
Qed.

Lemma reachable_wf q : reachable q -> queue_wf q.
Proof. induction 1; eauto using exec_wf with flowmq. Qed.

(** ** Refinement *)

Lemma insert_message_refines id m q :
  queue_wf q ->
  abs (insert_message id m q).2 = (Spec.insert_msg id m (abs q)).2 /\
  (insert_message id m q).1 = (Spec.insert_msg id m (abs q)).1.
Proof.
  intros W. unfold insert_message, Spec.insert_msg. rewrite abs_lookup.
  destruct (message_store_ q !! id) eqn:E; simpl; [done|]. split; [|done].
  apply map_eq. intros i. rewrite abs_lookup. simpl. rewrite !lookup_insert, abs_lookup.
  case_decide as D; [subst i; simpl|done]. unfold state_of. simpl.
  destruct (not_stored q id W E) as [Hnc Hnd]. by rewrite decide_False, Hnd.
Qed.

Lemma commit_message_refines id q :
  queue_wf q ->
  abs (commit_message id q).2 = (Spec.commit id (abs q)).2 /\
  (commit_message id q).1 = (Spec.commit id (abs q)).1.
Proof.
  intros W. unfold commit_message, Spec.commit. rewrite abs_lookup.
  destruct (message_store_ q !! id) eqn:E; simpl; [|done]. split; [|done].
  destruct (release_from_consumer_wf_fields id q W) as (F1 & F2 & F3 & F4 & _).
  apply map_eq. intros i. rewrite abs_lookup. simpl. rewrite F1, lookup_insert, abs_lookup.
  unfold state_of. simpl. rewrite F3, F4.
  destruct (decide (i = id)) as [->|Hne].
  - rewrite E, decide_True by set_solver. simpl. by rewrite decide_True.
  - rewrite (decide_False (P := id = i)) by done.
    destruct (message_store_ q !! i); [|done]. simpl. do 2 f_equal.
    destruct (decide (i ∈ committed_messages_ q)).
    + by rewrite decide_True by set_solver.
    + by rewrite decide_False by set_solver.
Qed.

Lemma deliver_message_refines id c q :
  id ∈ undelivered_messages_ q -> queue_wf q ->
  abs (deliver_message_to_client_id id c q).2 = Spec.deliver id c (abs q).
Proof.
  intros Hin W. unfold Spec.deliver.
  apply (wf_undelivered q W) in Hin as (_ & Hnc & _).
  apply map_eq. intros i. rewrite abs_lookup, lookup_alter, !abs_lookup. simpl.
  unfold state_of. simpl. rewrite lookup_insert.
  destruct (decide (id = i)) as [<-|]; [|done].
  rewrite decide_False by done. by destruct (message_store_ q !! id).
Qed.

Lemma handle_client_disconnected_refines c q :
  queue_wf q -> abs (handle_client_disconnected c q).2 = Spec.disconnect c (abs q).
Proof.
  intros W. apply map_eq. intros i. unfold Spec.disconnect. rewrite lookup_fmap.
  unfold handle_client_disconnected.
  destruct (consumer_id_delivered_messages_ q !! c) as [held|] eqn:E; simpl; rewrite !abs_lookup.
  - simpl. rewrite put_back_store. destruct (message_store_ q !! i); [|done]. simpl. f_equal.
    unfold state_of, Spec.requeue. simpl. rewrite put_back_committed, put_back_holder.
    destruct (decide (i ∈ committed_messages_ q)); [done|].
    assert (Hheld : (i ∈ set_iter held) <-> message_id_to_consumer_ q !! i = Some c).
    { rewrite elem_of_set_iter, (wf_consumers q W). naive_solver. }
    case_decide as D; rewrite Hheld in D.
    + rewrite D. simpl. by rewrite Z.eqb_refl.
    + destruct (message_id_to_consumer_ q !! i) as [c'|]; [|done]. simpl.
      destruct (Z.eqb_spec c' c); congruence.
  - destruct (message_store_ q !! i); [|done]. simpl. f_equal. unfold state_of, Spec.requeue.
    destruct (decide (i ∈ committed_messages_ q)); [done|].
    destruct (message_id_to_consumer_ q !! i) as [c'|] eqn:E'; [|done]. simpl.
    destruct (Z.eqb_spec c' c); [subst|done].
    apply (wf_consumers q W) in E'. naive_solver.
Qed.

Lemma exec_refines q c : call_ok q c -> queue_wf q -> abs (exec q c) = spec_exec (abs q) c.
Proof.
  intros Hok W. destruct c; unfold exec, spec_exec.
  - by apply insert_message_refines.
  - by apply commit_message_refines.
  - by apply deliver_message_refines.
  - by apply handle_client_disconnected_refines.
  - by rewrite get_message_wf.
Qed.

(** Each of the five containers, as the abstract queue determines it; a consumer
    that holds nothing may or may not have an empty set. *)
Record represents (q : MessageQueue) (s : Spec.queue) : Prop := {
  rep_store : message_store_ q = fst <$> s;
  rep_undelivered id : id ∈ undelivered_messages_ q <-> exists m, s !! id = Some (m, Spec.Undelivered);
  rep_committed id : id ∈ committed_messages_ q <-> exists m, s !! id = Some (m, Spec.Committed);
  rep_consumer id c : message_id_to_consumer_ q !! id = Some c <-> exists m, s !! id = Some (m, Spec.Delivered c);
  rep_held id c : id ∈ map_at ∅ (consumer_id_delivered_messages_ q) c <-> exists m, s !! id = Some (m, Spec.Delivered c)
}.

Lemma abs_state q id st : (exists m, abs q !! id = Some (m, st)) <-> is_Some (message_store_ q !! id) /\ state_of q id = st.
Proof.
  rewrite abs_lookup. destruct (message_store_ q !! id) as [m|]; cbn; [|by split; intros []].
  split; [intros [? [= <- <-]]; eauto|]. intros [_ <-]. eauto.
Qed.

(** The invariant makes the containers represent the abstract queue. *)
Lemma wf_represents q : queue_wf q -> represents q (abs q).
Proof.
  intros [Hu Hc Hd Hk]. assert (Hold : forall id c, message_id_to_consumer_ q !! id = Some c <-> exists m, abs q !! id = Some (m, Spec.Delivered c)).
  { intros id c. rewrite abs_state. unfold state_of. split.
    - intros E. split; [by eapply Hd|]. rewrite decide_False, E; [done|]. intros [_ N]%Hc. congruence.
    - intros [_ E]. repeat case_match; congruence. }
  split; [| | |done|].
  - apply map_eq. intros id. rewrite lookup_fmap, abs_lookup. by destruct (message_store_ q !! id).
  - intros id. rewrite Hu, abs_state. unfold state_of. repeat case_match; naive_solver.
  - intros id. rewrite abs_state. unfold state_of. split.
    + intros E. pose proof (Hc _ E) as [S _]. by rewrite decide_True.
    + intros [_ E]. repeat case_match; congruence.
  - intros id c. rewrite <- Hold, Hk. unfold map_at. destruct (consumer_id_delivered_messages_ q !! c) as [held|]; cbn; [naive_solver|].
    split; [by intros ?%elem_of_empty|naive_solver].
Qed.

(** A run of calls, each made as the callers make it. *)
Fixpoint calls_ok (q : MessageQueue) (cs : list call) : Prop :=
  match cs with
  | [] => True
  | c :: cs => call_ok q c /\ calls_ok (exec q c) cs
  end.

#[export] Instance call_ok_dec q c : Decision (call_ok q c).
Proof. destruct c; simpl; apply _. Defined.

#[export] Instance calls_ok_dec q cs : Decision (calls_ok q cs).
Proof. revert q. induction cs; intros q; simpl; apply _. Defined.

Lemma calls_reachable q cs : reachable q -> calls_ok q cs -> reachable (foldl exec q cs).
Proof.
  revert q. induction cs as [|c cs IH]; intros q R; simpl; [done|].
  intros [Hok Hcs]. apply IH; [by constructor|done].
Qed.

Lemma new_calls_reachable cs :
  calls_ok MessageQueue_new cs -> reachable (foldl exec MessageQueue_new cs).
Proof. apply calls_reachable. constructor. Qed.

(** The part of the state the log determines. *)
Definition persisted (q : MessageQueue) : gmap Z bytes * gset Z :=
  (message_store_ q, committed_messages_ q).

(** The calls [commit_log_entry] makes. *)
Definition from_log (c : call) : bool :=
  match c with Insert _ _ | Commit _ => true | _ => false end.

Lemma persisted_local q c : call_ok q c -> queue_wf q -> from_log c = false -> persisted (exec q c) = persisted q.
Proof.
  intros Hok W. unfold persisted.
  destruct c; intros Hf; try discriminate Hf; simpl in Hok; unfold exec.
  - done.
  - unfold handle_client_disconnected.
    destruct (consumer_id_delivered_messages_ q !! client); [|done]. simpl.
    by rewrite put_back_store, put_back_committed.
  - by rewrite get_message_wf.
Qed.

Lemma persisted_from_log q q' c :
  from_log c = true -> persisted q = persisted q' -> persisted (exec q c) = persisted (exec q' c).
Proof.
  unfold persisted. intros Hf [= E1 E2]. destruct c; try discriminate Hf; simpl.
  - unfold insert_message. rewrite <- E1.
    destruct (message_store_ q !! id); simpl; by rewrite ?E1, ?E2.
  - unfold commit_message, release_from_consumer. rewrite <- E1.
    destruct (message_store_ q !! id); simpl; [|by rewrite E1, E2].
    destruct (message_id_to_consumer_ q !! id), (message_id_to_consumer_ q' !! id);
      simpl; by rewrite ?E1, ?E2.
Qed.

Lemma committed_mono q c id :
  id ∈ committed_messages_ q -> id ∈ committed_messages_ (exec q c).
Proof.
  intros H. destruct c; simpl; try done.
  - unfold insert_message. by destruct (message_store_ q !! _).
  - unfold commit_message, release_from_consumer.
    destruct (message_store_ q !! _); [|done]. simpl.
    destruct (message_id_to_consumer_ q !! _); set_solver.
  - unfold handle_client_disconnected.
    destruct (consumer_id_delivered_messages_ q !! _); [|done]. simpl.
    by rewrite put_back_committed.
Qed.

(** ** Properties *)

(** A run used by the witnesses: two messages arrive, one is delivered to
    consumer 40 and one to consumer 41, one is committed, a consumer leaves. *)
Definition demo_calls : list call :=
  [Insert 7 (str "seven"); Insert 3 (str "three"); Insert 9 (str "nine");
   Get 3; Deliver 3 40; Deliver 7 41; Commit 7; Disconnect 41].

Lemma calls_refine cs q : queue_wf q -> calls_ok q cs -> queue_wf (foldl exec q cs) /\ abs (foldl exec q cs) = foldl spec_exec (abs q) cs.
Proof.
  revert q. induction cs as [|c cs IH]; intros q W; cbn [foldl]; [done|]. intros [Hok Hcs].
  rewrite <- exec_refines by done. by apply IH; [apply exec_wf|].
Qed.

(** C18: after any sequence of calls made as [ClusterNode] makes them, each of the
    five containers of [MessageQueue] holds exactly what the abstract queue
    gives, in which every message is undelivered, delivered to one consumer, or
    committed: the store has its messages, the two sets its undelivered and its
    committed ids, and the two maps its deliveries, by message and by consumer;
    and inserting and committing report what the abstract operations report. *)
Theorem message_queue_refines (cs : list call) :
  calls_ok MessageQueue_new cs ->
  let q := foldl exec MessageQueue_new cs in
  let s := foldl spec_exec ∅ cs in
  represents q s /\
  (forall id m, (insert_message id m q).1 = (Spec.insert_msg id m s).1) /\
  (forall id, (commit_message id q).1 = (Spec.commit id s).1).
Proof.
  intros Ok q s. destruct (calls_refine cs MessageQueue_new queue_wf_new Ok) as [W E].
  assert (Es : s = abs q) by (symmetry; exact E). rewrite Es. split_and!.
  - by apply wf_represents.
  - intros id m. by apply insert_message_refines.
  - intros id. by apply commit_message_refines.
Qed.

(** The message that a consumer held when it left is undelivered again. *)
Lemma message_queue_refines_witness :
  foldl spec_exec ∅ (demo_calls ++ [Disconnect 40]) =
    {[3 := (str "three", Spec.Undelivered); 7 := (str "seven", Spec.Committed); 9 := (str "nine", Spec.Undelivered)]} /\
  3 ∈ undelivered_messages_ (foldl exec MessageQueue_new (demo_calls ++ [Disconnect 40])).
Proof.
  split; [vm_compute; reflexivity|].
  apply (rep_undelivered _ _ (proj1 (message_queue_refines (demo_calls ++ [Disconnect 40]) ltac:(by_eval)))).
  eexists. vm_compute. reflexivity.
Defined.

(** In every reachable queue a stored message is in exactly one of the
    three states: in the undelivered set, held by a consumer (whose own set
    lists it), or in the committed set; ids that are not stored are in none. *)
Theorem message_in_one_state (q : MessageQueue) (id : Z) :
  reachable q ->
  let U := id ∈ undelivered_messages_ q in
  let D := exists c held, message_id_to_consumer_ q !! id = Some c /\
             consumer_id_delivered_messages_ q !! c = Some held /\ id ∈ held in
  let C := id ∈ committed_messages_ q in
  (is_Some (message_store_ q !! id) <-> (U \/ D \/ C)) /\
  ~ (U /\ D) /\ ~ (U /\ C) /\ ~ (D /\ C).
Proof.
  intros R U D C. pose proof (reachable_wf q R) as [Hu Hc Hd Hk]. subst U D C.
  assert (HD : (exists c held, message_id_to_consumer_ q !! id = Some c /\
             consumer_id_delivered_messages_ q !! c = Some held /\ id ∈ held) <->
             is_Some (message_id_to_consumer_ q !! id)).
  { split; [naive_solver|]. intros [c Hc']. pose proof Hc' as Hx. apply Hk in Hx. naive_solver. }
  rewrite HD, Hu. split_and!.
  - split; [|naive_solver]. intros Hs.
    destruct (decide (id ∈ committed_messages_ q)); [auto|].
    destruct (message_id_to_consumer_ q !! id) eqn:E; eauto 10.
  - intros [(_ & _ & ->) [? ?]]. done.
  - naive_solver.
  - intros [[c Hx] H]. apply Hc in H. naive_solver.
Qed.

Lemma message_in_one_state_witness :
  let q := foldl exec MessageQueue_new demo_calls in
  (3 ∉ undelivered_messages_ q) /\ (3 ∉ committed_messages_ q).
Proof.
  intros q.
  destruct (message_in_one_state q 3) as (_ & HUD & _ & HDC).
  { apply new_calls_reachable. by_eval. }
  assert (HD : exists c held, message_id_to_consumer_ q !! 3 = Some c /\
      consumer_id_delivered_messages_ q !! c = Some held /\ 3 ∈ held).
  { exists 40, {[3]}. split_and!; [vm_compute; reflexivity..|by_eval]. }
  split; intros H; [apply HUD|apply HDC]; split; assumption.
Defined.

(** The persisted part of the queue, the stored messages and the committed
    ids, is a function of the log operations alone: deliveries, disconnections
    and reads interleaved with them in any way leave it unchanged. *)
Theorem persisted_state_from_log (cs : list call) (q : MessageQueue) :
  reachable q -> calls_ok q cs ->
  persisted (foldl exec q cs) = persisted (foldl exec q (List.filter from_log cs)).
Proof.
  intros R. assert (G : forall q', persisted q = persisted q' -> calls_ok q cs ->
    persisted (foldl exec q cs) = persisted (foldl exec q' (List.filter from_log cs))); [|by auto].
  revert q R. induction cs as [|c cs IH]; intros q R q' E; simpl; [done|]. intros [Hok Hcs].
  destruct (from_log c) eqn:F; simpl; apply IH; try done; try by constructor.
  - by apply persisted_from_log.
  - by rewrite persisted_local by auto using reachable_wf.
Qed.

Lemma persisted_state_from_log_witness :
  persisted (foldl exec MessageQueue_new demo_calls) =
  persisted (foldl exec MessageQueue_new
    [Insert 7 (str "seven"); Insert 3 (str "three"); Insert 9 (str "nine"); Commit 7]).
Proof. apply (persisted_state_from_log demo_calls); [constructor|by_eval]. Defined.

(** When a consumer disconnects, exactly the messages it held go back to
    the undelivered state, and the next [get_all_undelivered_messages] returns
    them, each once and in increasing order; what other consumers hold and
    what is committed stays as it is. *)
Theorem disconnect_redelivers (q : MessageQueue) (client : Z) :
  reachable q ->
  let q' := (handle_client_disconnected client q).2 in
  let ids := (get_all_undelivered_messages [] q').2 in
  (forall id, (id ∈ ids) <->
     (id ∈ undelivered_messages_ q) \/ message_id_to_consumer_ q !! id = Some client) /\
  Sorted Z.le ids /\ NoDup ids /\
  (forall id c, message_id_to_consumer_ q' !! id = Some c <->
     message_id_to_consumer_ q !! id = Some c /\ c <> client) /\
  persisted q' = persisted q.
Proof.
  intros R q' ids. pose proof (reachable_wf q R) as W.
  split_and!; [|apply set_iter_sorted|apply set_iter_NoDup| |];
    subst q' ids; unfold get_all_undelivered_messages, handle_client_disconnected; simpl.
  - intros id. rewrite elem_of_set_iter.
    destruct (consumer_id_delivered_messages_ q !! client) as [held|] eqn:E; simpl.
    + rewrite put_back_undelivered, elem_of_set_iter, (wf_consumers q W). naive_solver.
    + rewrite (wf_consumers q W). naive_solver.
  - intros id c. destruct (consumer_id_delivered_messages_ q !! client) as [held|] eqn:E; simpl.
    + rewrite put_back_holder. case_decide as D; rewrite elem_of_set_iter in D.
      * assert (message_id_to_consumer_ q !! id = Some client) by (apply (wf_consumers q W); eauto).
        naive_solver.
      * rewrite (wf_consumers q W). naive_solver.
    + rewrite (wf_consumers q W). naive_solver.
  - apply (persisted_local q (Disconnect client)); done.
Qed.

Lemma disconnect_redelivers_witness :
  let q := foldl exec MessageQueue_new (take 7 demo_calls) in
  3 ∈ (get_all_undelivered_messages [] (handle_client_disconnected 40 q).2).2.
Proof.
  intros q. destruct (disconnect_redelivers q 40) as [H _].
  - apply new_calls_reachable. by_eval.
  - apply H. right. vm_compute. reflexivity.
Defined.

(** C19: a committed message is never delivered again: whatever calls follow,
    it stays committed and is never listed as undelivered. *)
Theorem committed_never_redelivered (q : MessageQueue) (cs : list call) (id : Z) :
  reachable q -> calls_ok q cs -> id ∈ committed_messages_ q ->
  let q' := foldl exec q cs in
  (id ∈ committed_messages_ q') /\ (id ∉ (get_all_undelivered_messages [] q').2).
Proof.
  intros R Hcs Hin q'.
  assert (Hin' : id ∈ committed_messages_ q').
  { subst q'. clear R Hcs. revert q Hin. induction cs as [|c cs IH]; simpl; auto using committed_mono. }
  split; [done|]. unfold get_all_undelivered_messages. simpl. rewrite elem_of_set_iter.
  rewrite (wf_undelivered q') by (by apply reachable_wf, calls_reachable). naive_solver.
Qed.

Lemma committed_never_redelivered_witness :
  let q := foldl exec MessageQueue_new (take 7 demo_calls) in
  7 ∉ (get_all_undelivered_messages [] (foldl exec q [Insert 7 (str "again"); Disconnect 41])).2.
Proof.
  intros q. apply committed_never_redelivered.
  - apply new_calls_reachable. by_eval.
  - by_eval.
  - by_eval.
Defined.
