(* ===== verification/WireFormat.v ===== *)
(** * The protobuf runtime

    The classes in flow_message.pb.cc are generated code over the protobuf
    library, which is not part of the repository. The entry points of that
    library the generated code and its callers use are the operations of the
    class [ProtobufRuntime]; what its documentation promises of them (the wire
    format of each field, the tag of a field, the size functions) is the class
    [ProtobufLaws]. [VarintRuntime] is a concrete runtime, written from the
    documented encoding, that satisfies the laws and lets closed examples be
    evaluated. *)

From S2P Require Import Prelude.

Local Open Scope Z_scope.

(** A message that is being parsed: whether the last read succeeded, the value
    so far, and the rest of the input. *)
Definition parsed (A : Type) : Type := bool * A * bytes.

Definition INT_MAX_LENGTH (b : bytes) : Prop := zlength b <= INT_MAX.

Class ProtobufRuntime := {
  (** [WireFormatLite::WriteXToArray(number, value, target)]: what is written. *)
  WriteInt32ToArray : Z -> Z -> bytes;
  WriteInt64ToArray : Z -> Z -> bytes;
  WriteEnumToArray : Z -> Z -> bytes;
  WriteStringToArray : Z -> bytes -> bytes;
  InternalWriteMessageToArray : Z -> bytes -> bytes;
  (** [WireFormatLite::XSize(value)]: the size without the tag. *)
  Int32Size : Z -> Z;
  Int64Size : Z -> Z;
  EnumSize : Z -> Z;
  StringSize : bytes -> Z;
  MessageSize : Z -> Z;
  (** [CodedInputStream::ReadTagWithCutoffNoLastTag] and the reads of one field,
      which get the value the field holds before. *)
  ReadTagWithCutoffNoLastTag : Z -> bytes -> Z * bool * bytes;
  GetTagFieldNumber : Z -> Z;
  ReadInt32 : Z -> bytes -> parsed Z;
  ReadInt64 : Z -> bytes -> parsed Z;
  ReadEnum : bytes -> parsed Z;
  ReadString : bytes -> bytes -> parsed bytes;
  ReadMessage : forall {M : Type}, (M -> bytes -> parsed M) -> M -> bytes -> parsed M;
  (** Unknown fields are kept in their wire form. *)
  SkipField : Z -> bytes -> parsed bytes;
  AddVarint : Z -> Z -> bytes;
  (** [MessageLite], over the generated methods of a message class. *)
  ParseFromArray : forall {M : Type},
    (M -> M) -> (M -> bytes -> parsed M) -> (M -> bool) -> M -> bytes -> bool * M;
  SerializeToArray : forall {M : Type}, (M -> Z) -> (M -> bytes) -> M -> Z -> bool * bytes;
  SerializeAsString : forall {M : Type}, (M -> Z) -> (M -> bytes) -> M -> bytes
}.

(** The documented tag of a field: its number, shifted, and the wire type. *)
Definition make_tag (number wire_type : Z) : Z := number * 8 + wire_type.

(** Field numbers 1 to 15 have a tag of one byte; every field of
    flow_message.proto is one of them. *)
Definition short_field (number : Z) : Prop := 1 <= number <= 15.

(** The written field [w] reads back: the tag first, then [read] gives [v]. *)
Definition field_reads `{ProtobufRuntime} {A : Type} (tag : Z) (w : bytes)
    (read : bytes -> parsed A) (v : A) : Prop :=
  forall rest, exists s,
    ReadTagWithCutoffNoLastTag 127 (w ++ rest) = (tag, true, s) /\
    read s = (true, v, rest).

Class ProtobufLaws `(RT : ProtobufRuntime) : Prop := {
  int32_reads number v old : short_field number -> int32 v = true ->
    field_reads (make_tag number 0) (WriteInt32ToArray number v) (ReadInt32 old) v;
  int64_reads number v old : short_field number -> int64 v = true ->
    field_reads (make_tag number 0) (WriteInt64ToArray number v) (ReadInt64 old) v;
  enum_reads number v : short_field number -> int32 v = true ->
    field_reads (make_tag number 0) (WriteEnumToArray number v) ReadEnum v;
  string_reads number v old : short_field number -> INT_MAX_LENGTH v ->
    field_reads (make_tag number 2) (WriteStringToArray number v) (ReadString old) v;
  message_reads {M : Type} number (merge : M -> bytes -> parsed M) (m m' : M) p :
    short_field number -> INT_MAX_LENGTH p -> merge m p = (true, m', []) ->
    field_reads (make_tag number 2) (InternalWriteMessageToArray number p) (ReadMessage merge m) m';
  int32_size number v : short_field number -> int32 v = true ->
    zlength (WriteInt32ToArray number v) = 1 + Int32Size v;
  int64_size number v : short_field number -> int64 v = true ->
    zlength (WriteInt64ToArray number v) = 1 + Int64Size v;
  enum_size number v : short_field number -> int32 v = true ->
    zlength (WriteEnumToArray number v) = 1 + EnumSize v;
  string_size number v : short_field number -> INT_MAX_LENGTH v ->
    zlength (WriteStringToArray number v) = 1 + StringSize v;
  message_size number p : short_field number -> INT_MAX_LENGTH p ->
    zlength (InternalWriteMessageToArray number p) = 1 + MessageSize (zlength p);
  sizes_nonneg : (forall v, 0 <= Int32Size v) /\ (forall v, 0 <= Int64Size v) /\
    (forall v, 0 <= EnumSize v) /\ (forall v, zlength v <= StringSize v) /\
    (forall n, 0 <= n -> n <= MessageSize n);
  sizes_bounded : (forall v, Int32Size v <= 10) /\ (forall v, Int64Size v <= 10) /\
    (forall v, EnumSize v <= 10) /\ (forall v, StringSize v <= 10 + zlength v) /\
    (forall n, MessageSize n <= 10 + n);
  end_of_input cutoff : exists b, ReadTagWithCutoffNoLastTag cutoff [] = (0, b, []) ;
  tag_field_number number wire_type : short_field number -> 0 <= wire_type < 8 ->
    GetTagFieldNumber (make_tag number wire_type) = number;
  tag_zero : GetTagFieldNumber 0 = 0;
  parse_from_array {M : Type} (clear : M -> M) merge is_init (m m' : M) b :
    merge (clear m) b = (true, m', []) -> is_init m' = true ->
    ParseFromArray clear merge is_init m b = (true, m');
  serialize_to_array {M : Type} (size : M -> Z) (ser : M -> bytes) (m : M) n :
    zlength (ser m) = size m -> size m <= n <= INT_MAX ->
    SerializeToArray size ser m n = (true, ser m);
  serialize_as_string {M : Type} (size : M -> Z) (ser : M -> bytes) (m : M) :
    zlength (ser m) = size m -> size m <= INT_MAX ->
    SerializeAsString size ser m = ser m
}.

(** ** A concrete runtime *)

(** Base-128 varints, at most ten bytes. *)
Fixpoint varint_encode (fuel : nat) (z : Z) : bytes :=
  match fuel with
  | O => []
  | S fuel =>
      if z <? 128 then [byte_of_Z z]
      else byte_of_Z (z mod 128 + 128) :: varint_encode fuel (z / 128)
  end.

Fixpoint varint_decode (fuel : nat) (b : bytes) : option (Z * bytes) :=
  match fuel, b with
  | S fuel, x :: b =>
      let v := Z_of_byte x in
      if v <? 128 then Some (v, b)
      else match varint_decode fuel b with
           | Some (hi, rest) => Some (v - 128 + 128 * hi, rest)
           | None => None
           end
  | _, _ => None
  end.

Definition encode_varint (z : Z) : bytes := varint_encode 10 z.
Definition decode_varint (b : bytes) : option (Z * bytes) := varint_decode 10 b.

Definition to_unsigned (w z : Z) : Z := z mod 2 ^ w.
Definition to_signed (w z : Z) : Z :=
  let r := z mod 2 ^ w in if r <? 2 ^ (w - 1) then r else r - 2 ^ w.

Lemma varint_encode_S fuel z :
  varint_encode (S fuel) z =
  if z <? 128 then [byte_of_Z z]
  else byte_of_Z (z mod 128 + 128) :: varint_encode fuel (z / 128).
Proof. reflexivity. Qed.

Lemma varint_decode_S fuel x b :
  varint_decode (S fuel) (x :: b) =
  let v := Z_of_byte x in
  if v <? 128 then Some (v, b)
  else match varint_decode fuel b with
       | Some (hi, rest) => Some (v - 128 + 128 * hi, rest)
       | None => None
       end.
Proof. reflexivity. Qed.

Lemma varint_decode_encode fuel z rest :
  0 <= z < 128 ^ Z.of_nat (S fuel) ->
  varint_decode (S fuel) (varint_encode (S fuel) z ++ rest) = Some (z, rest).
Proof.
  revert z. induction fuel as [|fuel IH]; intros z Hz; rewrite varint_encode_S.
  - rewrite (proj2 (Z.ltb_lt z 128)) by lia. simpl. rewrite Z_of_byte_of_Z by lia.
    by rewrite (proj2 (Z.ltb_lt z 128)) by lia.
  - pose proof (Z.mod_pos_bound z 128). pose proof (Z.div_mod z 128).
    destruct (Z.ltb_spec z 128) as [Hlt|Hge].
    + simpl. rewrite Z_of_byte_of_Z by lia. by rewrite (proj2 (Z.ltb_lt z 128)).
    + rewrite <- app_comm_cons, varint_decode_S. cbv zeta. rewrite Z_of_byte_of_Z by lia.
      rewrite (proj2 (Z.ltb_ge _ _)) by lia.
      rewrite IH; [do 2 f_equal; lia|].
      rewrite Nat2Z.inj_succ, Z.pow_succ_r in Hz by lia.
      split; [apply Z.div_pos; lia|]. apply Z.div_lt_upper_bound; lia.
Qed.

Lemma varint_length_pos fuel z : (0 < fuel)%nat -> (1 <= length (varint_encode fuel z))%nat.
Proof. destruct fuel; [lia|]. simpl. destruct (z <? 128); simpl; lia. Qed.

Lemma varint_length_fuel fuel z : (length (varint_encode fuel z) <= fuel)%nat.
Proof. revert z. induction fuel as [|fuel IH]; intros z; simpl; [lia|]. destruct (z <? 128); simpl; [lia|]. specialize (IH (z / 128)). lia. Qed.

Lemma encode_varint_length z : zlength (encode_varint z) <= 10.
Proof. pose proof (varint_length_fuel 10 z). unfold zlength, encode_varint. lia. Qed.

Lemma decode_encode_varint z rest :
  0 <= z < 2 ^ 64 -> decode_varint (encode_varint z ++ rest) = Some (z, rest).
Proof. intros H. apply varint_decode_encode. lia. Qed.

Lemma signed_of_unsigned w z :
  0 < w -> - 2 ^ (w - 1) <= z < 2 ^ (w - 1) -> to_signed w (to_unsigned w z) = z.
Proof.
  intros Hw Hz. unfold to_signed, to_unsigned.
  assert (E : 2 ^ w = 2 * 2 ^ (w - 1)) by (rewrite <- Z.pow_succ_r by lia; f_equal; lia).
  rewrite Z.mod_mod by lia. destruct (Z_lt_le_dec z 0).
  - replace (z mod 2 ^ w) with (z + 2 ^ w)
      by (rewrite <- (Z.mod_small (z + 2 ^ w) (2 ^ w)), <- (Z.mod_add z 1) by lia; f_equal; lia).
    rewrite (proj2 (Z.ltb_ge _ _)); lia.
  - rewrite Z.mod_small by lia. rewrite (proj2 (Z.ltb_lt _ _)); lia.
Qed.

(** Fields: a tag, then a varint or a length and that many bytes. *)
Definition write_varint_field (number z : Z) : bytes :=
  encode_varint (make_tag number 0) ++ encode_varint (to_unsigned 64 z).
Definition write_len_field (number : Z) (p : bytes) : bytes :=
  encode_varint (make_tag number 2) ++ encode_varint (zlength p) ++ p.

Definition read_tag (cutoff : Z) (b : bytes) : Z * bool * bytes :=
  match decode_varint b with
  | Some (t, rest) => (t, (0 <? t) && (t <=? cutoff), rest)
  | None => (0, false, b)
  end.

Definition read_varint (w old : Z) (b : bytes) : parsed Z :=
  match decode_varint b with
  | Some (z, rest) => (true, to_signed w z, rest)
  | None => (false, old, b)
  end.

Definition read_len (b : bytes) : option (bytes * bytes) :=
  match decode_varint b with
  | Some (n, rest) =>
      if (n <=? zlength rest) && (n <=? INT_MAX)
      then Some (take (Z.to_nat n) rest, drop (Z.to_nat n) rest)
      else None
  | None => None
  end.

Definition read_string (old b : bytes) : parsed bytes :=
  match read_len b with
  | Some (p, rest) => (true, p, rest)
  | None => (false, old, b)
  end.

Definition read_message {M : Type} (merge : M -> bytes -> parsed M) (m : M) (b : bytes) : parsed M :=
  match read_len b with
  | Some (p, rest) =>
      let '(ok, m', rem) := merge m p in (ok && bool_decide (rem = []), m', rest)
  | None => (false, m, b)
  end.

Definition skip_field (tag : Z) (b : bytes) : parsed bytes :=
  let skipped n := if n <=? zlength b
    then (true, encode_varint tag ++ take (Z.to_nat n) b, drop (Z.to_nat n) b)
    else (false, [], b) in
  match tag mod 8 with
  | 0 => match decode_varint b with
         | Some (_, rest) => skipped (zlength b - zlength rest)
         | None => (false, [], b)
         end
  | 1 => skipped 8
  | 2 => match read_len b with
         | Some (_, rest) => skipped (zlength b - zlength rest)
         | None => (false, [], b)
         end
  | 5 => skipped 4
  | _ => (false, [], b)
  end.

#[export] Instance VarintRuntime : ProtobufRuntime := {
  WriteInt32ToArray := write_varint_field;
  WriteInt64ToArray := write_varint_field;
  WriteEnumToArray := write_varint_field;
  WriteStringToArray := write_len_field;
  InternalWriteMessageToArray := write_len_field;
  Int32Size v := zlength (encode_varint (to_unsigned 64 v));
  Int64Size v := zlength (encode_varint (to_unsigned 64 v));
  EnumSize v := zlength (encode_varint (to_unsigned 64 v));
  StringSize b := zlength (encode_varint (zlength b)) + zlength b;
  MessageSize n := zlength (encode_varint n) + n;
  ReadTagWithCutoffNoLastTag := read_tag;
  GetTagFieldNumber t := Z.shiftr t 3;
  ReadInt32 := read_varint 32;
  ReadInt64 := read_varint 64;
  ReadEnum := read_varint 32 0;
  ReadString := read_string;
  ReadMessage M := read_message;
  SkipField := skip_field;
  AddVarint := write_varint_field;
  ParseFromArray M clear merge is_init m b :=
    let '(ok, m', rem) := merge (clear m) b in
    (ok && bool_decide (rem = []) && is_init m', m');
  SerializeToArray M size ser m n := if size m <=? n then (true, ser m) else (false, []);
  SerializeAsString M size ser m := ser m
}.

Lemma tag_length number wire_type :
  short_field number -> 0 <= wire_type < 8 -> zlength (encode_varint (make_tag number wire_type)) = 1.
Proof.
  unfold short_field, make_tag, encode_varint. intros Hn Hw. rewrite varint_encode_S.
  by rewrite (proj2 (Z.ltb_lt _ _)) by lia.
Qed.

Lemma read_tag_ok number wire_type rest :
  short_field number -> 0 <= wire_type < 8 ->
  read_tag 127 (encode_varint (make_tag number wire_type) ++ rest) =
  (make_tag number wire_type, true, rest).
Proof.
  unfold short_field, make_tag, read_tag. intros Hn Hw.
  rewrite decode_encode_varint by lia. f_equal. f_equal.
  rewrite (proj2 (Z.ltb_lt _ _)), (proj2 (Z.leb_le _ _)) by lia. done.
Qed.

Lemma to_unsigned_range w z : 0 <= w -> 0 <= to_unsigned w z < 2 ^ w.
Proof. intros Hw. apply Z.mod_pos_bound. lia. Qed.

Lemma signed32_of_unsigned64 z : int32 z = true -> to_signed 32 (to_unsigned 64 z) = z.
Proof.
  intros H. apply int32_spec in H. unfold INT_MIN, INT_MAX in H.
  rewrite <- (signed_of_unsigned 32 z) at 2 by lia.
  unfold to_signed, to_unsigned. rewrite Z.mod_mod by lia.
  by rewrite <- (Znumtheory.Zmod_div_mod (2 ^ 32) (2 ^ 64) z) by (try lia; exists (2 ^ 32); reflexivity).
Qed.

Lemma varint_field_reads w number v old :
  short_field number -> to_signed w (to_unsigned 64 v) = v ->
  field_reads (make_tag number 0) (write_varint_field number v) (read_varint w old) v.
Proof.
  intros Hn Hv rest. eexists. unfold write_varint_field. rewrite <- app_assoc. simpl.
  rewrite read_tag_ok by (auto with lia). split; [done|].
  unfold read_varint. rewrite decode_encode_varint by (apply (to_unsigned_range 64); lia).
  by rewrite Hv.
Qed.

Lemma read_len_ok p rest :
  INT_MAX_LENGTH p -> read_len (encode_varint (zlength p) ++ p ++ rest) = Some (p, rest).
Proof.
  unfold INT_MAX_LENGTH, read_len, INT_MAX. intros H. pose proof (zlength_nonneg p).
  rewrite decode_encode_varint by lia. pose proof (zlength_nonneg rest).
  rewrite zlength_app, !(proj2 (Z.leb_le _ _)) by lia. simpl.
  unfold zlength. rewrite Nat2Z.id, take_app_length, drop_app_length. done.
Qed.

Lemma len_field_reads {A : Type} number p (read : bytes -> parsed A) (v : A) :
  short_field number -> INT_MAX_LENGTH p ->
  (forall rest, read (encode_varint (zlength p) ++ p ++ rest) = (true, v, rest)) ->
  field_reads (make_tag number 2) (write_len_field number p) read v.
Proof.
  intros Hn Hp Hr rest. eexists. unfold write_len_field. rewrite <- !app_assoc. simpl.
  rewrite read_tag_ok by (auto with lia). split; [done|]. apply Hr.
Qed.

Lemma int32_int64 v : int32 v = true -> int64 v = true.
Proof.
  intros H. apply int32_spec in H. apply int64_spec.
  unfold INT_MIN, INT_MAX, INT64_MIN, INT64_MAX in *. lia.
Qed.

#[export] Instance VarintLaws : ProtobufLaws VarintRuntime.
Proof.
  split; simpl.
  - intros. apply varint_field_reads; [done|]. by apply signed32_of_unsigned64.
  - intros number v old Hn H. apply varint_field_reads; [done|]. apply int64_spec in H.
    unfold INT64_MIN, INT64_MAX in H. apply signed_of_unsigned; lia.
  - intros. apply varint_field_reads; [done|]. by apply signed32_of_unsigned64.
  - intros number v old Hn Hv. apply len_field_reads; [done..|].
    intros rest. unfold read_string. by rewrite read_len_ok.
  - intros M number merge m m' p Hn Hp Hm. apply len_field_reads; [done..|].
    intros rest. unfold read_message. by rewrite read_len_ok, Hm.
  - intros. unfold write_varint_field. by rewrite zlength_app, tag_length.
  - intros. unfold write_varint_field. by rewrite zlength_app, tag_length.
  - intros. unfold write_varint_field. by rewrite zlength_app, tag_length.
  - intros. unfold write_len_field. rewrite !zlength_app, tag_length by (auto with lia). lia.
  - intros. unfold write_len_field. rewrite !zlength_app, tag_length by (auto with lia). lia.
  - split_and!; intros; try apply zlength_nonneg; 
      match goal with |- context [encode_varint ?z] => pose proof (zlength_nonneg (encode_varint z)) end; lia.
  - split_and!; intros; try apply encode_varint_length;
      match goal with |- context [encode_varint ?z] => pose proof (encode_varint_length z) end; lia.
  - eauto.
  - unfold short_field, make_tag. intros. rewrite Z.shiftr_div_pow2 by lia.
    symmetry. apply Z.div_unique with wire_type; lia.
  - done.
  - intros M clear merge is_init m m' b -> ->. done.
  - intros M size ser m n Hs Hn. by rewrite (proj2 (Z.leb_le _ _)) by lia.
  - done.
Qed.
