(* ===== verification/FlowTypes.v ===== *)
(** * The protobuf classes: data and accessors

    The classes of flow_message.pb.h, one record each. A proto2 field is a
    value with a has-bit; the generated code keeps a field whose has-bit is
    clear at its default, so the pair is an [option] here, [x_] being the
    field, [has_x] the has-bit, [x] the getter (the default where the bit is
    clear) and [set_x] the setter. [unknown_] holds the unknown fields in their
    wire form. The class names drop the prefix [FlowMessage_] of the nested
    messages, as raft_message.hpp does with its aliases. *)

From S2P Require Import Prelude.

Local Open Scope Z_scope.

Definition has {A : Type} (o : option A) : bool :=
  match o with Some _ => true | None => false end.

(** ** Enumerations *)

Inductive MessageType :=
  | REQUEST_VOTE_REQUEST
  | REQUEST_VOTE_RESPONSE
  | APPEND_ENTRIES_REQUEST
  | APPEND_ENTRIES_RESPONSE
  | CLIENT_PUT_MESSAGE
  | CLIENT_COMMIT_MESSAGE
  | SERVER_SEND_MESSAGE
  | CLIENT_OPEN_QUEUE
  | CONSUMER_DISCONNECTED
  | CLIENT_PUT_MESSAGE_RESPONSE
  | CLIENT_OPEN_QUEUE_RESPONSE
  | UNKNOWN.

Inductive Status := SUCCESS | ERROR.

#[export] Instance MessageType_eq_dec : EqDecision MessageType.
Proof. solve_decision. Defined.

#[export] Instance Status_eq_dec : EqDecision Status.
Proof. solve_decision. Defined.

(** [LogEntry::ADD] and [LogEntry::COMMIT]; the field [operation] is an [int32]. *)
Definition LogEntry_ADD : Z := 0.
Definition LogEntry_COMMIT : Z := 1.

Definition MessageType_value (t : MessageType) : Z :=
  match t with
  | REQUEST_VOTE_REQUEST => 0
  | REQUEST_VOTE_RESPONSE => 1
  | APPEND_ENTRIES_REQUEST => 2
  | APPEND_ENTRIES_RESPONSE => 3
  | CLIENT_PUT_MESSAGE => 10
  | CLIENT_COMMIT_MESSAGE => 11
  | SERVER_SEND_MESSAGE => 12
  | CLIENT_OPEN_QUEUE => 13
  | CONSUMER_DISCONNECTED => 14
  | CLIENT_PUT_MESSAGE_RESPONSE => 15
  | CLIENT_OPEN_QUEUE_RESPONSE => 16
  | UNKNOWN => 99
  end.

Definition Status_value (s : Status) : Z :=
  match s with SUCCESS => 0 | ERROR => 1 end.

(** The value as an enumerator; [None] where [FlowMessage_MessageType_IsValid]
    is false. *)
Definition MessageType_of_value (v : Z) : option MessageType :=
  match v with
  | 0 => Some REQUEST_VOTE_REQUEST
  | 1 => Some REQUEST_VOTE_RESPONSE
  | 2 => Some APPEND_ENTRIES_REQUEST
  | 3 => Some APPEND_ENTRIES_RESPONSE
  | 10 => Some CLIENT_PUT_MESSAGE
  | 11 => Some CLIENT_COMMIT_MESSAGE
  | 12 => Some SERVER_SEND_MESSAGE
  | 13 => Some CLIENT_OPEN_QUEUE
  | 14 => Some CONSUMER_DISCONNECTED
  | 15 => Some CLIENT_PUT_MESSAGE_RESPONSE
  | 16 => Some CLIENT_OPEN_QUEUE_RESPONSE
  | 99 => Some UNKNOWN
  | _ => None
  end.

Definition Status_of_value (v : Z) : option Status :=
  match v with 0 => Some SUCCESS | 1 => Some ERROR | _ => None end.

Lemma MessageType_of_to t : MessageType_of_value (MessageType_value t) = Some t.
Proof. by destruct t. Qed.

Lemma Status_of_to s : Status_of_value (Status_value s) = Some s.
Proof. by destruct s. Qed.

(** ** Messages *)

Record LogEntry := mkLogEntry {
  LogEntry_index_ : option Z;
  LogEntry_term_ : option Z;
  LogEntry_message_id_ : option Z;
  LogEntry_operation_ : option Z;
  LogEntry_message_ : option bytes;
  LogEntry_unknown_ : bytes
}.

Definition LogEntry_new : LogEntry := mkLogEntry None None None None None [].

Definition LogEntry_has_index (m : LogEntry) : bool := has (LogEntry_index_ m).
Definition LogEntry_index (m : LogEntry) : Z := default 0 (LogEntry_index_ m).
Definition LogEntry_set_index (v : Z) (m : LogEntry) : LogEntry :=
  mkLogEntry (Some v) (LogEntry_term_ m) (LogEntry_message_id_ m) (LogEntry_operation_ m) (LogEntry_message_ m) (LogEntry_unknown_ m).

Definition LogEntry_has_term (m : LogEntry) : bool := has (LogEntry_term_ m).
Definition LogEntry_term (m : LogEntry) : Z := default 0 (LogEntry_term_ m).
Definition LogEntry_set_term (v : Z) (m : LogEntry) : LogEntry :=
  mkLogEntry (LogEntry_index_ m) (Some v) (LogEntry_message_id_ m) (LogEntry_operation_ m) (LogEntry_message_ m) (LogEntry_unknown_ m).

Definition LogEntry_has_message_id (m : LogEntry) : bool := has (LogEntry_message_id_ m).
Definition LogEntry_message_id (m : LogEntry) : Z := default 0 (LogEntry_message_id_ m).
Definition LogEntry_set_message_id (v : Z) (m : LogEntry) : LogEntry :=
  mkLogEntry (LogEntry_index_ m) (LogEntry_term_ m) (Some v) (LogEntry_operation_ m) (LogEntry_message_ m) (LogEntry_unknown_ m).

Definition LogEntry_has_operation (m : LogEntry) : bool := has (LogEntry_operation_ m).
Definition LogEntry_operation (m : LogEntry) : Z := default 0 (LogEntry_operation_ m).
Definition LogEntry_set_operation (v : Z) (m : LogEntry) : LogEntry :=
  mkLogEntry (LogEntry_index_ m) (LogEntry_term_ m) (LogEntry_message_id_ m) (Some v) (LogEntry_message_ m) (LogEntry_unknown_ m).

Definition LogEntry_has_message (m : LogEntry) : bool := has (LogEntry_message_ m).
Definition LogEntry_message (m : LogEntry) : bytes := default [] (LogEntry_message_ m).
Definition LogEntry_set_message (v : bytes) (m : LogEntry) : LogEntry :=
  mkLogEntry (LogEntry_index_ m) (LogEntry_term_ m) (LogEntry_message_id_ m) (LogEntry_operation_ m) (Some v) (LogEntry_unknown_ m).

Definition LogEntry_add_unknown (u : bytes) (m : LogEntry) : LogEntry :=
  mkLogEntry (LogEntry_index_ m) (LogEntry_term_ m) (LogEntry_message_id_ m) (LogEntry_operation_ m) (LogEntry_message_ m) (LogEntry_unknown_ m ++ u).

#[export] Instance LogEntry_eq_dec : EqDecision LogEntry.
Proof. solve_decision. Defined.

Record RequestVoteRequest := mkRequestVoteRequest {
  RequestVoteRequest_term_ : option Z;
  RequestVoteRequest_candidate_id_ : option Z;
  RequestVoteRequest_last_log_index_ : option Z;
  RequestVoteRequest_last_log_term_ : option Z;
  RequestVoteRequest_unknown_ : bytes
}.

Definition RequestVoteRequest_new : RequestVoteRequest := mkRequestVoteRequest None None None None [].

Definition RequestVoteRequest_has_term (m : RequestVoteRequest) : bool := has (RequestVoteRequest_term_ m).
Definition RequestVoteRequest_term (m : RequestVoteRequest) : Z := default 0 (RequestVoteRequest_term_ m).
Definition RequestVoteRequest_set_term (v : Z) (m : RequestVoteRequest) : RequestVoteRequest :=
  mkRequestVoteRequest (Some v) (RequestVoteRequest_candidate_id_ m) (RequestVoteRequest_last_log_index_ m) (RequestVoteRequest_last_log_term_ m) (RequestVoteRequest_unknown_ m).

Definition RequestVoteRequest_has_candidate_id (m : RequestVoteRequest) : bool := has (RequestVoteRequest_candidate_id_ m).
Definition RequestVoteRequest_candidate_id (m : RequestVoteRequest) : Z := default 0 (RequestVoteRequest_candidate_id_ m).
Definition RequestVoteRequest_set_candidate_id (v : Z) (m : RequestVoteRequest) : RequestVoteRequest :=
  mkRequestVoteRequest (RequestVoteRequest_term_ m) (Some v) (RequestVoteRequest_last_log_index_ m) (RequestVoteRequest_last_log_term_ m) (RequestVoteRequest_unknown_ m).

Definition RequestVoteRequest_has_last_log_index (m : RequestVoteRequest) : bool := has (RequestVoteRequest_last_log_index_ m).
Definition RequestVoteRequest_last_log_index (m : RequestVoteRequest) : Z := default 0 (RequestVoteRequest_last_log_index_ m).
Definition RequestVoteRequest_set_last_log_index (v : Z) (m : RequestVoteRequest) : RequestVoteRequest :=
  mkRequestVoteRequest (RequestVoteRequest_term_ m) (RequestVoteRequest_candidate_id_ m) (Some v) (RequestVoteRequest_last_log_term_ m) (RequestVoteRequest_unknown_ m).

Definition RequestVoteRequest_has_last_log_term (m : RequestVoteRequest) : bool := has (RequestVoteRequest_last_log_term_ m).
Definition RequestVoteRequest_last_log_term (m : RequestVoteRequest) : Z := default 0 (RequestVoteRequest_last_log_term_ m).
Definition RequestVoteRequest_set_last_log_term (v : Z) (m : RequestVoteRequest) : RequestVoteRequest :=
  mkRequestVoteRequest (RequestVoteRequest_term_ m) (RequestVoteRequest_candidate_id_ m) (RequestVoteRequest_last_log_index_ m) (Some v) (RequestVoteRequest_unknown_ m).

Definition RequestVoteRequest_add_unknown (u : bytes) (m : RequestVoteRequest) : RequestVoteRequest :=
  mkRequestVoteRequest (RequestVoteRequest_term_ m) (RequestVoteRequest_candidate_id_ m) (RequestVoteRequest_last_log_index_ m) (RequestVoteRequest_last_log_term_ m) (RequestVoteRequest_unknown_ m ++ u).

#[export] Instance RequestVoteRequest_eq_dec : EqDecision RequestVoteRequest.
Proof. solve_decision. Defined.

Record RequestVoteResponse := mkRequestVoteResponse {
  RequestVoteResponse_term_ : option Z;
  RequestVoteResponse_vote_result_term_granted_ : option Z;
  RequestVoteResponse_unknown_ : bytes
}.

Definition RequestVoteResponse_new : RequestVoteResponse := mkRequestVoteResponse None None [].

Definition RequestVoteResponse_has_term (m : RequestVoteResponse) : bool := has (RequestVoteResponse_term_ m).
Definition RequestVoteResponse_term (m : RequestVoteResponse) : Z := default 0 (RequestVoteResponse_term_ m).
Definition RequestVoteResponse_set_term (v : Z) (m : RequestVoteResponse) : RequestVoteResponse :=
  mkRequestVoteResponse (Some v) (RequestVoteResponse_vote_result_term_granted_ m) (RequestVoteResponse_unknown_ m).

Definition RequestVoteResponse_has_vote_result_term_granted (m : RequestVoteResponse) : bool := has (RequestVoteResponse_vote_result_term_granted_ m).
Definition RequestVoteResponse_vote_result_term_granted (m : RequestVoteResponse) : Z := default 0 (RequestVoteResponse_vote_result_term_granted_ m).
Definition RequestVoteResponse_set_vote_result_term_granted (v : Z) (m : RequestVoteResponse) : RequestVoteResponse :=
  mkRequestVoteResponse (RequestVoteResponse_term_ m) (Some v) (RequestVoteResponse_unknown_ m).

Definition RequestVoteResponse_add_unknown (u : bytes) (m : RequestVoteResponse) : RequestVoteResponse :=
  mkRequestVoteResponse (RequestVoteResponse_term_ m) (RequestVoteResponse_vote_result_term_granted_ m) (RequestVoteResponse_unknown_ m ++ u).

#[export] Instance RequestVoteResponse_eq_dec : EqDecision RequestVoteResponse.
Proof. solve_decision. Defined.

Record AppendEntriesRequest := mkAppendEntriesRequest {
  AppendEntriesRequest_term_ : option Z;
  AppendEntriesRequest_leader_id_ : option Z;
  AppendEntriesRequest_prev_log_index_ : option Z;
  AppendEntriesRequest_prev_log_term_ : option Z;
  AppendEntriesRequest_entries_ : list LogEntry;
  AppendEntriesRequest_leader_commit_ : option Z;
  AppendEntriesRequest_unknown_ : bytes
}.

Definition AppendEntriesRequest_new : AppendEntriesRequest := mkAppendEntriesRequest None None None None [] None [].

Definition AppendEntriesRequest_has_term (m : AppendEntriesRequest) : bool := has (AppendEntriesRequest_term_ m).
Definition AppendEntriesRequest_term (m : AppendEntriesRequest) : Z := default 0 (AppendEntriesRequest_term_ m).
Definition AppendEntriesRequest_set_term (v : Z) (m : AppendEntriesRequest) : AppendEntriesRequest :=
  mkAppendEntriesRequest (Some v) (AppendEntriesRequest_leader_id_ m) (AppendEntriesRequest_prev_log_index_ m) (AppendEntriesRequest_prev_log_term_ m) (AppendEntriesRequest_entries_ m) (AppendEntriesRequest_leader_commit_ m) (AppendEntriesRequest_unknown_ m).

Definition AppendEntriesRequest_has_leader_id (m : AppendEntriesRequest) : bool := has (AppendEntriesRequest_leader_id_ m).
Definition AppendEntriesRequest_leader_id (m : AppendEntriesRequest) : Z := default 0 (AppendEntriesRequest_leader_id_ m).
Definition AppendEntriesRequest_set_leader_id (v : Z) (m : AppendEntriesRequest) : AppendEntriesRequest :=
  mkAppendEntriesRequest (AppendEntriesRequest_term_ m) (Some v) (AppendEntriesRequest_prev_log_index_ m) (AppendEntriesRequest_prev_log_term_ m) (AppendEntriesRequest_entries_ m) (AppendEntriesRequest_leader_commit_ m) (AppendEntriesRequest_unknown_ m).

Definition AppendEntriesRequest_has_prev_log_index (m : AppendEntriesRequest) : bool := has (AppendEntriesRequest_prev_log_index_ m).
Definition AppendEntriesRequest_prev_log_index (m : AppendEntriesRequest) : Z := default 0 (AppendEntriesRequest_prev_log_index_ m).
Definition AppendEntriesRequest_set_prev_log_index (v : Z) (m : AppendEntriesRequest) : AppendEntriesRequest :=
  mkAppendEntriesRequest (AppendEntriesRequest_term_ m) (AppendEntriesRequest_leader_id_ m) (Some v) (AppendEntriesRequest_prev_log_term_ m) (AppendEntriesRequest_entries_ m) (AppendEntriesRequest_leader_commit_ m) (AppendEntriesRequest_unknown_ m).

Definition AppendEntriesRequest_has_prev_log_term (m : AppendEntriesRequest) : bool := has (AppendEntriesRequest_prev_log_term_ m).
Definition AppendEntriesRequest_prev_log_term (m : AppendEntriesRequest) : Z := default 0 (AppendEntriesRequest_prev_log_term_ m).
Definition AppendEntriesRequest_set_prev_log_term (v : Z) (m : AppendEntriesRequest) : AppendEntriesRequest :=
  mkAppendEntriesRequest (AppendEntriesRequest_term_ m) (AppendEntriesRequest_leader_id_ m) (AppendEntriesRequest_prev_log_index_ m) (Some v) (AppendEntriesRequest_entries_ m) (AppendEntriesRequest_leader_commit_ m) (AppendEntriesRequest_unknown_ m).

Definition AppendEntriesRequest_entries (m : AppendEntriesRequest) : list LogEntry := AppendEntriesRequest_entries_ m.
Definition AppendEntriesRequest_set_entries (v : list LogEntry) (m : AppendEntriesRequest) : AppendEntriesRequest :=
  mkAppendEntriesRequest (AppendEntriesRequest_term_ m) (AppendEntriesRequest_leader_id_ m) (AppendEntriesRequest_prev_log_index_ m) (AppendEntriesRequest_prev_log_term_ m) v (AppendEntriesRequest_leader_commit_ m) (AppendEntriesRequest_unknown_ m).

Definition AppendEntriesRequest_has_leader_commit (m : AppendEntriesRequest) : bool := has (AppendEntriesRequest_leader_commit_ m).
Definition AppendEntriesRequest_leader_commit (m : AppendEntriesRequest) : Z := default 0 (AppendEntriesRequest_leader_commit_ m).
Definition AppendEntriesRequest_set_leader_commit (v : Z) (m : AppendEntriesRequest) : AppendEntriesRequest :=
  mkAppendEntriesRequest (AppendEntriesRequest_term_ m) (AppendEntriesRequest_leader_id_ m) (AppendEntriesRequest_prev_log_index_ m) (AppendEntriesRequest_prev_log_term_ m) (AppendEntriesRequest_entries_ m) (Some v) (AppendEntriesRequest_unknown_ m).

Definition AppendEntriesRequest_add_unknown (u : bytes) (m : AppendEntriesRequest) : AppendEntriesRequest :=
  mkAppendEntriesRequest (AppendEntriesRequest_term_ m) (AppendEntriesRequest_leader_id_ m) (AppendEntriesRequest_prev_log_index_ m) (AppendEntriesRequest_prev_log_term_ m) (AppendEntriesRequest_entries_ m) (AppendEntriesRequest_leader_commit_ m) (AppendEntriesRequest_unknown_ m ++ u).

#[export] Instance AppendEntriesRequest_eq_dec : EqDecision AppendEntriesRequest.
Proof. solve_decision. Defined.

Record AppendEntriesResponse := mkAppendEntriesResponse {
  AppendEntriesResponse_term_ : option Z;
  AppendEntriesResponse_follower_id_ : option Z;
  AppendEntriesResponse_append_result_success_ : option Z;
  AppendEntriesResponse_last_index_synced_ : option Z;
  AppendEntriesResponse_unknown_ : bytes
}.

Definition AppendEntriesResponse_new : AppendEntriesResponse := mkAppendEntriesResponse None None None None [].

Definition AppendEntriesResponse_has_term (m : AppendEntriesResponse) : bool := has (AppendEntriesResponse_term_ m).
Definition AppendEntriesResponse_term (m : AppendEntriesResponse) : Z := default 0 (AppendEntriesResponse_term_ m).
Definition AppendEntriesResponse_set_term (v : Z) (m : AppendEntriesResponse) : AppendEntriesResponse :=
  mkAppendEntriesResponse (Some v) (AppendEntriesResponse_follower_id_ m) (AppendEntriesResponse_append_result_success_ m) (AppendEntriesResponse_last_index_synced_ m) (AppendEntriesResponse_unknown_ m).

Definition AppendEntriesResponse_has_follower_id (m : AppendEntriesResponse) : bool := has (AppendEntriesResponse_follower_id_ m).
Definition AppendEntriesResponse_follower_id (m : AppendEntriesResponse) : Z := default 0 (AppendEntriesResponse_follower_id_ m).
Definition AppendEntriesResponse_set_follower_id (v : Z) (m : AppendEntriesResponse) : AppendEntriesResponse :=
  mkAppendEntriesResponse (AppendEntriesResponse_term_ m) (Some v) (AppendEntriesResponse_append_result_success_ m) (AppendEntriesResponse_last_index_synced_ m) (AppendEntriesResponse_unknown_ m).

Definition AppendEntriesResponse_has_append_result_success (m : AppendEntriesResponse) : bool := has (AppendEntriesResponse_append_result_success_ m).
Definition AppendEntriesResponse_append_result_success (m : AppendEntriesResponse) : Z := default 0 (AppendEntriesResponse_append_result_success_ m).
Definition AppendEntriesResponse_set_append_result_success (v : Z) (m : AppendEntriesResponse) : AppendEntriesResponse :=
  mkAppendEntriesResponse (AppendEntriesResponse_term_ m) (AppendEntriesResponse_follower_id_ m) (Some v) (AppendEntriesResponse_last_index_synced_ m) (AppendEntriesResponse_unknown_ m).

Definition AppendEntriesResponse_has_last_index_synced (m : AppendEntriesResponse) : bool := has (AppendEntriesResponse_last_index_synced_ m).
Definition AppendEntriesResponse_last_index_synced (m : AppendEntriesResponse) : Z := default 0 (AppendEntriesResponse_last_index_synced_ m).
Definition AppendEntriesResponse_set_last_index_synced (v : Z) (m : AppendEntriesResponse) : AppendEntriesResponse :=
  mkAppendEntriesResponse (AppendEntriesResponse_term_ m) (AppendEntriesResponse_follower_id_ m) (AppendEntriesResponse_append_result_success_ m) (Some v) (AppendEntriesResponse_unknown_ m).

Definition AppendEntriesResponse_add_unknown (u : bytes) (m : AppendEntriesResponse) : AppendEntriesResponse :=
  mkAppendEntriesResponse (AppendEntriesResponse_term_ m) (AppendEntriesResponse_follower_id_ m) (AppendEntriesResponse_append_result_success_ m) (AppendEntriesResponse_last_index_synced_ m) (AppendEntriesResponse_unknown_ m ++ u).

#[export] Instance AppendEntriesResponse_eq_dec : EqDecision AppendEntriesResponse.
Proof. solve_decision. Defined.

Record ClientPutMessage := mkClientPutMessage {
  ClientPutMessage_message_ : option bytes;
  ClientPutMessage_message_id_ : option Z;
  ClientPutMessage_unknown_ : bytes
}.

Definition ClientPutMessage_new : ClientPutMessage := mkClientPutMessage None None [].

Definition ClientPutMessage_has_message (m : ClientPutMessage) : bool := has (ClientPutMessage_message_ m).
Definition ClientPutMessage_message (m : ClientPutMessage) : bytes := default [] (ClientPutMessage_message_ m).
Definition ClientPutMessage_set_message (v : bytes) (m : ClientPutMessage) : ClientPutMessage :=
  mkClientPutMessage (Some v) (ClientPutMessage_message_id_ m) (ClientPutMessage_unknown_ m).

Definition ClientPutMessage_has_message_id (m : ClientPutMessage) : bool := has (ClientPutMessage_message_id_ m).
Definition ClientPutMessage_message_id (m : ClientPutMessage) : Z := default 0 (ClientPutMessage_message_id_ m).
Definition ClientPutMessage_set_message_id (v : Z) (m : ClientPutMessage) : ClientPutMessage :=
  mkClientPutMessage (ClientPutMessage_message_ m) (Some v) (ClientPutMessage_unknown_ m).

Definition ClientPutMessage_add_unknown (u : bytes) (m : ClientPutMessage) : ClientPutMessage :=
  mkClientPutMessage (ClientPutMessage_message_ m) (ClientPutMessage_message_id_ m) (ClientPutMessage_unknown_ m ++ u).

#[export] Instance ClientPutMessage_eq_dec : EqDecision ClientPutMessage.
Proof. solve_decision. Defined.

Record ClientPutMessageResponse := mkClientPutMessageResponse {
  ClientPutMessageResponse_message_id_ : option Z;
  ClientPutMessageResponse_status_ : option Status;
  ClientPutMessageResponse_error_message_ : option bytes;
  ClientPutMessageResponse_unknown_ : bytes
}.

Definition ClientPutMessageResponse_new : ClientPutMessageResponse := mkClientPutMessageResponse None None None [].

Definition ClientPutMessageResponse_has_message_id (m : ClientPutMessageResponse) : bool := has (ClientPutMessageResponse_message_id_ m).
Definition ClientPutMessageResponse_message_id (m : ClientPutMessageResponse) : Z := default 0 (ClientPutMessageResponse_message_id_ m).
Definition ClientPutMessageResponse_set_message_id (v : Z) (m : ClientPutMessageResponse) : ClientPutMessageResponse :=
  mkClientPutMessageResponse (Some v) (ClientPutMessageResponse_status_ m) (ClientPutMessageResponse_error_message_ m) (ClientPutMessageResponse_unknown_ m).

Definition ClientPutMessageResponse_has_status (m : ClientPutMessageResponse) : bool := has (ClientPutMessageResponse_status_ m).
Definition ClientPutMessageResponse_status (m : ClientPutMessageResponse) : Status := default SUCCESS (ClientPutMessageResponse_status_ m).
Definition ClientPutMessageResponse_set_status (v : Status) (m : ClientPutMessageResponse) : ClientPutMessageResponse :=
  mkClientPutMessageResponse (ClientPutMessageResponse_message_id_ m) (Some v) (ClientPutMessageResponse_error_message_ m) (ClientPutMessageResponse_unknown_ m).

Definition ClientPutMessageResponse_has_error_message (m : ClientPutMessageResponse) : bool := has (ClientPutMessageResponse_error_message_ m).
Definition ClientPutMessageResponse_error_message (m : ClientPutMessageResponse) : bytes := default [] (ClientPutMessageResponse_error_message_ m).
Definition ClientPutMessageResponse_set_error_message (v : bytes) (m : ClientPutMessageResponse) : ClientPutMessageResponse :=
  mkClientPutMessageResponse (ClientPutMessageResponse_message_id_ m) (ClientPutMessageResponse_status_ m) (Some v) (ClientPutMessageResponse_unknown_ m).

Definition ClientPutMessageResponse_add_unknown (u : bytes) (m : ClientPutMessageResponse) : ClientPutMessageResponse :=
  mkClientPutMessageResponse (ClientPutMessageResponse_message_id_ m) (ClientPutMessageResponse_status_ m) (ClientPutMessageResponse_error_message_ m) (ClientPutMessageResponse_unknown_ m ++ u).

#[export] Instance ClientPutMessageResponse_eq_dec : EqDecision ClientPutMessageResponse.
Proof. solve_decision. Defined.

Record ClientCommitMessage := mkClientCommitMessage {
  ClientCommitMessage_message_id_ : option Z;
  ClientCommitMessage_unknown_ : bytes
}.

Definition ClientCommitMessage_new : ClientCommitMessage := mkClientCommitMessage None [].

Definition ClientCommitMessage_has_message_id (m : ClientCommitMessage) : bool := has (ClientCommitMessage_message_id_ m).
Definition ClientCommitMessage_message_id (m : ClientCommitMessage) : Z := default 0 (ClientCommitMessage_message_id_ m).
Definition ClientCommitMessage_set_message_id (v : Z) (m : ClientCommitMessage) : ClientCommitMessage :=
  mkClientCommitMessage (Some v) (ClientCommitMessage_unknown_ m).

Definition ClientCommitMessage_add_unknown (u : bytes) (m : ClientCommitMessage) : ClientCommitMessage :=
  mkClientCommitMessage (ClientCommitMessage_message_id_ m) (ClientCommitMessage_unknown_ m ++ u).

#[export] Instance ClientCommitMessage_eq_dec : EqDecision ClientCommitMessage.
Proof. solve_decision. Defined.

Record ServerSendMessage := mkServerSendMessage {
  ServerSendMessage_message_id_ : option Z;
  ServerSendMessage_message_ : option bytes;
  ServerSendMessage_unknown_ : bytes
}.

Definition ServerSendMessage_new : ServerSendMessage := mkServerSendMessage None None [].

Definition ServerSendMessage_has_message_id (m : ServerSendMessage) : bool := has (ServerSendMessage_message_id_ m).
Definition ServerSendMessage_message_id (m : ServerSendMessage) : Z := default 0 (ServerSendMessage_message_id_ m).
Definition ServerSendMessage_set_message_id (v : Z) (m : ServerSendMessage) : ServerSendMessage :=
  mkServerSendMessage (Some v) (ServerSendMessage_message_ m) (ServerSendMessage_unknown_ m).

Definition ServerSendMessage_has_message (m : ServerSendMessage) : bool := has (ServerSendMessage_message_ m).
Definition ServerSendMessage_message (m : ServerSendMessage) : bytes := default [] (ServerSendMessage_message_ m).
Definition ServerSendMessage_set_message (v : bytes) (m : ServerSendMessage) : ServerSendMessage :=
  mkServerSendMessage (ServerSendMessage_message_id_ m) (Some v) (ServerSendMessage_unknown_ m).

Definition ServerSendMessage_add_unknown (u : bytes) (m : ServerSendMessage) : ServerSendMessage :=
  mkServerSendMessage (ServerSendMessage_message_id_ m) (ServerSendMessage_message_ m) (ServerSendMessage_unknown_ m ++ u).

#[export] Instance ServerSendMessage_eq_dec : EqDecision ServerSendMessage.
Proof. solve_decision. Defined.

Record ClientOpenQueue := mkClientOpenQueue {
  ClientOpenQueue_open_mode_ : option Z;
  ClientOpenQueue_queue_name_ : option bytes;
  ClientOpenQueue_unknown_ : bytes
}.

Definition ClientOpenQueue_new : ClientOpenQueue := mkClientOpenQueue None None [].

Definition ClientOpenQueue_has_open_mode (m : ClientOpenQueue) : bool := has (ClientOpenQueue_open_mode_ m).
Definition ClientOpenQueue_open_mode (m : ClientOpenQueue) : Z := default 0 (ClientOpenQueue_open_mode_ m).
Definition ClientOpenQueue_set_open_mode (v : Z) (m : ClientOpenQueue) : ClientOpenQueue :=
  mkClientOpenQueue (Some v) (ClientOpenQueue_queue_name_ m) (ClientOpenQueue_unknown_ m).

Definition ClientOpenQueue_has_queue_name (m : ClientOpenQueue) : bool := has (ClientOpenQueue_queue_name_ m).
Definition ClientOpenQueue_queue_name (m : ClientOpenQueue) : bytes := default [] (ClientOpenQueue_queue_name_ m).
Definition ClientOpenQueue_set_queue_name (v : bytes) (m : ClientOpenQueue) : ClientOpenQueue :=
  mkClientOpenQueue (ClientOpenQueue_open_mode_ m) (Some v) (ClientOpenQueue_unknown_ m).

Definition ClientOpenQueue_add_unknown (u : bytes) (m : ClientOpenQueue) : ClientOpenQueue :=
  mkClientOpenQueue (ClientOpenQueue_open_mode_ m) (ClientOpenQueue_queue_name_ m) (ClientOpenQueue_unknown_ m ++ u).

#[export] Instance ClientOpenQueue_eq_dec : EqDecision ClientOpenQueue.
Proof. solve_decision. Defined.

Record ClientOpenQueueResponse := mkClientOpenQueueResponse {
  ClientOpenQueueResponse_status_ : option Status;
  ClientOpenQueueResponse_error_message_ : option bytes;
  ClientOpenQueueResponse_leader_ip_ : option bytes;
  ClientOpenQueueResponse_leader_port_ : option bytes;
  ClientOpenQueueResponse_unknown_ : bytes
}.

Definition ClientOpenQueueResponse_new : ClientOpenQueueResponse := mkClientOpenQueueResponse None None None None [].

Definition ClientOpenQueueResponse_has_status (m : ClientOpenQueueResponse) : bool := has (ClientOpenQueueResponse_status_ m).
Definition ClientOpenQueueResponse_status (m : ClientOpenQueueResponse) : Status := default SUCCESS (ClientOpenQueueResponse_status_ m).
Definition ClientOpenQueueResponse_set_status (v : Status) (m : ClientOpenQueueResponse) : ClientOpenQueueResponse :=
  mkClientOpenQueueResponse (Some v) (ClientOpenQueueResponse_error_message_ m) (ClientOpenQueueResponse_leader_ip_ m) (ClientOpenQueueResponse_leader_port_ m) (ClientOpenQueueResponse_unknown_ m).

Definition ClientOpenQueueResponse_has_error_message (m : ClientOpenQueueResponse) : bool := has (ClientOpenQueueResponse_error_message_ m).
Definition ClientOpenQueueResponse_error_message (m : ClientOpenQueueResponse) : bytes := default [] (ClientOpenQueueResponse_error_message_ m).
Definition ClientOpenQueueResponse_set_error_message (v : bytes) (m : ClientOpenQueueResponse) : ClientOpenQueueResponse :=
  mkClientOpenQueueResponse (ClientOpenQueueResponse_status_ m) (Some v) (ClientOpenQueueResponse_leader_ip_ m) (ClientOpenQueueResponse_leader_port_ m) (ClientOpenQueueResponse_unknown_ m).

Definition ClientOpenQueueResponse_has_leader_ip (m : ClientOpenQueueResponse) : bool := has (ClientOpenQueueResponse_leader_ip_ m).
Definition ClientOpenQueueResponse_leader_ip (m : ClientOpenQueueResponse) : bytes := default [] (ClientOpenQueueResponse_leader_ip_ m).
Definition ClientOpenQueueResponse_set_leader_ip (v : bytes) (m : ClientOpenQueueResponse) : ClientOpenQueueResponse :=
  mkClientOpenQueueResponse (ClientOpenQueueResponse_status_ m) (ClientOpenQueueResponse_error_message_ m) (Some v) (ClientOpenQueueResponse_leader_port_ m) (ClientOpenQueueResponse_unknown_ m).

Definition ClientOpenQueueResponse_has_leader_port (m : ClientOpenQueueResponse) : bool := has (ClientOpenQueueResponse_leader_port_ m).
Definition ClientOpenQueueResponse_leader_port (m : ClientOpenQueueResponse) : bytes := default [] (ClientOpenQueueResponse_leader_port_ m).
Definition ClientOpenQueueResponse_set_leader_port (v : bytes) (m : ClientOpenQueueResponse) : ClientOpenQueueResponse :=
  mkClientOpenQueueResponse (ClientOpenQueueResponse_status_ m) (ClientOpenQueueResponse_error_message_ m) (ClientOpenQueueResponse_leader_ip_ m) (Some v) (ClientOpenQueueResponse_unknown_ m).

Definition ClientOpenQueueResponse_add_unknown (u : bytes) (m : ClientOpenQueueResponse) : ClientOpenQueueResponse :=
  mkClientOpenQueueResponse (ClientOpenQueueResponse_status_ m) (ClientOpenQueueResponse_error_message_ m) (ClientOpenQueueResponse_leader_ip_ m) (ClientOpenQueueResponse_leader_port_ m) (ClientOpenQueueResponse_unknown_ m ++ u).

#[export] Instance ClientOpenQueueResponse_eq_dec : EqDecision ClientOpenQueueResponse.
Proof. solve_decision. Defined.

Record ConsumerDisconnected := mkConsumerDisconnected {
  ConsumerDisconnected_client_id_ : option Z;
  ConsumerDisconnected_unknown_ : bytes
}.

Definition ConsumerDisconnected_new : ConsumerDisconnected := mkConsumerDisconnected None [].

Definition ConsumerDisconnected_has_client_id (m : ConsumerDisconnected) : bool := has (ConsumerDisconnected_client_id_ m).
Definition ConsumerDisconnected_client_id (m : ConsumerDisconnected) : Z := default 0 (ConsumerDisconnected_client_id_ m).
Definition ConsumerDisconnected_set_client_id (v : Z) (m : ConsumerDisconnected) : ConsumerDisconnected :=
  mkConsumerDisconnected (Some v) (ConsumerDisconnected_unknown_ m).

Definition ConsumerDisconnected_add_unknown (u : bytes) (m : ConsumerDisconnected) : ConsumerDisconnected :=
  mkConsumerDisconnected (ConsumerDisconnected_client_id_ m) (ConsumerDisconnected_unknown_ m ++ u).

#[export] Instance ConsumerDisconnected_eq_dec : EqDecision ConsumerDisconnected.
Proof. solve_decision. Defined.

Record FlowMessage := mkFlowMessage {
  FlowMessage_type_ : option MessageType;
  FlowMessage_partition_id_ : option Z;
  FlowMessage_request_vote_request_ : option RequestVoteRequest;
  FlowMessage_request_vote_response_ : option RequestVoteResponse;
  FlowMessage_append_entries_request_ : option AppendEntriesRequest;
  FlowMessage_append_entries_response_ : option AppendEntriesResponse;
  FlowMessage_client_put_message_ : option ClientPutMessage;
  FlowMessage_client_commit_message_ : option ClientCommitMessage;
  FlowMessage_server_send_message_ : option ServerSendMessage;
  FlowMessage_client_open_queue_ : option ClientOpenQueue;
  FlowMessage_consumer_disconnected_ : option ConsumerDisconnected;
  FlowMessage_client_open_queue_response_ : option ClientOpenQueueResponse;
  FlowMessage_client_put_message_response_ : option ClientPutMessageResponse;
  FlowMessage_unknown_ : bytes
}.

Definition FlowMessage_new : FlowMessage := mkFlowMessage None None None None None None None None None None None None None [].

Definition FlowMessage_has_type (m : FlowMessage) : bool := has (FlowMessage_type_ m).
Definition FlowMessage_type (m : FlowMessage) : MessageType := default REQUEST_VOTE_REQUEST (FlowMessage_type_ m).
Definition FlowMessage_set_type (v : MessageType) (m : FlowMessage) : FlowMessage :=
  mkFlowMessage (Some v) (FlowMessage_partition_id_ m) (FlowMessage_request_vote_request_ m) (FlowMessage_request_vote_response_ m) (FlowMessage_append_entries_request_ m) (FlowMessage_append_entries_response_ m) (FlowMessage_client_put_message_ m) (FlowMessage_client_commit_message_ m) (FlowMessage_server_send_message_ m) (FlowMessage_client_open_queue_ m) (FlowMessage_consumer_disconnected_ m) (FlowMessage_client_open_queue_response_ m) (FlowMessage_client_put_message_response_ m) (FlowMessage_unknown_ m).

Definition FlowMessage_has_partition_id (m : FlowMessage) : bool := has (FlowMessage_partition_id_ m).
Definition FlowMessage_partition_id (m : FlowMessage) : Z := default 0 (FlowMessage_partition_id_ m).
Definition FlowMessage_set_partition_id (v : Z) (m : FlowMessage) : FlowMessage :=
  mkFlowMessage (FlowMessage_type_ m) (Some v) (FlowMessage_request_vote_request_ m) (FlowMessage_request_vote_response_ m) (FlowMessage_append_entries_request_ m) (FlowMessage_append_entries_response_ m) (FlowMessage_client_put_message_ m) (FlowMessage_client_commit_message_ m) (FlowMessage_server_send_message_ m) (FlowMessage_client_open_queue_ m) (FlowMessage_consumer_disconnected_ m) (FlowMessage_client_open_queue_response_ m) (FlowMessage_client_put_message_response_ m) (FlowMessage_unknown_ m).

Definition FlowMessage_has_request_vote_request (m : FlowMessage) : bool := has (FlowMessage_request_vote_request_ m).
Definition FlowMessage_request_vote_request (m : FlowMessage) : RequestVoteRequest := default RequestVoteRequest_new (FlowMessage_request_vote_request_ m).
Definition FlowMessage_set_request_vote_request (v : RequestVoteRequest) (m : FlowMessage) : FlowMessage :=
  mkFlowMessage (FlowMessage_type_ m) (FlowMessage_partition_id_ m) (Some v) (FlowMessage_request_vote_response_ m) (FlowMessage_append_entries_request_ m) (FlowMessage_append_entries_response_ m) (FlowMessage_client_put_message_ m) (FlowMessage_client_commit_message_ m) (FlowMessage_server_send_message_ m) (FlowMessage_client_open_queue_ m) (FlowMessage_consumer_disconnected_ m) (FlowMessage_client_open_queue_response_ m) (FlowMessage_client_put_message_response_ m) (FlowMessage_unknown_ m).

Definition FlowMessage_has_request_vote_response (m : FlowMessage) : bool := has (FlowMessage_request_vote_response_ m).
Definition FlowMessage_request_vote_response (m : FlowMessage) : RequestVoteResponse := default RequestVoteResponse_new (FlowMessage_request_vote_response_ m).
Definition FlowMessage_set_request_vote_response (v : RequestVoteResponse) (m : FlowMessage) : FlowMessage :=
  mkFlowMessage (FlowMessage_type_ m) (FlowMessage_partition_id_ m) (FlowMessage_request_vote_request_ m) (Some v) (FlowMessage_append_entries_request_ m) (FlowMessage_append_entries_response_ m) (FlowMessage_client_put_message_ m) (FlowMessage_client_commit_message_ m) (FlowMessage_server_send_message_ m) (FlowMessage_client_open_queue_ m) (FlowMessage_consumer_disconnected_ m) (FlowMessage_client_open_queue_response_ m) (FlowMessage_client_put_message_response_ m) (FlowMessage_unknown_ m).

Definition FlowMessage_has_append_entries_request (m : FlowMessage) : bool := has (FlowMessage_append_entries_request_ m).
Definition FlowMessage_append_entries_request (m : FlowMessage) : AppendEntriesRequest := default AppendEntriesRequest_new (FlowMessage_append_entries_request_ m).
Definition FlowMessage_set_append_entries_request (v : AppendEntriesRequest) (m : FlowMessage) : FlowMessage :=
  mkFlowMessage (FlowMessage_type_ m) (FlowMessage_partition_id_ m) (FlowMessage_request_vote_request_ m) (FlowMessage_request_vote_response_ m) (Some v) (FlowMessage_append_entries_response_ m) (FlowMessage_client_put_message_ m) (FlowMessage_client_commit_message_ m) (FlowMessage_server_send_message_ m) (FlowMessage_client_open_queue_ m) (FlowMessage_consumer_disconnected_ m) (FlowMessage_client_open_queue_response_ m) (FlowMessage_client_put_message_response_ m) (FlowMessage_unknown_ m).

Definition FlowMessage_has_append_entries_response (m : FlowMessage) : bool := has (FlowMessage_append_entries_response_ m).
Definition FlowMessage_append_entries_response (m : FlowMessage) : AppendEntriesResponse := default AppendEntriesResponse_new (FlowMessage_append_entries_response_ m).
Definition FlowMessage_set_append_entries_response (v : AppendEntriesResponse) (m : FlowMessage) : FlowMessage :=
  mkFlowMessage (FlowMessage_type_ m) (FlowMessage_partition_id_ m) (FlowMessage_request_vote_request_ m) (FlowMessage_request_vote_response_ m) (FlowMessage_append_entries_request_ m) (Some v) (FlowMessage_client_put_message_ m) (FlowMessage_client_commit_message_ m) (FlowMessage_server_send_message_ m) (FlowMessage_client_open_queue_ m) (FlowMessage_consumer_disconnected_ m) (FlowMessage_client_open_queue_response_ m) (FlowMessage_client_put_message_response_ m) (FlowMessage_unknown_ m).

Definition FlowMessage_has_client_put_message (m : FlowMessage) : bool := has (FlowMessage_client_put_message_ m).
Definition FlowMessage_client_put_message (m : FlowMessage) : ClientPutMessage := default ClientPutMessage_new (FlowMessage_client_put_message_ m).
Definition FlowMessage_set_client_put_message (v : ClientPutMessage) (m : FlowMessage) : FlowMessage :=
  mkFlowMessage (FlowMessage_type_ m) (FlowMessage_partition_id_ m) (FlowMessage_request_vote_request_ m) (FlowMessage_request_vote_response_ m) (FlowMessage_append_entries_request_ m) (FlowMessage_append_entries_response_ m) (Some v) (FlowMessage_client_commit_message_ m) (FlowMessage_server_send_message_ m) (FlowMessage_client_open_queue_ m) (FlowMessage_consumer_disconnected_ m) (FlowMessage_client_open_queue_response_ m) (FlowMessage_client_put_message_response_ m) (FlowMessage_unknown_ m).

Definition FlowMessage_has_client_commit_message (m : FlowMessage) : bool := has (FlowMessage_client_commit_message_ m).
Definition FlowMessage_client_commit_message (m : FlowMessage) : ClientCommitMessage := default ClientCommitMessage_new (FlowMessage_client_commit_message_ m).
Definition FlowMessage_set_client_commit_message (v : ClientCommitMessage) (m : FlowMessage) : FlowMessage :=
  mkFlowMessage (FlowMessage_type_ m) (FlowMessage_partition_id_ m) (FlowMessage_request_vote_request_ m) (FlowMessage_request_vote_response_ m) (FlowMessage_append_entries_request_ m) (FlowMessage_append_entries_response_ m) (FlowMessage_client_put_message_ m) (Some v) (FlowMessage_server_send_message_ m) (FlowMessage_client_open_queue_ m) (FlowMessage_consumer_disconnected_ m) (FlowMessage_client_open_queue_response_ m) (FlowMessage_client_put_message_response_ m) (FlowMessage_unknown_ m).

Definition FlowMessage_has_server_send_message (m : FlowMessage) : bool := has (FlowMessage_server_send_message_ m).
Definition FlowMessage_server_send_message (m : FlowMessage) : ServerSendMessage := default ServerSendMessage_new (FlowMessage_server_send_message_ m).
Definition FlowMessage_set_server_send_message (v : ServerSendMessage) (m : FlowMessage) : FlowMessage :=
  mkFlowMessage (FlowMessage_type_ m) (FlowMessage_partition_id_ m) (FlowMessage_request_vote_request_ m) (FlowMessage_request_vote_response_ m) (FlowMessage_append_entries_request_ m) (FlowMessage_append_entries_response_ m) (FlowMessage_client_put_message_ m) (FlowMessage_client_commit_message_ m) (Some v) (FlowMessage_client_open_queue_ m) (FlowMessage_consumer_disconnected_ m) (FlowMessage_client_open_queue_response_ m) (FlowMessage_client_put_message_response_ m) (FlowMessage_unknown_ m).

Definition FlowMessage_has_client_open_queue (m : FlowMessage) : bool := has (FlowMessage_client_open_queue_ m).
Definition FlowMessage_client_open_queue (m : FlowMessage) : ClientOpenQueue := default ClientOpenQueue_new (FlowMessage_client_open_queue_ m).
Definition FlowMessage_set_client_open_queue (v : ClientOpenQueue) (m : FlowMessage) : FlowMessage :=
  mkFlowMessage (FlowMessage_type_ m) (FlowMessage_partition_id_ m) (FlowMessage_request_vote_request_ m) (FlowMessage_request_vote_response_ m) (FlowMessage_append_entries_request_ m) (FlowMessage_append_entries_response_ m) (FlowMessage_client_put_message_ m) (FlowMessage_client_commit_message_ m) (FlowMessage_server_send_message_ m) (Some v) (FlowMessage_consumer_disconnected_ m) (FlowMessage_client_open_queue_response_ m) (FlowMessage_client_put_message_response_ m) (FlowMessage_unknown_ m).

Definition FlowMessage_has_consumer_disconnected (m : FlowMessage) : bool := has (FlowMessage_consumer_disconnected_ m).
Definition FlowMessage_consumer_disconnected (m : FlowMessage) : ConsumerDisconnected := default ConsumerDisconnected_new (FlowMessage_consumer_disconnected_ m).
Definition FlowMessage_set_consumer_disconnected (v : ConsumerDisconnected) (m : FlowMessage) : FlowMessage :=
  mkFlowMessage (FlowMessage_type_ m) (FlowMessage_partition_id_ m) (FlowMessage_request_vote_request_ m) (FlowMessage_request_vote_response_ m) (FlowMessage_append_entries_request_ m) (FlowMessage_append_entries_response_ m) (FlowMessage_client_put_message_ m) (FlowMessage_client_commit_message_ m) (FlowMessage_server_send_message_ m) (FlowMessage_client_open_queue_ m) (Some v) (FlowMessage_client_open_queue_response_ m) (FlowMessage_client_put_message_response_ m) (FlowMessage_unknown_ m).

Definition FlowMessage_has_client_open_queue_response (m : FlowMessage) : bool := has (FlowMessage_client_open_queue_response_ m).
Definition FlowMessage_client_open_queue_response (m : FlowMessage) : ClientOpenQueueResponse := default ClientOpenQueueResponse_new (FlowMessage_client_open_queue_response_ m).
Definition FlowMessage_set_client_open_queue_response (v : ClientOpenQueueResponse) (m : FlowMessage) : FlowMessage :=
  mkFlowMessage (FlowMessage_type_ m) (FlowMessage_partition_id_ m) (FlowMessage_request_vote_request_ m) (FlowMessage_request_vote_response_ m) (FlowMessage_append_entries_request_ m) (FlowMessage_append_entries_response_ m) (FlowMessage_client_put_message_ m) (FlowMessage_client_commit_message_ m) (FlowMessage_server_send_message_ m) (FlowMessage_client_open_queue_ m) (FlowMessage_consumer_disconnected_ m) (Some v) (FlowMessage_client_put_message_response_ m) (FlowMessage_unknown_ m).

Definition FlowMessage_has_client_put_message_response (m : FlowMessage) : bool := has (FlowMessage_client_put_message_response_ m).
Definition FlowMessage_client_put_message_response (m : FlowMessage) : ClientPutMessageResponse := default ClientPutMessageResponse_new (FlowMessage_client_put_message_response_ m).
Definition FlowMessage_set_client_put_message_response (v : ClientPutMessageResponse) (m : FlowMessage) : FlowMessage :=
  mkFlowMessage (FlowMessage_type_ m) (FlowMessage_partition_id_ m) (FlowMessage_request_vote_request_ m) (FlowMessage_request_vote_response_ m) (FlowMessage_append_entries_request_ m) (FlowMessage_append_entries_response_ m) (FlowMessage_client_put_message_ m) (FlowMessage_client_commit_message_ m) (FlowMessage_server_send_message_ m) (FlowMessage_client_open_queue_ m) (FlowMessage_consumer_disconnected_ m) (FlowMessage_client_open_queue_response_ m) (Some v) (FlowMessage_unknown_ m).

Definition FlowMessage_add_unknown (u : bytes) (m : FlowMessage) : FlowMessage :=
  mkFlowMessage (FlowMessage_type_ m) (FlowMessage_partition_id_ m) (FlowMessage_request_vote_request_ m) (FlowMessage_request_vote_response_ m) (FlowMessage_append_entries_request_ m) (FlowMessage_append_entries_response_ m) (FlowMessage_client_put_message_ m) (FlowMessage_client_commit_message_ m) (FlowMessage_server_send_message_ m) (FlowMessage_client_open_queue_ m) (FlowMessage_consumer_disconnected_ m) (FlowMessage_client_open_queue_response_ m) (FlowMessage_client_put_message_response_ m) (FlowMessage_unknown_ m ++ u).

#[export] Instance FlowMessage_eq_dec : EqDecision FlowMessage.
Proof. solve_decision. Defined.
