(* ===== verification/FlowCodec.v ===== *)
(** * The protobuf classes: encoding and decoding

    The methods flow_message.pb.cc generates for each class: [Clear],
    [MergePartialFromCodedStream], [InternalSerializeWithCachedSizesToArray],
    [ByteSizeLong], [MergeFrom], [CopyFrom] and [IsInitialized]. The [for (;;)] loop that
    every [MergePartialFromCodedStream] has in the same form is [merge_loop];
    the [switch] on the field number is the definition [M_field] of each class
    [M], [None] standing for [goto handle_unusual]. The group guards
    ([cached_has_bits & mask]) around several tests of single bits only skip
    tests that fail, and are not repeated here. *)

From S2P Require Import Prelude WireFormat FlowTypes.

Local Open Scope Z_scope.

Section Codec.
Context `{RT : ProtobufRuntime}.

(** [static_cast<uint8>(tag)]. *)
Definition tag_byte (tag : Z) : Z := tag mod 256.

(** One field number per round; each round reads at least the tag, so one
    round more than the input has bytes is enough. *)
Fixpoint merge_loop {M : Type} (field : Z -> M -> bytes -> option (parsed M))
    (add_unknown : bytes -> M -> M) (fuel : nat) (m : M) (s : bytes) : parsed M :=
  match fuel with
  | O => (false, m, s)
  | S fuel =>
      let '(tag, ok, s) := ReadTagWithCutoffNoLastTag 127 s in
      match (if ok then field tag m s else None) with
      | Some (true, m, s) => merge_loop field add_unknown fuel m s
      | Some (false, m, s) => (false, m, s)
      | None =>
          if tag =? 0 then (true, m, s)
          else let '(ok, u, s) := SkipField tag s in
               if ok then merge_loop field add_unknown fuel (add_unknown u m) s
               else (false, m, s)
      end
  end.

(** [if (cached_has_bits & bit) x_ = from.x_], the has-bits or-ed. *)
Definition merge_opt {A : Type} (from mine : option A) : option A :=
  match from with Some _ => from | None => mine end.

(** ** LogEntry *)

Definition LogEntry_Clear (m : LogEntry) : LogEntry := LogEntry_new.

Definition LogEntry_field (tag : Z) (m : LogEntry) (s : bytes) : option (parsed LogEntry) :=
  match GetTagFieldNumber tag with
  | 1 => if tag_byte tag =? 8 then let '(ok, v, s) := ReadInt32 (LogEntry_index m) s in
           Some (ok, LogEntry_set_index v m, s)
         else None
  | 2 => if tag_byte tag =? 16 then let '(ok, v, s) := ReadInt32 (LogEntry_term m) s in
           Some (ok, LogEntry_set_term v m, s)
         else None
  | 3 => if tag_byte tag =? 24 then let '(ok, v, s) := ReadInt64 (LogEntry_message_id m) s in
           Some (ok, LogEntry_set_message_id v m, s)
         else None
  | 4 => if tag_byte tag =? 32 then let '(ok, v, s) := ReadInt32 (LogEntry_operation m) s in
           Some (ok, LogEntry_set_operation v m, s)
         else None
  | 5 => if tag_byte tag =? 42 then let '(ok, v, s) := ReadString (LogEntry_message m) s in
           Some (ok, LogEntry_set_message v m, s)
         else None
  | _ => None
  end.

Definition LogEntry_MergePartialFromCodedStream (m : LogEntry) (s : bytes) : parsed LogEntry :=
  merge_loop LogEntry_field LogEntry_add_unknown (S (length s)) m s.

Definition LogEntry_InternalSerializeWithCachedSizesToArray (m : LogEntry) : bytes :=
  (if LogEntry_has_index m then WriteInt32ToArray 1 (LogEntry_index m) else []) ++
  (if LogEntry_has_term m then WriteInt32ToArray 2 (LogEntry_term m) else []) ++
  (if LogEntry_has_message_id m then WriteInt64ToArray 3 (LogEntry_message_id m) else []) ++
  (if LogEntry_has_operation m then WriteInt32ToArray 4 (LogEntry_operation m) else []) ++
  (if LogEntry_has_message m then WriteStringToArray 5 (LogEntry_message m) else []) ++
  LogEntry_unknown_ m.

Definition LogEntry_RequiredFieldsByteSizeFallback (m : LogEntry) : Z :=
  (if LogEntry_has_message m then 1 + StringSize (LogEntry_message m) else 0) +
  (if LogEntry_has_index m then 1 + Int32Size (LogEntry_index m) else 0) +
  (if LogEntry_has_term m then 1 + Int32Size (LogEntry_term m) else 0) +
  (if LogEntry_has_message_id m then 1 + Int64Size (LogEntry_message_id m) else 0) +
  (if LogEntry_has_operation m then 1 + Int32Size (LogEntry_operation m) else 0).

Definition LogEntry_ByteSizeLong (m : LogEntry) : Z :=
  zlength (LogEntry_unknown_ m) +
  (if LogEntry_has_message m && LogEntry_has_index m && LogEntry_has_term m && LogEntry_has_message_id m && LogEntry_has_operation m
   then (1 + StringSize (LogEntry_message m)) +
        (1 + Int32Size (LogEntry_index m)) +
        (1 + Int32Size (LogEntry_term m)) +
        (1 + Int64Size (LogEntry_message_id m)) +
        (1 + Int32Size (LogEntry_operation m))
   else LogEntry_RequiredFieldsByteSizeFallback m).

Definition LogEntry_IsInitialized (m : LogEntry) : bool :=
  LogEntry_has_index m && LogEntry_has_term m && LogEntry_has_message_id m && LogEntry_has_operation m && LogEntry_has_message m.

Definition LogEntry_MergeFrom (from m : LogEntry) : LogEntry :=
  mkLogEntry
    (merge_opt (LogEntry_index_ from) (LogEntry_index_ m))
    (merge_opt (LogEntry_term_ from) (LogEntry_term_ m))
    (merge_opt (LogEntry_message_id_ from) (LogEntry_message_id_ m))
    (merge_opt (LogEntry_operation_ from) (LogEntry_operation_ m))
    (merge_opt (LogEntry_message_ from) (LogEntry_message_ m))
    (LogEntry_unknown_ m ++ LogEntry_unknown_ from).

Definition LogEntry_CopyFrom (from m : LogEntry) : LogEntry := LogEntry_MergeFrom from (LogEntry_Clear m).

(** ** RequestVoteRequest *)

Definition RequestVoteRequest_Clear (m : RequestVoteRequest) : RequestVoteRequest := RequestVoteRequest_new.

Definition RequestVoteRequest_field (tag : Z) (m : RequestVoteRequest) (s : bytes) : option (parsed RequestVoteRequest) :=
  match GetTagFieldNumber tag with
  | 1 => if tag_byte tag =? 8 then let '(ok, v, s) := ReadInt32 (RequestVoteRequest_term m) s in
           Some (ok, RequestVoteRequest_set_term v m, s)
         else None
  | 2 => if tag_byte tag =? 16 then let '(ok, v, s) := ReadInt32 (RequestVoteRequest_candidate_id m) s in
           Some (ok, RequestVoteRequest_set_candidate_id v m, s)
         else None
  | 3 => if tag_byte tag =? 24 then let '(ok, v, s) := ReadInt32 (RequestVoteRequest_last_log_index m) s in
           Some (ok, RequestVoteRequest_set_last_log_index v m, s)
         else None
  | 4 => if tag_byte tag =? 32 then let '(ok, v, s) := ReadInt32 (RequestVoteRequest_last_log_term m) s in
           Some (ok, RequestVoteRequest_set_last_log_term v m, s)
         else None
  | _ => None
  end.

Definition RequestVoteRequest_MergePartialFromCodedStream (m : RequestVoteRequest) (s : bytes) : parsed RequestVoteRequest :=
  merge_loop RequestVoteRequest_field RequestVoteRequest_add_unknown (S (length s)) m s.

Definition RequestVoteRequest_InternalSerializeWithCachedSizesToArray (m : RequestVoteRequest) : bytes :=
  (if RequestVoteRequest_has_term m then WriteInt32ToArray 1 (RequestVoteRequest_term m) else []) ++
  (if RequestVoteRequest_has_candidate_id m then WriteInt32ToArray 2 (RequestVoteRequest_candidate_id m) else []) ++
  (if RequestVoteRequest_has_last_log_index m then WriteInt32ToArray 3 (RequestVoteRequest_last_log_index m) else []) ++
  (if RequestVoteRequest_has_last_log_term m then WriteInt32ToArray 4 (RequestVoteRequest_last_log_term m) else []) ++
  RequestVoteRequest_unknown_ m.

Definition RequestVoteRequest_RequiredFieldsByteSizeFallback (m : RequestVoteRequest) : Z :=
  (if RequestVoteRequest_has_term m then 1 + Int32Size (RequestVoteRequest_term m) else 0) +
  (if RequestVoteRequest_has_candidate_id m then 1 + Int32Size (RequestVoteRequest_candidate_id m) else 0) +
  (if RequestVoteRequest_has_last_log_index m then 1 + Int32Size (RequestVoteRequest_last_log_index m) else 0) +
  (if RequestVoteRequest_has_last_log_term m then 1 + Int32Size (RequestVoteRequest_last_log_term m) else 0).

Definition RequestVoteRequest_ByteSizeLong (m : RequestVoteRequest) : Z :=
  zlength (RequestVoteRequest_unknown_ m) +
  (if RequestVoteRequest_has_term m && RequestVoteRequest_has_candidate_id m && RequestVoteRequest_has_last_log_index m && RequestVoteRequest_has_last_log_term m
   then (1 + Int32Size (RequestVoteRequest_term m)) +
        (1 + Int32Size (RequestVoteRequest_candidate_id m)) +
        (1 + Int32Size (RequestVoteRequest_last_log_index m)) +
        (1 + Int32Size (RequestVoteRequest_last_log_term m))
   else RequestVoteRequest_RequiredFieldsByteSizeFallback m).

Definition RequestVoteRequest_IsInitialized (m : RequestVoteRequest) : bool :=
  RequestVoteRequest_has_term m && RequestVoteRequest_has_candidate_id m && RequestVoteRequest_has_last_log_index m && RequestVoteRequest_has_last_log_term m.

Definition RequestVoteRequest_MergeFrom (from m : RequestVoteRequest) : RequestVoteRequest :=
  mkRequestVoteRequest
    (merge_opt (RequestVoteRequest_term_ from) (RequestVoteRequest_term_ m))
    (merge_opt (RequestVoteRequest_candidate_id_ from) (RequestVoteRequest_candidate_id_ m))
    (merge_opt (RequestVoteRequest_last_log_index_ from) (RequestVoteRequest_last_log_index_ m))
    (merge_opt (RequestVoteRequest_last_log_term_ from) (RequestVoteRequest_last_log_term_ m))
    (RequestVoteRequest_unknown_ m ++ RequestVoteRequest_unknown_ from).

Definition RequestVoteRequest_CopyFrom (from m : RequestVoteRequest) : RequestVoteRequest := RequestVoteRequest_MergeFrom from (RequestVoteRequest_Clear m).

(** ** RequestVoteResponse *)

Definition RequestVoteResponse_Clear (m : RequestVoteResponse) : RequestVoteResponse := RequestVoteResponse_new.

Definition RequestVoteResponse_field (tag : Z) (m : RequestVoteResponse) (s : bytes) : option (parsed RequestVoteResponse) :=
  match GetTagFieldNumber tag with
  | 1 => if tag_byte tag =? 8 then let '(ok, v, s) := ReadInt32 (RequestVoteResponse_term m) s in
           Some (ok, RequestVoteResponse_set_term v m, s)
         else None
  | 2 => if tag_byte tag =? 16 then let '(ok, v, s) := ReadInt32 (RequestVoteResponse_vote_result_term_granted m) s in
           Some (ok, RequestVoteResponse_set_vote_result_term_granted v m, s)
         else None
  | _ => None
  end.

Definition RequestVoteResponse_MergePartialFromCodedStream (m : RequestVoteResponse) (s : bytes) : parsed RequestVoteResponse :=
  merge_loop RequestVoteResponse_field RequestVoteResponse_add_unknown (S (length s)) m s.

Definition RequestVoteResponse_InternalSerializeWithCachedSizesToArray (m : RequestVoteResponse) : bytes :=
  (if RequestVoteResponse_has_term m then WriteInt32ToArray 1 (RequestVoteResponse_term m) else []) ++
  (if RequestVoteResponse_has_vote_result_term_granted m then WriteInt32ToArray 2 (RequestVoteResponse_vote_result_term_granted m) else []) ++
  RequestVoteResponse_unknown_ m.

Definition RequestVoteResponse_RequiredFieldsByteSizeFallback (m : RequestVoteResponse) : Z :=
  (if RequestVoteResponse_has_term m then 1 + Int32Size (RequestVoteResponse_term m) else 0) +
  (if RequestVoteResponse_has_vote_result_term_granted m then 1 + Int32Size (RequestVoteResponse_vote_result_term_granted m) else 0).

Definition RequestVoteResponse_ByteSizeLong (m : RequestVoteResponse) : Z :=
  zlength (RequestVoteResponse_unknown_ m) +
  (if RequestVoteResponse_has_term m && RequestVoteResponse_has_vote_result_term_granted m
   then (1 + Int32Size (RequestVoteResponse_term m)) +
        (1 + Int32Size (RequestVoteResponse_vote_result_term_granted m))
   else RequestVoteResponse_RequiredFieldsByteSizeFallback m).

Definition RequestVoteResponse_IsInitialized (m : RequestVoteResponse) : bool :=
  RequestVoteResponse_has_term m && RequestVoteResponse_has_vote_result_term_granted m.

Definition RequestVoteResponse_MergeFrom (from m : RequestVoteResponse) : RequestVoteResponse :=
  mkRequestVoteResponse
    (merge_opt (RequestVoteResponse_term_ from) (RequestVoteResponse_term_ m))
    (merge_opt (RequestVoteResponse_vote_result_term_granted_ from) (RequestVoteResponse_vote_result_term_granted_ m))
    (RequestVoteResponse_unknown_ m ++ RequestVoteResponse_unknown_ from).

Definition RequestVoteResponse_CopyFrom (from m : RequestVoteResponse) : RequestVoteResponse := RequestVoteResponse_MergeFrom from (RequestVoteResponse_Clear m).

(** ** AppendEntriesRequest *)

Definition AppendEntriesRequest_Clear (m : AppendEntriesRequest) : AppendEntriesRequest := AppendEntriesRequest_new.

Definition AppendEntriesRequest_field (tag : Z) (m : AppendEntriesRequest) (s : bytes) : option (parsed AppendEntriesRequest) :=
  match GetTagFieldNumber tag with
  | 1 => if tag_byte tag =? 8 then let '(ok, v, s) := ReadInt32 (AppendEntriesRequest_term m) s in
           Some (ok, AppendEntriesRequest_set_term v m, s)
         else None
  | 2 => if tag_byte tag =? 16 then let '(ok, v, s) := ReadInt32 (AppendEntriesRequest_leader_id m) s in
           Some (ok, AppendEntriesRequest_set_leader_id v m, s)
         else None
  | 3 => if tag_byte tag =? 24 then let '(ok, v, s) := ReadInt32 (AppendEntriesRequest_prev_log_index m) s in
           Some (ok, AppendEntriesRequest_set_prev_log_index v m, s)
         else None
  | 4 => if tag_byte tag =? 32 then let '(ok, v, s) := ReadInt32 (AppendEntriesRequest_prev_log_term m) s in
           Some (ok, AppendEntriesRequest_set_prev_log_term v m, s)
         else None
  | 5 => if tag_byte tag =? 42 then let '(ok, v, s) := ReadMessage LogEntry_MergePartialFromCodedStream LogEntry_new s in
           Some (ok, AppendEntriesRequest_set_entries (AppendEntriesRequest_entries m ++ [v]) m, s)
         else None
  | 6 => if tag_byte tag =? 48 then let '(ok, v, s) := ReadInt32 (AppendEntriesRequest_leader_commit m) s in
           Some (ok, AppendEntriesRequest_set_leader_commit v m, s)
         else None
  | _ => None
  end.

Definition AppendEntriesRequest_MergePartialFromCodedStream (m : AppendEntriesRequest) (s : bytes) : parsed AppendEntriesRequest :=
  merge_loop AppendEntriesRequest_field AppendEntriesRequest_add_unknown (S (length s)) m s.

Definition AppendEntriesRequest_InternalSerializeWithCachedSizesToArray (m : AppendEntriesRequest) : bytes :=
  (if AppendEntriesRequest_has_term m then WriteInt32ToArray 1 (AppendEntriesRequest_term m) else []) ++
  (if AppendEntriesRequest_has_leader_id m then WriteInt32ToArray 2 (AppendEntriesRequest_leader_id m) else []) ++
  (if AppendEntriesRequest_has_prev_log_index m then WriteInt32ToArray 3 (AppendEntriesRequest_prev_log_index m) else []) ++
  (if AppendEntriesRequest_has_prev_log_term m then WriteInt32ToArray 4 (AppendEntriesRequest_prev_log_term m) else []) ++
  concat (map (fun e => InternalWriteMessageToArray 5 (LogEntry_InternalSerializeWithCachedSizesToArray e)) (AppendEntriesRequest_entries m)) ++
  (if AppendEntriesRequest_has_leader_commit m then WriteInt32ToArray 6 (AppendEntriesRequest_leader_commit m) else []) ++
  AppendEntriesRequest_unknown_ m.

Definition AppendEntriesRequest_RequiredFieldsByteSizeFallback (m : AppendEntriesRequest) : Z :=
  (if AppendEntriesRequest_has_term m then 1 + Int32Size (AppendEntriesRequest_term m) else 0) +
  (if AppendEntriesRequest_has_leader_id m then 1 + Int32Size (AppendEntriesRequest_leader_id m) else 0) +
  (if AppendEntriesRequest_has_prev_log_index m then 1 + Int32Size (AppendEntriesRequest_prev_log_index m) else 0) +
  (if AppendEntriesRequest_has_prev_log_term m then 1 + Int32Size (AppendEntriesRequest_prev_log_term m) else 0) +
  (if AppendEntriesRequest_has_leader_commit m then 1 + Int32Size (AppendEntriesRequest_leader_commit m) else 0).

Definition AppendEntriesRequest_ByteSizeLong (m : AppendEntriesRequest) : Z :=
  zlength (AppendEntriesRequest_unknown_ m) +
  (if AppendEntriesRequest_has_term m && AppendEntriesRequest_has_leader_id m && AppendEntriesRequest_has_prev_log_index m && AppendEntriesRequest_has_prev_log_term m && AppendEntriesRequest_has_leader_commit m
   then (1 + Int32Size (AppendEntriesRequest_term m)) +
        (1 + Int32Size (AppendEntriesRequest_leader_id m)) +
        (1 + Int32Size (AppendEntriesRequest_prev_log_index m)) +
        (1 + Int32Size (AppendEntriesRequest_prev_log_term m)) +
        (1 + Int32Size (AppendEntriesRequest_leader_commit m))
   else AppendEntriesRequest_RequiredFieldsByteSizeFallback m) +
  (zlength (AppendEntriesRequest_entries m) +
   foldr Z.add 0 (map (fun e => MessageSize (LogEntry_ByteSizeLong e)) (AppendEntriesRequest_entries m))).

Definition AppendEntriesRequest_IsInitialized (m : AppendEntriesRequest) : bool :=
  AppendEntriesRequest_has_term m && AppendEntriesRequest_has_leader_id m && AppendEntriesRequest_has_prev_log_index m && AppendEntriesRequest_has_prev_log_term m && AppendEntriesRequest_has_leader_commit m &&
  forallb LogEntry_IsInitialized (AppendEntriesRequest_entries m).

Definition AppendEntriesRequest_MergeFrom (from m : AppendEntriesRequest) : AppendEntriesRequest :=
  mkAppendEntriesRequest
    (merge_opt (AppendEntriesRequest_term_ from) (AppendEntriesRequest_term_ m))
    (merge_opt (AppendEntriesRequest_leader_id_ from) (AppendEntriesRequest_leader_id_ m))
    (merge_opt (AppendEntriesRequest_prev_log_index_ from) (AppendEntriesRequest_prev_log_index_ m))
    (merge_opt (AppendEntriesRequest_prev_log_term_ from) (AppendEntriesRequest_prev_log_term_ m))
    (AppendEntriesRequest_entries_ m ++ AppendEntriesRequest_entries_ from)
    (merge_opt (AppendEntriesRequest_leader_commit_ from) (AppendEntriesRequest_leader_commit_ m))
    (AppendEntriesRequest_unknown_ m ++ AppendEntriesRequest_unknown_ from).

Definition AppendEntriesRequest_CopyFrom (from m : AppendEntriesRequest) : AppendEntriesRequest := AppendEntriesRequest_MergeFrom from (AppendEntriesRequest_Clear m).

(** ** AppendEntriesResponse *)

Definition AppendEntriesResponse_Clear (m : AppendEntriesResponse) : AppendEntriesResponse := AppendEntriesResponse_new.

Definition AppendEntriesResponse_field (tag : Z) (m : AppendEntriesResponse) (s : bytes) : option (parsed AppendEntriesResponse) :=
  match GetTagFieldNumber tag with
  | 1 => if tag_byte tag =? 8 then let '(ok, v, s) := ReadInt32 (AppendEntriesResponse_term m) s in
           Some (ok, AppendEntriesResponse_set_term v m, s)
         else None
  | 2 => if tag_byte tag =? 16 then let '(ok, v, s) := ReadInt32 (AppendEntriesResponse_follower_id m) s in
           Some (ok, AppendEntriesResponse_set_follower_id v m, s)
         else None
  | 3 => if tag_byte tag =? 24 then let '(ok, v, s) := ReadInt32 (AppendEntriesResponse_append_result_success m) s in
           Some (ok, AppendEntriesResponse_set_append_result_success v m, s)
         else None
  | 4 => if tag_byte tag =? 32 then let '(ok, v, s) := ReadInt32 (AppendEntriesResponse_last_index_synced m) s in
           Some (ok, AppendEntriesResponse_set_last_index_synced v m, s)
         else None
  | _ => None
  end.

Definition AppendEntriesResponse_MergePartialFromCodedStream (m : AppendEntriesResponse) (s : bytes) : parsed AppendEntriesResponse :=
  merge_loop AppendEntriesResponse_field AppendEntriesResponse_add_unknown (S (length s)) m s.

Definition AppendEntriesResponse_InternalSerializeWithCachedSizesToArray (m : AppendEntriesResponse) : bytes :=
  (if AppendEntriesResponse_has_term m then WriteInt32ToArray 1 (AppendEntriesResponse_term m) else []) ++
  (if AppendEntriesResponse_has_follower_id m then WriteInt32ToArray 2 (AppendEntriesResponse_follower_id m) else []) ++
  (if AppendEntriesResponse_has_append_result_success m then WriteInt32ToArray 3 (AppendEntriesResponse_append_result_success m) else []) ++
  (if AppendEntriesResponse_has_last_index_synced m then WriteInt32ToArray 4 (AppendEntriesResponse_last_index_synced m) else []) ++
  AppendEntriesResponse_unknown_ m.

Definition AppendEntriesResponse_RequiredFieldsByteSizeFallback (m : AppendEntriesResponse) : Z :=
  (if AppendEntriesResponse_has_term m then 1 + Int32Size (AppendEntriesResponse_term m) else 0) +
  (if AppendEntriesResponse_has_follower_id m then 1 + Int32Size (AppendEntriesResponse_follower_id m) else 0) +
  (if AppendEntriesResponse_has_append_result_success m then 1 + Int32Size (AppendEntriesResponse_append_result_success m) else 0) +
  (if AppendEntriesResponse_has_last_index_synced m then 1 + Int32Size (AppendEntriesResponse_last_index_synced m) else 0).

Definition AppendEntriesResponse_ByteSizeLong (m : AppendEntriesResponse) : Z :=
  zlength (AppendEntriesResponse_unknown_ m) +
  (if AppendEntriesResponse_has_term m && AppendEntriesResponse_has_follower_id m && AppendEntriesResponse_has_append_result_success m && AppendEntriesResponse_has_last_index_synced m
   then (1 + Int32Size (AppendEntriesResponse_term m)) +
        (1 + Int32Size (AppendEntriesResponse_follower_id m)) +
        (1 + Int32Size (AppendEntriesResponse_append_result_success m)) +
        (1 + Int32Size (AppendEntriesResponse_last_index_synced m))
   else AppendEntriesResponse_RequiredFieldsByteSizeFallback m).

Definition AppendEntriesResponse_IsInitialized (m : AppendEntriesResponse) : bool :=
  AppendEntriesResponse_has_term m && AppendEntriesResponse_has_follower_id m && AppendEntriesResponse_has_append_result_success m && AppendEntriesResponse_has_last_index_synced m.

Definition AppendEntriesResponse_MergeFrom (from m : AppendEntriesResponse) : AppendEntriesResponse :=
  mkAppendEntriesResponse
    (merge_opt (AppendEntriesResponse_term_ from) (AppendEntriesResponse_term_ m))
    (merge_opt (AppendEntriesResponse_follower_id_ from) (AppendEntriesResponse_follower_id_ m))
    (merge_opt (AppendEntriesResponse_append_result_success_ from) (AppendEntriesResponse_append_result_success_ m))
    (merge_opt (AppendEntriesResponse_last_index_synced_ from) (AppendEntriesResponse_last_index_synced_ m))
    (AppendEntriesResponse_unknown_ m ++ AppendEntriesResponse_unknown_ from).

Definition AppendEntriesResponse_CopyFrom (from m : AppendEntriesResponse) : AppendEntriesResponse := AppendEntriesResponse_MergeFrom from (AppendEntriesResponse_Clear m).

(** ** ClientPutMessage *)

Definition ClientPutMessage_Clear (m : ClientPutMessage) : ClientPutMessage := ClientPutMessage_new.

Definition ClientPutMessage_field (tag : Z) (m : ClientPutMessage) (s : bytes) : option (parsed ClientPutMessage) :=
  match GetTagFieldNumber tag with
  | 1 => if tag_byte tag =? 10 then let '(ok, v, s) := ReadString (ClientPutMessage_message m) s in
           Some (ok, ClientPutMessage_set_message v m, s)
         else None
  | 2 => if tag_byte tag =? 16 then let '(ok, v, s) := ReadInt64 (ClientPutMessage_message_id m) s in
           Some (ok, ClientPutMessage_set_message_id v m, s)
         else None
  | _ => None
  end.

Definition ClientPutMessage_MergePartialFromCodedStream (m : ClientPutMessage) (s : bytes) : parsed ClientPutMessage :=
  merge_loop ClientPutMessage_field ClientPutMessage_add_unknown (S (length s)) m s.

Definition ClientPutMessage_InternalSerializeWithCachedSizesToArray (m : ClientPutMessage) : bytes :=
  (if ClientPutMessage_has_message m then WriteStringToArray 1 (ClientPutMessage_message m) else []) ++
  (if ClientPutMessage_has_message_id m then WriteInt64ToArray 2 (ClientPutMessage_message_id m) else []) ++
  ClientPutMessage_unknown_ m.

Definition ClientPutMessage_ByteSizeLong (m : ClientPutMessage) : Z :=
  zlength (ClientPutMessage_unknown_ m) +
  (if ClientPutMessage_has_message m then 1 + StringSize (ClientPutMessage_message m) else 0) +
  (if ClientPutMessage_has_message_id m then 1 + Int64Size (ClientPutMessage_message_id m) else 0).

Definition ClientPutMessage_IsInitialized (m : ClientPutMessage) : bool :=
  ClientPutMessage_has_message m.

Definition ClientPutMessage_MergeFrom (from m : ClientPutMessage) : ClientPutMessage :=
  mkClientPutMessage
    (merge_opt (ClientPutMessage_message_ from) (ClientPutMessage_message_ m))
    (merge_opt (ClientPutMessage_message_id_ from) (ClientPutMessage_message_id_ m))
    (ClientPutMessage_unknown_ m ++ ClientPutMessage_unknown_ from).

Definition ClientPutMessage_CopyFrom (from m : ClientPutMessage) : ClientPutMessage := ClientPutMessage_MergeFrom from (ClientPutMessage_Clear m).

(** ** ClientPutMessageResponse *)

Definition ClientPutMessageResponse_Clear (m : ClientPutMessageResponse) : ClientPutMessageResponse := ClientPutMessageResponse_new.

Definition ClientPutMessageResponse_field (tag : Z) (m : ClientPutMessageResponse) (s : bytes) : option (parsed ClientPutMessageResponse) :=
  match GetTagFieldNumber tag with
  | 1 => if tag_byte tag =? 8 then let '(ok, v, s) := ReadInt64 (ClientPutMessageResponse_message_id m) s in
           Some (ok, ClientPutMessageResponse_set_message_id v m, s)
         else None
  | 2 => if tag_byte tag =? 16 then let '(ok, v, s) := ReadEnum s in
           if ok then
             match Status_of_value v with
             | Some e => Some (true, ClientPutMessageResponse_set_status e m, s)
             | None => Some (true, ClientPutMessageResponse_add_unknown (AddVarint 2 (v mod 2 ^ 64)) m, s)
             end
           else Some (false, m, s)
         else None
  | 3 => if tag_byte tag =? 26 then let '(ok, v, s) := ReadString (ClientPutMessageResponse_error_message m) s in
           Some (ok, ClientPutMessageResponse_set_error_message v m, s)
         else None
  | _ => None
  end.

Definition ClientPutMessageResponse_MergePartialFromCodedStream (m : ClientPutMessageResponse) (s : bytes) : parsed ClientPutMessageResponse :=
  merge_loop ClientPutMessageResponse_field ClientPutMessageResponse_add_unknown (S (length s)) m s.

Definition ClientPutMessageResponse_InternalSerializeWithCachedSizesToArray (m : ClientPutMessageResponse) : bytes :=
  (if ClientPutMessageResponse_has_message_id m then WriteInt64ToArray 1 (ClientPutMessageResponse_message_id m) else []) ++
  (if ClientPutMessageResponse_has_status m then WriteEnumToArray 2 (Status_value (ClientPutMessageResponse_status m)) else []) ++
  (if ClientPutMessageResponse_has_error_message m then WriteStringToArray 3 (ClientPutMessageResponse_error_message m) else []) ++
  ClientPutMessageResponse_unknown_ m.

Definition ClientPutMessageResponse_RequiredFieldsByteSizeFallback (m : ClientPutMessageResponse) : Z :=
  (if ClientPutMessageResponse_has_error_message m then 1 + StringSize (ClientPutMessageResponse_error_message m) else 0) +
  (if ClientPutMessageResponse_has_message_id m then 1 + Int64Size (ClientPutMessageResponse_message_id m) else 0) +
  (if ClientPutMessageResponse_has_status m then 1 + EnumSize (Status_value (ClientPutMessageResponse_status m)) else 0).

Definition ClientPutMessageResponse_ByteSizeLong (m : ClientPutMessageResponse) : Z :=
  zlength (ClientPutMessageResponse_unknown_ m) +
  (if ClientPutMessageResponse_has_error_message m && ClientPutMessageResponse_has_message_id m && ClientPutMessageResponse_has_status m
   then (1 + StringSize (ClientPutMessageResponse_error_message m)) +
        (1 + Int64Size (ClientPutMessageResponse_message_id m)) +
        (1 + EnumSize (Status_value (ClientPutMessageResponse_status m)))
   else ClientPutMessageResponse_RequiredFieldsByteSizeFallback m).

Definition ClientPutMessageResponse_IsInitialized (m : ClientPutMessageResponse) : bool :=
  ClientPutMessageResponse_has_message_id m && ClientPutMessageResponse_has_status m && ClientPutMessageResponse_has_error_message m.

Definition ClientPutMessageResponse_MergeFrom (from m : ClientPutMessageResponse) : ClientPutMessageResponse :=
  mkClientPutMessageResponse
    (merge_opt (ClientPutMessageResponse_message_id_ from) (ClientPutMessageResponse_message_id_ m))
    (merge_opt (ClientPutMessageResponse_status_ from) (ClientPutMessageResponse_status_ m))
    (merge_opt (ClientPutMessageResponse_error_message_ from) (ClientPutMessageResponse_error_message_ m))
    (ClientPutMessageResponse_unknown_ m ++ ClientPutMessageResponse_unknown_ from).

Definition ClientPutMessageResponse_CopyFrom (from m : ClientPutMessageResponse) : ClientPutMessageResponse := ClientPutMessageResponse_MergeFrom from (ClientPutMessageResponse_Clear m).

(** ** ClientCommitMessage *)

Definition ClientCommitMessage_Clear (m : ClientCommitMessage) : ClientCommitMessage := ClientCommitMessage_new.

Definition ClientCommitMessage_field (tag : Z) (m : ClientCommitMessage) (s : bytes) : option (parsed ClientCommitMessage) :=
  match GetTagFieldNumber tag with
  | 1 => if tag_byte tag =? 8 then let '(ok, v, s) := ReadInt64 (ClientCommitMessage_message_id m) s in
           Some (ok, ClientCommitMessage_set_message_id v m, s)
         else None
  | _ => None
  end.

Definition ClientCommitMessage_MergePartialFromCodedStream (m : ClientCommitMessage) (s : bytes) : parsed ClientCommitMessage :=
  merge_loop ClientCommitMessage_field ClientCommitMessage_add_unknown (S (length s)) m s.

Definition ClientCommitMessage_InternalSerializeWithCachedSizesToArray (m : ClientCommitMessage) : bytes :=
  (if ClientCommitMessage_has_message_id m then WriteInt64ToArray 1 (ClientCommitMessage_message_id m) else []) ++
  ClientCommitMessage_unknown_ m.

Definition ClientCommitMessage_ByteSizeLong (m : ClientCommitMessage) : Z :=
  zlength (ClientCommitMessage_unknown_ m) +
  (if ClientCommitMessage_has_message_id m then 1 + Int64Size (ClientCommitMessage_message_id m) else 0).

Definition ClientCommitMessage_IsInitialized (m : ClientCommitMessage) : bool :=
  ClientCommitMessage_has_message_id m.

Definition ClientCommitMessage_MergeFrom (from m : ClientCommitMessage) : ClientCommitMessage :=
  mkClientCommitMessage
    (merge_opt (ClientCommitMessage_message_id_ from) (ClientCommitMessage_message_id_ m))
    (ClientCommitMessage_unknown_ m ++ ClientCommitMessage_unknown_ from).

Definition ClientCommitMessage_CopyFrom (from m : ClientCommitMessage) : ClientCommitMessage := ClientCommitMessage_MergeFrom from (ClientCommitMessage_Clear m).

(** ** ServerSendMessage *)

Definition ServerSendMessage_Clear (m : ServerSendMessage) : ServerSendMessage := ServerSendMessage_new.

Definition ServerSendMessage_field (tag : Z) (m : ServerSendMessage) (s : bytes) : option (parsed ServerSendMessage) :=
  match GetTagFieldNumber tag with
  | 1 => if tag_byte tag =? 8 then let '(ok, v, s) := ReadInt64 (ServerSendMessage_message_id m) s in
           Some (ok, ServerSendMessage_set_message_id v m, s)
         else None
  | 2 => if tag_byte tag =? 18 then let '(ok, v, s) := ReadString (ServerSendMessage_message m) s in
           Some (ok, ServerSendMessage_set_message v m, s)
         else None
  | _ => None
  end.

Definition ServerSendMessage_MergePartialFromCodedStream (m : ServerSendMessage) (s : bytes) : parsed ServerSendMessage :=
  merge_loop ServerSendMessage_field ServerSendMessage_add_unknown (S (length s)) m s.

Definition ServerSendMessage_InternalSerializeWithCachedSizesToArray (m : ServerSendMessage) : bytes :=
  (if ServerSendMessage_has_message_id m then WriteInt64ToArray 1 (ServerSendMessage_message_id m) else []) ++
  (if ServerSendMessage_has_message m then WriteStringToArray 2 (ServerSendMessage_message m) else []) ++
  ServerSendMessage_unknown_ m.

Definition ServerSendMessage_RequiredFieldsByteSizeFallback (m : ServerSendMessage) : Z :=
  (if ServerSendMessage_has_message m then 1 + StringSize (ServerSendMessage_message m) else 0) +
  (if ServerSendMessage_has_message_id m then 1 + Int64Size (ServerSendMessage_message_id m) else 0).

Definition ServerSendMessage_ByteSizeLong (m : ServerSendMessage) : Z :=
  zlength (ServerSendMessage_unknown_ m) +
  (if ServerSendMessage_has_message m && ServerSendMessage_has_message_id m
   then (1 + StringSize (ServerSendMessage_message m)) +
        (1 + Int64Size (ServerSendMessage_message_id m))
   else ServerSendMessage_RequiredFieldsByteSizeFallback m).

Definition ServerSendMessage_IsInitialized (m : ServerSendMessage) : bool :=
  ServerSendMessage_has_message_id m && ServerSendMessage_has_message m.

Definition ServerSendMessage_MergeFrom (from m : ServerSendMessage) : ServerSendMessage :=
  mkServerSendMessage
    (merge_opt (ServerSendMessage_message_id_ from) (ServerSendMessage_message_id_ m))
    (merge_opt (ServerSendMessage_message_ from) (ServerSendMessage_message_ m))
    (ServerSendMessage_unknown_ m ++ ServerSendMessage_unknown_ from).

Definition ServerSendMessage_CopyFrom (from m : ServerSendMessage) : ServerSendMessage := ServerSendMessage_MergeFrom from (ServerSendMessage_Clear m).

(** ** ClientOpenQueue *)

Definition ClientOpenQueue_Clear (m : ClientOpenQueue) : ClientOpenQueue := ClientOpenQueue_new.

Definition ClientOpenQueue_field (tag : Z) (m : ClientOpenQueue) (s : bytes) : option (parsed ClientOpenQueue) :=
  match GetTagFieldNumber tag with
  | 1 => if tag_byte tag =? 8 then let '(ok, v, s) := ReadInt32 (ClientOpenQueue_open_mode m) s in
           Some (ok, ClientOpenQueue_set_open_mode v m, s)
         else None
  | 2 => if tag_byte tag =? 18 then let '(ok, v, s) := ReadString (ClientOpenQueue_queue_name m) s in
           Some (ok, ClientOpenQueue_set_queue_name v m, s)
         else None
  | _ => None
  end.

Definition ClientOpenQueue_MergePartialFromCodedStream (m : ClientOpenQueue) (s : bytes) : parsed ClientOpenQueue :=
  merge_loop ClientOpenQueue_field ClientOpenQueue_add_unknown (S (length s)) m s.

Definition ClientOpenQueue_InternalSerializeWithCachedSizesToArray (m : ClientOpenQueue) : bytes :=
  (if ClientOpenQueue_has_open_mode m then WriteInt32ToArray 1 (ClientOpenQueue_open_mode m) else []) ++
  (if ClientOpenQueue_has_queue_name m then WriteStringToArray 2 (ClientOpenQueue_queue_name m) else []) ++
  ClientOpenQueue_unknown_ m.

Definition ClientOpenQueue_RequiredFieldsByteSizeFallback (m : ClientOpenQueue) : Z :=
  (if ClientOpenQueue_has_queue_name m then 1 + StringSize (ClientOpenQueue_queue_name m) else 0) +
  (if ClientOpenQueue_has_open_mode m then 1 + Int32Size (ClientOpenQueue_open_mode m) else 0).

Definition ClientOpenQueue_ByteSizeLong (m : ClientOpenQueue) : Z :=
  zlength (ClientOpenQueue_unknown_ m) +
  (if ClientOpenQueue_has_queue_name m && ClientOpenQueue_has_open_mode m
   then (1 + StringSize (ClientOpenQueue_queue_name m)) +
        (1 + Int32Size (ClientOpenQueue_open_mode m))
   else ClientOpenQueue_RequiredFieldsByteSizeFallback m).

Definition ClientOpenQueue_IsInitialized (m : ClientOpenQueue) : bool :=
  ClientOpenQueue_has_open_mode m && ClientOpenQueue_has_queue_name m.

Definition ClientOpenQueue_MergeFrom (from m : ClientOpenQueue) : ClientOpenQueue :=
  mkClientOpenQueue
    (merge_opt (ClientOpenQueue_open_mode_ from) (ClientOpenQueue_open_mode_ m))
    (merge_opt (ClientOpenQueue_queue_name_ from) (ClientOpenQueue_queue_name_ m))
    (ClientOpenQueue_unknown_ m ++ ClientOpenQueue_unknown_ from).

Definition ClientOpenQueue_CopyFrom (from m : ClientOpenQueue) : ClientOpenQueue := ClientOpenQueue_MergeFrom from (ClientOpenQueue_Clear m).

(** ** ClientOpenQueueResponse *)

Definition ClientOpenQueueResponse_Clear (m : ClientOpenQueueResponse) : ClientOpenQueueResponse := ClientOpenQueueResponse_new.

Definition ClientOpenQueueResponse_field (tag : Z) (m : ClientOpenQueueResponse) (s : bytes) : option (parsed ClientOpenQueueResponse) :=
  match GetTagFieldNumber tag with
  | 1 => if tag_byte tag =? 8 then let '(ok, v, s) := ReadEnum s in
           if ok then
             match Status_of_value v with
             | Some e => Some (true, ClientOpenQueueResponse_set_status e m, s)
             | None => Some (true, ClientOpenQueueResponse_add_unknown (AddVarint 1 (v mod 2 ^ 64)) m, s)
             end
           else Some (false, m, s)
         else None
  | 2 => if tag_byte tag =? 18 then let '(ok, v, s) := ReadString (ClientOpenQueueResponse_error_message m) s in
           Some (ok, ClientOpenQueueResponse_set_error_message v m, s)
         else None
  | 3 => if tag_byte tag =? 26 then let '(ok, v, s) := ReadString (ClientOpenQueueResponse_leader_ip m) s in
           Some (ok, ClientOpenQueueResponse_set_leader_ip v m, s)
         else None
  | 4 => if tag_byte tag =? 34 then let '(ok, v, s) := ReadString (ClientOpenQueueResponse_leader_port m) s in
           Some (ok, ClientOpenQueueResponse_set_leader_port v m, s)
         else None
  | _ => None
  end.

Definition ClientOpenQueueResponse_MergePartialFromCodedStream (m : ClientOpenQueueResponse) (s : bytes) : parsed ClientOpenQueueResponse :=
  merge_loop ClientOpenQueueResponse_field ClientOpenQueueResponse_add_unknown (S (length s)) m s.

Definition ClientOpenQueueResponse_InternalSerializeWithCachedSizesToArray (m : ClientOpenQueueResponse) : bytes :=
  (if ClientOpenQueueResponse_has_status m then WriteEnumToArray 1 (Status_value (ClientOpenQueueResponse_status m)) else []) ++
  (if ClientOpenQueueResponse_has_error_message m then WriteStringToArray 2 (ClientOpenQueueResponse_error_message m) else []) ++
  (if ClientOpenQueueResponse_has_leader_ip m then WriteStringToArray 3 (ClientOpenQueueResponse_leader_ip m) else []) ++
  (if ClientOpenQueueResponse_has_leader_port m then WriteStringToArray 4 (ClientOpenQueueResponse_leader_port m) else []) ++
  ClientOpenQueueResponse_unknown_ m.

Definition ClientOpenQueueResponse_RequiredFieldsByteSizeFallback (m : ClientOpenQueueResponse) : Z :=
  (if ClientOpenQueueResponse_has_error_message m then 1 + StringSize (ClientOpenQueueResponse_error_message m) else 0) +
  (if ClientOpenQueueResponse_has_status m then 1 + EnumSize (Status_value (ClientOpenQueueResponse_status m)) else 0).

Definition ClientOpenQueueResponse_ByteSizeLong (m : ClientOpenQueueResponse) : Z :=
  zlength (ClientOpenQueueResponse_unknown_ m) +
  (if ClientOpenQueueResponse_has_error_message m && ClientOpenQueueResponse_has_status m
   then (1 + StringSize (ClientOpenQueueResponse_error_message m)) +
        (1 + EnumSize (Status_value (ClientOpenQueueResponse_status m)))
   else ClientOpenQueueResponse_RequiredFieldsByteSizeFallback m) +
  (if ClientOpenQueueResponse_has_leader_ip m then 1 + StringSize (ClientOpenQueueResponse_leader_ip m) else 0) +
  (if ClientOpenQueueResponse_has_leader_port m then 1 + StringSize (ClientOpenQueueResponse_leader_port m) else 0).

Definition ClientOpenQueueResponse_IsInitialized (m : ClientOpenQueueResponse) : bool :=
  ClientOpenQueueResponse_has_status m && ClientOpenQueueResponse_has_error_message m.

Definition ClientOpenQueueResponse_MergeFrom (from m : ClientOpenQueueResponse) : ClientOpenQueueResponse :=
  mkClientOpenQueueResponse
    (merge_opt (ClientOpenQueueResponse_status_ from) (ClientOpenQueueResponse_status_ m))
    (merge_opt (ClientOpenQueueResponse_error_message_ from) (ClientOpenQueueResponse_error_message_ m))
    (merge_opt (ClientOpenQueueResponse_leader_ip_ from) (ClientOpenQueueResponse_leader_ip_ m))
    (merge_opt (ClientOpenQueueResponse_leader_port_ from) (ClientOpenQueueResponse_leader_port_ m))
    (ClientOpenQueueResponse_unknown_ m ++ ClientOpenQueueResponse_unknown_ from).

Definition ClientOpenQueueResponse_CopyFrom (from m : ClientOpenQueueResponse) : ClientOpenQueueResponse := ClientOpenQueueResponse_MergeFrom from (ClientOpenQueueResponse_Clear m).

(** ** ConsumerDisconnected *)

Definition ConsumerDisconnected_Clear (m : ConsumerDisconnected) : ConsumerDisconnected := ConsumerDisconnected_new.

Definition ConsumerDisconnected_field (tag : Z) (m : ConsumerDisconnected) (s : bytes) : option (parsed ConsumerDisconnected) :=
  match GetTagFieldNumber tag with
  | 1 => if tag_byte tag =? 8 then let '(ok, v, s) := ReadInt32 (ConsumerDisconnected_client_id m) s in
           Some (ok, ConsumerDisconnected_set_client_id v m, s)
         else None
  | _ => None
  end.

Definition ConsumerDisconnected_MergePartialFromCodedStream (m : ConsumerDisconnected) (s : bytes) : parsed ConsumerDisconnected :=
  merge_loop ConsumerDisconnected_field ConsumerDisconnected_add_unknown (S (length s)) m s.

Definition ConsumerDisconnected_InternalSerializeWithCachedSizesToArray (m : ConsumerDisconnected) : bytes :=
  (if ConsumerDisconnected_has_client_id m then WriteInt32ToArray 1 (ConsumerDisconnected_client_id m) else []) ++
  ConsumerDisconnected_unknown_ m.

Definition ConsumerDisconnected_ByteSizeLong (m : ConsumerDisconnected) : Z :=
  zlength (ConsumerDisconnected_unknown_ m) +
  (if ConsumerDisconnected_has_client_id m then 1 + Int32Size (ConsumerDisconnected_client_id m) else 0).

Definition ConsumerDisconnected_IsInitialized (m : ConsumerDisconnected) : bool :=
  ConsumerDisconnected_has_client_id m.

Definition ConsumerDisconnected_MergeFrom (from m : ConsumerDisconnected) : ConsumerDisconnected :=
  mkConsumerDisconnected
    (merge_opt (ConsumerDisconnected_client_id_ from) (ConsumerDisconnected_client_id_ m))
    (ConsumerDisconnected_unknown_ m ++ ConsumerDisconnected_unknown_ from).

Definition ConsumerDisconnected_CopyFrom (from m : ConsumerDisconnected) : ConsumerDisconnected := ConsumerDisconnected_MergeFrom from (ConsumerDisconnected_Clear m).

(** ** FlowMessage *)

Definition FlowMessage_Clear (m : FlowMessage) : FlowMessage := FlowMessage_new.

Definition FlowMessage_field (tag : Z) (m : FlowMessage) (s : bytes) : option (parsed FlowMessage) :=
  match GetTagFieldNumber tag with
  | 1 => if tag_byte tag =? 8 then let '(ok, v, s) := ReadEnum s in
           if ok then
             match MessageType_of_value v with
             | Some e => Some (true, FlowMessage_set_type e m, s)
             | None => Some (true, FlowMessage_add_unknown (AddVarint 1 (v mod 2 ^ 64)) m, s)
             end
           else Some (false, m, s)
         else None
  | 2 => if tag_byte tag =? 16 then let '(ok, v, s) := ReadInt64 (FlowMessage_partition_id m) s in
           Some (ok, FlowMessage_set_partition_id v m, s)
         else None
  | 3 => if tag_byte tag =? 26 then let '(ok, v, s) := ReadMessage RequestVoteRequest_MergePartialFromCodedStream (FlowMessage_request_vote_request m) s in
           Some (ok, FlowMessage_set_request_vote_request v m, s)
         else None
  | 4 => if tag_byte tag =? 34 then let '(ok, v, s) := ReadMessage RequestVoteResponse_MergePartialFromCodedStream (FlowMessage_request_vote_response m) s in
           Some (ok, FlowMessage_set_request_vote_response v m, s)
         else None
  | 5 => if tag_byte tag =? 42 then let '(ok, v, s) := ReadMessage AppendEntriesRequest_MergePartialFromCodedStream (FlowMessage_append_entries_request m) s in
           Some (ok, FlowMessage_set_append_entries_request v m, s)
         else None
  | 6 => if tag_byte tag =? 50 then let '(ok, v, s) := ReadMessage AppendEntriesResponse_MergePartialFromCodedStream (FlowMessage_append_entries_response m) s in
           Some (ok, FlowMessage_set_append_entries_response v m, s)
         else None
  | 7 => if tag_byte tag =? 58 then let '(ok, v, s) := ReadMessage ClientPutMessage_MergePartialFromCodedStream (FlowMessage_client_put_message m) s in
           Some (ok, FlowMessage_set_client_put_message v m, s)
         else None
  | 8 => if tag_byte tag =? 66 then let '(ok, v, s) := ReadMessage ClientCommitMessage_MergePartialFromCodedStream (FlowMessage_client_commit_message m) s in
           Some (ok, FlowMessage_set_client_commit_message v m, s)
         else None
  | 9 => if tag_byte tag =? 74 then let '(ok, v, s) := ReadMessage ServerSendMessage_MergePartialFromCodedStream (FlowMessage_server_send_message m) s in
           Some (ok, FlowMessage_set_server_send_message v m, s)
         else None
  | 10 => if tag_byte tag =? 82 then let '(ok, v, s) := ReadMessage ClientOpenQueue_MergePartialFromCodedStream (FlowMessage_client_open_queue m) s in
           Some (ok, FlowMessage_set_client_open_queue v m, s)
         else None
  | 11 => if tag_byte tag =? 90 then let '(ok, v, s) := ReadMessage ConsumerDisconnected_MergePartialFromCodedStream (FlowMessage_consumer_disconnected m) s in
           Some (ok, FlowMessage_set_consumer_disconnected v m, s)
         else None
  | 12 => if tag_byte tag =? 98 then let '(ok, v, s) := ReadMessage ClientOpenQueueResponse_MergePartialFromCodedStream (FlowMessage_client_open_queue_response m) s in
           Some (ok, FlowMessage_set_client_open_queue_response v m, s)
         else None
  | 13 => if tag_byte tag =? 106 then let '(ok, v, s) := ReadMessage ClientPutMessageResponse_MergePartialFromCodedStream (FlowMessage_client_put_message_response m) s in
           Some (ok, FlowMessage_set_client_put_message_response v m, s)
         else None
  | _ => None
  end.

Definition FlowMessage_MergePartialFromCodedStream (m : FlowMessage) (s : bytes) : parsed FlowMessage :=
  merge_loop FlowMessage_field FlowMessage_add_unknown (S (length s)) m s.

Definition FlowMessage_InternalSerializeWithCachedSizesToArray (m : FlowMessage) : bytes :=
  (if FlowMessage_has_type m then WriteEnumToArray 1 (MessageType_value (FlowMessage_type m)) else []) ++
  (if FlowMessage_has_partition_id m then WriteInt64ToArray 2 (FlowMessage_partition_id m) else []) ++
  (if FlowMessage_has_request_vote_request m then InternalWriteMessageToArray 3 (RequestVoteRequest_InternalSerializeWithCachedSizesToArray (FlowMessage_request_vote_request m)) else []) ++
  (if FlowMessage_has_request_vote_response m then InternalWriteMessageToArray 4 (RequestVoteResponse_InternalSerializeWithCachedSizesToArray (FlowMessage_request_vote_response m)) else []) ++
  (if FlowMessage_has_append_entries_request m then InternalWriteMessageToArray 5 (AppendEntriesRequest_InternalSerializeWithCachedSizesToArray (FlowMessage_append_entries_request m)) else []) ++
  (if FlowMessage_has_append_entries_response m then InternalWriteMessageToArray 6 (AppendEntriesResponse_InternalSerializeWithCachedSizesToArray (FlowMessage_append_entries_response m)) else []) ++
  (if FlowMessage_has_client_put_message m then InternalWriteMessageToArray 7 (ClientPutMessage_InternalSerializeWithCachedSizesToArray (FlowMessage_client_put_message m)) else []) ++
  (if FlowMessage_has_client_commit_message m then InternalWriteMessageToArray 8 (ClientCommitMessage_InternalSerializeWithCachedSizesToArray (FlowMessage_client_commit_message m)) else []) ++
  (if FlowMessage_has_server_send_message m then InternalWriteMessageToArray 9 (ServerSendMessage_InternalSerializeWithCachedSizesToArray (FlowMessage_server_send_message m)) else []) ++
  (if FlowMessage_has_client_open_queue m then InternalWriteMessageToArray 10 (ClientOpenQueue_InternalSerializeWithCachedSizesToArray (FlowMessage_client_open_queue m)) else []) ++
  (if FlowMessage_has_consumer_disconnected m then InternalWriteMessageToArray 11 (ConsumerDisconnected_InternalSerializeWithCachedSizesToArray (FlowMessage_consumer_disconnected m)) else []) ++
  (if FlowMessage_has_client_open_queue_response m then InternalWriteMessageToArray 12 (ClientOpenQueueResponse_InternalSerializeWithCachedSizesToArray (FlowMessage_client_open_queue_response m)) else []) ++
  (if FlowMessage_has_client_put_message_response m then InternalWriteMessageToArray 13 (ClientPutMessageResponse_InternalSerializeWithCachedSizesToArray (FlowMessage_client_put_message_response m)) else []) ++
  FlowMessage_unknown_ m.

Definition FlowMessage_ByteSizeLong (m : FlowMessage) : Z :=
  zlength (FlowMessage_unknown_ m) +
  (if FlowMessage_has_type m then 1 + EnumSize (MessageType_value (FlowMessage_type m)) else 0) +
  (if FlowMessage_has_request_vote_request m then 1 + MessageSize (RequestVoteRequest_ByteSizeLong (FlowMessage_request_vote_request m)) else 0) +
  (if FlowMessage_has_request_vote_response m then 1 + MessageSize (RequestVoteResponse_ByteSizeLong (FlowMessage_request_vote_response m)) else 0) +
  (if FlowMessage_has_append_entries_request m then 1 + MessageSize (AppendEntriesRequest_ByteSizeLong (FlowMessage_append_entries_request m)) else 0) +
  (if FlowMessage_has_append_entries_response m then 1 + MessageSize (AppendEntriesResponse_ByteSizeLong (FlowMessage_append_entries_response m)) else 0) +
  (if FlowMessage_has_client_put_message m then 1 + MessageSize (ClientPutMessage_ByteSizeLong (FlowMessage_client_put_message m)) else 0) +
  (if FlowMessage_has_client_commit_message m then 1 + MessageSize (ClientCommitMessage_ByteSizeLong (FlowMessage_client_commit_message m)) else 0) +
  (if FlowMessage_has_server_send_message m then 1 + MessageSize (ServerSendMessage_ByteSizeLong (FlowMessage_server_send_message m)) else 0) +
  (if FlowMessage_has_client_open_queue m then 1 + MessageSize (ClientOpenQueue_ByteSizeLong (FlowMessage_client_open_queue m)) else 0) +
  (if FlowMessage_has_consumer_disconnected m then 1 + MessageSize (ConsumerDisconnected_ByteSizeLong (FlowMessage_consumer_disconnected m)) else 0) +
  (if FlowMessage_has_client_open_queue_response m then 1 + MessageSize (ClientOpenQueueResponse_ByteSizeLong (FlowMessage_client_open_queue_response m)) else 0) +
  (if FlowMessage_has_client_put_message_response m then 1 + MessageSize (ClientPutMessageResponse_ByteSizeLong (FlowMessage_client_put_message_response m)) else 0) +
  (if FlowMessage_has_partition_id m then 1 + Int64Size (FlowMessage_partition_id m) else 0).

Definition FlowMessage_IsInitialized (m : FlowMessage) : bool :=
  FlowMessage_has_type m &&
  (if FlowMessage_has_request_vote_request m then RequestVoteRequest_IsInitialized (FlowMessage_request_vote_request m) else true) &&
  (if FlowMessage_has_request_vote_response m then RequestVoteResponse_IsInitialized (FlowMessage_request_vote_response m) else true) &&
  (if FlowMessage_has_append_entries_request m then AppendEntriesRequest_IsInitialized (FlowMessage_append_entries_request m) else true) &&
  (if FlowMessage_has_append_entries_response m then AppendEntriesResponse_IsInitialized (FlowMessage_append_entries_response m) else true) &&
  (if FlowMessage_has_client_put_message m then ClientPutMessage_IsInitialized (FlowMessage_client_put_message m) else true) &&
  (if FlowMessage_has_client_commit_message m then ClientCommitMessage_IsInitialized (FlowMessage_client_commit_message m) else true) &&
  (if FlowMessage_has_server_send_message m then ServerSendMessage_IsInitialized (FlowMessage_server_send_message m) else true) &&
  (if FlowMessage_has_client_open_queue m then ClientOpenQueue_IsInitialized (FlowMessage_client_open_queue m) else true) &&
  (if FlowMessage_has_consumer_disconnected m then ConsumerDisconnected_IsInitialized (FlowMessage_consumer_disconnected m) else true) &&
  (if FlowMessage_has_client_open_queue_response m then ClientOpenQueueResponse_IsInitialized (FlowMessage_client_open_queue_response m) else true) &&
  (if FlowMessage_has_client_put_message_response m then ClientPutMessageResponse_IsInitialized (FlowMessage_client_put_message_response m) else true).

Definition FlowMessage_MergeFrom (from m : FlowMessage) : FlowMessage :=
  mkFlowMessage
    (merge_opt (FlowMessage_type_ from) (FlowMessage_type_ m))
    (merge_opt (FlowMessage_partition_id_ from) (FlowMessage_partition_id_ m))
    (if FlowMessage_has_request_vote_request from then Some (RequestVoteRequest_MergeFrom (FlowMessage_request_vote_request from) (FlowMessage_request_vote_request m)) else FlowMessage_request_vote_request_ m)
    (if FlowMessage_has_request_vote_response from then Some (RequestVoteResponse_MergeFrom (FlowMessage_request_vote_response from) (FlowMessage_request_vote_response m)) else FlowMessage_request_vote_response_ m)
    (if FlowMessage_has_append_entries_request from then Some (AppendEntriesRequest_MergeFrom (FlowMessage_append_entries_request from) (FlowMessage_append_entries_request m)) else FlowMessage_append_entries_request_ m)
    (if FlowMessage_has_append_entries_response from then Some (AppendEntriesResponse_MergeFrom (FlowMessage_append_entries_response from) (FlowMessage_append_entries_response m)) else FlowMessage_append_entries_response_ m)
    (if FlowMessage_has_client_put_message from then Some (ClientPutMessage_MergeFrom (FlowMessage_client_put_message from) (FlowMessage_client_put_message m)) else FlowMessage_client_put_message_ m)
    (if FlowMessage_has_client_commit_message from then Some (ClientCommitMessage_MergeFrom (FlowMessage_client_commit_message from) (FlowMessage_client_commit_message m)) else FlowMessage_client_commit_message_ m)
    (if FlowMessage_has_server_send_message from then Some (ServerSendMessage_MergeFrom (FlowMessage_server_send_message from) (FlowMessage_server_send_message m)) else FlowMessage_server_send_message_ m)
    (if FlowMessage_has_client_open_queue from then Some (ClientOpenQueue_MergeFrom (FlowMessage_client_open_queue from) (FlowMessage_client_open_queue m)) else FlowMessage_client_open_queue_ m)
    (if FlowMessage_has_consumer_disconnected from then Some (ConsumerDisconnected_MergeFrom (FlowMessage_consumer_disconnected from) (FlowMessage_consumer_disconnected m)) else FlowMessage_consumer_disconnected_ m)
    (if FlowMessage_has_client_open_queue_response from then Some (ClientOpenQueueResponse_MergeFrom (FlowMessage_client_open_queue_response from) (FlowMessage_client_open_queue_response m)) else FlowMessage_client_open_queue_response_ m)
    (if FlowMessage_has_client_put_message_response from then Some (ClientPutMessageResponse_MergeFrom (FlowMessage_client_put_message_response from) (FlowMessage_client_put_message_response m)) else FlowMessage_client_put_message_response_ m)
    (FlowMessage_unknown_ m ++ FlowMessage_unknown_ from).

Definition FlowMessage_CopyFrom (from m : FlowMessage) : FlowMessage := FlowMessage_MergeFrom from (FlowMessage_Clear m).

End Codec.
