(* ===== verification/FlowCodecFacts.v ===== *)
(** * The protobuf classes: the encoding is exact and decodes back

    For every class, over any runtime that satisfies [ProtobufLaws]:
    [M_ser_size], [ByteSizeLong] is the number of bytes
    [InternalSerializeWithCachedSizesToArray] writes, and [M_merge_serialize],
    [MergePartialFromCodedStream] into a cleared message reads those bytes back
    to the message. Both need the integer fields in the range of their types
    ([M_ints]) and no unknown fields. *)

From S2P Require Import Prelude WireFormat FlowTypes FlowCodec.

Local Open Scope Z_scope.

Create HintDb flow_codec.

Section Facts.
Context `{RT : ProtobufRuntime} {LW : ProtobufLaws RT}.

(** ** Optional fields *)

Definition opt_all {A : Type} (p : A -> bool) (o : option A) : bool :=
  match o with Some v => p v | None => true end.

(** The bytes an optional field takes. *)
Definition osize {A : Type} (sz : A -> Z) (o : option A) : Z :=
  match o with Some v => 1 + sz v | None => 0 end.

Lemma if_osize {A : Type} (sz : A -> Z) (d : A) (o : option A) :
  (if has o then 1 + sz (default d o) else 0) = osize sz o.
Proof. by destruct o. Qed.

Lemma osize_nonneg {A : Type} (sz : A -> Z) (o : option A) :
  (forall v, 0 <= sz v) -> 0 <= osize sz o.
Proof. intros H. destruct o as [v|]; simpl; [specialize (H v)|]; lia. Qed.

Lemma Int32Size_nonneg v : 0 <= Int32Size v.
Proof. apply sizes_nonneg. Qed.
Lemma Int64Size_nonneg v : 0 <= Int64Size v.
Proof. apply sizes_nonneg. Qed.
Lemma EnumSize_nonneg v : 0 <= EnumSize v.
Proof. apply sizes_nonneg. Qed.
Lemma StringSize_length v : zlength v <= StringSize v.
Proof. apply sizes_nonneg. Qed.
Lemma StringSize_nonneg v : 0 <= StringSize v.
Proof. pose proof (StringSize_length v). pose proof (zlength_nonneg v). lia. Qed.
Lemma MessageSize_ge n : 0 <= n -> n <= MessageSize n.
Proof. apply sizes_nonneg. Qed.
Lemma MessageSize_nonneg n : 0 <= n -> 0 <= MessageSize n.
Proof. intros H. pose proof (MessageSize_ge n H). lia. Qed.

#[local] Hint Resolve Int32Size_nonneg Int64Size_nonneg EnumSize_nonneg StringSize_nonneg
  MessageSize_nonneg osize_nonneg zlength_nonneg Z.add_nonneg_nonneg : flow_codec.

Lemma MessageType_value_int32 t : int32 (MessageType_value t) = true.
Proof. by destruct t. Qed.
Lemma Status_value_int32 t : int32 (Status_value t) = true.
Proof. by destruct t. Qed.

(** ** The parsing loop *)

Section Loop.
Context {M : Type} (field : Z -> M -> bytes -> option (parsed M)) (add_unknown : bytes -> M -> M).

(** [s], read into [m], is exactly [m']; fuel for one round more than there
    are bytes is enough. *)
Definition parses (m : M) (s : bytes) (m' : M) : Prop :=
  forall fuel, (length s < fuel)%nat -> merge_loop field add_unknown fuel m s = (true, m', []).

Lemma merges_loop m s m' :
  parses m s m' -> merge_loop field add_unknown (S (length s)) m s = (true, m', []).
Proof. intros H. apply H. lia. Qed.

Lemma parses_nil m : (forall m s, field 0 m s = None) -> parses m [] m.
Proof.
  intros Hz [|fuel] Hf; [simpl in Hf; lia|]. cbn [merge_loop].
  destruct (end_of_input 127) as [b ->]. rewrite Hz. by destruct b.
Qed.

Lemma written_nonempty {A : Type} tag w (read : bytes -> parsed A) v :
  tag <> 0 -> field_reads tag w read v -> (1 <= length w)%nat.
Proof.
  intros Ht Hr. destruct w; [|simpl; lia].
  destruct (Hr []) as (s & Hs & _). simpl in Hs.
  destruct (end_of_input 127) as [b Hb]. congruence.
Qed.

Lemma parses_field {A : Type} tag w (read : bytes -> parsed A) v m m' m'' rest :
  tag <> 0 -> field_reads tag w read v ->
  (forall s r, read s = (true, v, r) -> field tag m s = Some (true, m', r)) ->
  parses m' rest m'' -> parses m (w ++ rest) m''.
Proof.
  intros Ht Hr Hf Hp [|fuel] Hlt; [lia|].
  pose proof (written_nonempty _ _ _ _ Ht Hr) as Hw.
  rewrite length_app in Hlt. cbn [merge_loop].
  destruct (Hr rest) as (s & -> & Hs). rewrite (Hf _ _ Hs). apply Hp. lia.
Qed.

Lemma parses_opt {A B : Type} tag (write : A -> bytes) (read : bytes -> parsed B) (f : A -> B)
    d (upd : option A -> M) (o : option A) m'' rest :
  tag <> 0 ->
  (forall v, o = Some v -> field_reads tag (write v) read (f v)) ->
  (forall v s r, read s = (true, f v, r) -> field tag (upd None) s = Some (true, upd (Some v), r)) ->
  parses (upd o) rest m'' ->
  parses (upd None) ((if has o then write (default d o) else []) ++ rest) m''.
Proof. intros Ht Hr Hf Hp. destruct o as [v|]; simpl; [|done]. eapply parses_field; eauto. Qed.
End Loop.

Arguments parses {M} field add_unknown m s m'.

Lemma make_tag_nonzero number wire_type : short_field number -> 0 <= wire_type -> make_tag number wire_type <> 0.
Proof. unfold short_field, make_tag. lia. Qed.

Lemma sum_nonneg {A : Type} (f : A -> Z) (l : list A) :
  (forall x, 0 <= f x) -> 0 <= foldr Z.add 0 (map f l).
Proof. intros H. induction l as [|x l IH]; simpl; [lia|]. specialize (H x). lia. Qed.

#[local] Hint Resolve sum_nonneg : flow_codec.

Lemma short number : (1 <=? number) && (number <=? 15) = true -> short_field number.
Proof. unfold short_field. intros H. to_prop. lia. Qed.

Section Fields.
Context {M : Type} {field : Z -> M -> bytes -> option (parsed M)} {add_unknown : bytes -> M -> M}.
Context (number : Z) (number_short : short_field number).

Lemma parses_int32 (upd : option Z -> M) (o : option Z) m'' rest :
  (forall v s r, ReadInt32 0 s = (true, v, r) ->
     field (make_tag number 0) (upd None) s = Some (true, upd (Some v), r)) ->
  opt_all int32 o = true ->
  parses field add_unknown (upd o) rest m'' ->
  parses field add_unknown (upd None) ((if has o then WriteInt32ToArray number (default 0 o) else []) ++ rest) m''.
Proof.
  intros Hf Ho.
  apply parses_opt with (tag := make_tag number 0) (read := ReadInt32 0) (f := id);
    [apply make_tag_nonzero; auto with lia| |done].
  intros v ->. by apply int32_reads.
Qed.

Lemma parses_int64 (upd : option Z -> M) (o : option Z) m'' rest :
  (forall v s r, ReadInt64 0 s = (true, v, r) ->
     field (make_tag number 0) (upd None) s = Some (true, upd (Some v), r)) ->
  opt_all int64 o = true ->
  parses field add_unknown (upd o) rest m'' ->
  parses field add_unknown (upd None) ((if has o then WriteInt64ToArray number (default 0 o) else []) ++ rest) m''.
Proof.
  intros Hf Ho.
  apply parses_opt with (tag := make_tag number 0) (read := ReadInt64 0) (f := id);
    [apply make_tag_nonzero; auto with lia| |done].
  intros v ->. by apply int64_reads.
Qed.

Lemma parses_enum {A : Type} (value : A -> Z) (upd : option A -> M) (d : A) (o : option A) m'' rest :
  (forall v s r, ReadEnum s = (true, value v, r) ->
     field (make_tag number 0) (upd None) s = Some (true, upd (Some v), r)) ->
  (forall v, int32 (value v) = true) ->
  parses field add_unknown (upd o) rest m'' ->
  parses field add_unknown (upd None) ((if has o then WriteEnumToArray number (value (default d o)) else []) ++ rest) m''.
Proof.
  intros Hf Ho.
  apply (parses_opt field add_unknown (make_tag number 0) (fun v => WriteEnumToArray number (value v)) ReadEnum value);
    [apply make_tag_nonzero; auto with lia| |done].
  intros v ->. by apply enum_reads.
Qed.

Lemma parses_string (upd : option bytes -> M) (o : option bytes) m'' rest :
  (forall v s r, ReadString [] s = (true, v, r) ->
     field (make_tag number 2) (upd None) s = Some (true, upd (Some v), r)) ->
  osize StringSize o <= INT_MAX ->
  parses field add_unknown (upd o) rest m'' ->
  parses field add_unknown (upd None) ((if has o then WriteStringToArray number (default [] o) else []) ++ rest) m''.
Proof.
  intros Hf Ho.
  apply parses_opt with (tag := make_tag number 2) (read := ReadString []) (f := id);
    [apply make_tag_nonzero; auto with lia| |done].
  intros v ->. apply string_reads; [done|]. cbn [osize] in Ho.
  pose proof (StringSize_length v). unfold INT_MAX_LENGTH, id. lia.
Qed.

Section Submessage.
Context {A : Type} (merge : A -> bytes -> parsed A) (ser : A -> bytes) (size : A -> Z)
  (ints : A -> bool) (new : A).
Context (ser_size : forall x, ints x = true -> size x <= INT_MAX -> zlength (ser x) = size x).
Context (roundtrip : forall x, ints x = true -> size x <= INT_MAX -> merge new (ser x) = (true, x, [])).
Context (size_nonneg : forall x, 0 <= size x).

Lemma submessage_reads x :
  ints x = true -> MessageSize (size x) <= INT_MAX ->
  field_reads (make_tag number 2) (InternalWriteMessageToArray number (ser x)) (ReadMessage merge new) x.
Proof.
  intros Hi Hs. pose proof (MessageSize_ge _ (size_nonneg x)).
  apply message_reads; [apply number_short| |apply roundtrip; [done|lia]].
  unfold INT_MAX_LENGTH. rewrite ser_size by (done || lia). lia.
Qed.

Lemma parses_message (upd : option A -> M) (o : option A) m'' rest :
  (forall v s r, ReadMessage merge new s = (true, v, r) ->
     field (make_tag number 2) (upd None) s = Some (true, upd (Some v), r)) ->
  opt_all ints o = true -> osize (fun x => MessageSize (size x)) o <= INT_MAX ->
  parses field add_unknown (upd o) rest m'' ->
  parses field add_unknown (upd None)
    ((if has o then InternalWriteMessageToArray number (ser (default new o)) else []) ++ rest) m''.
Proof.
  intros Hf Hi Hs.
  apply (parses_opt field add_unknown (make_tag number 2) (fun x => InternalWriteMessageToArray number (ser x))
    (ReadMessage merge new) id); [apply make_tag_nonzero; auto using number_short with lia| |done].
  intros v ->. cbn [osize opt_all] in *. apply submessage_reads; unfold id; [done|lia].
Qed.

Lemma parses_repeated (upd : list A -> M) (done' todo : list A) m'' rest :
  (forall l v s r, ReadMessage merge new s = (true, v, r) ->
     field (make_tag number 2) (upd l) s = Some (true, upd (l ++ [v]), r)) ->
  forallb ints todo = true ->
  foldr Z.add 0 (map (fun e => MessageSize (size e)) todo) <= INT_MAX ->
  parses field add_unknown (upd (done' ++ todo)) rest m'' ->
  parses field add_unknown (upd done')
    (concat (map (fun e => InternalWriteMessageToArray number (ser e)) todo) ++ rest) m''.
Proof.
  intros Hf. revert done'. induction todo as [|x todo IH]; intros done' Hi Hs Hp; simpl in *.
  { by rewrite app_nil_r in Hp. }
  apply andb_true_iff in Hi as [Hx Hi].
  pose proof (sum_nonneg (fun e => MessageSize (size e)) todo (fun e => MessageSize_nonneg _ (size_nonneg e))).
  pose proof (MessageSize_nonneg _ (size_nonneg x)).
  rewrite <- app_assoc.
  apply (parses_field field add_unknown (make_tag number 2) _ (ReadMessage merge new) x _ (upd (done' ++ [x])));
    [apply make_tag_nonzero; auto using number_short with lia|apply submessage_reads; [done|lia]| |].
  { intros s r. apply Hf. }
  apply IH; [done|lia|]. by rewrite <- app_assoc.
Qed.
End Submessage.

Lemma opt_int32_size (o : option Z) :
  opt_all int32 o = true ->
  zlength (if has o then WriteInt32ToArray number (default 0 o) else []) = osize Int32Size o.
Proof. intros H. destruct o; simpl; [|done]. apply int32_size; [apply number_short|done]. Qed.

Lemma opt_int64_size (o : option Z) :
  opt_all int64 o = true ->
  zlength (if has o then WriteInt64ToArray number (default 0 o) else []) = osize Int64Size o.
Proof. intros H. destruct o; simpl; [|done]. apply int64_size; [apply number_short|done]. Qed.

Lemma opt_enum_size {A : Type} (value : A -> Z) (d : A) (o : option A) :
  (forall v, int32 (value v) = true) ->
  zlength (if has o then WriteEnumToArray number (value (default d o)) else []) =
  osize (fun e => EnumSize (value e)) o.
Proof. intros H. destruct o; simpl; [|done]. apply enum_size; [apply number_short|done]. Qed.

Lemma opt_string_size (o : option bytes) :
  osize StringSize o <= INT_MAX ->
  zlength (if has o then WriteStringToArray number (default [] o) else []) = osize StringSize o.
Proof.
  intros H. destruct o as [v|]; cbn [osize has default] in *; [|done]. apply string_size; [apply number_short|].
  pose proof (StringSize_length v). unfold INT_MAX_LENGTH. lia.
Qed.

Section SubmessageSize.
Context {A : Type} (ser : A -> bytes) (size : A -> Z) (ints : A -> bool).
Context (ser_size : forall x, ints x = true -> size x <= INT_MAX -> zlength (ser x) = size x).
Context (size_nonneg : forall x, 0 <= size x).

Lemma submessage_size x :
  ints x = true -> MessageSize (size x) <= INT_MAX ->
  zlength (InternalWriteMessageToArray number (ser x)) = 1 + MessageSize (size x).
Proof.
  intros Hi Hs. pose proof (MessageSize_ge _ (size_nonneg x)).
  rewrite message_size; rewrite ?ser_size by (done || lia); [done|apply number_short|].
  unfold INT_MAX_LENGTH. rewrite ser_size by (done || lia). lia.
Qed.

Lemma opt_message_size (d : A) (o : option A) :
  opt_all ints o = true -> osize (fun x => MessageSize (size x)) o <= INT_MAX ->
  zlength (if has o then InternalWriteMessageToArray number (ser (default d o)) else []) =
  osize (fun x => MessageSize (size x)) o.
Proof. intros Hi Hs. destruct o; cbn [osize has opt_all] in *; [|done]. apply submessage_size; [done|lia]. Qed.

Lemma rep_message_size (l : list A) :
  forallb ints l = true ->
  foldr Z.add 0 (map (fun e => MessageSize (size e)) l) <= INT_MAX ->
  zlength (concat (map (fun e => InternalWriteMessageToArray number (ser e)) l)) =
  zlength l + foldr Z.add 0 (map (fun e => MessageSize (size e)) l).
Proof.
  induction l as [|x l IH]; simpl; [done|]. intros Hi Hs. apply andb_true_iff in Hi as [Hx Hi].
  pose proof (sum_nonneg (fun e => MessageSize (size e)) l (fun e => MessageSize_nonneg _ (size_nonneg e))).
  pose proof (MessageSize_nonneg _ (size_nonneg x)).
  rewrite zlength_app, submessage_size, IH by (done || lia).
  unfold zlength. simpl. lia.
Qed.
End SubmessageSize.
End Fields.

(** ** Automation for the classes *)

(** Pushes the accessors of an explicit record through [ByteSizeLong]. *)
Ltac nonneg_sum :=
  repeat apply Z.add_nonneg_nonneg;
  first [apply zlength_nonneg | apply osize_nonneg; intros; cbv beta; auto with flow_codec
        | apply sum_nonneg; intros; cbv beta; auto with flow_codec].

(** From a bound on the sum of sizes, a bound on every one of them. *)
Ltac field_bounds Hs :=
  change (zlength (@nil Byte.byte)) with 0 in Hs;
  repeat match type of Hs with
    | context [zlength ?l] =>
        lazymatch goal with
        | _ : 0 <= zlength l |- _ => fail
        | _ => pose proof (zlength_nonneg l)
        end
    | context [foldr Z.add 0 (map ?f ?l)] =>
        lazymatch goal with
        | _ : 0 <= foldr Z.add 0 (map f l) |- _ => fail
        | _ => pose proof (sum_nonneg f l ltac:(intros; cbv beta; auto with flow_codec))
        end
    | context [osize ?sz ?o] =>
        lazymatch goal with
        | _ : 0 <= osize sz o |- _ => fail
        | _ => pose proof (osize_nonneg sz o ltac:(intros; cbv beta; auto with flow_codec))
        end
    end.

(** One case of a [switch]: the field number and the tag byte are literals. *)
Tactic Notation "field_case" reference(f) :=
  intros; unfold f; rewrite tag_field_number by (done || (unfold short_field; lia));
  cbn -[ReadInt32 ReadInt64 ReadString ReadMessage]; 
  match goal with H : _ = (true, _, _) |- _ => rewrite H end; reflexivity.

Tactic Notation "field_case_enum" reference(f) constr(of_to) :=
  intros; unfold f; rewrite tag_field_number by (done || (unfold short_field; lia));
  cbn -[ReadEnum];
  match goal with H : _ = (true, _, _) |- _ => rewrite H end; cbv beta iota;
  rewrite of_to; reflexivity.

Lemma merge_opt_None {A : Type} (o : option A) : merge_opt o None = o.
Proof. by destruct o. Qed.

Lemma if_merge {A : Type} (merge : A -> A -> A) (new : A) (o : option A) :
  (forall x, merge x new = x) ->
  (if has o then Some (merge (default new o) new) else None) = o.
Proof. intros H. destruct o; simpl; [by rewrite H|done]. Qed.

(** ** LogEntry *)

Definition LogEntry_ints (m : LogEntry) : bool :=
  opt_all int32 (LogEntry_index_ m) &&
  opt_all int32 (LogEntry_term_ m) &&
  opt_all int64 (LogEntry_message_id_ m) &&
  opt_all int32 (LogEntry_operation_ m) &&
  bool_decide (LogEntry_unknown_ m = []).

Lemma LogEntry_size_sum m :
  LogEntry_ByteSizeLong m =
  osize Int32Size (LogEntry_index_ m) +
  osize Int32Size (LogEntry_term_ m) +
  osize Int64Size (LogEntry_message_id_ m) +
  osize Int32Size (LogEntry_operation_ m) +
  osize StringSize (LogEntry_message_ m) +
  zlength (LogEntry_unknown_ m).
Proof.
  destruct m as [f1 f2 f3 f4 f5 u]. unfold LogEntry_ByteSizeLong, LogEntry_RequiredFieldsByteSizeFallback,
    LogEntry_has_index, LogEntry_has_term, LogEntry_has_message_id, LogEntry_has_operation, LogEntry_has_message, LogEntry_index, LogEntry_term, LogEntry_message_id, LogEntry_operation, LogEntry_message.
  cbn.
  destruct f1; destruct f2; destruct f3; destruct f4; destruct f5; cbn; rewrite ?if_osize; cbn; lia.
Qed.

Lemma LogEntry_size_nonneg m : 0 <= LogEntry_ByteSizeLong m.
Proof. rewrite LogEntry_size_sum. nonneg_sum. Qed.
#[local] Hint Resolve LogEntry_size_nonneg : flow_codec.

Lemma LogEntry_ser_size m :
  LogEntry_ints m = true -> LogEntry_ByteSizeLong m <= INT_MAX ->
  zlength (LogEntry_InternalSerializeWithCachedSizesToArray m) = LogEntry_ByteSizeLong m.
Proof.
  destruct m as [f1 f2 f3 f4 f5 u]. rewrite LogEntry_size_sum. unfold LogEntry_ints. cbn. intros Hi Hs. to_prop. subst u.
  field_bounds Hs.
  unfold LogEntry_InternalSerializeWithCachedSizesToArray, LogEntry_has_index, LogEntry_has_term, LogEntry_has_message_id, LogEntry_has_operation, LogEntry_has_message, LogEntry_index, LogEntry_term, LogEntry_message_id, LogEntry_operation, LogEntry_message.
  rewrite !zlength_app. cbn.
  rewrite (opt_int32_size 1 (short 1 eq_refl)) by (done || lia).
  rewrite (opt_int32_size 2 (short 2 eq_refl)) by (done || lia).
  rewrite (opt_int64_size 3 (short 3 eq_refl)) by (done || lia).
  rewrite (opt_int32_size 4 (short 4 eq_refl)) by (done || lia).
  rewrite (opt_string_size 5 (short 5 eq_refl)) by (done || lia).
  cbn. lia.
Qed.

Lemma LogEntry_merge_serialize m :
  LogEntry_ints m = true -> LogEntry_ByteSizeLong m <= INT_MAX ->
  LogEntry_MergePartialFromCodedStream LogEntry_new (LogEntry_InternalSerializeWithCachedSizesToArray m) = (true, m, []).
Proof.
  destruct m as [f1 f2 f3 f4 f5 u]. rewrite LogEntry_size_sum. unfold LogEntry_ints. cbn. intros Hi Hs. to_prop. subst u.
  field_bounds Hs.
  unfold LogEntry_MergePartialFromCodedStream, LogEntry_InternalSerializeWithCachedSizesToArray, LogEntry_has_index, LogEntry_has_term, LogEntry_has_message_id, LogEntry_has_operation, LogEntry_has_message, LogEntry_index, LogEntry_term, LogEntry_message_id, LogEntry_operation, LogEntry_message. cbn.
  apply merges_loop. unfold LogEntry_new.
  apply (parses_int32 1 (short 1 eq_refl) (fun x => mkLogEntry x None None None None [])); [field_case LogEntry_field|done|].
  apply (parses_int32 2 (short 2 eq_refl) (fun x => mkLogEntry f1 x None None None [])); [field_case LogEntry_field|done|].
  apply (parses_int64 3 (short 3 eq_refl) (fun x => mkLogEntry f1 f2 x None None [])); [field_case LogEntry_field|done|].
  apply (parses_int32 4 (short 4 eq_refl) (fun x => mkLogEntry f1 f2 f3 x None [])); [field_case LogEntry_field|done|].
  apply (parses_string 5 (short 5 eq_refl) (fun x => mkLogEntry f1 f2 f3 f4 x [])); [field_case LogEntry_field|lia|].
  apply parses_nil. intros m s. unfold LogEntry_field. by rewrite tag_zero.
Qed.

Lemma LogEntry_merge_into_new from : LogEntry_MergeFrom from LogEntry_new = from.
Proof.
  destruct from as [f1 f2 f3 f4 f5 u]. unfold LogEntry_MergeFrom, LogEntry_has_index, LogEntry_has_term, LogEntry_has_message_id, LogEntry_has_operation, LogEntry_has_message, LogEntry_index, LogEntry_term, LogEntry_message_id, LogEntry_operation, LogEntry_message. cbn.
  rewrite !merge_opt_None. done.
Qed.

(** ** RequestVoteRequest *)

Definition RequestVoteRequest_ints (m : RequestVoteRequest) : bool :=
  opt_all int32 (RequestVoteRequest_term_ m) &&
  opt_all int32 (RequestVoteRequest_candidate_id_ m) &&
  opt_all int32 (RequestVoteRequest_last_log_index_ m) &&
  opt_all int32 (RequestVoteRequest_last_log_term_ m) &&
  bool_decide (RequestVoteRequest_unknown_ m = []).

Lemma RequestVoteRequest_size_sum m :
  RequestVoteRequest_ByteSizeLong m =
  osize Int32Size (RequestVoteRequest_term_ m) +
  osize Int32Size (RequestVoteRequest_candidate_id_ m) +
  osize Int32Size (RequestVoteRequest_last_log_index_ m) +
  osize Int32Size (RequestVoteRequest_last_log_term_ m) +
  zlength (RequestVoteRequest_unknown_ m).
Proof.
  destruct m as [f1 f2 f3 f4 u]. unfold RequestVoteRequest_ByteSizeLong, RequestVoteRequest_RequiredFieldsByteSizeFallback,
    RequestVoteRequest_has_term, RequestVoteRequest_has_candidate_id, RequestVoteRequest_has_last_log_index, RequestVoteRequest_has_last_log_term, RequestVoteRequest_term, RequestVoteRequest_candidate_id, RequestVoteRequest_last_log_index, RequestVoteRequest_last_log_term.
  cbn.
  destruct f1; destruct f2; destruct f3; destruct f4; cbn; rewrite ?if_osize; cbn; lia.
Qed.

Lemma RequestVoteRequest_size_nonneg m : 0 <= RequestVoteRequest_ByteSizeLong m.
Proof. rewrite RequestVoteRequest_size_sum. nonneg_sum. Qed.
#[local] Hint Resolve RequestVoteRequest_size_nonneg : flow_codec.

Lemma RequestVoteRequest_ser_size m :
  RequestVoteRequest_ints m = true -> RequestVoteRequest_ByteSizeLong m <= INT_MAX ->
  zlength (RequestVoteRequest_InternalSerializeWithCachedSizesToArray m) = RequestVoteRequest_ByteSizeLong m.
Proof.
  destruct m as [f1 f2 f3 f4 u]. rewrite RequestVoteRequest_size_sum. unfold RequestVoteRequest_ints. cbn. intros Hi Hs. to_prop. subst u.
  field_bounds Hs.
  unfold RequestVoteRequest_InternalSerializeWithCachedSizesToArray, RequestVoteRequest_has_term, RequestVoteRequest_has_candidate_id, RequestVoteRequest_has_last_log_index, RequestVoteRequest_has_last_log_term, RequestVoteRequest_term, RequestVoteRequest_candidate_id, RequestVoteRequest_last_log_index, RequestVoteRequest_last_log_term.
  rewrite !zlength_app. cbn.
  rewrite (opt_int32_size 1 (short 1 eq_refl)) by (done || lia).
  rewrite (opt_int32_size 2 (short 2 eq_refl)) by (done || lia).
  rewrite (opt_int32_size 3 (short 3 eq_refl)) by (done || lia).
  rewrite (opt_int32_size 4 (short 4 eq_refl)) by (done || lia).
  cbn. lia.
Qed.

Lemma RequestVoteRequest_merge_serialize m :
  RequestVoteRequest_ints m = true -> RequestVoteRequest_ByteSizeLong m <= INT_MAX ->
  RequestVoteRequest_MergePartialFromCodedStream RequestVoteRequest_new (RequestVoteRequest_InternalSerializeWithCachedSizesToArray m) = (true, m, []).
Proof.
  destruct m as [f1 f2 f3 f4 u]. rewrite RequestVoteRequest_size_sum. unfold RequestVoteRequest_ints. cbn. intros Hi Hs. to_prop. subst u.
  field_bounds Hs.
  unfold RequestVoteRequest_MergePartialFromCodedStream, RequestVoteRequest_InternalSerializeWithCachedSizesToArray, RequestVoteRequest_has_term, RequestVoteRequest_has_candidate_id, RequestVoteRequest_has_last_log_index, RequestVoteRequest_has_last_log_term, RequestVoteRequest_term, RequestVoteRequest_candidate_id, RequestVoteRequest_last_log_index, RequestVoteRequest_last_log_term. cbn.
  apply merges_loop. unfold RequestVoteRequest_new.
  apply (parses_int32 1 (short 1 eq_refl) (fun x => mkRequestVoteRequest x None None None [])); [field_case RequestVoteRequest_field|done|].
  apply (parses_int32 2 (short 2 eq_refl) (fun x => mkRequestVoteRequest f1 x None None [])); [field_case RequestVoteRequest_field|done|].
  apply (parses_int32 3 (short 3 eq_refl) (fun x => mkRequestVoteRequest f1 f2 x None [])); [field_case RequestVoteRequest_field|done|].
  apply (parses_int32 4 (short 4 eq_refl) (fun x => mkRequestVoteRequest f1 f2 f3 x [])); [field_case RequestVoteRequest_field|done|].
  apply parses_nil. intros m s. unfold RequestVoteRequest_field. by rewrite tag_zero.
Qed.

Lemma RequestVoteRequest_merge_into_new from : RequestVoteRequest_MergeFrom from RequestVoteRequest_new = from.
Proof.
  destruct from as [f1 f2 f3 f4 u]. unfold RequestVoteRequest_MergeFrom, RequestVoteRequest_has_term, RequestVoteRequest_has_candidate_id, RequestVoteRequest_has_last_log_index, RequestVoteRequest_has_last_log_term, RequestVoteRequest_term, RequestVoteRequest_candidate_id, RequestVoteRequest_last_log_index, RequestVoteRequest_last_log_term. cbn.
  rewrite !merge_opt_None. done.
Qed.

(** ** RequestVoteResponse *)

Definition RequestVoteResponse_ints (m : RequestVoteResponse) : bool :=
  opt_all int32 (RequestVoteResponse_term_ m) &&
  opt_all int32 (RequestVoteResponse_vote_result_term_granted_ m) &&
  bool_decide (RequestVoteResponse_unknown_ m = []).

Lemma RequestVoteResponse_size_sum m :
  RequestVoteResponse_ByteSizeLong m =
  osize Int32Size (RequestVoteResponse_term_ m) +
  osize Int32Size (RequestVoteResponse_vote_result_term_granted_ m) +
  zlength (RequestVoteResponse_unknown_ m).
Proof.
  destruct m as [f1 f2 u]. unfold RequestVoteResponse_ByteSizeLong, RequestVoteResponse_RequiredFieldsByteSizeFallback,
    RequestVoteResponse_has_term, RequestVoteResponse_has_vote_result_term_granted, RequestVoteResponse_term, RequestVoteResponse_vote_result_term_granted.
  cbn.
  destruct f1; destruct f2; cbn; rewrite ?if_osize; cbn; lia.
Qed.

Lemma RequestVoteResponse_size_nonneg m : 0 <= RequestVoteResponse_ByteSizeLong m.
Proof. rewrite RequestVoteResponse_size_sum. nonneg_sum. Qed.
#[local] Hint Resolve RequestVoteResponse_size_nonneg : flow_codec.

Lemma RequestVoteResponse_ser_size m :
  RequestVoteResponse_ints m = true -> RequestVoteResponse_ByteSizeLong m <= INT_MAX ->
  zlength (RequestVoteResponse_InternalSerializeWithCachedSizesToArray m) = RequestVoteResponse_ByteSizeLong m.
Proof.
  destruct m as [f1 f2 u]. rewrite RequestVoteResponse_size_sum. unfold RequestVoteResponse_ints. cbn. intros Hi Hs. to_prop. subst u.
  field_bounds Hs.
  unfold RequestVoteResponse_InternalSerializeWithCachedSizesToArray, RequestVoteResponse_has_term, RequestVoteResponse_has_vote_result_term_granted, RequestVoteResponse_term, RequestVoteResponse_vote_result_term_granted.
  rewrite !zlength_app. cbn.
  rewrite (opt_int32_size 1 (short 1 eq_refl)) by (done || lia).
  rewrite (opt_int32_size 2 (short 2 eq_refl)) by (done || lia).
  cbn. lia.
Qed.

Lemma RequestVoteResponse_merge_serialize m :
  RequestVoteResponse_ints m = true -> RequestVoteResponse_ByteSizeLong m <= INT_MAX ->
  RequestVoteResponse_MergePartialFromCodedStream RequestVoteResponse_new (RequestVoteResponse_InternalSerializeWithCachedSizesToArray m) = (true, m, []).
Proof.
  destruct m as [f1 f2 u]. rewrite RequestVoteResponse_size_sum. unfold RequestVoteResponse_ints. cbn. intros Hi Hs. to_prop. subst u.
  field_bounds Hs.
  unfold RequestVoteResponse_MergePartialFromCodedStream, RequestVoteResponse_InternalSerializeWithCachedSizesToArray, RequestVoteResponse_has_term, RequestVoteResponse_has_vote_result_term_granted, RequestVoteResponse_term, RequestVoteResponse_vote_result_term_granted. cbn.
  apply merges_loop. unfold RequestVoteResponse_new.
  apply (parses_int32 1 (short 1 eq_refl) (fun x => mkRequestVoteResponse x None [])); [field_case RequestVoteResponse_field|done|].
  apply (parses_int32 2 (short 2 eq_refl) (fun x => mkRequestVoteResponse f1 x [])); [field_case RequestVoteResponse_field|done|].
  apply parses_nil. intros m s. unfold RequestVoteResponse_field. by rewrite tag_zero.
Qed.

Lemma RequestVoteResponse_merge_into_new from : RequestVoteResponse_MergeFrom from RequestVoteResponse_new = from.
Proof.
  destruct from as [f1 f2 u]. unfold RequestVoteResponse_MergeFrom, RequestVoteResponse_has_term, RequestVoteResponse_has_vote_result_term_granted, RequestVoteResponse_term, RequestVoteResponse_vote_result_term_granted. cbn.
  rewrite !merge_opt_None. done.
Qed.

(** ** AppendEntriesRequest *)

Definition AppendEntriesRequest_ints (m : AppendEntriesRequest) : bool :=
  opt_all int32 (AppendEntriesRequest_term_ m) &&
  opt_all int32 (AppendEntriesRequest_leader_id_ m) &&
  opt_all int32 (AppendEntriesRequest_prev_log_index_ m) &&
  opt_all int32 (AppendEntriesRequest_prev_log_term_ m) &&
  forallb LogEntry_ints (AppendEntriesRequest_entries_ m) &&
  opt_all int32 (AppendEntriesRequest_leader_commit_ m) &&
  bool_decide (AppendEntriesRequest_unknown_ m = []).

Lemma AppendEntriesRequest_size_sum m :
  AppendEntriesRequest_ByteSizeLong m =
  osize Int32Size (AppendEntriesRequest_term_ m) +
  osize Int32Size (AppendEntriesRequest_leader_id_ m) +
  osize Int32Size (AppendEntriesRequest_prev_log_index_ m) +
  osize Int32Size (AppendEntriesRequest_prev_log_term_ m) +
  (zlength (AppendEntriesRequest_entries_ m) + foldr Z.add 0 (map (fun e => MessageSize (LogEntry_ByteSizeLong e)) (AppendEntriesRequest_entries_ m))) +
  osize Int32Size (AppendEntriesRequest_leader_commit_ m) +
  zlength (AppendEntriesRequest_unknown_ m).
Proof.
  destruct m as [f1 f2 f3 f4 f5 f6 u]. unfold AppendEntriesRequest_ByteSizeLong, AppendEntriesRequest_RequiredFieldsByteSizeFallback,
    AppendEntriesRequest_has_term, AppendEntriesRequest_has_leader_id, AppendEntriesRequest_has_prev_log_index, AppendEntriesRequest_has_prev_log_term, AppendEntriesRequest_has_leader_commit, AppendEntriesRequest_term, AppendEntriesRequest_leader_id, AppendEntriesRequest_prev_log_index, AppendEntriesRequest_prev_log_term, AppendEntriesRequest_entries, AppendEntriesRequest_leader_commit.
  cbn.
  destruct f1; destruct f2; destruct f3; destruct f4; destruct f6; cbn; rewrite ?if_osize; cbn; lia.
Qed.

Lemma AppendEntriesRequest_size_nonneg m : 0 <= AppendEntriesRequest_ByteSizeLong m.
Proof. rewrite AppendEntriesRequest_size_sum. nonneg_sum. Qed.
#[local] Hint Resolve AppendEntriesRequest_size_nonneg : flow_codec.

Lemma AppendEntriesRequest_ser_size m :
  AppendEntriesRequest_ints m = true -> AppendEntriesRequest_ByteSizeLong m <= INT_MAX ->
  zlength (AppendEntriesRequest_InternalSerializeWithCachedSizesToArray m) = AppendEntriesRequest_ByteSizeLong m.
Proof.
  destruct m as [f1 f2 f3 f4 f5 f6 u]. rewrite AppendEntriesRequest_size_sum. unfold AppendEntriesRequest_ints. cbn. intros Hi Hs. to_prop. subst u.
  field_bounds Hs.
  unfold AppendEntriesRequest_InternalSerializeWithCachedSizesToArray, AppendEntriesRequest_has_term, AppendEntriesRequest_has_leader_id, AppendEntriesRequest_has_prev_log_index, AppendEntriesRequest_has_prev_log_term, AppendEntriesRequest_has_leader_commit, AppendEntriesRequest_term, AppendEntriesRequest_leader_id, AppendEntriesRequest_prev_log_index, AppendEntriesRequest_prev_log_term, AppendEntriesRequest_entries, AppendEntriesRequest_leader_commit.
  rewrite !zlength_app. cbn.
  rewrite (opt_int32_size 1 (short 1 eq_refl)) by (done || lia).
  rewrite (opt_int32_size 2 (short 2 eq_refl)) by (done || lia).
  rewrite (opt_int32_size 3 (short 3 eq_refl)) by (done || lia).
  rewrite (opt_int32_size 4 (short 4 eq_refl)) by (done || lia).
  rewrite (rep_message_size 5 (short 5 eq_refl) LogEntry_InternalSerializeWithCachedSizesToArray LogEntry_ByteSizeLong LogEntry_ints LogEntry_ser_size LogEntry_size_nonneg) by (done || lia).
  rewrite (opt_int32_size 6 (short 6 eq_refl)) by (done || lia).
  cbn. lia.
Qed.

Lemma AppendEntriesRequest_merge_serialize m :
  AppendEntriesRequest_ints m = true -> AppendEntriesRequest_ByteSizeLong m <= INT_MAX ->
  AppendEntriesRequest_MergePartialFromCodedStream AppendEntriesRequest_new (AppendEntriesRequest_InternalSerializeWithCachedSizesToArray m) = (true, m, []).
Proof.
  destruct m as [f1 f2 f3 f4 f5 f6 u]. rewrite AppendEntriesRequest_size_sum. unfold AppendEntriesRequest_ints. cbn. intros Hi Hs. to_prop. subst u.
  field_bounds Hs.
  unfold AppendEntriesRequest_MergePartialFromCodedStream, AppendEntriesRequest_InternalSerializeWithCachedSizesToArray, AppendEntriesRequest_has_term, AppendEntriesRequest_has_leader_id, AppendEntriesRequest_has_prev_log_index, AppendEntriesRequest_has_prev_log_term, AppendEntriesRequest_has_leader_commit, AppendEntriesRequest_term, AppendEntriesRequest_leader_id, AppendEntriesRequest_prev_log_index, AppendEntriesRequest_prev_log_term, AppendEntriesRequest_entries, AppendEntriesRequest_leader_commit. cbn.
  apply merges_loop. unfold AppendEntriesRequest_new.
  apply (parses_int32 1 (short 1 eq_refl) (fun x => mkAppendEntriesRequest x None None None [] None [])); [field_case AppendEntriesRequest_field|done|].
  apply (parses_int32 2 (short 2 eq_refl) (fun x => mkAppendEntriesRequest f1 x None None [] None [])); [field_case AppendEntriesRequest_field|done|].
  apply (parses_int32 3 (short 3 eq_refl) (fun x => mkAppendEntriesRequest f1 f2 x None [] None [])); [field_case AppendEntriesRequest_field|done|].
  apply (parses_int32 4 (short 4 eq_refl) (fun x => mkAppendEntriesRequest f1 f2 f3 x [] None [])); [field_case AppendEntriesRequest_field|done|].
  apply (parses_repeated 5 (short 5 eq_refl) LogEntry_MergePartialFromCodedStream LogEntry_InternalSerializeWithCachedSizesToArray
    LogEntry_ByteSizeLong LogEntry_ints LogEntry_new LogEntry_ser_size LogEntry_merge_serialize LogEntry_size_nonneg (fun x => mkAppendEntriesRequest f1 f2 f3 f4 x None []) []);
    [field_case AppendEntriesRequest_field|done|lia|].
  apply (parses_int32 6 (short 6 eq_refl) (fun x => mkAppendEntriesRequest f1 f2 f3 f4 f5 x [])); [field_case AppendEntriesRequest_field|done|].
  apply parses_nil. intros m s. unfold AppendEntriesRequest_field. by rewrite tag_zero.
Qed.

Lemma AppendEntriesRequest_merge_into_new from : AppendEntriesRequest_MergeFrom from AppendEntriesRequest_new = from.
Proof.
  destruct from as [f1 f2 f3 f4 f5 f6 u]. unfold AppendEntriesRequest_MergeFrom, AppendEntriesRequest_has_term, AppendEntriesRequest_has_leader_id, AppendEntriesRequest_has_prev_log_index, AppendEntriesRequest_has_prev_log_term, AppendEntriesRequest_has_leader_commit, AppendEntriesRequest_term, AppendEntriesRequest_leader_id, AppendEntriesRequest_prev_log_index, AppendEntriesRequest_prev_log_term, AppendEntriesRequest_entries, AppendEntriesRequest_leader_commit. cbn.
  rewrite !merge_opt_None. done.
Qed.

(** ** AppendEntriesResponse *)

Definition AppendEntriesResponse_ints (m : AppendEntriesResponse) : bool :=
  opt_all int32 (AppendEntriesResponse_term_ m) &&
  opt_all int32 (AppendEntriesResponse_follower_id_ m) &&
  opt_all int32 (AppendEntriesResponse_append_result_success_ m) &&
  opt_all int32 (AppendEntriesResponse_last_index_synced_ m) &&
  bool_decide (AppendEntriesResponse_unknown_ m = []).

Lemma AppendEntriesResponse_size_sum m :
  AppendEntriesResponse_ByteSizeLong m =
  osize Int32Size (AppendEntriesResponse_term_ m) +
  osize Int32Size (AppendEntriesResponse_follower_id_ m) +
  osize Int32Size (AppendEntriesResponse_append_result_success_ m) +
  osize Int32Size (AppendEntriesResponse_last_index_synced_ m) +
  zlength (AppendEntriesResponse_unknown_ m).
Proof.
  destruct m as [f1 f2 f3 f4 u]. unfold AppendEntriesResponse_ByteSizeLong, AppendEntriesResponse_RequiredFieldsByteSizeFallback,
    AppendEntriesResponse_has_term, AppendEntriesResponse_has_follower_id, AppendEntriesResponse_has_append_result_success, AppendEntriesResponse_has_last_index_synced, AppendEntriesResponse_term, AppendEntriesResponse_follower_id, AppendEntriesResponse_append_result_success, AppendEntriesResponse_last_index_synced.
  cbn.
  destruct f1; destruct f2; destruct f3; destruct f4; cbn; rewrite ?if_osize; cbn; lia.
Qed.

Lemma AppendEntriesResponse_size_nonneg m : 0 <= AppendEntriesResponse_ByteSizeLong m.
Proof. rewrite AppendEntriesResponse_size_sum. nonneg_sum. Qed.
#[local] Hint Resolve AppendEntriesResponse_size_nonneg : flow_codec.

Lemma AppendEntriesResponse_ser_size m :
  AppendEntriesResponse_ints m = true -> AppendEntriesResponse_ByteSizeLong m <= INT_MAX ->
  zlength (AppendEntriesResponse_InternalSerializeWithCachedSizesToArray m) = AppendEntriesResponse_ByteSizeLong m.
Proof.
  destruct m as [f1 f2 f3 f4 u]. rewrite AppendEntriesResponse_size_sum. unfold AppendEntriesResponse_ints. cbn. intros Hi Hs. to_prop. subst u.
  field_bounds Hs.
  unfold AppendEntriesResponse_InternalSerializeWithCachedSizesToArray, AppendEntriesResponse_has_term, AppendEntriesResponse_has_follower_id, AppendEntriesResponse_has_append_result_success, AppendEntriesResponse_has_last_index_synced, AppendEntriesResponse_term, AppendEntriesResponse_follower_id, AppendEntriesResponse_append_result_success, AppendEntriesResponse_last_index_synced.
  rewrite !zlength_app. cbn.
  rewrite (opt_int32_size 1 (short 1 eq_refl)) by (done || lia).
  rewrite (opt_int32_size 2 (short 2 eq_refl)) by (done || lia).
  rewrite (opt_int32_size 3 (short 3 eq_refl)) by (done || lia).
  rewrite (opt_int32_size 4 (short 4 eq_refl)) by (done || lia).
  cbn. lia.
Qed.

Lemma AppendEntriesResponse_merge_serialize m :
  AppendEntriesResponse_ints m = true -> AppendEntriesResponse_ByteSizeLong m <= INT_MAX ->
  AppendEntriesResponse_MergePartialFromCodedStream AppendEntriesResponse_new (AppendEntriesResponse_InternalSerializeWithCachedSizesToArray m) = (true, m, []).
Proof.
  destruct m as [f1 f2 f3 f4 u]. rewrite AppendEntriesResponse_size_sum. unfold AppendEntriesResponse_ints. cbn. intros Hi Hs. to_prop. subst u.
  field_bounds Hs.
  unfold AppendEntriesResponse_MergePartialFromCodedStream, AppendEntriesResponse_InternalSerializeWithCachedSizesToArray, AppendEntriesResponse_has_term, AppendEntriesResponse_has_follower_id, AppendEntriesResponse_has_append_result_success, AppendEntriesResponse_has_last_index_synced, AppendEntriesResponse_term, AppendEntriesResponse_follower_id, AppendEntriesResponse_append_result_success, AppendEntriesResponse_last_index_synced. cbn.
  apply merges_loop. unfold AppendEntriesResponse_new.
  apply (parses_int32 1 (short 1 eq_refl) (fun x => mkAppendEntriesResponse x None None None [])); [field_case AppendEntriesResponse_field|done|].
  apply (parses_int32 2 (short 2 eq_refl) (fun x => mkAppendEntriesResponse f1 x None None [])); [field_case AppendEntriesResponse_field|done|].
  apply (parses_int32 3 (short 3 eq_refl) (fun x => mkAppendEntriesResponse f1 f2 x None [])); [field_case AppendEntriesResponse_field|done|].
  apply (parses_int32 4 (short 4 eq_refl) (fun x => mkAppendEntriesResponse f1 f2 f3 x [])); [field_case AppendEntriesResponse_field|done|].
  apply parses_nil. intros m s. unfold AppendEntriesResponse_field. by rewrite tag_zero.
Qed.

Lemma AppendEntriesResponse_merge_into_new from : AppendEntriesResponse_MergeFrom from AppendEntriesResponse_new = from.
Proof.
  destruct from as [f1 f2 f3 f4 u]. unfold AppendEntriesResponse_MergeFrom, AppendEntriesResponse_has_term, AppendEntriesResponse_has_follower_id, AppendEntriesResponse_has_append_result_success, AppendEntriesResponse_has_last_index_synced, AppendEntriesResponse_term, AppendEntriesResponse_follower_id, AppendEntriesResponse_append_result_success, AppendEntriesResponse_last_index_synced. cbn.
  rewrite !merge_opt_None. done.
Qed.

(** ** ClientPutMessage *)

Definition ClientPutMessage_ints (m : ClientPutMessage) : bool :=
  opt_all int64 (ClientPutMessage_message_id_ m) &&
  bool_decide (ClientPutMessage_unknown_ m = []).

Lemma ClientPutMessage_size_sum m :
  ClientPutMessage_ByteSizeLong m =
  osize StringSize (ClientPutMessage_message_ m) +
  osize Int64Size (ClientPutMessage_message_id_ m) +
  zlength (ClientPutMessage_unknown_ m).
Proof.
  destruct m as [f1 f2 u]. unfold ClientPutMessage_ByteSizeLong, ClientPutMessage_has_message, ClientPutMessage_has_message_id, ClientPutMessage_message, ClientPutMessage_message_id. cbn.
  rewrite (if_osize StringSize [] f1).
  rewrite (if_osize Int64Size 0 f2).
  lia.
Qed.

Lemma ClientPutMessage_size_nonneg m : 0 <= ClientPutMessage_ByteSizeLong m.
Proof. rewrite ClientPutMessage_size_sum. nonneg_sum. Qed.
#[local] Hint Resolve ClientPutMessage_size_nonneg : flow_codec.

Lemma ClientPutMessage_ser_size m :
  ClientPutMessage_ints m = true -> ClientPutMessage_ByteSizeLong m <= INT_MAX ->
  zlength (ClientPutMessage_InternalSerializeWithCachedSizesToArray m) = ClientPutMessage_ByteSizeLong m.
Proof.
  destruct m as [f1 f2 u]. rewrite ClientPutMessage_size_sum. unfold ClientPutMessage_ints. cbn. intros Hi Hs. to_prop. subst u.
  field_bounds Hs.
  unfold ClientPutMessage_InternalSerializeWithCachedSizesToArray, ClientPutMessage_has_message, ClientPutMessage_has_message_id, ClientPutMessage_message, ClientPutMessage_message_id.
  rewrite !zlength_app. cbn.
  rewrite (opt_string_size 1 (short 1 eq_refl)) by (done || lia).
  rewrite (opt_int64_size 2 (short 2 eq_refl)) by (done || lia).
  cbn. lia.
Qed.

Lemma ClientPutMessage_merge_serialize m :
  ClientPutMessage_ints m = true -> ClientPutMessage_ByteSizeLong m <= INT_MAX ->
  ClientPutMessage_MergePartialFromCodedStream ClientPutMessage_new (ClientPutMessage_InternalSerializeWithCachedSizesToArray m) = (true, m, []).
Proof.
  destruct m as [f1 f2 u]. rewrite ClientPutMessage_size_sum. unfold ClientPutMessage_ints. cbn. intros Hi Hs. to_prop. subst u.
  field_bounds Hs.
  unfold ClientPutMessage_MergePartialFromCodedStream, ClientPutMessage_InternalSerializeWithCachedSizesToArray, ClientPutMessage_has_message, ClientPutMessage_has_message_id, ClientPutMessage_message, ClientPutMessage_message_id. cbn.
  apply merges_loop. unfold ClientPutMessage_new.
  apply (parses_string 1 (short 1 eq_refl) (fun x => mkClientPutMessage x None [])); [field_case ClientPutMessage_field|lia|].
  apply (parses_int64 2 (short 2 eq_refl) (fun x => mkClientPutMessage f1 x [])); [field_case ClientPutMessage_field|done|].
  apply parses_nil. intros m s. unfold ClientPutMessage_field. by rewrite tag_zero.
Qed.

Lemma ClientPutMessage_merge_into_new from : ClientPutMessage_MergeFrom from ClientPutMessage_new = from.
Proof.
  destruct from as [f1 f2 u]. unfold ClientPutMessage_MergeFrom, ClientPutMessage_has_message, ClientPutMessage_has_message_id, ClientPutMessage_message, ClientPutMessage_message_id. cbn.
  rewrite !merge_opt_None. done.
Qed.

(** ** ClientPutMessageResponse *)

Definition ClientPutMessageResponse_ints (m : ClientPutMessageResponse) : bool :=
  opt_all int64 (ClientPutMessageResponse_message_id_ m) &&
  bool_decide (ClientPutMessageResponse_unknown_ m = []).

Lemma ClientPutMessageResponse_size_sum m :
  ClientPutMessageResponse_ByteSizeLong m =
  osize Int64Size (ClientPutMessageResponse_message_id_ m) +
  osize (fun e => EnumSize (Status_value e)) (ClientPutMessageResponse_status_ m) +
  osize StringSize (ClientPutMessageResponse_error_message_ m) +
  zlength (ClientPutMessageResponse_unknown_ m).
Proof.
  destruct m as [f1 f2 f3 u]. unfold ClientPutMessageResponse_ByteSizeLong, ClientPutMessageResponse_RequiredFieldsByteSizeFallback,
    ClientPutMessageResponse_has_message_id, ClientPutMessageResponse_has_status, ClientPutMessageResponse_has_error_message, ClientPutMessageResponse_message_id, ClientPutMessageResponse_status, ClientPutMessageResponse_error_message.
  cbn.
  destruct f1; destruct f2; destruct f3; cbn; rewrite ?if_osize; cbn; lia.
Qed.

Lemma ClientPutMessageResponse_size_nonneg m : 0 <= ClientPutMessageResponse_ByteSizeLong m.
Proof. rewrite ClientPutMessageResponse_size_sum. nonneg_sum. Qed.
#[local] Hint Resolve ClientPutMessageResponse_size_nonneg : flow_codec.

Lemma ClientPutMessageResponse_ser_size m :
  ClientPutMessageResponse_ints m = true -> ClientPutMessageResponse_ByteSizeLong m <= INT_MAX ->
  zlength (ClientPutMessageResponse_InternalSerializeWithCachedSizesToArray m) = ClientPutMessageResponse_ByteSizeLong m.
Proof.
  destruct m as [f1 f2 f3 u]. rewrite ClientPutMessageResponse_size_sum. unfold ClientPutMessageResponse_ints. cbn. intros Hi Hs. to_prop. subst u.
  field_bounds Hs.
  unfold ClientPutMessageResponse_InternalSerializeWithCachedSizesToArray, ClientPutMessageResponse_has_message_id, ClientPutMessageResponse_has_status, ClientPutMessageResponse_has_error_message, ClientPutMessageResponse_message_id, ClientPutMessageResponse_status, ClientPutMessageResponse_error_message.
  rewrite !zlength_app. cbn.
  rewrite (opt_int64_size 1 (short 1 eq_refl)) by (done || lia).
  rewrite (opt_enum_size 2 (short 2 eq_refl) Status_value) by (apply Status_value_int32).
  rewrite (opt_string_size 3 (short 3 eq_refl)) by (done || lia).
  cbn. lia.
Qed.

Lemma ClientPutMessageResponse_merge_serialize m :
  ClientPutMessageResponse_ints m = true -> ClientPutMessageResponse_ByteSizeLong m <= INT_MAX ->
  ClientPutMessageResponse_MergePartialFromCodedStream ClientPutMessageResponse_new (ClientPutMessageResponse_InternalSerializeWithCachedSizesToArray m) = (true, m, []).
Proof.
  destruct m as [f1 f2 f3 u]. rewrite ClientPutMessageResponse_size_sum. unfold ClientPutMessageResponse_ints. cbn. intros Hi Hs. to_prop. subst u.
  field_bounds Hs.
  unfold ClientPutMessageResponse_MergePartialFromCodedStream, ClientPutMessageResponse_InternalSerializeWithCachedSizesToArray, ClientPutMessageResponse_has_message_id, ClientPutMessageResponse_has_status, ClientPutMessageResponse_has_error_message, ClientPutMessageResponse_message_id, ClientPutMessageResponse_status, ClientPutMessageResponse_error_message. cbn.
  apply merges_loop. unfold ClientPutMessageResponse_new.
  apply (parses_int64 1 (short 1 eq_refl) (fun x => mkClientPutMessageResponse x None None [])); [field_case ClientPutMessageResponse_field|done|].
  apply (parses_enum 2 (short 2 eq_refl) Status_value (fun x => mkClientPutMessageResponse f1 x None [])); [field_case_enum ClientPutMessageResponse_field Status_of_to|apply Status_value_int32|].
  apply (parses_string 3 (short 3 eq_refl) (fun x => mkClientPutMessageResponse f1 f2 x [])); [field_case ClientPutMessageResponse_field|lia|].
  apply parses_nil. intros m s. unfold ClientPutMessageResponse_field. by rewrite tag_zero.
Qed.

Lemma ClientPutMessageResponse_merge_into_new from : ClientPutMessageResponse_MergeFrom from ClientPutMessageResponse_new = from.
Proof.
  destruct from as [f1 f2 f3 u]. unfold ClientPutMessageResponse_MergeFrom, ClientPutMessageResponse_has_message_id, ClientPutMessageResponse_has_status, ClientPutMessageResponse_has_error_message, ClientPutMessageResponse_message_id, ClientPutMessageResponse_status, ClientPutMessageResponse_error_message. cbn.
  rewrite !merge_opt_None. done.
Qed.

(** ** ClientCommitMessage *)

Definition ClientCommitMessage_ints (m : ClientCommitMessage) : bool :=
  opt_all int64 (ClientCommitMessage_message_id_ m) &&
  bool_decide (ClientCommitMessage_unknown_ m = []).

Lemma ClientCommitMessage_size_sum m :
  ClientCommitMessage_ByteSizeLong m =
  osize Int64Size (ClientCommitMessage_message_id_ m) +
  zlength (ClientCommitMessage_unknown_ m).
Proof.
  destruct m as [f1 u]. unfold ClientCommitMessage_ByteSizeLong, ClientCommitMessage_has_message_id, ClientCommitMessage_message_id. cbn.
  rewrite (if_osize Int64Size 0 f1).
  lia.
Qed.

Lemma ClientCommitMessage_size_nonneg m : 0 <= ClientCommitMessage_ByteSizeLong m.
Proof. rewrite ClientCommitMessage_size_sum. nonneg_sum. Qed.
#[local] Hint Resolve ClientCommitMessage_size_nonneg : flow_codec.

Lemma ClientCommitMessage_ser_size m :
  ClientCommitMessage_ints m = true -> ClientCommitMessage_ByteSizeLong m <= INT_MAX ->
  zlength (ClientCommitMessage_InternalSerializeWithCachedSizesToArray m) = ClientCommitMessage_ByteSizeLong m.
Proof.
  destruct m as [f1 u]. rewrite ClientCommitMessage_size_sum. unfold ClientCommitMessage_ints. cbn. intros Hi Hs. to_prop. subst u.
  field_bounds Hs.
  unfold ClientCommitMessage_InternalSerializeWithCachedSizesToArray, ClientCommitMessage_has_message_id, ClientCommitMessage_message_id.
  rewrite !zlength_app. cbn.
  rewrite (opt_int64_size 1 (short 1 eq_refl)) by (done || lia).
  cbn. lia.
Qed.

Lemma ClientCommitMessage_merge_serialize m :
  ClientCommitMessage_ints m = true -> ClientCommitMessage_ByteSizeLong m <= INT_MAX ->
  ClientCommitMessage_MergePartialFromCodedStream ClientCommitMessage_new (ClientCommitMessage_InternalSerializeWithCachedSizesToArray m) = (true, m, []).
Proof.
  destruct m as [f1 u]. rewrite ClientCommitMessage_size_sum. unfold ClientCommitMessage_ints. cbn. intros Hi Hs. to_prop. subst u.
  field_bounds Hs.
  unfold ClientCommitMessage_MergePartialFromCodedStream, ClientCommitMessage_InternalSerializeWithCachedSizesToArray, ClientCommitMessage_has_message_id, ClientCommitMessage_message_id. cbn.
  apply merges_loop. unfold ClientCommitMessage_new.
  apply (parses_int64 1 (short 1 eq_refl) (fun x => mkClientCommitMessage x [])); [field_case ClientCommitMessage_field|done|].
  apply parses_nil. intros m s. unfold ClientCommitMessage_field. by rewrite tag_zero.
Qed.

Lemma ClientCommitMessage_merge_into_new from : ClientCommitMessage_MergeFrom from ClientCommitMessage_new = from.
Proof.
  destruct from as [f1 u]. unfold ClientCommitMessage_MergeFrom, ClientCommitMessage_has_message_id, ClientCommitMessage_message_id. cbn.
  rewrite !merge_opt_None. done.
Qed.

(** ** ServerSendMessage *)

Definition ServerSendMessage_ints (m : ServerSendMessage) : bool :=
  opt_all int64 (ServerSendMessage_message_id_ m) &&
  bool_decide (ServerSendMessage_unknown_ m = []).

Lemma ServerSendMessage_size_sum m :
  ServerSendMessage_ByteSizeLong m =
  osize Int64Size (ServerSendMessage_message_id_ m) +
  osize StringSize (ServerSendMessage_message_ m) +
  zlength (ServerSendMessage_unknown_ m).
Proof.
  destruct m as [f1 f2 u]. unfold ServerSendMessage_ByteSizeLong, ServerSendMessage_RequiredFieldsByteSizeFallback,
    ServerSendMessage_has_message_id, ServerSendMessage_has_message, ServerSendMessage_message_id, ServerSendMessage_message.
  cbn.
  destruct f1; destruct f2; cbn; rewrite ?if_osize; cbn; lia.
Qed.

Lemma ServerSendMessage_size_nonneg m : 0 <= ServerSendMessage_ByteSizeLong m.
Proof. rewrite ServerSendMessage_size_sum. nonneg_sum. Qed.
#[local] Hint Resolve ServerSendMessage_size_nonneg : flow_codec.

Lemma ServerSendMessage_ser_size m :
  ServerSendMessage_ints m = true -> ServerSendMessage_ByteSizeLong m <= INT_MAX ->
  zlength (ServerSendMessage_InternalSerializeWithCachedSizesToArray m) = ServerSendMessage_ByteSizeLong m.
Proof.
  destruct m as [f1 f2 u]. rewrite ServerSendMessage_size_sum. unfold ServerSendMessage_ints. cbn. intros Hi Hs. to_prop. subst u.
  field_bounds Hs.
  unfold ServerSendMessage_InternalSerializeWithCachedSizesToArray, ServerSendMessage_has_message_id, ServerSendMessage_has_message, ServerSendMessage_message_id, ServerSendMessage_message.
  rewrite !zlength_app. cbn.
  rewrite (opt_int64_size 1 (short 1 eq_refl)) by (done || lia).
  rewrite (opt_string_size 2 (short 2 eq_refl)) by (done || lia).
  cbn. lia.
Qed.

Lemma ServerSendMessage_merge_serialize m :
  ServerSendMessage_ints m = true -> ServerSendMessage_ByteSizeLong m <= INT_MAX ->
  ServerSendMessage_MergePartialFromCodedStream ServerSendMessage_new (ServerSendMessage_InternalSerializeWithCachedSizesToArray m) = (true, m, []).
Proof.
  destruct m as [f1 f2 u]. rewrite ServerSendMessage_size_sum. unfold ServerSendMessage_ints. cbn. intros Hi Hs. to_prop. subst u.
  field_bounds Hs.
  unfold ServerSendMessage_MergePartialFromCodedStream, ServerSendMessage_InternalSerializeWithCachedSizesToArray, ServerSendMessage_has_message_id, ServerSendMessage_has_message, ServerSendMessage_message_id, ServerSendMessage_message. cbn.
  apply merges_loop. unfold ServerSendMessage_new.
  apply (parses_int64 1 (short 1 eq_refl) (fun x => mkServerSendMessage x None [])); [field_case ServerSendMessage_field|done|].
  apply (parses_string 2 (short 2 eq_refl) (fun x => mkServerSendMessage f1 x [])); [field_case ServerSendMessage_field|lia|].
  apply parses_nil. intros m s. unfold ServerSendMessage_field. by rewrite tag_zero.
Qed.

Lemma ServerSendMessage_merge_into_new from : ServerSendMessage_MergeFrom from ServerSendMessage_new = from.
Proof.
  destruct from as [f1 f2 u]. unfold ServerSendMessage_MergeFrom, ServerSendMessage_has_message_id, ServerSendMessage_has_message, ServerSendMessage_message_id, ServerSendMessage_message. cbn.
  rewrite !merge_opt_None. done.
Qed.

(** ** ClientOpenQueue *)

Definition ClientOpenQueue_ints (m : ClientOpenQueue) : bool :=
  opt_all int32 (ClientOpenQueue_open_mode_ m) &&
  bool_decide (ClientOpenQueue_unknown_ m = []).

Lemma ClientOpenQueue_size_sum m :
  ClientOpenQueue_ByteSizeLong m =
  osize Int32Size (ClientOpenQueue_open_mode_ m) +
  osize StringSize (ClientOpenQueue_queue_name_ m) +
  zlength (ClientOpenQueue_unknown_ m).
Proof.
  destruct m as [f1 f2 u]. unfold ClientOpenQueue_ByteSizeLong, ClientOpenQueue_RequiredFieldsByteSizeFallback,
    ClientOpenQueue_has_open_mode, ClientOpenQueue_has_queue_name, ClientOpenQueue_open_mode, ClientOpenQueue_queue_name.
  cbn.
  destruct f1; destruct f2; cbn; rewrite ?if_osize; cbn; lia.
Qed.

Lemma ClientOpenQueue_size_nonneg m : 0 <= ClientOpenQueue_ByteSizeLong m.
Proof. rewrite ClientOpenQueue_size_sum. nonneg_sum. Qed.
#[local] Hint Resolve ClientOpenQueue_size_nonneg : flow_codec.

Lemma ClientOpenQueue_ser_size m :
  ClientOpenQueue_ints m = true -> ClientOpenQueue_ByteSizeLong m <= INT_MAX ->
  zlength (ClientOpenQueue_InternalSerializeWithCachedSizesToArray m) = ClientOpenQueue_ByteSizeLong m.
Proof.
  destruct m as [f1 f2 u]. rewrite ClientOpenQueue_size_sum. unfold ClientOpenQueue_ints. cbn. intros Hi Hs. to_prop. subst u.
  field_bounds Hs.
  unfold ClientOpenQueue_InternalSerializeWithCachedSizesToArray, ClientOpenQueue_has_open_mode, ClientOpenQueue_has_queue_name, ClientOpenQueue_open_mode, ClientOpenQueue_queue_name.
  rewrite !zlength_app. cbn.
  rewrite (opt_int32_size 1 (short 1 eq_refl)) by (done || lia).
  rewrite (opt_string_size 2 (short 2 eq_refl)) by (done || lia).
  cbn. lia.
Qed.

Lemma ClientOpenQueue_merge_serialize m :
  ClientOpenQueue_ints m = true -> ClientOpenQueue_ByteSizeLong m <= INT_MAX ->
  ClientOpenQueue_MergePartialFromCodedStream ClientOpenQueue_new (ClientOpenQueue_InternalSerializeWithCachedSizesToArray m) = (true, m, []).
Proof.
  destruct m as [f1 f2 u]. rewrite ClientOpenQueue_size_sum. unfold ClientOpenQueue_ints. cbn. intros Hi Hs. to_prop. subst u.
  field_bounds Hs.
  unfold ClientOpenQueue_MergePartialFromCodedStream, ClientOpenQueue_InternalSerializeWithCachedSizesToArray, ClientOpenQueue_has_open_mode, ClientOpenQueue_has_queue_name, ClientOpenQueue_open_mode, ClientOpenQueue_queue_name. cbn.
  apply merges_loop. unfold ClientOpenQueue_new.
  apply (parses_int32 1 (short 1 eq_refl) (fun x => mkClientOpenQueue x None [])); [field_case ClientOpenQueue_field|done|].
  apply (parses_string 2 (short 2 eq_refl) (fun x => mkClientOpenQueue f1 x [])); [field_case ClientOpenQueue_field|lia|].
  apply parses_nil. intros m s. unfold ClientOpenQueue_field. by rewrite tag_zero.
Qed.

Lemma ClientOpenQueue_merge_into_new from : ClientOpenQueue_MergeFrom from ClientOpenQueue_new = from.
Proof.
  destruct from as [f1 f2 u]. unfold ClientOpenQueue_MergeFrom, ClientOpenQueue_has_open_mode, ClientOpenQueue_has_queue_name, ClientOpenQueue_open_mode, ClientOpenQueue_queue_name. cbn.
  rewrite !merge_opt_None. done.
Qed.

(** ** ClientOpenQueueResponse *)

Definition ClientOpenQueueResponse_ints (m : ClientOpenQueueResponse) : bool :=
  bool_decide (ClientOpenQueueResponse_unknown_ m = []).

Lemma ClientOpenQueueResponse_size_sum m :
  ClientOpenQueueResponse_ByteSizeLong m =
  osize (fun e => EnumSize (Status_value e)) (ClientOpenQueueResponse_status_ m) +
  osize StringSize (ClientOpenQueueResponse_error_message_ m) +
  osize StringSize (ClientOpenQueueResponse_leader_ip_ m) +
  osize StringSize (ClientOpenQueueResponse_leader_port_ m) +
  zlength (ClientOpenQueueResponse_unknown_ m).
Proof.
  destruct m as [f1 f2 f3 f4 u]. unfold ClientOpenQueueResponse_ByteSizeLong, ClientOpenQueueResponse_RequiredFieldsByteSizeFallback,
    ClientOpenQueueResponse_has_status, ClientOpenQueueResponse_has_error_message, ClientOpenQueueResponse_has_leader_ip, ClientOpenQueueResponse_has_leader_port, ClientOpenQueueResponse_status, ClientOpenQueueResponse_error_message, ClientOpenQueueResponse_leader_ip, ClientOpenQueueResponse_leader_port.
  cbn.
  destruct f1; destruct f2; cbn; rewrite ?if_osize; cbn; lia.
Qed.

Lemma ClientOpenQueueResponse_size_nonneg m : 0 <= ClientOpenQueueResponse_ByteSizeLong m.
Proof. rewrite ClientOpenQueueResponse_size_sum. nonneg_sum. Qed.
#[local] Hint Resolve ClientOpenQueueResponse_size_nonneg : flow_codec.

Lemma ClientOpenQueueResponse_ser_size m :
  ClientOpenQueueResponse_ints m = true -> ClientOpenQueueResponse_ByteSizeLong m <= INT_MAX ->
  zlength (ClientOpenQueueResponse_InternalSerializeWithCachedSizesToArray m) = ClientOpenQueueResponse_ByteSizeLong m.
Proof.
  destruct m as [f1 f2 f3 f4 u]. rewrite ClientOpenQueueResponse_size_sum. unfold ClientOpenQueueResponse_ints. cbn. intros Hi Hs. to_prop. subst u.
  field_bounds Hs.
  unfold ClientOpenQueueResponse_InternalSerializeWithCachedSizesToArray, ClientOpenQueueResponse_has_status, ClientOpenQueueResponse_has_error_message, ClientOpenQueueResponse_has_leader_ip, ClientOpenQueueResponse_has_leader_port, ClientOpenQueueResponse_status, ClientOpenQueueResponse_error_message, ClientOpenQueueResponse_leader_ip, ClientOpenQueueResponse_leader_port.
  rewrite !zlength_app. cbn.
  rewrite (opt_enum_size 1 (short 1 eq_refl) Status_value) by (apply Status_value_int32).
  rewrite (opt_string_size 2 (short 2 eq_refl)) by (done || lia).
  rewrite (opt_string_size 3 (short 3 eq_refl)) by (done || lia).
  rewrite (opt_string_size 4 (short 4 eq_refl)) by (done || lia).
  cbn. lia.
Qed.

Lemma ClientOpenQueueResponse_merge_serialize m :
  ClientOpenQueueResponse_ints m = true -> ClientOpenQueueResponse_ByteSizeLong m <= INT_MAX ->
  ClientOpenQueueResponse_MergePartialFromCodedStream ClientOpenQueueResponse_new (ClientOpenQueueResponse_InternalSerializeWithCachedSizesToArray m) = (true, m, []).
Proof.
  destruct m as [f1 f2 f3 f4 u]. rewrite ClientOpenQueueResponse_size_sum. unfold ClientOpenQueueResponse_ints. cbn. intros Hi Hs. to_prop. subst u.
  field_bounds Hs.
  unfold ClientOpenQueueResponse_MergePartialFromCodedStream, ClientOpenQueueResponse_InternalSerializeWithCachedSizesToArray, ClientOpenQueueResponse_has_status, ClientOpenQueueResponse_has_error_message, ClientOpenQueueResponse_has_leader_ip, ClientOpenQueueResponse_has_leader_port, ClientOpenQueueResponse_status, ClientOpenQueueResponse_error_message, ClientOpenQueueResponse_leader_ip, ClientOpenQueueResponse_leader_port. cbn.
  apply merges_loop. unfold ClientOpenQueueResponse_new.
  apply (parses_enum 1 (short 1 eq_refl) Status_value (fun x => mkClientOpenQueueResponse x None None None [])); [field_case_enum ClientOpenQueueResponse_field Status_of_to|apply Status_value_int32|].
  apply (parses_string 2 (short 2 eq_refl) (fun x => mkClientOpenQueueResponse f1 x None None [])); [field_case ClientOpenQueueResponse_field|lia|].
  apply (parses_string 3 (short 3 eq_refl) (fun x => mkClientOpenQueueResponse f1 f2 x None [])); [field_case ClientOpenQueueResponse_field|lia|].
  apply (parses_string 4 (short 4 eq_refl) (fun x => mkClientOpenQueueResponse f1 f2 f3 x [])); [field_case ClientOpenQueueResponse_field|lia|].
  apply parses_nil. intros m s. unfold ClientOpenQueueResponse_field. by rewrite tag_zero.
Qed.

Lemma ClientOpenQueueResponse_merge_into_new from : ClientOpenQueueResponse_MergeFrom from ClientOpenQueueResponse_new = from.
Proof.
  destruct from as [f1 f2 f3 f4 u]. unfold ClientOpenQueueResponse_MergeFrom, ClientOpenQueueResponse_has_status, ClientOpenQueueResponse_has_error_message, ClientOpenQueueResponse_has_leader_ip, ClientOpenQueueResponse_has_leader_port, ClientOpenQueueResponse_status, ClientOpenQueueResponse_error_message, ClientOpenQueueResponse_leader_ip, ClientOpenQueueResponse_leader_port. cbn.
  rewrite !merge_opt_None. done.
Qed.

(** ** ConsumerDisconnected *)

Definition ConsumerDisconnected_ints (m : ConsumerDisconnected) : bool :=
  opt_all int32 (ConsumerDisconnected_client_id_ m) &&
  bool_decide (ConsumerDisconnected_unknown_ m = []).

Lemma ConsumerDisconnected_size_sum m :
  ConsumerDisconnected_ByteSizeLong m =
  osize Int32Size (ConsumerDisconnected_client_id_ m) +
  zlength (ConsumerDisconnected_unknown_ m).
Proof.
  destruct m as [f1 u]. unfold ConsumerDisconnected_ByteSizeLong, ConsumerDisconnected_has_client_id, ConsumerDisconnected_client_id. cbn.
  rewrite (if_osize Int32Size 0 f1).
  lia.
Qed.

Lemma ConsumerDisconnected_size_nonneg m : 0 <= ConsumerDisconnected_ByteSizeLong m.
Proof. rewrite ConsumerDisconnected_size_sum. nonneg_sum. Qed.
#[local] Hint Resolve ConsumerDisconnected_size_nonneg : flow_codec.

Lemma ConsumerDisconnected_ser_size m :
  ConsumerDisconnected_ints m = true -> ConsumerDisconnected_ByteSizeLong m <= INT_MAX ->
  zlength (ConsumerDisconnected_InternalSerializeWithCachedSizesToArray m) = ConsumerDisconnected_ByteSizeLong m.
Proof.
  destruct m as [f1 u]. rewrite ConsumerDisconnected_size_sum. unfold ConsumerDisconnected_ints. cbn. intros Hi Hs. to_prop. subst u.
  field_bounds Hs.
  unfold ConsumerDisconnected_InternalSerializeWithCachedSizesToArray, ConsumerDisconnected_has_client_id, ConsumerDisconnected_client_id.
  rewrite !zlength_app. cbn.
  rewrite (opt_int32_size 1 (short 1 eq_refl)) by (done || lia).
  cbn. lia.
Qed.

Lemma ConsumerDisconnected_merge_serialize m :
  ConsumerDisconnected_ints m = true -> ConsumerDisconnected_ByteSizeLong m <= INT_MAX ->
  ConsumerDisconnected_MergePartialFromCodedStream ConsumerDisconnected_new (ConsumerDisconnected_InternalSerializeWithCachedSizesToArray m) = (true, m, []).
Proof.
  destruct m as [f1 u]. rewrite ConsumerDisconnected_size_sum. unfold ConsumerDisconnected_ints. cbn. intros Hi Hs. to_prop. subst u.
  field_bounds Hs.
  unfold ConsumerDisconnected_MergePartialFromCodedStream, ConsumerDisconnected_InternalSerializeWithCachedSizesToArray, ConsumerDisconnected_has_client_id, ConsumerDisconnected_client_id. cbn.
  apply merges_loop. unfold ConsumerDisconnected_new.
  apply (parses_int32 1 (short 1 eq_refl) (fun x => mkConsumerDisconnected x [])); [field_case ConsumerDisconnected_field|done|].
  apply parses_nil. intros m s. unfold ConsumerDisconnected_field. by rewrite tag_zero.
Qed.

Lemma ConsumerDisconnected_merge_into_new from : ConsumerDisconnected_MergeFrom from ConsumerDisconnected_new = from.
Proof.
  destruct from as [f1 u]. unfold ConsumerDisconnected_MergeFrom, ConsumerDisconnected_has_client_id, ConsumerDisconnected_client_id. cbn.
  rewrite !merge_opt_None. done.
Qed.

(** ** FlowMessage *)

Definition FlowMessage_ints (m : FlowMessage) : bool :=
  opt_all int64 (FlowMessage_partition_id_ m) &&
  opt_all RequestVoteRequest_ints (FlowMessage_request_vote_request_ m) &&
  opt_all RequestVoteResponse_ints (FlowMessage_request_vote_response_ m) &&
  opt_all AppendEntriesRequest_ints (FlowMessage_append_entries_request_ m) &&
  opt_all AppendEntriesResponse_ints (FlowMessage_append_entries_response_ m) &&
  opt_all ClientPutMessage_ints (FlowMessage_client_put_message_ m) &&
  opt_all ClientCommitMessage_ints (FlowMessage_client_commit_message_ m) &&
  opt_all ServerSendMessage_ints (FlowMessage_server_send_message_ m) &&
  opt_all ClientOpenQueue_ints (FlowMessage_client_open_queue_ m) &&
  opt_all ConsumerDisconnected_ints (FlowMessage_consumer_disconnected_ m) &&
  opt_all ClientOpenQueueResponse_ints (FlowMessage_client_open_queue_response_ m) &&
  opt_all ClientPutMessageResponse_ints (FlowMessage_client_put_message_response_ m) &&
  bool_decide (FlowMessage_unknown_ m = []).

Lemma FlowMessage_size_sum m :
  FlowMessage_ByteSizeLong m =
  osize (fun e => EnumSize (MessageType_value e)) (FlowMessage_type_ m) +
  osize Int64Size (FlowMessage_partition_id_ m) +
  osize (fun x => MessageSize (RequestVoteRequest_ByteSizeLong x)) (FlowMessage_request_vote_request_ m) +
  osize (fun x => MessageSize (RequestVoteResponse_ByteSizeLong x)) (FlowMessage_request_vote_response_ m) +
  osize (fun x => MessageSize (AppendEntriesRequest_ByteSizeLong x)) (FlowMessage_append_entries_request_ m) +
  osize (fun x => MessageSize (AppendEntriesResponse_ByteSizeLong x)) (FlowMessage_append_entries_response_ m) +
  osize (fun x => MessageSize (ClientPutMessage_ByteSizeLong x)) (FlowMessage_client_put_message_ m) +
  osize (fun x => MessageSize (ClientCommitMessage_ByteSizeLong x)) (FlowMessage_client_commit_message_ m) +
  osize (fun x => MessageSize (ServerSendMessage_ByteSizeLong x)) (FlowMessage_server_send_message_ m) +
  osize (fun x => MessageSize (ClientOpenQueue_ByteSizeLong x)) (FlowMessage_client_open_queue_ m) +
  osize (fun x => MessageSize (ConsumerDisconnected_ByteSizeLong x)) (FlowMessage_consumer_disconnected_ m) +
  osize (fun x => MessageSize (ClientOpenQueueResponse_ByteSizeLong x)) (FlowMessage_client_open_queue_response_ m) +
  osize (fun x => MessageSize (ClientPutMessageResponse_ByteSizeLong x)) (FlowMessage_client_put_message_response_ m) +
  zlength (FlowMessage_unknown_ m).
Proof.
  destruct m as [f1 f2 f3 f4 f5 f6 f7 f8 f9 f10 f11 f12 f13 u]. unfold FlowMessage_ByteSizeLong, FlowMessage_has_type, FlowMessage_has_partition_id, FlowMessage_has_request_vote_request, FlowMessage_has_request_vote_response, FlowMessage_has_append_entries_request, FlowMessage_has_append_entries_response, FlowMessage_has_client_put_message, FlowMessage_has_client_commit_message, FlowMessage_has_server_send_message, FlowMessage_has_client_open_queue, FlowMessage_has_consumer_disconnected, FlowMessage_has_client_open_queue_response, FlowMessage_has_client_put_message_response, FlowMessage_type, FlowMessage_partition_id, FlowMessage_request_vote_request, FlowMessage_request_vote_response, FlowMessage_append_entries_request, FlowMessage_append_entries_response, FlowMessage_client_put_message, FlowMessage_client_commit_message, FlowMessage_server_send_message, FlowMessage_client_open_queue, FlowMessage_consumer_disconnected, FlowMessage_client_open_queue_response, FlowMessage_client_put_message_response. cbn.
  rewrite (if_osize (fun e => EnumSize (MessageType_value e)) REQUEST_VOTE_REQUEST f1).
  rewrite (if_osize Int64Size 0 f2).
  rewrite (if_osize (fun x => MessageSize (RequestVoteRequest_ByteSizeLong x)) RequestVoteRequest_new f3).
  rewrite (if_osize (fun x => MessageSize (RequestVoteResponse_ByteSizeLong x)) RequestVoteResponse_new f4).
  rewrite (if_osize (fun x => MessageSize (AppendEntriesRequest_ByteSizeLong x)) AppendEntriesRequest_new f5).
  rewrite (if_osize (fun x => MessageSize (AppendEntriesResponse_ByteSizeLong x)) AppendEntriesResponse_new f6).
  rewrite (if_osize (fun x => MessageSize (ClientPutMessage_ByteSizeLong x)) ClientPutMessage_new f7).
  rewrite (if_osize (fun x => MessageSize (ClientCommitMessage_ByteSizeLong x)) ClientCommitMessage_new f8).
  rewrite (if_osize (fun x => MessageSize (ServerSendMessage_ByteSizeLong x)) ServerSendMessage_new f9).
  rewrite (if_osize (fun x => MessageSize (ClientOpenQueue_ByteSizeLong x)) ClientOpenQueue_new f10).
  rewrite (if_osize (fun x => MessageSize (ConsumerDisconnected_ByteSizeLong x)) ConsumerDisconnected_new f11).
  rewrite (if_osize (fun x => MessageSize (ClientOpenQueueResponse_ByteSizeLong x)) ClientOpenQueueResponse_new f12).
  rewrite (if_osize (fun x => MessageSize (ClientPutMessageResponse_ByteSizeLong x)) ClientPutMessageResponse_new f13).
  lia.
Qed.

Lemma FlowMessage_size_nonneg m : 0 <= FlowMessage_ByteSizeLong m.
Proof. rewrite FlowMessage_size_sum. nonneg_sum. Qed.
#[local] Hint Resolve FlowMessage_size_nonneg : flow_codec.

(** The message of a put request is part of it. *)
Lemma FlowMessage_put_size m :
  zlength (ClientPutMessage_message (FlowMessage_client_put_message m)) <= FlowMessage_ByteSizeLong m.
Proof.
  assert (P : forall x, zlength (ClientPutMessage_message x) <= ClientPutMessage_ByteSizeLong x).
  { intros x. rewrite ClientPutMessage_size_sum. unfold ClientPutMessage_message.
    pose proof (osize_nonneg Int64Size (ClientPutMessage_message_id_ x) Int64Size_nonneg). pose proof (zlength_nonneg (ClientPutMessage_unknown_ x)).
    destruct (ClientPutMessage_message_ x) as [s|]; cbn [osize default]; [pose proof (StringSize_length s)|change (zlength []) with 0]; unfold id; lia. }
  remember (FlowMessage_ByteSizeLong m) as s eqn:Hs. rewrite FlowMessage_size_sum in Hs. field_bounds Hs.
  assert (Q : zlength (ClientPutMessage_message (FlowMessage_client_put_message m)) <=
    osize (fun x => MessageSize (ClientPutMessage_ByteSizeLong x)) (FlowMessage_client_put_message_ m)).
  { unfold FlowMessage_client_put_message. destruct (FlowMessage_client_put_message_ m) as [x|]; cbn [osize default]; [|done].
    specialize (P x). destruct sizes_nonneg as (_ & _ & _ & _ & B). specialize (B (ClientPutMessage_ByteSizeLong x)).
    pose proof (zlength_nonneg (ClientPutMessage_message x)). unfold id. lia. }
  lia.
Qed.

Lemma FlowMessage_ser_size m :
  FlowMessage_ints m = true -> FlowMessage_ByteSizeLong m <= INT_MAX ->
  zlength (FlowMessage_InternalSerializeWithCachedSizesToArray m) = FlowMessage_ByteSizeLong m.
Proof.
  destruct m as [f1 f2 f3 f4 f5 f6 f7 f8 f9 f10 f11 f12 f13 u]. rewrite FlowMessage_size_sum. unfold FlowMessage_ints. cbn. intros Hi Hs. to_prop. subst u.
  field_bounds Hs.
  unfold FlowMessage_InternalSerializeWithCachedSizesToArray, FlowMessage_has_type, FlowMessage_has_partition_id, FlowMessage_has_request_vote_request, FlowMessage_has_request_vote_response, FlowMessage_has_append_entries_request, FlowMessage_has_append_entries_response, FlowMessage_has_client_put_message, FlowMessage_has_client_commit_message, FlowMessage_has_server_send_message, FlowMessage_has_client_open_queue, FlowMessage_has_consumer_disconnected, FlowMessage_has_client_open_queue_response, FlowMessage_has_client_put_message_response, FlowMessage_type, FlowMessage_partition_id, FlowMessage_request_vote_request, FlowMessage_request_vote_response, FlowMessage_append_entries_request, FlowMessage_append_entries_response, FlowMessage_client_put_message, FlowMessage_client_commit_message, FlowMessage_server_send_message, FlowMessage_client_open_queue, FlowMessage_consumer_disconnected, FlowMessage_client_open_queue_response, FlowMessage_client_put_message_response.
  rewrite !zlength_app. cbn.
  rewrite (opt_enum_size 1 (short 1 eq_refl) MessageType_value) by (apply MessageType_value_int32).
  rewrite (opt_int64_size 2 (short 2 eq_refl)) by (done || lia).
  rewrite (opt_message_size 3 (short 3 eq_refl) RequestVoteRequest_InternalSerializeWithCachedSizesToArray RequestVoteRequest_ByteSizeLong RequestVoteRequest_ints RequestVoteRequest_ser_size RequestVoteRequest_size_nonneg) by (done || lia).
  rewrite (opt_message_size 4 (short 4 eq_refl) RequestVoteResponse_InternalSerializeWithCachedSizesToArray RequestVoteResponse_ByteSizeLong RequestVoteResponse_ints RequestVoteResponse_ser_size RequestVoteResponse_size_nonneg) by (done || lia).
  rewrite (opt_message_size 5 (short 5 eq_refl) AppendEntriesRequest_InternalSerializeWithCachedSizesToArray AppendEntriesRequest_ByteSizeLong AppendEntriesRequest_ints AppendEntriesRequest_ser_size AppendEntriesRequest_size_nonneg) by (done || lia).
  rewrite (opt_message_size 6 (short 6 eq_refl) AppendEntriesResponse_InternalSerializeWithCachedSizesToArray AppendEntriesResponse_ByteSizeLong AppendEntriesResponse_ints AppendEntriesResponse_ser_size AppendEntriesResponse_size_nonneg) by (done || lia).
  rewrite (opt_message_size 7 (short 7 eq_refl) ClientPutMessage_InternalSerializeWithCachedSizesToArray ClientPutMessage_ByteSizeLong ClientPutMessage_ints ClientPutMessage_ser_size ClientPutMessage_size_nonneg) by (done || lia).
  rewrite (opt_message_size 8 (short 8 eq_refl) ClientCommitMessage_InternalSerializeWithCachedSizesToArray ClientCommitMessage_ByteSizeLong ClientCommitMessage_ints ClientCommitMessage_ser_size ClientCommitMessage_size_nonneg) by (done || lia).
  rewrite (opt_message_size 9 (short 9 eq_refl) ServerSendMessage_InternalSerializeWithCachedSizesToArray ServerSendMessage_ByteSizeLong ServerSendMessage_ints ServerSendMessage_ser_size ServerSendMessage_size_nonneg) by (done || lia).
  rewrite (opt_message_size 10 (short 10 eq_refl) ClientOpenQueue_InternalSerializeWithCachedSizesToArray ClientOpenQueue_ByteSizeLong ClientOpenQueue_ints ClientOpenQueue_ser_size ClientOpenQueue_size_nonneg) by (done || lia).
  rewrite (opt_message_size 11 (short 11 eq_refl) ConsumerDisconnected_InternalSerializeWithCachedSizesToArray ConsumerDisconnected_ByteSizeLong ConsumerDisconnected_ints ConsumerDisconnected_ser_size ConsumerDisconnected_size_nonneg) by (done || lia).
  rewrite (opt_message_size 12 (short 12 eq_refl) ClientOpenQueueResponse_InternalSerializeWithCachedSizesToArray ClientOpenQueueResponse_ByteSizeLong ClientOpenQueueResponse_ints ClientOpenQueueResponse_ser_size ClientOpenQueueResponse_size_nonneg) by (done || lia).
  rewrite (opt_message_size 13 (short 13 eq_refl) ClientPutMessageResponse_InternalSerializeWithCachedSizesToArray ClientPutMessageResponse_ByteSizeLong ClientPutMessageResponse_ints ClientPutMessageResponse_ser_size ClientPutMessageResponse_size_nonneg) by (done || lia).
  cbn. lia.
Qed.

Lemma FlowMessage_merge_serialize m :
  FlowMessage_ints m = true -> FlowMessage_ByteSizeLong m <= INT_MAX ->
  FlowMessage_MergePartialFromCodedStream FlowMessage_new (FlowMessage_InternalSerializeWithCachedSizesToArray m) = (true, m, []).
Proof.
  destruct m as [f1 f2 f3 f4 f5 f6 f7 f8 f9 f10 f11 f12 f13 u]. rewrite FlowMessage_size_sum. unfold FlowMessage_ints. cbn. intros Hi Hs. to_prop. subst u.
  field_bounds Hs.
  unfold FlowMessage_MergePartialFromCodedStream, FlowMessage_InternalSerializeWithCachedSizesToArray, FlowMessage_has_type, FlowMessage_has_partition_id, FlowMessage_has_request_vote_request, FlowMessage_has_request_vote_response, FlowMessage_has_append_entries_request, FlowMessage_has_append_entries_response, FlowMessage_has_client_put_message, FlowMessage_has_client_commit_message, FlowMessage_has_server_send_message, FlowMessage_has_client_open_queue, FlowMessage_has_consumer_disconnected, FlowMessage_has_client_open_queue_response, FlowMessage_has_client_put_message_response, FlowMessage_type, FlowMessage_partition_id, FlowMessage_request_vote_request, FlowMessage_request_vote_response, FlowMessage_append_entries_request, FlowMessage_append_entries_response, FlowMessage_client_put_message, FlowMessage_client_commit_message, FlowMessage_server_send_message, FlowMessage_client_open_queue, FlowMessage_consumer_disconnected, FlowMessage_client_open_queue_response, FlowMessage_client_put_message_response. cbn.
  apply merges_loop. unfold FlowMessage_new.
  apply (parses_enum 1 (short 1 eq_refl) MessageType_value (fun x => mkFlowMessage x None None None None None None None None None None None None [])); [field_case_enum FlowMessage_field MessageType_of_to|apply MessageType_value_int32|].
  apply (parses_int64 2 (short 2 eq_refl) (fun x => mkFlowMessage f1 x None None None None None None None None None None None [])); [field_case FlowMessage_field|done|].
  apply (parses_message 3 (short 3 eq_refl) RequestVoteRequest_MergePartialFromCodedStream RequestVoteRequest_InternalSerializeWithCachedSizesToArray
    RequestVoteRequest_ByteSizeLong RequestVoteRequest_ints RequestVoteRequest_new RequestVoteRequest_ser_size RequestVoteRequest_merge_serialize RequestVoteRequest_size_nonneg (fun x => mkFlowMessage f1 f2 x None None None None None None None None None None []));
    [field_case FlowMessage_field|done|lia|].
  apply (parses_message 4 (short 4 eq_refl) RequestVoteResponse_MergePartialFromCodedStream RequestVoteResponse_InternalSerializeWithCachedSizesToArray
    RequestVoteResponse_ByteSizeLong RequestVoteResponse_ints RequestVoteResponse_new RequestVoteResponse_ser_size RequestVoteResponse_merge_serialize RequestVoteResponse_size_nonneg (fun x => mkFlowMessage f1 f2 f3 x None None None None None None None None None []));
    [field_case FlowMessage_field|done|lia|].
  apply (parses_message 5 (short 5 eq_refl) AppendEntriesRequest_MergePartialFromCodedStream AppendEntriesRequest_InternalSerializeWithCachedSizesToArray
    AppendEntriesRequest_ByteSizeLong AppendEntriesRequest_ints AppendEntriesRequest_new AppendEntriesRequest_ser_size AppendEntriesRequest_merge_serialize AppendEntriesRequest_size_nonneg (fun x => mkFlowMessage f1 f2 f3 f4 x None None None None None None None None []));
    [field_case FlowMessage_field|done|lia|].
  apply (parses_message 6 (short 6 eq_refl) AppendEntriesResponse_MergePartialFromCodedStream AppendEntriesResponse_InternalSerializeWithCachedSizesToArray
    AppendEntriesResponse_ByteSizeLong AppendEntriesResponse_ints AppendEntriesResponse_new AppendEntriesResponse_ser_size AppendEntriesResponse_merge_serialize AppendEntriesResponse_size_nonneg (fun x => mkFlowMessage f1 f2 f3 f4 f5 x None None None None None None None []));
    [field_case FlowMessage_field|done|lia|].
  apply (parses_message 7 (short 7 eq_refl) ClientPutMessage_MergePartialFromCodedStream ClientPutMessage_InternalSerializeWithCachedSizesToArray
    ClientPutMessage_ByteSizeLong ClientPutMessage_ints ClientPutMessage_new ClientPutMessage_ser_size ClientPutMessage_merge_serialize ClientPutMessage_size_nonneg (fun x => mkFlowMessage f1 f2 f3 f4 f5 f6 x None None None None None None []));
    [field_case FlowMessage_field|done|lia|].
  apply (parses_message 8 (short 8 eq_refl) ClientCommitMessage_MergePartialFromCodedStream ClientCommitMessage_InternalSerializeWithCachedSizesToArray
    ClientCommitMessage_ByteSizeLong ClientCommitMessage_ints ClientCommitMessage_new ClientCommitMessage_ser_size ClientCommitMessage_merge_serialize ClientCommitMessage_size_nonneg (fun x => mkFlowMessage f1 f2 f3 f4 f5 f6 f7 x None None None None None []));
    [field_case FlowMessage_field|done|lia|].
  apply (parses_message 9 (short 9 eq_refl) ServerSendMessage_MergePartialFromCodedStream ServerSendMessage_InternalSerializeWithCachedSizesToArray
    ServerSendMessage_ByteSizeLong ServerSendMessage_ints ServerSendMessage_new ServerSendMessage_ser_size ServerSendMessage_merge_serialize ServerSendMessage_size_nonneg (fun x => mkFlowMessage f1 f2 f3 f4 f5 f6 f7 f8 x None None None None []));
    [field_case FlowMessage_field|done|lia|].
  apply (parses_message 10 (short 10 eq_refl) ClientOpenQueue_MergePartialFromCodedStream ClientOpenQueue_InternalSerializeWithCachedSizesToArray
    ClientOpenQueue_ByteSizeLong ClientOpenQueue_ints ClientOpenQueue_new ClientOpenQueue_ser_size ClientOpenQueue_merge_serialize ClientOpenQueue_size_nonneg (fun x => mkFlowMessage f1 f2 f3 f4 f5 f6 f7 f8 f9 x None None None []));
    [field_case FlowMessage_field|done|lia|].
  apply (parses_message 11 (short 11 eq_refl) ConsumerDisconnected_MergePartialFromCodedStream ConsumerDisconnected_InternalSerializeWithCachedSizesToArray
    ConsumerDisconnected_ByteSizeLong ConsumerDisconnected_ints ConsumerDisconnected_new ConsumerDisconnected_ser_size ConsumerDisconnected_merge_serialize ConsumerDisconnected_size_nonneg (fun x => mkFlowMessage f1 f2 f3 f4 f5 f6 f7 f8 f9 f10 x None None []));
    [field_case FlowMessage_field|done|lia|].
  apply (parses_message 12 (short 12 eq_refl) ClientOpenQueueResponse_MergePartialFromCodedStream ClientOpenQueueResponse_InternalSerializeWithCachedSizesToArray
    ClientOpenQueueResponse_ByteSizeLong ClientOpenQueueResponse_ints ClientOpenQueueResponse_new ClientOpenQueueResponse_ser_size ClientOpenQueueResponse_merge_serialize ClientOpenQueueResponse_size_nonneg (fun x => mkFlowMessage f1 f2 f3 f4 f5 f6 f7 f8 f9 f10 f11 x None []));
    [field_case FlowMessage_field|done|lia|].
  apply (parses_message 13 (short 13 eq_refl) ClientPutMessageResponse_MergePartialFromCodedStream ClientPutMessageResponse_InternalSerializeWithCachedSizesToArray
    ClientPutMessageResponse_ByteSizeLong ClientPutMessageResponse_ints ClientPutMessageResponse_new ClientPutMessageResponse_ser_size ClientPutMessageResponse_merge_serialize ClientPutMessageResponse_size_nonneg (fun x => mkFlowMessage f1 f2 f3 f4 f5 f6 f7 f8 f9 f10 f11 f12 x []));
    [field_case FlowMessage_field|done|lia|].
  apply parses_nil. intros m s. unfold FlowMessage_field. by rewrite tag_zero.
Qed.

Lemma FlowMessage_merge_into_new from : FlowMessage_MergeFrom from FlowMessage_new = from.
Proof.
  destruct from as [f1 f2 f3 f4 f5 f6 f7 f8 f9 f10 f11 f12 f13 u]. unfold FlowMessage_MergeFrom, FlowMessage_has_type, FlowMessage_has_partition_id, FlowMessage_has_request_vote_request, FlowMessage_has_request_vote_response, FlowMessage_has_append_entries_request, FlowMessage_has_append_entries_response, FlowMessage_has_client_put_message, FlowMessage_has_client_commit_message, FlowMessage_has_server_send_message, FlowMessage_has_client_open_queue, FlowMessage_has_consumer_disconnected, FlowMessage_has_client_open_queue_response, FlowMessage_has_client_put_message_response, FlowMessage_type, FlowMessage_partition_id, FlowMessage_request_vote_request, FlowMessage_request_vote_response, FlowMessage_append_entries_request, FlowMessage_append_entries_response, FlowMessage_client_put_message, FlowMessage_client_commit_message, FlowMessage_server_send_message, FlowMessage_client_open_queue, FlowMessage_consumer_disconnected, FlowMessage_client_open_queue_response, FlowMessage_client_put_message_response. cbn.
  rewrite !merge_opt_None.
  rewrite (if_merge RequestVoteRequest_MergeFrom RequestVoteRequest_new _ RequestVoteRequest_merge_into_new).
  rewrite (if_merge RequestVoteResponse_MergeFrom RequestVoteResponse_new _ RequestVoteResponse_merge_into_new).
  rewrite (if_merge AppendEntriesRequest_MergeFrom AppendEntriesRequest_new _ AppendEntriesRequest_merge_into_new).
  rewrite (if_merge AppendEntriesResponse_MergeFrom AppendEntriesResponse_new _ AppendEntriesResponse_merge_into_new).
  rewrite (if_merge ClientPutMessage_MergeFrom ClientPutMessage_new _ ClientPutMessage_merge_into_new).
  rewrite (if_merge ClientCommitMessage_MergeFrom ClientCommitMessage_new _ ClientCommitMessage_merge_into_new).
  rewrite (if_merge ServerSendMessage_MergeFrom ServerSendMessage_new _ ServerSendMessage_merge_into_new).
  rewrite (if_merge ClientOpenQueue_MergeFrom ClientOpenQueue_new _ ClientOpenQueue_merge_into_new).
  rewrite (if_merge ConsumerDisconnected_MergeFrom ConsumerDisconnected_new _ ConsumerDisconnected_merge_into_new).
  rewrite (if_merge ClientOpenQueueResponse_MergeFrom ClientOpenQueueResponse_new _ ClientOpenQueueResponse_merge_into_new).
  rewrite (if_merge ClientPutMessageResponse_MergeFrom ClientPutMessageResponse_new _ ClientPutMessageResponse_merge_into_new). done.
Qed.

End Facts.
