(* ===== verification/Decimal.v ===== *)
(** * Decimal text

    The parts of the C++ standard library the sources use to write and read
    integers as text: [std::to_string], [operator<<] of an integer, [std::atoi]
    (message headers), [std::stoi] and [std::stoll] (configuration files) and
    [operator>>] of an [int] from a file stream (the storage files). *)

From S2P Require Import Prelude.

Local Open Scope Z_scope.

(** ** Characters *)

Definition chr (z : Z) : Byte.byte := byte_of_Z z.
Definition SPACE : Byte.byte := Byte.x20.
Definition NUL : Byte.byte := Byte.x00.
Definition MINUS : Byte.byte := Byte.x2d.
Definition PLUS : Byte.byte := Byte.x2b.

Definition is_digit (b : Byte.byte) : bool :=
  let c := Z_of_byte b in (48 <=? c) && (c <=? 57).

(** [std::isspace] in the default locale. *)
Definition is_space (b : Byte.byte) : bool :=
  let c := Z_of_byte b in (c =? 32) || ((9 <=? c) && (c <=? 13)).

(** ** Writing *)

Fixpoint digits (fuel : nat) (z : Z) : bytes :=
  match fuel with
  | O => [chr (48 + z)]
  | S fuel => if z <? 10 then [chr (48 + z)] else digits fuel (z / 10) ++ [chr (48 + z mod 10)]
  end.

(** Twenty digits hold every value of a 64-bit type. *)
Definition to_string (z : Z) : bytes :=
  if z <? 0 then MINUS :: digits 19 (- z) else digits 19 z.

(** ** Reading *)

Fixpoint scan_digits (acc : Z) (b : bytes) : Z * bytes :=
  match b with
  | x :: b' => if is_digit x then scan_digits (acc * 10 + (Z_of_byte x - 48)) b' else (acc, b)
  | [] => (acc, [])
  end.

Fixpoint skip_space (b : bytes) : bytes :=
  match b with
  | x :: b' => if is_space x then skip_space b' else b
  | [] => []
  end.

(** Optional white space, an optional sign and the digits that follow; [None]
    where there is no digit. The rest is what the scan did not consume. *)
Definition scan_int (b : bytes) : option Z * bytes :=
  let b := skip_space b in
  let '(neg, b) := match b with
    | x :: b' => if bool_decide (x = MINUS) then (true, b')
                 else if bool_decide (x = PLUS) then (false, b') else (false, b)
    | [] => (false, b)
    end in
  match b with
  | x :: _ => if is_digit x
              then let '(z, rest) := scan_digits 0 b in (Some (if neg then - z else z), rest)
              else (None, b)
  | [] => (None, b)
  end.

(** [std::atoi] on a buffer: the scan has to meet a byte that ends it inside
    the buffer, and a value outside [int] is undefined. *)
Definition atoi (b : bytes) : outcome Z :=
  match scan_int b with
  | (_, []) => Fault OutOfRange
  | (None, _) => Ret 0
  | (Some z, _) => if int32 z then Ret z else Fault SignedOverflow
  end.

(** [std::stoi] and [std::stoll] throw on anything that is not a number of
    their type. *)
Definition stoi (b : bytes) : outcome Z :=
  match (scan_int b).1 with
  | Some z => if int32 z then Ret z else Fault Thrown
  | None => Fault Thrown
  end.

Definition stoll (b : bytes) : outcome Z :=
  match (scan_int b).1 with
  | Some z => if int64 z then Ret z else Fault Thrown
  | None => Fault Thrown
  end.

(** ** Input streams

    What is left to read, with [eofbit] and [failbit] of the stream. *)

Record ifstream := mkIfstream { is_data : bytes; is_eof : bool; is_fail : bool }.

Definition good (f : ifstream) : bool := negb (is_eof f) && negb (is_fail f).

(** Opening a file that is not there sets [failbit]. *)
Definition ifstream_open (file : option bytes) : ifstream :=
  match file with
  | Some b => mkIfstream b false false
  | None => mkIfstream [] false true
  end.

(** [f >> x] for an [int x]; the value is unchanged when the stream cannot be
    read at all, 0 when there is no number, and the nearest bound when it does
    not fit. *)
Definition read_int (x : Z) (f : ifstream) : Z * ifstream :=
  if negb (good f) then (x, mkIfstream (is_data f) (is_eof f) true)
  else match skip_space (is_data f) with
  | [] => (x, mkIfstream [] true true)
  | b =>
      match scan_int b with
      | (None, rest) => (0, mkIfstream rest (bool_decide (rest = [])) true)
      | (Some z, rest) =>
          if int32 z then (z, mkIfstream rest (bool_decide (rest = [])) false)
          else ((if z <? 0 then INT_MIN else INT_MAX), mkIfstream rest (bool_decide (rest = [])) true)
      end
  end.

(** [f.read(buf, n)]: the first bytes of [buf] are overwritten with what could
    be read; asking for more than there is sets both bits. *)
Definition read_block (buf : bytes) (n : Z) (f : ifstream) : bytes * ifstream :=
  if negb (good f) then (buf, mkIfstream (is_data f) (is_eof f) true)
  else let got := take (Z.to_nat n) (is_data f) in
       let short := zlength (is_data f) <? n in
       (got ++ drop (length got) buf,
        mkIfstream (drop (Z.to_nat n) (is_data f)) short short).

(** ** Written numbers read back *)

Lemma Z_of_chr z : 0 <= z < 10 -> Z_of_byte (chr (48 + z)) = 48 + z.
Proof. intros H. apply Z_of_byte_of_Z. lia. Qed.

Lemma is_digit_chr z : 0 <= z < 10 -> is_digit (chr (48 + z)) = true.
Proof. intros H. unfold is_digit. rewrite Z_of_chr by done. apply andb_true_iff. rewrite !Z.leb_le. lia. Qed.

(** [rest] does not continue a number. *)
Definition no_digit (rest : bytes) : Prop :=
  match rest with x :: _ => is_digit x = false | [] => True end.

Lemma scan_no_digit z rest : no_digit rest -> scan_digits z rest = (z, rest).
Proof. destruct rest as [|x r]; simpl; [done|]. by intros ->. Qed.

Lemma scan_digit acc z rest :
  0 <= z < 10 -> scan_digits acc (chr (48 + z) :: rest) = scan_digits (acc * 10 + z) rest.
Proof.
  intros H. cbn [scan_digits]. rewrite is_digit_chr, Z_of_chr by done.
  f_equal. lia.
Qed.

Lemma scan_digits_written fuel z rest :
  0 <= z < 10 ^ Z.of_nat (S fuel) -> scan_digits 0 (digits fuel z ++ rest) = scan_digits z rest.
Proof.
  revert z rest. induction fuel as [|fuel IH]; intros z rest Hz.
  - simpl digits. rewrite <- app_comm_cons. rewrite scan_digit; [done|]. lia.
  - cbn [digits]. destruct (Z.ltb_spec z 10).
    + rewrite <- app_comm_cons, scan_digit by lia. done.
    + pose proof (Z.mod_pos_bound z 10). pose proof (Z.div_mod z 10).
      rewrite Nat2Z.inj_succ, Z.pow_succ_r in Hz by lia.
      rewrite <- app_assoc, IH.
      * rewrite <- app_comm_cons, scan_digit by lia. simpl. f_equal. lia.
      * split; [apply Z.div_pos; lia|]. apply Z.div_lt_upper_bound; lia.
Qed.

Lemma digits_head fuel z :
  0 <= z < 10 ^ Z.of_nat (S fuel) -> exists x r, digits fuel z = x :: r /\ is_digit x = true.
Proof.
  revert z. induction fuel as [|fuel IH]; intros z Hz.
  - eexists _, _. split; [done|]. apply is_digit_chr. lia.
  - cbn [digits]. destruct (Z.ltb_spec z 10).
    + eexists _, _. split; [done|]. apply is_digit_chr. lia.
    + rewrite Nat2Z.inj_succ, Z.pow_succ_r in Hz by lia.
      destruct (IH (z / 10)) as (x & r & -> & Hx).
      * split; [apply Z.div_pos; lia|]. apply Z.div_lt_upper_bound; lia.
      * eexists _, _. by rewrite <- app_comm_cons.
Qed.

Lemma digit_not_space x : is_digit x = true -> is_space x = false.
Proof.
  unfold is_digit, is_space. intros H. to_prop.
  apply orb_false_iff. rewrite andb_false_iff, Z.eqb_neq, !Z.leb_gt. lia.
Qed.

Lemma digit_not_sign x : is_digit x = true -> x <> MINUS /\ x <> PLUS.
Proof. intros H. split; intros ->; vm_compute in H; discriminate. Qed.

(** A written number, followed by something that is not a digit, scans back. *)
Lemma scan_int_written z rest :
  INT64_MIN <= z < 10 ^ 20 -> no_digit rest -> scan_int (to_string z ++ rest) = (Some z, rest).
Proof.
  intros Hz Hr. unfold to_string, INT64_MIN in *. destruct (Z.ltb_spec z 0).
  - unfold scan_int. rewrite <- app_comm_cons. cbn [skip_space].
    change (is_space MINUS) with false. cbv iota beta.
    rewrite bool_decide_true by done.
    destruct (digits_head 19 (- z)) as (x & r & E & Hx); [lia|].
    pose proof (scan_digits_written 19 (- z) rest) as S. rewrite E in *.
    rewrite <- app_comm_cons in *. rewrite Hx, S, scan_no_digit by (done || lia).
    do 2 f_equal. lia.
  - destruct (digits_head 19 z) as (x & r & E & Hx); [lia|].
    pose proof (scan_digits_written 19 z rest) as S. rewrite E in *.
    unfold scan_int. rewrite <- app_comm_cons in *. cbn [skip_space].
    rewrite (digit_not_space x Hx). cbv iota beta.
    destruct (digit_not_sign x Hx). rewrite !bool_decide_false by done.
    by rewrite Hx, S, scan_no_digit by (done || lia).
Qed.

Lemma skip_space_written z rest :
  INT64_MIN <= z < 10 ^ 20 -> skip_space (to_string z ++ rest) = to_string z ++ rest.
Proof.
  unfold to_string, INT64_MIN. intros Hz. destruct (Z.ltb_spec z 0); [done|].
  destruct (digits_head 19 z) as (x & r & -> & Hx); [lia|].
  rewrite <- app_comm_cons. cbn [skip_space]. by rewrite digit_not_space.
Qed.

Lemma to_string_nonempty z : to_string z <> [].
Proof.
  unfold to_string. destruct (z <? 0); [done|]. cbn [digits].
  destruct (z <? 10); [done|]. by intros [_ ?]%app_nil.
Qed.

(** A number below 10^(k+1) takes at most k+1 digits. *)
Lemma digits_length fuel k z :
  0 <= z < 10 ^ Z.of_nat (S k) -> (length (digits fuel z) <= S k)%nat.
Proof.
  revert fuel z. induction k as [|k IH]; intros [|fuel] z Hz; cbn [digits]; simpl; try lia.
  - rewrite (proj2 (Z.ltb_lt z 10)); simpl; lia.
  - destruct (Z.ltb_spec z 10); simpl; [lia|]. rewrite length_app. simpl.
    rewrite Nat2Z.inj_succ, Z.pow_succ_r in Hz by lia.
    assert (length (digits fuel (z / 10)) <= S k)%nat; [|lia]. apply IH.
    split; [apply Z.div_pos; lia|]. apply Z.div_lt_upper_bound; lia.
Qed.
