(* ===== verification/RaftMessage.v ===== *)
(** * Messages on the wire

    [Message] (src/src/flowmq/message.hpp) is the buffer a session reads into
    and writes from: a 20-byte decimal length and a body of at most 1000
    bytes. [RaftMessage] (src/src/flowmq/raft_message.hpp) wraps the protobuf
    class [FlowMessage] and moves it into and out of a [Message]. *)

From S2P Require Import Prelude WireFormat FlowTypes FlowCodec FlowCodecFacts Decimal.

Local Open Scope Z_scope.

(** ** The buffer *)

Definition HEADER_LENGTH : Z := 20.
Definition MAX_BODY_LENGTH : Z := 1000.

Record Message := mkMessage { body_length_ : Z; data_buffer_ : bytes }.

#[export] Instance Message_eq_dec : EqDecision Message.
Proof. solve_decision. Defined.

Definition Message_new : Message :=
  mkMessage 0 (replicate (Z.to_nat (HEADER_LENGTH + MAX_BODY_LENGTH)) NUL).

(** [header()] and [body()]: the buffer from that position on. *)
Definition header (m : Message) : bytes := data_buffer_ m.
Definition body (m : Message) : bytes := drop (Z.to_nat HEADER_LENGTH) (data_buffer_ m).
Definition body_length (m : Message) : Z := body_length_ m.

Definition decode_length (m : Message) : outcome Message :=
  let* n := atoi (header m) in Ret (mkMessage n (data_buffer_ m)).

(** [memcpy] to offset [off] of the buffer. *)
Definition memcpy (off : nat) (src dst : bytes) : bytes :=
  take off dst ++ src ++ drop (off + length src) dst.

Definition set_body_length (length : Z) (m : Message) : outcome Message :=
  let* _ := assert (0 <=? length) in
  let* _ := assert (length <=? MAX_BODY_LENGTH) in
  let header_length_str := to_string length in
  let buf := memcpy 0 (replicate (Z.to_nat HEADER_LENGTH) NUL) (data_buffer_ m) in
  Ret (mkMessage length (memcpy 0 header_length_str buf)).

(** ** The wrapper *)

Record RaftMessage := mkRaftMessage { flow_message_ : FlowMessage }.

Definition RaftMessage_new : RaftMessage := mkRaftMessage FlowMessage_new.

Definition loadVoteRequest (req : RequestVoteRequest) (r : RaftMessage) : RaftMessage :=
  mkRaftMessage (FlowMessage_set_request_vote_request req
    (FlowMessage_set_type REQUEST_VOTE_REQUEST (flow_message_ r))).
Definition loadVoteResult (resp : RequestVoteResponse) (r : RaftMessage) : RaftMessage :=
  mkRaftMessage (FlowMessage_set_request_vote_response resp
    (FlowMessage_set_type REQUEST_VOTE_RESPONSE (flow_message_ r))).
Definition loadAppendEntriesRequest (req : AppendEntriesRequest) (r : RaftMessage) : RaftMessage :=
  mkRaftMessage (FlowMessage_set_append_entries_request req
    (FlowMessage_set_type APPEND_ENTRIES_REQUEST (flow_message_ r))).
Definition loadAppendEntriesResponse (resp : AppendEntriesResponse) (r : RaftMessage) : RaftMessage :=
  mkRaftMessage (FlowMessage_set_append_entries_response resp
    (FlowMessage_set_type APPEND_ENTRIES_RESPONSE (flow_message_ r))).
Definition loadClientPutMessageRequest (put : ClientPutMessage) (r : RaftMessage) : RaftMessage :=
  mkRaftMessage (FlowMessage_set_client_put_message put
    (FlowMessage_set_type CLIENT_PUT_MESSAGE (flow_message_ r))).
Definition loadClientPutMessageResponse (put_response : ClientPutMessageResponse) (r : RaftMessage) : RaftMessage :=
  mkRaftMessage (FlowMessage_set_client_put_message_response put_response
    (FlowMessage_set_type CLIENT_PUT_MESSAGE_RESPONSE (flow_message_ r))).
Definition loadClientCommitMessageRequest (commit : ClientCommitMessage) (r : RaftMessage) : RaftMessage :=
  mkRaftMessage (FlowMessage_set_client_commit_message commit
    (FlowMessage_set_type CLIENT_COMMIT_MESSAGE (flow_message_ r))).
Definition loadClientOpenQueueRequest (open : ClientOpenQueue) (r : RaftMessage) : RaftMessage :=
  mkRaftMessage (FlowMessage_set_client_open_queue open
    (FlowMessage_set_type CLIENT_OPEN_QUEUE (flow_message_ r))).
Definition loadClientOpenQueueResponse (open_response : ClientOpenQueueResponse) (r : RaftMessage) : RaftMessage :=
  mkRaftMessage (FlowMessage_set_client_open_queue_response open_response
    (FlowMessage_set_type CLIENT_OPEN_QUEUE_RESPONSE (flow_message_ r))).
Definition loadServerSendMessageRequest (send : ServerSendMessage) (r : RaftMessage) : RaftMessage :=
  mkRaftMessage (FlowMessage_set_server_send_message send
    (FlowMessage_set_type SERVER_SEND_MESSAGE (flow_message_ r))).

Definition get_append_request (r : RaftMessage) : AppendEntriesRequest :=
  FlowMessage_append_entries_request (flow_message_ r).
Definition get_append_response (r : RaftMessage) : AppendEntriesResponse :=
  FlowMessage_append_entries_response (flow_message_ r).
Definition get_vote_request (r : RaftMessage) : RequestVoteRequest :=
  FlowMessage_request_vote_request (flow_message_ r).
Definition get_vote_response (r : RaftMessage) : RequestVoteResponse :=
  FlowMessage_request_vote_response (flow_message_ r).
Definition get_put_message_request (r : RaftMessage) : ClientPutMessage :=
  FlowMessage_client_put_message (flow_message_ r).
Definition get_put_message_response (r : RaftMessage) : ClientPutMessageResponse :=
  FlowMessage_client_put_message_response (flow_message_ r).
Definition get_commit_message_request (r : RaftMessage) : ClientCommitMessage :=
  FlowMessage_client_commit_message (flow_message_ r).
Definition get_open_queue_request (r : RaftMessage) : ClientOpenQueue :=
  FlowMessage_client_open_queue (flow_message_ r).
Definition get_open_queue_response (r : RaftMessage) : ClientOpenQueueResponse :=
  FlowMessage_client_open_queue_response (flow_message_ r).
Definition get_server_send_essage (r : RaftMessage) : ServerSendMessage :=
  FlowMessage_server_send_message (flow_message_ r).

Definition type (r : RaftMessage) : MessageType := FlowMessage_type (flow_message_ r).
Definition partition_id (r : RaftMessage) : Z := FlowMessage_partition_id (flow_message_ r).
Definition set_partition_id (partition_id : Z) (r : RaftMessage) : RaftMessage :=
  mkRaftMessage (FlowMessage_set_partition_id partition_id (flow_message_ r)).

(** [DebugString] of the protobuf library, and [serialize], which is made from
    it. *)
Section Debugging.
Variable FlowMessage_DebugString : FlowMessage -> bytes.

Definition RaftMessage_DebugString (r : RaftMessage) : bytes := FlowMessage_DebugString (flow_message_ r).

Definition RaftMessage_serialize (r : RaftMessage) : outcome bytes :=
  if bool_decide (type r = UNKNOWN) then Fault Thrown else Ret (RaftMessage_DebugString r).

(** A message whose type was never set is not reported: it reads as the first
    type of the enumeration, a vote request. *)
Theorem unset_type_unnoticed :
  type RaftMessage_new = REQUEST_VOTE_REQUEST /\
  RaftMessage_serialize RaftMessage_new = Ret (RaftMessage_DebugString RaftMessage_new).
Proof. done. Qed.
End Debugging.

Section Transport.
Context `{RT : ProtobufRuntime}.

(** [SerializeToArray(msg->body(), msg_len)]: what the library writes lands at
    the start of the body. *)
Definition serialize_to_message (r : RaftMessage) (msg : Message) : outcome Message :=
  let msg_len := to_int (FlowMessage_ByteSizeLong (flow_message_ r)) in
  let* msg := set_body_length msg_len msg in
  let '(_, b) := SerializeToArray FlowMessage_ByteSizeLong
      FlowMessage_InternalSerializeWithCachedSizesToArray (flow_message_ r) msg_len in
  Ret (mkMessage (body_length_ msg) (memcpy (Z.to_nat HEADER_LENGTH) b (data_buffer_ msg))).

Definition serialize_as_message (r : RaftMessage) : outcome Message :=
  serialize_to_message r Message_new.

(** [ParseFromArray(message.body(), message.body_length())]; its result is
    ignored, so a failed parse leaves the fields read so far. *)
Definition deserialize_from_message (msg : Message) : RaftMessage :=
  mkRaftMessage (ParseFromArray FlowMessage_Clear FlowMessage_MergePartialFromCodedStream
    FlowMessage_IsInitialized FlowMessage_new (take (Z.to_nat (body_length msg)) (body msg))).2.

(** [ParseFromString] of a string, as the client calls it. *)
Definition deserialize (s : bytes) : RaftMessage :=
  mkRaftMessage (ParseFromArray FlowMessage_Clear FlowMessage_MergePartialFromCodedStream
    FlowMessage_IsInitialized FlowMessage_new s).2.

End Transport.

Lemma serialize_as_message_eq `{RT : ProtobufRuntime} r :
  serialize_as_message r = serialize_to_message r Message_new.
Proof. reflexivity. Qed.

(** ** Buffers *)

(** The buffer has its full size, which every operation keeps. *)
Definition message_wf (m : Message) : Prop :=
  zlength (data_buffer_ m) = HEADER_LENGTH + MAX_BODY_LENGTH.

Lemma Message_new_wf : message_wf Message_new.
Proof. vm_compute. reflexivity. Qed.

Lemma Message_new_body : length (body Message_new) = 1000%nat.
Proof. vm_compute. reflexivity. Qed.

#[global] Opaque Message_new.

Lemma length_memcpy off src dst :
  (off + length src <= length dst)%nat -> length (memcpy off src dst) = length dst.
Proof. intros H. unfold memcpy. rewrite !length_app, length_take, length_drop. lia. Qed.

Lemma take_memcpy off src dst : (off <= length dst)%nat -> take off (memcpy off src dst) = take off dst.
Proof.
  intros H. unfold memcpy. rewrite take_app_le by (rewrite length_take; lia).
  by rewrite take_take, Nat.min_id.
Qed.

Lemma drop_memcpy off src dst :
  (off <= length dst)%nat -> drop off (memcpy off src dst) = src ++ drop (off + length src) dst.
Proof. intros H. unfold memcpy. by rewrite drop_app_length' by (rewrite length_take; lia). Qed.

Lemma to_string_length n : 0 <= n <= INT_MAX -> (length (to_string n) <= 10)%nat.
Proof.
  unfold INT_MAX, to_string. intros H. destruct (Z.ltb_spec n 0); [lia|].
  apply digits_length. simpl. lia.
Qed.

(** The header of a message of length [n]. *)
Definition header_bytes (n : Z) : bytes :=
  to_string n ++ replicate (20 - length (to_string n)) NUL.

Lemma header_bytes_length n : 0 <= n <= INT_MAX -> length (header_bytes n) = 20%nat.
Proof.
  intros H. apply to_string_length in H. unfold header_bytes.
  rewrite length_app, length_replicate. lia.
Qed.

Lemma atoi_header n rest :
  0 <= n <= INT_MAX -> atoi (header_bytes n ++ rest) = Ret n.
Proof.
  intros H. pose proof (to_string_length n H). unfold header_bytes, INT_MAX in *.
  replace (20 - length (to_string n))%nat with (S (19 - length (to_string n))) by lia.
  rewrite <- app_assoc. cbn [replicate]. rewrite <- app_comm_cons.
  unfold atoi. rewrite scan_int_written by (done || (unfold INT64_MIN; lia)).
  by rewrite (proj2 (int32_spec n)) by (unfold INT_MIN, INT_MAX; lia).
Qed.

Lemma small_body n : 0 <= n <= MAX_BODY_LENGTH -> 0 <= n <= INT_MAX.
Proof. unfold MAX_BODY_LENGTH, INT_MAX. lia. Qed.

Lemma set_body_length_ok n (m : Message) :
  0 <= n <= MAX_BODY_LENGTH -> message_wf m ->
  set_body_length n m = Ret (mkMessage n (header_bytes n ++ body m)).
Proof.
  intros Hn Hm. pose proof (to_string_length n (small_body n Hn)) as Hl.
  unfold message_wf, zlength, HEADER_LENGTH in *.
  unfold set_body_length. rewrite !(proj2 (Z.leb_le _ _)) by lia.
  cbn [assert obind]. do 2 f_equal. unfold header_bytes, body, memcpy, HEADER_LENGTH.
  simpl take. rewrite !app_nil_l, <- app_assoc. f_equal. rewrite Nat.add_0_l.
  rewrite drop_app_le by (rewrite length_replicate; lia).
  rewrite drop_replicate, length_replicate. done.
Qed.

Lemma set_body_length_fault n (m : Message) :
  ~ (0 <= n <= MAX_BODY_LENGTH) -> set_body_length n m = Fault AssertFailed.
Proof.
  intros H. unfold set_body_length.
  destruct (Z.leb_spec 0 n); simpl; [|done]. destruct (Z.leb_spec n MAX_BODY_LENGTH); simpl; [lia|done].
Qed.

(** ** Sending and receiving *)

Section Exchange.
Context `{RT : ProtobufRuntime} {LW : ProtobufLaws RT}.

(** What a message has to satisfy to be sent: integers in range, required
    fields set, at most [MAX_BODY_LENGTH] bytes. *)
Definition sendable (r : RaftMessage) : bool :=
  FlowMessage_ints (flow_message_ r) && FlowMessage_IsInitialized (flow_message_ r) &&
  (FlowMessage_ByteSizeLong (flow_message_ r) <=? MAX_BODY_LENGTH).

(** The bytes of the body. *)
Definition encoding (r : RaftMessage) : bytes :=
  FlowMessage_InternalSerializeWithCachedSizesToArray (flow_message_ r).

Lemma sendable_size r :
  sendable r = true ->
  zlength (encoding r) = FlowMessage_ByteSizeLong (flow_message_ r) /\
  0 <= zlength (encoding r) <= MAX_BODY_LENGTH.
Proof.
  unfold sendable, encoding. intros H. to_prop. unfold MAX_BODY_LENGTH in *.
  rewrite FlowMessage_ser_size by (done || (unfold INT_MAX; lia)). split; [done|]. split; [apply FlowMessage_size_nonneg|done].
Qed.

Lemma serialize_to_message_ok r msg :
  sendable r = true -> message_wf msg ->
  serialize_to_message r msg =
  Ret (mkMessage (zlength (encoding r))
        (header_bytes (zlength (encoding r)) ++ encoding r ++ drop (length (encoding r)) (body msg))).
Proof.
  intros Hs Hm. destruct (sendable_size r Hs) as [E R]. unfold serialize_to_message.
  rewrite <- E. unfold MAX_BODY_LENGTH in R. rewrite to_int_small by (unfold INT_MAX; lia).
  rewrite set_body_length_ok by done. cbn [obind].
  rewrite serialize_to_array by (exact E || (rewrite <- E; unfold INT_MAX; lia)).
  fold (encoding r). cbn [body_length_ data_buffer_]. do 2 f_equal. unfold memcpy.
  pose proof (header_bytes_length (zlength (encoding r)) (small_body _ R)) as Hh.
  change (Z.to_nat HEADER_LENGTH) with 20%nat.
  rewrite take_app_le, take_ge by lia. f_equal. f_equal.
  rewrite drop_app_ge by lia. f_equal. lia.
Qed.

Lemma parse_encoding_ok r :
  sendable r = true -> deserialize (encoding r) = r.
Proof.
  unfold sendable, deserialize, encoding. intros H. to_prop. destruct r as [m]. simpl in *.
  rewrite (parse_from_array _ _ _ _ m); [done| |done].
  apply FlowMessage_merge_serialize; [done|]. unfold MAX_BODY_LENGTH, INT_MAX in *. lia.
Qed.

(** The size check of [set_body_length] is what keeps a valid message from
    being sent. *)
Lemma set_body_length_bound n (m m' : Message) : set_body_length n m = Ret m' -> n <= MAX_BODY_LENGTH.
Proof.
  intros S. destruct (Z_le_gt_dec n MAX_BODY_LENGTH) as [L|G]; [exact L|].
  rewrite set_body_length_fault in S by lia. discriminate S.
Qed.

#[local] Strategy expand [serialize_to_message].
Lemma serialized_size r msg b :
  FlowMessage_ByteSizeLong (flow_message_ r) <= INT_MAX -> serialize_to_message r msg = Ret b ->
  FlowMessage_ByteSizeLong (flow_message_ r) <= MAX_BODY_LENGTH.
Proof.
  intros L S. unfold serialize_to_message in S. apply obind_ret in S as (m & S & _). apply set_body_length_bound in S.
  rewrite to_int_small in S; [exact S|]. split; [apply FlowMessage_size_nonneg|exact L].
Qed.

Lemma serialized_sendable r b :
  FlowMessage_ints (flow_message_ r) = true -> FlowMessage_IsInitialized (flow_message_ r) = true ->
  FlowMessage_ByteSizeLong (flow_message_ r) <= INT_MAX -> serialize_as_message r = Ret b -> sendable r = true.
Proof.
  intros I R L S. rewrite serialize_as_message_eq in S. apply serialized_size in S; [|exact L].
  unfold sendable. rewrite I, R. cbn [andb]. by apply Z.leb_le.
Qed.

(** A received message: any buffer whose body starts with the encoding. *)
Lemma deserialize_received r (m : Message) tail :
  sendable r = true -> body_length m = zlength (encoding r) -> body m = encoding r ++ tail ->
  deserialize_from_message m = r.
Proof.
  intros Hs Hl Hb. unfold deserialize_from_message. rewrite Hl, Hb.
  unfold zlength. rewrite Nat2Z.id, take_app_length. by apply parse_encoding_ok.
Qed.

Lemma serialized_received r m :
  sendable r = true -> serialize_as_message r = Ret m -> deserialize_from_message m = r.
Proof.
  intros Hs S. destruct (sendable_size r Hs) as [E R].
  pose proof (header_bytes_length _ (small_body _ R)) as Hh. rewrite serialize_as_message_eq in S.
  rewrite serialize_to_message_ok in S by (apply Message_new_wf || done). injection S as <-.
  eapply deserialize_received; [done..|]. unfold body. cbn [data_buffer_].
  change (Z.to_nat HEADER_LENGTH) with 20%nat. rewrite drop_app_ge, Hh by lia. done.
Qed.

Lemma sent_request r : sendable r = true -> exists m, serialize_as_message r = Ret m /\ deserialize_from_message m = r.
Proof.
  intros Hs. pose proof (serialize_to_message_ok r Message_new Hs Message_new_wf) as S.
  rewrite <- serialize_as_message_eq in S. eexists. split; [exact S|]. by eapply serialized_received.
Qed.
End Exchange.

(** ** Properties *)

(** A message used by the witnesses: a follower's answer for partition 7. *)
Definition demo_raft_message : RaftMessage :=
  set_partition_id 7 (loadAppendEntriesResponse
    (AppendEntriesResponse_set_last_index_synced (-1)
      (AppendEntriesResponse_set_append_result_success 0
        (AppendEntriesResponse_set_follower_id 2
          (AppendEntriesResponse_set_term 300 AppendEntriesResponse_new)))) RaftMessage_new).

(** C21: a message whose integers fit their types, whose required fields are
    set and whose encoding is at most 1000 bytes is written into a buffer of
    the full size, with exactly [ByteSizeLong] bytes of body, and
    [deserialize_from_message] gives the same message back, every optional and
    repeated field and every has-bit included. *)
Theorem raft_message_roundtrip `{LW : ProtobufLaws} (r : RaftMessage) :
  sendable r = true ->
  exists m, serialize_as_message r = Ret m /\ message_wf m /\
    body_length m = FlowMessage_ByteSizeLong (flow_message_ r) /\
    deserialize_from_message m = r.
Proof.
  intros Hs. destruct (sendable_size r Hs) as [E R].
  pose proof (header_bytes_length _ (small_body _ R)) as Hh. unfold serialize_as_message.
  rewrite serialize_to_message_ok by (apply Message_new_wf || done).
  eexists. split; [done|]. split_and!; [|done|].
  - unfold message_wf, zlength, HEADER_LENGTH, MAX_BODY_LENGTH in *. cbn [data_buffer_].
    rewrite !length_app, length_drop, Hh. rewrite Message_new_body. lia.
  - eapply deserialize_received; [done..|]. unfold body. cbn [data_buffer_].
    change (Z.to_nat HEADER_LENGTH) with 20%nat. rewrite drop_app_ge, Hh by lia. done.
Qed.

Lemma raft_message_roundtrip_witness :
  exists m, serialize_as_message demo_raft_message = Ret m /\ message_wf m /\
    body_length m = 24 /\ deserialize_from_message m = demo_raft_message.
Proof.
  destruct (raft_message_roundtrip demo_raft_message) as (m & H1 & H2 & H3 & H4).
  - vm_compute. reflexivity.
  - exists m. split_and!; [exact H1|exact H2|rewrite H3; vm_compute; reflexivity|exact H4].
Defined.

(** The size limit is a hard stop: a message of more than 1000 bytes is
    never truncated or rejected, the [assert] of [set_body_length] ends the
    process; and a valid message is written exactly when it fits. *)
Theorem oversized_message_aborts `{LW : ProtobufLaws} (r : RaftMessage) :
  FlowMessage_ByteSizeLong (flow_message_ r) <= INT_MAX ->
  (serialize_as_message r = Fault AssertFailed <->
   MAX_BODY_LENGTH < FlowMessage_ByteSizeLong (flow_message_ r)).
Proof.
  intros Hmax. pose proof (FlowMessage_size_nonneg (flow_message_ r)) as Hnn.
  unfold serialize_as_message, serialize_to_message. rewrite to_int_small by lia.
  destruct (Z_le_gt_dec (FlowMessage_ByteSizeLong (flow_message_ r)) MAX_BODY_LENGTH).
  - rewrite set_body_length_ok by (apply Message_new_wf || done). cbn [obind].
    destruct (SerializeToArray _ _ _ _). split; [done|lia].
  - rewrite set_body_length_fault by lia. split; [lia|done].
Qed.

Lemma oversized_message_aborts_witness :
  serialize_as_message (loadClientPutMessageRequest
    (ClientPutMessage_set_message (replicate 1000 Byte.x61) ClientPutMessage_new) RaftMessage_new)
  = Fault AssertFailed.
Proof. apply oversized_message_aborts; vm_compute; [discriminate|reflexivity]. Defined.

(** [CopyFrom], which the copy assignments of messages and log entries go
    through, gives an exact copy whatever the target held before, for the
    message envelope with all its submessages and for log entries. *)
Theorem copy_from_exact (from m : FlowMessage) (e f : LogEntry) :
  FlowMessage_CopyFrom from m = from /\ LogEntry_CopyFrom e f = e.
Proof. split; [apply FlowMessage_merge_into_new|apply LogEntry_merge_into_new]. Qed.
