(* ===== verification/Session.v ===== *)
(** * A socket session

    Models [Session] (src/src/flowmq/session.hpp and session.cpp): the
    alternation of header and body reads on one socket, the status, and the
    calls of the two registered handlers. Boost.Asio is the environment: a
    completion handler gets either the bytes of the composed read or an error,
    so the completion handlers are functions of that result. *)

From S2P Require Import Prelude WireFormat FlowTypes FlowCodec FlowCodecFacts Decimal RaftMessage.

Local Open Scope Z_scope.

Inductive SessionStatus := CONNECTED | DISCONNECTED | CLOSED.

#[export] Instance SessionStatus_eq_dec : EqDecision SessionStatus.
Proof. solve_decision. Defined.

(** The asynchronous read the session has outstanding. *)
Inductive pending := ReadingHeader | ReadingBody | NotReading.

Record Session := mkSession {
  read_message_buffer_ : Message;
  status_ : SessionStatus;
  reading : pending
}.

(** Calls of [msg_handler_] and [disconnected_handler_]. *)
Inductive session_event :=
  | MsgHandler (m : Message)
  | DisconnectedHandler.

Definition Session_new : Session := mkSession Message_new CONNECTED NotReading.

Definition read_header (s : Session) : Session :=
  mkSession (read_message_buffer_ s) (status_ s) ReadingHeader.

Definition read_msg (s : Session) : Session := read_header s.
Definition start_read (s : Session) : Session := read_msg s.

(** Asio is handed [body_length()] bytes from [body()] on: a length the header
    gave that is negative or over the capacity makes that range leave the
    vector. *)
Definition read_body (s : Session) : outcome Session :=
  let n := body_length (read_message_buffer_ s) in
  if (0 <=? n) && (n <=? MAX_BODY_LENGTH)
  then Ret (mkSession (read_message_buffer_ s) (status_ s) ReadingBody)
  else Fault OutOfRange.

Definition disconneted (s : Session) : list session_event * Session :=
  if bool_decide (status_ s = DISCONNECTED) then ([], s)
  else ([DisconnectedHandler], mkSession (read_message_buffer_ s) DISCONNECTED (reading s)).

(** Completion of the read [read_header] started. *)
Definition on_header (r : option bytes) (s : Session) : outcome (list session_event * Session) :=
  let s := mkSession (read_message_buffer_ s) (status_ s) NotReading in
  match r with
  | Some b =>
      let buf := read_message_buffer_ s in
      let* buf := decode_length (mkMessage (body_length_ buf) (memcpy 0 b (data_buffer_ buf))) in
      let* s := read_body (mkSession buf (status_ s) (reading s)) in
      Ret ([], s)
  | None => Ret (disconneted s)
  end.

(** Completion of the read [read_body] started. *)
Definition on_body (r : option bytes) (s : Session) : outcome (list session_event * Session) :=
  let s := mkSession (read_message_buffer_ s) (status_ s) NotReading in
  match r with
  | Some b =>
      let buf := read_message_buffer_ s in
      let buf := mkMessage (body_length_ buf) (memcpy (Z.to_nat HEADER_LENGTH) b (data_buffer_ buf)) in
      Ret ([MsgHandler buf], read_msg (mkSession buf (status_ s) (reading s)))
  | None => Ret (disconneted s)
  end.

(** [write_message]: the bytes handed to the socket, and the completion. *)
Definition write_bytes (m : Message) : bytes :=
  take (Z.to_nat (HEADER_LENGTH + body_length m)) (header m).

Definition on_write (error : bool) (s : Session) : list session_event * Session :=
  if error then disconneted s else ([], s).

Definition close (s : Session) : Session :=
  mkSession (read_message_buffer_ s) CLOSED (reading s).

(** ** Feeding a byte stream

    The reads of a session against the bytes that have arrived on its socket:
    a composed read completes when all the bytes it asks for are there. Each
    round takes a header or a body off the stream. *)
Fixpoint feed (fuel : nat) (stream : bytes) (s : Session) : outcome (list session_event * Session * bytes) :=
  match fuel with
  | O => Ret ([], s, stream)
  | S fuel =>
      let want := match reading s with
                  | ReadingHeader => Some (HEADER_LENGTH, on_header)
                  | ReadingBody => Some (body_length (read_message_buffer_ s), on_body)
                  | NotReading => None
                  end in
      match want with
      | None => Ret ([], s, stream)
      | Some (n, complete) =>
          if zlength stream <? n then Ret ([], s, stream)
          else
            let* r := complete (Some (take (Z.to_nat n) stream)) s in
            let '(ev, s) := r in
            let* r := feed fuel (drop (Z.to_nat n) stream) s in
            let '(ev', s, rest) := r in
            Ret (ev ++ ev', s, rest)
      end
  end.

(** ** Events a session goes through *)

Inductive session_input :=
  | HeaderRead (r : option bytes)
  | BodyRead (r : option bytes)
  | WriteDone (error : bool)
  | Close.

Definition session_step (i : session_input) (s : Session) : outcome (list session_event * Session) :=
  match i with
  | HeaderRead r => on_header r s
  | BodyRead r => on_body r s
  | WriteDone e => Ret (on_write e s)
  | Close => Ret ([], close s)
  end.

Fixpoint session_run (inputs : list session_input) (s : Session) : outcome (list session_event * Session) :=
  match inputs with
  | [] => Ret ([], s)
  | i :: inputs =>
      let* r := session_step i s in
      let '(ev, s) := r in
      let* r := session_run inputs s in
      let '(ev', s) := r in
      Ret (ev ++ ev', s)
  end.

Definition is_disconnect (e : session_event) : bool :=
  match e with DisconnectedHandler => true | MsgHandler _ => false end.

(** How often [disconnected_handler_] is called. *)
Definition disconnects (ev : list session_event) : nat := length (List.filter is_disconnect ev).

Definition is_close (i : session_input) : bool :=
  match i with Close => true | _ => false end.

(** ** Lemmas *)

Lemma disconnects_app a b : disconnects (a ++ b) = (disconnects a + disconnects b)%nat.
Proof. unfold disconnects. by rewrite List.filter_app, length_app. Qed.

(** A step that is not [close] calls the handler at most when it makes the
    session [DISCONNECTED]. *)
Lemma step_disconnects i s ev s' :
  is_close i = false -> session_step i s = Ret (ev, s') ->
  (disconnects ev = 0%nat /\ status_ s' = status_ s) \/
  (disconnects ev = 1%nat /\ status_ s <> DISCONNECTED /\ status_ s' = DISCONNECTED).
Proof.
  assert (D : forall s ev s', disconneted s = (ev, s') ->
    (disconnects ev = 0%nat /\ status_ s' = status_ s) \/
    (disconnects ev = 1%nat /\ status_ s <> DISCONNECTED /\ status_ s' = DISCONNECTED)).
  { unfold disconneted. intros t e t'. case_bool_decide; intros [= <- <-]; auto. }
  intros Hc. destruct i as [[b|]|[b|]|[]|]; simpl; try done; intros H.
  - unfold on_header, read_body in H. inv_ret. split_if; inv_ret. simplify_eq. left.
    unfold decode_length in *. inv_ret. by subst.
  - unfold on_header in H. inv_ret. by apply D in H.
  - unfold on_body in H. inv_ret. simplify_eq. by left.
  - unfold on_body in H. inv_ret. by apply D in H.
  - inv_ret. by apply D.
  - inv_ret. simplify_eq. by left.
Qed.

Section Stream.
Context `{RT : ProtobufRuntime} {LW : ProtobufLaws RT}.

(** What a sender puts on the socket for a message. *)
Definition wire (r : RaftMessage) : bytes := header_bytes (zlength (encoding r)) ++ encoding r.

Lemma write_bytes_wire r base m :
  sendable r = true -> message_wf base -> serialize_to_message r base = Ret m -> write_bytes m = wire r.
Proof.
  intros Hs Hb Hm. destruct (sendable_size r Hs) as [E R].
  pose proof (header_bytes_length _ (small_body _ R)) as Hh.
  rewrite serialize_to_message_ok in Hm by done. injection Hm as <-.
  unfold write_bytes, wire, header, body_length. cbn [data_buffer_ body_length_].
  rewrite app_assoc. apply take_app_length'. rewrite length_app, Hh.
  unfold zlength, HEADER_LENGTH. lia.
Qed.

(** A session between messages, whatever its buffer holds. *)
Definition ready (s : Session) : Prop :=
  reading s = ReadingHeader /\ message_wf (read_message_buffer_ s).

Lemma on_header_ok s n :
  ready s -> 0 <= n <= MAX_BODY_LENGTH ->
  on_header (Some (header_bytes n)) s =
  Ret ([], mkSession (mkMessage n (header_bytes n ++ body (read_message_buffer_ s))) (status_ s) ReadingBody).
Proof.
  intros [_ Hw] Hn. pose proof (header_bytes_length n (small_body n Hn)) as Hh.
  unfold on_header, decode_length, header. cbn [read_message_buffer_ data_buffer_ body_length_].
  unfold memcpy. simpl take. rewrite app_nil_l, Nat.add_0_l, Hh.
  rewrite atoi_header by (by apply small_body). cbn [obind].
  unfold read_body, body_length. cbn [read_message_buffer_ body_length_].
  rewrite !(proj2 (Z.leb_le _ _)) by lia. done.
Qed.

(** The body that follows: the handler gets the message. *)
Lemma on_body_ok s r :
  ready s -> sendable r = true ->
  exists m, let s' := read_msg (mkSession m (status_ s) NotReading) in
    on_body (Some (encoding r)) (mkSession (mkMessage (zlength (encoding r))
      (header_bytes (zlength (encoding r)) ++ body (read_message_buffer_ s))) (status_ s) ReadingBody) = Ret ([MsgHandler m], s') /\
    deserialize_from_message m = r /\ ready s' /\ status_ s' = status_ s.
Proof.
  intros [Hr Hw] Hs. destruct (sendable_size r Hs) as [E R].
  pose proof (header_bytes_length _ (small_body _ R)) as Hh.
  unfold on_body. cbn [obind read_message_buffer_ body_length_ data_buffer_ status_].
  match goal with |- context [MsgHandler ?b] => set (m := b) end.
  assert (Hm : data_buffer_ m = header_bytes (zlength (encoding r)) ++ encoding r ++
      drop (length (encoding r)) (body (read_message_buffer_ s))).
  { subst m. cbn [data_buffer_]. unfold memcpy. change (Z.to_nat HEADER_LENGTH) with 20%nat.
    rewrite take_app_length' by done. f_equal. f_equal. rewrite drop_app_ge by lia. f_equal. lia. }
  exists m. split_and!.
  - done.
  - eapply deserialize_received; [done..|]. unfold body. rewrite Hm.
    change (Z.to_nat HEADER_LENGTH) with 20%nat. by rewrite drop_app_length' by done.
  - split; [done|]. unfold message_wf, zlength in *. cbn [read_message_buffer_ read_msg read_header].
    rewrite Hm, !length_app, length_drop, Hh. unfold body. rewrite length_drop.
    unfold HEADER_LENGTH, MAX_BODY_LENGTH in *. lia.
  - done.
Qed.

(** One message off the stream. *)
Lemma feed_message s r rest fuel :
  ready s -> sendable r = true ->
  exists m s', feed (S (S fuel)) (wire r ++ rest) s =
      (let* x := feed fuel rest s' in
       let '(ev, s'', rest') := x in Ret (MsgHandler m :: ev, s'', rest')) /\
    deserialize_from_message m = r /\ ready s' /\ status_ s' = status_ s.
Proof.
  intros Rd Hs. destruct (sendable_size r Hs) as [E R].
  pose proof (header_bytes_length _ (small_body _ R)) as Hh.
  unfold wire. rewrite <- app_assoc. cbn [feed]. rewrite (proj1 Rd).
  assert (L1 : zlength (header_bytes (zlength (encoding r)) ++ encoding r ++ rest) <? HEADER_LENGTH = false).
  { apply Z.ltb_ge. rewrite zlength_app. unfold zlength at 1. rewrite Hh.
    pose proof (zlength_nonneg (encoding r ++ rest)). unfold HEADER_LENGTH. lia. }
  rewrite L1. change (Z.to_nat HEADER_LENGTH) with 20%nat.
  rewrite take_app_length', drop_app_length' by done.
  rewrite on_header_ok by done. cbn [obind reading read_message_buffer_ body_length body_length_].
  rewrite zlength_app, (proj2 (Z.ltb_ge _ _)) by (pose proof (zlength_nonneg rest); lia).
  assert (Hn : Z.to_nat (zlength (encoding r)) = length (encoding r)) by (unfold zlength; lia).
  rewrite Hn, take_app_length, drop_app_length.
  destruct (on_body_ok s r Rd Hs) as (m & -> & D & R' & St). cbn [obind].
  exists m, (read_msg (mkSession m (status_ s) NotReading)). split_and!; [|done..].
  destruct (feed fuel rest _) as [[[??]?]|]; done.
Qed.

Lemma feed_messages rs s fuel :
  ready s -> forallb sendable rs = true -> (2 * length rs <= fuel)%nat ->
  exists ms s', feed fuel (concat (map wire rs)) s = Ret (map MsgHandler ms, s', []) /\
    map deserialize_from_message ms = rs /\ ready s' /\ status_ s' = status_ s.
Proof.
  revert s fuel. induction rs as [|r rs IH]; intros s fuel Hr Hs Hf; simpl in *.
  - exists [], s. split_and!; try done. destruct fuel; [done|]. cbn [feed].
    destruct Hr as [-> _]. done.
  - to_prop. destruct fuel as [|[|fuel]]; [lia..|].
    destruct (feed_message s r (concat (map wire rs)) fuel) as (m & s1 & -> & Hm & Hr1 & Hst); [done..|].
    destruct (IH s1 fuel) as (ms & s2 & -> & Hms & Hr2 & Hst2); [done..|lia|].
    exists (m :: ms), s2. simpl. rewrite Hm, Hms. split_and!; try done. congruence.
Qed.
End Stream.

(** ** Properties *)

(** C22: messages written back to back on a connection arrive: a session that
    reads the concatenation of what senders wrote calls its handler once per
    message, in order, with a buffer that decodes to that message, whatever
    earlier messages left in the buffer, and waits for the next header with no
    byte left over. *)
Theorem session_stream_roundtrip `{LW : ProtobufLaws} (rs : list RaftMessage) (ms : list Message) (s : Session) :
  ready s -> forallb sendable rs = true ->
  Forall2 (fun r m => serialize_as_message r = Ret m) rs ms ->
  exists received s',
    feed (2 * length rs) (concat (map write_bytes ms)) s = Ret (map MsgHandler received, s', []) /\
    map deserialize_from_message received = rs /\ ready s' /\ status_ s' = status_ s.
Proof.
  intros Hr Hs Hm.
  assert (E : map write_bytes ms = map wire rs).
  { clear Hr. revert Hs. induction Hm as [|r m rs ms Hrm Hm IH]; simpl; [done|]. intros Hs. to_prop.
    rewrite IH by done. rewrite serialize_as_message_eq in Hrm.
    by rewrite (write_bytes_wire r Message_new m (ltac:(done)) Message_new_wf Hrm). }
  rewrite E. by apply feed_messages.
Qed.

Lemma session_stream_roundtrip_witness :
  exists m received s',
    feed 4 (write_bytes m ++ write_bytes m) (start_read Session_new) = Ret (map MsgHandler received, s', []) /\
    map deserialize_from_message received = [demo_raft_message; demo_raft_message].
Proof.
  destruct (serialize_as_message demo_raft_message) as [m|] eqn:E; [|vm_compute in E; discriminate].
  exists m.
  destruct (session_stream_roundtrip [demo_raft_message; demo_raft_message] [m; m] (start_read Session_new))
    as (received & s' & H1 & H2 & _).
  - split; [reflexivity|]. vm_compute. reflexivity.
  - vm_compute. reflexivity.
  - constructor; [exact E|]. constructor; [exact E|constructor].
  - exists received, s'. simpl in H1. rewrite app_nil_r in H1. split; assumption.
Defined.

(** C39: the length in a header is not checked against the capacity of the
    buffer: for every length above 1000 that a peer announces, the session asks
    the socket to read past the end of its vector. *)
Theorem oversized_header_overruns (s : Session) (n : Z) :
  MAX_BODY_LENGTH < n <= INT_MAX -> on_header (Some (header_bytes n)) s = Fault OutOfRange.
Proof.
  intros Hn. unfold MAX_BODY_LENGTH in Hn.
  unfold on_header, decode_length, header. cbn [read_message_buffer_ data_buffer_ body_length_].
  unfold memcpy. simpl take. rewrite app_nil_l, atoi_header by lia. cbn [obind].
  unfold read_body, body_length, MAX_BODY_LENGTH. cbn [read_message_buffer_ body_length_].
  rewrite (proj2 (Z.leb_gt n 1000)) by lia. by rewrite andb_false_r.
Qed.

Lemma oversized_header_overruns_witness :
  on_header (Some (header_bytes 1001)) (start_read Session_new) = Fault OutOfRange.
Proof. apply oversized_header_overruns. unfold MAX_BODY_LENGTH, INT_MAX. lia. Defined.

(** Over any sequence of read and write completions in which the owner
    does not call [close], the disconnect handler is called at most once, and
    not at all for a session that is already disconnected. *)
Theorem disconnect_handler_once (ins : list session_input) (s s' : Session) (ev : list session_event) :
  forallb (fun i => negb (is_close i)) ins = true ->
  session_run ins s = Ret (ev, s') ->
  (disconnects ev <= 1)%nat /\ (status_ s = DISCONNECTED -> disconnects ev = 0%nat).
Proof.
  revert s ev. induction ins as [|i ins IH]; intros s ev Hc H; simpl in *.
  { inv_ret. simplify_eq. split; simpl; auto. }
  to_prop. inv_ret. destruct x as [e1 s1]. inv_ret. destruct x as [e2 s2]. inv_ret. simplify_eq.
  rewrite disconnects_app.
  destruct (IH s1 e2) as [IH1 IH2]; [done..|].
  match goal with S : session_step _ _ = _ |- _ =>
    apply step_disconnects in S as [[E1 E2]|(E1 & E2 & E3)]; [| |done] end; rewrite E1.
  - split; [lia|]. intros Hs. rewrite E2 in IH2. by rewrite IH2.
  - rewrite (IH2 E3). split; [lia|done].
Qed.

Lemma disconnect_handler_once_witness :
  exists ev s', session_run [WriteDone true; HeaderRead None; WriteDone true] (start_read Session_new) = Ret (ev, s') /\
    (disconnects ev <= 1)%nat.
Proof.
  destruct (session_run [WriteDone true; HeaderRead None; WriteDone true] (start_read Session_new))
    as [[ev s']|] eqn:E; [|vm_compute in E; discriminate].
  exists ev, s'. split; [reflexivity|].
  destruct (disconnect_handler_once [WriteDone true; HeaderRead None; WriteDone true] _ s' ev
    eq_refl E) as [H _]. exact H.
Defined.

(** [close] forgets that the session was disconnected: when the owner
    closes a session whose peer is gone and a write is still outstanding, the
    disconnect handler, which the class promises to trigger once, is called a
    second time. *)
Theorem close_repeats_disconnect :
  exists ev s', session_run [HeaderRead None; Close; WriteDone true] (start_read Session_new) = Ret (ev, s') /\
    disconnects ev = 2%nat.
Proof. eexists _, _. split; vm_compute; reflexivity. Qed.
