(* ===== verification/LogStorage.v ===== *)
(** * Persistence of the log

    [LogEntryMetaData] (log_entry.hpp), [MetadataStorage] and [LogEntryStorage]
    (log_entry_storage.cpp), and the buffered storage of a cluster node,
    [ClusterNodeStorage] with its background thread (cluster_node_storage.cpp).
    The file system is a map from names to contents, with the names that can be
    opened for writing. *)

From S2P Require Import Prelude WireFormat FlowTypes FlowCodec FlowCodecFacts Decimal.

Local Open Scope Z_scope.

#[export] Program Instance byte_countable : Countable Byte.byte :=
  inj_countable Byte.to_N Byte.of_N _.
Next Obligation. intros x. simpl. apply Byte.of_to_N. Qed.

Record disk := mkDisk { files : gmap bytes bytes; writable : bytes -> bool }.

Definition disk_write (name content : bytes) (d : disk) : disk :=
  mkDisk (<[name := content]> (files d)) (writable d).

(** ** Metadata *)

Record LogEntryMetaData := mkLogEntryMetaData { last_committed : Z }.

#[export] Instance LogEntryMetaData_eq_dec : EqDecision LogEntryMetaData.
Proof. solve_decision. Defined.

Definition LogEntryMetaData_serialize (md : LogEntryMetaData) : bytes := to_string (last_committed md).
Definition LogEntryMetaData_deserialize (s : bytes) : outcome LogEntryMetaData :=
  let* n := stoi s in Ret (mkLogEntryMetaData n).

Definition save_metadata_to_file (filename : bytes) (metadata : LogEntryMetaData) (d : disk) : Z * disk :=
  if negb (writable d filename) then (1, d)
  else (0, disk_write filename (LogEntryMetaData_serialize metadata ++ [SPACE]) d).

Definition MetadataStorage_load_metadata_from_file (filename : bytes) (metadata : LogEntryMetaData) (d : disk)
    : Z * LogEntryMetaData :=
  let '(n, _) := read_int (last_committed metadata) (ifstream_open (files d !! filename)) in
  (0, mkLogEntryMetaData n).

(** ** Log entries *)

Section LogEntryStorage.
Context `{RT : ProtobufRuntime}.

Definition LogEntry_SerializeAsString (e : LogEntry) : bytes :=
  SerializeAsString LogEntry_ByteSizeLong LogEntry_InternalSerializeWithCachedSizesToArray e.

(** [f << temp.size() << ' ' << temp]. *)
Definition entry_record (e : LogEntry) : bytes :=
  let temp := LogEntry_SerializeAsString e in
  to_string (zlength temp) ++ [SPACE] ++ temp.

Definition save_log_entry_to_file (filename : bytes) (entries : list LogEntry) (d : disk) : Z * disk :=
  if negb (writable d filename) then (1, d)
  else (0, disk_write filename (concat (map entry_record entries)) d).

Definition append_log_entry_to_file (filename : bytes) (entries : list LogEntry) (d : disk) : Z * disk :=
  if negb (writable d filename) then (1, d)
  else (0, disk_write filename (default [] (files d !! filename) ++ concat (map entry_record entries)) d).

(** [temp.resize(n)]; a negative [int] is a size no string can have. *)
Definition resize (temp : bytes) (n : Z) : outcome bytes :=
  if n <? 0 then Fault Thrown
  else Ret (take (Z.to_nat n) temp ++ replicate (Z.to_nat n - length temp) NUL).

(** The [while] loop; each round reads at least a digit. *)
Fixpoint load_loop (fuel : nat) (f : ifstream) (entry_size : Z) (temp : bytes) (entries : list LogEntry)
    : outcome (ifstream * list LogEntry) :=
  match fuel with
  | O => Ret (f, entries)
  | S fuel =>
      let '(entry_size, f) := read_int entry_size f in
      if is_fail f || negb (good f) then Ret (f, entries)
      else
        let '(_, f) := read_block [NUL] 1 f in
        let* temp := resize temp entry_size in
        let '(temp, f) := read_block temp entry_size f in
        let '(_, temp_entry) := ParseFromArray LogEntry_Clear LogEntry_MergePartialFromCodedStream
            LogEntry_IsInitialized LogEntry_new temp in
        load_loop fuel f entry_size temp (entries ++ [temp_entry])
  end.

Definition LogEntryStorage_load_log_entry_from_file (filename : bytes) (entries : list LogEntry) (d : disk)
    : outcome (Z * list LogEntry) :=
  let f := ifstream_open (files d !! filename) in
  let* r := load_loop (S (length (is_data f))) f 0 [] entries in
  let '(f, entries) := r in
  if is_eof f then Ret (0, entries) else Ret (1, entries).

(** ** The storage of a cluster node *)

Record ClusterNodeStorage := mkClusterNodeStorage {
  storage_log_entry_filename_ : bytes;
  storage_metadata_file_name_ : bytes;
  log_entry_buffers_ : list LogEntry;
  metadata_buffer_ : LogEntryMetaData;
  cancelled_ : bool
}.

Definition LOG_ENTRY_STORAGE_PREFIX : bytes := str "storage_log_entry_".
Definition METADATA_STORAGE_PREFIX : bytes := str "storage_metadata_".

Definition storage_name (prefix : bytes) (partition_id node_id : Z) : bytes :=
  prefix ++ to_string partition_id ++ str "_" ++ to_string node_id ++ str ".data".

(** The initializer list: it starts the thread last, before the body of the
    constructor has set the file names. [metadata_buffer_] has no initializer,
    [garbage] is what it holds. *)
Definition ClusterNodeStorage_members (garbage : LogEntryMetaData) : ClusterNodeStorage :=
  mkClusterNodeStorage [] [] [] garbage false.

(** The body of the constructor, on the object the thread may have used. *)
Definition ClusterNodeStorage_body (partition_id node_id : Z) (s : ClusterNodeStorage) : ClusterNodeStorage :=
  mkClusterNodeStorage (storage_name LOG_ENTRY_STORAGE_PREFIX partition_id node_id)
    (storage_name METADATA_STORAGE_PREFIX partition_id node_id)
    (log_entry_buffers_ s) (metadata_buffer_ s) (cancelled_ s).

Definition ClusterNodeStorage_new (partition_id node_id : Z) (garbage : LogEntryMetaData) : ClusterNodeStorage :=
  ClusterNodeStorage_body partition_id node_id (ClusterNodeStorage_members garbage).

(** The destructor: the thread ends at its next test of [cancelled_]. *)
Definition ClusterNodeStorage_cancel (s : ClusterNodeStorage) : ClusterNodeStorage :=
  mkClusterNodeStorage (storage_log_entry_filename_ s) (storage_metadata_file_name_ s)
    (log_entry_buffers_ s) (metadata_buffer_ s) true.

Definition ClusterNodeStorage_load_log_entry_from_file (s : ClusterNodeStorage) (entries : list LogEntry) (d : disk)
    : outcome (Z * list LogEntry) :=
  LogEntryStorage_load_log_entry_from_file (storage_log_entry_filename_ s) entries d.

Definition ClusterNodeStorage_load_metadata_from_file (s : ClusterNodeStorage) (metadata : LogEntryMetaData) (d : disk)
    : Z * LogEntryMetaData :=
  MetadataStorage_load_metadata_from_file (storage_metadata_file_name_ s) metadata d.

(** [begin() + start] to [begin() + stop]: a range outside the vector is
    undefined. *)
Definition vec_range {A : Type} (v : list A) (start stop : Z) : outcome (list A) :=
  if (0 <=? start) && (start <=? stop) && (stop <=? zlength v)
  then Ret (take (Z.to_nat (stop - start)) (drop (Z.to_nat start) v))
  else Fault OutOfRange.

Definition ClusterNodeStorage_store_log_entries_and_metadata (log_entries : list LogEntry)
    (start_entry_index stop_entry_index : Z) (metadata : LogEntryMetaData) (s : ClusterNodeStorage)
    : outcome ClusterNodeStorage :=
  let* _ := assert (start_entry_index <? stop_entry_index) in
  let* r := vec_range log_entries start_entry_index stop_entry_index in
  Ret (mkClusterNodeStorage (storage_log_entry_filename_ s) (storage_metadata_file_name_ s)
    (log_entry_buffers_ s ++ r) metadata (cancelled_ s)).

(** One round of the background thread, under the lock; the results of the two
    writes are ignored. *)
Definition consume_and_store_messages (s : ClusterNodeStorage) (d : disk) : ClusterNodeStorage * disk :=
  if cancelled_ s then (s, d)
  else
    let '(_, d) := append_log_entry_to_file (storage_log_entry_filename_ s) (log_entry_buffers_ s) d in
    let '(_, d) := save_metadata_to_file (storage_metadata_file_name_ s) (metadata_buffer_ s) d in
    (mkClusterNodeStorage (storage_log_entry_filename_ s) (storage_metadata_file_name_ s)
       [] (metadata_buffer_ s) (cancelled_ s), d).

End LogEntryStorage.

(** ** The interface a cluster node is written against *)

Class ClusterNodeStorageInterface (S : Type) := {
  load_log_entry_from_file : S -> list LogEntry -> outcome (Z * list LogEntry);
  load_metadata_from_file : S -> LogEntryMetaData -> Z * LogEntryMetaData;
  store_log_entries_and_metadata :
    list LogEntry -> Z -> Z -> LogEntryMetaData -> S -> outcome S
}.

#[export] Instance ClusterNodeStorage_interface `{RT : ProtobufRuntime} :
    ClusterNodeStorageInterface (ClusterNodeStorage * disk) := {
  load_log_entry_from_file s entries := ClusterNodeStorage_load_log_entry_from_file s.1 entries s.2;
  load_metadata_from_file s md := ClusterNodeStorage_load_metadata_from_file s.1 md s.2;
  store_log_entries_and_metadata entries start stop md s :=
    let* s' := ClusterNodeStorage_store_log_entries_and_metadata entries start stop md s.1 in
    Ret (s', s.2)
}.

(** [ClusterNodeStorageMock] stores nothing. *)
Record ClusterNodeStorageMock := mkClusterNodeStorageMock { mock_partition_id_ : Z; mock_node_id_ : Z }.

#[export] Instance ClusterNodeStorageMock_interface : ClusterNodeStorageInterface ClusterNodeStorageMock := {
  load_log_entry_from_file _ entries := Ret (0, entries);
  load_metadata_from_file _ md := (0, md);
  store_log_entries_and_metadata _ _ _ _ s := Ret s
}.

(** What a node may rely on: a slice of the log is taken. *)
Class ClusterNodeStorageLaws (S : Type) `{ClusterNodeStorageInterface S} :=
  store_accepts : forall log start stop md (s : S), 0 <= start < stop -> stop <= zlength log ->
    exists s', store_log_entries_and_metadata log start stop md s = Ret s'.

#[export] Instance ClusterNodeStorage_laws `{RT : ProtobufRuntime} : ClusterNodeStorageLaws (ClusterNodeStorage * disk).
Proof.
  intros log start stop md [s d] R L. cbn. unfold ClusterNodeStorage_store_log_entries_and_metadata, vec_range.
  rewrite (proj2 (Z.ltb_lt start stop)), (proj2 (Z.leb_le 0 start)), (proj2 (Z.leb_le start stop)), (proj2 (Z.leb_le stop _)) by lia.
  cbn. by eexists.
Qed.

#[export] Instance ClusterNodeStorageMock_laws : ClusterNodeStorageLaws ClusterNodeStorageMock.
Proof. intros log start stop md s _ _. by exists s. Qed.

(** ** Reading records back *)

Section Records.
Context `{RT : ProtobufRuntime} {LW : ProtobufLaws RT}.

(** An entry that can be stored: integers in range, required fields set, and a
    size the [int] of the record can hold. *)
Definition storable (e : LogEntry) : bool :=
  LogEntry_ints e && LogEntry_IsInitialized e && (LogEntry_ByteSizeLong e <=? INT_MAX).

Lemma storable_string e :
  storable e = true ->
  zlength (LogEntry_SerializeAsString e) = LogEntry_ByteSizeLong e /\
  0 <= zlength (LogEntry_SerializeAsString e) <= INT_MAX /\
  forall m, ParseFromArray LogEntry_Clear LogEntry_MergePartialFromCodedStream LogEntry_IsInitialized m
    (LogEntry_SerializeAsString e) = (true, e).
Proof.
  unfold storable, LogEntry_SerializeAsString. intros H. to_prop.
  rewrite serialize_as_string by (done || by apply LogEntry_ser_size).
  rewrite LogEntry_ser_size by done.
  split; [done|]. split; [split; [apply LogEntry_size_nonneg|done]|].
  intros m. apply parse_from_array; [|done]. by apply LogEntry_merge_serialize.
Qed.

Lemma read_int_size x n rest :
  0 <= n <= INT_MAX ->
  read_int x (mkIfstream (to_string n ++ SPACE :: rest) false false) = (n, mkIfstream (SPACE :: rest) false false).
Proof.
  intros H. unfold INT_MAX in H. unfold read_int. cbn [good is_data is_eof is_fail negb andb].
  rewrite skip_space_written by (unfold INT64_MIN; lia).
  destruct (to_string n ++ SPACE :: rest) as [|c l] eqn:E.
  { apply (f_equal length) in E. rewrite length_app in E. simpl in E. lia. }
  rewrite <- E. rewrite scan_int_written by (done || (unfold INT64_MIN; lia)).
  by rewrite (proj2 (int32_spec n)) by (unfold INT_MIN, INT_MAX; lia).
Qed.

Lemma read_block_exact buf b rest :
  length buf = length b ->
  read_block buf (zlength b) (mkIfstream (b ++ rest) false false) = (b, mkIfstream rest false false).
Proof.
  intros H. unfold read_block, zlength. cbn [good is_data is_eof is_fail negb andb].
  rewrite Nat2Z.id, take_app_length, drop_app_length, drop_ge by lia. rewrite app_nil_r.
  rewrite (proj2 (Z.ltb_ge _ _)) by (rewrite length_app; lia). done.
Qed.

Lemma resize_length temp n t : resize temp n = Ret t -> length t = Z.to_nat n.
Proof.
  unfold resize. destruct (n <? 0); [done|]. intros [= <-].
  rewrite length_app, length_take, length_replicate. lia.
Qed.

Lemma resize_ok temp n : 0 <= n -> exists t, resize temp n = Ret t.
Proof. intros H. unfold resize. rewrite (proj2 (Z.ltb_ge _ _)) by lia. eauto. Qed.

(** One record off the front of the file. *)
Lemma load_loop_record fuel sz temp acc e rest :
  storable e = true ->
  load_loop (S fuel) (mkIfstream (entry_record e ++ rest) false false) sz temp acc =
  load_loop fuel (mkIfstream rest false false)
    (zlength (LogEntry_SerializeAsString e)) (LogEntry_SerializeAsString e) (acc ++ [e]).
Proof.
  intros H. destruct (storable_string e H) as (_ & R & P). set (b := LogEntry_SerializeAsString e) in *.
  unfold entry_record. fold b. rewrite <- !app_assoc. cbn [load_loop].
  change ([SPACE] ++ b ++ rest) with (SPACE :: (b ++ rest)).
  rewrite read_int_size by done. cbn [is_fail good is_eof negb andb orb].
  change (SPACE :: b ++ rest) with ([SPACE] ++ (b ++ rest)).
  change 1 with (zlength [SPACE]). rewrite (read_block_exact [NUL] [SPACE]) by done.
  destruct (resize_ok temp (zlength b)) as [t Et]; [lia|]. rewrite Et. cbn [obind].
  rewrite read_block_exact by (rewrite (resize_length _ _ _ Et); unfold zlength; lia).
  rewrite P. done.
Qed.

(** A record cut after its size and separator. *)
Lemma load_loop_end fuel sz temp acc :
  load_loop (S fuel) (mkIfstream [] false false) sz temp acc = Ret (mkIfstream [] true true, acc).
Proof. done. Qed.

Lemma load_loop_records es fuel sz temp acc :
  forallb storable es = true -> (length es < fuel)%nat ->
  load_loop fuel (mkIfstream (concat (map entry_record es)) false false) sz temp acc =
  Ret (mkIfstream [] true true, acc ++ es).
Proof.
  revert fuel sz temp acc. induction es as [|e es IH]; intros [|fuel] sz temp acc Hs Hf; simpl in *; try lia.
  - by rewrite app_nil_r.
  - to_prop. pose proof (load_loop_record fuel sz temp acc e (concat (map entry_record es))) as L.
    simpl in L. rewrite L by done. rewrite IH by (done || lia). by rewrite <- app_assoc.
Qed.

Lemma entry_record_nonempty e : (1 <= length (entry_record e))%nat.
Proof.
  unfold entry_record. rewrite !length_app. simpl. lia.
Qed.

Lemma records_length es : (length es <= length (concat (map entry_record es)))%nat.
Proof.
  induction es as [|e es IH]; simpl; [lia|]. rewrite length_app.
  pose proof (entry_record_nonempty e). lia.
Qed.

(** A file that holds the records of [es] loads to [es]. *)
Lemma load_records filename es acc d :
  forallb storable es = true -> files d !! filename = Some (concat (map entry_record es)) ->
  LogEntryStorage_load_log_entry_from_file filename acc d = Ret (0, acc ++ es).
Proof.
  intros Hs Hf. unfold LogEntryStorage_load_log_entry_from_file. rewrite Hf. cbn [ifstream_open is_data].
  rewrite load_loop_records; [done..|]. pose proof (records_length es). lia.
Qed.
End Records.

(** ** Storing while the thread runs

    The calls of the node and the rounds of the background thread, in any
    order; the mutex makes each of them atomic. *)

Inductive storage_call :=
  | Store (log_entries : list LogEntry) (start_entry_index stop_entry_index : Z) (metadata : LogEntryMetaData)
  | Tick.

Section Storing.
Context `{RT : ProtobufRuntime}.

Definition storage_step (c : storage_call) (sd : ClusterNodeStorage * disk) : outcome (ClusterNodeStorage * disk) :=
  match c with
  | Store es start stop md => store_log_entries_and_metadata es start stop md sd
  | Tick => Ret (consume_and_store_messages sd.1 sd.2)
  end.

Fixpoint storage_run (cs : list storage_call) (sd : ClusterNodeStorage * disk) : outcome (ClusterNodeStorage * disk) :=
  match cs with
  | [] => Ret sd
  | c :: cs => let* sd := storage_step c sd in storage_run cs sd
  end.

(** What the calls hand over: the slices in order, and the last metadata. *)
Fixpoint stored_entries (cs : list storage_call) : list LogEntry :=
  match cs with
  | [] => []
  | Store es start stop _ :: cs =>
      take (Z.to_nat (stop - start)) (drop (Z.to_nat start) es) ++ stored_entries cs
  | Tick :: cs => stored_entries cs
  end.

Fixpoint last_metadata (md : LogEntryMetaData) (cs : list storage_call) : LogEntryMetaData :=
  match cs with
  | [] => md
  | Store _ _ _ md :: cs => last_metadata md cs
  | Tick :: cs => last_metadata md cs
  end.

(** The thread is running and both files can be written. *)
Definition storage_ready (s : ClusterNodeStorage) (d : disk) : Prop :=
  cancelled_ s = false /\ writable d (storage_log_entry_filename_ s) = true /\
  writable d (storage_metadata_file_name_ s) = true /\
  storage_log_entry_filename_ s <> storage_metadata_file_name_ s.

Definition same_files (s s' : ClusterNodeStorage) : Prop :=
  storage_log_entry_filename_ s' = storage_log_entry_filename_ s /\
  storage_metadata_file_name_ s' = storage_metadata_file_name_ s.

(** The log as it will be on disk: what is written and what is buffered. *)
Definition durable_log (s : ClusterNodeStorage) (d : disk) : bytes :=
  default [] (files d !! storage_log_entry_filename_ s) ++ concat (map entry_record (log_entry_buffers_ s)).

Lemma tick_ready s d :
  storage_ready s d ->
  consume_and_store_messages s d =
  (mkClusterNodeStorage (storage_log_entry_filename_ s) (storage_metadata_file_name_ s) [] (metadata_buffer_ s) false,
   disk_write (storage_metadata_file_name_ s) (LogEntryMetaData_serialize (metadata_buffer_ s) ++ [SPACE])
     (disk_write (storage_log_entry_filename_ s) (durable_log s d) d)).
Proof.
  intros (Hc & Hl & Hm & _). unfold consume_and_store_messages, append_log_entry_to_file, save_metadata_to_file.
  by rewrite Hc, Hl; simpl; rewrite Hm.
Qed.

Lemma storage_step_ready c s d s' d' :
  storage_ready s d -> storage_step c (s, d) = Ret (s', d') ->
  storage_ready s' d' /\ same_files s s' /\
  durable_log s' d' = durable_log s d ++ concat (map entry_record (stored_entries [c])) /\
  metadata_buffer_ s' = last_metadata (metadata_buffer_ s) [c] /\
  (forall name, name <> storage_log_entry_filename_ s -> name <> storage_metadata_file_name_ s ->
     files d' !! name = files d !! name).
Proof.
  intros R H. destruct c as [es start stop md|]; simpl in H.
  - unfold ClusterNodeStorage_store_log_entries_and_metadata, vec_range in H. inv_ret. split_if; inv_ret.
    simplify_eq. split_and!; try done. unfold durable_log. cbn [log_entry_buffers_ storage_log_entry_filename_].
    simpl. by rewrite app_nil_r, map_app, concat_app, app_assoc.
  - rewrite (tick_ready s d R) in H. inv_ret. destruct R as (R1 & R2 & R3 & R4). simplify_eq. split_and!; try done.
    + unfold durable_log. cbn [log_entry_buffers_ storage_log_entry_filename_]. simpl. rewrite !app_nil_r.
      by rewrite lookup_insert_ne, lookup_insert_eq by done.
    + intros name N1 N2. simpl. by rewrite !lookup_insert_ne by done.
Qed.

Lemma stored_entries_cons c cs : stored_entries (c :: cs) = stored_entries [c] ++ stored_entries cs.
Proof. destruct c; simpl; by rewrite ?app_nil_r. Qed.

Lemma storage_run_ready cs s d s' d' :
  storage_ready s d -> storage_run cs (s, d) = Ret (s', d') ->
  storage_ready s' d' /\ same_files s s' /\
  durable_log s' d' = durable_log s d ++ concat (map entry_record (stored_entries cs)) /\
  metadata_buffer_ s' = last_metadata (metadata_buffer_ s) cs /\
  (forall name, name <> storage_log_entry_filename_ s -> name <> storage_metadata_file_name_ s ->
     files d' !! name = files d !! name).
Proof.
  revert s d. induction cs as [|c cs IH]; intros s d R H.
  { simpl in H. inv_ret. simplify_eq. by rewrite app_nil_r. }
  cbn [storage_run] in H. inv_ret. destruct x as [s1 d1].
  destruct (storage_step_ready c s d s1 d1) as (R1 & [F1 F2] & L1 & M1 & O1); [done..|].
  destruct (IH s1 d1) as (R2 & [F3 F4] & L2 & M2 & O2); [done..|].
  split_and!; try done.
  - split; congruence.
  - by rewrite L2, L1, <- app_assoc, <- concat_app, <- map_app, <- stored_entries_cons.
  - rewrite M2, M1. by destruct c.
  - intros name N1 N2. rewrite O2, O1 by congruence. done.
Qed.
End Storing.

(** The metadata file as the thread writes it reads back. *)
Lemma load_metadata_saved filename md old d :
  int32 (last_committed md) = true ->
  files d !! filename = Some (LogEntryMetaData_serialize md ++ [SPACE]) ->
  MetadataStorage_load_metadata_from_file filename old d = (0, md).
Proof.
  intros Hi Hf. pose proof (proj1 (int32_spec _) Hi) as R. unfold INT_MIN, INT_MAX in R.
  unfold MetadataStorage_load_metadata_from_file, read_int, LogEntryMetaData_serialize in *. rewrite Hf.
  cbn [ifstream_open good is_data is_eof is_fail negb andb].
  rewrite skip_space_written by (unfold INT64_MIN; lia).
  destruct (to_string (last_committed md) ++ [SPACE]) as [|c l] eqn:E.
  { apply (f_equal length) in E. rewrite length_app in E. simpl in E. lia. }
  rewrite <- E. rewrite scan_int_written by (done || (unfold INT64_MIN; lia)). rewrite Hi. by destruct md.
Qed.

(** ** File names *)

Lemma to_string_inj_app a b ra rb :
  INT64_MIN <= a <= INT64_MAX -> INT64_MIN <= b <= INT64_MAX -> no_digit ra -> no_digit rb ->
  to_string a ++ ra = to_string b ++ rb -> a = b /\ ra = rb.
Proof.
  unfold INT64_MIN, INT64_MAX. intros Ha Hb Hra Hrb E. apply (f_equal scan_int) in E.
  rewrite !scan_int_written in E by (done || (unfold INT64_MIN; lia)). naive_solver.
Qed.

Lemma storage_name_inj prefix p n p' n' :
  int64 p = true -> int64 p' = true -> int32 n = true -> int32 n' = true ->
  storage_name prefix p n = storage_name prefix p' n' -> p = p' /\ n = n'.
Proof.
  intros Hp Hp' Hn Hn' E. to_prop. unfold INT_MIN, INT_MAX, INT64_MIN, INT64_MAX in *.
  unfold storage_name in E. apply app_inv_head in E.
  apply to_string_inj_app in E as [-> E]; [|unfold INT64_MIN, INT64_MAX; lia..|done|done].
  apply app_inv_head in E.
  apply to_string_inj_app in E as [-> _]; [done|unfold INT64_MIN, INT64_MAX; lia..|done|done].
Qed.

Lemma prefixes_differ p n p' n' :
  storage_name LOG_ENTRY_STORAGE_PREFIX p n <> storage_name METADATA_STORAGE_PREFIX p' n'.
Proof. unfold storage_name. intros E. by apply (f_equal (lookup 8%nat)) in E. Qed.

Lemma storage_new_names `{RT : ProtobufRuntime} p n g d :
  (forall name, writable d name = true) -> storage_ready (ClusterNodeStorage_new p n g) d.
Proof. intros W. split_and!; try done; simpl; auto using prefixes_differ. Qed.

(** ** Properties *)

(** Entries used by the witnesses. *)
Definition demo_entry (i t id : Z) (m : bytes) : LogEntry :=
  LogEntry_set_message m (LogEntry_set_operation LogEntry_ADD
    (LogEntry_set_message_id id (LogEntry_set_term t (LogEntry_set_index i LogEntry_new)))).
Definition demo_log : list LogEntry :=
  [demo_entry 0 0 0 []; demo_entry 1 1 (-5) (str "hello"); demo_entry 2 1 77 (str "12 34"); demo_entry 3 2 78 (str "x")].

(** Entries saved to a file and entries appended to it later load back, in
    order and after what the vector already holds, with the result 0: the
    length-prefixed records need no escaping, whatever bytes a message has. *)
Theorem log_file_roundtrip `{LW : ProtobufLaws} (filename : bytes) (saved appended acc : list LogEntry) (d : disk) :
  writable d filename = true -> forallb storable (saved ++ appended) = true ->
  let d' := (append_log_entry_to_file filename appended (save_log_entry_to_file filename saved d).2).2 in
  LogEntryStorage_load_log_entry_from_file filename acc d' = Ret (0, acc ++ saved ++ appended).
Proof.
  intros W S d'. apply load_records; [done|]. subst d'. unfold save_log_entry_to_file, append_log_entry_to_file.
  rewrite W. simpl. rewrite W. simpl. rewrite !lookup_insert_eq. simpl. by rewrite map_app, concat_app.
Qed.

Lemma log_file_roundtrip_witness :
  let f := str "log" in
  let d := mkDisk ∅ (fun _ => true) in
  let d' := (append_log_entry_to_file f (drop 2 demo_log) (save_log_entry_to_file f (take 2 demo_log) d).2).2 in
  LogEntryStorage_load_log_entry_from_file f [LogEntry_new] d' = Ret (0, LogEntry_new :: demo_log).
Proof.
  exact (log_file_roundtrip (str "log") (take 2 demo_log) (drop 2 demo_log) [LogEntry_new]
    (mkDisk ∅ (fun _ => true)) eq_refl eq_refl).
Defined.

(** C23: durability. Whatever the order in which the node stores slices of its
    log and the background thread wakes up, one more round of the thread leaves
    a log file that loads to the entries that were there before followed by
    every slice stored, once each and in order, and a metadata file that loads
    to the metadata stored last; no other file changes. *)
Theorem storage_durable `{LW : ProtobufLaws} (cs : list storage_call) (s s' : ClusterNodeStorage) (d d' : disk)
    (es acc : list LogEntry) (old : LogEntryMetaData) :
  storage_ready s d -> log_entry_buffers_ s = [] ->
  default [] (files d !! storage_log_entry_filename_ s) = concat (map entry_record es) ->
  forallb storable (es ++ stored_entries cs) = true ->
  int32 (last_committed (last_metadata (metadata_buffer_ s) cs)) = true ->
  storage_run cs (s, d) = Ret (s', d') ->
  let '(s'', d'') := consume_and_store_messages s' d' in
  ClusterNodeStorage_load_log_entry_from_file s'' acc d'' = Ret (0, acc ++ es ++ stored_entries cs) /\
  ClusterNodeStorage_load_metadata_from_file s'' old d'' = (0, last_metadata (metadata_buffer_ s) cs) /\
  (forall name, name <> storage_log_entry_filename_ s -> name <> storage_metadata_file_name_ s ->
     files d'' !! name = files d !! name).
Proof.
  intros R B F S M H. destruct (storage_run_ready cs s d s' d' R H) as (R' & [F1 F2] & L & MD & O).
  unfold durable_log in L at 2. rewrite F, B in L. simpl in L. rewrite app_nil_r, <- concat_app, <- map_app in L.
  pose proof R' as (_ & _ & _ & N). rewrite (tick_ready s' d' R'). split_and!.
  - apply load_records; [done|]. simpl. rewrite lookup_insert_ne, lookup_insert_eq by done. by rewrite L.
  - apply load_metadata_saved; [done|]. simpl. by rewrite lookup_insert_eq, MD.
  - intros name N1 N2. simpl. rewrite !lookup_insert_ne by congruence. by apply O.
Qed.

Definition demo_calls_storage : list storage_call :=
  [Store demo_log 1 3 (mkLogEntryMetaData 2); Tick; Tick; Store demo_log 3 4 (mkLogEntryMetaData 3)].
Definition demo_disk : disk := mkDisk ∅ (fun _ => true).

Lemma storage_durable_witness :
  exists s' d' s'' d'',
    storage_run demo_calls_storage (ClusterNodeStorage_new 4 1 (mkLogEntryMetaData 99), demo_disk) = Ret (s', d') /\
    consume_and_store_messages s' d' = (s'', d'') /\
    ClusterNodeStorage_load_log_entry_from_file s'' [demo_entry 0 0 0 []] d'' = Ret (0, demo_log) /\
    ClusterNodeStorage_load_metadata_from_file s'' (mkLogEntryMetaData 0) d'' = (0, mkLogEntryMetaData 3).
Proof.
  destruct (storage_run demo_calls_storage (ClusterNodeStorage_new 4 1 (mkLogEntryMetaData 99), demo_disk))
    as [[s' d']|] eqn:E; [|vm_compute in E; discriminate].
  destruct (consume_and_store_messages s' d') as [s'' d''] eqn:E2. exists s', d', s'', d''.
  pose proof (storage_durable demo_calls_storage _ s' demo_disk d' [] [demo_entry 0 0 0 []] (mkLogEntryMetaData 0)
    (storage_new_names 4 1 (mkLogEntryMetaData 99) demo_disk (fun _ => eq_refl))
    eq_refl eq_refl eq_refl eq_refl E) as H. rewrite E2 in H. destruct H as (H1 & H2 & _).
  split; [reflexivity|]. split; [exact E2|]. split; assumption.
Defined.

(** The files of two storages are different unless they belong to the same
    partition and node, and a log file is never a metadata file, so no storage
    writes into the files of another. *)
Theorem storage_files_disjoint (p n p' n' : Z) (g g' : LogEntryMetaData) :
  int64 p = true -> int64 p' = true -> int32 n = true -> int32 n' = true -> (p, n) <> (p', n') ->
  let s := ClusterNodeStorage_new p n g in
  let s' := ClusterNodeStorage_new p' n' g' in
  NoDup [storage_log_entry_filename_ s; storage_metadata_file_name_ s;
         storage_log_entry_filename_ s'; storage_metadata_file_name_ s'].
Proof.
  intros Hp Hp' Hn Hn' D s s'.
  assert (I : forall prefix, storage_name prefix p n <> storage_name prefix p' n').
  { intros prefix E. apply storage_name_inj in E as [-> ->]; [|done..]. by apply D. }
  subst s s'. simpl. rewrite !NoDup_cons, !not_elem_of_cons.
  split_and!; try apply not_elem_of_nil; try apply NoDup_nil_2; try apply prefixes_differ; try apply I;
    intros E; symmetry in E; by apply prefixes_differ in E.
Qed.

Lemma storage_files_disjoint_witness :
  storage_log_entry_filename_ (ClusterNodeStorage_new 1 11 (mkLogEntryMetaData 0)) <>
  storage_log_entry_filename_ (ClusterNodeStorage_new 11 1 (mkLogEntryMetaData 0)).
Proof.
  pose proof (storage_files_disjoint 1 11 11 1 (mkLogEntryMetaData 0) (mkLogEntryMetaData 0)
    eq_refl eq_refl eq_refl eq_refl) as H.
  destruct (proj1 (NoDup_cons _ _) (H ltac:(congruence))) as [N _].
  intros E. apply N. rewrite E. right. left.
Defined.

(** A crash in the middle of an append goes unnoticed: where the last
    record was cut inside its bytes, loading still answers 0, and the vector
    gets an entry for the incomplete record. *)
Theorem torn_record_accepted `{LW : ProtobufLaws} (filename : bytes) (es acc : list LogEntry) (e : LogEntry)
    (k : nat) (d : disk) :
  forallb storable es = true -> storable e = true -> (k < length (LogEntry_SerializeAsString e))%nat ->
  files d !! filename = Some (concat (map entry_record es) ++
    to_string (zlength (LogEntry_SerializeAsString e)) ++ [SPACE] ++ take k (LogEntry_SerializeAsString e)) ->
  exists e', LogEntryStorage_load_log_entry_from_file filename acc d = Ret (0, acc ++ es ++ [e']).
Proof.
  intros Hes He Hk Hf. unfold LogEntryStorage_load_log_entry_from_file. rewrite Hf. cbn [ifstream_open is_data].
  set (b := LogEntry_SerializeAsString e) in *. set (tail := to_string (zlength b) ++ _).
  destruct (storable_string e He) as (_ & R & _). fold b in R.
  assert (T : forall fuel sz temp acc, exists e' f,
    load_loop (S (S fuel)) (mkIfstream tail false false) sz temp acc = Ret (f, acc ++ [e']) /\ is_eof f = true).
  { intros fuel sz temp acc'. subst tail. cbn [load_loop]. change ([SPACE] ++ take k b) with (SPACE :: take k b).
    rewrite read_int_size by done. cbn [is_fail good is_eof negb andb orb].
    change (SPACE :: take k b) with ([SPACE] ++ take k b). change 1 with (zlength [SPACE]).
    rewrite (read_block_exact [NUL] [SPACE]) by done.
    destruct (resize_ok temp (zlength b)) as [t Et]; [lia|]. rewrite Et. cbn [obind].
    unfold read_block. cbn [good is_data is_eof is_fail negb andb].
    rewrite (proj2 (Z.ltb_lt _ _)) by (unfold zlength; rewrite length_take; lia).
    destruct (ParseFromArray _ _ _ _ _) as [ok e']. by exists e', (mkIfstream (drop (Z.to_nat (zlength b)) (take k b)) true true). }
  assert (L : forall es acc fuel sz temp, forallb storable es = true -> (length es + 2 <= fuel)%nat -> exists e' f,
    load_loop fuel (mkIfstream (concat (map entry_record es) ++ tail) false false) sz temp acc =
    Ret (f, acc ++ es ++ [e']) /\ is_eof f = true).
  { induction es0 as [|e0 es0 IH]; intros acc' fuel sz temp Hs Hfu; simpl in *.
    - destruct fuel as [|[|fuel]]; [lia..|]. apply T.
    - to_prop. destruct fuel as [|fuel]; [lia|]. rewrite <- app_assoc.
      rewrite load_loop_record by done.
      destruct (IH (acc' ++ [e0]) fuel (zlength (LogEntry_SerializeAsString e0)) (LogEntry_SerializeAsString e0))
        as (e' & f & -> & Ef); [done|lia|]. exists e', f. by rewrite <- app_assoc. }
  destruct (L es acc (S (length (concat (map entry_record es) ++ tail))) 0 []) as (e' & f & -> & Ef); [done| |].
  - rewrite length_app. pose proof (records_length es). subst tail. rewrite length_app. simpl. lia.
  - exists e'. simpl. by rewrite Ef.
Qed.

Lemma torn_record_accepted_witness :
  let d := disk_write (str "log") (take 33 (concat (map entry_record (drop 1 demo_log)))) demo_disk in
  exists e', LogEntryStorage_load_log_entry_from_file (str "log") [] d = Ret (0, [demo_entry 1 1 (-5) (str "hello"); e']).
Proof.
  intros d.
  exact (torn_record_accepted (str "log") [demo_entry 1 1 (-5) (str "hello")] [] (demo_entry 2 1 77 (str "12 34")) 3 d
    eq_refl eq_refl ltac:(vm_compute; lia) ltac:(vm_compute; reflexivity)).
Defined.

(** The background thread starts in the constructor and writes the metadata
    it has never been given: if it gets a round before the node loads, the
    persisted commit index is replaced by the uninitialized value [garbage],
    and that is what the node loads. *)
Theorem first_round_clobbers_metadata `{RT : ProtobufRuntime} (p n : Z) (garbage persisted : LogEntryMetaData) (d : disk) :
  (forall name, writable d name = true) -> int32 (last_committed garbage) = true ->
  let s := ClusterNodeStorage_new p n garbage in
  files d !! storage_metadata_file_name_ s = Some (LogEntryMetaData_serialize persisted ++ [SPACE]) ->
  let '(s', d') := consume_and_store_messages s d in
  ClusterNodeStorage_load_metadata_from_file s' (mkLogEntryMetaData 0) d' = (0, garbage).
Proof.
  intros W G s F. subst s. rewrite (tick_ready _ _ (storage_new_names p n garbage d W)).
  apply load_metadata_saved; [done|]. simpl. by rewrite lookup_insert_eq.
Qed.

Lemma first_round_clobbers_metadata_witness :
  let s := ClusterNodeStorage_new 4 1 (mkLogEntryMetaData 99) in
  let d := disk_write (storage_metadata_file_name_ s) (str "12 ") demo_disk in
  let '(s', d') := consume_and_store_messages s d in
  ClusterNodeStorage_load_metadata_from_file s' (mkLogEntryMetaData 0) d' = (0, mkLogEntryMetaData 99).
Proof.
  exact (first_round_clobbers_metadata 4 1 (mkLogEntryMetaData 99) (mkLogEntryMetaData 12)
    (disk_write (storage_metadata_file_name_ (ClusterNodeStorage_new 4 1 (mkLogEntryMetaData 99))) (str "12 ") demo_disk)
    (fun _ => eq_refl) eq_refl eq_refl).
Defined.
