(* ===== verification/Logging.v ===== *)
(** * Logging

    [Logger] and the LOG macros (src/src/flowmq/logging.hpp). A statement such as
    [LOG_INFO << a << b;] asks the logger for an output object, which holds the
    logger's mutex until the end of the statement, and writes its parts one by
    one. Threads are scheduled between any two writes. *)

From S2P Require Import Prelude Decimal LogStorage.

Local Open Scope Z_scope.

(** ** The logger *)

(** [ofstream_] by the name of the file it has open, with its [failbit]. *)
Record Logger := mkLogger {
  file_is_set_ : bool;
  ofstream_ : option bytes;
  ofstream_fail : bool
}.

Definition Logger_new : Logger := mkLogger false None false.

(** Opening empties the file. Opening a stream that is open already sets its
    [failbit] and leaves it open, so nothing is thrown. *)
Definition open_logger (file_name : bytes) (l : Logger) (d : disk) : outcome (Logger * disk) :=
  match ofstream_ l with
  | Some f => Ret (mkLogger true (Some f) true, d)
  | None =>
      if writable d file_name then Ret (mkLogger true (Some file_name) false, disk_write file_name [] d) else Fault Thrown
  end.

(** The stream a statement writes to. *)
Inductive sink := StdCout | LogFile (name : bytes) | Nowhere.

Definition get_output (l : Logger) : sink :=
  if negb (file_is_set_ l) then StdCout
  else match ofstream_ l with
       | Some f => if ofstream_fail l then Nowhere else LogFile f
       | None => Nowhere
       end.

(** The clock in nanoseconds since the epoch; [ctime] ends its text with a
    newline, which [substr] leaves out. *)
Definition get_time (ctime : Z -> bytes) (now : Z) : bytes :=
  let ms := Z.rem (now ÷ 1000000) 1000 in
  let raw_time := now ÷ 1000000000 in
  let time_str := ctime raw_time in
  take (length time_str - 1) time_str ++ str ":" ++ to_string ms.

(** The build's log level: FLOWMQ_LOG_LEVEL_2, FLOWMQ_LOG_LEVEL_1 or none. *)
Inductive log_level := LEVEL_2 | LEVEL_1 | LEVEL_DEFAULT.

Definition logging_debug_disabled (b : log_level) : bool :=
  match b with LEVEL_2 => false | LEVEL_1 => true | LEVEL_DEFAULT => true end.
Definition logging_info_disabled (b : log_level) : bool :=
  match b with LEVEL_2 => false | LEVEL_1 => false | LEVEL_DEFAULT => true end.
Definition logging_error_disabled (b : log_level) : bool :=
  match b with LEVEL_2 => false | LEVEL_1 => false | LEVEL_DEFAULT => false end.

(** A statement with its place, the operands and what the clock and the thread
    id print as. *)
Inductive log_macro := LOG_DEBUG | LOG_INFO | LOG_ERROR.

Record log_statement := mkLogStatement {
  macro : log_macro;
  time_text : bytes;
  thread_text : bytes;
  FILE : bytes;
  LINE : Z;
  operands : list bytes
}.

Definition disabled (b : log_level) (s : log_statement) : bool :=
  match macro s with
  | LOG_DEBUG => logging_debug_disabled b
  | LOG_INFO => logging_info_disabled b
  | LOG_ERROR => logging_error_disabled b
  end.

Definition tag (m : log_macro) : bytes :=
  match m with LOG_DEBUG => str " DEBUG: " | LOG_INFO => str " INFO: " | LOG_ERROR => str " ERROR: " end.

Definition NEWLINE : bytes := [Byte.x0a].

(** The operands of [<<], in order. *)
Definition fragments (s : log_statement) : list bytes :=
  [NEWLINE; time_text s; str " thread "; thread_text s; str " "; FILE s; str " "; to_string (LINE s); tag (macro s)] ++ operands s.

Arguments fragments : simpl never.

(** What a statement prints. *)
Definition record_text (s : log_statement) : bytes := concat (fragments s).

(** ** Threads *)

(** A thread's statements still to come and, inside a statement, the stream of
    its output object and the parts left to write. *)
Record log_thread := mkLogThread { to_log : list log_statement; writing : option (sink * list bytes) }.

Record log_state := mkLogState {
  mutex_ : option Z;
  cout : bytes;
  log_disk : disk;
  threads : gmap Z log_thread
}.

Definition write_to (k : sink) (b : bytes) (s : log_state) : log_state :=
  match k with
  | StdCout => mkLogState (mutex_ s) (cout s ++ b) (log_disk s) (threads s)
  | LogFile f => mkLogState (mutex_ s) (cout s) (disk_write f (default [] (files (log_disk s) !! f) ++ b) (log_disk s)) (threads s)
  | Nowhere => s
  end.

Definition set_mutex (m : option Z) (s : log_state) : log_state := mkLogState m (cout s) (log_disk s) (threads s).
Definition set_thread (t : Z) (x : log_thread) (s : log_state) : log_state :=
  mkLogState (mutex_ s) (cout s) (log_disk s) (<[t := x]> (threads s)).

(** Thread [t] is scheduled: it begins a statement when the mutex is free, waits
    when it is not, writes one part, or ends the statement and unlocks. *)
Definition log_run_thread (b : log_level) (l : Logger) (t : Z) (s : log_state) : log_state :=
  match threads s !! t with
  | None => s
  | Some th =>
      match writing th with
      | Some (k, p :: ps) => write_to k p (set_thread t (mkLogThread (to_log th) (Some (k, ps))) s)
      | Some (k, []) => set_mutex None (set_thread t (mkLogThread (to_log th) None) s)
      | None =>
          match to_log th with
          | [] => s
          | x :: todo =>
              if disabled b x then set_thread t (mkLogThread todo None) s
              else match mutex_ s with
                   | Some _ => s
                   | None => set_mutex (Some t) (set_thread t (mkLogThread todo (Some (get_output l, fragments x))) s)
                   end
          end
      end
  end.

Definition log_run (b : log_level) (l : Logger) (ts : list Z) (s : log_state) : log_state :=
  foldl (fun s t => log_run_thread b l t s) s ts.

(** The text of a stream. *)
Definition sink_text (k : sink) (s : log_state) : bytes :=
  match k with StdCout => cout s | LogFile f => default [] (files (log_disk s) !! f) | Nowhere => [] end.

(** ** Records stay whole *)

Section Records.
Context (b : log_level) (l : Logger) (start : bytes) (programs : gmap Z (list log_statement)).

Definition enabled (xs : list log_statement) : list log_statement := List.filter (fun x => negb (disabled b x)) xs.

(** The statements of thread [t] in a history. *)
Definition logged_by (t : Z) (done : list (Z * log_statement)) : list log_statement :=
  map snd (List.filter (fun x => x.1 =? t) done).

(** The statement in progress: its thread and how many parts are written. *)
Definition current := option (Z * log_statement * nat).

Definition in_progress (t : Z) (c : current) : list log_statement :=
  match c with Some (t', x, _) => if t' =? t then [x] else [] | None => [] end.

Definition written_part (c : current) : bytes :=
  match c with Some (_, x, j) => concat (take j (fragments x)) | None => [] end.

Definition writing_of (t : Z) (c : current) : option (sink * list bytes) :=
  match c with Some (t', x, j) => if t' =? t then Some (get_output l, drop j (fragments x)) else None | None => None end.

Record log_inv (s : log_state) (done : list (Z * log_statement)) (c : current) : Prop := {
  inv_text : get_output l <> Nowhere ->
    sink_text (get_output l) s = start ++ concat (map (fun x => record_text x.2) done) ++ written_part c;
  inv_mutex : mutex_ s = (fun x => x.1.1) <$> c;
  inv_threads t th : threads s !! t = Some th ->
    writing th = writing_of t c /\
    exists p, programs !! t = Some p /\ enabled p = logged_by t done ++ in_progress t c ++ enabled (to_log th)
}.

Lemma sink_text_write k p s : k <> Nowhere -> sink_text k (write_to k p s) = sink_text k s ++ p.
Proof. destruct k as [|f|]; intros N; cbn; [done| |done]. by rewrite lookup_insert_eq. Qed.

Lemma write_to_same k p s : mutex_ (write_to k p s) = mutex_ s /\ threads (write_to k p s) = threads s.
Proof. by destruct k. Qed.

Lemma sink_text_thread k t x s : sink_text k (set_thread t x s) = sink_text k s.
Proof. by destruct k. Qed.

Lemma sink_text_mutex k m s : sink_text k (set_mutex m s) = sink_text k s.
Proof. by destruct k. Qed.

Lemma logged_by_snoc t t' x done :
  logged_by t (done ++ [(t', x)]) = logged_by t done ++ (if t' =? t then [x] else []).
Proof. unfold logged_by. rewrite List.filter_app, map_app. cbn. by destruct (t' =? t). Qed.

(** A disabled statement is passed over. *)
Lemma inv_skip s done c t x todo :
  log_inv s done c -> threads s !! t = Some (mkLogThread (x :: todo) None) -> disabled b x = true ->
  log_inv (set_thread t (mkLogThread todo None) s) done c.
Proof.
  intros [I1 I2 I3] E D. split; [by rewrite sink_text_thread|done|].
  intros t' th X. cbn in X. apply lookup_insert_Some in X as [[<- <-]|[_ X]]; [|by apply I3].
  destruct (I3 t _ E) as (W & p & P & Q). split; [exact W|]. exists p. split; [done|]. rewrite Q.
  unfold enabled. cbn [to_log List.filter]. by rewrite D.
Qed.

(** A statement begins. *)
Lemma inv_begin s done t x todo :
  log_inv s done None -> threads s !! t = Some (mkLogThread (x :: todo) None) -> disabled b x = false ->
  log_inv (set_mutex (Some t) (set_thread t (mkLogThread todo (Some (get_output l, fragments x))) s)) done (Some (t, x, 0%nat)).
Proof.
  intros [I1 I2 I3] E D. split; [|done|].
  - intros N. rewrite sink_text_mutex, sink_text_thread. rewrite I1 by done. done.
  - intros t' th X. cbn in X. unfold writing_of, in_progress. apply lookup_insert_Some in X as [[<- <-]|[Ne X]].
    + rewrite Z.eqb_refl. split; [done|]. destruct (I3 t _ E) as (_ & p & P & Q). exists p. split; [done|]. rewrite Q.
      unfold enabled. cbn [to_log List.filter in_progress app]. by rewrite D.
    + rewrite (proj2 (Z.eqb_neq t t')) by done. by apply I3.
Qed.

(** A part of it is written. *)
Lemma inv_part s done t x j k p ps todo :
  log_inv s done (Some (t, x, j)) -> threads s !! t = Some (mkLogThread todo (Some (k, p :: ps))) ->
  log_inv (write_to k p (set_thread t (mkLogThread todo (Some (k, ps))) s)) done (Some (t, x, S j)).
Proof.
  intros [I1 I2 I3] E. destruct (I3 t _ E) as (W & pr & P & Q). cbn in W. rewrite Z.eqb_refl in W. injection W as -> F.
  assert (L : fragments x !! j = Some p) by (rewrite <- (Nat.add_0_r j), <- lookup_drop, <- F; done).
  assert (F' : drop (S j) (fragments x) = ps) by (rewrite (drop_S _ _ _ L) in F; by injection F as ->).
  destruct (write_to_same (get_output l) p (set_thread t (mkLogThread todo (Some (get_output l, ps))) s)) as [M T].
  split.
  - intros N. rewrite sink_text_write, sink_text_thread by done. rewrite I1 by done. cbn [written_part].
    rewrite (take_S_r _ _ _ L), concat_app. cbn [concat]. by rewrite app_nil_r, !app_assoc.
  - by rewrite M.
  - intros t' th X. rewrite T in X. cbn in X. unfold writing_of, in_progress. apply lookup_insert_Some in X as [[<- <-]|[Ne X]].
    + rewrite Z.eqb_refl, F'. split; [done|]. exists pr. split; [done|]. rewrite Q. cbn. by rewrite Z.eqb_refl.
    + apply I3 in X. unfold writing_of, in_progress in X. rewrite (proj2 (Z.eqb_neq t t')) in X |- * by done. exact X.
Qed.

(** It ends. *)
Lemma inv_end s done t x j k todo :
  log_inv s done (Some (t, x, j)) -> threads s !! t = Some (mkLogThread todo (Some (k, []))) ->
  log_inv (set_mutex None (set_thread t (mkLogThread todo None) s)) (done ++ [(t, x)]) None.
Proof.
  intros [I1 I2 I3] E. destruct (I3 t _ E) as (W & pr & P & Q). cbn in W. rewrite Z.eqb_refl in W. injection W as -> F.
  assert (A : take j (fragments x) = fragments x) by (rewrite <- (take_drop j (fragments x)) at 2; by rewrite <- F, app_nil_r).
  split; [|done|].
  - intros N. rewrite sink_text_mutex, sink_text_thread, I1 by done. cbn [written_part]. rewrite A, map_app, concat_app.
    cbn [map concat snd]. unfold record_text. by rewrite !app_nil_r, app_assoc.
  - intros t' th X. cbn in X. rewrite logged_by_snoc. cbn [writing_of in_progress]. apply lookup_insert_Some in X as [[<- <-]|[Ne X]].
    + split; [done|]. exists pr. split; [done|]. rewrite Q. cbn. rewrite Z.eqb_refl. by rewrite <- app_assoc.
    + apply I3 in X. unfold writing_of, in_progress in X. rewrite (proj2 (Z.eqb_neq t t')) in X |- * by done.
      by rewrite app_nil_r.
Qed.

Lemma log_run_thread_inv t s done c :
  log_inv s done c -> exists done' c', log_inv (log_run_thread b l t s) done' c'.
Proof.
  intros I. unfold log_run_thread. destruct (threads s !! t) as [[todo [[k [|p ps]]|]]|] eqn:E; cbn [writing to_log]; [..|by exists done, c].
  - pose proof (inv_threads _ _ _ I t _ E) as (W & _). cbn in W. destruct c as [[[t' x] j]|]; [|done]. cbn in W.
    destruct (Z.eqb_spec t' t); [|done]. subst t'. eexists _, _. by eapply inv_end.
  - pose proof (inv_threads _ _ _ I t _ E) as (W & _). cbn in W. destruct c as [[[t' x] j]|]; [|done]. cbn in W.
    destruct (Z.eqb_spec t' t); [|done]. subst t'. eexists _, _. by eapply inv_part.
  - destruct todo as [|x todo]; [by exists done, c|]. destruct (disabled b x) eqn:D; [exists done, c; by eapply inv_skip|].
    pose proof (inv_mutex _ _ _ I) as M. destruct c as [[[t' y] j]|]; cbn in M; rewrite M; [by eexists _, _|].
    eexists _, _. by apply inv_begin.
Qed.

Lemma log_run_inv ts s done c : log_inv s done c -> exists done' c', log_inv (log_run b l ts s) done' c'.
Proof.
  revert s done c. induction ts as [|t ts IH]; intros s done c I; [by exists done, c|].
  destruct (log_run_thread_inv t s done c I) as (d' & c' & I'). exact (IH _ _ _ I').
Qed.
End Records.

Lemma log_run_dom b l ts s : dom (threads (log_run b l ts s)) = dom (threads s).
Proof.
  revert s. induction ts as [|t ts IH]; intros s; [done|]. cbn [log_run foldl]. change (foldl _ ?x ts) with (log_run b l ts x).
  rewrite IH. unfold log_run_thread. destruct (threads s !! t) as [th|] eqn:E; [|done].
  assert (D : forall th', dom (<[t := th']> (threads s)) = dom (threads s)) by (intros th'; by apply dom_insert_lookup_L; exists th).
  destruct (writing th) as [[k [|p ps]]|]; [apply D|by rewrite (proj2 (write_to_same _ _ _)); apply D|].
  destruct (to_log th) as [|x todo]; [done|]. destruct (disabled b x); [apply D|]. destruct (mutex_ s); [done|apply D].
Qed.

(** Threads about to run their statements. *)
Definition log_start (programs : gmap Z (list log_statement)) (out : bytes) (d : disk) : log_state :=
  mkLogState None out d ((fun p => mkLogThread p None) <$> programs).

(** ** Properties *)

(** C33: log records are whole: however the threads of a process are scheduled,
    what the logger's stream has received since is a sequence of whole records,
    then at most the beginning of one more, whose thread holds the mutex; and
    for every thread the records are those of its statements that the build's
    level enables, each once and in order, up to where the thread is. *)
Theorem log_records_whole (b : log_level) (l : Logger) (programs : gmap Z (list log_statement)) (out : bytes) (d : disk)
    (ts : list Z) :
  let s0 := log_start programs out d in
  let s := log_run b l ts s0 in
  exists done c,
    (get_output l <> Nowhere -> sink_text (get_output l) s =
       sink_text (get_output l) s0 ++ concat (map (fun x => record_text x.2) done) ++ written_part c) /\
    mutex_ s = (fun x => x.1.1) <$> c /\
    forall t p, programs !! t = Some p ->
      exists th, threads s !! t = Some th /\ enabled b p = logged_by t done ++ in_progress t c ++ enabled b (to_log th).
Proof.
  intros s0 s. assert (I0 : log_inv b l (sink_text (get_output l) s0) programs s0 [] None).
  { split; [intros _; by rewrite app_nil_r|done|]. intros t th X. cbn in X. apply lookup_fmap_Some in X as (p & <- & P).
    split; [done|]. by exists p. }
  destruct (log_run_inv _ _ _ _ ts _ _ _ I0) as (done & c & [I1 I2 I3]). exists done, c. split; [exact I1|]. split; [exact I2|].
  intros t p P. assert (D : is_Some (threads s !! t)).
  { apply elem_of_dom. unfold s. rewrite log_run_dom. cbn. rewrite dom_fmap_L. by apply elem_of_dom_2 in P. }
  destruct D as [th T]. exists th. split; [done|]. destruct (I3 t th T) as (_ & p' & P' & Q). congruence.
Qed.

(** Two threads: the second waits for the first one's record. *)
Definition demo_statement (m : log_macro) (x : bytes) : log_statement :=
  mkLogStatement m (str "now") (str "1") (str "f") 7 [x].

Lemma log_records_demo :
  let s := log_run LEVEL_1 Logger_new ([1] ++ [2] ++ repeat 1 11 ++ repeat 2 13)
    (log_start {[ 1 := [demo_statement LOG_INFO (str "a")]; 2 := [demo_statement LOG_DEBUG (str "b"); demo_statement LOG_ERROR (str "c")] ]} [] demo_disk) in
  cout s = record_text (demo_statement LOG_INFO (str "a")) ++ record_text (demo_statement LOG_ERROR (str "c")) /\ mutex_ s = None.
Proof. split; vm_compute; reflexivity. Qed.
