(* ===== verification/ClusterManager.v ===== *)
(** * Connections between the nodes

    [ClusterManager] (src/src/flowmq/cluster_manager.cpp): the outgoing
    connections to the other nodes, with their retry logic, and the incoming
    ones. The asynchronous operations of the io_context (posted closures,
    connects in flight, timers, the sessions whose reads are pending) are part
    of the state; their completions are operations of their own, so that any
    order of them can be run. The sessions are shared objects: the maps of the
    class hold handles to them, and a session that was replaced lives on. *)

From S2P Require Import Prelude RaftMessage Session.

Local Open Scope Z_scope.

(** ** The interface a cluster node is written against *)

Class ClusterManagerInterface (C : Type) := {
  broad_cast : Message -> C -> C;
  write_message : Z -> Message -> C -> C
}.

(** What a node asked to be sent, in order. *)
Inductive outgoing :=
  | ToAll (m : Message)
  | ToNode (endpoint_id : Z) (m : Message).

Class ClusterManagerLaws (C : Type) `{ClusterManagerInterface C} := {
  requested : C -> list outgoing;
  requested_broad_cast m c : requested (broad_cast m c) = requested c ++ [ToAll m];
  requested_write_message id m c : requested (write_message id m c) = requested c ++ [ToNode id m]
}.

(** What a node asked for, done. *)
Definition request `{ClusterManagerInterface C} (c : C) (o : outgoing) : C :=
  match o with
  | ToAll m => broad_cast m c
  | ToNode id m => write_message id m c
  end.

Lemma requested_all `{ClusterManagerLaws C} (c : C) out : requested (foldl request c out) = requested c ++ out.
Proof.
  revert c. induction out as [|o out IH]; intros c; cbn [foldl]; [by rewrite app_nil_r|].
  rewrite IH. destruct o as [m|id m]; cbn [request]; rewrite ?requested_broad_cast, ?requested_write_message; by rewrite <- app_assoc.
Qed.

(** ** The class *)

(** What the closures registered on a session captured. *)
Inductive session_role :=
  | Outgoing (endpoint_id : Z)
  | Incoming (id : Z).

#[export] Instance session_role_eq_dec : EqDecision session_role.
Proof. solve_decision. Defined.

(** A session object: what was registered on it, its state, and the messages
    given to [async_write] on its socket. *)
Record connection := mkConnection {
  role : session_role;
  session : Session;
  written : list Message
}.

Section ClusterManager.
(** What the resolver returns; the manager passes it on to [async_connect]. *)
Context {results_type : Type} `{!Inhabited results_type}.

Record ClusterManager := mkClusterManager {
  incoming_sessions_ : gmap Z Z;
  incoming_sessions_count_ : Z;
  endpoints_ : list (Z * results_type);
  endpoint_id_map_ : gmap Z results_type;
  outgoing_sessions_ : gmap Z Z;
  (** the io_context: session objects by handle, posted closures, connects in
      flight, retry timers, a pending accept *)
  sessions : gmap Z connection;
  next_handle : Z;
  posted : list outgoing;
  connecting : list (Z * results_type);
  retry_timers : list Z;
  accepting : bool
}.

Definition ClusterManager_new (endpoints : list (Z * results_type)) : ClusterManager :=
  mkClusterManager ∅ 0 endpoints ∅ ∅ ∅ 0 [] [] [] false.

(** Field updates. *)
Definition upd_sessions (f : gmap Z connection -> gmap Z connection) (c : ClusterManager) : ClusterManager :=
  mkClusterManager (incoming_sessions_ c) (incoming_sessions_count_ c) (endpoints_ c) (endpoint_id_map_ c)
    (outgoing_sessions_ c) (f (sessions c)) (next_handle c) (posted c) (connecting c) (retry_timers c) (accepting c).
Definition set_posted (p : list outgoing) (c : ClusterManager) : ClusterManager :=
  mkClusterManager (incoming_sessions_ c) (incoming_sessions_count_ c) (endpoints_ c) (endpoint_id_map_ c)
    (outgoing_sessions_ c) (sessions c) (next_handle c) p (connecting c) (retry_timers c) (accepting c).
Definition set_connecting (l : list (Z * results_type)) (c : ClusterManager) : ClusterManager :=
  mkClusterManager (incoming_sessions_ c) (incoming_sessions_count_ c) (endpoints_ c) (endpoint_id_map_ c)
    (outgoing_sessions_ c) (sessions c) (next_handle c) (posted c) l (retry_timers c) (accepting c).
Definition set_retry_timers (l : list Z) (c : ClusterManager) : ClusterManager :=
  mkClusterManager (incoming_sessions_ c) (incoming_sessions_count_ c) (endpoints_ c) (endpoint_id_map_ c)
    (outgoing_sessions_ c) (sessions c) (next_handle c) (posted c) (connecting c) l (accepting c).
Definition set_endpoint_id_map (m : gmap Z results_type) (c : ClusterManager) : ClusterManager :=
  mkClusterManager (incoming_sessions_ c) (incoming_sessions_count_ c) (endpoints_ c) m
    (outgoing_sessions_ c) (sessions c) (next_handle c) (posted c) (connecting c) (retry_timers c) (accepting c).
Definition set_accepting (b : bool) (c : ClusterManager) : ClusterManager :=
  mkClusterManager (incoming_sessions_ c) (incoming_sessions_count_ c) (endpoints_ c) (endpoint_id_map_ c)
    (outgoing_sessions_ c) (sessions c) (next_handle c) (posted c) (connecting c) (retry_timers c) b.
Definition set_incoming (m : gmap Z Z) (n : Z) (c : ClusterManager) : ClusterManager :=
  mkClusterManager m n (endpoints_ c) (endpoint_id_map_ c)
    (outgoing_sessions_ c) (sessions c) (next_handle c) (posted c) (connecting c) (retry_timers c) (accepting c).
Definition set_outgoing (m : gmap Z Z) (c : ClusterManager) : ClusterManager :=
  mkClusterManager (incoming_sessions_ c) (incoming_sessions_count_ c) (endpoints_ c) (endpoint_id_map_ c)
    m (sessions c) (next_handle c) (posted c) (connecting c) (retry_timers c) (accepting c).

(** [make_shared<Session>], with its handlers registered and its first read
    started. *)
Definition new_session (r : session_role) (c : ClusterManager) : Z * ClusterManager :=
  (next_handle c,
   mkClusterManager (incoming_sessions_ c) (incoming_sessions_count_ c) (endpoints_ c) (endpoint_id_map_ c)
    (outgoing_sessions_ c) (<[next_handle c := mkConnection r (start_read Session_new) []]> (sessions c))
    (next_handle c + 1) (posted c) (connecting c) (retry_timers c) (accepting c)).

(** [connect]: no-op when the endpoint has a connected session; [m[id]] on the
    map of endpoints inserts a default where the id is unknown. *)
Definition connect (endpoint_id : Z) (c : ClusterManager) : ClusterManager :=
  let connected :=
    match outgoing_sessions_ c !! endpoint_id with
    | Some h => match sessions c !! h with
                | Some k => bool_decide (status_ (session k) = CONNECTED)
                | None => false
                end
    | None => false
    end in
  if connected then c
  else
    let c := set_endpoint_id_map (map_touch inhabitant (endpoint_id_map_ c) endpoint_id) c in
    set_connecting (connecting c ++ [(endpoint_id, map_at inhabitant (endpoint_id_map_ c) endpoint_id)]) c.

(** Completion of the [n]-th connect in flight. *)
Definition on_connect (n : nat) (error : bool) (c : ClusterManager) : ClusterManager :=
  match connecting c !! n with
  | None => c
  | Some (endpoint_id, _) =>
      let c := set_connecting (delete n (connecting c)) c in
      if error then set_retry_timers (retry_timers c ++ [endpoint_id]) c
      else
        let '(h, c) := new_session (Outgoing endpoint_id) c in
        set_outgoing (<[endpoint_id := h]> (outgoing_sessions_ c)) c
  end.

(** Expiry of the [n]-th retry timer. *)
Definition on_retry_timer (n : nat) (c : ClusterManager) : ClusterManager :=
  match retry_timers c !! n with
  | None => c
  | Some endpoint_id => connect endpoint_id (set_retry_timers (delete n (retry_timers c)) c)
  end.

Definition accept_new_connection (c : ClusterManager) : ClusterManager := set_accepting true c.

(** Completion of the accept, which accepts again. *)
Definition on_accept (error : bool) (c : ClusterManager) : outcome ClusterManager :=
  if error then Ret (accept_new_connection c)
  else
    let id := incoming_sessions_count_ c in
    let* count := int_add id 1 in
    let '(h, c) := new_session (Incoming id) c in
    Ret (accept_new_connection (set_incoming (<[id := h]> (incoming_sessions_ c)) count c)).

Definition start (c : ClusterManager) : ClusterManager :=
  let c := accept_new_connection c in
  let c := set_endpoint_id_map (foldl (fun m p => <[p.1 := p.2]> m) (endpoint_id_map_ c) (endpoints_ c)) c in
  foldl (fun c p => connect p.1 c) c (endpoints_ c).

Definition ClusterManager_broad_cast (msg : Message) (c : ClusterManager) : ClusterManager :=
  set_posted (posted c ++ [ToAll msg]) c.

Definition ClusterManager_write_message (endpoint_id : Z) (msg : Message) (c : ClusterManager) : ClusterManager :=
  set_posted (posted c ++ [ToNode endpoint_id msg]) c.

(** [session->write_message] through a handle. *)
Definition session_write (m : Message) (h : Z) (c : ClusterManager) : ClusterManager :=
  upd_sessions (alter (fun k => mkConnection (role k) (session k) (written k ++ [m])) h) c.

(** The closure [broad_cast] or [write_message] posted. *)
Definition run_task (t : outgoing) (c : ClusterManager) : ClusterManager :=
  match t with
  | ToAll m => foldl (fun c p => session_write m p.2 c) c (map_iter (outgoing_sessions_ c))
  | ToNode endpoint_id m =>
      match outgoing_sessions_ c !! endpoint_id with
      | Some h => session_write m h c
      | None => c
      end
  end.

Definition run_posted (c : ClusterManager) : ClusterManager :=
  match posted c with
  | [] => c
  | t :: ts => run_task t (set_posted ts c)
  end.

(** The closures registered on a session: outgoing sessions ignore what they
    read and retry when they are disconnected; incoming ones forward what they
    read to [handler_] and leave the map when they are disconnected. The
    result lists the messages [handler_] was called with. *)
Definition run_handler (r : session_role) (e : session_event) (c : ClusterManager) : list Message * ClusterManager :=
  match r, e with
  | Outgoing _, MsgHandler _ => ([], c)
  | Outgoing endpoint_id, DisconnectedHandler => ([], set_retry_timers (retry_timers c ++ [endpoint_id]) c)
  | Incoming _, MsgHandler m => ([m], c)
  | Incoming id, DisconnectedHandler =>
      ([], set_incoming (delete id (incoming_sessions_ c)) (incoming_sessions_count_ c) c)
  end.

Fixpoint run_handlers (r : session_role) (es : list session_event) (c : ClusterManager) : list Message * ClusterManager :=
  match es with
  | [] => ([], c)
  | e :: es =>
      let '(out, c) := run_handler r e c in
      let '(out', c) := run_handlers r es c in
      (out ++ out', c)
  end.

(** A completion on the session with handle [h]. *)
Definition on_session (h : Z) (i : session_input) (c : ClusterManager) : outcome (list Message * ClusterManager) :=
  match sessions c !! h with
  | None => Ret ([], c)
  | Some k =>
      let* r := session_step i (session k) in
      let '(es, s) := r in
      Ret (run_handlers (role k) es (upd_sessions (insert h (mkConnection (role k) s (written k))) c))
  end.

End ClusterManager.
Arguments ClusterManager : clear implicits.

#[export] Instance ClusterManager_interface {results_type : Type} : ClusterManagerInterface (ClusterManager results_type) := {
  broad_cast := ClusterManager_broad_cast;
  write_message := ClusterManager_write_message
}.

#[export] Instance ClusterManager_laws {results_type : Type} : ClusterManagerLaws (ClusterManager results_type) := {
  requested := posted;
  requested_broad_cast m c := eq_refl;
  requested_write_message id m c := eq_refl
}.

(** ** Invariant of the connections *)

Section Connections.
Context {results_type : Type} `{!Inhabited results_type}.
Abbreviation manager := (ClusterManager results_type).

(** The steps of the io_context and the calls of the nodes; a manager never
    closes a session. *)
Inductive manager_step : manager -> manager -> Prop :=
  | step_connect n error c : manager_step c (on_connect n error c)
  | step_retry n c : manager_step c (on_retry_timer n c)
  | step_accept error c c' : on_accept error c = Ret c' -> manager_step c c'
  | step_posted c : manager_step c (run_posted c)
  | step_broad_cast m c : manager_step c (broad_cast m c)
  | step_write id m c : manager_step c (write_message id m c)
  | step_session h i c out c' :
      is_close i = false -> on_session h i c = Ret (out, c') -> manager_step c c'.

Inductive manager_reachable (eps : list (Z * results_type)) : manager -> Prop :=
  | reachable_start : manager_reachable eps (start (ClusterManager_new eps))
  | reachable_step c c' : manager_reachable eps c -> manager_step c c' -> manager_reachable eps c'.

Definition count (id : Z) (l : list Z) : nat := length (List.filter (Z.eqb id) l).

Definition connected (c : manager) (id : Z) : bool :=
  match outgoing_sessions_ c !! id with
  | Some h => match sessions c !! h with
              | Some k => bool_decide (status_ (session k) = CONNECTED)
              | None => false
              end
  | None => false
  end.

(** Connects in flight, retry timers and connected sessions of an endpoint. *)
Definition activity (c : manager) (id : Z) : nat :=
  (count id (map fst (connecting c)) + count id (retry_timers c) + (if connected c id then 1 else 0))%nat.

Record manager_wf (c : manager) : Prop := {
  wf_handles h k : sessions c !! h = Some k -> h < next_handle c;
  wf_outgoing id h : outgoing_sessions_ c !! id = Some h ->
    exists k, sessions c !! h = Some k /\ role k = Outgoing id;
  wf_current h k id : sessions c !! h = Some k -> role k = Outgoing id -> status_ (session k) = CONNECTED ->
    outgoing_sessions_ c !! id = Some h;
  wf_open h k : sessions c !! h = Some k -> status_ (session k) <> CLOSED
}.

(** One activity per endpoint. *)
Definition one_activity (eps : list (Z * results_type)) (c : manager) : Prop :=
  forall id, activity c id = count id (map fst eps).

Lemma count_app id a b : count id (a ++ b) = (count id a + count id b)%nat.
Proof. unfold count. by rewrite List.filter_app, length_app. Qed.

Lemma count_one id x : count id [x] = if id =? x then 1%nat else 0%nat.
Proof. unfold count. simpl. by destruct (id =? x). Qed.

Lemma count_perm id a b : a ≡ₚ b -> count id a = count id b.
Proof.
  unfold count. intros P. induction P; simpl; repeat (case_match; simpl); lia.
Qed.

Lemma count_delete id n l x : l !! n = Some x -> count id l = (count id [x] + count id (delete n l))%nat.
Proof. intros E. rewrite <- count_app. apply count_perm. by apply delete_Permutation. Qed.

Lemma count_delete_fst id n (l : list (Z * results_type)) x r :
  l !! n = Some (x, r) -> count id (map fst l) = (count id [x] + count id (map fst (delete n l)))%nat.
Proof.
  intros E. rewrite <- count_app. apply count_perm. change ([x] ++ map fst (delete n l)) with (map fst ((x, r) :: delete n l)).
  apply fmap_Permutation. by apply delete_Permutation.
Qed.

Lemma connected_eq (c c' : manager) id :
  outgoing_sessions_ c' = outgoing_sessions_ c -> sessions c' = sessions c -> connected c' id = connected c id.
Proof. unfold connected. by intros -> ->. Qed.

Lemma connect_wf id c : manager_wf c -> manager_wf (connect id c).
Proof. intros [H1 H2 H3 H4]. unfold connect. case_match; split; simpl; eauto. Qed.

Lemma connect_activity id c i :
  connected c id = false -> activity (connect id c) i = (count i [id] + activity c i)%nat.
Proof.
  intros E. unfold connect. fold (connected c id). rewrite E. unfold activity.
  rewrite (connected_eq c) by done. simpl. rewrite map_app, count_app. simpl. lia.
Qed.

(** ** Each step keeps the invariant *)

Definition manager_inv (eps : list (Z * results_type)) (c : manager) : Prop :=
  manager_wf c /\ one_activity eps c.

Section Steps.
Context (eps : list (Z * results_type)) (ND : NoDup (map fst eps)).

Lemma count_nodup id l : NoDup l -> (count id l <= 1)%nat.
Proof.
  unfold count. induction 1 as [|x l Hx Hl IH]; simpl; [lia|]. destruct (Z.eqb_spec id x) as [->|]; simpl; [|done].
  assert (List.filter (Z.eqb x) l = []) as ->; [|simpl; lia].
  clear -Hx. induction l as [|y l IH]; simpl; [done|]. apply not_elem_of_cons in Hx as [N Hx].
  rewrite (proj2 (Z.eqb_neq x y)) by done. by apply IH.
Qed.

Lemma activity_le c id : one_activity eps c -> (activity c id <= 1)%nat.
Proof. intros A. rewrite A. by apply count_nodup. Qed.

Lemma connecting_not_connected c n id r :
  one_activity eps c -> connecting c !! n = Some (id, r) -> connected c id = false.
Proof.
  intros A E. pose proof (activity_le c id A) as L. unfold activity in L.
  rewrite (count_delete_fst id n _ id r E), count_one, Z.eqb_refl in L.
  destruct (connected c id); [lia|done].
Qed.

Lemma timer_not_connected c n id :
  one_activity eps c -> retry_timers c !! n = Some id -> connected c id = false.
Proof.
  intros A E. pose proof (activity_le c id A) as L. unfold activity in L.
  rewrite (count_delete id n _ id E), count_one, Z.eqb_refl in L.
  destruct (connected c id); [lia|done].
Qed.

Lemma connected_current c h k id :
  outgoing_sessions_ c !! id = Some h -> sessions c !! h = Some k -> status_ (session k) = CONNECTED ->
  connected c id = true.
Proof. intros E1 E2 E3. unfold connected. rewrite E1, E2. by apply bool_decide_eq_true_2. Qed.

Lemma fresh_handle c : manager_wf c -> sessions c !! next_handle c = None.
Proof. intros W. destruct (sessions c !! next_handle c) eqn:X; [|done]. apply (wf_handles c W) in X. lia. Qed.

Lemma on_connect_inv n error c : manager_inv eps c -> manager_inv eps (on_connect n error c).
Proof.
  intros [W A]. unfold on_connect. destruct (connecting c !! n) as [[id r]|] eqn:E; [|done].
  pose proof (connecting_not_connected c n id r A E) as NC. pose proof (fresh_handle c W) as N.
  destruct error.
  { split; [destruct W; split; simpl; eauto|]. intros i. rewrite <- (A i). unfold activity.
    rewrite (connected_eq c) by done. simpl. rewrite (count_delete_fst i n _ id r E), count_app. lia. }
  pose proof W as [H1 H2 H3 H4]. split; [split; simpl|].
  - intros h k. rewrite lookup_insert. case_decide; [lia|]. intros X%H1. lia.
  - intros i h. rewrite !lookup_insert. destruct (decide (id = i)) as [<-|].
    + intros [= <-]. rewrite decide_True by done. eauto.
    + intros X%H2. destruct X as (k & X & R). rewrite decide_False; [eauto|]. intros <-. congruence.
  - intros h k i. rewrite !lookup_insert. case_decide.
    + intros [= <-]. simpl. intros [= <-] _. rewrite decide_True by done. congruence.
    + intros X R S. pose proof (H3 h k i X R S) as O. case_decide; [|done]. subst i.
      rewrite (connected_current c h k id) in NC by done. done.
  - intros h k. rewrite lookup_insert. case_decide; [intros [= <-]; done|apply H4].
  - intros i. rewrite <- (A i). unfold activity. simpl.
    rewrite (count_delete_fst i n _ id r E), count_one. unfold connected. simpl. rewrite lookup_insert.
    case_decide as D.
    + subst i. rewrite lookup_insert_eq, Z.eqb_refl. fold (connected c id). rewrite NC.
      rewrite bool_decide_eq_true_2 by done. lia.
    + rewrite (proj2 (Z.eqb_neq i id)) by done.
      destruct (outgoing_sessions_ c !! i) as [h|] eqn:O; [|lia].
      apply H2 in O as (k & X & _). rewrite lookup_insert_ne, X by congruence. lia.
Qed.

Lemma on_retry_inv n c : manager_inv eps c -> manager_inv eps (on_retry_timer n c).
Proof.
  intros [W A]. unfold on_retry_timer. destruct (retry_timers c !! n) as [id|] eqn:E; [|done].
  pose proof (timer_not_connected c n id A E) as NC. split.
  { apply connect_wf. destruct W; split; simpl; eauto. }
  intros i. rewrite connect_activity, <- (A i) by (by rewrite (connected_eq c)). unfold activity.
  rewrite (connected_eq c), (count_delete i n _ id E) by done. simpl. lia.
Qed.

Lemma on_accept_inv error c c' : manager_inv eps c -> on_accept error c = Ret c' -> manager_inv eps c'.
Proof.
  intros [W A] H. pose proof (fresh_handle c W) as N. unfold on_accept in H. destruct error; simpl in H; inv_ret.
  { subst c'. split; [destruct W; split; simpl; eauto|]. intros i. rewrite <- (A i). done. }
  subst c'. destruct W as [H1 H2 H3 H4].
  assert (K : forall h, is_Some (sessions c !! h) -> next_handle c <> h) by (intros h [k X] <-; congruence).
  split; [split; simpl|].
  - intros h k. rewrite lookup_insert. case_decide; [lia|]. intros X%H1. lia.
  - intros i h X%H2. destruct X as (k & X & R). rewrite lookup_insert_ne by (apply K; eauto). eauto.
  - intros h k i. rewrite lookup_insert. case_decide; [intros [= <-]; done|apply H3].
  - intros h k. rewrite lookup_insert. case_decide; [intros [= <-]; done|apply H4].
  - intros i. rewrite <- (A i). unfold activity, connected. simpl.
    destruct (outgoing_sessions_ c !! i) as [h|] eqn:O; [|done].
    apply H2 in O as (k & X & _). rewrite lookup_insert_ne by (apply K; eauto). done.
Qed.

(** Writing changes nothing but the written messages. *)
Lemma session_write_wf m h (c : manager) : manager_wf c -> manager_wf (session_write m h c).
Proof.
  intros W. assert (L : forall h' k', sessions (session_write m h c) !! h' = Some k' ->
    exists k, sessions c !! h' = Some k /\ role k' = role k /\ session k' = session k).
  { intros h' k'. simpl. rewrite lookup_alter. case_decide; [|eauto].
    destruct (sessions c !! h') eqn:X; subst; rewrite X; [|done]. intros [= <-]. eauto. }
  destruct W as [H1 H2 H3 H4]. split.
  - intros h' k' X%L. destruct X as (k & X & _). eauto.
  - intros i h' O. destruct (H2 i h' O) as (k & X & R). simpl. rewrite lookup_alter.
    case_decide; subst; rewrite X; simpl; eauto.
  - intros h' k' i X%L R S. destruct X as (k & X & E1 & E2). rewrite E1 in R. rewrite E2 in S. by eapply H3.
  - intros h' k' X%L. destruct X as (k & X & E1 & E2). rewrite E2. by eapply H4.
Qed.

Lemma session_write_inv m h c : manager_inv eps c -> manager_inv eps (session_write m h c).
Proof.
  intros [W A]. split; [by apply session_write_wf|].
  intros i. rewrite <- (A i). unfold activity. simpl. do 2 f_equal. unfold connected. simpl.
  destruct (outgoing_sessions_ c !! i) as [h'|]; [|done]. rewrite lookup_alter. case_decide; [|done]. subst.
  by destruct (sessions c !! h').
Qed.

Lemma run_task_inv t c : manager_inv eps c -> manager_inv eps (run_task t c).
Proof.
  intros I. destruct t as [m|id m]; simpl.
  - generalize (map_iter (outgoing_sessions_ c)). intros l. revert c I.
    induction l as [|p l IH]; intros c I; simpl; [done|]. apply IH. by apply session_write_inv.
  - destruct (outgoing_sessions_ c !! id); [by apply session_write_inv|done].
Qed.

Lemma set_posted_inv p c : manager_inv eps c -> manager_inv eps (set_posted p c).
Proof. intros [W A]. split; [destruct W; split; simpl; eauto|]. intros i. rewrite <- (A i). done. Qed.

Lemma run_posted_inv c : manager_inv eps c -> manager_inv eps (run_posted c).
Proof. intros I. unfold run_posted. destruct (posted c); [done|]. by apply run_task_inv, set_posted_inv. Qed.

(** The closures of a session change the timers of its endpoint only. *)
Lemma run_handlers_state r es (c : manager) out c' :
  run_handlers r es c = (out, c') ->
  outgoing_sessions_ c' = outgoing_sessions_ c /\ sessions c' = sessions c /\ next_handle c' = next_handle c /\
  connecting c' = connecting c /\
  forall i, count i (retry_timers c') =
    (count i (retry_timers c) + match r with Outgoing id => if (i =? id)%Z then disconnects es else 0 | Incoming _ => 0 end)%nat.
Proof.
  revert c out. induction es as [|e es IH]; intros c out H; simpl in H.
  { injection H as <- <-. split_and!; try done. intros i. change (disconnects []) with 0%nat. destruct r; [case_match|]; lia. }
  destruct (run_handler r e c) as [o1 c1] eqn:E1. destruct (run_handlers r es c1) as [o2 c2] eqn:E2.
  injection H as <- <-. destruct (IH c1 o2 E2) as (F1 & F2 & F3 & F4 & F5).
  assert (R : outgoing_sessions_ c1 = outgoing_sessions_ c /\ sessions c1 = sessions c /\
    next_handle c1 = next_handle c /\ connecting c1 = connecting c /\
    forall i, count i (retry_timers c1) = (count i (retry_timers c) +
      match r with Outgoing id => if (i =? id)%Z then disconnects [e] else 0 | Incoming _ => 0 end)%nat).
  { destruct r, e; simpl in E1; injection E1 as <- <-; split_and!; try done; intros i; simpl;
      rewrite ?count_app, ?count_one; change (disconnects [DisconnectedHandler]) with 1%nat;
      try change (disconnects [MsgHandler m]) with 0%nat; repeat case_match; lia. }
  destruct R as (R1 & R2 & R3 & R4 & R5). split_and!; try congruence. intros i. rewrite F5, R5.
  rewrite (disconnects_app [e] es : disconnects (e :: es) = _). destruct r; [case_match|]; lia.
Qed.

Lemma on_session_inv h i c out c' :
  manager_inv eps c -> is_close i = false -> on_session h i c = Ret (out, c') -> manager_inv eps c'.
Proof.
  intros [W A] Hc H. unfold on_session in H. destruct (sessions c !! h) as [k|] eqn:X; [|by inv_ret; simplify_eq].
  inv_ret. destruct x as [es s]. inv_ret. apply run_handlers_state in H as (F1 & F2 & F3 & F4 & F5). simpl in *.
  apply step_disconnects in H0; [|done]. destruct W as [H1 H2 H3 H4].
  assert (S : status_ s = status_ (session k) \/ (status_ (session k) = CONNECTED /\ status_ s = DISCONNECTED)).
  { destruct H0 as [[_ ?]|(_ & N & ?)]; [by left|right]. pose proof (H4 h k X). by destruct (status_ (session k)). }
  split; [split|].
  - intros h' k'. rewrite F2, F3, lookup_insert. case_decide; [subst; eauto|apply H1].
  - intros id h'. rewrite F1, F2, lookup_insert. intros O. destruct (H2 id h' O) as (k' & X' & R).
    case_decide; [|eauto]. subst. simplify_eq. eexists. split; done.
  - intros h' k' id. rewrite F1, F2, lookup_insert. case_decide; [|apply H3]. intros [= <-]. simpl. intros R St.
    subst. eapply H3; [done..|]. destruct S as [S|[S _]]; congruence.
  - intros h' k'. rewrite F2, lookup_insert. case_decide; [|apply H4]. intros [= <-]. simpl.
    pose proof (H4 h k X). destruct S as [->|[_ ->]]; done.
  - intros id. rewrite <- (A id). unfold activity. rewrite F4, F5. unfold connected. rewrite F1, F2.
    destruct (role k) as [e|e] eqn:R.
    + destruct (Z.eqb_spec id e) as [->|NE].
      * destruct (decide (status_ (session k) = CONNECTED)) as [C|NC].
        -- pose proof (H3 h k e X R C) as O. rewrite O, lookup_insert_eq, X. simpl.
           rewrite (bool_decide_eq_true_2 _ C).
           destruct H0 as [[-> ->]|(-> & _ & ->)]; [rewrite (bool_decide_eq_true_2 _ C)|rewrite bool_decide_eq_false_2 by done]; lia.
        -- destruct H0 as [[-> E]|(_ & N & _)]; [|pose proof (H4 h k X); by destruct (status_ (session k))].
           destruct (outgoing_sessions_ c !! e) as [h'|]; [|lia]. rewrite lookup_insert.
           case_decide; [|lia]. subst h'. rewrite X. simpl. rewrite E. lia.
      * destruct (outgoing_sessions_ c !! id) as [h'|] eqn:O; [|lia]. rewrite lookup_insert.
        case_decide; [|lia]. subst h'. apply H2 in O as (k' & X' & R'). congruence.
    + destruct (outgoing_sessions_ c !! id) as [h'|] eqn:O; [|lia]. rewrite lookup_insert.
      case_decide; [|lia]. subst h'. apply H2 in O as (k' & X' & R'). congruence.
Qed.

Lemma manager_step_inv c c' : manager_inv eps c -> manager_step c c' -> manager_inv eps c'.
Proof.
  intros I S.
  destruct S; try (by apply set_posted_inv); eauto using on_connect_inv, on_retry_inv, on_accept_inv, run_posted_inv, on_session_inv.
Qed.

Lemma start_inv : manager_inv eps (start (ClusterManager_new eps)).
Proof.
  unfold start. simpl. match goal with |- context [foldl (fun c p => connect p.1 c) ?x _] => set (c0 := x) end.
  assert (G : forall (l : list (Z * results_type)) (c : manager), outgoing_sessions_ c = ∅ -> manager_wf c ->
    let c' := foldl (fun c p => connect p.1 c) c l in
    manager_wf c' /\ forall id, activity c' id = (activity c id + count id (map fst l))%nat).
  { induction l as [|[id r] l IH]; intros c O W; simpl; [split; [done|]; intros i; change (count i []) with 0%nat; lia|].
    assert (NC : connected c id = false) by (unfold connected; by rewrite O).
    destruct (IH (connect id c)) as [W' A'].
    - unfold connect. fold (connected c id). by rewrite NC.
    - by apply connect_wf.
    - split; [done|]. intros i. rewrite A', connect_activity by done.
      change (id :: map fst l) with ([id] ++ map fst l). rewrite count_app. lia. }
  destruct (G eps c0) as [W A].
  - done.
  - subst c0. split; simpl; intros *; rewrite lookup_empty; done.
  - split; [done|]. intros id. rewrite A. done.
Qed.

Lemma manager_reachable_inv c : manager_reachable eps c -> manager_inv eps c.
Proof. induction 1; eauto using start_inv, manager_step_inv. Qed.
End Steps.

(** ** Running the posted closures *)

(** The messages of a task meant for one endpoint. *)
Definition messages_for (id : Z) (ts : list outgoing) : list Message :=
  flat_map (fun t => match t with
                     | ToAll m => [m]
                     | ToNode i m => if i =? id then [m] else []
                     end) ts.

Definition run_all_posted (c : manager) : manager := Nat.iter (length (posted c)) run_posted c.

(** The messages written to the current session of an endpoint. *)
Definition written_to (c : manager) (id : Z) : option (list Message) :=
  h ← outgoing_sessions_ c !! id; written <$> sessions c !! h.

Lemma written_session_write (c : manager) m h id :
  manager_wf c -> outgoing_sessions_ (session_write m h c) = outgoing_sessions_ c /\
  written_to (session_write m h c) id =
    (if bool_decide (outgoing_sessions_ c !! id = Some h) then (fun w => w ++ [m]) <$> written_to c id
     else written_to c id).
Proof.
  intros W. split; [done|]. unfold written_to. simpl.
  destruct (outgoing_sessions_ c !! id) as [h'|] eqn:O; simpl; [|done].
  apply (wf_outgoing c W) in O as (k & X & R). rewrite lookup_alter, X.
  case_bool_decide as D; case_decide; simplify_eq; rewrite ?X; done.
Qed.

Lemma broadcast_written m l (c : manager) id :
  manager_wf c -> NoDup (l.*1) -> (forall i h, (i, h) ∈ l -> outgoing_sessions_ c !! i = Some h) ->
  let c' := foldl (fun c p => session_write m p.2 c) c l in
  manager_wf c' /\ outgoing_sessions_ c' = outgoing_sessions_ c /\ posted c' = posted c /\
  written_to c' id = (if bool_decide (id ∈ l.*1) then (fun w => w ++ [m]) <$> written_to c id else written_to c id).
Proof.
  revert c. induction l as [|[i h] l IH]; intros c W ND HL; simpl; [done|].
  apply NoDup_cons in ND as [Ni ND].
  assert (W1 : manager_wf (session_write m h c)).
  { apply (session_write_wf m h c W). }
  destruct (IH (session_write m h c) W1 ND) as (W' & O' & P' & E'); [set_solver|].
  split_and!; [done|done|done|]. rewrite E'.
  destruct (written_session_write c m h id W) as [_ ->].
  assert (Oi : outgoing_sessions_ c !! i = Some h) by (apply HL; left).
  assert (EQ : outgoing_sessions_ c !! id = Some h <-> id = i).
  { split; [|by intros ->]. intros Od. destruct (wf_outgoing c W _ _ Oi) as (k & X & R).
    destruct (wf_outgoing c W _ _ Od) as (k' & X' & R'). congruence. }
  destruct (decide (id = i)) as [->|NE].
  - rewrite (bool_decide_eq_true_2 (outgoing_sessions_ c !! i = Some h)) by done.
    rewrite (bool_decide_eq_false_2 (i ∈ l.*1)) by done. by rewrite bool_decide_eq_true_2 by set_solver.
  - rewrite (bool_decide_eq_false_2 (outgoing_sessions_ c !! id = Some h)) by tauto.
    do 2 case_bool_decide; set_solver.
Qed.

Lemma run_task_written t (c : manager) id :
  manager_wf c ->
  manager_wf (run_task t c) /\ outgoing_sessions_ (run_task t c) = outgoing_sessions_ c /\
  posted (run_task t c) = posted c /\
  written_to (run_task t c) id = (fun w => w ++ messages_for id [t]) <$> written_to c id.
Proof.
  intros W. destruct t as [m|i m]; simpl.
  - assert (ND : NoDup (map_iter (outgoing_sessions_ c)).*1).
    { rewrite (fmap_Permutation fst _ _ (map_iter_perm (outgoing_sessions_ c))). apply NoDup_fst_map_to_list. }
    destruct (broadcast_written m (map_iter (outgoing_sessions_ c)) c id W ND) as (W' & O' & P' & E').
    { intros i h. apply elem_of_map_iter. }
    split_and!; [done..|]. rewrite E'. case_bool_decide as D; [done|].
    unfold written_to. destruct (outgoing_sessions_ c !! id) as [h|] eqn:O; [|done].
    exfalso. apply D, list_elem_of_fmap. exists (id, h). by rewrite elem_of_map_iter.
  - destruct (outgoing_sessions_ c !! i) as [h|] eqn:O.
    + destruct (written_session_write c m h id W) as [O' ->]. split_and!; [by apply session_write_wf|done..|].
      destruct (Z.eqb_spec i id) as [->|NE]; simpl.
      * by rewrite bool_decide_eq_true_2 by done.
      * rewrite bool_decide_eq_false_2; [by destruct (written_to c id); simpl; rewrite ?app_nil_r|].
        intros O2. destruct (wf_outgoing c W _ _ O) as (k & X & R).
        destruct (wf_outgoing c W _ _ O2) as (k' & X' & R'). congruence.
    + split_and!; [done..|]. destruct (Z.eqb_spec i id) as [->|NE]; simpl.
      * unfold written_to. by rewrite O.
      * by destruct (written_to c id); simpl; rewrite ?app_nil_r.
Qed.

Lemma set_posted_wf p (c : manager) : manager_wf c -> manager_wf (set_posted p c).
Proof. intros []. split; simpl; eauto. Qed.

Lemma run_all_written (c : manager) id :
  manager_wf c ->
  written_to (run_all_posted c) id = (fun w => w ++ messages_for id (posted c)) <$> written_to c id /\
  posted (run_all_posted c) = [].
Proof.
  unfold run_all_posted. remember (posted c) as ts eqn:E. revert c E.
  induction ts as [|t ts IH]; intros c E W; simpl length.
  { simpl. split; [|done]. by destruct (written_to c id); simpl; rewrite ?app_nil_r. }
  rewrite Nat.iter_succ_r. unfold run_posted at 2 4. rewrite <- E.
  destruct (run_task_written t (set_posted ts c) id (set_posted_wf ts c W)) as (W' & O' & P' & E').
  destruct (IH (run_task t (set_posted ts c))) as [-> ->]; [done..|]. split; [|done].
  rewrite E'. change (written_to (set_posted ts c) id) with (written_to c id).
  destruct (written_to c id); simpl; [|done]. f_equal. unfold messages_for. simpl. by rewrite app_nil_r, <- app_assoc.
Qed.
End Connections.

(** ** Properties *)

(** Two endpoints, with results named by their number. *)
Definition demo_endpoints : list (Z * nat) := [(1, 10%nat); (2, 20%nat)].

(** C25: the manager never gives up on a node and never connects to it twice:
    in every state the io_context can reach, whatever the order of connects,
    failures, disconnections, retries and writes, each endpoint has exactly one
    of a connect in flight, a retry timer, or a connected session, and an
    unknown id has none. *)
Theorem one_connection_attempt `{!Inhabited results_type} (eps : list (Z * results_type))
    (c : ClusterManager results_type) (id : Z) :
  NoDup (map fst eps) -> manager_reachable eps c ->
  activity c id = if bool_decide (id ∈ map fst eps) then 1%nat else 0%nat.
Proof.
  intros ND R. destruct (manager_reachable_inv eps ND c R) as [_ A]. rewrite (A id). clear -ND. unfold count.
  induction (map fst eps) as [|x l IH]; simpl; [done|]. apply NoDup_cons in ND as [N ND].
  specialize (IH ND). destruct (Z.eqb_spec id x) as [->|]; simpl.
  - rewrite bool_decide_eq_true_2 by set_solver. rewrite IH. by rewrite bool_decide_eq_false_2 by done.
  - rewrite IH. do 2 case_bool_decide; set_solver.
Qed.

Lemma one_connection_attempt_witness :
  activity (on_connect 0 true (start (ClusterManager_new demo_endpoints))) 2 = 1%nat.
Proof.
  apply (one_connection_attempt demo_endpoints).
  - by_eval.
  - eapply reachable_step; [apply reachable_start|]. apply step_connect.
Defined.

(** What the nodes ask to be sent is written in the order they asked: once
    the posted closures have run, the current session of an endpoint has been
    given, after what it had been given before, exactly the messages broadcast
    or addressed to that endpoint, in order; nothing stays posted, and a
    message to an endpoint without a session is dropped. *)
Theorem sends_written_in_order `{!Inhabited results_type} (eps : list (Z * results_type))
    (c : ClusterManager results_type) (id : Z) :
  NoDup (map fst eps) -> manager_reachable eps c ->
  written_to (run_all_posted c) id = (fun w => w ++ messages_for id (requested c)) <$> written_to c id /\
  posted (run_all_posted c) = [].
Proof. intros ND R. apply run_all_written. by apply (manager_reachable_inv eps ND c R). Qed.

Lemma sends_written_in_order_witness :
  let c := on_connect 0 false (start (ClusterManager_new demo_endpoints)) in
  let c := write_message 1 (mkMessage 2 []) (write_message 2 (mkMessage 3 []) (broad_cast (mkMessage 1 []) c)) in
  written_to (run_all_posted c) 1 = Some [mkMessage 1 []; mkMessage 2 []].
Proof.
  intros c c'. destruct (sends_written_in_order demo_endpoints c' 1) as [H _].
  - by_eval.
  - do 2 (eapply reachable_step; [|apply step_write]). eapply reachable_step; [|apply step_broad_cast]. eapply reachable_step; [apply reachable_start|]. apply step_connect.
  - rewrite H. reflexivity.
Defined.
