(* ===== verification/ClientManager.v ===== *)
(** * Connections with the clients

    [ClientManager] (src/src/flowmq/client_manager.cpp): the sessions of the
    clients, the consumers of each partition and the round-robin delivery. As
    in [ClusterManager], the sessions are shared objects the class refers to by
    handle, and the completions of the io_context are operations. *)

From S2P Require Import Prelude WireFormat FlowTypes FlowCodec RaftMessage Session.

Local Open Scope Z_scope.

(** ** The interface a cluster node is written against *)

Class ClientManagerInterface (K : Type) := {
  has_consumers : K -> bool;
  deliver_one_message_round_robin : Z -> Message -> K -> outcome (Z * K)
}.

(** ** The class *)

(** A session object: the client id its closures captured, its state and the
    messages given to [async_write] on its socket. *)
Record client_connection := mkClientConnection {
  client_id : Z;
  client_session : Session;
  client_written : list Message
}.

Record ClientManager := mkClientManager {
  client_sessions_ : gmap Z Z;
  consumer_client_id_array_ : gmap Z (list Z);
  deliver_count_ : gmap Z Z;
  (** the io_context: session objects by handle, a pending accept *)
  client_connections : gmap Z client_connection;
  client_next_handle : Z;
  client_accepting : bool
}.

Definition ClientManager_new : ClientManager := mkClientManager ∅ ∅ ∅ ∅ 0 false.

Definition ClientManager_accept_new_connection (k : ClientManager) : ClientManager :=
  mkClientManager (client_sessions_ k) (consumer_client_id_array_ k) (deliver_count_ k)
    (client_connections k) (client_next_handle k) true.

Definition ClientManager_start (k : ClientManager) : ClientManager := ClientManager_accept_new_connection k.

(** [session->write_message] through a handle. *)
Definition client_session_write (m : Message) (h : Z) (k : ClientManager) : ClientManager :=
  mkClientManager (client_sessions_ k) (consumer_client_id_array_ k) (deliver_count_ k)
    (alter (fun c => mkClientConnection (client_id c) (client_session c) (client_written c ++ [m])) h (client_connections k))
    (client_next_handle k) (client_accepting k).

Definition set_deliver_count (m : gmap Z Z) (k : ClientManager) : ClientManager :=
  mkClientManager (client_sessions_ k) (consumer_client_id_array_ k) m
    (client_connections k) (client_next_handle k) (client_accepting k).

(** The count is an [int] that is converted to [size_t] by the remainder. *)
Definition ClientManager_deliver_one_message_round_robin (partition_id : Z) (msg : Message) (k : ClientManager)
    : outcome (Z * ClientManager) :=
  match consumer_client_id_array_ k !! partition_id with
  | None => Ret (1, k)
  | Some [] => Ret (-1, k)
  | Some clients =>
      let count := map_at 0 (deliver_count_ k) partition_id in
      let index_in_array := (count mod 2 ^ 64) mod zlength clients in
      let* client_id := vec_at clients index_in_array in
      match client_sessions_ k !! client_id with
      | None => Fault NullDeref
      | Some h =>
          let k := client_session_write msg h k in
          let* count := int_add count 1 in
          Ret (client_id, set_deliver_count (<[partition_id := count]> (deliver_count_ k)) k)
      end
  end.

Definition ClientManager_has_consumers (k : ClientManager) : bool :=
  negb (bool_decide (consumer_client_id_array_ k = ∅)).

(** Completion of the accept; [id] is what [std::rand] returned. *)
Definition client_on_accept (error : bool) (id : Z) (k : ClientManager) : ClientManager :=
  if error then ClientManager_accept_new_connection k
  else
    let h := client_next_handle k in
    ClientManager_accept_new_connection
      (mkClientManager (<[id := h]> (client_sessions_ k)) (consumer_client_id_array_ k) (deliver_count_ k)
        (<[h := mkClientConnection id (start_read Session_new) []]> (client_connections k)) (h + 1) (client_accepting k)).

(** [std::find] and [erase]: the first occurrence goes. *)
Fixpoint erase_first (id : Z) (l : list Z) : list Z :=
  match l with
  | [] => []
  | x :: l => if x =? id then l else x :: erase_first id l
  end.

(** Calls of the two handlers the master registers. *)
Inductive client_event :=
  | ToMaster (m : Message)
  | ClientDisconnected (client_id : Z).

(** The closure registered with [register_disconnect_handler]. *)
Definition client_disconnected_closure (id : Z) (k : ClientManager) : list client_event * ClientManager :=
  ([ClientDisconnected id],
   mkClientManager (delete id (client_sessions_ k)) (erase_first id <$> consumer_client_id_array_ k) (deliver_count_ k)
     (client_connections k) (client_next_handle k) (client_accepting k)).

Section Handlers.
Context `{RT : ProtobufRuntime}.

(** An unexpected type throws out of the io_context. *)
Definition handle_message (msg : Message) (client_id : Z) (k : ClientManager) : outcome (list client_event * ClientManager) :=
  let raft_msg := deserialize_from_message msg in
  match type raft_msg with
  | CLIENT_OPEN_QUEUE =>
      let partition_id := partition_id raft_msg in
      let clients := map_at [] (consumer_client_id_array_ k) partition_id in
      Ret ([ToMaster msg],
        mkClientManager (client_sessions_ k) (<[partition_id := clients ++ [client_id]]> (consumer_client_id_array_ k))
          (deliver_count_ k) (client_connections k) (client_next_handle k) (client_accepting k))
  | CLIENT_PUT_MESSAGE | CLIENT_COMMIT_MESSAGE => Ret ([ToMaster msg], k)
  | _ => Fault Thrown
  end.

Definition client_run_handler (id : Z) (e : session_event) (k : ClientManager) : outcome (list client_event * ClientManager) :=
  match e with
  | MsgHandler m => handle_message m id k
  | DisconnectedHandler => Ret (client_disconnected_closure id k)
  end.

Fixpoint client_run_handlers (id : Z) (es : list session_event) (k : ClientManager)
    : outcome (list client_event * ClientManager) :=
  match es with
  | [] => Ret ([], k)
  | e :: es =>
      let* r := client_run_handler id e k in
      let '(out, k) := r in
      let* r := client_run_handlers id es k in
      let '(out', k) := r in
      Ret (out ++ out', k)
  end.

Definition set_client_connection (h : Z) (c : client_connection) (k : ClientManager) : ClientManager :=
  mkClientManager (client_sessions_ k) (consumer_client_id_array_ k) (deliver_count_ k)
    (<[h := c]> (client_connections k)) (client_next_handle k) (client_accepting k).

(** A completion on the session with handle [h]. *)
Definition client_on_session (h : Z) (i : session_input) (k : ClientManager) : outcome (list client_event * ClientManager) :=
  match client_connections k !! h with
  | None => Ret ([], k)
  | Some c =>
      let* r := session_step i (client_session c) in
      let '(es, s) := r in
      client_run_handlers (client_id c) es
        (set_client_connection h (mkClientConnection (client_id c) s (client_written c)) k)
  end.
End Handlers.

#[export] Instance ClientManager_interface : ClientManagerInterface ClientManager := {
  has_consumers := ClientManager_has_consumers;
  deliver_one_message_round_robin := ClientManager_deliver_one_message_round_robin
}.

(** ** Round-robin delivery *)

(** Deliveries one after the other; the ids they return. *)
Fixpoint deliver_all (p : Z) (ms : list Message) (k : ClientManager) : outcome (list Z * ClientManager) :=
  match ms with
  | [] => Ret ([], k)
  | m :: ms =>
      let* r := deliver_one_message_round_robin p m k in
      let '(id, k) := r in
      let* r := deliver_all p ms k in
      let '(ids, k) := r in
      Ret (id :: ids, k)
  end.

(** The messages written to the session of a client. *)
Definition client_received (k : ClientManager) (id : Z) : option (list Message) :=
  h ← client_sessions_ k !! id; client_written <$> client_connections k !! h.

(** Every consumer of the list has a session of its own. *)
Definition sessions_ok (k : ClientManager) (clients : list Z) : Prop :=
  (forall id, id ∈ clients -> is_Some (client_received k id)) /\
  (forall id id' h, client_sessions_ k !! id = Some h -> client_sessions_ k !! id' = Some h -> id = id').

(** The clients [n] deliveries go to, after [d] earlier ones. *)
Definition turns (clients : list Z) (d : Z) (n : nat) : list Z :=
  map (fun i => nth (Z.to_nat ((d + Z.of_nat i) mod zlength clients)) clients 0) (seq 0 n).

Lemma turns_S clients d n :
  turns clients d (S n) = nth (Z.to_nat (d mod zlength clients)) clients 0 :: turns clients (d + 1) n.
Proof.
  unfold turns. simpl. rewrite Z.add_0_r. f_equal. rewrite <- (seq_shift n 0), map_map.
  apply map_ext. intros i. do 3 f_equal. lia.
Qed.

Lemma received_write k m h id :
  (forall id', client_sessions_ k !! id' = Some h -> id' = id) -> client_sessions_ k !! id = Some h ->
  forall i, client_received (client_session_write m h k) i =
    (if i =? id then (fun w => w ++ [m]) <$> client_received k i else client_received k i).
Proof.
  intros U E i. unfold client_received. simpl. destruct (client_sessions_ k !! i) as [h'|] eqn:E'; simpl.
  - rewrite lookup_alter. case_decide as D.
    + subst h'. rewrite (U i E'), Z.eqb_refl. by destruct (client_connections k !! h).
    + rewrite (proj2 (Z.eqb_neq i id)); [done|]. intros ->. congruence.
  - by destruct (i =? id).
Qed.

Lemma deliver_one_ok p m k clients d :
  consumer_client_id_array_ k !! p = Some clients -> clients <> [] ->
  map_at 0 (deliver_count_ k) p = d -> 0 <= d < INT_MAX -> sessions_ok k clients ->
  let id := nth (Z.to_nat (d mod zlength clients)) clients 0 in
  exists k', deliver_one_message_round_robin p m k = Ret (id, k') /\
    consumer_client_id_array_ k' = consumer_client_id_array_ k /\ map_at 0 (deliver_count_ k') p = d + 1 /\
    client_sessions_ k' = client_sessions_ k /\
    forall i, client_received k' i = (if i =? id then (fun w => w ++ [m]) <$> client_received k i else client_received k i).
Proof.
  intros A N D R [S U]. simpl. unfold ClientManager_deliver_one_message_round_robin. rewrite A, D.
  destruct clients as [|c0 cs]; [done|]. set (clients := c0 :: cs) in *.
  set (id := nth (Z.to_nat (d mod zlength clients)) clients 0).
  assert (L : 0 < zlength clients) by (unfold clients, zlength; simpl; lia).
  pose proof (Z.mod_pos_bound d (zlength clients) L) as B.
  rewrite (Z.mod_small d (2 ^ 64)) by (unfold INT_MAX in R; lia).
  destruct (vec_at_in_range clients (d mod zlength clients) B) as (x & -> & X). cbn [obind].
  assert (x = id) as ->. { subst id. symmetry. by apply nth_lookup_Some. }
  destruct (S id) as [w Hw]; [eapply list_elem_of_lookup_2, X|].
  unfold client_received in Hw. destruct (client_sessions_ k !! id) as [h|] eqn:Eh; [|done].
  replace (int_add d 1) with (Ret (d + 1)).
  2:{ unfold int_add, int_checked. by rewrite (proj2 (int32_spec (d + 1))) by (unfold INT_MIN, INT_MAX in *; lia). }
  cbn [obind]. eexists. split; [done|]. simpl. split_and!; try done.
  - unfold map_at. by rewrite lookup_insert_eq.
  - apply (received_write k m h id); [|done]. intros id' Hid'. by eapply U.
Qed.

(** Messages among [ms] that went to client [id]. *)
Definition share (id : Z) (ids : list Z) (ms : list Message) : list Message :=
  map snd (List.filter (fun p => p.1 =? id) (zip ids ms)).

Lemma sessions_ok_step (k k' : ClientManager) clients id m :
  sessions_ok k clients -> client_sessions_ k' = client_sessions_ k ->
  (forall i, client_received k' i = (if i =? id then (fun w => w ++ [m]) <$> client_received k i else client_received k i)) ->
  sessions_ok k' clients.
Proof.
  intros [S U] E R. split; [|by rewrite E]. intros i Hi. rewrite R. case_match; [|by apply S].
  apply fmap_is_Some. by apply S.
Qed.

(** ** Consumers and their sessions *)

Record clients_wf (k : ClientManager) : Prop := {
  clients_handles h c : client_connections k !! h = Some c -> h < client_next_handle k;
  clients_sessions id h : client_sessions_ k !! id = Some h ->
    exists c, client_connections k !! h = Some c /\ client_id c = id /\ status_ (client_session c) = CONNECTED;
  clients_current h c : client_connections k !! h = Some c -> status_ (client_session c) = CONNECTED ->
    client_sessions_ k !! client_id c = Some h;
  clients_open h c : client_connections k !! h = Some c -> status_ (client_session c) <> CLOSED;
  clients_consumers p l : consumer_client_id_array_ k !! p = Some l ->
    NoDup l /\ forall id, id ∈ l -> is_Some (client_sessions_ k !! id);
  clients_counts p : 0 <= map_at 0 (deliver_count_ k) p
}.

(** A step of a session hands over at most one event. *)
Lemma session_step_events i s es s' :
  is_close i = false -> session_step i s = Ret (es, s') ->
  (es = [] /\ status_ s' = status_ s) \/
  (es = [DisconnectedHandler] /\ status_ s <> DISCONNECTED /\ status_ s' = DISCONNECTED) \/
  (exists m, es = [MsgHandler m] /\ status_ s' = status_ s).
Proof.
  assert (D : forall s es s', disconneted s = (es, s') -> (es = [] /\ status_ s' = status_ s) \/
    (es = [DisconnectedHandler] /\ status_ s <> DISCONNECTED /\ status_ s' = DISCONNECTED)).
  { unfold disconneted. intros t e t'. case_bool_decide; intros [= <- <-]; auto. }
  intros Hc. destruct i as [[b|]|[b|]|[]|]; simpl; try done; intros H.
  - unfold on_header, read_body in H. inv_ret. split_if; inv_ret. simplify_eq. left.
    unfold decode_length in *. inv_ret. by subst.
  - unfold on_header in H. inv_ret. apply D in H. tauto.
  - unfold on_body in H. inv_ret. simplify_eq. right. right. by eexists.
  - unfold on_body in H. inv_ret. apply D in H. tauto.
  - inv_ret. apply D in H. tauto.
  - inv_ret. simplify_eq. by left.
Qed.

Section Clients.
Context `{RT : ProtobufRuntime}.

(** What the classes rely on from a client: it does not send after it was
    taken for disconnected, and it opens a partition at most once. *)
Definition polite (h : Z) (i : session_input) (k : ClientManager) : Prop :=
  forall c es s m, client_connections k !! h = Some c -> session_step i (client_session c) = Ret (es, s) ->
    MsgHandler m ∈ es -> status_ (client_session c) = CONNECTED /\
    (type (deserialize_from_message m) = CLIENT_OPEN_QUEUE ->
     client_id c ∉ map_at [] (consumer_client_id_array_ k) (partition_id (deserialize_from_message m))).

Inductive clients_reachable : ClientManager -> Prop :=
  | clients_start : clients_reachable (ClientManager_start ClientManager_new)
  | clients_accept error id k :
      clients_reachable k -> client_sessions_ k !! id = None -> clients_reachable (client_on_accept error id k)
  | clients_deliver p m id k k' :
      clients_reachable k -> deliver_one_message_round_robin p m k = Ret (id, k') -> clients_reachable k'
  | clients_session h i k out k' :
      clients_reachable k -> is_close i = false -> polite h i k ->
      client_on_session h i k = Ret (out, k') -> clients_reachable k'.

Lemma elem_of_erase id x l : x ∈ erase_first id l -> x ∈ l.
Proof.
  induction l as [|y l IH]; simpl; [done|]. destruct (y =? id); [by right|].
  intros [->|H]%elem_of_cons; [left|right; auto].
Qed.

Lemma erase_first_NoDup id l : NoDup l -> NoDup (erase_first id l) /\ id ∉ erase_first id l.
Proof.
  induction 1 as [|x l N ND IH]; simpl; [split; [constructor|apply not_elem_of_nil]|].
  destruct (Z.eqb_spec x id) as [->|NE]; [done|]. destruct IH as [I1 I2]. split.
  - constructor; [|done]. intros H%elem_of_erase. done.
  - apply not_elem_of_cons. auto.
Qed.

Lemma clients_accept_wf error id k :
  clients_wf k -> client_sessions_ k !! id = None -> clients_wf (client_on_accept error id k).
Proof.
  intros [H1 H2 H3 H4 H5 H6] F. destruct error; [split; simpl; eauto|].
  assert (N : forall h, is_Some (client_connections k !! h) -> client_next_handle k <> h).
  { intros h [c X] <-. apply H1 in X. lia. }
  split; simpl.
  - intros h c. rewrite lookup_insert. case_decide; [lia|]. intros X%H1. lia.
  - intros i h. rewrite lookup_insert. destruct (decide (id = i)) as [<-|].
    + intros [= <-]. rewrite lookup_insert_eq. eexists. done.
    + intros X%H2. destruct X as (c & X & R). rewrite lookup_insert_ne by (apply N; eauto). eauto.
  - intros h c. rewrite lookup_insert. case_decide as D.
    + intros [= <-] _. simpl. rewrite lookup_insert_eq. congruence.
    + intros X S. rewrite lookup_insert_ne; [eauto|]. intros E. specialize (H3 h c X S). congruence.
  - intros h c. rewrite lookup_insert. case_decide; [intros [= <-]; done|apply H4].
  - intros p l X. destruct (H5 p l X) as [D I]. split; [done|]. intros i Hi. rewrite lookup_insert.
    case_decide; eauto.
  - done.
Qed.

Lemma clients_deliver_wf p m id k k' :
  clients_wf k -> deliver_one_message_round_robin p m k = Ret (id, k') -> clients_wf k'.
Proof.
  intros [W1 W2 W3 W4 W5 W6] H. simpl in H. unfold ClientManager_deliver_one_message_round_robin in H.
  destruct (consumer_client_id_array_ k !! p) as [[|c0 cs]|]; [by inv_ret; simplify_eq| |by inv_ret; simplify_eq].
  inv_ret. destruct (client_sessions_ k !! x) as [h|]; [|done]. inv_ret. simplify_eq.
  assert (L : forall h' c', client_connections (client_session_write m h k) !! h' = Some c' ->
    exists c, client_connections k !! h' = Some c /\ client_id c' = client_id c /\ client_session c' = client_session c).
  { intros h' c'. simpl. rewrite lookup_alter. case_decide; [|eauto]. subst.
    destruct (client_connections k !! h') eqn:X; [|done]. intros [= <-]. eauto. }
  split; simpl.
  - intros h' c' (c & X & _)%L. eauto.
  - intros i h' X%W2. destruct X as (c & X & R). rewrite lookup_alter. case_decide; subst; rewrite X; simpl; eauto.
  - intros h' c' (c & X & E1 & E2)%L. rewrite E1, E2. eauto.
  - intros h' c' (c & X & E1 & E2)%L. rewrite E2. eauto.
  - apply W5.
  - intros q. unfold map_at. rewrite lookup_insert. case_decide; [|apply W6]. simpl. pose proof (W6 p). unfold map_at in *. lia.
Qed.

Lemma set_connection_wf h c s k :
  clients_wf k -> client_connections k !! h = Some c -> status_ s = status_ (client_session c) ->
  clients_wf (set_client_connection h (mkClientConnection (client_id c) s (client_written c)) k).
Proof.
  intros [H1 H2 H3 H4 H5 H6] X E. split; simpl; try done.
  - intros h' c'. rewrite lookup_insert. case_decide; [subst; eauto|apply H1].
  - intros i h' X'%H2. destruct X' as (c' & X' & I & C). rewrite lookup_insert. case_decide; [|eauto].
    subst. simplify_eq. eexists. split; [done|]. simpl. split; congruence.
  - intros h' c'. rewrite lookup_insert. case_decide; [|apply H3]. intros [= <-]. simpl. intros S. subst. apply H3; congruence.
  - intros h' c'. rewrite lookup_insert. case_decide; [|apply H4]. intros [= <-]. simpl. rewrite E. eauto.
Qed.

Lemma disconnect_wf h c s k out k' :
  clients_wf k -> client_connections k !! h = Some c -> status_ (client_session c) = CONNECTED ->
  status_ s = DISCONNECTED ->
  client_disconnected_closure (client_id c)
    (set_client_connection h (mkClientConnection (client_id c) s (client_written c)) k) = (out, k') ->
  clients_wf k'.
Proof.
  intros [H1 H2 H3 H4 H5 H6] X C D [= <- <-]. pose proof (H3 h c X C) as K. split; simpl; try done.
  - intros h' c'. rewrite lookup_insert. case_decide; [subst; eauto|apply H1].
  - intros i h'. rewrite lookup_delete. case_decide; [done|]. intros X'%H2. destruct X' as (c' & X' & I & S).
    rewrite lookup_insert. case_decide; [|eauto]. subst. congruence.
  - intros h' c'. rewrite lookup_insert. case_decide; [intros [= <-]; simpl; congruence|].
    intros X' S. rewrite lookup_delete_ne; [eauto|]. intros E. pose proof (H3 h' c' X' S). congruence.
  - intros h' c'. rewrite lookup_insert. case_decide; [|apply H4]. intros [= <-]. simpl. by rewrite D.
  - intros p l. rewrite lookup_fmap. destruct (consumer_client_id_array_ k !! p) as [l0|] eqn:E; [|done].
    intros [= <-]. destruct (H5 p l0 E) as [ND I]. destruct (erase_first_NoDup (client_id c) l0 ND) as [N1 N2].
    split; [done|]. intros i Hi. rewrite lookup_delete_ne by (by intros <-). apply I. by eapply elem_of_erase.
Qed.

Lemma handle_message_wf m h c k out k' :
  clients_wf k -> client_connections k !! h = Some c -> status_ (client_session c) = CONNECTED ->
  (type (deserialize_from_message m) = CLIENT_OPEN_QUEUE ->
   client_id c ∉ map_at [] (consumer_client_id_array_ k) (partition_id (deserialize_from_message m))) ->
  handle_message m (client_id c) k = Ret (out, k') -> clients_wf k'.
Proof.
  intros W X C P H. unfold handle_message in H.
  destruct (type (deserialize_from_message m)) eqn:T; inv_ret; simplify_eq; try done.
  specialize (P eq_refl). pose proof (clients_current k W h c X C) as K. destruct W as [H1 H2 H3 H4 H5 H6].
  split; simpl; try done. intros p l. rewrite lookup_insert. case_decide; [|apply H5]. intros [= <-]. subst p.
  unfold map_at in *. destruct (consumer_client_id_array_ k !! partition_id (deserialize_from_message m)) as [l|] eqn:E; simpl in *.
  - destruct (H5 _ _ E) as [ND I]. split.
    + apply NoDup_app. split_and!; [done| |apply NoDup_singleton]. intros i Hi ->%list_elem_of_singleton. done.
    + intros i [Hi| ->%list_elem_of_singleton]%elem_of_app; eauto.
  - split; [apply NoDup_singleton|]. intros i ->%list_elem_of_singleton. eauto.
Qed.

Lemma client_session_wf h i k out k' :
  clients_wf k -> is_close i = false -> polite h i k -> client_on_session h i k = Ret (out, k') -> clients_wf k'.
Proof.
  intros W Hc P H. unfold client_on_session in H.
  destruct (client_connections k !! h) as [c|] eqn:X; [|by inv_ret; simplify_eq].
  inv_ret. destruct x as [es s].
  match goal with S : session_step _ _ = _ |- _ => rename S into St end.
  destruct (session_step_events i _ es s Hc St) as [[-> E]|[(-> & N & D)|(m & -> & E)]]; simpl in H.
  - inv_ret. simplify_eq. by apply set_connection_wf.
  - injection H as <- <-. eapply disconnect_wf; try done.
    pose proof (clients_open k W h c X). by destruct (status_ (client_session c)).
  - destruct (P c [MsgHandler m] s m) as [C PO]; [done..|left|].
    inv_ret. destruct x as [o k1]. inv_ret. simplify_eq.
    match goal with HM : handle_message _ _ _ = _ |- _ => rename HM into HM end.
    eapply (handle_message_wf m h (mkClientConnection (client_id c) s (client_written c))
      (set_client_connection h (mkClientConnection (client_id c) s (client_written c)) k)); try done.
    + by apply set_connection_wf.
    + simpl. by rewrite lookup_insert_eq.
    + simpl. congruence.
Qed.

Lemma clients_reachable_wf k : clients_reachable k -> clients_wf k.
Proof.
  induction 1; eauto using clients_accept_wf, clients_deliver_wf, client_session_wf.
  split; simpl; intros *; rewrite ?lookup_empty; done.
Qed.
End Clients.

(** ** Properties *)

(** Two clients of partition 5, both connected. *)
Definition demo_clients : ClientManager :=
  mkClientManager {[ 40 := 0; 41 := 1 ]} {[ 5 := [40; 41] ]} ∅
    {[ 0 := mkClientConnection 40 (start_read Session_new) []; 1 := mkClientConnection 41 (start_read Session_new) [] ]} 2 true.

(** Deliveries take turns: [n] messages of a partition delivered one after
    the other go to its consumers in the cyclic order of the list, starting
    where earlier deliveries stopped; every call succeeds and returns the
    client it wrote to, and each client's session gets exactly its share of
    the messages, in order. *)
Theorem round_robin_delivery (p d : Z) (clients : list Z) (ms : list Message) (k : ClientManager) :
  consumer_client_id_array_ k !! p = Some clients -> clients <> [] ->
  map_at 0 (deliver_count_ k) p = d -> 0 <= d -> d + zlength ms <= INT_MAX -> sessions_ok k clients ->
  exists k', deliver_all p ms k = Ret (turns clients d (length ms), k') /\
    map_at 0 (deliver_count_ k') p = d + zlength ms /\
    forall id, client_received k' id = (fun w => w ++ share id (turns clients d (length ms)) ms) <$> client_received k id.
Proof.
  revert d k. induction ms as [|m ms IH]; intros d k A N D D0 DM S.
  { exists k. split_and!; [done|unfold zlength; simpl; lia|]. intros id. unfold share. simpl.
    destruct (client_received k id); simpl; by rewrite ?app_nil_r. }
  unfold zlength in DM. simpl length in DM. cbn [deliver_all length].
  destruct (deliver_one_ok p m k clients d) as (k1 & -> & A1 & D1 & S1 & R1); [done..|lia|done|].
  destruct (IH (d + 1) k1) as (k' & E' & D' & R'); [by rewrite A1|done..|lia|unfold zlength; lia|by eapply sessions_ok_step|].
  cbn [obind]. rewrite E'. cbn [obind]. rewrite turns_S. exists k'. split_and!; [done|unfold zlength in *; simpl; lia|].
  intros id. rewrite R', R1. unfold share. simpl. rewrite Z.eqb_sym. case_match; simpl; [|done].
  destruct (client_received k id); simpl; [|done]. by rewrite <- app_assoc.
Qed.

Lemma round_robin_delivery_witness :
  exists k', deliver_all 5 [mkMessage 1 []; mkMessage 2 []; mkMessage 3 []] demo_clients = Ret ([40; 41; 40], k') /\
    client_received k' 40 = Some [mkMessage 1 []; mkMessage 3 []].
Proof.
  destruct (round_robin_delivery 5 0 [40; 41] [mkMessage 1 []; mkMessage 2 []; mkMessage 3 []] demo_clients)
    as (k' & H1 & _ & H2).
  - reflexivity.
  - discriminate.
  - reflexivity.
  - lia.
  - unfold zlength, INT_MAX. simpl. lia.
  - split.
    + intros id [->|[->|H]%elem_of_cons]%elem_of_cons; [vm_compute; eauto..|]. by apply not_elem_of_nil in H.
    + intros id id' h. unfold demo_clients. simpl.
      rewrite !lookup_insert_Some, !lookup_singleton_Some. lia.
  - exists k'. split; [exact H1|]. rewrite H2. reflexivity.
Defined.

(** The bytes of a message arriving at the session with handle [h]. *)
Definition client_sends `{RT : ProtobufRuntime} (h : Z) (r : RaftMessage) (k : ClientManager) : outcome ClientManager :=
  let* m := serialize_as_message r in
  let* x := client_on_session h (HeaderRead (Some (take 20 (write_bytes m)))) k in
  let* y := client_on_session h (BodyRead (Some (drop 20 (write_bytes m)))) x.2 in
  Ret y.2.

Definition open_request (p : Z) : RaftMessage :=
  set_partition_id p (loadClientOpenQueueRequest
    (ClientOpenQueue_set_queue_name (str "q") (ClientOpenQueue_set_open_mode 0 ClientOpenQueue_new)) RaftMessage_new).



(** ** A client that opens a partition twice *)

Lemma client_sends_open `{LW : ProtobufLaws} h r c (k : ClientManager) :
  client_connections k !! h = Some c -> ready (client_session c) -> sendable r = true -> type r = CLIENT_OPEN_QUEUE ->
  exists s, ready s /\ status_ s = status_ (client_session c) /\
    client_sends h r k = Ret (mkClientManager (client_sessions_ k)
      (<[partition_id r := map_at [] (consumer_client_id_array_ k) (partition_id r) ++ [client_id c]]> (consumer_client_id_array_ k))
      (deliver_count_ k) (<[h := mkClientConnection (client_id c) s (client_written c)]> (client_connections k))
      (client_next_handle k) (client_accepting k)).
Proof.
  intros X Rd Hs T. destruct (sendable_size r Hs) as [_ Bd]. destruct (on_body_ok (client_session c) r Rd Hs) as (msg & OB & D & R' & St).
  destruct (sent_request r Hs) as (m & Se & _). pose proof (header_bytes_length _ (small_body _ Bd)) as Hh.
  eexists. split; [exact R'|]. split; [exact St|]. unfold client_sends. rewrite Se. cbn [obind]. rewrite serialize_as_message_eq in Se.
  rewrite (write_bytes_wire r _ m Hs Message_new_wf Se). unfold wire. rewrite take_app_length', drop_app_length' by done.
  unfold client_on_session. rewrite X. cbn [session_step]. rewrite on_header_ok by done. cbn [obind client_run_handlers snd].
  unfold set_client_connection. cbn [client_connections client_id client_session client_written]. rewrite lookup_insert_eq.
  cbn [client_session client_id client_written session_step]. rewrite OB. cbn [obind client_run_handlers client_run_handler].
  unfold handle_message. rewrite D, T.
  cbn [obind snd client_connections client_sessions_ consumer_client_id_array_ deliver_count_ client_next_handle client_accepting].
  by rewrite insert_insert_eq.
Qed.

Lemma erase_first_app c a b : c ∈ a -> erase_first c (a ++ b) = erase_first c a ++ b.
Proof.
  induction a as [|x a IH]; [by intros ?%not_elem_of_nil|]. intros H. cbn [app erase_first]. destruct (Z.eqb_spec x c) as [->|Ne]; [done|].
  cbn [app]. f_equal. apply IH. apply elem_of_cons in H as [->|H]; [done|done].
Qed.

(** Deliveries that return have not reached an entry without a session. *)
Lemma deliver_all_spares p ms (k : ClientManager) r l i c d :
  consumer_client_id_array_ k !! p = Some l -> l !! i = Some c -> client_sessions_ k !! c = None ->
  map_at 0 (deliver_count_ k) p = d -> 0 <= d <= INT_MAX -> deliver_all p ms k = Ret r ->
  forall j, 0 <= j < zlength ms -> (d + j) mod zlength l <> Z.of_nat i.
Proof.
  intros A Li N. revert k d r A N. induction ms as [|m ms IH]; intros k d r A N D Bd H j Hj; [unfold zlength in Hj; cbn in Hj; lia|].
  cbn [deliver_all] in H. apply obind_ret in H as ([id k1] & E & H). apply obind_ret in H as ([ids k2] & H & _).
  assert (L : 0 < zlength l) by (apply lookup_lt_Some in Li; unfold zlength; lia).
  cbn in E. unfold ClientManager_deliver_one_message_round_robin in E. rewrite A, D in E. destruct l as [|c0 cs]; [done|]. set (l := c0 :: cs) in *.
  rewrite (Z.mod_small d (2 ^ 64)) in E by (unfold INT_MAX in Bd; lia).
  apply obind_ret in E as (x & V & E). apply vec_at_ret in V as [_ V]. destruct (client_sessions_ k !! x) as [h|] eqn:Sx; [|done].
  apply obind_ret in E as (d' & Ad & E). apply int_add_ret in Ad as [-> Ad]. injection E as <- <-. apply int32_spec in Ad.
  destruct (decide (j = 0)) as [->|Nj].
  - rewrite Z.add_0_r. intros F. rewrite F, Nat2Z.id in V. congruence.
  - replace (d + j) with (d + 1 + (j - 1)) by lia. eapply (IH _ (d + 1) _ _ _ _ _ H); unfold zlength in *; cbn [length] in *; lia.
  Unshelve. 1: exact A. 1: exact N. 1: cbn; by rewrite map_at_insert, decide_True. 1: lia.
Qed.

Lemma client_disconnects `{RT : ProtobufRuntime} h c (k : ClientManager) :
  client_connections k !! h = Some c -> status_ (client_session c) = CONNECTED ->
  exists k', client_on_session h (HeaderRead None) k = Ret ([ClientDisconnected (client_id c)], k') /\
    client_sessions_ k' = delete (client_id c) (client_sessions_ k) /\
    consumer_client_id_array_ k' = erase_first (client_id c) <$> consumer_client_id_array_ k /\ deliver_count_ k' = deliver_count_ k.
Proof.
  intros X Cn. unfold client_on_session. rewrite X. cbn [session_step]. unfold on_header. cbn [obind]. unfold disconneted.
  rewrite bool_decide_eq_false_2 by (cbn; rewrite Cn; discriminate). cbn [obind client_run_handlers client_run_handler]. by eexists.
Qed.

(** C40: any client can take the server down: let a connected client, between two
    messages, open a partition twice and then disconnect. The disconnect closure
    forgets its session but removes only one of its two entries from the
    consumers of the partition, and then the messages of the partition cannot all
    be delivered: among any as many deliveries as there are entries in the list,
    one goes through a session pointer that is null. *)
Theorem double_open_crashes `{LW : ProtobufLaws} (h : Z) (r1 r2 : RaftMessage) (c : client_connection) (k : ClientManager) :
  client_connections k !! h = Some c -> ready (client_session c) -> status_ (client_session c) = CONNECTED ->
  sendable r1 = true -> type r1 = CLIENT_OPEN_QUEUE -> sendable r2 = true -> type r2 = CLIENT_OPEN_QUEUE -> partition_id r2 = partition_id r1 ->
  0 <= map_at 0 (deliver_count_ k) (partition_id r1) <= INT_MAX ->
  exists k' l, (let* k := client_sends h r1 k in
               let* k := client_sends h r2 k in
               let* x := client_on_session h (HeaderRead None) k in Ret x.2) = Ret k' /\
    client_sessions_ k' !! client_id c = None /\
    consumer_client_id_array_ k' !! partition_id r1 = Some l /\ client_id c ∈ l /\
    forall ms r, zlength l <= zlength ms -> deliver_all (partition_id r1) ms k' <> Ret r.
Proof.
  intros X Rd Cn S1 T1 S2 T2 P Ct. set (p := partition_id r1) in *.
  destruct (client_sends_open h r1 c k X Rd S1 T1) as (s1 & Rd1 & St1 & ->). cbn [obind].
  match goal with |- context [client_sends h r2 ?x] => set (k1 := x) end.
  assert (X1 : client_connections k1 !! h = Some (mkClientConnection (client_id c) s1 (client_written c))) by (cbn; by rewrite lookup_insert_eq).
  destruct (client_sends_open h r2 _ k1 X1 Rd1 S2 T2) as (s2 & Rd2 & St2 & ->). cbn [obind client_id client_written]. rewrite P. fold p.
  match goal with |- context [client_on_session h _ ?x] => set (k2 := x) end. cbn in St2. rewrite St1, Cn in St2.
  destruct (client_disconnects h (mkClientConnection (client_id c) s2 (client_written c)) k2) as (k' & -> & Se & A & Dc);
    [cbn; by rewrite lookup_insert_eq|exact St2|]. cbn [obind snd client_id] in *.
  set (l0 := map_at [] (consumer_client_id_array_ k) p ++ [client_id c]) in *. set (l := erase_first (client_id c) l0 ++ [client_id c]).
  assert (Al : consumer_client_id_array_ k' !! p = Some l).
  { rewrite A, lookup_fmap. unfold k2, k1. cbn [consumer_client_id_array_]. fold p. rewrite lookup_insert_eq, map_at_insert, decide_True by done.
    cbn. fold l0. rewrite erase_first_app; [done|]. apply elem_of_app. right. by left. }
  assert (Sn : client_sessions_ k' !! client_id c = None) by (rewrite Se; apply lookup_delete_eq).
  exists k', l. split; [done|]. split; [done|]. split; [done|]. split; [apply elem_of_app; right; by left|]. intros ms r L F.
  set (len := length (erase_first (client_id c) l0)).
  assert (Ln : zlength l = Z.of_nat len + 1) by (unfold l, zlength; rewrite length_app; cbn [length]; lia).
  set (d := map_at 0 (deliver_count_ k) p) in *.
  refine (deliver_all_spares p ms k' r l len (client_id c) d Al _ Sn _ Ct F ((Z.of_nat len - d) mod zlength l) _ _).
  - unfold l. by apply list_lookup_middle.
  - by rewrite Dc.
  - pose proof (Z.mod_pos_bound (Z.of_nat len - d) (zlength l) ltac:(lia)). lia.
  - rewrite Z.add_mod_idemp_r by lia. replace (d + (Z.of_nat len - d)) with (Z.of_nat len) by lia. apply Z.mod_small. lia.
Qed.

Lemma double_open_crashes_witness :
  exists k' l, (let* k := client_sends 0 (open_request 5) (client_on_accept false 40 (ClientManager_start ClientManager_new)) in
               let* k := client_sends 0 (open_request 5) k in
               let* x := client_on_session 0 (HeaderRead None) k in Ret x.2) = Ret k' /\ (40 ∈ l) /\
    forall ms r, zlength l <= zlength ms -> deliver_all 5 ms k' <> Ret r.
Proof.
  destruct (double_open_crashes 0 (open_request 5) (open_request 5) (mkClientConnection 40 (start_read Session_new) [])
    (client_on_accept false 40 (ClientManager_start ClientManager_new)) eq_refl ltac:(split; [reflexivity|by_eval]) eq_refl ltac:(by_eval) eq_refl ltac:(by_eval)
    eq_refl eq_refl ltac:(split; [reflexivity|by_eval])) as (k' & l & E & _ & _ & I & F).
  exists k', l. split; [exact E|]. split; [exact I|exact F].
Defined.

(** For a partition nobody has opened, a delivery reports success: it
    returns 1, which its caller takes for the id of the client the message went
    to (the interface promises -1 on failure), and writes nothing. *)
Theorem unknown_partition_reports_client_1 (p : Z) (m : Message) (k : ClientManager) :
  consumer_client_id_array_ k !! p = None -> deliver_one_message_round_robin p m k = Ret (1, k).
Proof. intros E. simpl. unfold ClientManager_deliver_one_message_round_robin. by rewrite E. Qed.

Lemma unknown_partition_reports_client_1_witness :
  has_consumers demo_clients = true /\
  deliver_one_message_round_robin 6 (mkMessage 1 []) demo_clients = Ret (1, demo_clients).
Proof. split; [reflexivity|]. apply unknown_partition_reports_client_1. reflexivity. Defined.
