(* ===== verification/Configuration.v ===== *)
(** * The configuration file

    [ServerConfigurationLoader] (src/src/flowmq/configuration.cpp): reading
    [key = value] lines into a [ServerConfiguration]. *)

From S2P Require Import Prelude Decimal.

Local Open Scope Z_scope.

(** [ServerPoint]: node id, host, cluster port, client port. *)
Definition ServerPoint : Type := Z * bytes * bytes * bytes.

Record ServerConfiguration := mkServerConfiguration {
  current_node : Z;
  server_nodes : list ServerPoint;
  partitions_ids : list Z
}.

#[export] Instance ServerConfiguration_eq_dec : EqDecision ServerConfiguration.
Proof. solve_decision. Defined.

Definition NEWLINE : Byte.byte := Byte.x0a.
Definition EQUALS : Byte.byte := Byte.x3d.
Definition HASH : Byte.byte := Byte.x23.

(** ** Strings *)

(** [str.find_first_not_of(' ')] and [str.find_last_not_of(' ')]; [None] is
    [npos]. *)
Fixpoint find_first_not_of (c : Byte.byte) (s : bytes) : option nat :=
  match s with
  | [] => None
  | x :: s => if bool_decide (x = c) then S <$> find_first_not_of c s else Some 0%nat
  end.

Fixpoint find_last_not_of (c : Byte.byte) (s : bytes) : option nat :=
  match s with
  | [] => None
  | x :: s => match find_last_not_of c s with
              | Some n => Some (S n)
              | None => if bool_decide (x = c) then None else Some 0%nat
              end
  end.

Fixpoint find_first_of (c : Byte.byte) (s : bytes) : option nat :=
  match s with
  | [] => None
  | x :: s => if bool_decide (x = c) then Some 0%nat else S <$> find_first_of c s
  end.

(** [strip]: for a string of spaces both searches give [npos], and [substr]
    from [npos] throws. *)
Definition strip (str : bytes) : outcome bytes :=
  match find_first_not_of SPACE str, find_last_not_of SPACE str with
  | Some start, Some stop => Ret (take (stop - start + 1) (drop start str))
  | _, _ => Fault Thrown
  end.

(** [get_key_value]: [None] where it returns false. *)
Definition get_key_value (line : bytes) : outcome (option (bytes * bytes)) :=
  match find_first_of EQUALS line with
  | None => Ret None
  | Some del =>
      let* key := strip (take del line) in
      let* value := strip (drop (del + 1) line) in
      Ret (if bool_decide (key = []) || bool_decide (value = []) then None else Some (key, value))
  end.

(** The lines [std::getline] returns: the last one may lack its newline. *)
Fixpoint getlines (s : bytes) : list bytes :=
  match s with
  | [] => []
  | x :: s' =>
      if bool_decide (x = NEWLINE) then [] :: getlines s'
      else match getlines s' with
           | l :: ls => (x :: l) :: ls
           | [] => [[x]]
           end
  end.

(** ** Loading *)

Record load_state := mkLoadState {
  load_config_ : ServerConfiguration;
  load_id : bytes;
  load_host : bytes;
  load_cluster_port : bytes;
  load_client_port : bytes
}.

Definition set_current_node (n : Z) (c : ServerConfiguration) : ServerConfiguration :=
  mkServerConfiguration n (server_nodes c) (partitions_ids c).
Definition add_server_node (p : ServerPoint) (c : ServerConfiguration) : ServerConfiguration :=
  mkServerConfiguration (current_node c) (server_nodes c ++ [p]) (partitions_ids c).
Definition add_partition (n : Z) (c : ServerConfiguration) : ServerConfiguration :=
  mkServerConfiguration (current_node c) (server_nodes c) (partitions_ids c ++ [n]).

(** The chain of comparisons on the key. *)
Definition assign_key (key value : bytes) (s : load_state) : outcome load_state :=
  let '(mkLoadState c id host cluster_port client_port) := s in
  if bool_decide (key = str "current_node") then
    let* n := stoi value in Ret (mkLoadState (set_current_node n c) id host cluster_port client_port)
  else if bool_decide (key = str "id") then Ret (mkLoadState c value host cluster_port client_port)
  else if bool_decide (key = str "host") then Ret (mkLoadState c id value cluster_port client_port)
  else if bool_decide (key = str "cluster_port") then Ret (mkLoadState c id host value client_port)
  else if bool_decide (key = str "client_port") then Ret (mkLoadState c id host cluster_port value)
  else if bool_decide (key = str "partition_id") then
    let* n := stoll value in Ret (mkLoadState (add_partition n c) id host cluster_port client_port)
  else Fault Thrown.

(** A node is complete once its four fields are there. *)
Definition flush_node (s : load_state) : outcome load_state :=
  let '(mkLoadState c id host cluster_port client_port) := s in
  if bool_decide (id = []) || bool_decide (host = []) || bool_decide (cluster_port = []) || bool_decide (client_port = [])
  then Ret s
  else let* n := stoi id in
       Ret (mkLoadState (add_server_node (n, host, cluster_port, client_port) c) [] [] [] []).

(** One round of the loop. *)
Definition load_line (line : bytes) (s : load_state) : outcome load_state :=
  if bool_decide (line = []) || bool_decide (head line = Some HASH) then Ret s
  else
    let* kv := get_key_value line in
    match kv with
    | None => Ret s
    | Some (key, value) => let* s := assign_key key value s in flush_node s
    end.

Fixpoint load_lines (ls : list bytes) (s : load_state) : outcome load_state :=
  match ls with
  | [] => Ret s
  | l :: ls => let* s := load_line l s in load_lines ls s
  end.

(** [current_node] has no initializer: [garbage] is what it holds until a line
    sets it. *)
Definition load_config (garbage : Z) (in_stream : bytes) : outcome ServerConfiguration :=
  let* s := load_lines (getlines in_stream) (mkLoadState (mkServerConfiguration garbage [] []) [] [] [] []) in
  Ret (load_config_ s).

(** ** Writing a configuration *)

Definition key_line (key : string) (value : bytes) : bytes := str key ++ str " = " ++ value.

Definition node_lines (p : ServerPoint) : list bytes :=
  let '(id, host, cluster_port, client_port) := p in
  [key_line "id" (to_string id); key_line "host" host; key_line "cluster_port" cluster_port;
   key_line "client_port" client_port].

Definition config_lines (c : ServerConfiguration) : list bytes :=
  [key_line "current_node" (to_string (current_node c))] ++ concat (map node_lines (server_nodes c)) ++
  map (fun p => key_line "partition_id" (to_string p)) (partitions_ids c).

Definition write_lines (ls : list bytes) : bytes := concat (map (fun l => l ++ [NEWLINE]) ls).

(** A value that can be written on a line: not empty, no newline, no space at
    either end. *)
Definition field_ok (v : bytes) : bool :=
  match v with
  | [] => false
  | x :: _ => negb (bool_decide (x = SPACE)) && negb (bool_decide (last v = Some SPACE)) && forallb (fun b => negb (bool_decide (b = NEWLINE))) v
  end.

Definition node_ok (p : ServerPoint) : bool :=
  let '(id, host, cluster_port, client_port) := p in
  int32 id && field_ok host && field_ok cluster_port && field_ok client_port.

Definition config_ok (c : ServerConfiguration) : bool :=
  int32 (current_node c) && forallb node_ok (server_nodes c) && forallb int64 (partitions_ids c).

(** Lines the loader skips: empty ones, comments, and those without [=]. *)
Definition skipped (line : bytes) : bool :=
  bool_decide (line = []) || bool_decide (head line = Some HASH) || bool_decide (find_first_of EQUALS line = None).

(** ** Lemmas *)

Definition no_newline (l : bytes) : bool := forallb (fun b => negb (bool_decide (b = NEWLINE))) l.

Lemma getlines_line l rest :
  no_newline l = true -> getlines (l ++ NEWLINE :: rest) = l :: getlines rest.
Proof.
  unfold no_newline. induction l as [|x l IH]; intros H.
  - cbn [app getlines]. by rewrite bool_decide_eq_true_2.
  - cbn [forallb] in H. to_prop. cbn [app getlines]. rewrite bool_decide_eq_false_2 by done. by rewrite IH.
Qed.

Lemma getlines_write ls : forallb no_newline ls = true -> getlines (write_lines ls) = ls.
Proof.
  unfold write_lines. induction ls as [|l ls IH]; intros H; [done|]. cbn [forallb] in H. to_prop.
  cbn [map concat]. rewrite <- app_assoc. cbn [app]. by rewrite getlines_line, IH.
Qed.

Lemma find_last_ok c v x : last v = Some x -> x <> c -> find_last_not_of c v = Some (length v - 1)%nat.
Proof.
  revert x. induction v as [|y v IH]; intros x L N; [done|]. cbn [find_last_not_of].
  destruct v as [|z v].
  - injection L as ->. by rewrite bool_decide_eq_false_2.
  - rewrite (IH x L N). simpl. do 2 f_equal. lia.
Qed.

Lemma strip_padded v : field_ok v = true -> strip (SPACE :: v) = Ret v.
Proof.
  destruct v as [|x v]; [done|]. intros H. unfold field_ok in H. to_prop.
  destruct (last (x :: v)) as [y|] eqn:L; [|by apply last_None in L].
  assert (LS : last (SPACE :: x :: v) = Some y) by done.
  unfold strip. rewrite (find_last_ok SPACE (SPACE :: x :: v) y) by (done || congruence).
  cbn [find_first_not_of]. rewrite bool_decide_eq_true_2, bool_decide_eq_false_2 by done.
  cbn [fmap option_fmap option_map drop]. f_equal. apply take_ge. simpl. lia.
Qed.

Definition good_key (k : string) : bool :=
  bool_decide (find_first_of EQUALS (str k ++ str " = ") = Some (length (str k) + 1)%nat) &&
  bool_decide (strip (take (length (str k) + 1) (str k ++ str " = ")) = Ret (str k)) && negb (bool_decide (str k = [])).

Lemma find_first_of_app c a b n : find_first_of c a = Some n -> find_first_of c (a ++ b) = Some n.
Proof.
  revert n. induction a as [|x a IH]; intros n; simpl; [done|]. case_bool_decide; [done|].
  destruct (find_first_of c a) as [k|]; simpl; [|done]. intros [= <-]. by rewrite (IH k).
Qed.

Lemma get_key_value_line k v : good_key k = true -> field_ok v = true -> get_key_value (key_line k v) = Ret (Some (str k, v)).
Proof.
  intros G F. unfold good_key in G. to_prop. unfold get_key_value, key_line. rewrite app_assoc.
  rewrite (find_first_of_app _ _ v _ H).
  assert (L : length (str k ++ str " = ") = (length (str k) + 3)%nat) by (by rewrite length_app).
  rewrite take_app_le by lia. rewrite H1. cbn [obind].
  rewrite drop_app_le by lia. replace (length (str k) + 1 + 1)%nat with (length (str k) + 2)%nat by lia.
  rewrite drop_app_add. change (drop 2 (str " = ")) with [SPACE]. change ([SPACE] ++ v) with (SPACE :: v).
  rewrite strip_padded by done. cbn [obind]. rewrite bool_decide_eq_false_2 by done.
  destruct v; [done|]. by rewrite bool_decide_eq_false_2.
Qed.

(** ** Written numbers are fields *)

Definition number_char (b : Byte.byte) : bool := is_digit b || bool_decide (b = MINUS).

Lemma digits_chars fuel z : 0 <= z < 10 ^ Z.of_nat (S fuel) -> forallb number_char (digits fuel z) = true.
Proof.
  revert z. induction fuel as [|fuel IH]; intros z Hz; cbn [digits].
  - simpl. unfold number_char. by rewrite is_digit_chr by lia.
  - rewrite Nat2Z.inj_succ, Z.pow_succ_r in Hz by lia. destruct (Z.ltb_spec z 10).
    + simpl. unfold number_char. by rewrite is_digit_chr by lia.
    + rewrite forallb_app. rewrite IH.
      * simpl. unfold number_char. pose proof (Z.mod_pos_bound z 10). by rewrite is_digit_chr by lia.
      * split; [apply Z.div_pos; lia|]. apply Z.div_lt_upper_bound; lia.
Qed.

Lemma to_string_chars z : int64 z = true -> forallb number_char (to_string z) = true.
Proof.
  intros H. to_prop. unfold INT64_MIN, INT64_MAX, to_string in *. destruct (Z.ltb_spec z 0).
  - cbn [forallb]. rewrite digits_chars by lia. done.
  - apply digits_chars. lia.
Qed.

Lemma chars_field_ok v : v <> [] -> forallb number_char v = true -> field_ok v = true.
Proof.
  intros N H. assert (C : forall b, b ∈ v -> b <> SPACE /\ b <> NEWLINE).
  { rewrite forallb_forall in H. intros b Hb. apply list_elem_of_In, H in Hb. split; intros ->; vm_compute in Hb; done. }
  destruct v as [|x v]; [done|]. unfold field_ok. rewrite bool_decide_eq_false_2 by (apply C; left).
  rewrite bool_decide_eq_false_2.
  - simpl negb. rewrite !andb_true_l. apply forallb_forall. intros b Hb. apply list_elem_of_In, C in Hb as [_ Hb].
    by rewrite bool_decide_eq_false_2.
  - intros L%last_Some_elem_of. by destruct (C SPACE L).
Qed.

Lemma to_string_field z : int64 z = true -> field_ok (to_string z) = true.
Proof. intros H. apply chars_field_ok; [apply to_string_nonempty|by apply to_string_chars]. Qed.

Lemma int32_int64' z : int32 z = true -> int64 z = true.
Proof. intros H. apply int64_spec. to_prop. unfold INT_MIN, INT_MAX, INT64_MIN, INT64_MAX in *. lia. Qed.

Lemma scan_int_string z : int64 z = true -> scan_int (to_string z) = (Some z, []).
Proof.
  intros H. to_prop. unfold INT64_MAX in *. rewrite <- (app_nil_r (to_string z)).
  apply scan_int_written; [unfold INT64_MIN in *; lia|done].
Qed.

Lemma stoi_string z : int32 z = true -> stoi (to_string z) = Ret z.
Proof. intros H. unfold stoi. rewrite scan_int_string by (by apply int32_int64'). simpl. by rewrite H. Qed.

Lemma stoll_string z : int64 z = true -> stoll (to_string z) = Ret z.
Proof. intros H. unfold stoll. rewrite scan_int_string by done. simpl. by rewrite H. Qed.

(** ** Loading written lines *)

Lemma load_skipped ls s :
  load_lines ls s = load_lines (List.filter (fun l => negb (skipped l)) ls) s.
Proof.
  revert s. induction ls as [|l ls IH]; intros s; [done|]. cbn [load_lines List.filter].
  destruct (skipped l) eqn:E; simpl negb; cbv iota.
  - assert (load_line l s = Ret s) as ->; [|apply IH]. unfold skipped in E. unfold load_line.
    destruct (bool_decide (l = []) || bool_decide (head l = Some HASH)); [done|]. simpl in E.
    apply bool_decide_eq_true_1 in E. unfold get_key_value. by rewrite E.
  - cbn [load_lines]. destruct (load_line l s); simpl; [apply IH|done].
Qed.

Lemma load_key_line k v s :
  good_key k = true -> field_ok v = true -> head (str k) <> Some HASH ->
  load_line (key_line k v) s = (let* s := assign_key (str k) v s in flush_node s).
Proof.
  intros G F N. unfold load_line. rewrite get_key_value_line by done.
  unfold good_key in G. to_prop. unfold key_line. destruct (str k) as [|x l]; [done|].
  rewrite !bool_decide_eq_false_2 by done. done.
Qed.

(** A state between two nodes. *)
Definition between (c : ServerConfiguration) : load_state := mkLoadState c [] [] [] [].

Section assign.
Context (c : ServerConfiguration) (id host cp kp v : bytes).
Lemma assign_id : assign_key (str "id") v (mkLoadState c id host cp kp) = Ret (mkLoadState c v host cp kp).
Proof. reflexivity. Qed.
Lemma assign_host : assign_key (str "host") v (mkLoadState c id host cp kp) = Ret (mkLoadState c id v cp kp).
Proof. reflexivity. Qed.
Lemma assign_cluster_port : assign_key (str "cluster_port") v (mkLoadState c id host cp kp) = Ret (mkLoadState c id host v kp).
Proof. reflexivity. Qed.
Lemma assign_client_port : assign_key (str "client_port") v (mkLoadState c id host cp kp) = Ret (mkLoadState c id host cp v).
Proof. reflexivity. Qed.
Lemma assign_current_node :
  assign_key (str "current_node") v (mkLoadState c id host cp kp) =
  (let* n := stoi v in Ret (mkLoadState (set_current_node n c) id host cp kp)).
Proof. reflexivity. Qed.
Lemma assign_partition_id :
  assign_key (str "partition_id") v (mkLoadState c id host cp kp) =
  (let* n := stoll v in Ret (mkLoadState (add_partition n c) id host cp kp)).
Proof. reflexivity. Qed.
Lemma flush_incomplete : id = [] \/ host = [] \/ cp = [] \/ kp = [] ->
  flush_node (mkLoadState c id host cp kp) = Ret (mkLoadState c id host cp kp).
Proof.
  intros H. unfold flush_node. destruct (_ || _) eqn:E; [done|].
  rewrite !orb_false_iff in E. destruct E as [[[E1 E2] E3] E4]. to_prop. naive_solver.
Qed.
End assign.

Lemma load_node p c :
  node_ok p = true -> load_lines (node_lines p) (between c) = Ret (between (add_server_node p c)).
Proof.
  destruct p as [[[id host] cp] kp]. intros H. unfold node_ok in H. to_prop.
  assert (FI : field_ok (to_string id) = true) by (by apply to_string_field, int32_int64', int32_spec).
  assert (NE : forall v, field_ok v = true -> v <> []) by (by intros []).
  unfold node_lines, between. cbn [load_lines].
  rewrite !load_key_line by done. rewrite assign_id. cbn [obind]. rewrite flush_incomplete by auto. cbn [obind].
  rewrite load_key_line, assign_host by done. cbn [obind]. rewrite flush_incomplete by auto. cbn [obind].
  rewrite load_key_line, assign_cluster_port by done. cbn [obind]. rewrite flush_incomplete by auto. cbn [obind].
  rewrite load_key_line, assign_client_port by done. cbn [obind flush_node].
  rewrite !bool_decide_eq_false_2 by auto. cbn [orb obind]. by rewrite stoi_string by (by apply int32_spec).
Qed.

Lemma load_lines_app a b s : load_lines (a ++ b) s = (let* s := load_lines a s in load_lines b s).
Proof.
  revert s. induction a as [|l a IH]; intros s; cbn [app load_lines]; [done|].
  destruct (load_line l s); cbn [obind]; [apply IH|done].
Qed.

Lemma load_nodes ps c :
  forallb node_ok ps = true ->
  load_lines (concat (map node_lines ps)) (between c) =
  Ret (between (mkServerConfiguration (current_node c) (server_nodes c ++ ps) (partitions_ids c))).
Proof.
  revert c. induction ps as [|p ps IH]; intros c H; cbn [map concat].
  - simpl. rewrite app_nil_r. by destruct c.
  - cbn [forallb] in H. to_prop. rewrite load_lines_app, load_node by done. cbn [obind]. rewrite IH by done.
    unfold add_server_node. cbn [current_node server_nodes partitions_ids]. by rewrite <- app_assoc.
Qed.

Lemma load_partitions ps c :
  forallb int64 ps = true ->
  load_lines (map (fun p => key_line "partition_id" (to_string p)) ps) (between c) =
  Ret (between (mkServerConfiguration (current_node c) (server_nodes c) (partitions_ids c ++ ps))).
Proof.
  revert c. induction ps as [|p ps IH]; intros c H; cbn [map].
  - simpl. rewrite app_nil_r. by destruct c.
  - cbn [forallb] in H. apply andb_true_iff in H as [Hp H]. cbn [load_lines]. unfold between.
    rewrite load_key_line, assign_partition_id by (done || by apply to_string_field).
    rewrite stoll_string by done. cbn [obind]. rewrite flush_incomplete by auto. cbn [obind].
    fold (between (add_partition p c)). rewrite IH by done.
    unfold add_partition. cbn [current_node server_nodes partitions_ids]. by rewrite <- app_assoc.
Qed.

Lemma load_config_lines garbage c :
  config_ok c = true ->
  load_lines (config_lines c) (between (mkServerConfiguration garbage [] [])) = Ret (between c).
Proof.
  unfold config_ok. intros H. apply andb_true_iff in H as [H Hp]. apply andb_true_iff in H as [Hc Hn].
  unfold config_lines. cbn [app load_lines]. unfold between at 1.
  rewrite load_key_line, assign_current_node by (done || by apply to_string_field, int32_int64').
  rewrite stoi_string by done. cbn [obind]. rewrite flush_incomplete by auto. cbn [obind].
  unfold set_current_node. cbn [server_nodes partitions_ids].
  rewrite load_lines_app. pose proof (load_nodes (server_nodes c) (mkServerConfiguration (current_node c) [] []) Hn) as LN.
  unfold between in LN. rewrite LN. cbn [obind current_node server_nodes partitions_ids app].
  pose proof (load_partitions (partitions_ids c) (mkServerConfiguration (current_node c) (server_nodes c) []) Hp) as LP.
  unfold between in LP. rewrite LP. by destruct c.
Qed.

(** ** Properties *)

(** The file of the example cluster: three nodes on one host. *)
Definition demo_config : ServerConfiguration :=
  mkServerConfiguration 1
    [(0, str "localhost", str "12", str "9000"); (1, str "localhost", str "13", str "9001");
     (2, str "10.0.0.2", str "14", str "9002")] [0; 7; -9223372036854775808].

(** C29: a configuration written as [key = value] lines loads back exactly,
    whatever [current_node] held before, and with empty lines, comments and
    lines without [=] mixed in anywhere. *)
Theorem config_roundtrip (garbage : Z) (c : ServerConfiguration) (ls : list bytes) :
  config_ok c = true -> forallb no_newline ls = true ->
  List.filter (fun l => negb (skipped l)) ls = config_lines c ->
  load_config garbage (write_lines ls) = Ret c.
Proof.
  intros Hc Hl Hf. unfold load_config. rewrite getlines_write by done. rewrite load_skipped, Hf.
  pose proof (load_config_lines garbage c Hc) as H. unfold between in H. rewrite H. done.
Qed.

Lemma config_roundtrip_witness :
  load_config 12345 (write_lines (str "# flowmq" :: config_lines demo_config ++ [[]; str "no key here"])) = Ret demo_config.
Proof. apply config_roundtrip; vm_compute; reflexivity. Defined.

(** A line whose key or value is missing does not make [get_key_value]
    return false: [strip] throws on a string of spaces, so loading fails. *)
Theorem empty_value_throws (key : bytes) (n : nat) (garbage : Z) (rest : bytes) :
  key <> [] -> head key <> Some HASH -> find_first_of EQUALS key = None -> no_newline key = true ->
  load_config garbage (key ++ [EQUALS] ++ replicate n SPACE ++ NEWLINE :: rest) = Fault Thrown.
Proof.
  intros K H F NL. unfold load_config.
  assert (NN : no_newline (key ++ [EQUALS] ++ replicate n SPACE) = true).
  { unfold no_newline in *. rewrite !forallb_app, NL. simpl. clear. by induction n. }
  replace (key ++ [EQUALS] ++ replicate n SPACE ++ NEWLINE :: rest)
    with ((key ++ [EQUALS] ++ replicate n SPACE) ++ NEWLINE :: rest) by (by rewrite <- !app_assoc).
  rewrite getlines_line by done. cbn [load_lines].
  assert (FF : find_first_of EQUALS (key ++ [EQUALS] ++ replicate n SPACE) = Some (length key)).
  { clear -F. induction key as [|x k IH]; [done|]. cbn [app find_first_of length] in *. case_bool_decide; [done|].
    destruct (find_first_of EQUALS k); [done|]. by rewrite IH. }
  assert (S : strip (replicate n SPACE) = Fault Thrown).
  { unfold strip. assert (find_first_not_of SPACE (replicate n SPACE) = None) as ->; [|done].
    clear. induction n as [|n IH]; [done|]. cbn [replicate find_first_not_of]. rewrite bool_decide_eq_true_2 by done.
    by rewrite IH. }
  unfold load_line. rewrite (bool_decide_eq_false_2 (_ = [])) by (by destruct key).
  rewrite bool_decide_eq_false_2 by (by destruct key). cbn [orb].
  unfold get_key_value. rewrite FF. rewrite drop_app_add. change (drop 1 ([EQUALS] ++ replicate n SPACE)) with (drop 0 (replicate n SPACE)). rewrite drop_0. rewrite S.
  unfold strip. repeat case_match; done.
Qed.

Lemma empty_value_throws_witness : load_config 0 (str "host=  " ++ NEWLINE :: str "id = 1") = Fault Thrown.
Proof. apply (empty_value_throws (str "host") 2); by_eval. Defined.
