(* ===== verification/ClusterNode.v ===== *)
(** * A node of a partition

    [ClusterNode] (src/src/flowmq/cluster_node.hpp and cluster_node.cpp):
    leader election, replication of the log, and the message queue it drives.
    A node is a record of the members of the class; a handler takes the node and
    the part of the [ClusterMaster] it reaches through [cluster_master_], and
    returns both or the fault it runs into. What the io_context of the node
    runs, posted handlers and timers, is part of the node: a closure that waits
    for a timer is a field, and its body is an operation.

    The node is written against the interfaces of the two managers and of the
    storage, as the class is. *)

From S2P Require Import Prelude MessageQueue WireFormat FlowTypes FlowCodec FlowCodecFacts RaftMessage LogStorage ClusterManager ClientManager Configuration.

Local Open Scope Z_scope.

(** ** Data *)

Record ClusterNodeConfig := mkClusterNodeConfig {
  config_partition_id : Z;
  config_node_id : Z;
  config_total_nodes : Z
}.

Inductive State := LEADER | FOLLOWER | CANDIDATE.

#[export] Instance State_eq_dec : EqDecision State.
Proof. solve_decision. Defined.

(** [vote_timer_] alternates between checking the heartbeat and restarting. *)
Inductive VoteTimer := CheckHeartbeat | RestartScheduler.

(** What [message_handler] and [consumer_disconnected] post. *)
Inductive node_task :=
  | HandleMessage (raft_msg : RaftMessage)
  | HandleDisconnect (client_id : Z).

Definition HEARTBEAT_EXPIRE_SECONDS : Z := 3.
Definition MAX_PENDING_APPEND : Z := 2.

(** What a node reaches through [cluster_master_]. *)
Record Master (C K : Type) := mkMaster {
  cluster_manager_p_ : C;
  client_manager_p_ : K;
  server_config_ : ServerConfiguration
}.
Arguments mkMaster {C K}.
Arguments cluster_manager_p_ {C K}.
Arguments client_manager_p_ {C K}.
Arguments server_config_ {C K}.

(** [get_address_for_node]: the host and client port of the first node with
    that id. *)
Fixpoint find_address (node_id : Z) (nodes : list ServerPoint) : bytes * bytes :=
  match nodes with
  | [] => ([], [])
  | (id, host, _, client_port) :: nodes =>
      if id =? node_id then (host, client_port) else find_address node_id nodes
  end.

Definition get_address_for_node {C K : Type} (node_id : Z) (w : Master C K) : bytes * bytes :=
  find_address node_id (server_nodes (server_config_ w)).

Section ClusterNode.
Context {St C K : Type}.
Context `{SI : ClusterNodeStorageInterface St, CI : ClusterManagerInterface C, KI : ClientManagerInterface K,
  RT : ProtobufRuntime}.

Record ClusterNode := mkClusterNode {
  partition_id_ : Z;
  node_id_ : Z;
  total_nodes_ : Z;
  io_context_ : list node_task;
  state_ : State;
  vote_timer_ : VoteTimer;
  heartbeat_timer_ : bool;
  stats_timer_ : bool;
  vote_delays_ : nat;
  cur_term_ : Z;
  cur_leader_ : Z;
  last_heart_beat_received_ : Z;
  votes_collected_ : Z;
  voted_for_ : Z;
  log_entries_ : list LogEntry;
  commit_index_ : Z;
  last_applied_ : Z;
  next_index_ : gmap Z Z;
  matched_index_ : gmap Z Z;
  pending_append_reqs_ : gmap Z Z;
  cluster_node_storage_p_ : St;
  message_queue_ : MessageQueue
}.

Definition set_io_context_ (v : list node_task) (n : ClusterNode) : ClusterNode :=
  mkClusterNode (partition_id_ n) (node_id_ n) (total_nodes_ n) v (state_ n) (vote_timer_ n) (heartbeat_timer_ n)
    (stats_timer_ n) (vote_delays_ n) (cur_term_ n) (cur_leader_ n) (last_heart_beat_received_ n)
    (votes_collected_ n) (voted_for_ n) (log_entries_ n) (commit_index_ n) (last_applied_ n)
    (next_index_ n) (matched_index_ n) (pending_append_reqs_ n) (cluster_node_storage_p_ n)
    (message_queue_ n).
Definition set_state_ (v : State) (n : ClusterNode) : ClusterNode :=
  mkClusterNode (partition_id_ n) (node_id_ n) (total_nodes_ n) (io_context_ n) v (vote_timer_ n) (heartbeat_timer_
    n) (stats_timer_ n) (vote_delays_ n) (cur_term_ n) (cur_leader_ n) (last_heart_beat_received_ n)
    (votes_collected_ n) (voted_for_ n) (log_entries_ n) (commit_index_ n) (last_applied_ n)
    (next_index_ n) (matched_index_ n) (pending_append_reqs_ n) (cluster_node_storage_p_ n)
    (message_queue_ n).
Definition set_vote_timer_ (v : VoteTimer) (n : ClusterNode) : ClusterNode :=
  mkClusterNode (partition_id_ n) (node_id_ n) (total_nodes_ n) (io_context_ n) (state_ n) v (heartbeat_timer_ n)
    (stats_timer_ n) (vote_delays_ n) (cur_term_ n) (cur_leader_ n) (last_heart_beat_received_ n)
    (votes_collected_ n) (voted_for_ n) (log_entries_ n) (commit_index_ n) (last_applied_ n)
    (next_index_ n) (matched_index_ n) (pending_append_reqs_ n) (cluster_node_storage_p_ n)
    (message_queue_ n).
Definition set_heartbeat_timer_ (v : bool) (n : ClusterNode) : ClusterNode :=
  mkClusterNode (partition_id_ n) (node_id_ n) (total_nodes_ n) (io_context_ n) (state_ n) (vote_timer_ n) v
    (stats_timer_ n) (vote_delays_ n) (cur_term_ n) (cur_leader_ n) (last_heart_beat_received_ n)
    (votes_collected_ n) (voted_for_ n) (log_entries_ n) (commit_index_ n) (last_applied_ n)
    (next_index_ n) (matched_index_ n) (pending_append_reqs_ n) (cluster_node_storage_p_ n)
    (message_queue_ n).
Definition set_stats_timer_ (v : bool) (n : ClusterNode) : ClusterNode :=
  mkClusterNode (partition_id_ n) (node_id_ n) (total_nodes_ n) (io_context_ n) (state_ n) (vote_timer_ n)
    (heartbeat_timer_ n) v (vote_delays_ n) (cur_term_ n) (cur_leader_ n) (last_heart_beat_received_ n)
    (votes_collected_ n) (voted_for_ n) (log_entries_ n) (commit_index_ n) (last_applied_ n)
    (next_index_ n) (matched_index_ n) (pending_append_reqs_ n) (cluster_node_storage_p_ n)
    (message_queue_ n).
Definition set_vote_delays_ (v : nat) (n : ClusterNode) : ClusterNode :=
  mkClusterNode (partition_id_ n) (node_id_ n) (total_nodes_ n) (io_context_ n) (state_ n) (vote_timer_ n)
    (heartbeat_timer_ n) (stats_timer_ n) v (cur_term_ n) (cur_leader_ n) (last_heart_beat_received_ n)
    (votes_collected_ n) (voted_for_ n) (log_entries_ n) (commit_index_ n) (last_applied_ n)
    (next_index_ n) (matched_index_ n) (pending_append_reqs_ n) (cluster_node_storage_p_ n)
    (message_queue_ n).
Definition set_cur_term_ (v : Z) (n : ClusterNode) : ClusterNode :=
  mkClusterNode (partition_id_ n) (node_id_ n) (total_nodes_ n) (io_context_ n) (state_ n) (vote_timer_ n)
    (heartbeat_timer_ n) (stats_timer_ n) (vote_delays_ n) v (cur_leader_ n) (last_heart_beat_received_
    n) (votes_collected_ n) (voted_for_ n) (log_entries_ n) (commit_index_ n) (last_applied_ n)
    (next_index_ n) (matched_index_ n) (pending_append_reqs_ n) (cluster_node_storage_p_ n)
    (message_queue_ n).
Definition set_cur_leader_ (v : Z) (n : ClusterNode) : ClusterNode :=
  mkClusterNode (partition_id_ n) (node_id_ n) (total_nodes_ n) (io_context_ n) (state_ n) (vote_timer_ n)
    (heartbeat_timer_ n) (stats_timer_ n) (vote_delays_ n) (cur_term_ n) v (last_heart_beat_received_ n)
    (votes_collected_ n) (voted_for_ n) (log_entries_ n) (commit_index_ n) (last_applied_ n)
    (next_index_ n) (matched_index_ n) (pending_append_reqs_ n) (cluster_node_storage_p_ n)
    (message_queue_ n).
Definition set_last_heart_beat_received_ (v : Z) (n : ClusterNode) : ClusterNode :=
  mkClusterNode (partition_id_ n) (node_id_ n) (total_nodes_ n) (io_context_ n) (state_ n) (vote_timer_ n)
    (heartbeat_timer_ n) (stats_timer_ n) (vote_delays_ n) (cur_term_ n) (cur_leader_ n) v
    (votes_collected_ n) (voted_for_ n) (log_entries_ n) (commit_index_ n) (last_applied_ n)
    (next_index_ n) (matched_index_ n) (pending_append_reqs_ n) (cluster_node_storage_p_ n)
    (message_queue_ n).
Definition set_votes_collected_ (v : Z) (n : ClusterNode) : ClusterNode :=
  mkClusterNode (partition_id_ n) (node_id_ n) (total_nodes_ n) (io_context_ n) (state_ n) (vote_timer_ n)
    (heartbeat_timer_ n) (stats_timer_ n) (vote_delays_ n) (cur_term_ n) (cur_leader_ n)
    (last_heart_beat_received_ n) v (voted_for_ n) (log_entries_ n) (commit_index_ n) (last_applied_ n)
    (next_index_ n) (matched_index_ n) (pending_append_reqs_ n) (cluster_node_storage_p_ n)
    (message_queue_ n).
Definition set_voted_for_ (v : Z) (n : ClusterNode) : ClusterNode :=
  mkClusterNode (partition_id_ n) (node_id_ n) (total_nodes_ n) (io_context_ n) (state_ n) (vote_timer_ n)
    (heartbeat_timer_ n) (stats_timer_ n) (vote_delays_ n) (cur_term_ n) (cur_leader_ n)
    (last_heart_beat_received_ n) (votes_collected_ n) v (log_entries_ n) (commit_index_ n)
    (last_applied_ n) (next_index_ n) (matched_index_ n) (pending_append_reqs_ n)
    (cluster_node_storage_p_ n) (message_queue_ n).
Definition set_log_entries_ (v : list LogEntry) (n : ClusterNode) : ClusterNode :=
  mkClusterNode (partition_id_ n) (node_id_ n) (total_nodes_ n) (io_context_ n) (state_ n) (vote_timer_ n)
    (heartbeat_timer_ n) (stats_timer_ n) (vote_delays_ n) (cur_term_ n) (cur_leader_ n)
    (last_heart_beat_received_ n) (votes_collected_ n) (voted_for_ n) v (commit_index_ n) (last_applied_
    n) (next_index_ n) (matched_index_ n) (pending_append_reqs_ n) (cluster_node_storage_p_ n)
    (message_queue_ n).
Definition set_commit_index_ (v : Z) (n : ClusterNode) : ClusterNode :=
  mkClusterNode (partition_id_ n) (node_id_ n) (total_nodes_ n) (io_context_ n) (state_ n) (vote_timer_ n)
    (heartbeat_timer_ n) (stats_timer_ n) (vote_delays_ n) (cur_term_ n) (cur_leader_ n)
    (last_heart_beat_received_ n) (votes_collected_ n) (voted_for_ n) (log_entries_ n) v (last_applied_
    n) (next_index_ n) (matched_index_ n) (pending_append_reqs_ n) (cluster_node_storage_p_ n)
    (message_queue_ n).
Definition set_next_index_ (v : gmap Z Z) (n : ClusterNode) : ClusterNode :=
  mkClusterNode (partition_id_ n) (node_id_ n) (total_nodes_ n) (io_context_ n) (state_ n) (vote_timer_ n)
    (heartbeat_timer_ n) (stats_timer_ n) (vote_delays_ n) (cur_term_ n) (cur_leader_ n)
    (last_heart_beat_received_ n) (votes_collected_ n) (voted_for_ n) (log_entries_ n) (commit_index_ n)
    (last_applied_ n) v (matched_index_ n) (pending_append_reqs_ n) (cluster_node_storage_p_ n)
    (message_queue_ n).
Definition set_matched_index_ (v : gmap Z Z) (n : ClusterNode) : ClusterNode :=
  mkClusterNode (partition_id_ n) (node_id_ n) (total_nodes_ n) (io_context_ n) (state_ n) (vote_timer_ n)
    (heartbeat_timer_ n) (stats_timer_ n) (vote_delays_ n) (cur_term_ n) (cur_leader_ n)
    (last_heart_beat_received_ n) (votes_collected_ n) (voted_for_ n) (log_entries_ n) (commit_index_ n)
    (last_applied_ n) (next_index_ n) v (pending_append_reqs_ n) (cluster_node_storage_p_ n)
    (message_queue_ n).
Definition set_pending_append_reqs_ (v : gmap Z Z) (n : ClusterNode) : ClusterNode :=
  mkClusterNode (partition_id_ n) (node_id_ n) (total_nodes_ n) (io_context_ n) (state_ n) (vote_timer_ n)
    (heartbeat_timer_ n) (stats_timer_ n) (vote_delays_ n) (cur_term_ n) (cur_leader_ n)
    (last_heart_beat_received_ n) (votes_collected_ n) (voted_for_ n) (log_entries_ n) (commit_index_ n)
    (last_applied_ n) (next_index_ n) (matched_index_ n) v (cluster_node_storage_p_ n) (message_queue_
    n).
Definition set_cluster_node_storage_p_ (v : St) (n : ClusterNode) : ClusterNode :=
  mkClusterNode (partition_id_ n) (node_id_ n) (total_nodes_ n) (io_context_ n) (state_ n) (vote_timer_ n)
    (heartbeat_timer_ n) (stats_timer_ n) (vote_delays_ n) (cur_term_ n) (cur_leader_ n)
    (last_heart_beat_received_ n) (votes_collected_ n) (voted_for_ n) (log_entries_ n) (commit_index_ n)
    (last_applied_ n) (next_index_ n) (matched_index_ n) (pending_append_reqs_ n) v (message_queue_ n).
Definition set_message_queue_ (v : MessageQueue) (n : ClusterNode) : ClusterNode :=
  mkClusterNode (partition_id_ n) (node_id_ n) (total_nodes_ n) (io_context_ n) (state_ n) (vote_timer_ n)
    (heartbeat_timer_ n) (stats_timer_ n) (vote_delays_ n) (cur_term_ n) (cur_leader_ n)
    (last_heart_beat_received_ n) (votes_collected_ n) (voted_for_ n) (log_entries_ n) (commit_index_ n)
    (last_applied_ n) (next_index_ n) (matched_index_ n) (pending_append_reqs_ n)
    (cluster_node_storage_p_ n) v.

Abbreviation master := (Master C K).
Abbreviation node_state := (ClusterNode * master)%type.

(** ** Sending *)

Definition serialize_raft_message (raft_message : RaftMessage) (n : ClusterNode) : outcome Message :=
  serialize_as_message (set_partition_id (partition_id_ n) raft_message).

(** [cluster_manager()->write_message(id, serialize_raft_message(msg))]. *)
Definition send_to (id : Z) (msg : RaftMessage) (s : node_state) : outcome node_state :=
  let '(n, w) := s in
  let* m := serialize_raft_message msg n in
  Ret (n, mkMaster (write_message id m (cluster_manager_p_ w)) (client_manager_p_ w) (server_config_ w)).

(** [cluster_manager()->broad_cast(serialize_raft_message(msg))]. *)
Definition send_all (msg : RaftMessage) (s : node_state) : outcome node_state :=
  let '(n, w) := s in
  let* m := serialize_raft_message msg n in
  Ret (n, mkMaster (broad_cast m (cluster_manager_p_ w)) (client_manager_p_ w) (server_config_ w)).

(** [client_manager()->deliver_one_message_round_robin(partition_id_,
    serialize_raft_message(msg))]. *)
Definition deliver_client (msg : RaftMessage) (s : node_state) : outcome (Z * node_state) :=
  let '(n, w) := s in
  let* m := serialize_raft_message msg n in
  let* r := deliver_one_message_round_robin (partition_id_ n) m (client_manager_p_ w) in
  let '(id, k) := r in
  Ret (id, (n, mkMaster (cluster_manager_p_ w) k (server_config_ w))).

(** ** The log *)

Definition check_if_previous_log_in_sync (prev_log_term prev_log_index : Z) (n : ClusterNode) : outcome bool :=
  let* next := int_add prev_log_index 1 in
  if to_int (zlength (log_entries_ n)) <? next then Ret false
  else
    let* e := vec_at (log_entries_ n) prev_log_index in
    Ret (LogEntry_term e =? prev_log_term).

(** [erase] from a position on; one outside the vector is undefined. *)
Definition clean_log_entries_out_of_sync (index_to_remove : Z) (log : list LogEntry) : outcome (list LogEntry) :=
  if (0 <=? index_to_remove) && (index_to_remove <=? zlength log)
  then Ret (take (Z.to_nat index_to_remove) log)
  else Fault OutOfRange.

(** The loop of [append_log_entries] from round [i] on. *)
Fixpoint append_loop (i last_log_index : Z) (new_entries log : list LogEntry) : outcome (list LogEntry) :=
  match new_entries with
  | [] => Ret log
  | e :: new_entries =>
      let* x := int_add i last_log_index in
      let* index_in_log_entries := int_add x 1 in
      let* log :=
        if to_int (zlength log) - 1 <? index_in_log_entries then Ret (log ++ [e])
        else
          let* old := vec_at log index_in_log_entries in
          if LogEntry_term old =? LogEntry_term e then Ret log
          else
            let* log := clean_log_entries_out_of_sync index_in_log_entries log in
            Ret (log ++ [e]) in
      append_loop (i + 1) last_log_index new_entries log
  end.

Definition append_log_entries (last_log_index : Z) (new_entries : list LogEntry) (n : ClusterNode) : outcome ClusterNode :=
  let* log := append_loop 0 last_log_index new_entries (log_entries_ n) in
  Ret (set_log_entries_ log n).

(** ** The message queue *)

Definition commit_log_entry (entry_index : Z) (n : ClusterNode) : outcome ClusterNode :=
  if entry_index <=? 0 then Ret n
  else if to_int (zlength (log_entries_ n)) <=? entry_index then Ret n
  else
    let* e := vec_at (log_entries_ n) entry_index in
    if LogEntry_operation e =? LogEntry_ADD then
      Ret (set_message_queue_ (insert_message (LogEntry_message_id e) (LogEntry_message e) (message_queue_ n)).2 n)
    else if LogEntry_operation e =? LogEntry_COMMIT then
      Ret (set_message_queue_ (commit_message (LogEntry_message_id e) (message_queue_ n)).2 n)
    else Ret n.

(** The loop of [trigger_message_delivery]; it stops where the client manager
    returns -1. *)
Fixpoint delivery_loop (ids : list Z) (s : node_state) : outcome node_state :=
  match ids with
  | [] => Ret s
  | message_id :: ids =>
      let '(n, w) := s in
      let '(message, q) := get_message message_id (message_queue_ n) in
      let n := set_message_queue_ q n in
      let send := ServerSendMessage_set_message message
                    (ServerSendMessage_set_message_id message_id ServerSendMessage_new) in
      let* r := deliver_client (loadServerSendMessageRequest send RaftMessage_new) (n, w) in
      let '(consumer_id, (n, w)) := r in
      if consumer_id =? -1 then Ret (n, w)
      else
        let n := set_message_queue_ (deliver_message_to_client_id message_id consumer_id (message_queue_ n)).2 n in
        delivery_loop ids (n, w)
  end.

Definition trigger_message_delivery (s : node_state) : outcome node_state :=
  let '(n, w) := s in
  if negb (bool_decide (state_ n = LEADER)) then Ret s
  else if negb (has_consumers (client_manager_p_ w)) then Ret s
  else delivery_loop (get_all_undelivered_messages [] (message_queue_ n)).2 s.

(** The [while] loop of [commit_log_entries]; it runs [stop - start] rounds. *)
Fixpoint commit_loop (rounds : nat) (start_entry_index : Z) (n : ClusterNode) : outcome ClusterNode :=
  match rounds with
  | O => Ret n
  | S rounds =>
      let* n := commit_log_entry start_entry_index n in
      commit_loop rounds (start_entry_index + 1) n
  end.

Definition commit_log_entries (start_entry_index stop_entry_index : Z) (s : node_state) : outcome node_state :=
  let '(n, w) := s in
  let* n := commit_loop (Z.to_nat (stop_entry_index - start_entry_index)) start_entry_index n in
  trigger_message_delivery (n, w).

(** [cluster_node_storage_p_->store_log_entries_and_metadata(log_entries_, ...)]. *)
Definition store_entries (start stop : Z) (md : LogEntryMetaData) (n : ClusterNode) : outcome ClusterNode :=
  let* st := store_log_entries_and_metadata (log_entries_ n) start stop md (cluster_node_storage_p_ n) in
  Ret (set_cluster_node_storage_p_ st n).

(** ** Replication *)

Definition trigger_entry_update (follower_id : Z) (s : node_state) : outcome node_state :=
  let '(n, w) := s in
  let index_to_send := map_at 0 (next_index_ n) follower_id in
  let n := set_next_index_ (map_touch 0 (next_index_ n) follower_id) n in
  if (1 <=? index_to_send) && (index_to_send <=? to_int (zlength (log_entries_ n)) - 1) then
    let prev_index := index_to_send - 1 in
    let* prev := vec_at (log_entries_ n) prev_index in
    let* entry := vec_at (log_entries_ n) index_to_send in
    let req := AppendEntriesRequest_set_leader_commit (commit_index_ n)
      (AppendEntriesRequest_set_entries [LogEntry_CopyFrom entry LogEntry_new]
      (AppendEntriesRequest_set_prev_log_term (LogEntry_term prev)
      (AppendEntriesRequest_set_prev_log_index prev_index
      (AppendEntriesRequest_set_leader_id (node_id_ n)
      (AppendEntriesRequest_set_term (cur_term_ n) AppendEntriesRequest_new))))) in
    let pending := map_at 0 (pending_append_reqs_ n) follower_id in
    let n := set_pending_append_reqs_ (map_touch 0 (pending_append_reqs_ n) follower_id) n in
    if pending <? MAX_PENDING_APPEND then
      let* s := send_to follower_id (loadAppendEntriesRequest req RaftMessage_new) (n, w) in
      let '(n, w) := s in
      Ret (set_pending_append_reqs_ (<[follower_id := pending + 1]> (pending_append_reqs_ n)) n, w)
    else Ret (n, w)
  else Ret (n, w).

Fixpoint update_followers (followers : list Z) (s : node_state) : outcome node_state :=
  match followers with
  | [] => Ret s
  | f :: followers => let* s := trigger_entry_update f s in update_followers followers s
  end.

Definition add_log_entry (entry : LogEntry) (s : node_state) : outcome node_state :=
  let '(n, w) := s in
  let n := set_log_entries_ (log_entries_ n ++ [entry]) n in
  update_followers (map fst (map_iter (next_index_ n))) (n, w).

(** ** The timers *)

(** [start_send_hearbeat], [start_vote_scheduler] and
    [start_statistics_scheduler] arm their timers. *)
Definition start_send_hearbeat (n : ClusterNode) : ClusterNode := set_heartbeat_timer_ true n.
Definition start_vote_scheduler (n : ClusterNode) : ClusterNode := set_vote_timer_ CheckHeartbeat n.
Definition start_statistics_scheduler (n : ClusterNode) : ClusterNode := set_stats_timer_ true n.

(** [pending_append_reqs_[i]++] for every other node. *)
Fixpoint count_heartbeats (nodes : list Z) (node_id : Z) (m : gmap Z Z) : outcome (gmap Z Z) :=
  match nodes with
  | [] => Ret m
  | i :: nodes =>
      if i =? node_id then count_heartbeats nodes node_id m
      else
        let* c := int_add (map_at 0 m i) 1 in
        count_heartbeats nodes node_id (<[i := c]> m)
  end.

(** [for (int i = 0; i < total_nodes_; ++i)]. *)
Definition node_ids (total_nodes : Z) : list Z := seqZ 0 total_nodes.

Definition on_heartbeat_timer (s : node_state) : outcome node_state :=
  let '(n, w) := s in
  let* s :=
    if bool_decide (state_ n = LEADER) then
      let* e := vec_back (log_entries_ n) in
      let last_log_term := LogEntry_term e in
      let last_log_index := LogEntry_index e in
      let req := AppendEntriesRequest_set_leader_commit (commit_index_ n)
        (AppendEntriesRequest_set_prev_log_term last_log_term
        (AppendEntriesRequest_set_prev_log_index last_log_index
        (AppendEntriesRequest_set_leader_id (node_id_ n)
        (AppendEntriesRequest_set_term (cur_term_ n) AppendEntriesRequest_new)))) in
      let* s := send_all (loadAppendEntriesRequest req RaftMessage_new) s in
      let '(n, w) := s in
      let* m := count_heartbeats (node_ids (total_nodes_ n)) (node_id_ n) (pending_append_reqs_ n) in
      Ret (set_pending_append_reqs_ m n, w)
    else Ret s in
  let '(n, w) := s in
  Ret (start_send_hearbeat n, w).

(** The first closure of the vote timer; [now] is what [std::time] returned. *)
Definition on_vote_timer (now : Z) (n : ClusterNode) : outcome ClusterNode :=
  let n := if bool_decide (state_ n = FOLLOWER) && (last_heart_beat_received_ n + HEARTBEAT_EXPIRE_SECONDS + 2 <? now)
           then set_state_ CANDIDATE n else n in
  let* n :=
    if bool_decide (state_ n = CANDIDATE) then
      let* t := int_add (cur_term_ n) 1 in
      let n := set_votes_collected_ 0 (set_voted_for_ (-1) (set_cur_term_ t n)) in
      Ret (set_vote_delays_ (S (vote_delays_ n)) n)
    else Ret n in
  Ret (set_vote_timer_ RestartScheduler n).

(** The closure of the random delay, [n > 0] of which are waiting. *)
Definition on_vote_delay (s : node_state) : outcome node_state :=
  let '(n, w) := s in
  let n := set_vote_delays_ (Nat.pred (vote_delays_ n)) n in
  if negb (voted_for_ n =? -1) then Ret (n, w)
  else
    let* e := vec_back (log_entries_ n) in
    let last_log_term := LogEntry_term e in
    let last_log_index := LogEntry_index e in
    let req := RequestVoteRequest_set_last_log_term last_log_term
      (RequestVoteRequest_set_last_log_index last_log_index
      (RequestVoteRequest_set_candidate_id (node_id_ n)
      (RequestVoteRequest_set_term (cur_term_ n) RequestVoteRequest_new))) in
    let* votes := int_add (votes_collected_ n) 1 in
    let n := set_votes_collected_ votes (set_voted_for_ (node_id_ n) n) in
    send_all (loadVoteRequest req RaftMessage_new) (n, w).

(** The statistics are only printed. *)
Definition on_stats_timer (n : ClusterNode) : ClusterNode := start_statistics_scheduler n.

(** ** Messages *)

Definition append_response (success last_index : Z) (n : ClusterNode) : RaftMessage :=
  loadAppendEntriesResponse
    (AppendEntriesResponse_set_last_index_synced last_index
    (AppendEntriesResponse_set_append_result_success success
    (AppendEntriesResponse_set_follower_id (node_id_ n)
    (AppendEntriesResponse_set_term (cur_term_ n) AppendEntriesResponse_new)))) RaftMessage_new.

(** The updates a request of a current leader makes before the log is looked
    at. *)
Definition accept_leader (now : Z) (req : AppendEntriesRequest) (n : ClusterNode) : ClusterNode :=
  let n := if bool_decide (state_ n = CANDIDATE) ||
              (bool_decide (state_ n = LEADER) && (cur_term_ n <? AppendEntriesRequest_term req))
           then set_state_ FOLLOWER n else n in
  let n := set_last_heart_beat_received_ now n in
  let n := set_cur_term_ (AppendEntriesRequest_term req) n in
  set_cur_leader_ (AppendEntriesRequest_leader_id req) n.

(** The block that follows the leader's commit index; its guard keeps the two
    additions in range. *)
Definition follow_leader_commit (leader_commit : Z) (s : node_state) : outcome node_state :=
  let '(n, w) := s in
  if (commit_index_ n <? leader_commit) && (leader_commit <? to_int (zlength (log_entries_ n))) then
    let* s := commit_log_entries (commit_index_ n + 1) (leader_commit + 1) (n, w) in
    let '(n, w) := s in
    let n := set_commit_index_ leader_commit n in
    let* n := store_entries (commit_index_ n) (leader_commit + 1) (mkLogEntryMetaData (commit_index_ n)) n in
    Ret (n, w)
  else Ret s.

(** APPEND_ENTRIES_REQUEST. *)
Definition handle_append_request (now : Z) (req : AppendEntriesRequest) (s : node_state) : outcome node_state :=
  let '(n, w) := s in
  if AppendEntriesRequest_term req <? cur_term_ n then
    let n := set_cur_leader_ (-1) n in
    send_to (AppendEntriesRequest_leader_id req) (append_response 0 (-1) n) (n, w)
  else
    let n := accept_leader now req n in
    let* in_sync := check_if_previous_log_in_sync (AppendEntriesRequest_prev_log_term req)
        (AppendEntriesRequest_prev_log_index req) n in
    if negb in_sync then
      send_to (AppendEntriesRequest_leader_id req) (append_response 0 (-1) n) (n, w)
    else
      let* s := follow_leader_commit (AppendEntriesRequest_leader_commit req) (n, w) in
      let '(n, w) := s in
      let* n := append_log_entries (AppendEntriesRequest_prev_log_index req) (AppendEntriesRequest_entries req) n in
      let* e := vec_back (log_entries_ n) in
      send_to (AppendEntriesRequest_leader_id req) (append_response 1 (LogEntry_index e) n) (n, w).

(** Followers whose matched index reaches [index]. *)
Definition count_synced (index : Z) (m : gmap Z Z) : Z :=
  zlength (List.filter (fun p => index <=? p.2) (map_iter m)).

(** The block of APPEND_ENTRIES_RESPONSE that advances the commit index. *)
Definition advance_commit (last_index_synced : Z) (s : node_state) : outcome node_state :=
  let '(n, w) := s in
  if commit_index_ n <? last_index_synced then
    if total_nodes_ n ÷ 2 <? count_synced last_index_synced (matched_index_ n) + 1 then
      let* stop := int_add last_index_synced 1 in
      let* s := commit_log_entries (commit_index_ n + 1) stop (n, w) in
      let '(n, w) := s in
      let n := set_commit_index_ (Z.max (commit_index_ n) last_index_synced) n in
      let* n := store_entries (commit_index_ n) stop (mkLogEntryMetaData (commit_index_ n)) n in
      Ret (n, w)
    else Ret s
  else Ret s.

(** APPEND_ENTRIES_RESPONSE. *)
Definition handle_append_response (resp : AppendEntriesResponse) (s : node_state) : outcome node_state :=
  let '(n, w) := s in
  let follower_id := AppendEntriesResponse_follower_id resp in
  let last_index_synced := AppendEntriesResponse_last_index_synced resp in
  let* d := int_sub (map_at 0 (pending_append_reqs_ n) follower_id) 1 in
  let n := set_pending_append_reqs_ (<[follower_id := Z.max 0 d]> (pending_append_reqs_ n)) n in
  let* s :=
    if negb (AppendEntriesResponse_append_result_success resp =? 0) then
      let n := set_matched_index_ (<[follower_id := last_index_synced]> (matched_index_ n)) n in
      let* s := advance_commit last_index_synced (n, w) in
      let '(n, w) := s in
      let* next := int_add (map_at 0 (matched_index_ n) follower_id) 1 in
      Ret (set_next_index_ (<[follower_id := next]> (next_index_ n)) n, w)
    else if cur_term_ n <? AppendEntriesResponse_term resp then
      Ret (set_cur_term_ (AppendEntriesResponse_term resp) n, w)
    else
      let* next := int_sub (map_at 0 (next_index_ n) follower_id) 1 in
      Ret (set_next_index_ (<[follower_id := Z.max 1 next]> (next_index_ n)) n, w) in
  trigger_entry_update follower_id s.

Definition vote_response (request_term granted : Z) : RaftMessage :=
  loadVoteResult
    (RequestVoteResponse_set_vote_result_term_granted granted
    (RequestVoteResponse_set_term request_term RequestVoteResponse_new)) RaftMessage_new.

(** REQUEST_VOTE_REQUEST. *)
Definition handle_vote_request (req : RequestVoteRequest) (s : node_state) : outcome node_state :=
  let '(n, w) := s in
  let candidate_node_id := RequestVoteRequest_candidate_id req in
  let request_term := RequestVoteRequest_term req in
  let invalid_request :=
    (request_term <? cur_term_ n) ||
    ((request_term =? cur_term_ n) && negb (voted_for_ n =? -1) && negb (voted_for_ n =? candidate_node_id)) in
  if invalid_request then send_to candidate_node_id (vote_response request_term 0) (n, w)
  else
    let n := if cur_term_ n <? request_term
             then set_votes_collected_ 0 (set_cur_term_ request_term n) else n in
    if bool_decide (state_ n = CANDIDATE) || bool_decide (state_ n = FOLLOWER) then
      let n := set_voted_for_ candidate_node_id n in
      send_to candidate_node_id (vote_response request_term 1) (n, w)
    else Ret (n, w).

(** REQUEST_VOTE_RESPONSE. *)
Definition handle_vote_response (resp : RequestVoteResponse) (n : ClusterNode) : outcome ClusterNode :=
  if bool_decide (state_ n = LEADER) then Ret n
  else if bool_decide (state_ n = FOLLOWER) then Ret n
  else if RequestVoteResponse_vote_result_term_granted resp =? 0 then Ret n
  else if RequestVoteResponse_term resp <? cur_term_ n then Ret n
  else
    let* n := if RequestVoteResponse_vote_result_term_granted resp =? 1
              then let* v := int_add (votes_collected_ n) 1 in Ret (set_votes_collected_ v n)
              else Ret n in
    if total_nodes_ n ÷ 2 <? votes_collected_ n
    then Ret (set_cur_term_ (RequestVoteResponse_term resp) (set_state_ LEADER n))
    else Ret n.

(** The entry CLIENT_PUT_MESSAGE and CLIENT_COMMIT_MESSAGE add. *)
Definition new_entry (operation message_id : Z) (message : bytes) (n : ClusterNode) : LogEntry :=
  LogEntry_set_message message
  (LogEntry_set_operation operation
  (LogEntry_set_message_id message_id
  (LogEntry_set_term (cur_term_ n)
  (LogEntry_set_index (to_int (zlength (log_entries_ n))) LogEntry_new)))).

(** CLIENT_PUT_MESSAGE; [random_id] is what [rand_dis_(gen_)] returned. *)
Definition handle_put_message (random_id : Z) (req : ClientPutMessage) (s : node_state) : outcome node_state :=
  let '(n, w) := s in
  if negb (bool_decide (state_ n = LEADER)) then Ret s
  else add_log_entry (new_entry LogEntry_ADD random_id (ClientPutMessage_message req) n) s.

(** CLIENT_OPEN_QUEUE. *)
Definition handle_open_queue (s : node_state) : outcome node_state :=
  let '(n, w) := s in
  if negb (bool_decide (state_ n = LEADER)) then
    let leader_address := get_address_for_node (cur_leader_ n) w in
    let resp := ClientOpenQueueResponse_set_leader_port leader_address.2
      (ClientOpenQueueResponse_set_leader_ip leader_address.1
      (ClientOpenQueueResponse_set_error_message (str "Node is not leader.")
      (ClientOpenQueueResponse_set_status ERROR ClientOpenQueueResponse_new))) in
    let* r := deliver_client (loadClientOpenQueueResponse resp RaftMessage_new) s in
    Ret r.2
  else
    let resp := ClientOpenQueueResponse_set_error_message []
      (ClientOpenQueueResponse_set_status SUCCESS ClientOpenQueueResponse_new) in
    let* r := deliver_client (loadClientOpenQueueResponse resp RaftMessage_new) s in
    trigger_message_delivery r.2.

(** CLIENT_COMMIT_MESSAGE. *)
Definition handle_commit_message (req : ClientCommitMessage) (s : node_state) : outcome node_state :=
  let '(n, w) := s in
  if negb (bool_decide (state_ n = LEADER)) then Ret s
  else add_log_entry (new_entry LogEntry_COMMIT (ClientCommitMessage_message_id req) [] n) s.

Definition local_message_handler (now random_id : Z) (raft_msg : RaftMessage) (s : node_state) : outcome node_state :=
  match type raft_msg with
  | APPEND_ENTRIES_REQUEST => handle_append_request now (get_append_request raft_msg) s
  | APPEND_ENTRIES_RESPONSE => handle_append_response (get_append_response raft_msg) s
  | REQUEST_VOTE_REQUEST => handle_vote_request (get_vote_request raft_msg) s
  | REQUEST_VOTE_RESPONSE =>
      let* n := handle_vote_response (get_vote_response raft_msg) s.1 in Ret (n, s.2)
  | CLIENT_PUT_MESSAGE => handle_put_message random_id (get_put_message_request raft_msg) s
  | CLIENT_OPEN_QUEUE => handle_open_queue s
  | CLIENT_COMMIT_MESSAGE => handle_commit_message (get_commit_message_request raft_msg) s
  | _ => Ret s
  end.

(** ** Posting to the io_context *)

Definition message_handler (msg : Message) (n : ClusterNode) : ClusterNode :=
  set_io_context_ (io_context_ n ++ [HandleMessage (deserialize_from_message msg)]) n.

Definition consumer_disconnected (client_id : Z) (n : ClusterNode) : ClusterNode :=
  set_io_context_ (io_context_ n ++ [HandleDisconnect client_id]) n.

(** The closure [consumer_disconnected] posts. *)
Definition handle_disconnect (client_id : Z) (s : node_state) : outcome node_state :=
  let '(n, w) := s in
  trigger_message_delivery
    (set_message_queue_ (handle_client_disconnected client_id (message_queue_ n)).2 n, w).

(** The next posted closure runs. *)
Definition run_posted_task (now random_id : Z) (s : node_state) : outcome node_state :=
  let '(n, w) := s in
  match io_context_ n with
  | [] => Ret s
  | HandleMessage m :: ts => local_message_handler now random_id m (set_io_context_ ts n, w)
  | HandleDisconnect id :: ts => handle_disconnect id (set_io_context_ ts n, w)
  end.

(** ** Construction *)

Definition dummy_entry : LogEntry :=
  LogEntry_set_message [] (LogEntry_set_operation 0 (LogEntry_set_index 0 (LogEntry_set_term 0 LogEntry_new))).

(** [for (int i = 0; i < total_nodes_; ++i)], with [m[i] = v] for the others. *)
Definition init_index (total_nodes node_id v : Z) : gmap Z Z :=
  foldl (fun m i => if i =? node_id then m else <[i := v]> m) ∅ (node_ids total_nodes).

(** [last_heart_beat_received_] and [votes_collected_] have no initializer:
    [garbage_time] and [garbage_votes] are what they hold. *)
Definition ClusterNode_new (config : ClusterNodeConfig) (storage : St) (garbage_time garbage_votes : Z) : outcome ClusterNode :=
  let n := mkClusterNode (config_partition_id config) (config_node_id config) (config_total_nodes config) []
    CANDIDATE CheckHeartbeat false false O 0 (-1) garbage_time garbage_votes (-1) [] 0 0
    (init_index (config_total_nodes config) (config_node_id config) 1)
    (init_index (config_total_nodes config) (config_node_id config) 0) ∅ storage MessageQueue_new in
  let n := set_log_entries_ (log_entries_ n ++ [dummy_entry]) n in
  let* _ := check_if_previous_log_in_sync 0 0 n in
  let n := start_statistics_scheduler (start_send_hearbeat (start_vote_scheduler n)) in
  let* r := load_log_entry_from_file (cluster_node_storage_p_ n) (log_entries_ n) in
  let n := set_log_entries_ r.2 n in
  let* n := commit_loop (Z.to_nat (to_int (zlength (log_entries_ n)) - 1)) 1 n in
  let '(rc, metadata) := load_metadata_from_file (cluster_node_storage_p_ n) (mkLogEntryMetaData 0) in
  Ret (if rc =? 0 then set_commit_index_ (last_committed metadata) n else n).

(** ** Steps

    What the io_context of the node runs, one closure at a time. *)

Inductive node_event :=
  | TaskRuns (now random_id : Z)
  | HeartbeatTimer
  | VoteTimerFires (now : Z)
  | VoteDelay
  | StatsTimer.

(** A closure that is not waiting does not run. *)
Definition node_step (e : node_event) (s : node_state) : outcome node_state :=
  let '(n, w) := s in
  match e with
  | TaskRuns now random_id => run_posted_task now random_id s
  | HeartbeatTimer => if heartbeat_timer_ n then on_heartbeat_timer s else Ret s
  | VoteTimerFires now =>
      match vote_timer_ n with
      | CheckHeartbeat => let* n := on_vote_timer now n in Ret (n, w)
      | RestartScheduler => Ret (start_vote_scheduler n, w)
      end
  | VoteDelay => match vote_delays_ n with O => Ret s | S _ => on_vote_delay s end
  | StatsTimer => Ret (if stats_timer_ n then on_stats_timer n else n, w)
  end.

End ClusterNode.
Arguments ClusterNode : clear implicits.

(** Conversion unfolds the sends last: what they do to the buffers is settled
    by the lemmas of [RaftMessage]. *)
#[global] Strategy 100 [serialize_as_message] 90 [serialize_raft_message] 80 [send_to send_all deliver_client].
