(* ===== verification/ClusterNodeFacts.v ===== *)
(** * What each operation of a node changes

    Frame lemmas for the operations of [ClusterNode]: the members an operation
    leaves alone, in a form that composes. *)

From S2P Require Import Prelude MessageQueue WireFormat FlowTypes FlowCodec FlowCodecFacts RaftMessage LogStorage ClusterManager ClientManager Configuration ClusterNode.

Local Open Scope Z_scope.

Section Frames.
Context {St C K : Type}.
Context `{SI : ClusterNodeStorageInterface St, CI : ClusterManagerInterface C, KI : ClientManagerInterface K,
  RT : ProtobufRuntime}.
Abbreviation node := (ClusterNode St).
Abbreviation state := (node * Master C K)%type.

(** Only the message queue differs. *)
Definition same_but_queue (n n' : node) : Prop := exists q, n' = set_message_queue_ q n.

(** Only the replication maps differ. *)
Definition same_but_replication (n n' : node) : Prop :=
  exists p x, n' = set_pending_append_reqs_ p (set_next_index_ x n).

(** The commit index, the queue and the storage may differ. *)
Definition same_but_commit (n n' : node) : Prop :=
  exists st i q, n' = set_cluster_node_storage_p_ st (set_commit_index_ i (set_message_queue_ q n)).

Lemma same_but_queue_refl n : same_but_queue n n.
Proof. exists (message_queue_ n). by destruct n. Qed.

Lemma same_but_queue_set n q : same_but_queue n (set_message_queue_ q n).
Proof. by exists q. Qed.

Lemma set_queue_twice (n : node) q q' : set_message_queue_ q (set_message_queue_ q' n) = set_message_queue_ q n.
Proof. done. Qed.

Lemma same_but_queue_trans n1 n2 n3 : same_but_queue n1 n2 -> same_but_queue n2 n3 -> same_but_queue n1 n3.
Proof. intros [q ->] [q' ->]. exists q'. apply set_queue_twice. Qed.

Lemma same_but_replication_refl n : same_but_replication n n.
Proof. exists (pending_append_reqs_ n), (next_index_ n). by destruct n. Qed.

Lemma set_replication_twice (n : node) p x p' x' :
  set_pending_append_reqs_ p' (set_next_index_ x' (set_pending_append_reqs_ p (set_next_index_ x n))) =
  set_pending_append_reqs_ p' (set_next_index_ x' n).
Proof. done. Qed.

Lemma set_pending_twice (n : node) p p' :
  set_pending_append_reqs_ p (set_pending_append_reqs_ p' n) = set_pending_append_reqs_ p n.
Proof. done. Qed.

Lemma same_but_replication_trans n1 n2 n3 :
  same_but_replication n1 n2 -> same_but_replication n2 n3 -> same_but_replication n1 n3.
Proof. intros (p & x & ->) (p' & x' & ->). exists p', x'. apply set_replication_twice. Qed.

Lemma same_but_commit_refl n : same_but_commit n n.
Proof. exists (cluster_node_storage_p_ n), (commit_index_ n), (message_queue_ n). by destruct n. Qed.

Lemma send_to_node id m (n n' : node) (w w' : Master C K) : send_to id m (n, w) = Ret (n', w') -> n' = n.
Proof. unfold send_to. intros H. inv_ret. congruence. Qed.

Lemma send_all_node m (n n' : node) (w w' : Master C K) : send_all m (n, w) = Ret (n', w') -> n' = n.
Proof. unfold send_all. intros H. inv_ret. congruence. Qed.

Lemma deliver_client_node m id (n n' : node) (w w' : Master C K) :
  deliver_client m (n, w) = Ret (id, (n', w')) -> n' = n /\ cluster_manager_p_ w' = cluster_manager_p_ w.
Proof. unfold deliver_client. intros H. inv_ret. destruct x0. inv_ret. by simplify_eq. Qed.

(** A message that is sent is one request to the cluster manager. *)
Lemma send_to_requested id m (n n' : node) (w w' : Master C K) :
  send_to id m (n, w) = Ret (n', w') ->
  exists b, serialize_raft_message m n = Ret b /\ cluster_manager_p_ w' = request (cluster_manager_p_ w) (ToNode id b).
Proof. unfold send_to. intros H. inv_ret. simplify_eq. by eexists. Qed.

Lemma send_all_requested m (n n' : node) (w w' : Master C K) :
  send_all m (n, w) = Ret (n', w') ->
  exists b, serialize_raft_message m n = Ret b /\ cluster_manager_p_ w' = request (cluster_manager_p_ w) (ToAll b).
Proof. unfold send_all. intros H. inv_ret. simplify_eq. by eexists. Qed.

(** The message delivered for an id. *)
Definition delivery_message (id : Z) (m : bytes) : RaftMessage :=
  loadServerSendMessageRequest (ServerSendMessage_set_message m
    (ServerSendMessage_set_message_id id ServerSendMessage_new)) RaftMessage_new.

Lemma delivery_loop_cons i ids (n : node) (w : Master C K) :
  delivery_loop (i :: ids) (n, w) =
  (let* r := deliver_client (delivery_message i (get_message i (message_queue_ n)).1)
      (set_message_queue_ (get_message i (message_queue_ n)).2 n, w) in
   if r.1 =? -1 then Ret r.2
   else delivery_loop ids
     (set_message_queue_ (deliver_message_to_client_id i r.1 (message_queue_ r.2.1)).2 r.2.1, r.2.2)).
Proof.
  cbn [delivery_loop]. unfold delivery_message. destruct (get_message i (message_queue_ n)) as [m q].
  cbn [fst snd]. destruct (deliver_client _ _) as [[c [n1 w1]]|]; [|reflexivity]. cbn [obind fst snd].
  destruct (c =? -1); reflexivity.
Qed.

Lemma delivery_loop_queue ids (n n' : node) (w w' : Master C K) :
  delivery_loop ids (n, w) = Ret (n', w') ->
  same_but_queue n n' /\ cluster_manager_p_ w' = cluster_manager_p_ w.
Proof.
  revert n w. induction ids as [|i ids IH]; intros n w H.
  { injection H as <- <-. split; [apply same_but_queue_refl|done]. }
  rewrite delivery_loop_cons in H. apply obind_ret in H as ([cid [n1 w1]] & D & H).
  apply deliver_client_node in D as [-> D]. cbn [fst snd] in H. destruct (cid =? -1).
  - injection H as <- <-. split; [apply same_but_queue_set|done].
  - apply IH in H as [H1 H2]. split; [|congruence].
    eapply same_but_queue_trans; [apply same_but_queue_set|].
    eapply same_but_queue_trans; [apply same_but_queue_set|exact H1].
Qed.

Lemma trigger_message_delivery_queue (n n' : node) (w w' : Master C K) :
  trigger_message_delivery (n, w) = Ret (n', w') ->
  same_but_queue n n' /\ cluster_manager_p_ w' = cluster_manager_p_ w.
Proof.
  unfold trigger_message_delivery. intros H. repeat split_if; inv_ret; simplify_eq;
    eauto using same_but_queue_refl, delivery_loop_queue.
Qed.

Lemma commit_log_entry_queue i (n n' : node) : commit_log_entry i n = Ret n' -> same_but_queue n n'.
Proof.
  unfold commit_log_entry. intros H. repeat split_if; inv_ret; subst;
    auto using same_but_queue_refl, same_but_queue_set; repeat split_if; inv_ret; subst;
    auto using same_but_queue_refl, same_but_queue_set.
Qed.

Lemma commit_loop_queue r i (n n' : node) : commit_loop r i n = Ret n' -> same_but_queue n n'.
Proof.
  revert i n. induction r as [|r IH]; intros i n H; cbn [commit_loop] in H; inv_ret.
  - subst. apply same_but_queue_refl.
  - eapply same_but_queue_trans; [by eapply commit_log_entry_queue|eauto].
Qed.

Lemma commit_log_entries_queue i j (n n' : node) (w w' : Master C K) :
  commit_log_entries i j (n, w) = Ret (n', w') ->
  same_but_queue n n' /\ cluster_manager_p_ w' = cluster_manager_p_ w.
Proof.
  unfold commit_log_entries. intros H. inv_ret. apply trigger_message_delivery_queue in H as [H1 H2].
  split; [|done]. eapply same_but_queue_trans; [by eapply commit_loop_queue|done].
Qed.

(** The request [trigger_entry_update] builds. *)
Definition entry_request (n : node) (prev_index : Z) (prev entry : LogEntry) : AppendEntriesRequest :=
  AppendEntriesRequest_set_leader_commit (commit_index_ n)
    (AppendEntriesRequest_set_entries [LogEntry_CopyFrom entry LogEntry_new]
    (AppendEntriesRequest_set_prev_log_term (LogEntry_term prev)
    (AppendEntriesRequest_set_prev_log_index prev_index
    (AppendEntriesRequest_set_leader_id (node_id_ n)
    (AppendEntriesRequest_set_term (cur_term_ n) AppendEntriesRequest_new))))).

(** The node with the entries [operator[]] inserts. *)
Definition touch_next (f : Z) (n : node) : node := set_next_index_ (map_touch 0 (next_index_ n) f) n.
Definition touch_pending (f : Z) (n : node) : node := set_pending_append_reqs_ (map_touch 0 (pending_append_reqs_ n) f) n.

Lemma trigger_entry_update_eq f (n : node) (w : Master C K) :
  trigger_entry_update f (n, w) =
  let i := map_at 0 (next_index_ n) f in
  if (1 <=? i) && (i <=? to_int (zlength (log_entries_ n)) - 1) then
    let* prev := vec_at (log_entries_ n) (i - 1) in
    let* entry := vec_at (log_entries_ n) i in
    if map_at 0 (pending_append_reqs_ n) f <? MAX_PENDING_APPEND then
      let* s := send_to f (loadAppendEntriesRequest (entry_request n (i - 1) prev entry) RaftMessage_new)
                  (touch_pending f (touch_next f n), w) in
      Ret (set_pending_append_reqs_ (<[f := map_at 0 (pending_append_reqs_ n) f + 1]> (pending_append_reqs_ s.1)) s.1, s.2)
    else Ret (touch_pending f (touch_next f n), w)
  else Ret (touch_next f n, w).
Proof.
  destruct n. unfold trigger_entry_update, touch_pending, touch_next, entry_request. cbn -[send_to].
  destruct (_ && _); [|reflexivity]. destruct (vec_at _ _); [|reflexivity]. cbn [obind].
  destruct (vec_at _ _); [|reflexivity]. cbn [obind]. destruct (_ <? _); [|reflexivity].
  match goal with |- context [send_to ?a ?b ?c] => destruct (send_to a b c) as [[n1 w1]|] end; reflexivity.
Qed.

Lemma touch_next_frame f n : same_but_replication n (touch_next f n).
Proof. exists (pending_append_reqs_ n), (map_touch 0 (next_index_ n) f). destruct n. reflexivity. Qed.

Lemma touch_next_pending_frame f n p : same_but_replication n (set_pending_append_reqs_ p (touch_next f n)).
Proof. exists p, (map_touch 0 (next_index_ n) f). reflexivity. Qed.

Lemma touch_both_frame f n p : same_but_replication n (set_pending_append_reqs_ p (touch_pending f (touch_next f n))).
Proof. unfold touch_pending. rewrite set_pending_twice. apply touch_next_pending_frame. Qed.

Lemma touch_pending_frame f n : same_but_replication n (touch_pending f (touch_next f n)).
Proof. unfold touch_pending. apply touch_next_pending_frame. Qed.

Lemma trigger_entry_update_frame f (n n' : node) (w w' : Master C K) :
  trigger_entry_update f (n, w) = Ret (n', w') -> same_but_replication n n'.
Proof.
  rewrite trigger_entry_update_eq. generalize (map_at 0 (next_index_ n) f). intros i. cbv zeta.
  destruct ((1 <=? i) && _) eqn:G; [|intros [= <- <-]; apply touch_next_frame].
  intros H. apply obind_ret in H as (prev & P & H). apply obind_ret in H as (entry & E & H).
  destruct (_ <? MAX_PENDING_APPEND); [|injection H as H _; rewrite <- H; exact (touch_pending_frame f n)].
  apply obind_ret in H as ([n2 w2] & D & H). apply send_to_node in D. subst n2.
  cbn [fst snd] in H. injection H as H _. rewrite <- H. apply touch_both_frame.
Qed.

(** Either nothing is sent, or the entry at the follower's next index is. *)
Lemma trigger_entry_update_cases f (n n' : node) (w w' : Master C K) :
  trigger_entry_update f (n, w) = Ret (n', w') ->
  w' = w \/
  exists prev entry, let i := map_at 0 (next_index_ n) f in
    1 <= i <= to_int (zlength (log_entries_ n)) - 1 /\
    log_entries_ n !! Z.to_nat (i - 1) = Some prev /\ log_entries_ n !! Z.to_nat i = Some entry /\
    send_to f (loadAppendEntriesRequest (entry_request n (i - 1) prev entry) RaftMessage_new)
      (touch_pending f (touch_next f n), w) = Ret (touch_pending f (touch_next f n), w').
Proof.
  rewrite trigger_entry_update_eq. generalize (map_at 0 (next_index_ n) f). intros i. cbv zeta.
  destruct ((1 <=? i) && _) eqn:G; [|intros [= <- <-]; auto].
  intros H. apply obind_ret in H as (prev & P & H). apply obind_ret in H as (entry & E & H).
  apply vec_at_ret in P as [_ P]. apply vec_at_ret in E as [_ E].
  destruct (_ <? MAX_PENDING_APPEND); [|injection H as <- <-; auto].
  apply obind_ret in H as ([n2 w2] & D & H). pose proof (send_to_node _ _ _ _ _ _ D) as ->.
  cbn [fst snd] in H. injection H as <- <-. right. exists prev, entry.
  apply andb_true_iff in G as [G1%Z.leb_le G2%Z.leb_le].
  split; [split; assumption|]. split; [exact P|]. split; [exact E|]. exact D.
Qed.

Lemma update_followers_frame fs (n n' : node) (w w' : Master C K) :
  update_followers fs (n, w) = Ret (n', w') -> same_but_replication n n'.
Proof.
  revert n w. induction fs as [|f fs IH]; intros n w H; cbn [update_followers] in H.
  - injection H as <- <-. apply same_but_replication_refl.
  - apply obind_ret in H as ([n1 w1] & D & H). eapply same_but_replication_trans; [by eapply trigger_entry_update_frame|eauto].
Qed.

Lemma add_log_entry_frame e (n n' : node) (w w' : Master C K) :
  add_log_entry e (n, w) = Ret (n', w') -> same_but_replication (set_log_entries_ (log_entries_ n ++ [e]) n) n'.
Proof. unfold add_log_entry. apply update_followers_frame. Qed.

(** What [advance_commit] does: nothing, or commit up to [l]. *)
Lemma advance_commit_cases l (n n' : node) (w w' : Master C K) :
  advance_commit l (n, w) = Ret (n', w') ->
  (n' = n /\ w' = w) \/
  (commit_index_ n < l /\ total_nodes_ n ÷ 2 < count_synced l (matched_index_ n) + 1 /\
   exists n1 n2, commit_log_entries (commit_index_ n + 1) (l + 1) (n, w) = Ret (n1, w') /\
     n2 = set_commit_index_ l n1 /\ store_entries l (l + 1) (mkLogEntryMetaData l) n2 = Ret n').
Proof.
  unfold advance_commit. intros H.
  destruct (commit_index_ n <? l) eqn:G1; [|injection H as <- <-; by left].
  destruct (total_nodes_ n ÷ 2 <? _) eqn:G2; [|injection H as <- <-; by left].
  apply obind_ret in H as (stop & E & H). apply int_add_ret in E as [-> _].
  apply obind_ret in H as ([n1 w1] & D & H). apply obind_ret in H as (n2 & S & H). injection H as <- <-.
  to_prop. right. split_and!; [done..|].
  pose proof (commit_log_entries_queue _ _ _ _ _ _ D) as [[q Q] _].
  assert (CI1 : commit_index_ n1 = commit_index_ n) by (by rewrite Q).
  cbn [commit_index_ set_commit_index_] in S. rewrite CI1, Z.max_r in S by lia. eauto.
Qed.

Lemma store_entries_frame i j md (n n' : node) :
  store_entries i j md n = Ret n' ->
  exists st, n' = set_cluster_node_storage_p_ st n /\
    store_log_entries_and_metadata (log_entries_ n) i j md (cluster_node_storage_p_ n) = Ret st.
Proof. unfold store_entries. intros H. apply obind_ret in H as (st & E & H). injection H as <-. eauto. Qed.

Lemma advance_commit_frame l (n n' : node) (w w' : Master C K) :
  advance_commit l (n, w) = Ret (n', w') ->
  same_but_commit n n' /\ cluster_manager_p_ w' = cluster_manager_p_ w /\
  (commit_index_ n' = commit_index_ n \/ (commit_index_ n < l /\ commit_index_ n' = l)).
Proof.
  intros [[-> ->]|(L & _ & n1 & n2 & D & -> & S)]%advance_commit_cases;
    [split_and!; auto using same_but_commit_refl|].
  apply commit_log_entries_queue in D as [[q ->] M]. apply store_entries_frame in S as (st & -> & _).
  split_and!; [by exists st, l, q|done|right; done].
Qed.

Lemma accept_leader_frame now req (n : node) :
  exists st, accept_leader now req n =
    set_cur_leader_ (AppendEntriesRequest_leader_id req) (set_cur_term_ (AppendEntriesRequest_term req)
      (set_last_heart_beat_received_ now (set_state_ st n))) /\
    (st = FOLLOWER \/ (st = state_ n /\ state_ n <> CANDIDATE)).
Proof.
  unfold accept_leader. destruct (_ || _) eqn:E; [exists FOLLOWER; auto|].
  exists (state_ n). to_prop. split; [by destruct n|right; done].
Qed.

(** What follows the leader's commit index: nothing, or commit up to it. *)
Lemma follow_leader_commit_cases l (n n' : node) (w w' : Master C K) :
  follow_leader_commit l (n, w) = Ret (n', w') ->
  (n' = n /\ w' = w) \/
  (commit_index_ n < l < to_int (zlength (log_entries_ n)) /\
   exists n1 n2, commit_log_entries (commit_index_ n + 1) (l + 1) (n, w) = Ret (n1, w') /\
     n2 = set_commit_index_ l n1 /\ store_entries l (l + 1) (mkLogEntryMetaData l) n2 = Ret n').
Proof.
  unfold follow_leader_commit. intros H.
  destruct (_ && _) eqn:G; [|injection H as <- <-; by left].
  apply obind_ret in H as ([n1 w1] & D & H). apply obind_ret in H as (n2 & S & H). injection H as <- <-.
  apply andb_true_iff in G as [G1%Z.ltb_lt G2%Z.ltb_lt]. right. split; [done|]. eauto.
Qed.

Lemma follow_leader_commit_frame l (n n' : node) (w w' : Master C K) :
  follow_leader_commit l (n, w) = Ret (n', w') ->
  same_but_commit n n' /\ cluster_manager_p_ w' = cluster_manager_p_ w /\
  (commit_index_ n' = commit_index_ n \/ (commit_index_ n < l /\ commit_index_ n' = l)).
Proof.
  intros [[-> ->]|([L _] & n1 & n2 & D & -> & S)]%follow_leader_commit_cases;
    [split_and!; auto using same_but_commit_refl|].
  apply commit_log_entries_queue in D as [[q ->] M]. apply store_entries_frame in S as (st & -> & _).
  split_and!; [by exists st, l, q|done|right; done].
Qed.

(** The three ways an append request ends: a stale term, a log that is not in
    sync, or success. *)
Inductive append_request_result (now : Z) (req : AppendEntriesRequest) (n : node) (w : Master C K) :
    node -> Master C K -> Prop :=
  | append_stale w' :
      AppendEntriesRequest_term req < cur_term_ n ->
      send_to (AppendEntriesRequest_leader_id req) (append_response 0 (-1) (set_cur_leader_ (-1) n))
        (set_cur_leader_ (-1) n, w) = Ret (set_cur_leader_ (-1) n, w') ->
      append_request_result now req n w (set_cur_leader_ (-1) n) w'
  | append_out_of_sync w' :
      cur_term_ n <= AppendEntriesRequest_term req ->
      check_if_previous_log_in_sync (AppendEntriesRequest_prev_log_term req)
        (AppendEntriesRequest_prev_log_index req) (accept_leader now req n) = Ret false ->
      send_to (AppendEntriesRequest_leader_id req) (append_response 0 (-1) (accept_leader now req n))
        (accept_leader now req n, w) = Ret (accept_leader now req n, w') ->
      append_request_result now req n w (accept_leader now req n) w'
  | append_success n1 w1 n2 e w' :
      cur_term_ n <= AppendEntriesRequest_term req ->
      check_if_previous_log_in_sync (AppendEntriesRequest_prev_log_term req)
        (AppendEntriesRequest_prev_log_index req) (accept_leader now req n) = Ret true ->
      follow_leader_commit (AppendEntriesRequest_leader_commit req) (accept_leader now req n, w) = Ret (n1, w1) ->
      append_log_entries (AppendEntriesRequest_prev_log_index req) (AppendEntriesRequest_entries req) n1 = Ret n2 ->
      last (log_entries_ n2) = Some e ->
      send_to (AppendEntriesRequest_leader_id req) (append_response 1 (LogEntry_index e) n2) (n2, w1) = Ret (n2, w') ->
      append_request_result now req n w n2 w'.

Lemma handle_append_request_cases now req (n n' : node) (w w' : Master C K) :
  handle_append_request now req (n, w) = Ret (n', w') -> append_request_result now req n w n' w'.
Proof.
  unfold handle_append_request. intros H.
  destruct (AppendEntriesRequest_term req <? cur_term_ n) eqn:T.
  { apply Z.ltb_lt in T. pose proof (send_to_node _ _ _ _ _ _ H) as ->. by apply append_stale. }
  apply Z.ltb_ge in T. apply obind_ret in H as (b & E & H). destruct b; cbn [negb] in H.
  - apply obind_ret in H as ([n1 w1] & F & H). apply obind_ret in H as (n2 & A & H).
    apply obind_ret in H as (e & L & H). apply vec_back_ret in L.
    pose proof (send_to_node _ _ _ _ _ _ H) as ->. by eapply append_success.
  - pose proof (send_to_node _ _ _ _ _ _ H) as ->. by apply append_out_of_sync.
Qed.

(** The ways an append response ends, before the follower is updated. *)
Inductive append_response_result (resp : AppendEntriesResponse) (n : node) (w : Master C K) :
    node -> Master C K -> Prop :=
  | response_success p n1 w1 x :
      AppendEntriesResponse_append_result_success resp <> 0 ->
      advance_commit (AppendEntriesResponse_last_index_synced resp)
        (set_matched_index_ (<[AppendEntriesResponse_follower_id resp := AppendEntriesResponse_last_index_synced resp]>
           (matched_index_ n)) (set_pending_append_reqs_ p n), w) = Ret (n1, w1) ->
      append_response_result resp n w (set_next_index_ x n1) w1
  | response_term p :
      AppendEntriesResponse_append_result_success resp = 0 -> cur_term_ n < AppendEntriesResponse_term resp ->
      append_response_result resp n w (set_cur_term_ (AppendEntriesResponse_term resp) (set_pending_append_reqs_ p n)) w
  | response_retry p x :
      AppendEntriesResponse_append_result_success resp = 0 -> AppendEntriesResponse_term resp <= cur_term_ n ->
      append_response_result resp n w (set_next_index_ x (set_pending_append_reqs_ p n)) w.

Lemma handle_append_response_cases resp (n n' : node) (w w' : Master C K) :
  handle_append_response resp (n, w) = Ret (n', w') ->
  exists n1 w1, append_response_result resp n w n1 w1 /\
    trigger_entry_update (AppendEntriesResponse_follower_id resp) (n1, w1) = Ret (n', w').
Proof.
  unfold handle_append_response. intros H.
  apply obind_ret in H as (d & _ & H). apply obind_ret in H as ([n1 w1] & R & H). exists n1, w1. split; [|done].
  clear H. destruct (AppendEntriesResponse_append_result_success resp =? 0) eqn:S; cbn [negb] in R.
  - apply Z.eqb_eq in S. cbn [cur_term_ set_pending_append_reqs_] in R.
    destruct (cur_term_ n <? AppendEntriesResponse_term resp) eqn:T.
    + apply Z.ltb_lt in T. injection R as <- <-. by apply response_term.
    + apply Z.ltb_ge in T. apply obind_ret in R as (x & _ & R). injection R as <- <-. by apply response_retry.
  - apply Z.eqb_neq in S. apply obind_ret in R as ([n2 w2] & A & R). apply obind_ret in R as (x & _ & R).
    injection R as <- <-. by eapply response_success.
Qed.

(** The ways a vote request ends. *)
Inductive vote_request_result (req : RequestVoteRequest) (n : node) (w : Master C K) : node -> Master C K -> Prop :=
  | vote_refused w' :
      (RequestVoteRequest_term req < cur_term_ n \/
       (RequestVoteRequest_term req = cur_term_ n /\ voted_for_ n <> -1 /\
        voted_for_ n <> RequestVoteRequest_candidate_id req)) ->
      send_to (RequestVoteRequest_candidate_id req) (vote_response (RequestVoteRequest_term req) 0) (n, w) = Ret (n, w') ->
      vote_request_result req n w n w'
  | vote_ignored n1 :
      state_ n = LEADER -> cur_term_ n <= RequestVoteRequest_term req ->
      (n1 = n /\ RequestVoteRequest_term req = cur_term_ n \/
       n1 = set_votes_collected_ 0 (set_cur_term_ (RequestVoteRequest_term req) n) /\
       cur_term_ n < RequestVoteRequest_term req) ->
      vote_request_result req n w n1 w
  | vote_granted n1 w' :
      state_ n <> LEADER ->
      (n1 = n /\ RequestVoteRequest_term req = cur_term_ n /\
        (voted_for_ n = -1 \/ voted_for_ n = RequestVoteRequest_candidate_id req) \/
       n1 = set_votes_collected_ 0 (set_cur_term_ (RequestVoteRequest_term req) n) /\
       cur_term_ n < RequestVoteRequest_term req) ->
      send_to (RequestVoteRequest_candidate_id req) (vote_response (RequestVoteRequest_term req) 1)
        (set_voted_for_ (RequestVoteRequest_candidate_id req) n1, w) =
        Ret (set_voted_for_ (RequestVoteRequest_candidate_id req) n1, w') ->
      vote_request_result req n w (set_voted_for_ (RequestVoteRequest_candidate_id req) n1) w'.

Lemma handle_vote_request_cases req (n n' : node) (w w' : Master C K) :
  handle_vote_request req (n, w) = Ret (n', w') -> vote_request_result req n w n' w'.
Proof.
  unfold handle_vote_request. intros H.
  destruct (_ || _) eqn:G in H.
  { pose proof (send_to_node _ _ _ _ _ _ H) as ->. apply vote_refused; [|done].
    apply orb_true_iff in G as [G|G]; to_prop; auto. }
  apply orb_false_iff in G as [G1 G2]. apply Z.ltb_ge in G1. rewrite !andb_false_iff, !negb_false_iff in G2.
  set (n1 := if cur_term_ n <? RequestVoteRequest_term req then _ else _) in H.
  assert (N1 : n1 = n /\ RequestVoteRequest_term req = cur_term_ n /\
        (voted_for_ n = -1 \/ voted_for_ n = RequestVoteRequest_candidate_id req) \/
       n1 = set_votes_collected_ 0 (set_cur_term_ (RequestVoteRequest_term req) n) /\
       cur_term_ n < RequestVoteRequest_term req).
  { subst n1. destruct (Z.ltb_spec (cur_term_ n) (RequestVoteRequest_term req)); [by right|left].
    rewrite Z.eqb_neq, !Z.eqb_eq in G2. split; [done|]. lia. }
  assert (S1 : state_ n1 = state_ n) by (destruct N1 as [[-> _]|[-> _]]; done).
  clearbody n1. rewrite S1 in H. destruct (_ || _) eqn:G in H.
  - pose proof (send_to_node _ _ _ _ _ _ H) as ->. apply vote_granted; [|done|done].
    apply orb_true_iff in G as [G|G]; to_prop; congruence.
  - injection H as <- <-. apply orb_false_iff in G as [Ga Gb]. to_prop. apply vote_ignored; [by destruct (state_ n)|done|].
    tauto.
Qed.

(** A vote response changes the election state only. *)
Lemma handle_vote_response_cases resp (n n' : node) :
  handle_vote_response resp n = Ret n' ->
  n' = n \/
  (state_ n = CANDIDATE /\ cur_term_ n <= RequestVoteResponse_term resp /\
   RequestVoteResponse_vote_result_term_granted resp <> 0 /\
   let v := if RequestVoteResponse_vote_result_term_granted resp =? 1 then votes_collected_ n + 1 else votes_collected_ n in
   (n' = set_votes_collected_ v n /\ v <= total_nodes_ n ÷ 2 \/
    n' = set_cur_term_ (RequestVoteResponse_term resp) (set_state_ LEADER (set_votes_collected_ v n)) /\
    total_nodes_ n ÷ 2 < v)).
Proof.
  unfold handle_vote_response. intros H.
  destruct (bool_decide (state_ n = LEADER)) eqn:S1; [injection H as <-; by left|].
  destruct (bool_decide (state_ n = FOLLOWER)) eqn:S2; [injection H as <-; by left|].
  destruct (RequestVoteResponse_vote_result_term_granted resp =? 0) eqn:Gr; [injection H as <-; by left|].
  destruct (RequestVoteResponse_term resp <? cur_term_ n) eqn:T; [injection H as <-; by left|].
  to_prop. apply obind_ret in H as (n1 & E & H).
  assert (N1 : n1 = set_votes_collected_ (if RequestVoteResponse_vote_result_term_granted resp =? 1
                                            then votes_collected_ n + 1 else votes_collected_ n) n).
  { destruct (_ =? 1); [|injection E as <-; by destruct n].
    apply obind_ret in E as (v & V & E). apply int_add_ret in V as [-> _]. by injection E as <-. }
  clear E. right. split; [by destruct (state_ n)|]. split; [done|]. split; [done|]. cbv zeta.
  destruct (total_nodes_ n1 ÷ 2 <? votes_collected_ n1) eqn:M; injection H as <-; subst n1;
    cbn [total_nodes_ votes_collected_ set_votes_collected_] in M; to_prop; auto.
Qed.
End Frames.
