(* ===== verification/NodeElection.v ===== *)
(** * Terms, votes and leadership of a node

    What a node may do to its term, its vote and its role, over any sequence of
    steps and whatever messages arrive. *)

From S2P Require Import Prelude MessageQueue WireFormat FlowTypes FlowCodec FlowCodecFacts RaftMessage LogStorage ClusterManager ClientManager Configuration ClusterNode ClusterNodeFacts.

Local Open Scope Z_scope.

Section Election.
Context {St C K : Type}.
Context `{SI : ClusterNodeStorageInterface St, CI : ClusterManagerInterface C, KI : ClientManagerInterface K,
  RT : ProtobufRuntime}.
Abbreviation node := (ClusterNode St).
Abbreviation nstate := (node * Master C K)%type.

(** ** Runs: steps of the io_context, and what is posted to it *)

Inductive node_input :=
  | Step (e : node_event)
  | MessageArrives (msg : Message)
  | ClientGone (client_id : Z).

Definition node_input_step (i : node_input) (s : nstate) : outcome nstate :=
  match i with
  | Step e => node_step e s
  | MessageArrives msg => Ret (message_handler msg s.1, s.2)
  | ClientGone id => Ret (consumer_disconnected id s.1, s.2)
  end.

Fixpoint node_run (ins : list node_input) (s : nstate) : outcome nstate :=
  match ins with
  | [] => Ret s
  | i :: ins => let* s := node_input_step i s in node_run ins s
  end.

(** ** What a step leaves alone *)

(** The identity of a node never changes; term and commit index only grow. *)
Record forward (n n' : node) : Prop := {
  fwd_partition : partition_id_ n' = partition_id_ n;
  fwd_node_id : node_id_ n' = node_id_ n;
  fwd_total : total_nodes_ n' = total_nodes_ n;
  fwd_term : cur_term_ n <= cur_term_ n';
  fwd_commit : commit_index_ n <= commit_index_ n'
}.

Lemma forward_refl n : forward n n.
Proof. split; lia. Qed.

Lemma forward_trans n1 n2 n3 : forward n1 n2 -> forward n2 n3 -> forward n1 n3.
Proof. intros [] []. split; congruence || lia. Qed.

Lemma forward_queue n n' : same_but_queue n n' -> forward n n'.
Proof. intros [q ->]. split; cbn; lia. Qed.

Lemma forward_replication n n' : same_but_replication n n' -> forward n n'.
Proof. intros (p & x & ->). split; cbn; lia. Qed.

Lemma append_log_entries_frame l es (n n' : node) :
  append_log_entries l es n = Ret n' -> exists log, append_loop 0 l es (log_entries_ n) = Ret log /\ n' = set_log_entries_ log n.
Proof. unfold append_log_entries. intros H. apply obind_ret in H as (log & E & H). injection H as <-. eauto. Qed.

Lemma accept_leader_forward now req (n : node) :
  cur_term_ n <= AppendEntriesRequest_term req -> forward n (accept_leader now req n).
Proof. intros L. destruct (accept_leader_frame now req n) as (st & -> & _). split; cbn; lia. Qed.

Lemma forward_commit (n n' : node) : same_but_commit n n' -> commit_index_ n <= commit_index_ n' -> forward n n'.
Proof. intros (st & i & q & ->) L. split; cbn in *; lia. Qed.

Lemma append_request_forward now req (n n' : node) (w w' : Master C K) :
  append_request_result now req n w n' w' -> forward n n'.
Proof.
  intros []; [split; cbn; lia|by apply accept_leader_forward|].
  eapply forward_trans; [by apply accept_leader_forward|].
  match goal with X : follow_leader_commit _ _ = _ |- _ => apply follow_leader_commit_frame in X as (F & _ & L) end.
  eapply forward_trans; [apply forward_commit; [exact F|lia]|].
  match goal with X : append_log_entries _ _ _ = _ |- _ => apply append_log_entries_frame in X as (log & _ & ->) end.
  split; cbn; lia.
Qed.

Lemma append_response_forward resp (n n' : node) (w w' : Master C K) :
  append_response_result resp n w n' w' -> forward n n'.
Proof.
  intros []; [|split; cbn; lia..].
  match goal with X : advance_commit _ _ = _ |- _ => apply advance_commit_frame in X as (F & _ & L) end.
  apply forward_commit in F; [|cbn in *; lia]. destruct F. split; cbn in *; lia || congruence.
Qed.

Lemma vote_request_forward req (n n' : node) (w w' : Master C K) :
  vote_request_result req n w n' w' -> forward n n'.
Proof.
  intros [w1 G D|n1 L T [[-> _]|[-> T']]|n1 w1 L [(-> & _ & _)|[-> T']] D]; split; cbn; lia.
Qed.

Lemma vote_response_forward resp (n n' : node) : handle_vote_response resp n = Ret n' -> forward n n'.
Proof.
  intros [->|(_ & T & _ & [[-> _]|[-> _]])]%handle_vote_response_cases; [apply forward_refl|split; cbn; lia..].
Qed.

Lemma add_log_entry_forward e (n n' : node) (w w' : Master C K) :
  add_log_entry e (n, w) = Ret (n', w') -> forward n n'.
Proof.
  intros H%add_log_entry_frame. apply forward_replication in H. destruct H. split; cbn in *; lia || congruence.
Qed.

Lemma open_queue_queue (n n' : node) (w w' : Master C K) :
  handle_open_queue (n, w) = Ret (n', w') -> same_but_queue n n' /\ cluster_manager_p_ w' = cluster_manager_p_ w.
Proof.
  unfold handle_open_queue. intros H. destruct (negb _) in H; apply obind_ret in H as ([id [n1 w1]] & D & H);
    apply deliver_client_node in D as [-> D]; cbn [snd] in H.
  - injection H as <- <-. split; [apply same_but_queue_refl|done].
  - apply trigger_message_delivery_queue in H as [H1 H2]. split; [done|congruence].
Qed.

Lemma local_message_handler_forward now rid m (n n' : node) (w w' : Master C K) :
  local_message_handler now rid m (n, w) = Ret (n', w') -> forward n n'.
Proof.
  unfold local_message_handler. destruct (type m); intros H; try (injection H as <- <-; apply forward_refl).
  - by eapply vote_request_forward, handle_vote_request_cases.
  - apply obind_ret in H as (n1 & V & H). injection H as <- <-. by eapply vote_response_forward.
  - by eapply append_request_forward, handle_append_request_cases.
  - apply handle_append_response_cases in H as (n1 & w1 & R & T). apply append_response_forward in R.
    apply trigger_entry_update_frame, forward_replication in T. by eapply forward_trans.
  - unfold handle_put_message in H. destruct (negb _) in H; [injection H as <- <-; apply forward_refl|].
    by eapply add_log_entry_forward.
  - unfold handle_commit_message in H. destruct (negb _) in H; [injection H as <- <-; apply forward_refl|].
    by eapply add_log_entry_forward.
  - apply open_queue_queue in H as [H _]. by apply forward_queue.
Qed.

Lemma handle_disconnect_queue id (n n' : node) (w w' : Master C K) :
  handle_disconnect id (n, w) = Ret (n', w') -> same_but_queue n n' /\ cluster_manager_p_ w' = cluster_manager_p_ w.
Proof.
  unfold handle_disconnect. intros [H1 H2]%trigger_message_delivery_queue. split; [|done].
  eapply same_but_queue_trans; [apply same_but_queue_set|exact H1].
Qed.

Lemma on_heartbeat_timer_node (n n' : node) (w w' : Master C K) :
  on_heartbeat_timer (n, w) = Ret (n', w') -> exists m, n' = set_heartbeat_timer_ true (set_pending_append_reqs_ m n).
Proof.
  unfold on_heartbeat_timer. intros H. apply obind_ret in H as ([n1 w1] & E & H). injection H as <- <-.
  destruct (bool_decide _) in E.
  - apply obind_ret in E as (e & _ & E). apply obind_ret in E as ([n2 w2] & D & E). apply send_all_node in D. subst n2.
    apply obind_ret in E as (m & _ & E). injection E as <- <-. exists m. reflexivity.
  - injection E as <- <-. exists (pending_append_reqs_ n). by destruct n.
Qed.

(** The vote timer: nothing but its own state, or a new term as a candidate. *)
Lemma on_vote_timer_cases now (n n' : node) :
  on_vote_timer now n = Ret n' ->
  (n' = set_vote_timer_ RestartScheduler n /\ state_ n <> CANDIDATE) \/
  n' = set_vote_timer_ RestartScheduler (set_vote_delays_ (S (vote_delays_ n)) (set_votes_collected_ 0
    (set_voted_for_ (-1) (set_cur_term_ (cur_term_ n + 1) (set_state_ CANDIDATE n))))) /\ state_ n <> LEADER.
Proof.
  unfold on_vote_timer. intros H. destruct (_ && _) eqn:G in H.
  - apply andb_true_iff in G as [G%bool_decide_eq_true_1 _]. cbn [state_ set_state_] in H.
    rewrite bool_decide_eq_true_2 in H by done. cbn [cur_term_ set_state_] in H.
    apply obind_ret in H as (n1 & E & H). apply obind_ret in E as (t & T & E). apply int_add_ret in T as [-> _].
    injection E as <-. injection H as <-. right. split; [done|congruence].
  - clear G. destruct (bool_decide (state_ n = CANDIDATE)) eqn:Ca.
    + apply bool_decide_eq_true_1 in Ca.
      apply obind_ret in H as (n1 & E & H). apply obind_ret in E as (t & T & E). apply int_add_ret in T as [-> _].
      injection E as <-. injection H as <-. right. split; [|congruence]. destruct n. cbn in *. by subst.
    + apply bool_decide_eq_false_1 in Ca. injection H as <-. by left.
Qed.

Lemma on_vote_delay_cases (n n' : node) (w w' : Master C K) :
  on_vote_delay (n, w) = Ret (n', w') ->
  (n' = set_vote_delays_ (Nat.pred (vote_delays_ n)) n /\ w' = w /\ voted_for_ n <> -1) \/
  (exists e, n' = set_votes_collected_ (votes_collected_ n + 1) (set_voted_for_ (node_id_ n)
      (set_vote_delays_ (Nat.pred (vote_delays_ n)) n)) /\ voted_for_ n = -1 /\ last (log_entries_ n) = Some e /\
    send_all (loadVoteRequest (RequestVoteRequest_set_last_log_term (LogEntry_term e)
        (RequestVoteRequest_set_last_log_index (LogEntry_index e)
        (RequestVoteRequest_set_candidate_id (node_id_ n)
        (RequestVoteRequest_set_term (cur_term_ n) RequestVoteRequest_new)))) RaftMessage_new) (n', w) = Ret (n', w')).
Proof.
  unfold on_vote_delay. intros H. cbn [voted_for_ set_vote_delays_] in H.
  destruct (voted_for_ n =? -1) eqn:V; cbn [negb] in H.
  - apply Z.eqb_eq in V. apply obind_ret in H as (e & L & H). apply vec_back_ret in L.
    apply obind_ret in H as (v & I & H). apply int_add_ret in I as [-> _].
    pose proof (send_all_node _ _ _ _ _ H) as ->. right. exists e. split; [done|]. split; [done|]. split; [done|]. exact H.
  - apply Z.eqb_neq in V. injection H as <- <-. by left.
Qed.

Lemma node_step_forward e (n n' : node) (w w' : Master C K) : node_step e (n, w) = Ret (n', w') -> forward n n'.
Proof.
  unfold node_step. destruct e as [now rid| |now| |].
  - unfold run_posted_task. destruct (io_context_ n) as [|[m|id] ts]; intros H; [injection H as <- <-; apply forward_refl|..].
    + apply local_message_handler_forward in H. destruct H. split; cbn in *; done.
    + apply handle_disconnect_queue in H as [H%forward_queue _]. destruct H. split; cbn in *; done.
  - destruct (heartbeat_timer_ n); intros H; [|injection H as <- <-; apply forward_refl].
    apply on_heartbeat_timer_node in H as (m & ->). split; cbn; lia.
  - destruct (vote_timer_ n); intros H; [|injection H as <- <-; split; cbn; lia].
    apply obind_ret in H as (n1 & V & H). injection H as <- <-.
    apply on_vote_timer_cases in V as [[-> _]|[-> _]]; split; cbn; lia.
  - destruct (vote_delays_ n); intros H; [injection H as <- <-; apply forward_refl|].
    apply on_vote_delay_cases in H as [(-> & _ & _)|(e & -> & _)]; split; cbn; lia.
  - intros [= <- <-]. destruct (stats_timer_ n); split; cbn; lia.
Qed.

Lemma node_run_forward ins (n n' : node) (w w' : Master C K) : node_run ins (n, w) = Ret (n', w') -> forward n n'.
Proof.
  revert n w. induction ins as [|i ins IH]; intros n w H; cbn [node_run] in H.
  { injection H as <- <-. apply forward_refl. }
  apply obind_ret in H as ([n1 w1] & E & H). eapply forward_trans; [|by eapply IH].
  destruct i as [e|msg|id]; cbn [node_input_step] in E; [by eapply node_step_forward|injection E as <- <-..]; split; cbn; lia.
Qed.

(** ** What a step sends *)

Definition heartbeat_request (n : node) (e : LogEntry) : AppendEntriesRequest :=
  AppendEntriesRequest_set_leader_commit (commit_index_ n)
    (AppendEntriesRequest_set_prev_log_term (LogEntry_term e)
    (AppendEntriesRequest_set_prev_log_index (LogEntry_index e)
    (AppendEntriesRequest_set_leader_id (node_id_ n)
    (AppendEntriesRequest_set_term (cur_term_ n) AppendEntriesRequest_new)))).

Definition vote_request (n : node) (e : LogEntry) : RequestVoteRequest :=
  RequestVoteRequest_set_last_log_term (LogEntry_term e)
    (RequestVoteRequest_set_last_log_index (LogEntry_index e)
    (RequestVoteRequest_set_candidate_id (node_id_ n)
    (RequestVoteRequest_set_term (cur_term_ n) RequestVoteRequest_new))).

(** The messages a node that is now [n] may have sent, with their target;
    [None] is a broadcast. *)
Inductive may_send (n : node) : option Z * RaftMessage -> Prop :=
  | sends_entry f i prev entry :
      1 <= i < INT_MAX -> log_entries_ n !! Z.to_nat (i - 1) = Some prev -> log_entries_ n !! Z.to_nat i = Some entry ->
      may_send n (Some f, loadAppendEntriesRequest (entry_request n (i - 1) prev entry) RaftMessage_new)
  | sends_heartbeat e :
      state_ n = LEADER -> last (log_entries_ n) = Some e ->
      may_send n (None, loadAppendEntriesRequest (heartbeat_request n e) RaftMessage_new)
  | sends_append_failure f : may_send n (Some f, append_response 0 (-1) n)
  | sends_append_success f e :
      last (log_entries_ n) = Some e -> may_send n (Some f, append_response 1 (LogEntry_index e) n)
  | sends_vote_refusal c t : may_send n (Some c, vote_response t 0)
  | sends_vote c t :
      state_ n <> LEADER -> cur_term_ n = t -> voted_for_ n = c -> may_send n (Some c, vote_response t 1)
  | sends_vote_request e :
      voted_for_ n = node_id_ n -> last (log_entries_ n) = Some e ->
      may_send n (None, loadVoteRequest (vote_request n e) RaftMessage_new).

(** A granted vote, as a message: the answer to a candidate, or the node's own
    request. *)
Definition is_vote (m : option Z * RaftMessage) : Prop :=
  (exists t, m.2 = vote_response t 1) \/ (exists req, m.2 = loadVoteRequest req RaftMessage_new).

(** A message about the log. *)
Definition log_message (n : node) (m : option Z * RaftMessage) : Prop :=
  may_send n m /\ type m.2 <> REQUEST_VOTE_RESPONSE /\ type m.2 <> REQUEST_VOTE_REQUEST.

Lemma not_vote f m : type m <> REQUEST_VOTE_RESPONSE -> type m <> REQUEST_VOTE_REQUEST -> ~ is_vote (f, m).
Proof. intros T1 T2 [[t E]|[req E]]; cbn [snd] in E; subst m; [by apply T1|by apply T2]. Qed.

Lemma refusal_not_vote c t : ~ is_vote (c, vote_response t 0).
Proof.
  intros [[t' E]|[req E]]; cbn [snd] in E; [|by apply (f_equal type) in E].
  by apply (f_equal (fun r => RequestVoteResponse_vote_result_term_granted (get_vote_response r))) in E.
Qed.

(** A request to the cluster manager that carries a message. *)
Definition carries (p : Z) (o : outgoing) (m : option Z * RaftMessage) : Prop :=
  exists b, serialize_as_message (set_partition_id p m.2) = Ret b /\
    o = match m.1 with Some id => ToNode id b | None => ToAll b end.

Context {CL : ClusterManagerLaws C}.

(** The step made requests for the messages [ms], in order, and did nothing else
    to the cluster manager. *)
Definition sent (p : Z) (w w' : Master C K) (ms : list (option Z * RaftMessage)) : Prop :=
  exists out, cluster_manager_p_ w' = foldl request (cluster_manager_p_ w) out /\ Forall2 (carries p) out ms.

Lemma sent_nil p (w w' : Master C K) : cluster_manager_p_ w' = cluster_manager_p_ w -> sent p w w' [].
Proof. intros E. exists []. rewrite E. by split. Qed.

Lemma sent_app p (w1 w2 w3 : Master C K) a b : sent p w1 w2 a -> sent p w2 w3 b -> sent p w1 w3 (a ++ b).
Proof.
  intros (o1 & E1 & F1) (o2 & E2 & F2). exists (o1 ++ o2). rewrite E2, E1, foldl_app. split; [done|].
  by apply Forall2_app.
Qed.

Lemma send_to_sent f m (n n' : node) (w w' : Master C K) :
  send_to f m (n, w) = Ret (n', w') -> sent (partition_id_ n) w w' [(Some f, m)].
Proof.
  intros (b & S & R)%send_to_requested. exists [ToNode f b]. split; [done|]. constructor; [|constructor]. exists b. unfold serialize_raft_message in S. cbn [fst snd]. split; [exact S|reflexivity].
Qed.

Lemma send_all_sent m (n n' : node) (w w' : Master C K) :
  send_all m (n, w) = Ret (n', w') -> sent (partition_id_ n) w w' [(None, m)].
Proof.
  intros (b & S & R)%send_all_requested. exists [ToAll b]. split; [done|]. constructor; [|constructor]. exists b. unfold serialize_raft_message in S. cbn [fst snd]. split; [exact S|reflexivity].
Qed.

Lemma may_send_entry_frame (n n' : node) m :
  same_but_replication n n' -> may_send n m -> may_send n' m.
Proof.
  intros (p & x & ->) H. destruct H.
  - by apply (sends_entry (set_pending_append_reqs_ p (set_next_index_ x n))).
  - by apply (sends_heartbeat (set_pending_append_reqs_ p (set_next_index_ x n))).
  - apply (sends_append_failure (set_pending_append_reqs_ p (set_next_index_ x n))).
  - by apply (sends_append_success (set_pending_append_reqs_ p (set_next_index_ x n))).
  - apply (sends_vote_refusal (set_pending_append_reqs_ p (set_next_index_ x n))).
  - by apply (sends_vote (set_pending_append_reqs_ p (set_next_index_ x n))).
  - by apply (sends_vote_request (set_pending_append_reqs_ p (set_next_index_ x n))).
Qed.

Lemma log_message_frame (n n' : node) m : same_but_replication n n' -> log_message n m -> log_message n' m.
Proof. intros F [M N]. split; [by eapply may_send_entry_frame|done]. Qed.

Lemma trigger_entry_update_sent f (n n' : node) (w w' : Master C K) :
  trigger_entry_update f (n, w) = Ret (n', w') ->
  exists ms, sent (partition_id_ n) w w' ms /\ Forall (log_message n') ms.
Proof.
  intros H. pose proof (trigger_entry_update_frame _ _ _ _ _ H) as F.
  apply trigger_entry_update_cases in H as [->|(prev & entry & L & P & E & D)].
  { exists []. split; [by apply sent_nil|constructor]. }
  eexists. split; [exact (send_to_sent _ _ _ _ _ _ D)|]. constructor; [|constructor].
  pose proof (to_int_range (zlength (log_entries_ n))) as [_ U].
  eapply log_message_frame; [exact F|]. split; [apply sends_entry; [lia|done..]|done].
Qed.

Lemma update_followers_sent fs (n n' : node) (w w' : Master C K) :
  update_followers fs (n, w) = Ret (n', w') ->
  exists ms, sent (partition_id_ n) w w' ms /\ Forall (log_message n') ms.
Proof.
  revert n w. induction fs as [|f fs IH]; intros n w H; cbn [update_followers] in H.
  { injection H as <- <-. exists []. split; [by apply sent_nil|constructor]. }
  apply obind_ret in H as ([n1 w1] & E & H). pose proof (trigger_entry_update_frame _ _ _ _ _ E) as F1.
  pose proof (update_followers_frame _ _ _ _ _ H) as F2. apply trigger_entry_update_sent in E as (ms1 & S1 & M1).
  apply IH in H as (ms2 & S2 & M2). exists (ms1 ++ ms2).
  assert (P : partition_id_ n1 = partition_id_ n) by (by destruct F1 as (p & x & ->)). rewrite P in S2.
  split; [by eapply sent_app|]. apply Forall_app. split; [|done].
  eapply Forall_impl; [exact M1|]. intros m. by apply log_message_frame.
Qed.

Lemma append_request_sent now req (n n' : node) (w w' : Master C K) :
  append_request_result now req n w n' w' ->
  exists ms, sent (partition_id_ n) w w' ms /\ Forall (log_message n') ms.
Proof.
  intros R. pose proof (fwd_partition _ _ (append_request_forward _ _ _ _ _ _ R)) as P. rewrite <- P. destruct R.
  - eexists. split; [by eapply send_to_sent|]. constructor; [|constructor]. split; [apply sends_append_failure|done].
  - eexists. split; [by eapply send_to_sent|]. constructor; [|constructor]. split; [apply sends_append_failure|done].
  - match goal with X : follow_leader_commit _ _ = _ |- _ => apply follow_leader_commit_frame in X as (_ & M & _) end.
    exists ([] ++ [(Some (AppendEntriesRequest_leader_id req), append_response 1 (LogEntry_index e) n2)]).
    split; [eapply sent_app; [by apply sent_nil|by eapply send_to_sent]|].
    constructor; [|constructor]. split; [by apply sends_append_success|done].
Qed.

Lemma vote_request_sent req (n n' : node) (w w' : Master C K) :
  vote_request_result req n w n' w' ->
  exists ms, sent (partition_id_ n) w w' ms /\ Forall (may_send n') ms.
Proof.
  intros [w1 G D|n1 L T G|n1 w1 L G D].
  - eexists. split; [by eapply send_to_sent|]. constructor; [|constructor]. apply sends_vote_refusal.
  - exists []. split; [by apply sent_nil|constructor].
  - assert (N : partition_id_ n1 = partition_id_ n /\ state_ n1 = state_ n /\ cur_term_ n1 = RequestVoteRequest_term req).
    { destruct G as [(-> & -> & _)|[-> _]]; done. }
    destruct N as (P & S & T). rewrite <- P. eexists. split; [exact (send_to_sent _ _ _ _ _ _ D)|]. constructor; [|constructor].
    apply sends_vote; cbn; congruence.
Qed.

(** Every handler but that of vote requests sends log messages only. *)
Lemma handler_log_sent now rid m (n n' : node) (w w' : Master C K) :
  type m <> REQUEST_VOTE_REQUEST -> local_message_handler now rid m (n, w) = Ret (n', w') ->
  exists ms, sent (partition_id_ n) w w' ms /\ Forall (log_message n') ms.
Proof.
  intros T0.
  assert (Q : forall (w w' : Master C K), cluster_manager_p_ w' = cluster_manager_p_ w ->
    exists ms, sent (partition_id_ n) w w' ms /\ Forall (log_message n') ms).
  { intros u u' E. exists []. split; [by apply sent_nil|constructor]. }
  unfold local_message_handler. destruct (type m); intros H; try done; try (injection H as <- <-; by apply Q).
  - apply obind_ret in H as (n1 & V & H). injection H as <- <-. by apply Q.
  - by eapply append_request_sent, handle_append_request_cases.
  - apply handle_append_response_cases in H as (n1 & w1 & R & T).
    pose proof (fwd_partition _ _ (append_response_forward _ _ _ _ _ R)) as P. rewrite <- P.
    apply trigger_entry_update_sent in T as (ms & S & M). exists ([] ++ ms). split; [|done].
    eapply sent_app; [|exact S]. apply sent_nil. destruct R; [|done..].
    match goal with X : advance_commit _ _ = _ |- _ => apply advance_commit_frame in X as (_ & E & _) end. exact E.
  - unfold handle_put_message in H. destruct (negb _) in H; [injection H as <- <-; by apply Q|].
    unfold add_log_entry in H. by apply update_followers_sent in H.
  - unfold handle_commit_message in H. destruct (negb _) in H; [injection H as <- <-; by apply Q|].
    unfold add_log_entry in H. by apply update_followers_sent in H.
  - apply open_queue_queue in H as [_ H]. by apply Q.
Qed.

Lemma log_messages_may (n : node) ms : Forall (log_message n) ms -> Forall (may_send n) ms.
Proof. intros F. eapply Forall_impl; [exact F|]. by intros m []. Qed.

Lemma local_message_handler_sent now rid m (n n' : node) (w w' : Master C K) :
  local_message_handler now rid m (n, w) = Ret (n', w') ->
  exists ms, sent (partition_id_ n) w w' ms /\ Forall (may_send n') ms.
Proof.
  destruct (decide (type m = REQUEST_VOTE_REQUEST)) as [T|T]; intros H.
  - unfold local_message_handler in H. rewrite T in H. by eapply vote_request_sent, handle_vote_request_cases.
  - apply handler_log_sent in H as (ms & S & M); [|done]. eauto using log_messages_may.
Qed.

Lemma heartbeat_sent (n n' : node) (w w' : Master C K) :
  on_heartbeat_timer (n, w) = Ret (n', w') ->
  exists ms, sent (partition_id_ n) w w' ms /\ Forall (log_message n') ms.
Proof.
  unfold on_heartbeat_timer. intros H. apply obind_ret in H as ([n1 w1] & E & H). injection H as <- <-.
  destruct (bool_decide (state_ n = LEADER)) eqn:L.
  - apply bool_decide_eq_true_1 in L. apply obind_ret in E as (e & B & E). apply vec_back_ret in B.
    apply obind_ret in E as ([n2 w2] & D & E). pose proof (send_all_node _ _ _ _ _ D) as ->.
    apply obind_ret in E as (m & _ & E). injection E as <- <-. eexists. split; [by eapply send_all_sent|].
    constructor; [|constructor].
    split; [by apply (sends_heartbeat (start_send_hearbeat (set_pending_append_reqs_ m n)) e)|done].
  - injection E as <- <-. exists []. split; [by apply sent_nil|constructor].
Qed.

Lemma node_step_sent e (n n' : node) (w w' : Master C K) :
  node_step e (n, w) = Ret (n', w') ->
  exists ms, sent (partition_id_ n) w w' ms /\ Forall (may_send n') ms.
Proof.
  assert (Q : forall (w w' : Master C K), cluster_manager_p_ w' = cluster_manager_p_ w ->
    exists ms, sent (partition_id_ n) w w' ms /\ Forall (may_send n') ms).
  { intros u u' E. exists []. split; [by apply sent_nil|constructor]. }
  unfold node_step. destruct e as [now rid| |now| |].
  - unfold run_posted_task. destruct (io_context_ n) as [|[m|id] ts]; intros H; [injection H as <- <-; by apply Q|..].
    + by apply local_message_handler_sent in H.
    + apply handle_disconnect_queue in H as [_ H]. by apply Q.
  - destruct (heartbeat_timer_ n); intros H; [|injection H as <- <-; by apply Q].
    apply heartbeat_sent in H as (ms & S & M). eauto using log_messages_may.
  - destruct (vote_timer_ n); intros H; [|injection H as <- <-; by apply Q].
    apply obind_ret in H as (n1 & V & H). injection H as <- <-. by apply Q.
  - destruct (vote_delays_ n); intros H; [injection H as <- <-; by apply Q|].
    apply on_vote_delay_cases in H as [(_ & -> & _)|(e & E & V & L & D)]; [by apply Q|].
    assert (P : partition_id_ n = partition_id_ n') by (by rewrite E). rewrite P.
    eexists. split; [by eapply send_all_sent|]. constructor; [|constructor].
    replace (RequestVoteRequest_set_last_log_term _ _) with (vote_request n' e) by (by rewrite E).
    apply sends_vote_request; by rewrite E.
  - intros [= <- <-]. by apply Q.
Qed.

(** ** Votes *)

(** The vote a step casts: for a candidate that asks, or for itself when the
    random delay ends. *)
Definition vote_cast (e : node_event) (n : node) : option (Z * Z) :=
  match e with
  | TaskRuns _ _ =>
      match io_context_ n with
      | HandleMessage m :: _ =>
          let t := RequestVoteRequest_term (get_vote_request m) in
          let c := RequestVoteRequest_candidate_id (get_vote_request m) in
          if bool_decide (type m = REQUEST_VOTE_REQUEST) && negb (bool_decide (state_ n = LEADER)) &&
             ((cur_term_ n <? t) || ((t =? cur_term_ n) && ((voted_for_ n =? -1) || (voted_for_ n =? c))))
          then Some (t, c) else None
      | _ => None
      end
  | VoteDelay =>
      match vote_delays_ n with
      | O => None
      | S _ => if voted_for_ n =? -1 then Some (cur_term_ n, node_id_ n) else None
      end
  | _ => None
  end.

Fixpoint votes_of (ins : list node_input) (s : nstate) : list (Z * Z) :=
  match ins with
  | [] => []
  | i :: ins =>
      let rest := match node_input_step i s with Ret s' => votes_of ins s' | Fault _ => [] end in
      match i with
      | Step e => match vote_cast e s.1 with Some v => v :: rest | None => rest end
      | _ => rest
      end
  end.

(** Candidates have a real id in the vote requests. *)
Definition real_candidate (r : RaftMessage) : bool :=
  negb (bool_decide (type r = REQUEST_VOTE_REQUEST) && (RequestVoteRequest_candidate_id (get_vote_request r) =? -1)).

Definition real_task (t : node_task) : bool :=
  match t with HandleMessage m => real_candidate m | HandleDisconnect _ => true end.

Definition real_input (i : node_input) : bool :=
  match i with MessageArrives msg => real_candidate (deserialize_from_message msg) | _ => true end.

(** The votes cast so far are in past terms, or the recorded vote of this one. *)
Definition votes_inv (votes : list (Z * Z)) (n : node) : Prop :=
  node_id_ n <> -1 /\ forallb real_task (io_context_ n) = true /\
  forall t c, (t, c) ∈ votes -> t <= cur_term_ n /\ (t = cur_term_ n -> voted_for_ n = c) /\ c <> -1.

(** Steps that cast no vote keep or outdate the recorded vote. *)
Definition vote_kept (n n' : node) : Prop :=
  (cur_term_ n' = cur_term_ n /\ voted_for_ n' = voted_for_ n) \/ cur_term_ n < cur_term_ n'.

Lemma vote_kept_inv votes (n n' : node) :
  votes_inv votes n -> vote_kept n n' -> node_id_ n' = node_id_ n -> forallb real_task (io_context_ n') = true ->
  votes_inv votes n'.
Proof.
  intros (I & T & V) Kp E R. split; [congruence|]. split; [done|]. intros t c X. destruct (V t c X) as (L & Q & N).
  destruct Kp as [[-> ->]|L']; [done|]. split_and!; [lia|lia|done].
Qed.

Lemma vote_kept_same (n n' : node) : cur_term_ n' = cur_term_ n -> voted_for_ n' = voted_for_ n -> vote_kept n n'.
Proof. by left. Qed.

Lemma append_request_keeps_vote now req (n n' : node) (w w' : Master C K) :
  append_request_result now req n w n' w' ->
  voted_for_ n' = voted_for_ n /\ io_context_ n' = io_context_ n.
Proof.
  intros []; [done|by destruct (accept_leader_frame now req n) as (st & -> & _)|].
  match goal with X : follow_leader_commit _ _ = _ |- _ => apply follow_leader_commit_frame in X as ((? & ? & ? & ->) & _) end.
  match goal with X : append_log_entries _ _ _ = _ |- _ => apply append_log_entries_frame in X as (log & _ & ->) end.
  destruct (accept_leader_frame now req n) as (st & -> & _). done.
Qed.

Lemma append_response_keeps_vote resp (n n' : node) (w w' : Master C K) :
  append_response_result resp n w n' w' ->
  voted_for_ n' = voted_for_ n /\ io_context_ n' = io_context_ n.
Proof.
  intros []; [|done..].
  match goal with X : advance_commit _ _ = _ |- _ => apply advance_commit_frame in X as ((? & ? & ? & ->) & _) end. done.
Qed.

Lemma forward_kept (n n' : node) : forward n n' -> voted_for_ n' = voted_for_ n -> vote_kept n n'.
Proof. intros F E. pose proof (fwd_term n n' F). destruct (decide (cur_term_ n' = cur_term_ n)); [by left|right; lia]. Qed.

(** A handler that is not a granted vote request keeps the vote. *)
Lemma handler_keeps_vote now rid m (n n' : node) (w w' : Master C K) :
  type m <> REQUEST_VOTE_REQUEST -> local_message_handler now rid m (n, w) = Ret (n', w') ->
  voted_for_ n' = voted_for_ n /\ io_context_ n' = io_context_ n.
Proof.
  intros T. unfold local_message_handler. destruct (type m); intros H; try done; try (by injection H as <- <-).
  - apply obind_ret in H as (n1 & V & H). injection H as <- <-.
    apply handle_vote_response_cases in V as [->|(_ & _ & _ & [[-> _]|[-> _]])]; done.
  - by eapply append_request_keeps_vote, handle_append_request_cases.
  - apply handle_append_response_cases in H as (n1 & w1 & R & U). apply append_response_keeps_vote in R as [R1 R2].
    apply trigger_entry_update_frame in U as (p & x & ->). done.
  - unfold handle_put_message in H. destruct (negb _) in H; [by injection H as <- <-|].
    apply add_log_entry_frame in H as (p & x & ->). done.
  - unfold handle_commit_message in H. destruct (negb _) in H; [by injection H as <- <-|].
    apply add_log_entry_frame in H as (p & x & ->). done.
  - apply open_queue_queue in H as [[q ->] _]. done.
Qed.

(** A vote request is granted exactly when [vote_cast] says so. *)
Lemma vote_request_cast now rid m ts (n n' : node) (w w' : Master C K) :
  io_context_ n = HandleMessage m :: ts -> type m = REQUEST_VOTE_REQUEST ->
  vote_request_result (get_vote_request m) (set_io_context_ ts n) w n' w' ->
  io_context_ n' = ts /\
  match vote_cast (TaskRuns now rid) n with
  | Some (t, c) => cur_term_ n <= t /\ cur_term_ n' = t /\ voted_for_ n' = c /\
      (t = cur_term_ n -> voted_for_ n = -1 \/ voted_for_ n = c) /\
      c = RequestVoteRequest_candidate_id (get_vote_request m) /\
      sent (partition_id_ n) w w' [(Some c, vote_response t 1)]
  | None => vote_kept n n' /\
      (cluster_manager_p_ w' = cluster_manager_p_ w \/
       exists c t, sent (partition_id_ n) w w' [(Some c, vote_response t 0)])
  end.
Proof.
  intros Q T R. unfold vote_cast. rewrite Q, (bool_decide_eq_true_2 _ T). cbn [andb].
  destruct R as [w1 G D|n1 L G1 G|n1 w1 L G D]; cbn in *.
  - split; [done|]. replace (_ && _) with false; [split; [by apply vote_kept_same|]|].
    + right. eexists _, _. exact (send_to_sent _ _ _ _ _ _ D).
    + symmetry. apply andb_false_iff. right. rewrite orb_false_iff, andb_false_iff, orb_false_iff, !Z.eqb_neq, Z.ltb_ge. lia.
  - rewrite (bool_decide_eq_true_2 _ L). cbn [negb andb]. destruct G as [[-> E]|[-> E]].
    + split; [done|]. split; [by apply vote_kept_same|by left].
    + split; [done|]. split; [right; cbn; lia|by left].
  - rewrite (bool_decide_eq_false_2 _ L). cbn [negb andb].
    assert (X : n1 = set_io_context_ ts n /\ RequestVoteRequest_term (get_vote_request m) = cur_term_ n /\
       (voted_for_ n = -1 \/ voted_for_ n = RequestVoteRequest_candidate_id (get_vote_request m)) \/
       n1 = set_votes_collected_ 0 (set_cur_term_ (RequestVoteRequest_term (get_vote_request m)) (set_io_context_ ts n)) /\
       cur_term_ n < RequestVoteRequest_term (get_vote_request m)) by exact G.
    replace (_ || _) with true.
    2:{ symmetry. rewrite orb_true_iff, andb_true_iff, orb_true_iff, !Z.eqb_eq, Z.ltb_lt. lia. }
    assert (P : partition_id_ n1 = partition_id_ n /\ io_context_ n1 = ts /\
      cur_term_ n1 = RequestVoteRequest_term (get_vote_request m)).
    { destruct X as [(-> & E & _)|[-> _]]; cbn; auto. }
    destruct P as (P & I & U). split; [exact I|]. split_and!; [lia|done|done|lia|done|].
    rewrite <- P. exact (send_to_sent _ _ _ _ _ _ D).
Qed.

(** The tasks that are left after a step. *)
Definition tasks_left (n n' : node) : Prop := io_context_ n' = io_context_ n \/ io_context_ n' = tail (io_context_ n).

Lemma node_step_vote e (n n' : node) (w w' : Master C K) :
  node_step e (n, w) = Ret (n', w') ->
  tasks_left n n' /\
  match vote_cast e n with
  | Some (t, c) => cur_term_ n <= t /\ cur_term_ n' = t /\ voted_for_ n' = c /\
      (t = cur_term_ n -> voted_for_ n = -1 \/ voted_for_ n = c) /\
      (c = node_id_ n \/ exists m ts, io_context_ n = HandleMessage m :: ts /\ type m = REQUEST_VOTE_REQUEST /\
         c = RequestVoteRequest_candidate_id (get_vote_request m))
  | None => vote_kept n n'
  end.
Proof.
  unfold node_step. destruct e as [now rid| |now| |].
  - unfold run_posted_task. destruct (io_context_ n) as [|[m|id] ts] eqn:Q; intros H.
    + injection H as <- <-. unfold vote_cast. rewrite Q. split; [by left|by apply vote_kept_same].
    + destruct (decide (type m = REQUEST_VOTE_REQUEST)) as [T|T].
      * pose proof H as R. unfold local_message_handler in R. rewrite T in R.
        apply handle_vote_request_cases, (vote_request_cast now rid m ts n n' w w' Q T) in R as [I R].
        split; [right; by rewrite Q|]. destruct (vote_cast _ n) as [[t c]|]; [|by destruct R].
        destruct R as (R1 & R2 & R3 & R4 & R5 & _). split_and!; try done. right. exists m, ts. done.
      * pose proof (local_message_handler_forward _ _ _ _ _ _ _ H) as F.
        destruct (handler_keeps_vote _ _ _ _ _ _ _ T H) as [V I]. cbn in V, I.
        unfold vote_cast. rewrite Q, (bool_decide_eq_false_2 _ T). cbn [andb].
        split; [right; by rewrite Q|]. apply (forward_kept n n'); [|done].
        destruct F. split; cbn in *; done.
    + apply handle_disconnect_queue in H as [[q ->] _]. unfold vote_cast. rewrite Q.
      split; [right; by rewrite Q|by apply vote_kept_same].
  - destruct (heartbeat_timer_ n); intros H; [|injection H as <- <-; split; [by left|by apply vote_kept_same]].
    apply on_heartbeat_timer_node in H as (m & ->). split; [by left|by apply vote_kept_same].
  - destruct (vote_timer_ n); intros H; [|injection H as <- <-; split; [by left|by apply vote_kept_same]].
    apply obind_ret in H as (n1 & V & H). injection H as <- <-.
    apply on_vote_timer_cases in V as [[-> _]|[-> _]]; (split; [by left|]); [by apply vote_kept_same|right; cbn; lia].
  - unfold vote_cast. destruct (vote_delays_ n); intros H; [injection H as <- <-; split; [by left|by apply vote_kept_same]|].
    apply on_vote_delay_cases in H as [(-> & _ & V)|(e & -> & V & _ & _)].
    + rewrite (proj2 (Z.eqb_neq _ _) V). split; [by left|by apply vote_kept_same].
    + rewrite (proj2 (Z.eqb_eq _ _) V). split; [by left|]. cbn. split_and!; auto; lia.
  - intros [= <- <-]. split; [left; by destruct (stats_timer_ n)|apply vote_kept_same; by destruct (stats_timer_ n)].
Qed.

Lemma forallb_tail {A : Type} (f : A -> bool) l : forallb f l = true -> forallb f (tail l) = true.
Proof. destruct l; cbn; [done|]. intros H. by apply andb_true_iff in H as [_ H]. Qed.

Lemma votes_inv_step e votes (n n' : node) (w w' : Master C K) :
  votes_inv votes n -> node_step e (n, w) = Ret (n', w') ->
  votes_inv (match vote_cast e n with Some v => v :: votes | None => votes end) n' /\
  (forall t c c', vote_cast e n = Some (t, c) -> (t, c') ∈ votes -> c = c').
Proof.
  intros I H. pose proof (fwd_node_id _ _ (node_step_forward _ _ _ _ _ H)) as N.
  apply node_step_vote in H as [Tk V]. pose proof I as (I1 & I2 & I3).
  assert (RT' : forallb real_task (io_context_ n') = true).
  { destruct Tk as [->| ->]; [done|by apply forallb_tail]. }
  destruct (vote_cast e n) as [[t c]|]; [|split; [by eapply vote_kept_inv|done]].
  destruct V as (V1 & V2 & V3 & V4 & V5).
  assert (RC : c <> -1).
  { destruct V5 as [->|(m & ts & Q & T & ->)]; [done|]. rewrite Q in I2. cbn in I2. apply andb_true_iff in I2 as [I2 _].
    unfold real_candidate in I2. rewrite (bool_decide_eq_true_2 _ T) in I2. cbn in I2.
    apply negb_true_iff in I2. by apply Z.eqb_neq in I2. }
  split.
  - split; [congruence|]. split; [done|]. intros t' c' [[= -> ->]|X]%elem_of_cons.
    + split_and!; [lia|done|done].
    + destruct (I3 t' c' X) as (L & E & NE). split_and!; [lia| |done]. intros Q.
      assert (t = cur_term_ n) by lia. assert (voted_for_ n = c') by (apply E; lia).
      destruct (V4 ltac:(done)); congruence.
  - intros t' c1 c2 [= <- <-] X. destruct (I3 t c2 X) as (L & E & NE). assert (t = cur_term_ n) by lia.
    assert (voted_for_ n = c2) by (apply E; lia). destruct (V4 ltac:(done)); congruence.
Qed.

Lemma votes_run ins votes (n n' : node) (w w' : Master C K) :
  votes_inv votes n -> forallb real_input ins = true -> node_run ins (n, w) = Ret (n', w') ->
  (forall t c c', (t, c) ∈ votes -> (t, c') ∈ votes -> c = c') ->
  forall t c c', (t, c) ∈ votes_of ins (n, w) ++ votes -> (t, c') ∈ votes_of ins (n, w) ++ votes -> c = c'.
Proof.
  revert votes n w. induction ins as [|i ins IH]; intros votes n w I R H U; cbn [node_run] in H; [exact U|].
  cbn [forallb] in R. apply andb_true_iff in R as [Ri R]. apply obind_ret in H as ([n1 w1] & E & H).
  assert (G : forall votes', votes_inv votes' n1 -> (forall t c c', (t, c) ∈ votes' -> (t, c') ∈ votes' -> c = c') ->
    forall t c c', (t, c) ∈ votes_of ins (n1, w1) ++ votes' -> (t, c') ∈ votes_of ins (n1, w1) ++ votes' -> c = c').
  { intros votes' I' U'. by apply (IH votes' n1 w1). }
  cbn [votes_of]. rewrite E. destruct i as [e|msg|id]; cbn [node_input_step] in E.
  - destruct (votes_inv_step e votes n n1 w w1 I E) as [I' V]. cbn [fst].
    destruct (vote_cast e n) as [[t0 c0]|]; [|by apply G].
    assert (P : forall x : Z * Z, (x ∈ ((t0, c0) :: votes_of ins (n1, w1)) ++ votes) <-> (x ∈ votes_of ins (n1, w1) ++ (t0, c0) :: votes)).
    { intros x. rewrite !elem_of_app, !elem_of_cons. tauto. }
    intros t c c'. rewrite !P. apply G; [done|]. intros t1 c1 c2 [X|X]%elem_of_cons [Y|Y]%elem_of_cons; simplify_eq; eauto.
    symmetry. eauto.
  - injection E as <- <-. apply G; [|exact U]. destruct I as (I1 & I2 & I3). split; [done|]. split; [|done]. cbn.
    rewrite forallb_app, I2. cbn. by rewrite andb_true_r.
  - injection E as <- <-. apply G; [|exact U]. destruct I as (I1 & I2 & I3). split; [done|]. split; [|done]. cbn.
    by rewrite forallb_app, I2.
Qed.
End Election.

(** Only vote responses make a leader. *)
Lemma handler_keeps_follower `{ClusterNodeStorageInterface St, ClusterManagerInterface C, ClientManagerInterface K,
    ProtobufRuntime} now rid m (n n' : ClusterNode St) (w w' : Master C K) :
  type m <> REQUEST_VOTE_RESPONSE -> local_message_handler now rid m (n, w) = Ret (n', w') ->
  state_ n' = LEADER -> state_ n = LEADER.
Proof.
  intros T. unfold local_message_handler. destruct (type m); intros S L; try done; try (by injection S as <- <-).
  - apply handle_vote_request_cases in S. revert L.
    destruct S as [|n1 Le G [[-> _]|[-> _]]|n1 w1 Le [(-> & _)|[-> _]] D]; done.
  - apply handle_append_request_cases in S. revert L.
    destruct S as [| |n1 w1 n2 x w2 _ _ F A _ _]; intros L; [done| |].
    + destruct (accept_leader_frame now (get_append_request m) n) as (st & E & [->|[-> _]]); rewrite E in L; cbn in L; congruence.
    + apply follow_leader_commit_frame in F as ((? & ? & ? & ->) & _). apply append_log_entries_frame in A as (log & _ & ->).
      destruct (accept_leader_frame now (get_append_request m) n) as (st & E & [->|[-> _]]); rewrite E in L; cbn in L; congruence.
  - apply handle_append_response_cases in S as (n1 & w1 & R & U). apply trigger_entry_update_frame in U as (p & x & ->).
    cbn in L. destruct R; [|done..].
    match goal with X : advance_commit _ _ = _ |- _ => apply advance_commit_frame in X as ((? & ? & ? & ->) & _) end. done.
  - unfold handle_put_message in S. destruct (negb _) in S; [by injection S as <- <-|].
    apply add_log_entry_frame in S as (p & x & ->). done.
  - unfold handle_commit_message in S. destruct (negb _) in S; [by injection S as <- <-|].
    apply add_log_entry_frame in S as (p & x & ->). done.
  - apply open_queue_queue in S as [[q ->] _]. done.
Qed.

(** A step that casts no vote. *)
Lemma no_vote_sent `{ClusterNodeStorageInterface St, CI : ClusterManagerInterface C, CL : !ClusterManagerLaws C,
    ClientManagerInterface K, ProtobufRuntime}
    (e : node_event) (n n' : ClusterNode St) (w w' : Master C K) :
  node_step e (n, w) = Ret (n', w') -> vote_cast e n = None ->
  exists ms, sent (partition_id_ n) w w' ms /\ Forall (fun m => ~ is_vote m) ms.
Proof.
  assert (Q : forall u u' : Master C K, cluster_manager_p_ u' = cluster_manager_p_ u ->
    exists ms, sent (partition_id_ n) u u' ms /\ Forall (fun m => ~ is_vote m) ms).
  { intros u u' E. exists []. split; [by apply sent_nil|constructor]. }
  assert (LM : (exists ms, sent (partition_id_ n) w w' ms /\ Forall (log_message n') ms) ->
    exists ms, sent (partition_id_ n) w w' ms /\ Forall (fun m => ~ is_vote m) ms).
  { intros (ms & S & M). exists ms. split; [done|]. eapply Forall_impl; [exact M|]. intros [f m] (_ & N1 & N2). by apply not_vote. }
  unfold node_step. destruct e as [now rid| |now| |]; intros S VC.
  - unfold run_posted_task in S. destruct (io_context_ n) as [|[m|id] ts] eqn:T; [injection S as <- <-; by apply Q| |].
    + destruct (decide (type m = REQUEST_VOTE_REQUEST)) as [Ty|Ty]; [|apply LM; by apply handler_log_sent in S].
      unfold local_message_handler in S. rewrite Ty in S.
      apply handle_vote_request_cases, (vote_request_cast now rid m ts n n' w w' T Ty) in S as [_ R]. rewrite VC in R.
      destruct R as [_ [R|(c & t & R)]]; [by apply Q|]. eexists. split; [exact R|]. constructor; [|constructor].
      apply refusal_not_vote.
    + apply handle_disconnect_queue in S as [_ S]. by apply Q.
  - destruct (heartbeat_timer_ n); [|injection S as <- <-; by apply Q]. apply LM. by apply heartbeat_sent.
  - destruct (vote_timer_ n); [|injection S as <- <-; by apply Q].
    apply obind_ret in S as (n1 & V & S). injection S as <- <-. by apply Q.
  - unfold vote_cast in VC. destruct (vote_delays_ n); [injection S as <- <-; by apply Q|].
    apply on_vote_delay_cases in S as [(_ & -> & _)|(e & _ & V & _)]; [by apply Q|].
    rewrite (proj2 (Z.eqb_eq _ _) V) in VC. discriminate.
  - injection S as <- <-. by apply Q.
Qed.

(** ** Properties *)

(** A node of a cluster of three, with in-memory storage and real managers,
    used by the witnesses. *)
Definition demo_node (st : State) (term voted_for : Z) (log : list LogEntry) (tasks : list node_task)
    : ClusterNode ClusterNodeStorageMock :=
  mkClusterNode 7 0 3 tasks st CheckHeartbeat true true 1 term (-1) 0 0 voted_for log 0 0
    {[ 1 := 1; 2 := 1 ]} {[ 1 := 0; 2 := 0 ]} ∅ (mkClusterNodeStorageMock 7 0) MessageQueue_new.

Definition demo_master : Master (ClusterManager nat) ClientManager :=
  mkMaster (ClusterManager_new demo_endpoints) ClientManager_new demo_config.

Definition demo_vote_request (term candidate : Z) : RaftMessage :=
  set_partition_id 7 (loadVoteRequest (RequestVoteRequest_set_last_log_term 0 (RequestVoteRequest_set_last_log_index 0
    (RequestVoteRequest_set_candidate_id candidate (RequestVoteRequest_set_term term RequestVoteRequest_new)))) RaftMessage_new).

Definition encode_demo (r : RaftMessage) : Message :=
  match serialize_as_message r with Ret m => m | Fault _ => mkMessage 0 [] end.

(** Two candidates of term 5 ask, then the delay of an own candidacy ends. *)
Definition demo_inputs : list node_input :=
  [MessageArrives (encode_demo (demo_vote_request 5 1)); MessageArrives (encode_demo (demo_vote_request 5 2));
   Step (TaskRuns 0 0); Step (TaskRuns 0 0); Step VoteDelay; Step (VoteTimerFires 0)].

(** The votes a node casts in a run are for one candidate in each term. *)
Lemma votes_unique `{ClusterNodeStorageInterface St, CI : ClusterManagerInterface C, CL : !ClusterManagerLaws C,
    ClientManagerInterface K, ProtobufRuntime}
    (ins : list node_input) (n n' : ClusterNode St) (w w' : Master C K) :
  node_id_ n <> -1 -> forallb real_task (io_context_ n) = true -> forallb real_input ins = true ->
  node_run ins (n, w) = Ret (n', w') ->
  forall t c c', (t, c) ∈ votes_of ins (n, w) -> (t, c') ∈ votes_of ins (n, w) -> c = c'.
Proof.
  intros I R RI H2 t c c' X Y.
  apply (votes_run ins [] n n' w w' ltac:(split; [done|split; [done|intros ? ? Z; by apply not_elem_of_nil in Z]]) RI H2
    ltac:(intros ? ? ? Z; by apply not_elem_of_nil in Z) t c c'); by rewrite app_nil_r.
Qed.

(** A vote is what is sent: the step in which a node votes for another
    candidate sends it, and only it, a granted answer for that term; a step
    that casts no vote sends neither a granted answer nor a vote request. *)
Theorem vote_is_sent `{ClusterNodeStorageInterface St, CI : ClusterManagerInterface C, CL : !ClusterManagerLaws C,
    ClientManagerInterface K, ProtobufRuntime}
    (e : node_event) (n n' : ClusterNode St) (w w' : Master C K) :
  node_step e (n, w) = Ret (n', w') ->
  match vote_cast e n with
  | Some (t, c) => voted_for_ n' = c /\ cur_term_ n' = t /\
      match e with
      | TaskRuns _ _ => sent (partition_id_ n) w w' [(Some c, vote_response t 1)]
      | _ => c = node_id_ n /\ exists l, last (log_entries_ n) = Some l /\
          sent (partition_id_ n) w w' [(None, loadVoteRequest (vote_request n' l) RaftMessage_new)]
      end
  | None => exists ms, sent (partition_id_ n) w w' ms /\ Forall (fun m => ~ is_vote m) ms
  end.
Proof.
  intros S. pose proof (node_step_vote _ _ _ _ _ S) as [_ V]. 
  destruct (vote_cast e n) as [[t c]|] eqn:VC.
  - destruct V as (_ & V1 & V2 & _). split; [done|]. split; [done|]. unfold vote_cast in VC.
    destruct e; try discriminate.
    + unfold node_step, run_posted_task in S. destruct (io_context_ n) as [|[m|] ts] eqn:Q; try discriminate.
      destruct (bool_decide (type m = REQUEST_VOTE_REQUEST)) eqn:T; [|discriminate]. apply bool_decide_eq_true_1 in T.
      unfold local_message_handler in S. rewrite T in S.
      apply handle_vote_request_cases, (vote_request_cast now random_id m ts n n' w w' Q T) in S as [_ R].
      unfold vote_cast in R. rewrite Q, (bool_decide_eq_true_2 _ T) in R. rewrite VC in R. tauto.
    + unfold node_step in S. destruct (vote_delays_ n); [discriminate|].
      destruct (voted_for_ n =? -1) eqn:X; [|discriminate]. injection VC as <- <-. split; [done|].
      apply on_vote_delay_cases in S as [(_ & _ & Y)|(l & E & _ & L & D)]; [apply Z.eqb_eq in X; done|].
      exists l. split; [done|]. assert (P : partition_id_ n = partition_id_ n') by (by rewrite E). rewrite P.
      replace (vote_request n' l) with (vote_request n l) by (by rewrite E). exact (send_all_sent _ _ _ _ _ D).
  - exact (no_vote_sent e n n' w w' S VC).
Qed.

Lemma vote_is_sent_witness :
  let n := demo_node FOLLOWER 4 (-1) [dummy_entry] [HandleMessage (demo_vote_request 5 2)] in
  exists n' w', node_step (TaskRuns 0 0) (n, demo_master) = Ret (n', w') /\
    voted_for_ n' = 2 /\ sent 7 demo_master w' [(Some 2, vote_response 5 1)].
Proof.
  intros n. destruct (node_step (TaskRuns 0 0) (n, demo_master)) as [[n' w']|] eqn:E; [|vm_compute in E; discriminate].
  exists n', w'. split; [reflexivity|]. pose proof (vote_is_sent (TaskRuns 0 0) n n' demo_master w' E) as H.
  replace (vote_cast (TaskRuns 0 0) n) with (Some (5, 2)) in H by (vm_compute; reflexivity).
  destruct H as (H1 & _ & H2). split; [exact H1|exact H2].
Defined.

(** A node only moves forward: over any run its term and its commit index
    never decrease, and its identity, the size of its cluster and its partition
    never change. *)
Theorem node_moves_forward `{ClusterNodeStorageInterface St, ClusterManagerInterface C, ClientManagerInterface K,
    ProtobufRuntime} (ins : list node_input) (n n' : ClusterNode St) (w w' : Master C K) :
  node_run ins (n, w) = Ret (n', w') ->
  cur_term_ n <= cur_term_ n' /\ commit_index_ n <= commit_index_ n' /\
  node_id_ n' = node_id_ n /\ total_nodes_ n' = total_nodes_ n /\ partition_id_ n' = partition_id_ n.
Proof. intros R. by destruct (node_run_forward ins n n' w w' R). Qed.

Lemma node_moves_forward_witness :
  exists n' w', node_run demo_inputs (demo_node CANDIDATE 4 0 [dummy_entry] [], demo_master) = Ret (n', w') /\
    4 <= cur_term_ n'.
Proof.
  destruct (node_run demo_inputs (demo_node CANDIDATE 4 0 [dummy_entry] [], demo_master)) as [[n' w']|] eqn:E;
    [|vm_compute in E; discriminate].
  exists n', w'. split; [reflexivity|].
  destruct (node_moves_forward demo_inputs _ n' demo_master w' E) as [L _]. exact L.
Defined.

(** C9: a node becomes leader in one way only: it is a candidate, the step
    handles a granted vote response whose term is not behind its own, and with
    it the votes it has collected are more than half of the cluster. *)
Theorem leader_needs_majority `{ClusterNodeStorageInterface St, ClusterManagerInterface C, ClientManagerInterface K,
    ProtobufRuntime} (e : node_event) (n n' : ClusterNode St) (w w' : Master C K) :
  node_step e (n, w) = Ret (n', w') -> state_ n <> LEADER -> state_ n' = LEADER ->
  exists now rid m ts, e = TaskRuns now rid /\ io_context_ n = HandleMessage m :: ts /\
    type m = REQUEST_VOTE_RESPONSE /\ state_ n = CANDIDATE /\
    let resp := get_vote_response m in
    RequestVoteResponse_vote_result_term_granted resp <> 0 /\ cur_term_ n <= RequestVoteResponse_term resp /\
    cur_term_ n' = RequestVoteResponse_term resp /\ total_nodes_ n ÷ 2 < votes_collected_ n' /\
    votes_collected_ n' = votes_collected_ n + (if RequestVoteResponse_vote_result_term_granted resp =? 1 then 1 else 0).
Proof.
  intros S L L'. unfold node_step in S. destruct e as [now rid| |now| |].
  - exists now, rid. unfold run_posted_task in S. destruct (io_context_ n) as [|[m|id] ts] eqn:T.
    + by injection S as <- <-.
    + exists m, ts. split; [done|]. split; [done|].
      destruct (decide (type m = REQUEST_VOTE_RESPONSE)) as [Ty|Ty].
      * unfold local_message_handler in S. rewrite Ty in S. apply obind_ret in S as (n1 & V & S). injection S as -> <-.
        apply handle_vote_response_cases in V as [->|(Ca & G1 & G2 & [[-> _]|[-> M]])]; [done|done|].
        cbn in *. split_and!; try done. case_match; lia.
      * exfalso. apply L. by apply (handler_keeps_follower now rid m (set_io_context_ ts n) n' w w').
    + apply handle_disconnect_queue in S as [[q ->] _]. done.
  - destruct (heartbeat_timer_ n); [|by injection S as <- <-]. apply on_heartbeat_timer_node in S as (m & ->). done.
  - destruct (vote_timer_ n); [|by injection S as <- <-]. apply obind_ret in S as (n1 & V & S). injection S as -> <-.
    apply on_vote_timer_cases in V as [[-> _]|[-> _]]; done.
  - destruct (vote_delays_ n); [by injection S as <- <-|].
    apply on_vote_delay_cases in S as [(-> & _ & _)|(l & -> & _)]; done.
  - injection S as <- <-. by destruct (stats_timer_ n).
Qed.

Lemma leader_needs_majority_witness :
  let n := set_votes_collected_ 1 (demo_node CANDIDATE 5 0 [dummy_entry] [HandleMessage (vote_response 5 1)]) in
  exists n' w', node_step (TaskRuns 0 0) (n, demo_master) = Ret (n', w') /\ state_ n' = LEADER /\
    total_nodes_ n ÷ 2 < votes_collected_ n'.
Proof.
  intros n. destruct (node_step (TaskRuns 0 0) (n, demo_master)) as [[n' w']|] eqn:E; [|vm_compute in E; discriminate].
  exists n', w'. split; [reflexivity|].
  assert (L : state_ n' = LEADER) by (vm_compute in E; injection E as <- <-; reflexivity).
  split; [exact L|].
  destruct (leader_needs_majority (TaskRuns 0 0) n n' demo_master w' E) as (now & rid & m & ts & _ & _ & _ & _ & _ & _ & _ & M & _).
  - discriminate.
  - exact L.
  - exact M.
Defined.

(** A leader that learns of a newer term does not step down: on a vote
    request of a higher term it takes over the term, gives no answer and stays
    leader, so it goes on sending append requests as the leader of a term it was
    never elected in, next to the leader the other nodes elect. *)
Theorem leader_survives_newer_term `{ClusterNodeStorageInterface St, ClusterManagerInterface C,
    ClientManagerInterface K, ProtobufRuntime} (req : RequestVoteRequest) (n : ClusterNode St) (w : Master C K) :
  state_ n = LEADER -> cur_term_ n < RequestVoteRequest_term req ->
  exists n', handle_vote_request req (n, w) = Ret (n', w) /\
    state_ n' = LEADER /\ cur_term_ n' = RequestVoteRequest_term req /\ node_id_ n' = node_id_ n.
Proof.
  intros L T. exists (set_votes_collected_ 0 (set_cur_term_ (RequestVoteRequest_term req) n)).
  split; [|done]. unfold handle_vote_request.
  rewrite (proj2 (Z.ltb_ge _ _)) by lia. rewrite (proj2 (Z.eqb_neq (RequestVoteRequest_term req) _)) by lia. cbn [orb andb].
  rewrite (proj2 (Z.ltb_lt _ _)) by lia. cbn [state_ set_votes_collected_ set_cur_term_].
  rewrite L. reflexivity.
Qed.

Lemma leader_survives_newer_term_witness :
  exists n', handle_vote_request (get_vote_request (demo_vote_request 9 2))
      (demo_node LEADER 5 0 [dummy_entry] [], demo_master) = Ret (n', demo_master) /\
    state_ n' = LEADER /\ cur_term_ n' = 9 /\ node_id_ n' = 0.
Proof. apply leader_survives_newer_term; reflexivity. Defined.

(** A node that is not the leader acts as one: it handles append responses
    whatever its role, so a follower or candidate to which a late rejection
    arrives sends an append request in the current term, with itself as leader,
    for the entry before the one it last tried. *)
Theorem follower_sends_append_request `{ClusterNodeStorageInterface St, CI : ClusterManagerInterface C,
    CL : !ClusterManagerLaws C, ClientManagerInterface K, ProtobufRuntime}
    (f x : Z) (resp : AppendEntriesResponse) (n n' : ClusterNode St) (w w' : Master C K) (prev entry : LogEntry) :
  state_ n <> LEADER -> AppendEntriesResponse_append_result_success resp = 0 ->
  AppendEntriesResponse_term resp <= cur_term_ n -> AppendEntriesResponse_follower_id resp = f ->
  next_index_ n !! f = Some x -> 2 <= x < zlength (log_entries_ n) -> zlength (log_entries_ n) <= INT_MAX ->
  0 <= map_at 0 (pending_append_reqs_ n) f < MAX_PENDING_APPEND ->
  log_entries_ n !! Z.to_nat (x - 2) = Some prev -> log_entries_ n !! Z.to_nat (x - 1) = Some entry ->
  handle_append_response resp (n, w) = Ret (n', w') ->
  state_ n' = state_ n /\
  sent (partition_id_ n) w w' [(Some f, loadAppendEntriesRequest (entry_request n (x - 2) prev entry) RaftMessage_new)] /\
  AppendEntriesRequest_leader_id (entry_request n (x - 2) prev entry) = node_id_ n /\
  AppendEntriesRequest_term (entry_request n (x - 2) prev entry) = cur_term_ n.
Proof.
  intros L S T F X R Z P E1 E2 HR. unfold MAX_PENDING_APPEND, zlength, INT_MAX in *. unfold handle_append_response in HR.
  rewrite F, S in HR.
  assert (Sub : forall a, 0 <= a <= 2147483647 -> int_sub a 1 = Ret (a - 1)).
  { intros a Ra. unfold int_sub, int_checked. by rewrite (proj2 (int32_spec (a - 1))) by (unfold INT_MIN, INT_MAX; lia). }
  rewrite Sub in HR by lia. cbn [obind Z.eqb negb] in HR.
  cbn [next_index_ set_pending_append_reqs_ pending_append_reqs_ cur_term_] in HR.
  rewrite (proj2 (Z.ltb_ge _ _)) in HR by (exact T).
  assert (MX : map_at 0 (next_index_ n) f = x) by (unfold map_at; by rewrite X). rewrite MX in HR.
  rewrite Sub in HR by lia. cbn [obind] in HR. rewrite Z.max_r in HR by lia.
  rewrite trigger_entry_update_eq in HR. cbv zeta in HR.
  cbn [next_index_ set_next_index_ log_entries_ set_pending_append_reqs_ pending_append_reqs_] in HR.
  assert (M1 : forall v m, map_at 0 (<[f := v]> m) f = v) by (intros v m; unfold map_at; by rewrite lookup_insert_eq).
  rewrite !M1 in HR. unfold zlength in HR. rewrite to_int_small in HR by (unfold INT_MAX; lia).
  rewrite !(proj2 (Z.leb_le _ _)) in HR by lia. cbn [andb] in HR.
  replace (x - 1 - 1) with (x - 2) in HR by lia.
  rewrite (proj2 (vec_at_ret _ _ prev)) in HR by (split; [lia|exact E1]). cbn [obind] in HR.
  rewrite (proj2 (vec_at_ret _ _ entry)) in HR by (split; [lia|exact E2]). cbn [obind] in HR.
  rewrite (proj2 (Z.ltb_lt _ _)) in HR by (unfold MAX_PENDING_APPEND; lia).
  apply obind_ret in HR as ([n2 w2] & D & HR). pose proof (send_to_node _ _ _ _ _ _ D) as ->. injection HR as <- <-.
  split; [reflexivity|]. split; [exact (send_to_sent _ _ _ _ _ _ D)|]. split; reflexivity.
Qed.

Lemma follower_sends_append_request_witness :
  let log := [dummy_entry; demo_entry 1 1 5 []; demo_entry 2 1 6 []; demo_entry 3 4 7 []] in
  let n := set_next_index_ {[ 1 := 3; 2 := 1 ]} (demo_node FOLLOWER 6 2 log []) in
  let resp := AppendEntriesResponse_set_follower_id 1 (AppendEntriesResponse_set_term 4 AppendEntriesResponse_new) in
  exists n' w', handle_append_response resp (n, demo_master) = Ret (n', w') /\ state_ n' = FOLLOWER /\
    sent 7 demo_master w' [(Some 1, loadAppendEntriesRequest
      (entry_request n 1 (demo_entry 1 1 5 []) (demo_entry 2 1 6 [])) RaftMessage_new)].
Proof.
  intros log n resp.
  destruct (handle_append_response resp (n, demo_master)) as [[n' w']|] eqn:E; [|vm_compute in E; discriminate].
  exists n', w'. split; [reflexivity|].
  destruct (follower_sends_append_request 1 3 resp n n' demo_master w' (demo_entry 1 1 5 []) (demo_entry 2 1 6 [])
    ltac:(discriminate) eq_refl ltac:(vm_compute; discriminate) eq_refl eq_refl
    ltac:(vm_compute; split; [discriminate|reflexivity]) ltac:(vm_compute; discriminate)
    ltac:(vm_compute; split; [discriminate|reflexivity]) eq_refl eq_refl E) as (H1 & H2 & _).
  split; [exact H1|exact H2].
Defined.
