(* ===== verification/NodeLog.v ===== *)
(** * The log of a node

    [append_log_entries] against the reference rule of Raft, the positions and
    indices of the log, and what a step may do to it. *)

From S2P Require Import Prelude MessageQueue WireFormat FlowTypes FlowCodec FlowCodecFacts RaftMessage LogStorage ClusterManager ClientManager Configuration ClusterNode ClusterNodeFacts NodeElection.

Local Open Scope Z_scope.

(** ** The reference rule

    From position [pos] on, entries that are there with the same term stay;
    at the first conflict the log is cut and the rest of the request appended;
    past the end the rest is appended. *)
Fixpoint raft_append (log : list LogEntry) (pos : nat) (es : list LogEntry) : list LogEntry :=
  match es with
  | [] => log
  | e :: es' =>
      match log !! pos with
      | None => log ++ es
      | Some old => if LogEntry_term old =? LogEntry_term e then raft_append log (S pos) es' else take pos log ++ es
      end
  end.

(** Entries of two logs agree on their terms where both have one. *)
Definition terms_match (log : list LogEntry) (pos : nat) (es : list LogEntry) : Prop :=
  forall i e old, es !! i = Some e -> log !! (pos + i)%nat = Some old -> LogEntry_term old = LogEntry_term e.

Lemma raft_append_cases log pos es :
  (pos <= length log)%nat ->
  (raft_append log pos es = log /\ terms_match log pos es /\ (pos + length es <= length log)%nat) \/
  exists k, (k < length es)%nat /\ raft_append log pos es = take (pos + k) log ++ drop k es /\
    terms_match log pos (take k es) /\ (pos + k <= length log)%nat /\
    (forall e old, es !! k = Some e -> log !! (pos + k)%nat = Some old -> LogEntry_term old <> LogEntry_term e).
Proof.
  revert pos. induction es as [|e es IH]; intros pos L; simpl.
  { left. split_and!; [done| |simpl; lia]. intros i x old X. done. }
  destruct (log !! pos) as [old|] eqn:E.
  - pose proof (lookup_lt_Some _ _ _ E) as Lt. destruct (Z.eqb_spec (LogEntry_term old) (LogEntry_term e)) as [T|T].
    + destruct (IH (S pos)) as [(-> & M & Le)|(k & Lk & -> & M & Le & N)]; [lia| |].
      * left. split_and!; [done| |simpl; lia]. intros [|i] x o X O; simpl in X.
        -- rewrite Nat.add_0_r in O. congruence.
        -- eapply M; [done|]. by rewrite Nat.add_succ_comm.
      * right. exists (S k). simpl. rewrite <- Nat.add_succ_comm. split_and!; [lia|done| |done|done].
        intros [|i] x o X O; simpl in X.
        -- rewrite Nat.add_0_r in O. congruence.
        -- eapply M; [done|]. by rewrite Nat.add_succ_comm.
    + right. exists O. rewrite Nat.add_0_r. split_and!; [lia|done| |done|].
      * intros i x o X. by rewrite take_0 in X.
      * simpl. congruence.
  - apply lookup_ge_None in E. right. exists O. rewrite Nat.add_0_r, take_ge by lia. split_and!; [lia|done| |lia|].
    + intros i x o X. by rewrite take_0 in X.
    + intros x o _ O. apply lookup_lt_Some in O. lia.
Qed.

(** The code follows the rule. *)
Lemma append_loop_rule i last es log :
  0 <= i -> 0 <= last -> last + 1 + i <= zlength log <= INT_MAX -> last + 1 + i + zlength es <= INT_MAX ->
  append_loop i last es log = Ret (raft_append log (Z.to_nat (last + 1 + i)) es).
Proof.
  revert i log. induction es as [|e es IH]; intros i log Hi Hl L SZ; [done|].
  unfold zlength in *. simpl length in SZ. unfold INT_MAX in *.
  cbn [append_loop raft_append]. unfold zlength in *.
  assert (A : forall a b, -2147483648 <= a + b <= 2147483647 -> int_add a b = Ret (a + b)).
  { intros a b R. unfold int_add, int_checked. by rewrite (proj2 (int32_spec (a + b))) by (unfold INT_MIN, INT_MAX; lia). }
  rewrite A by lia. cbn [obind]. rewrite A by lia. cbn [obind].
  replace (i + last + 1) with (last + 1 + i) by lia. rewrite to_int_small by (unfold INT_MAX; lia).
  destruct (log !! Z.to_nat (last + 1 + i)) as [old|] eqn:E.
  - pose proof (lookup_lt_Some _ _ _ E) as Lt. rewrite (proj2 (Z.ltb_ge _ _)) by lia.
    assert (V : vec_at log (last + 1 + i) = Ret old) by (apply vec_at_ret; auto with lia). rewrite V. cbn [obind].
    destruct (LogEntry_term old =? LogEntry_term e); cbn [obind].
    + rewrite IH by (unfold INT_MAX; lia). do 2 f_equal. lia.
    + unfold clean_log_entries_out_of_sync, zlength. rewrite !(proj2 (Z.leb_le _ _)) by lia. cbn [andb obind].
      set (log' := take (Z.to_nat (last + 1 + i)) log ++ [e]).
      assert (L' : length log' = S (Z.to_nat (last + 1 + i))) by (unfold log'; rewrite length_app, length_take; simpl; lia).
      rewrite IH by (rewrite ?L'; unfold INT_MAX; lia). f_equal.
      destruct es as [|e' es]; [done|]. cbn [raft_append]. rewrite lookup_ge_None_2 by lia.
      unfold log'. by rewrite <- app_assoc.
  - apply lookup_ge_None in E. rewrite (proj2 (Z.ltb_lt _ _)) by lia. cbn [obind].
    assert (L' : length (log ++ [e]) = S (length log)) by (rewrite length_app; simpl; lia).
    rewrite IH by (rewrite ?L'; unfold INT_MAX; lia). f_equal.
    destruct es as [|e' es]; [done|]. cbn [raft_append]. rewrite lookup_ge_None_2 by lia. by rewrite <- app_assoc.
Qed.

(** ** Positions and indices *)

(** Entry [i] of the log has index [i]. *)
Definition indexed_from (start : Z) (es : list LogEntry) : Prop :=
  forall i e, es !! i = Some e -> LogEntry_index e = start + Z.of_nat i.

Record log_wf (log : list LogEntry) : Prop := {
  log_nonempty : (0 < length log)%nat;
  log_indexed : indexed_from 0 log
}.

Lemma indexed_app start a b :
  indexed_from start (a ++ b) <-> indexed_from start a /\ indexed_from (start + zlength a) b.
Proof.
  unfold indexed_from, zlength. split.
  - intros H. split; intros i e X.
    + apply H. by apply lookup_app_l_Some.
    + rewrite (H (length a + i)%nat); [lia|]. by rewrite lookup_app_r, Nat.add_comm, Nat.add_sub by lia.
  - intros [H1 H2] i e [X|[L X]]%lookup_app_Some; [by apply H1|]. rewrite (H2 _ _ X). lia.
Qed.

Lemma indexed_take start k es : indexed_from start es -> indexed_from start (take k es).
Proof. intros H i e X. apply H. apply lookup_take_Some in X. tauto. Qed.

Lemma indexed_drop start k es : indexed_from start es -> indexed_from (start + Z.of_nat k) (drop k es).
Proof. intros H i e X. rewrite lookup_drop in X. rewrite (H _ _ X). lia. Qed.

Lemma raft_append_wf log pos es :
  log_wf log -> (0 < pos <= length log)%nat -> indexed_from (Z.of_nat pos) es -> log_wf (raft_append log pos es).
Proof.
  intros [N I] L E. destruct (raft_append_cases log pos es) as [(-> & _)|(k & Lk & -> & _ & Le & _)]; [lia|done|].
  split; [rewrite length_app, length_take; lia|]. apply indexed_app. split; [by apply indexed_take|].
  replace (0 + zlength (take (pos + k) log)) with (Z.of_nat pos + Z.of_nat k)
    by (unfold zlength; rewrite length_take; lia). by apply indexed_drop.
Qed.

(** The positions before [pos] stay. *)
Lemma raft_append_prefix log pos es :
  (pos <= length log)%nat -> take pos (raft_append log pos es) = take pos log.
Proof.
  intros L. destruct (raft_append_cases log pos es L) as [(-> & _)|(k & _ & -> & _ & Le & _)]; [done|].
  rewrite take_app_le by (rewrite length_take; lia). by rewrite take_take, Nat.min_l by lia.
Qed.

(** The entries of the request are there, as far as their terms tell. *)
Lemma raft_append_holds log pos es i e :
  (pos <= length log)%nat -> es !! i = Some e ->
  exists e', raft_append log pos es !! (pos + i)%nat = Some e' /\ LogEntry_term e' = LogEntry_term e.
Proof.
  intros L X. pose proof (lookup_lt_Some _ _ _ X) as Lt.
  destruct (raft_append_cases log pos es L) as [(-> & M & Le)|(k & Lk & -> & M & Le & _)].
  - destruct (lookup_lt_is_Some_2 log (pos + i)) as [o O]; [lia|]. exists o. split; [done|by eapply M].
  - destruct (decide (i < k)%nat) as [I|I].
    + destruct (lookup_lt_is_Some_2 log (pos + i)) as [o O]; [lia|]. exists o. split.
      * rewrite lookup_app_l by (rewrite length_take; lia). by rewrite lookup_take_lt by lia.
      * eapply M; [|done]. by rewrite lookup_take_lt by lia.
    + exists e. split; [|done]. rewrite lookup_app_r by (rewrite length_take; lia).
      rewrite lookup_drop, length_take. rewrite <- X. f_equal. lia.
Qed.

(** ** Log matching

    Two logs match when an entry of the same term at the same position means
    that they agree up to there. *)
Definition logs_match (a b : list LogEntry) : Prop :=
  forall i x y, a !! i = Some x -> b !! i = Some y -> LogEntry_term x = LogEntry_term y -> take (S i) a = take (S i) b.

Lemma logs_match_sym a b : logs_match a b -> logs_match b a.
Proof. intros H i x y X Y T. symmetry. by eapply H. Qed.

(** The reference rule applied to a piece of the leader's log: the follower
    agrees with the leader up to the end of the piece, and still matches it. *)
Lemma raft_append_matching (leader log : list LogEntry) (pos m : nat) :
  logs_match leader log -> take pos leader = take pos log -> (pos <= length log)%nat -> (pos + m <= length leader)%nat ->
  let log' := raft_append log pos (take m (drop pos leader)) in
  take (pos + m) log' = take (pos + m) leader /\ logs_match leader log'.
Proof.
  intros M P L Lm. set (es := take m (drop pos leader)). cbv zeta.
  assert (ES : length es = m) by (unfold es; rewrite length_take, length_drop; lia).
  assert (LK : forall i, (i < m)%nat -> es !! i = leader !! (pos + i)%nat).
  { intros i Hi. unfold es. by rewrite lookup_take_lt, lookup_drop by lia. }
  assert (AG : forall k, (k <= m)%nat -> (pos + k <= length log)%nat -> terms_match log pos (take k es) ->
    take (pos + k) leader = take (pos + k) log).
  { intros k Hk Lk T. destruct k as [|k]; [by rewrite Nat.add_0_r|]. rewrite Nat.add_succ_r.
    destruct (lookup_lt_is_Some_2 log (pos + k)) as [y Y]; [lia|].
    destruct (lookup_lt_is_Some_2 leader (pos + k)) as [x X]; [lia|].
    eapply M; [done|done|]. symmetry. eapply T; [|done].
    rewrite lookup_take_lt, LK by lia. done. }
  destruct (raft_append_cases log pos es L) as [(-> & T & Le)|(k & Lk & -> & T & Le & _)].
  - split; [|done]. symmetry. apply AG; [done|lia|]. by rewrite take_ge by lia.
  - assert (E : take (pos + k) log ++ drop k es = take (pos + m) leader).
    { rewrite <- (AG k) by (done || lia). unfold es. rewrite skipn_firstn_comm, drop_drop, take_take_drop. f_equal. lia. }
    rewrite E. split; [by rewrite take_take, Nat.min_id|].
    intros i x y X Y _. rewrite take_take. apply lookup_lt_Some in Y. rewrite length_take in Y. by rewrite Nat.min_l by lia.
Qed.

(** One entry is appended after the previous one, or was there already. *)
Lemma append_loop_one prev e log log' :
  0 <= prev < zlength log -> zlength log <= INT_MAX -> append_loop 0 prev [e] log = Ret log' ->
  log' = log \/ log' = take (S (Z.to_nat prev)) log ++ [e].
Proof.
  intros P L A. cbn [append_loop] in A. apply obind_ret in A as (x & X & A). apply int_add_ret in X as [-> _].
  apply obind_ret in A as (y & Y & A). apply int_add_ret in Y as [-> _]. apply obind_ret in A as (log1 & B & A). injection A as <-.
  rewrite to_int_small in B by lia. unfold zlength in *. destruct (_ <? _) eqn:G.
  - injection B as <-. right. apply Z.ltb_lt in G. by rewrite take_ge by lia.
  - apply obind_ret in B as (old & _ & B). destruct (_ =? _); [injection B as <-; by left|]. apply obind_ret in B as (log2 & D & B).
    injection B as <-. right. unfold clean_log_entries_out_of_sync in D. destruct (_ && _); [|done]. injection D as <-.
    do 2 f_equal. lia.
Qed.

Section NodeLog.
Context {St C K : Type}.
Context `{SI : ClusterNodeStorageInterface St, CI : ClusterManagerInterface C, KI : ClientManagerInterface K,
  RT : ProtobufRuntime}.
Abbreviation node := (ClusterNode St).
Abbreviation nstate := (node * Master C K)%type.

Lemma in_sync_spec t i (n : node) :
  check_if_previous_log_in_sync t i n = Ret true -> zlength (log_entries_ n) <= INT_MAX ->
  0 <= i < zlength (log_entries_ n) /\ exists e, log_entries_ n !! Z.to_nat i = Some e /\ LogEntry_term e = t.
Proof.
  unfold check_if_previous_log_in_sync. intros H L. inv_ret. rewrite to_int_small in H by (split; [apply zlength_nonneg|done]).
  split_if; [done|]. inv_ret. to_prop. unfold zlength in *. split; [lia|]. eauto.
Qed.

(** ** What a step does to the log *)

(** What a client's request at the head of the queue asks to be logged. *)
Definition from_client (n : node) (op id : Z) (msg : bytes) : Prop :=
  exists m ts, io_context_ n = HandleMessage m :: ts /\
    (type m = CLIENT_PUT_MESSAGE /\ op = LogEntry_ADD /\ msg = ClientPutMessage_message (get_put_message_request m) \/
     type m = CLIENT_COMMIT_MESSAGE /\ op = LogEntry_COMMIT /\ msg = [] /\
       id = ClientCommitMessage_message_id (get_commit_message_request m)).

Inductive log_step (n : node) : list LogEntry -> Prop :=
  | log_same : log_step n (log_entries_ n)
  | log_new_entry op id msg : state_ n = LEADER -> from_client n op id msg -> log_step n (log_entries_ n ++ [new_entry op id msg n])
  | log_from_leader m ts log :
      io_context_ n = HandleMessage m :: ts -> type m = APPEND_ENTRIES_REQUEST ->
      cur_term_ n <= AppendEntriesRequest_term (get_append_request m) ->
      check_if_previous_log_in_sync (AppendEntriesRequest_prev_log_term (get_append_request m))
        (AppendEntriesRequest_prev_log_index (get_append_request m)) n = Ret true ->
      append_loop 0 (AppendEntriesRequest_prev_log_index (get_append_request m))
        (AppendEntriesRequest_entries (get_append_request m)) (log_entries_ n) = Ret log ->
      log_step n log.

Lemma queue_log (n n' : node) : same_but_queue n n' -> log_entries_ n' = log_entries_ n.
Proof. by intros [q ->]. Qed.

Lemma replication_log (n n' : node) : same_but_replication n n' -> log_entries_ n' = log_entries_ n.
Proof. by intros (p & x & ->). Qed.

Lemma commit_log (n n' : node) : same_but_commit n n' -> log_entries_ n' = log_entries_ n.
Proof. by intros (st & i & q & ->). Qed.

Lemma accept_leader_log now req (n : node) : log_entries_ (accept_leader now req n) = log_entries_ n.
Proof. by destruct (accept_leader_frame now req n) as (st & -> & _). Qed.

Lemma in_sync_log t i (n n' : node) :
  log_entries_ n' = log_entries_ n -> check_if_previous_log_in_sync t i n' = check_if_previous_log_in_sync t i n.
Proof. unfold check_if_previous_log_in_sync. by intros ->. Qed.

(** A request that is not stale and in sync appends; any other leaves the log. *)
Lemma append_request_log now req (n n' : node) (w w' : Master C K) :
  append_request_result now req n w n' w' ->
  (log_entries_ n' = log_entries_ n /\
   (AppendEntriesRequest_term req < cur_term_ n \/
    check_if_previous_log_in_sync (AppendEntriesRequest_prev_log_term req) (AppendEntriesRequest_prev_log_index req) n = Ret false)) \/
  (cur_term_ n <= AppendEntriesRequest_term req /\
   check_if_previous_log_in_sync (AppendEntriesRequest_prev_log_term req) (AppendEntriesRequest_prev_log_index req) n = Ret true /\
   append_loop 0 (AppendEntriesRequest_prev_log_index req) (AppendEntriesRequest_entries req) (log_entries_ n) =
     Ret (log_entries_ n')).
Proof.
  intros [w1 T S|w1 T E S|n1 w1 n2 e w2 T E F A La S].
  - left. auto.
  - left. rewrite accept_leader_log. rewrite (in_sync_log _ _ n) in E by apply accept_leader_log. auto.
  - right. rewrite (in_sync_log _ _ n) in E by apply accept_leader_log. split; [done|]. split; [done|].
    apply append_log_entries_frame in A as (log & A & ->). cbn [log_entries_ set_log_entries_].
    apply follow_leader_commit_frame in F as (F & _). by rewrite (commit_log _ _ F), accept_leader_log in A.
Qed.

Lemma append_response_log resp (n n' : node) (w w' : Master C K) :
  append_response_result resp n w n' w' -> log_entries_ n' = log_entries_ n.
Proof.
  intros [p n1 w1 x S A|p S T|p x S T]; [|done..]. apply advance_commit_frame in A as (A & _).
  apply commit_log in A. exact A.
Qed.

Lemma vote_request_log req (n n' : node) (w w' : Master C K) :
  vote_request_result req n w n' w' -> log_entries_ n' = log_entries_ n.
Proof. by intros [w1 G D|n1 L T [[-> _]|[-> T']]|n1 w1 L [(-> & _ & _)|[-> T']] D]. Qed.

Lemma vote_response_log resp (n n' : node) : handle_vote_response resp n = Ret n' -> log_entries_ n' = log_entries_ n.
Proof. by intros [->|(_ & T & _ & [[-> _]|[-> _]])]%handle_vote_response_cases. Qed.

Lemma add_log_entry_log e (n n' : node) (w w' : Master C K) :
  add_log_entry e (n, w) = Ret (n', w') -> log_entries_ n' = log_entries_ n ++ [e].
Proof. intros H%add_log_entry_frame. apply replication_log in H. exact H. Qed.

(** The handlers, on the node whose task has been taken off the queue. *)
Lemma local_message_handler_log now rid m ts (n n' : node) (w w' : Master C K) :
  io_context_ n = HandleMessage m :: ts ->
  local_message_handler now rid m (set_io_context_ ts n, w) = Ret (n', w') -> log_step n (log_entries_ n').
Proof.
  intros IO. unfold local_message_handler. destruct (type m) eqn:T; intros H; try (injection H as <- <-; apply (log_same n)).
  - apply handle_vote_request_cases, vote_request_log in H. rewrite H. apply (log_same n).
  - apply obind_ret in H as (n1 & V & H). injection H as <- <-. apply vote_response_log in V. rewrite V. apply (log_same n).
  - apply handle_append_request_cases, append_request_log in H as [[-> _]|(Te & E & A)]; [apply (log_same n)|].
    exact (log_from_leader n m ts _ IO T Te E A).
  - apply handle_append_response_cases in H as (n1 & w1 & R & U). apply append_response_log in R.
    apply trigger_entry_update_frame, replication_log in U. rewrite U, R. apply (log_same n).
  - unfold handle_put_message in H. destruct (bool_decide _) eqn:L in H; cbn [negb] in H; [|injection H as <- <-; apply (log_same n)].
    apply bool_decide_eq_true_1 in L. apply add_log_entry_log in H. rewrite H. apply (log_new_entry n); [done|]. exists m, ts. split; [done|]. by left.
  - unfold handle_commit_message in H. destruct (bool_decide _) eqn:L in H; cbn [negb] in H; [|injection H as <- <-; apply (log_same n)].
    apply bool_decide_eq_true_1 in L. apply add_log_entry_log in H. rewrite H. apply (log_new_entry n); [done|]. exists m, ts. split; [done|]. by right.
  - apply open_queue_queue in H as [H%queue_log _]. rewrite H. apply (log_same n).
Qed.

Lemma node_step_log e (n n' : node) (w w' : Master C K) : node_step e (n, w) = Ret (n', w') -> log_step n (log_entries_ n').
Proof.
  unfold node_step. destruct e as [now rid| |now| |].
  - unfold run_posted_task. destruct (io_context_ n) as [|[m|id] ts] eqn:IO; intros H; [injection H as <- <-; apply log_same|..].
    + by eapply local_message_handler_log.
    + apply handle_disconnect_queue in H as [H%queue_log _]. rewrite H. apply (log_same n).
  - destruct (heartbeat_timer_ n); intros H; [|injection H as <- <-; apply log_same].
    apply on_heartbeat_timer_node in H as (m & ->). apply (log_same n).
  - destruct (vote_timer_ n); intros H; [|injection H as <- <-; apply (log_same n)].
    apply obind_ret in H as (n1 & V & H). injection H as <- <-.
    apply on_vote_timer_cases in V as [[-> _]|[-> _]]; apply (log_same n).
  - destruct (vote_delays_ n); intros H; [injection H as <- <-; apply (log_same n)|].
    apply on_vote_delay_cases in H as [(-> & _ & _)|(e & -> & _)]; apply (log_same n).
  - intros [= <- <-]. destruct (stats_timer_ n); apply (log_same n).
Qed.

(** ** The positions of entries, over runs *)

(** An append request as a node builds it: its entries follow the previous one. *)
Definition well_formed (r : RaftMessage) : Prop :=
  type r = APPEND_ENTRIES_REQUEST ->
  indexed_from (AppendEntriesRequest_prev_log_index (get_append_request r) + 1)
    (AppendEntriesRequest_entries (get_append_request r)) /\
  AppendEntriesRequest_prev_log_index (get_append_request r) +
    zlength (AppendEntriesRequest_entries (get_append_request r)) < INT_MAX.

Definition well_formed_task (t : node_task) : Prop :=
  match t with HandleMessage m => well_formed m | HandleDisconnect _ => True end.

Definition well_formed_input (i : node_input) : Prop :=
  match i with MessageArrives msg => well_formed (deserialize_from_message msg) | _ => True end.

(** The log stays smaller than [INT_MAX] entries throughout the run. *)
Definition log_fits (ins : list node_input) (s : nstate) : Prop :=
  forall k s', node_run (take k ins) s = Ret s' -> zlength (log_entries_ s'.1) <= INT_MAX.

Lemma log_step_wf (n : node) log :
  log_wf (log_entries_ n) -> Forall well_formed_task (io_context_ n) -> zlength (log_entries_ n) <= INT_MAX ->
  log_step n log -> log_wf log.
Proof.
  intros W F L [|op id msg _ _|m ts log' IO T Te E A]; [done|..].
  - destruct W as [N I]. split; [rewrite length_app; lia|]. apply indexed_app. split; [done|].
    intros [|i] x X; [|done]. injection X as <-. cbn. rewrite to_int_small by (split; [apply zlength_nonneg|done]). lia.
  - rewrite IO in F. inv F. match goal with X : well_formed_task _ |- _ => destruct (X T) as [I B] end.
    apply in_sync_spec in E as [R _]; [|done].
    unfold zlength in *. unfold INT_MAX in *.
    rewrite append_loop_rule in A by (unfold zlength, INT_MAX; lia). injection A as <-.
    apply raft_append_wf; [done|lia|]. intros i x X. rewrite (I _ _ X). lia.
Qed.

Lemma log_run_wf `{CL : !ClusterManagerLaws C} ins (n n' : node) (w w' : Master C K) :
  log_wf (log_entries_ n) -> Forall well_formed_task (io_context_ n) -> Forall well_formed_input ins ->
  log_fits ins (n, w) -> node_run ins (n, w) = Ret (n', w') ->
  log_wf (log_entries_ n') /\ Forall well_formed_task (io_context_ n') /\ zlength (log_entries_ n') <= INT_MAX.
Proof.
  revert n w. induction ins as [|i ins IH]; intros n w W F FI B H.
  { injection H as <- <-. split; [done|]. split; [done|]. exact (B O (n, w) eq_refl). }
  pose proof (B O (n, w) eq_refl) as L. cbn [fst] in L.
  cbn [node_run] in H. apply obind_ret in H as ([n1 w1] & Sp & H). inv FI.
  assert (B1 : log_fits ins (n1, w1)).
  { intros k s' R. apply (B (1 + k)%nat). cbn [Nat.add take node_run]. rewrite Sp. exact R. }
  apply (IH n1 w1); try done.
  - destruct i as [e|msg|id]; cbn [node_input_step] in Sp; [|by injection Sp as <- <-..].
    eapply log_step_wf; [..|by eapply node_step_log]; done.
  - destruct i as [e|msg|id]; cbn [node_input_step] in Sp.
    + apply node_step_vote in Sp as [[->| ->] _]; [done|]. by destruct F.
    + injection Sp as <- <-. apply Forall_app_2; [done|]. constructor; [done|constructor].
    + injection Sp as <- <-. apply Forall_app_2; [done|]. constructor; [done|constructor].
Qed.

(** What a node with such a log sends is well formed. *)
Lemma may_send_well_formed (n : node) m :
  log_wf (log_entries_ n) -> zlength (log_entries_ n) <= INT_MAX -> may_send n m -> well_formed m.2.
Proof.
  intros [N I] L H. unfold well_formed. destruct H as [f i prev entry Hi P E|e S La|f|f e La|c t|c t S T V|e V La]; cbn [snd];
    intros T'; try discriminate.
  - pose proof (lookup_lt_Some _ _ _ E). unfold zlength in *. split.
    + intros [|k] x X; [|done]. injection X as <-.
      change (LogEntry_CopyFrom entry LogEntry_new) with (LogEntry_MergeFrom entry LogEntry_new).
      rewrite LogEntry_merge_into_new, (I _ _ E). cbn. lia.
    + cbn. lia.
  - split; [intros k x X; cbn in X; by rewrite lookup_nil in X|]. cbn.
    rewrite last_lookup in La. rewrite (I _ _ La). unfold zlength, INT_MAX in *. cbn [length]. lia.
Qed.
End NodeLog.

(** ** Properties *)

(** C12: [append_log_entries] is the reference rule of Raft: where the previous
    entry is in the log, the code's loop with its push_back and erase gives the
    log the rule gives, and never fails; everything up to the previous entry
    stays, and afterwards each entry of the request has a counterpart of its
    term at its position. *)
Theorem append_entries_follow_raft {St : Type} (prev : Z) (es : list LogEntry) (n : ClusterNode St) :
  0 <= prev < zlength (log_entries_ n) -> zlength (log_entries_ n) <= INT_MAX -> prev + 1 + zlength es <= INT_MAX ->
  let log' := raft_append (log_entries_ n) (Z.to_nat (prev + 1)) es in
  append_log_entries prev es n = Ret (set_log_entries_ log' n) /\
  take (Z.to_nat (prev + 1)) log' = take (Z.to_nat (prev + 1)) (log_entries_ n) /\
  forall i e, es !! i = Some e ->
    exists e', log' !! (Z.to_nat (prev + 1) + i)%nat = Some e' /\ LogEntry_term e' = LogEntry_term e.
Proof.
  intros P L B. cbv zeta. unfold zlength in P. split_and!.
  - unfold append_log_entries. rewrite append_loop_rule by (unfold zlength, INT_MAX in *; lia).
    cbn [obind]. by rewrite Z.add_0_r.
  - apply raft_append_prefix. lia.
  - intros i e. apply raft_append_holds. lia.
Qed.

Definition demo_follower_log : list LogEntry :=
  [dummy_entry; demo_entry 1 1 5 []; demo_entry 2 1 6 []; demo_entry 3 1 7 []].

Lemma append_entries_follow_raft_witness :
  append_log_entries 1 [demo_entry 2 2 8 []] (demo_node FOLLOWER 2 2 demo_follower_log []) =
    Ret (demo_node FOLLOWER 2 2 [dummy_entry; demo_entry 1 1 5 []; demo_entry 2 2 8 []] []).
Proof.
  apply (append_entries_follow_raft 1 [demo_entry 2 2 8 []] (demo_node FOLLOWER 2 2 demo_follower_log []));
    by_eval.
Defined.

(** Log matching: let the log of a node match a leader's log (an entry of
    the same term at the same position means that they agree up to there), and
    let an append request carry a piece of the leader's log with the term of
    the entry before it. However the node answers it, its log still matches the
    leader's; and where it answers with success its log agrees with the
    leader's up to the end of the piece. *)
Theorem append_request_log_matching `{ClusterNodeStorageInterface St, CI : ClusterManagerInterface C,
    ClientManagerInterface K, ProtobufRuntime}
    (now : Z) (req : AppendEntriesRequest) (leader : list LogEntry) (p : LogEntry) (m : nat)
    (n n' : ClusterNode St) (w w' : Master C K) :
  let prev := AppendEntriesRequest_prev_log_index req in
  zlength leader <= INT_MAX -> zlength (log_entries_ n) <= INT_MAX -> 0 <= prev -> prev + 1 + Z.of_nat m <= zlength leader ->
  leader !! Z.to_nat prev = Some p -> LogEntry_term p = AppendEntriesRequest_prev_log_term req ->
  AppendEntriesRequest_entries req = take m (drop (Z.to_nat (prev + 1)) leader) ->
  logs_match leader (log_entries_ n) ->
  handle_append_request now req (n, w) = Ret (n', w') ->
  logs_match leader (log_entries_ n') /\
  (log_entries_ n' = log_entries_ n /\
   (AppendEntriesRequest_term req < cur_term_ n \/
    check_if_previous_log_in_sync (AppendEntriesRequest_prev_log_term req) prev n = Ret false) \/
   take (Z.to_nat (prev + 1) + m) (log_entries_ n') = take (Z.to_nat (prev + 1) + m) leader).
Proof.
  intros prev LL LN P B X T E M HR%handle_append_request_cases%append_request_log.
  destruct HR as [[-> D]|(Te & Sy & A)]; [split; [done|by left]|].
  apply in_sync_spec in Sy as [R (q & Q & TQ)]; [|done]. fold prev in A, Q, R.
  unfold zlength in *. unfold INT_MAX in *.
  rewrite append_loop_rule in A
    by (rewrite ?E; unfold zlength, INT_MAX; rewrite ?length_take, ?length_drop; lia).
  injection A as A. rewrite Z.add_0_r, E in A.
  destruct (raft_append_matching leader (log_entries_ n) (Z.to_nat (prev + 1)) m) as [R1 R2]; try done; try lia.
  { replace (Z.to_nat (prev + 1)) with (S (Z.to_nat prev)) by lia. eapply M; [done|done|congruence]. }
  rewrite <- A. split; [done|]. by right.
Qed.

(** A request of a leader of term 2 whose log differs from position 2 on. *)
Definition demo_leader_log : list LogEntry := [dummy_entry; demo_entry 1 1 5 []; demo_entry 2 2 8 []; demo_entry 3 2 9 []].

Definition demo_append_request (term prev_index prev_term : Z) (es : list LogEntry) : AppendEntriesRequest :=
  AppendEntriesRequest_set_entries es (AppendEntriesRequest_set_prev_log_term prev_term
    (AppendEntriesRequest_set_prev_log_index prev_index (AppendEntriesRequest_set_leader_id 1
    (AppendEntriesRequest_set_term term AppendEntriesRequest_new)))).

Lemma demo_logs_match : logs_match demo_leader_log demo_follower_log.
Proof. intros [|[|[|[|i]]]] x y X Y; try discriminate X; injection X as <-; injection Y as <-; done. Qed.

Lemma append_request_log_matching_witness :
  let req := demo_append_request 2 1 1 [demo_entry 2 2 8 []] in
  exists n' w', handle_append_request 0 req (demo_node FOLLOWER 2 2 demo_follower_log [], demo_master) = Ret (n', w') /\
    logs_match demo_leader_log (log_entries_ n').
Proof.
  intros req. destruct (handle_append_request 0 req (demo_node FOLLOWER 2 2 demo_follower_log [], demo_master))
    as [[n' w']|] eqn:E; [|vm_compute in E; discriminate].
  exists n', w'. split; [reflexivity|].
  refine (proj1 (append_request_log_matching 0 req demo_leader_log (demo_entry 1 1 5 []) 1
    (demo_node FOLLOWER 2 2 demo_follower_log []) n' demo_master w' _ _ _ _ _ _ _ demo_logs_match E)); by_eval.
Defined.

(** Positions and indices: in every state a node reaches from a log whose
    entries carry their positions as indices, as long as the append requests it
    receives are numbered from their previous entry on, the log is not empty
    and the entry at position i has index i; and the append requests the node
    itself sends, for entries and as heartbeats, are numbered that way too. *)
Theorem log_entries_carry_positions `{ClusterNodeStorageInterface St, CI : ClusterManagerInterface C,
    CL : !ClusterManagerLaws C, ClientManagerInterface K, ProtobufRuntime}
    (ins : list node_input) (n n' : ClusterNode St) (w w' : Master C K) :
  log_wf (log_entries_ n) -> Forall well_formed_task (io_context_ n) -> Forall well_formed_input ins ->
  log_fits ins (n, w) -> node_run ins (n, w) = Ret (n', w') ->
  log_wf (log_entries_ n') /\ forall m, may_send n' m -> well_formed m.2.
Proof.
  intros W F FI B R. destruct (log_run_wf ins n n' w w' W F FI B R) as (W' & _ & L). split; [done|].
  intros m. by apply may_send_well_formed.
Qed.

(** A follower that gets the request above as a message. *)
Definition demo_append_message : RaftMessage :=
  set_partition_id 7 (loadAppendEntriesRequest (demo_append_request 2 1 1 [demo_entry 2 2 8 []]) RaftMessage_new).

Definition demo_append_inputs : list node_input := [MessageArrives (encode_demo demo_append_message); Step (TaskRuns 0 0)].

Lemma demo_append_decodes : deserialize_from_message (encode_demo demo_append_message) = demo_append_message.
Proof. vm_compute. reflexivity. Qed.

Lemma log_entries_carry_positions_witness :
  exists n' w', node_run demo_append_inputs (demo_node FOLLOWER 2 2 demo_follower_log [], demo_master) = Ret (n', w') /\
    log_wf (log_entries_ n') /\ length (log_entries_ n') = 3%nat.
Proof.
  destruct (node_run demo_append_inputs (demo_node FOLLOWER 2 2 demo_follower_log [], demo_master))
    as [[n' w']|] eqn:E; [|vm_compute in E; discriminate].
  exists n', w'. split; [reflexivity|]. split; [|vm_compute in E; injection E as <- <-; reflexivity].
  refine (proj1 (log_entries_carry_positions demo_append_inputs _ n' demo_master w' _ _ _ _ E)).
  - split; [by_eval|]. intros [|[|[|[|i]]]] x X; try discriminate X; injection X as <-; reflexivity.
  - constructor.
  - constructor; [|constructor; [exact I|constructor]]. unfold well_formed_input. rewrite demo_append_decodes.
    intros _. split; [|by_eval]. intros [|i] x X; [|discriminate]. injection X as <-. reflexivity.
  - intros k s' R. destruct k as [|[|[|k]]]; vm_compute in R; injection R as <-; vm_compute; discriminate.
Defined.

(** C15: what changes the log: a step leaves it alone, or, on a leader only,
    appends one entry with what the client's request asks for, the node's term
    and the next position as index, or handles an append request that is not stale and whose previous entry is
    there, and then the log follows the reference rule. In particular a client
    request to a node that is not the leader never reaches the log. *)
Theorem log_changes `{ClusterNodeStorageInterface St, CI : ClusterManagerInterface C, ClientManagerInterface K,
    ProtobufRuntime} (e : node_event) (n n' : ClusterNode St) (w w' : Master C K) :
  zlength (log_entries_ n) <= INT_MAX -> Forall well_formed_task (io_context_ n) ->
  node_step e (n, w) = Ret (n', w') ->
  log_entries_ n' = log_entries_ n \/
  (state_ n = LEADER /\ exists x, log_entries_ n' = log_entries_ n ++ [x] /\
     from_client n (LogEntry_operation x) (LogEntry_message_id x) (LogEntry_message x) /\ LogEntry_term x = cur_term_ n /\ LogEntry_index x = zlength (log_entries_ n)) \/
  (exists m ts, io_context_ n = HandleMessage m :: ts /\ type m = APPEND_ENTRIES_REQUEST /\
     let req := get_append_request m in
     let prev := AppendEntriesRequest_prev_log_index req in
     cur_term_ n <= AppendEntriesRequest_term req /\ 0 <= prev < zlength (log_entries_ n) /\
     (exists x, log_entries_ n !! Z.to_nat prev = Some x /\ LogEntry_term x = AppendEntriesRequest_prev_log_term req) /\
     log_entries_ n' = raft_append (log_entries_ n) (Z.to_nat (prev + 1)) (AppendEntriesRequest_entries req)).
Proof.
  intros L F H2%node_step_log. inversion H2 as [E|op id msg S FC E|m ts log IO T Te Sy A E].
  - by left.
  - right. left. split; [done|]. eexists. split; [done|]. split; [exact FC|]. split; [done|]. cbn.
    by rewrite to_int_small by (split; [apply zlength_nonneg|done]).
  - right. right. exists m, ts. rewrite IO in F. inv F.
    match goal with X : well_formed_task _ |- _ => destruct (X T) as [_ B] end.
    apply in_sync_spec in Sy as [R Q]; [|done]. cbv zeta. split_and!; try done; try lia.
    unfold zlength, INT_MAX in *. rewrite append_loop_rule in A by (unfold zlength, INT_MAX; lia).
    injection A as <-. by rewrite Z.add_0_r.
Qed.

Lemma log_changes_witness :
  let n := demo_node LEADER 4 0 [dummy_entry] [HandleMessage (loadClientPutMessageRequest
    (ClientPutMessage_set_message (str "hi") ClientPutMessage_new) RaftMessage_new)] in
  exists n' w', node_step (TaskRuns 0 99) (n, demo_master) = Ret (n', w') /\ log_entries_ n' <> log_entries_ n /\
    exists x, log_entries_ n' = [dummy_entry; x] /\ LogEntry_term x = 4.
Proof.
  intros n. destruct (node_step (TaskRuns 0 99) (n, demo_master)) as [[n' w']|] eqn:E; [|vm_compute in E; discriminate].
  exists n', w'. split; [reflexivity|].
  assert (D : log_entries_ n' <> log_entries_ n) by (vm_compute in E; injection E as <- <-; discriminate).
  split; [exact D|].
  destruct (log_changes (TaskRuns 0 99) n n' demo_master w') as [X|[(_ & x & X & _ & T & _)|(m & ts & X & T & _)]].
  - vm_compute. discriminate.
  - constructor; [|constructor]. intros T. discriminate.
  - exact E.
  - exfalso. exact (D X).
  - exists x. split; [exact X|exact T].
  - injection X as <- <-. discriminate.
Defined.
