(* ===== verification/NodeTypes.v ===== *)
(** * The integers of a node, and what it sends

    The members of a node and the fields of messages are machine integers; in
    the model they are in [Z]. As long as what a node is given is in range, the
    members from which it makes messages (partition, id, term, commit index, log,
    waiting messages) and what it sends stay in range, so every message it sends
    is received as it was sent. [NodeRanges] has the other members. *)

From S2P Require Import Prelude MessageQueue WireFormat FlowTypes FlowCodec FlowCodecFacts RaftMessage LogStorage ClusterManager ClientManager Configuration ClusterNode ClusterNodeFacts NodeElection NodeLog.

Local Open Scope Z_scope.

(** ** Basic types

    The ranges of the ids (src/src/flowmq/basic_types.hpp). *)

Definition PartitionIdType : Z -> bool := int64.
Definition NodeIdType : Z -> bool := int32.
Definition MessageIdType : Z -> bool := int64.

(** ** Well-typed entries, logs and messages *)

Definition entry_ok (e : LogEntry) : bool :=
  LogEntry_ints e && LogEntry_IsInitialized e && (zlength (LogEntry_message e) <=? MAX_BODY_LENGTH).

(** The first entry is the placeholder, which has no message id and is never
    sent. *)
Definition log_ok (log : list LogEntry) : bool :=
  match log with
  | [] => false
  | d :: es => int32 (LogEntry_index d) && int32 (LogEntry_term d) && forallb entry_ok es
  end.

(** What the handlers read of a message. *)
Definition message_ok (m : RaftMessage) : bool :=
  match type m with
  | APPEND_ENTRIES_REQUEST =>
      let req := get_append_request m in
      int32 (AppendEntriesRequest_term req) && int32 (AppendEntriesRequest_leader_commit req) &&
      forallb entry_ok (AppendEntriesRequest_entries req)
  | APPEND_ENTRIES_RESPONSE =>
      let resp := get_append_response m in
      int32 (AppendEntriesResponse_term resp) && int32 (AppendEntriesResponse_last_index_synced resp)
  | REQUEST_VOTE_REQUEST => int32 (RequestVoteRequest_term (get_vote_request m))
  | REQUEST_VOTE_RESPONSE =>
      let resp := get_vote_response m in
      int32 (RequestVoteResponse_term resp) &&
      ((RequestVoteResponse_vote_result_term_granted resp =? 0) || (RequestVoteResponse_vote_result_term_granted resp =? 1))
  | CLIENT_PUT_MESSAGE => zlength (ClientPutMessage_message (get_put_message_request m)) <=? MAX_BODY_LENGTH
  | CLIENT_COMMIT_MESSAGE => MessageIdType (ClientCommitMessage_message_id (get_commit_message_request m))
  | _ => true
  end.

Definition task_ok (t : node_task) : bool :=
  match t with HandleMessage m => message_ok m | HandleDisconnect _ => true end.

(** The random ids are 64-bit integers. *)
Definition event_ok (e : node_event) : bool :=
  match e with TaskRuns _ random_id => MessageIdType random_id | _ => true end.

Lemma entry_ok_ints e : entry_ok e = true -> int32 (LogEntry_index e) = true /\ int32 (LogEntry_term e) = true.
Proof.
  unfold entry_ok, LogEntry_ints, LogEntry_index, LogEntry_term. intros H. apply andb_true_iff in H as [H _].
  apply andb_true_iff in H as [H _]. rewrite !andb_true_iff in H. destruct H as ((((H1 & H2) & _) & _) & _).
  split; [destruct (LogEntry_index_ e)|destruct (LogEntry_term_ e)]; done.
Qed.

Lemma log_ok_lookup log i e :
  log_ok log = true -> log !! i = Some e -> int32 (LogEntry_index e) = true /\ int32 (LogEntry_term e) = true.
Proof.
  destruct log as [|d es]; [done|]. cbn [log_ok]. rewrite !andb_true_iff, forallb_forall. intros [[D1 D2] F].
  destruct i as [|i]; cbn; [by intros [= <-]|]. intros E. apply entry_ok_ints, F, list_elem_of_In. by eapply list_elem_of_lookup_2.
Qed.

Lemma log_ok_entry log i e : log_ok log = true -> log !! S i = Some e -> entry_ok e = true.
Proof.
  destruct log as [|d es]; [done|]. cbn [log_ok lookup list_lookup]. rewrite !andb_true_iff, forallb_forall. intros [_ F] E.
  apply F, list_elem_of_In. by eapply list_elem_of_lookup_2.
Qed.

Lemma log_ok_last log e : log_ok log = true -> last log = Some e -> int32 (LogEntry_index e) = true /\ int32 (LogEntry_term e) = true.
Proof. rewrite last_lookup. apply log_ok_lookup. Qed.

Lemma log_ok_snoc log e : log_ok log = true -> entry_ok e = true -> log_ok (log ++ [e]) = true.
Proof.
  destruct log as [|d es]; [done|]. cbn [log_ok app]. rewrite !andb_true_iff. intros [D F] E. split; [done|].
  by rewrite forallb_app, F; cbn; rewrite E.
Qed.

Lemma log_ok_take log i : log_ok log = true -> log_ok (take (S i) log) = true.
Proof.
  destruct log as [|d es]; [done|]. cbn [log_ok take]. rewrite !andb_true_iff. intros [D F]. split; [done|].
  rewrite forallb_forall in *. intros x X. apply F. apply list_elem_of_In in X. apply list_elem_of_In.
  apply elem_of_take in X as (j & X & _). by eapply list_elem_of_lookup_2.
Qed.

Lemma append_loop_ok i l es log log' :
  0 <= i -> 0 <= l -> log_ok log = true -> forallb entry_ok es = true ->
  append_loop i l es log = Ret log' -> log_ok log' = true.
Proof.
  revert i log. induction es as [|e es IH]; intros i log I L O F H; cbn [append_loop] in H.
  { by injection H as <-. }
  apply andb_true_iff in F as [Fe F]. apply obind_ret in H as (x & X & H). apply int_add_ret in X as [-> _].
  apply obind_ret in H as (y & Y & H). apply int_add_ret in Y as [-> _].
  apply obind_ret in H as (log1 & A & H). eapply IH; [..|exact H]; [lia|done| |done].
  destruct (_ <? _); [injection A as <-; by apply log_ok_snoc|].
  apply obind_ret in A as (old & _ & A). destruct (_ =? _); [by injection A as <-|].
  apply obind_ret in A as (log2 & Cl & A). injection A as <-. apply log_ok_snoc; [|done].
  unfold clean_log_entries_out_of_sync in Cl. destruct (_ && _); [|done]. injection Cl as <-.
  replace (Z.to_nat (i + l + 1)) with (S (Z.to_nat (i + l))) by lia. by apply log_ok_take.
Qed.

Section Types.
Context {St C K : Type}.
Context `{SI : ClusterNodeStorageInterface St, CI : ClusterManagerInterface C, KI : ClientManagerInterface K,
  RT : ProtobufRuntime}.
Abbreviation node := (ClusterNode St).

Definition node_ok (n : node) : bool :=
  PartitionIdType (partition_id_ n) && NodeIdType (node_id_ n) && int32 (cur_term_ n) && int32 (commit_index_ n) &&
  log_ok (log_entries_ n) && forallb task_ok (io_context_ n).

Lemma node_ok_spec (n : node) :
  node_ok n = true <->
  int64 (partition_id_ n) = true /\ int32 (node_id_ n) = true /\ int32 (cur_term_ n) = true /\
  int32 (commit_index_ n) = true /\ log_ok (log_entries_ n) = true /\ forallb task_ok (io_context_ n) = true.
Proof. unfold node_ok, PartitionIdType, NodeIdType. rewrite !andb_true_iff. tauto. Qed.

(** ** Terms and commit indices stay in range *)

Lemma append_request_ints now req (n n' : node) (w w' : Master C K) :
  append_request_result now req n w n' w' ->
  (cur_term_ n' = cur_term_ n \/ cur_term_ n' = AppendEntriesRequest_term req) /\
  (commit_index_ n' = commit_index_ n \/ commit_index_ n' = AppendEntriesRequest_leader_commit req).
Proof.
  destruct (accept_leader_frame now req n) as (st & E & _).
  intros [| |n1 w1 n2 x w2 _ _ F A _ _]; [auto|rewrite E; auto|].
  apply follow_leader_commit_frame in F as ((? & ? & ? & Q) & _ & L). subst n1.
  apply append_log_entries_frame in A as (log & _ & ->).
  rewrite E in *. cbn in *. naive_solver.
Qed.

Lemma append_response_ints resp (n n' : node) (w w' : Master C K) :
  append_response_result resp n w n' w' ->
  (cur_term_ n' = cur_term_ n \/ cur_term_ n' = AppendEntriesResponse_term resp) /\
  (commit_index_ n' = commit_index_ n \/ commit_index_ n' = AppendEntriesResponse_last_index_synced resp).
Proof.
  intros [p n1 w1 x S A|p S T|p x S T]; [|auto..]. apply advance_commit_frame in A as ((? & ? & ? & Q) & _ & L). subst n1.
  cbn in *. naive_solver.
Qed.

Lemma vote_request_ints req (n n' : node) (w w' : Master C K) :
  vote_request_result req n w n' w' ->
  (cur_term_ n' = cur_term_ n \/ cur_term_ n' = RequestVoteRequest_term req) /\
  commit_index_ n' = commit_index_ n /\ log_entries_ n' = log_entries_ n.
Proof. intros [w1 G D|n1 L T [[-> _]|[-> T']]|n1 w1 L [(-> & _ & _)|[-> T']] D]; auto. Qed.

Lemma new_entry_ok op id msg (n : node) :
  int32 op = true -> int64 id = true -> zlength msg <= MAX_BODY_LENGTH -> int32 (cur_term_ n) = true ->
  entry_ok (new_entry op id msg n) = true.
Proof.
  intros O I M T. pose proof (to_int_range (zlength (log_entries_ n))) as R. apply int32_spec in R.
  unfold entry_ok. rewrite (proj2 (Z.leb_le _ _)) by exact M. unfold LogEntry_ints. cbn. by rewrite R, T, I, O.
Qed.

Definition ranges (n : node) : Prop :=
  int32 (cur_term_ n) = true /\ int32 (commit_index_ n) = true /\ log_ok (log_entries_ n) = true.

Lemma add_log_entry_ranges e (n n' : node) (w w' : Master C K) :
  ranges n -> entry_ok e = true -> add_log_entry e (n, w) = Ret (n', w') -> ranges n'.
Proof.
  intros (R1 & R2 & R3) E (p & x & ->)%add_log_entry_frame. split; [done|]. split; [done|]. by apply log_ok_snoc.
Qed.

Lemma handler_ranges now rid m (n n' : node) (w w' : Master C K) :
  ranges n -> message_ok m = true -> int64 rid = true ->
  local_message_handler now rid m (n, w) = Ret (n', w') -> ranges n'.
Proof.
  intros R M I. pose proof R as (R1 & R2 & R3). unfold message_ok in M. unfold local_message_handler.
  destruct (type m) eqn:T; intros H; try (by injection H as <- <-).
  - apply handle_vote_request_cases, vote_request_ints in H as (E1 & E2 & E3). unfold ranges. rewrite E2, E3.
    split; [|done]. by destruct E1 as [->| ->].
  - apply obind_ret in H as (n1 & V & H). injection H as <- <-. apply andb_true_iff in M as [M _].
    apply handle_vote_response_cases in V as [->|(_ & _ & _ & [[-> _]|[-> _]])]; done.
  - rewrite !andb_true_iff in M. destruct M as [[M1 M2] M3]. apply handle_append_request_cases in H.
    pose proof (append_request_ints _ _ _ _ _ _ H) as [E1 E2]. split; [by destruct E1 as [->| ->]|].
    split; [by destruct E2 as [->| ->]|]. apply append_request_log in H as [[-> _]|(_ & E & A)]; [done|].
    eapply append_loop_ok; [..|exact A]; [done| |done|done]. unfold check_if_previous_log_in_sync in E.
    apply obind_ret in E as (x & _ & E). destruct (_ <? _); [done|]. apply obind_ret in E as (y & Y & _).
    by apply vec_at_ret in Y as [Y _].
  - apply andb_true_iff in M as [M1 M2]. apply handle_append_response_cases in H as (n1 & w1 & R' & U).
    pose proof (append_response_ints _ _ _ _ _ R') as [E1 E2]. apply append_response_log in R'.
    apply trigger_entry_update_frame in U as (p & x & ->). unfold ranges. cbn. rewrite R'.
    split; [by destruct E1 as [->| ->]|]. split; [by destruct E2 as [->| ->]|done].
  - unfold handle_put_message in H. destruct (negb _) in H; [by injection H as <- <-|].
    eapply add_log_entry_ranges; [done| |exact H]. apply new_entry_ok; [done|done|lia|done].
  - unfold handle_commit_message in H. destruct (negb _) in H; [by injection H as <- <-|].
    eapply add_log_entry_ranges; [done| |exact H]. by apply new_entry_ok.
  - apply open_queue_queue in H as [[q ->] _]. done.
Qed.

Lemma on_vote_timer_int now (n n' : node) :
  int32 (cur_term_ n) = true -> on_vote_timer now n = Ret n' -> int32 (cur_term_ n') = true.
Proof.
  intros I. unfold on_vote_timer. intros H. apply obind_ret in H as (n1 & E & H). injection H as <-. cbn.
  revert E. match goal with |- context [if _ && _ then _ else n] => set (n0 := if _ && _ then _ else n) end.
  assert (T : cur_term_ n0 = cur_term_ n) by (subst n0; by destruct (_ && _)). clearbody n0.
  destruct (bool_decide _); intros E; [|injection E as <-; by rewrite T].
  apply obind_ret in E as (t & V & E). apply int_add_ret in V as [-> V]. by injection E as <-.
Qed.

Lemma node_step_ranges e (n n' : node) (w w' : Master C K) :
  ranges n -> forallb task_ok (io_context_ n) = true -> event_ok e = true ->
  node_step e (n, w) = Ret (n', w') -> ranges n'.
Proof.
  intros R T E. unfold node_step. destruct e as [now rid| |now| |].
  - unfold run_posted_task. destruct (io_context_ n) as [|[m|id] ts]; intros H; [by injection H as <- <-|..].
    + cbn in T. apply andb_true_iff in T as [T _]. by eapply handler_ranges in H.
    + apply handle_disconnect_queue in H as [[q ->] _]. done.
  - destruct (heartbeat_timer_ n); intros H; [|by injection H as <- <-]. apply on_heartbeat_timer_node in H as (m & ->). done.
  - destruct (vote_timer_ n); intros H; [|by injection H as <- <-].
    apply obind_ret in H as (n1 & V & H). injection H as <- <-. destruct R as (R1 & R2 & R3).
    split; [|by apply on_vote_timer_cases in V as [[-> _]|[-> _]]]. by eapply on_vote_timer_int.
  - destruct (vote_delays_ n); intros H; [by injection H as <- <-|].
    apply on_vote_delay_cases in H as [(-> & _ & _)|(l & -> & _)]; done.
  - intros [= <- <-]. by destruct (stats_timer_ n).
Qed.

Context {CL : ClusterManagerLaws C}.

Lemma node_step_ok e (n n' : node) (w w' : Master C K) :
  node_ok n = true -> event_ok e = true -> node_step e (n, w) = Ret (n', w') -> node_ok n' = true.
Proof.
  rewrite !node_ok_spec. intros (P & I & T & Ci & L & Ta) E H. pose proof (node_step_forward _ _ _ _ _ H) as [F1 F2 _ _ _].
  destruct (node_step_ranges _ _ _ _ _ (conj T (conj Ci L)) Ta E H) as (T' & C' & L'). rewrite F1, F2.
  do 5 (split; [done|]). apply node_step_vote in H as [[->| ->] _]; [done|]. destruct (io_context_ n); [done|].
  cbn in Ta. by apply andb_true_iff in Ta as [_ Ta].
Qed.

(** ** What a step sends *)

(** Messages about the log; the answer to a vote request; or the request of a
    candidate. Votes are what [vote_cast] says. *)
Inductive step_sends (e : node_event) (n n' : node) : list (option Z * RaftMessage) -> Prop :=
  | step_sends_log ms : vote_cast e n = None -> Forall (log_message n') ms -> step_sends e n n' ms
  | step_sends_answer now rid m ts granted :
      e = TaskRuns now rid -> io_context_ n = HandleMessage m :: ts -> type m = REQUEST_VOTE_REQUEST ->
      let t := RequestVoteRequest_term (get_vote_request m) in
      let c := RequestVoteRequest_candidate_id (get_vote_request m) in
      vote_cast e n = (if granted : bool then Some (t, c) else None) ->
      step_sends e n n' [(Some c, vote_response t (if granted then 1 else 0))]
  | step_sends_request x :
      e = VoteDelay -> vote_cast e n = Some (cur_term_ n, node_id_ n) -> last (log_entries_ n) = Some x ->
      step_sends e n n' [(None, loadVoteRequest (vote_request n x) RaftMessage_new)].

Lemma vote_request_sends now rid m ts (n n' : node) (w w' : Master C K) :
  io_context_ n = HandleMessage m :: ts -> type m = REQUEST_VOTE_REQUEST ->
  handle_vote_request (get_vote_request m) (set_io_context_ ts n, w) = Ret (n', w') ->
  exists ms, sent (partition_id_ n) w w' ms /\ step_sends (TaskRuns now rid) n n' ms.
Proof.
  intros Q T R. apply handle_vote_request_cases in R. pose proof (vote_request_cast now rid m ts n n' w w' Q T R) as [_ V].
  destruct (vote_cast (TaskRuns now rid) n) as [[t c]|] eqn:VC.
  - destruct V as (_ & _ & _ & _ & _ & S). eexists. split; [exact S|].
    assert (X : (t, c) = (RequestVoteRequest_term (get_vote_request m), RequestVoteRequest_candidate_id (get_vote_request m))).
    { unfold vote_cast in VC. rewrite Q in VC. destruct (_ && _) in VC; congruence. }
    injection X as -> ->. exact (step_sends_answer _ n n' now rid m ts true eq_refl Q T VC).
  - destruct R as [w1 G D|n1 L G1 G|n1 w1 L G D].
    + eexists. split; [exact (send_to_sent _ _ _ _ _ _ D)|]. exact (step_sends_answer _ n _ now rid m ts false eq_refl Q T VC).
    + exists []. split; [by apply sent_nil|]. by apply step_sends_log.
    + exfalso. unfold vote_cast in VC. rewrite Q, (bool_decide_eq_true_2 _ T), (bool_decide_eq_false_2 _ L) in VC. cbn in VC.
      cbn in G. replace (_ || _) with true in VC; [done|]. symmetry.
      rewrite orb_true_iff, andb_true_iff, orb_true_iff, !Z.eqb_eq, Z.ltb_lt. destruct G as [(_ & G)|[_ G]]; [by right|by left].
Qed.

Lemma node_step_sends e (n n' : node) (w w' : Master C K) :
  node_step e (n, w) = Ret (n', w') -> exists ms, sent (partition_id_ n) w w' ms /\ step_sends e n n' ms.
Proof.
  assert (Q : forall u u' : Master C K, cluster_manager_p_ u' = cluster_manager_p_ u -> vote_cast e n = None ->
    exists ms, sent (partition_id_ n) u u' ms /\ step_sends e n n' ms).
  { intros u u' E V. exists []. split; [by apply sent_nil|by apply step_sends_log]. }
  unfold node_step. destruct e as [now rid| |now| |]; intros S.
  - unfold run_posted_task in S. destruct (io_context_ n) as [|[m|id] ts] eqn:T.
    + injection S as <- <-. apply Q; [done|]. unfold vote_cast. by rewrite T.
    + destruct (decide (type m = REQUEST_VOTE_REQUEST)) as [Ty|Ty].
      * unfold local_message_handler in S. rewrite Ty in S. by eapply vote_request_sends.
      * apply handler_log_sent in S as (ms & S & M); [|done]. exists ms. split; [exact S|]. apply step_sends_log; [|done].
        unfold vote_cast. by rewrite T, (bool_decide_eq_false_2 _ Ty).
    + apply handle_disconnect_queue in S as [_ S]. apply Q; [done|]. unfold vote_cast. by rewrite T.
  - destruct (heartbeat_timer_ n); [|injection S as <- <-; by apply Q].
    apply heartbeat_sent in S as (ms & S & M). exists ms. split; [done|by apply step_sends_log].
  - destruct (vote_timer_ n); [|injection S as <- <-; by apply Q].
    apply obind_ret in S as (n1 & V & S). injection S as <- <-. by apply Q.
  - destruct (vote_delays_ n) eqn:D; [injection S as <- <-; apply Q; [done|]; unfold vote_cast; by rewrite D|].
    apply on_vote_delay_cases in S as [(_ & -> & V)|(x & E & V & L & Se)].
    + apply Q; [done|]. unfold vote_cast. rewrite D. by apply Z.eqb_neq in V as ->.
    + assert (P : partition_id_ n' = partition_id_ n) by (by rewrite E). rewrite <- P.
      eexists. split; [exact (send_all_sent _ _ _ _ _ Se)|].
      apply (step_sends_request VoteDelay n n' x); [done| |done]. unfold vote_cast. rewrite D. by rewrite (proj2 (Z.eqb_eq _ _) V).
  - injection S as <- <-. by apply Q.
Qed.

(** ** What is sent can be received *)

Context {LW : ProtobufLaws RT}.

Lemma osize_bound {A : Type} (sz : A -> Z) (o : option A) k : 0 <= k -> (forall v, o = Some v -> sz v <= k - 1) -> osize sz o <= k.
Proof. intros Hk H. destruct o as [v|]; cbn [osize]; [specialize (H v eq_refl); lia|lia]. Qed.

(** An integer field takes at most eleven bytes. *)
Lemma int32_field_bound o : osize Int32Size o <= 11.
Proof. apply osize_bound; [lia|]. intros v _. destruct sizes_bounded as (B & _). specialize (B v). lia. Qed.

Lemma int64_field_bound o : osize Int64Size o <= 11.
Proof. apply osize_bound; [lia|]. intros v _. destruct sizes_bounded as (_ & B & _). specialize (B v). lia. Qed.

Lemma enum_field_bound {A : Type} (value : A -> Z) o : osize (fun e => EnumSize (value e)) o <= 11.
Proof. apply osize_bound; [lia|]. intros v _. destruct sizes_bounded as (_ & _ & B & _). specialize (B (value v)). lia. Qed.

Lemma MessageSize_bound n : MessageSize n <= 10 + n.
Proof. apply sizes_bounded. Qed.

Lemma StringSize_bound s : StringSize s <= 10 + zlength s.
Proof. apply sizes_bounded. Qed.

(** The integer fields in the goal. *)
Ltac bound_fields :=
  repeat match goal with
  | |- context [osize Int32Size ?o] => pose proof (int32_field_bound o); generalize dependent (osize Int32Size o); intros
  | |- context [osize Int64Size ?o] => pose proof (int64_field_bound o); generalize dependent (osize Int64Size o); intros
  end.

Lemma RequestVoteRequest_size_bound m : RequestVoteRequest_unknown_ m = [] -> RequestVoteRequest_ByteSizeLong m <= 44.
Proof. intros U. rewrite RequestVoteRequest_size_sum, U. change (zlength []) with 0. bound_fields. lia. Qed.

Lemma RequestVoteResponse_size_bound m : RequestVoteResponse_unknown_ m = [] -> RequestVoteResponse_ByteSizeLong m <= 22.
Proof. intros U. rewrite RequestVoteResponse_size_sum, U. change (zlength []) with 0. bound_fields. lia. Qed.

Lemma AppendEntriesResponse_size_bound m : AppendEntriesResponse_unknown_ m = [] -> AppendEntriesResponse_ByteSizeLong m <= 44.
Proof. intros U. rewrite AppendEntriesResponse_size_sum, U. change (zlength []) with 0. bound_fields. lia. Qed.

Lemma LogEntry_size_message e : entry_ok e = true -> LogEntry_ByteSizeLong e <= 55 + zlength (LogEntry_message e).
Proof.
  unfold entry_ok, LogEntry_ints. rewrite !andb_true_iff, bool_decide_eq_true. intros [[[_ U] I] _].
  rewrite LogEntry_size_sum, U. change (zlength []) with 0.
  assert (S : osize StringSize (LogEntry_message_ e) <= 11 + zlength (LogEntry_message e)).
  { pose proof (zlength_nonneg (LogEntry_message e)). apply osize_bound; [lia|]. intros v V. unfold LogEntry_message. rewrite V. cbn.
    pose proof (StringSize_bound v). lia. }
  revert S. generalize (osize StringSize (LogEntry_message_ e)). bound_fields. lia.
Qed.

Lemma LogEntry_size_bound e : entry_ok e = true -> LogEntry_ByteSizeLong e <= 1055.
Proof.
  intros E. pose proof (LogEntry_size_message e E). unfold entry_ok, MAX_BODY_LENGTH in E. rewrite !andb_true_iff, Z.leb_le in E. lia.
Qed.

(** A request with entries of [k] bytes. *)
Lemma AppendEntriesRequest_size_entries m k :
  AppendEntriesRequest_unknown_ m = [] ->
  zlength (AppendEntriesRequest_entries_ m) +
    foldr Z.add 0 (map (fun e => MessageSize (LogEntry_ByteSizeLong e)) (AppendEntriesRequest_entries_ m)) <= k ->
  AppendEntriesRequest_ByteSizeLong m <= k + 55.
Proof.
  intros U S. rewrite AppendEntriesRequest_size_sum, U. change (zlength []) with 0.
  revert S. match goal with |- ?x <= _ -> _ => generalize x end. bound_fields. lia.
Qed.

Lemma AppendEntriesRequest_size_bound m :
  AppendEntriesRequest_unknown_ m = [] ->
  AppendEntriesRequest_entries_ m = [] \/ (exists e, AppendEntriesRequest_entries_ m = [e] /\ entry_ok e = true) ->
  AppendEntriesRequest_ByteSizeLong m <= 1121.
Proof.
  intros U E. apply (AppendEntriesRequest_size_entries _ 1066 U). destruct E as [->|(e & -> & E)]; [done|]. apply LogEntry_size_bound in E.
  pose proof (MessageSize_bound (LogEntry_ByteSizeLong e)). change (zlength [e]) with 1. cbn [map foldr]. lia.
Qed.

(** An envelope with a partition id and one submessage of at most [k] bytes. *)
Lemma envelope_size ty p sub k : 0 <= k <= 2000 -> sub <= k ->
  1 + EnumSize (MessageType_value ty) + (1 + Int64Size p) + (1 + MessageSize sub) <= INT_MAX.
Proof.
  intros Hk Hs. pose proof (MessageSize_bound sub). destruct sizes_bounded as (_ & B2 & B3 & _).
  pose proof (B2 p). pose proof (B3 (MessageType_value ty)). unfold INT_MAX. lia.
Qed.

Ltac envelope_fits ty p B :=
  match type of B with ?sub <= ?k =>
    let H := fresh in pose proof (envelope_size ty p sub k ltac:(lia) B) as H;
    rewrite FlowMessage_size_sum; cbn in H |- *; change (zlength []) with 0; lia
  end.

Lemma vote_request_sendable p req b :
  int64 p = true -> RequestVoteRequest_ints req = true -> RequestVoteRequest_IsInitialized req = true ->
  serialize_as_message (set_partition_id p (loadVoteRequest req RaftMessage_new)) = Ret b ->
  sendable (set_partition_id p (loadVoteRequest req RaftMessage_new)) = true.
Proof.
  intros P I R. apply serialized_sendable.
  - unfold FlowMessage_ints. cbn. by rewrite P, I.
  - unfold FlowMessage_IsInitialized. cbn. by rewrite R.
  - apply andb_true_iff in I as [_ I%bool_decide_eq_true_1]. apply RequestVoteRequest_size_bound in I.
    envelope_fits REQUEST_VOTE_REQUEST p I.
Qed.

Lemma vote_response_sendable p resp b :
  int64 p = true -> RequestVoteResponse_ints resp = true -> RequestVoteResponse_IsInitialized resp = true ->
  serialize_as_message (set_partition_id p (loadVoteResult resp RaftMessage_new)) = Ret b ->
  sendable (set_partition_id p (loadVoteResult resp RaftMessage_new)) = true.
Proof.
  intros P I R. apply serialized_sendable.
  - unfold FlowMessage_ints. cbn. by rewrite P, I.
  - unfold FlowMessage_IsInitialized. cbn. by rewrite R.
  - apply andb_true_iff in I as [_ I%bool_decide_eq_true_1]. apply RequestVoteResponse_size_bound in I.
    envelope_fits REQUEST_VOTE_RESPONSE p I.
Qed.

Lemma append_response_sendable p resp b :
  int64 p = true -> AppendEntriesResponse_ints resp = true -> AppendEntriesResponse_IsInitialized resp = true ->
  serialize_as_message (set_partition_id p (loadAppendEntriesResponse resp RaftMessage_new)) = Ret b ->
  sendable (set_partition_id p (loadAppendEntriesResponse resp RaftMessage_new)) = true.
Proof.
  intros P I R. apply serialized_sendable.
  - unfold FlowMessage_ints. cbn. by rewrite P, I.
  - unfold FlowMessage_IsInitialized. cbn. by rewrite R.
  - apply andb_true_iff in I as [_ I%bool_decide_eq_true_1]. apply AppendEntriesResponse_size_bound in I.
    envelope_fits APPEND_ENTRIES_RESPONSE p I.
Qed.

Lemma append_request_sendable p req b :
  int64 p = true -> AppendEntriesRequest_ints req = true -> AppendEntriesRequest_IsInitialized req = true ->
  AppendEntriesRequest_entries_ req = [] \/ (exists e, AppendEntriesRequest_entries_ req = [e] /\ entry_ok e = true) ->
  serialize_as_message (set_partition_id p (loadAppendEntriesRequest req RaftMessage_new)) = Ret b ->
  sendable (set_partition_id p (loadAppendEntriesRequest req RaftMessage_new)) = true.
Proof.
  intros P I R E. apply serialized_sendable.
  - unfold FlowMessage_ints. cbn. by rewrite P, I.
  - unfold FlowMessage_IsInitialized. cbn. by rewrite R.
  - apply andb_true_iff in I as [_ I%bool_decide_eq_true_1]. apply AppendEntriesRequest_size_bound in I; [|exact E].
    envelope_fits APPEND_ENTRIES_REQUEST p I.
Qed.

Lemma log_message_sendable (n : node) p m b :
  node_ok n = true -> int64 p = true -> log_message n m -> serialize_as_message (set_partition_id p m.2) = Ret b ->
  sendable (set_partition_id p m.2) = true /\ message_ok (set_partition_id p m.2) = true.
Proof.
  rewrite node_ok_spec. intros (_ & I & T & Ci & L & _) P [M [N1 N2]] Se.
  destruct M as [f i prev entry Hi Pr En|e St' La|f|f e La|c t|c t S' T' V|e V La]; try done; cbn [snd] in *.
  - replace (Z.to_nat i) with (S (Z.to_nat (i - 1))) in En by lia.
    pose proof (log_ok_entry _ _ _ L En) as E. destruct (log_ok_lookup _ _ _ L Pr) as [_ Pt].
    assert (Ii : int32 (i - 1) = true) by (apply int32_spec; unfold INT_MIN, INT_MAX in *; lia).
    assert (Cp : LogEntry_CopyFrom entry LogEntry_new = entry) by apply LogEntry_merge_into_new.
    unfold entry_request in *. rewrite Cp in *. pose proof E as E'. unfold entry_ok in E'. rewrite !andb_true_iff in E'.
    destruct E' as [[E1 E2] _]. split.
    + eapply append_request_sendable; [done|..|exact Se].
      * unfold AppendEntriesRequest_ints. cbn. by rewrite T, I, Ii, Pt, E1, Ci.
      * unfold AppendEntriesRequest_IsInitialized. cbn. by rewrite E2.
      * right. by exists entry.
    + unfold message_ok. cbn. by rewrite T, Ci, E.
  - destruct (log_ok_last _ _ L La) as [Ie Te]. split.
    + eapply append_request_sendable; [done|..|exact Se]; [|done|by left].
      unfold AppendEntriesRequest_ints. cbn. by rewrite T, I, Ie, Te, Ci.
    + unfold message_ok. cbn. by rewrite T, Ci.
  - split; [eapply append_response_sendable; [done|..|exact Se]; [|done]|].
    + unfold AppendEntriesResponse_ints. cbn. by rewrite T, I.
    + unfold message_ok. cbn. by rewrite T.
  - destruct (log_ok_last _ _ L La) as [Ie _]. split; [eapply append_response_sendable; [done|..|exact Se]; [|done]|].
    + unfold AppendEntriesResponse_ints. cbn. by rewrite T, I, Ie.
    + unfold message_ok. cbn. by rewrite T, Ie.
Qed.

Lemma step_sends_sendable e (n n' : node) ms m b :
  node_ok n = true -> node_ok n' = true -> step_sends e n n' ms -> m ∈ ms ->
  serialize_as_message (set_partition_id (partition_id_ n) m.2) = Ret b ->
  sendable (set_partition_id (partition_id_ n) m.2) = true /\ message_ok (set_partition_id (partition_id_ n) m.2) = true.
Proof.
  intros N N' D M Se. pose proof N as (P & I & T & _ & L & Ta)%node_ok_spec.
  destruct D as [ms V F|now rid x ts g Ev Q Ty t c V|x E V La].
  - rewrite Forall_forall in F. by eapply log_message_sendable; [exact N'|..|exact Se]; [|apply F].
  - apply list_elem_of_singleton in M. subst m. cbn [snd] in *. rewrite Q in Ta. cbn in Ta. apply andb_true_iff in Ta as [Ta _].
    unfold message_ok in Ta. rewrite Ty in Ta. fold t in Ta. split.
    + eapply vote_response_sendable; [done|..|exact Se]; [|done].
      unfold RequestVoteResponse_ints. cbn. rewrite Ta. by destruct g.
    + unfold message_ok. cbn. rewrite Ta. by destruct g.
  - apply list_elem_of_singleton in M. subst m. cbn [snd] in *. destruct (log_ok_last _ _ L La) as [Ie Te]. split.
    + eapply vote_request_sendable; [done|..|exact Se]; [|done].
      unfold RequestVoteRequest_ints. cbn. by rewrite T, I, Ie, Te.
    + unfold message_ok. cbn. by rewrite T.
Qed.

(** The message a request to the cluster manager carries, as its receiver sees
    it. *)
Definition received (o : outgoing) : option Z * RaftMessage :=
  match o with
  | ToNode id b => (Some id, deserialize_from_message b)
  | ToAll b => (None, deserialize_from_message b)
  end.

Lemma carries_received p o m :
  carries p o m -> sendable (set_partition_id p m.2) = true -> received o = (m.1, set_partition_id p m.2).
Proof.
  intros (b & Se & ->) H. pose proof (serialized_received _ _ H Se) as E. destruct (m.1); cbn [received]; by rewrite E.
Qed.

(** The requests a step adds, and what their receivers see. *)
Lemma node_step_received e (n n' : node) (w w' : Master C K) :
  node_ok n = true -> event_ok e = true -> node_step e (n, w) = Ret (n', w') ->
  exists out ms, requested (cluster_manager_p_ w') = requested (cluster_manager_p_ w) ++ out /\
    step_sends e n n' ms /\ Forall2 (carries (partition_id_ n)) out ms /\
    map received out = map (fun m => (m.1, set_partition_id (partition_id_ n) m.2)) ms /\
    Forall (fun m => message_ok (set_partition_id (partition_id_ n) m.2) = true) ms.
Proof.
  intros N E H. pose proof (node_step_ok _ _ _ _ _ N E H) as N'. apply node_step_sends in H as (ms & (out & R & F) & Se).
  exists out, ms. split; [by rewrite R, requested_all|]. split; [done|]. split; [done|].
  assert (G : forall m b, m ∈ ms -> serialize_as_message (set_partition_id (partition_id_ n) m.2) = Ret b ->
    sendable (set_partition_id (partition_id_ n) m.2) = true /\ message_ok (set_partition_id (partition_id_ n) m.2) = true).
  { intros m b. by eapply step_sends_sendable. }
  clear - F G LW. induction F as [|o m out ms Ca F IH]; [split; [done|constructor]|].
  destruct IH as [IH1 IH2]; [intros x b X; apply G; by right|].
  pose proof Ca as (b & Se & _). destruct (G m b ltac:(by left) Se) as [G1 G2].
  split; [|by constructor]. cbn [map]. by rewrite IH1, (carries_received _ _ _ Ca G1).
Qed.
Definition input_ok (i : node_input) : bool :=
  match i with
  | Step e => event_ok e
  | MessageArrives msg => message_ok (deserialize_from_message msg)
  | ClientGone _ => true
  end.

Lemma input_step_received i (n n' : node) (w w' : Master C K) :
  node_ok n = true -> input_ok i = true -> node_input_step i (n, w) = Ret (n', w') ->
  node_ok n' = true /\ partition_id_ n' = partition_id_ n /\
  exists out ms, requested (cluster_manager_p_ w') = requested (cluster_manager_p_ w) ++ out /\
    Forall2 (carries (partition_id_ n)) out ms /\
    map received out = map (fun m => (m.1, set_partition_id (partition_id_ n) m.2)) ms /\
    Forall (fun o => message_ok (received o).2 = true) out.
Proof.
  intros N I E. assert (Q : forall t, task_ok t = true -> node_ok (set_io_context_ (io_context_ n ++ [t]) n) = true).
  { intros t Ht. apply node_ok_spec in N as (N1 & N2 & N3 & N4 & N5 & N6). apply node_ok_spec. cbn.
    do 5 (split; [done|]). rewrite forallb_app, N6. cbn. by rewrite Ht. }
  assert (Z : exists out ms, requested (cluster_manager_p_ w) = requested (cluster_manager_p_ w) ++ out /\
    Forall2 (carries (partition_id_ n)) out ms /\
    map received out = map (fun m => (m.1, set_partition_id (partition_id_ n) m.2)) ms /\
    Forall (fun o => message_ok (received o).2 = true) out).
  { exists [], []. rewrite app_nil_r. by repeat constructor. }
  destruct i as [e|msg|id]; cbn [node_input_step] in E.
  - pose proof (node_step_ok _ _ _ _ _ N I E) as N'. pose proof (fwd_partition _ _ (node_step_forward _ _ _ _ _ E)) as P.
    apply node_step_received in E as (out & ms & R & _ & F & M & O); [|done..]. split; [done|]. split; [done|].
    exists out, ms. split_and!; [done..|]. apply (Forall_map received (fun x => message_ok x.2 = true)). rewrite M.
    by apply (Forall_map (fun m => (m.1, set_partition_id (partition_id_ n) m.2)) (fun x => message_ok x.2 = true)).
  - injection E as <- <-. split; [by apply Q|]. by split.
  - injection E as <- <-. split; [by apply Q|]. by split.
Qed.
End Types.

(** Over a run: the node stays in range, and what it sends is received as it was
    sent. *)
Lemma node_run_received `{ClusterNodeStorageInterface St, CI : ClusterManagerInterface C, CL : !ClusterManagerLaws C,
    ClientManagerInterface K} `{LW : ProtobufLaws}
    (ins : list node_input) (n n' : ClusterNode St) (w w' : Master C K) :
  node_ok n = true -> forallb input_ok ins = true -> node_run ins (n, w) = Ret (n', w') ->
  node_ok n' = true /\
  exists out ms, requested (cluster_manager_p_ w') = requested (cluster_manager_p_ w) ++ out /\
    Forall2 (carries (partition_id_ n)) out ms /\
    map received out = map (fun m => (m.1, set_partition_id (partition_id_ n) m.2)) ms /\
    Forall (fun o => message_ok (received o).2 = true) out.
Proof.
  revert n w. induction ins as [|i ins IH]; intros n w N I R; cbn [node_run] in R.
  { injection R as <- <-. split; [done|]. exists [], []. rewrite app_nil_r. by repeat constructor. }
  cbn [forallb] in I. apply andb_true_iff in I as [Ii I]. apply obind_ret in R as ([n1 w1] & E & R).
  pose proof (input_step_received i n n1 w w1 N Ii E) as (N1 & P1 & out1 & ms1 & Q1 & C1 & R1 & O1).
  destruct (IH n1 w1 N1 I R) as (N' & out2 & ms2 & Q2 & C2 & R2 & O2). split; [done|].
  exists (out1 ++ out2), (ms1 ++ ms2). rewrite P1 in *. rewrite Q2, Q1, app_assoc, !map_app, R1, R2.
  split_and!; [done|by apply Forall2_app|done|by apply Forall_app].
Qed.

