(* ===== verification/NodeVotes.v ===== *)
(** * The votes a node sends

    A vote is a message: a granted answer to a candidate, or the request with
    which a node stands for election itself. [vote_sent] reads it off what the
    node asked its cluster manager to send, as the receivers decode it. *)

From S2P Require Import Prelude MessageQueue WireFormat FlowTypes FlowCodec FlowCodecFacts RaftMessage LogStorage ClusterManager ClientManager Configuration ClusterNode ClusterNodeFacts NodeElection NodeLog NodeTypes.

Local Open Scope Z_scope.

(** The vote in a message to [to]: its term, and the candidate it is for. *)
Definition vote_in `{ProtobufRuntime} (to : option Z) (r : RaftMessage) : option (Z * Z) :=
  match type r with
  | REQUEST_VOTE_RESPONSE =>
      let resp := get_vote_response r in
      if RequestVoteResponse_vote_result_term_granted resp =? 0 then None
      else Some (RequestVoteResponse_term resp, default (-1) to)
  | REQUEST_VOTE_REQUEST =>
      let req := get_vote_request r in Some (RequestVoteRequest_term req, RequestVoteRequest_candidate_id req)
  | _ => None
  end.

Definition vote_sent `{ProtobufRuntime} (o : outgoing) : option (Z * Z) := vote_in (received o).1 (received o).2.

Section Votes.
Context {St C K : Type}.
Context `{SI : ClusterNodeStorageInterface St, CI : ClusterManagerInterface C, KI : ClientManagerInterface K,
  RT : ProtobufRuntime} {CL : ClusterManagerLaws C} {LW : ProtobufLaws RT}.
Abbreviation node := (ClusterNode St).

Lemma log_message_no_vote p (n : node) m : log_message n m -> vote_in m.1 (set_partition_id p m.2) = None.
Proof. intros [_ [T1 T2]]. unfold vote_in. change (type (set_partition_id p m.2)) with (type m.2). by destruct (type m.2). Qed.

(** The votes among the messages of a step are the one it casts. *)
Lemma step_sends_votes e p (n n' : node) ms :
  step_sends e n n' ms -> omap (fun m => vote_in m.1 (set_partition_id p m.2)) ms = option_list (vote_cast e n).
Proof.
  intros [ms' V F|now rid m ts g _ _ _ t c V|x _ V _]; rewrite V.
  - induction F as [|m ms' M F IH]; [done|]. cbn [omap list_omap]. by rewrite (log_message_no_vote p n' m M).
  - by destruct g.
  - done.
Qed.

Lemma node_step_votes e (n n' : node) (w w' : Master C K) :
  node_ok n = true -> event_ok e = true -> node_step e (n, w) = Ret (n', w') ->
  exists out, requested (cluster_manager_p_ w') = requested (cluster_manager_p_ w) ++ out /\ omap vote_sent out = option_list (vote_cast e n).
Proof.
  intros Ok Oe S. destruct (node_step_received e n n' w w' Ok Oe S) as (out & ms & R & Ss & _ & M & _). exists out. split; [done|].
  rewrite <- (step_sends_votes e (partition_id_ n) n n' ms Ss). clear R Ss. revert ms M. induction out as [|o out IH]; intros [|m ms] M; try done.
  cbn [map] in M. injection M as M1 M2. cbn [omap list_omap]. unfold vote_sent at 1. rewrite M1. cbn [fst snd]. by rewrite (IH ms M2).
Qed.

(** Over a run, the votes sent are the votes cast. *)
Lemma node_run_votes ins (n n' : node) (w w' : Master C K) :
  node_ok n = true -> forallb input_ok ins = true -> node_run ins (n, w) = Ret (n', w') ->
  exists out, requested (cluster_manager_p_ w') = requested (cluster_manager_p_ w) ++ out /\ omap vote_sent out = votes_of ins (n, w).
Proof.
  revert n w. induction ins as [|i ins IH]; intros n w Ok Io R; cbn [node_run] in R.
  { injection R as <- <-. exists []. by rewrite app_nil_r. }
  cbn [forallb] in Io. apply andb_true_iff in Io as [Ii Io]. apply obind_ret in R as ([n1 w1] & E & R).
  pose proof (input_step_received i n n1 w w1 Ok Ii E) as (Ok1 & _). destruct (IH n1 w1 Ok1 Io R) as (out2 & Q2 & V2).
  cbn [votes_of]. rewrite E. destruct i as [e|msg|id]; cbn [node_input_step] in E.
  - destruct (node_step_votes e n n1 w w1 Ok Ii E) as (out1 & Q1 & V1). exists (out1 ++ out2).
    split; [by rewrite Q2, Q1, app_assoc|]. rewrite omap_app, V1, V2. cbn [fst]. by destruct (vote_cast e n).
  - injection E as <- <-. by exists out2.
  - injection E as <- <-. by exists out2.
Qed.
End Votes.

(** ** Properties *)

(** C8: election safety of one node: over any run of well-typed inputs, however
    the timers fire, as long as no candidate gives -1 as its id (the value that
    stands for no vote), the votes among all messages the node sends, that is
    the granted answers and its own candidacies, are in each term for one
    candidate. *)
Theorem one_vote_per_term `{ClusterNodeStorageInterface St, CI : ClusterManagerInterface C, CL : !ClusterManagerLaws C,
    ClientManagerInterface K} `{LW : ProtobufLaws}
    (ins : list node_input) (n n' : ClusterNode St) (w w' : Master C K) :
  node_ok n = true -> forallb input_ok ins = true ->
  node_id_ n <> -1 -> forallb real_task (io_context_ n) = true -> forallb real_input ins = true ->
  node_run ins (n, w) = Ret (n', w') ->
  exists out, requested (cluster_manager_p_ w') = requested (cluster_manager_p_ w) ++ out /\
    forall t c c', (t, c) ∈ omap vote_sent out -> (t, c') ∈ omap vote_sent out -> c = c'.
Proof.
  intros Ok Io I R RI S. destruct (node_run_votes ins n n' w w' Ok Io S) as (out & Q & V). exists out. split; [done|].
  rewrite V. by apply (votes_unique ins n n' w w').
Qed.

Lemma one_vote_per_term_witness :
  exists n' w' out, node_run demo_inputs (demo_node CANDIDATE 4 0 [dummy_entry] [], demo_master) = Ret (n', w') /\
    requested (cluster_manager_p_ w') = out /\ (5, 1) ∈ omap vote_sent out /\ forall c, (5, c) ∈ omap vote_sent out -> c = 1.
Proof.
  destruct (node_run demo_inputs (demo_node CANDIDATE 4 0 [dummy_entry] [], demo_master)) as [[n' w']|] eqn:E;
    [|vm_compute in E; discriminate].
  destruct (one_vote_per_term demo_inputs (demo_node CANDIDATE 4 0 [dummy_entry] []) n' demo_master w' ltac:(vm_compute; reflexivity)
    ltac:(vm_compute; reflexivity) ltac:(vm_compute; discriminate) eq_refl ltac:(vm_compute; reflexivity) E) as (out & Q & U).
  exists n', w', out. split; [reflexivity|]. split; [exact Q|].
  assert (V : (5, 1) ∈ omap vote_sent out).
  { change (requested (cluster_manager_p_ w') = out) in Q. rewrite <- Q.
    assert (B : (let* s := node_run demo_inputs (demo_node CANDIDATE 4 0 [dummy_entry] [], demo_master) in
      Ret (bool_decide ((5, 1) ∈ omap vote_sent (requested (cluster_manager_p_ s.2))))) = Ret true) by (vm_compute; reflexivity).
    rewrite E in B. cbn [obind snd] in B. injection B as B. by apply bool_decide_eq_true_1 in B. }
  split; [exact V|]. intros c Hc. exact (U 5 c 1 Hc V).
Defined.
