(* ===== verification/NodeQueue.v ===== *)
(** * The message queue of a node

    A node applies the committed part of its log to its queue, and delivers
    what the queue has to its clients: every call it makes on the queue is one
    the queue allows, and the persisted part of the queue is the replay of the
    committed log. Restarting a node rebuilds it from the storage. *)

From S2P Require Import Prelude MessageQueue WireFormat FlowTypes FlowCodec FlowCodecFacts RaftMessage LogStorage ClusterManager ClientManager Configuration ClusterNode ClusterNodeFacts NodeElection NodeLog.

Local Open Scope Z_scope.

(** ** Replaying a log *)

(** The call [commit_log_entry] makes for an entry. *)
Definition entry_calls (e : LogEntry) : list call :=
  if LogEntry_operation e =? LogEntry_ADD then [Insert (LogEntry_message_id e) (LogEntry_message e)]
  else if LogEntry_operation e =? LogEntry_COMMIT then [Commit (LogEntry_message_id e)]
  else [].

Definition log_calls (es : list LogEntry) : list call := concat (map entry_calls es).

(** The persisted state of a queue to which the entries at positions 1 to [c]
    have been applied. *)
Definition replay (c : Z) (log : list LogEntry) : gmap Z bytes * gset Z :=
  persisted (foldl exec MessageQueue_new (log_calls (take (Z.to_nat c) (drop 1 log)))).

Lemma log_calls_app a b : log_calls (a ++ b) = log_calls a ++ log_calls b.
Proof. unfold log_calls. by rewrite map_app, concat_app. Qed.

Lemma entry_calls_from_log e : forallb from_log (entry_calls e) = true.
Proof. unfold entry_calls. by repeat case_match. Qed.

Lemma log_calls_from_log es : forallb from_log (log_calls es) = true.
Proof.
  induction es as [|e es IH]; [done|]. change (log_calls (e :: es)) with (entry_calls e ++ log_calls es).
  by rewrite forallb_app, entry_calls_from_log, IH.
Qed.

(** The log operations are always allowed. *)
Lemma from_log_ok q cs : forallb from_log cs = true -> calls_ok q cs.
Proof.
  revert q. induction cs as [|c cs IH]; intros q H; [done|]. cbn in H. apply andb_true_iff in H as [H1 H2].
  split; [by destruct c|auto].
Qed.

Lemma persisted_foldl q q' cs :
  forallb from_log cs = true -> persisted q = persisted q' -> persisted (foldl exec q cs) = persisted (foldl exec q' cs).
Proof.
  revert q q'. induction cs as [|c cs IH]; intros q q' H E; [done|]. cbn in H. apply andb_true_iff in H as [H1 H2].
  apply IH; [done|]. by apply persisted_from_log.
Qed.

Lemma persisted_rest q cs :
  queue_wf q -> calls_ok q cs -> forallb (fun c => negb (from_log c)) cs = true -> persisted (foldl exec q cs) = persisted q.
Proof.
  revert q. induction cs as [|c cs IH]; intros q W OK H; [done|]. cbn in H. apply andb_true_iff in H as [H1 H2].
  destruct OK as [O1 O2]. cbn [foldl]. rewrite IH by eauto using exec_wf. apply persisted_local; [done..|]. by destruct (from_log c).
Qed.

Lemma calls_ok_app q a b : calls_ok q (a ++ b) <-> calls_ok q a /\ calls_ok (foldl exec q a) b.
Proof. revert q. induction a as [|c a IH]; intros q; cbn; [tauto|]. rewrite IH. tauto. Qed.

Section NodeQueue.
Context {St C K : Type}.
Context `{SI : ClusterNodeStorageInterface St, CI : ClusterManagerInterface C, KI : ClientManagerInterface K,
  RT : ProtobufRuntime}.
Abbreviation node := (ClusterNode St).
Abbreviation nstate := (node * Master C K)%type.

(** The calls a piece of code makes on the queue are allowed ones; [es] is
    what it applies of the log, and the rest is deliveries and
    disconnections. *)
Definition drives (q q' : MessageQueue) (es : list LogEntry) : Prop :=
  exists cs, calls_ok q (log_calls es ++ cs) /\ forallb (fun c => negb (from_log c)) cs = true /\
    q' = foldl exec q (log_calls es ++ cs).

Lemma drives_refl q : drives q q [].
Proof. by exists []. Qed.

Lemma drives_log q es : drives q (foldl exec q (log_calls es)) es.
Proof. exists []. rewrite app_nil_r. split_and!; [|done|done]. apply from_log_ok, log_calls_from_log. Qed.

Lemma drives_trans q1 q2 q3 es : drives q1 q2 es -> drives q2 q3 [] -> drives q1 q3 es.
Proof.
  intros (a & A1 & A2 & ->) (b & B1 & B2 & ->). exists (a ++ b). split_and!.
  - rewrite app_assoc. by apply calls_ok_app.
  - by rewrite forallb_app, A2, B2.
  - by rewrite app_assoc, (foldl_app exec (log_calls es ++ a)).
Qed.

Lemma drives_reachable q q' es : reachable q -> drives q q' es -> reachable q'.
Proof. intros R (cs & OK & _ & ->). by apply calls_reachable. Qed.

Lemma drives_persisted q q' es : reachable q -> drives q q' es -> persisted q' = persisted (foldl exec q (log_calls es)).
Proof.
  intros R (cs & OK & F & ->). rewrite foldl_app. apply calls_ok_app in OK as [O1 O2].
  apply persisted_rest; [|done|done]. by apply reachable_wf, calls_reachable.
Qed.

(** ** What the operations do to the queue *)

Lemma commit_log_entry_calls i (n n' : node) :
  0 < i < zlength (log_entries_ n) -> zlength (log_entries_ n) <= INT_MAX -> commit_log_entry i n = Ret n' ->
  exists e, log_entries_ n !! Z.to_nat i = Some e /\
    n' = set_message_queue_ (foldl exec (message_queue_ n) (entry_calls e)) n.
Proof.
  intros R L. unfold commit_log_entry. rewrite to_int_small by lia.
  rewrite !(proj2 (Z.leb_gt _ _)) by lia. intros H. apply obind_ret in H as (e & E & H). apply vec_at_ret in E as [_ E].
  exists e. split; [done|]. unfold entry_calls. destruct (_ =? LogEntry_ADD); [by injection H as <-|].
  destruct (_ =? LogEntry_COMMIT); [by injection H as <-|]. injection H as <-. by destruct n.
Qed.

Lemma commit_log_entry_outside i (n : node) :
  zlength (log_entries_ n) <= INT_MAX -> zlength (log_entries_ n) <= i -> commit_log_entry i n = Ret n.
Proof.
  intros L R. unfold commit_log_entry. rewrite to_int_small by (split; [apply zlength_nonneg|done]).
  destruct (i <=? 0); [done|]. by rewrite (proj2 (Z.leb_le _ _)) by lia.
Qed.

(** The loop applies the entries of its range that are in the log. *)
Lemma commit_loop_calls r i (n n' : node) :
  0 < i -> zlength (log_entries_ n) <= INT_MAX -> commit_loop r i n = Ret n' ->
  n' = set_message_queue_ (foldl exec (message_queue_ n) (log_calls (take r (drop (Z.to_nat i) (log_entries_ n))))) n.
Proof.
  revert i n. induction r as [|r IH]; intros i n I L H; cbn [commit_loop] in H.
  { injection H as <-. by destruct n. }
  apply obind_ret in H as (n1 & E & H).
  destruct (decide (i < zlength (log_entries_ n))) as [R|R].
  - apply commit_log_entry_calls in E as (e & E & ->); [|lia|done]. apply IH in H; [|lia|done]. rewrite H.
    cbn [log_entries_ message_queue_ set_message_queue_].
    rewrite (drop_S _ _ _ E). cbn [take]. change (log_calls (e :: ?l)) with (entry_calls e ++ log_calls l).
    rewrite foldl_app, set_queue_twice. by replace (Z.to_nat (i + 1)) with (S (Z.to_nat i)) by lia.
  - rewrite commit_log_entry_outside in E by lia. injection E as <-. apply IH in H; [|lia|done]. rewrite H.
    unfold zlength in R. by rewrite !drop_ge, !take_nil by lia.
Qed.

(** The loop over the log always ends with a result. *)
Lemma commit_loop_total r i (n : node) :
  0 < i -> zlength (log_entries_ n) <= INT_MAX -> exists n', commit_loop r i n = Ret n'.
Proof.
  revert i n. induction r as [|r IH]; intros i n I L; cbn [commit_loop]; [eauto|].
  destruct (decide (i < zlength (log_entries_ n))) as [R|R].
  - unfold commit_log_entry. rewrite to_int_small by (split; [apply zlength_nonneg|done]).
    rewrite !(proj2 (Z.leb_gt _ _)) by lia. destruct (vec_at_in_range (log_entries_ n) i) as (e & -> & _); [unfold zlength in *; lia|].
    cbn [obind]. destruct (_ =? LogEntry_ADD); [|destruct (_ =? LogEntry_COMMIT)]; cbn [obind]; apply IH; done || lia.
  - rewrite commit_log_entry_outside by lia. cbn [obind]. apply IH; done || lia.
Qed.

Lemma drives_call q c : call_ok q c -> from_log c = false -> drives q (exec q c) [].
Proof. intros OK F. exists [c]. cbn. by rewrite F. Qed.

(** A delivery round takes messages that are still undelivered. *)
Lemma delivery_loop_drives ids (n n' : node) (w w' : Master C K) :
  queue_wf (message_queue_ n) -> NoDup ids -> Forall (fun i => i ∈ undelivered_messages_ (message_queue_ n)) ids ->
  delivery_loop ids (n, w) = Ret (n', w') -> drives (message_queue_ n) (message_queue_ n') [].
Proof.
  revert n w. induction ids as [|i ids IH]; intros n w W ND F H.
  { injection H as <- <-. apply drives_refl. }
  apply NoDup_cons in ND as [Ni ND]. inv F. rename select (i ∈ _) into Fi. rename select (Forall _ _) into Fs.
  rewrite delivery_loop_cons in H. apply obind_ret in H as ([cid [n1 w1]] & D & H).
  rewrite (get_message_wf i _ Fi W) in D. apply deliver_client_node in D as [-> D]. cbn [fst snd] in H.
  destruct (cid =? -1).
  - injection H as <- <-. apply drives_refl.
  - cbn [message_queue_ set_message_queue_] in H.
    apply (drives_trans _ (exec (message_queue_ n) (Deliver i cid))); [by apply drives_call|].
    apply IH in H; [exact H|..]; cbn [message_queue_ set_message_queue_].
    + by apply (exec_wf _ (Deliver i cid)).
    + done.
    + eapply Forall_impl; [apply Forall_and; split; [exact Fs|apply Forall_forall; intros x X; exact X]|].
      intros x [X1 X2]. cbn. apply elem_of_difference. split; [done|]. by intros ->%elem_of_singleton.
Qed.

Lemma trigger_message_delivery_drives (n n' : node) (w w' : Master C K) :
  reachable (message_queue_ n) -> trigger_message_delivery (n, w) = Ret (n', w') ->
  drives (message_queue_ n) (message_queue_ n') [].
Proof.
  intros R. unfold trigger_message_delivery. destruct (negb _); [intros [= <- <-]; apply drives_refl|].
  destruct (negb _); [intros [= <- <-]; apply drives_refl|]. apply delivery_loop_drives.
  - by apply reachable_wf.
  - apply set_iter_NoDup.
  - apply Forall_forall. intros x X. by apply elem_of_set_iter.
Qed.

Lemma commit_log_entries_drives i j (n n' : node) (w w' : Master C K) :
  reachable (message_queue_ n) -> 0 < i -> zlength (log_entries_ n) <= INT_MAX ->
  commit_log_entries i j (n, w) = Ret (n', w') ->
  drives (message_queue_ n) (message_queue_ n') (take (Z.to_nat (j - i)) (drop (Z.to_nat i) (log_entries_ n))).
Proof.
  intros R I L. unfold commit_log_entries. intros H. apply obind_ret in H as (n1 & E & H).
  apply commit_loop_calls in E; [|done|done]. apply trigger_message_delivery_drives in H.
  - rewrite E in H. eapply drives_trans; [apply drives_log|exact H].
  - rewrite E. apply (drives_reachable _ _ _ R (drives_log _ _)).
Qed.

(** The entries a move of the commit index from [c] to [c'] applies. *)
Definition newly_committed (c c' : Z) (log : list LogEntry) : list LogEntry :=
  take (Z.to_nat (c' - c)) (drop (Z.to_nat (c + 1)) log).

Lemma newly_committed_none c log : newly_committed c c log = [].
Proof. unfold newly_committed. by rewrite Z.sub_diag. Qed.

Lemma commit_up_to_drives l (n n1 n' : node) (w w' : Master C K) :
  reachable (message_queue_ n) -> 0 <= commit_index_ n -> zlength (log_entries_ n) <= INT_MAX ->
  commit_log_entries (commit_index_ n + 1) (l + 1) (n, w) = Ret (n1, w') ->
  store_entries l (l + 1) (mkLogEntryMetaData l) (set_commit_index_ l n1) = Ret n' ->
  drives (message_queue_ n) (message_queue_ n') (newly_committed (commit_index_ n) (commit_index_ n') (log_entries_ n)).
Proof.
  intros R C0 L D S. apply store_entries_frame in S as (st & -> & _). apply commit_log_entries_drives in D; [|done|lia|done].
  unfold newly_committed. cbn. by replace (l - commit_index_ n) with (l + 1 - (commit_index_ n + 1)) by lia.
Qed.

Lemma follow_leader_commit_drives l (n n' : node) (w w' : Master C K) :
  reachable (message_queue_ n) -> 0 <= commit_index_ n -> zlength (log_entries_ n) <= INT_MAX ->
  follow_leader_commit l (n, w) = Ret (n', w') ->
  drives (message_queue_ n) (message_queue_ n') (newly_committed (commit_index_ n) (commit_index_ n') (log_entries_ n)).
Proof.
  intros R C0 L [[-> ->]|(_ & n1 & n2 & D & -> & S)]%follow_leader_commit_cases.
  - rewrite newly_committed_none. apply drives_refl.
  - by eapply commit_up_to_drives.
Qed.

Lemma advance_commit_drives l (n n' : node) (w w' : Master C K) :
  reachable (message_queue_ n) -> 0 <= commit_index_ n -> zlength (log_entries_ n) <= INT_MAX ->
  advance_commit l (n, w) = Ret (n', w') ->
  drives (message_queue_ n) (message_queue_ n') (newly_committed (commit_index_ n) (commit_index_ n') (log_entries_ n)).
Proof.
  intros R C0 L [[-> ->]|(_ & _ & n1 & n2 & D & -> & S)]%advance_commit_cases.
  - rewrite newly_committed_none. apply drives_refl.
  - by eapply commit_up_to_drives.
Qed.

(** A step applies to the queue what it commits, and nothing else. *)
Definition queue_step (n n' : node) : Prop :=
  drives (message_queue_ n) (message_queue_ n') (newly_committed (commit_index_ n) (commit_index_ n') (log_entries_ n)).

Lemma queue_step_same (n n' : node) :
  message_queue_ n' = message_queue_ n -> commit_index_ n' = commit_index_ n -> queue_step n n'.
Proof. unfold queue_step. intros -> ->. rewrite newly_committed_none. apply drives_refl. Qed.

Lemma queue_step_delivery (n n' : node) :
  commit_index_ n' = commit_index_ n -> drives (message_queue_ n) (message_queue_ n') [] -> queue_step n n'.
Proof. unfold queue_step. intros ->. by rewrite newly_committed_none. Qed.

Lemma append_request_queue now req (n n' : node) (w w' : Master C K) :
  reachable (message_queue_ n) -> 0 <= commit_index_ n -> zlength (log_entries_ n) <= INT_MAX ->
  append_request_result now req n w n' w' -> queue_step n n'.
Proof.
  intros R C0 L [w1 T S|w1 T E S|n1 w1 n2 e w2 T E F A La S]; [by apply queue_step_same|..];
    destruct (accept_leader_frame now req n) as (st & AL & _).
  - rewrite AL. by apply queue_step_same.
  - rewrite AL in F. apply append_log_entries_frame in A as (log & _ & ->).
    apply follow_leader_commit_drives in F; [|done..]. exact F.
Qed.

Lemma append_response_queue resp (n n' : node) (w w' : Master C K) :
  reachable (message_queue_ n) -> 0 <= commit_index_ n -> zlength (log_entries_ n) <= INT_MAX ->
  append_response_result resp n w n' w' -> queue_step n n'.
Proof.
  intros R C0 L [p n1 w1 x S A|p S T|p x S T]; [|by apply queue_step_same..].
  apply advance_commit_drives in A; [|done..]. exact A.
Qed.

Lemma open_queue_drives (n n' : node) (w w' : Master C K) :
  reachable (message_queue_ n) -> handle_open_queue (n, w) = Ret (n', w') -> drives (message_queue_ n) (message_queue_ n') [].
Proof.
  intros R. unfold handle_open_queue. intros H. destruct (negb _) in H; apply obind_ret in H as ([id [n1 w1]] & D & H);
    apply deliver_client_node in D as [-> D]; cbn [snd] in H.
  - injection H as <- <-. apply drives_refl.
  - by apply trigger_message_delivery_drives in H.
Qed.

Lemma handle_disconnect_drives id (n n' : node) (w w' : Master C K) :
  reachable (message_queue_ n) -> handle_disconnect id (n, w) = Ret (n', w') -> drives (message_queue_ n) (message_queue_ n') [].
Proof.
  intros R. unfold handle_disconnect. intros H.
  assert (D : drives (message_queue_ n) (exec (message_queue_ n) (Disconnect id)) []) by (by apply drives_call).
  apply trigger_message_delivery_drives in H; [by eapply drives_trans|]. exact (drives_reachable _ _ _ R D).
Qed.

Lemma local_message_handler_queue now rid m (n n' : node) (w w' : Master C K) :
  reachable (message_queue_ n) -> 0 <= commit_index_ n -> zlength (log_entries_ n) <= INT_MAX ->
  local_message_handler now rid m (n, w) = Ret (n', w') -> queue_step n n'.
Proof.
  intros R C0 L. unfold local_message_handler. destruct (type m); intros H; try (injection H as <- <-; by apply queue_step_same).
  - apply handle_vote_request_cases in H as [w1 G D|n1 Le T [[-> _]|[-> T']]|n1 w1 Le [(-> & _ & _)|[-> T']] D];
      by apply queue_step_same.
  - apply obind_ret in H as (n1 & V & H). injection H as <- <-.
    apply handle_vote_response_cases in V as [->|(_ & T & _ & [[-> _]|[-> _]])]; by apply queue_step_same.
  - apply handle_append_request_cases in H. by eapply append_request_queue.
  - apply handle_append_response_cases in H as (n1 & w1 & A & U). apply append_response_queue in A; [|done..].
    apply trigger_entry_update_frame in U as (p & x & ->). exact A.
  - unfold handle_put_message in H. destruct (negb _) in H; [injection H as <- <-; by apply queue_step_same|].
    apply add_log_entry_frame in H as (p & x & ->). by apply queue_step_same.
  - unfold handle_commit_message in H. destruct (negb _) in H; [injection H as <- <-; by apply queue_step_same|].
    apply add_log_entry_frame in H as (p & x & ->). by apply queue_step_same.
  - apply queue_step_delivery; [|by eapply open_queue_drives]. by apply open_queue_queue in H as [[q ->] _].
Qed.

Lemma node_step_queue e (n n' : node) (w w' : Master C K) :
  reachable (message_queue_ n) -> 0 <= commit_index_ n -> zlength (log_entries_ n) <= INT_MAX ->
  node_step e (n, w) = Ret (n', w') -> queue_step n n'.
Proof.
  intros R C0 L. unfold node_step. destruct e as [now rid| |now| |].
  - unfold run_posted_task. destruct (io_context_ n) as [|[m|id] ts] eqn:IO; intros H;
      [injection H as <- <-; by apply queue_step_same|..].
    + apply local_message_handler_queue in H; [exact H|done..].
    + apply queue_step_delivery; [by apply handle_disconnect_queue in H as [[q ->] _]|].
      apply handle_disconnect_drives in H; [exact H|done].
  - destruct (heartbeat_timer_ n); intros H; [|injection H as <- <-; by apply queue_step_same].
    apply on_heartbeat_timer_node in H as (m & ->). by apply queue_step_same.
  - destruct (vote_timer_ n); intros H; [|injection H as <- <-; by apply queue_step_same].
    apply obind_ret in H as (n1 & V & H). injection H as <- <-.
    apply on_vote_timer_cases in V as [[-> _]|[-> _]]; by apply queue_step_same.
  - destruct (vote_delays_ n); intros H; [injection H as <- <-; by apply queue_step_same|].
    apply on_vote_delay_cases in H as [(-> & _ & _)|(e & -> & _)]; by apply queue_step_same.
  - intros [= <- <-]. destruct (stats_timer_ n); by apply queue_step_same.
Qed.

(** ** Over runs *)

(** A step keeps what is committed after it: the commit index points into the
    log, and up to it the log before and after agree. Leader completeness and
    the majority rule are what gives this in Raft. *)
Definition commits_kept (n n' : node) : Prop :=
  commit_index_ n' < zlength (log_entries_ n) /\
  take (S (Z.to_nat (commit_index_ n'))) (log_entries_ n') = take (S (Z.to_nat (commit_index_ n'))) (log_entries_ n).

Definition run_keeps_commits (ins : list node_input) (s : nstate) : Prop :=
  forall k s1 s2, node_run (take k ins) s = Ret s1 -> node_run (take (S k) ins) s = Ret s2 -> commits_kept s1.1 s2.1.

(** The queue shows the committed log. *)
Definition queue_current (n : node) : Prop :=
  persisted (message_queue_ n) = replay (commit_index_ n) (log_entries_ n).

Lemma replay_split c c' log :
  0 <= c <= c' -> c' < zlength log ->
  log_calls (take (Z.to_nat c') (drop 1 log)) =
    log_calls (take (Z.to_nat c) (drop 1 log)) ++ log_calls (newly_committed c c' log).
Proof.
  intros B L. rewrite <- log_calls_app. unfold newly_committed. f_equal.
  replace (Z.to_nat (c + 1)) with (1 + Z.to_nat c)%nat by lia. rewrite <- drop_drop, take_take_drop. f_equal. lia.
Qed.

Lemma replay_agree c log log' :
  take (S (Z.to_nat c)) log' = take (S (Z.to_nat c)) log -> replay c log' = replay c log.
Proof.
  intros E. unfold replay. do 3 f_equal. rewrite !firstn_skipn_comm. cbn [Nat.add]. by rewrite E.
Qed.

Lemma queue_step_current (n n' : node) :
  reachable (message_queue_ n) -> 0 <= commit_index_ n <= commit_index_ n' -> queue_step n n' -> commits_kept n n' ->
  queue_current n -> queue_current n'.
Proof.
  intros R B Q [L E] H. unfold queue_current in *. rewrite (replay_agree _ _ _ E).
  rewrite (drives_persisted _ _ _ R Q). unfold replay. rewrite (replay_split (commit_index_ n)) by done.
  rewrite foldl_app. apply persisted_foldl; [apply log_calls_from_log|]. exact H.
Qed.

Lemma input_step_queue i (n n' : node) (w w' : Master C K) :
  reachable (message_queue_ n) -> 0 <= commit_index_ n -> zlength (log_entries_ n) <= INT_MAX ->
  node_input_step i (n, w) = Ret (n', w') -> queue_step n n' /\ commit_index_ n <= commit_index_ n'.
Proof.
  intros R C0 L H. destruct i as [e|msg|id]; cbn [node_input_step] in H.
  - split; [by eapply node_step_queue|]. by destruct (node_step_forward _ _ _ _ _ H).
  - injection H as <- <-. split; [by apply queue_step_same|cbn; lia].
  - injection H as <- <-. split; [by apply queue_step_same|cbn; lia].
Qed.

Lemma node_run_queue ins (n n' : node) (w w' : Master C K) :
  reachable (message_queue_ n) -> 0 <= commit_index_ n -> log_fits ins (n, w) -> node_run ins (n, w) = Ret (n', w') ->
  reachable (message_queue_ n') /\ (run_keeps_commits ins (n, w) -> queue_current n -> queue_current n').
Proof.
  revert n w. induction ins as [|i ins IH]; intros n w R C0 B H.
  { injection H as <- <-. done. }
  cbn [node_run] in H. apply obind_ret in H as ([n1 w1] & Sp & H).
  destruct (input_step_queue _ _ _ _ _ R C0 (B O (n, w) eq_refl) Sp) as [Q C1].
  assert (S1 : forall k, node_run (take (1 + k) (i :: ins)) (n, w) = node_run (take k ins) (n1, w1)).
  { intros k. cbn [Nat.add take node_run]. by rewrite Sp. }
  destruct (IH n1 w1) as [R' Cu]; try done.
  - exact (drives_reachable _ _ _ R Q).
  - lia.
  - intros k s'. rewrite <- S1. apply B.
  - split; [done|]. intros KC Cur. apply Cu.
    + intros k s1 s2. rewrite <- !S1. apply KC.
    + eapply queue_step_current; [exact R|lia|exact Q| |exact Cur].
      apply (KC O (n, w) (n1, w1) eq_refl). cbn. by rewrite Sp.
Qed.
End NodeQueue.

(** ** Properties *)

(** C16: the node keeps the contract of its queue: whatever messages arrive and
    in whatever order its closures run, every call it makes is one the queue
    allows (it delivers and reads only undelivered messages), so the queue is
    always in a reachable state and the theorems about it apply. *)
Theorem queue_contract_kept `{ClusterNodeStorageInterface St, ClusterManagerInterface C, ClientManagerInterface K,
    ProtobufRuntime} (ins : list node_input) (n n' : ClusterNode St) (w w' : Master C K) :
  reachable (message_queue_ n) -> 0 <= commit_index_ n -> log_fits ins (n, w) -> node_run ins (n, w) = Ret (n', w') ->
  reachable (message_queue_ n') /\
  Forall (fun id => is_Some (message_store_ (message_queue_ n') !! id))
    (get_all_undelivered_messages [] (message_queue_ n')).2.
Proof.
  intros R C0 B S. destruct (node_run_queue ins n n' w w' R C0 B S) as [R' _]. split; [done|].
  apply Forall_forall. intros id I%elem_of_set_iter. by apply (wf_undelivered _ (reachable_wf _ R')) in I as [I _].
Qed.

(** A leader that takes a message of a client and hears that a follower has it. *)
Definition demo_put (m : bytes) : RaftMessage :=
  set_partition_id 7 (loadClientPutMessageRequest (ClientPutMessage_set_message m ClientPutMessage_new) RaftMessage_new).

Definition demo_synced (follower index : Z) : RaftMessage :=
  set_partition_id 7 (loadAppendEntriesResponse (AppendEntriesResponse_set_last_index_synced index
    (AppendEntriesResponse_set_append_result_success 1 (AppendEntriesResponse_set_follower_id follower
    (AppendEntriesResponse_set_term 4 AppendEntriesResponse_new)))) RaftMessage_new).

Definition demo_put_inputs : list node_input :=
  [MessageArrives (encode_demo (demo_put (str "hi"))); Step (TaskRuns 0 99);
   MessageArrives (encode_demo (demo_synced 1 1)); Step (TaskRuns 0 0)].

Definition demo_leader : ClusterNode ClusterNodeStorageMock := demo_node LEADER 4 0 [dummy_entry] [].

(** The bound holds after each prefix of these inputs. *)
Lemma demo_put_fits : log_fits demo_put_inputs (demo_leader, demo_master).
Proof.
  intros k s' R. do 5 (destruct k as [|k]; [vm_compute in R; injection R as <-; vm_compute; discriminate|]).
  vm_compute in R. injection R as <-. vm_compute. discriminate.
Qed.

Lemma queue_contract_kept_witness :
  exists n' w', node_run demo_put_inputs (demo_leader, demo_master) = Ret (n', w') /\
    message_store_ (message_queue_ n') = {[ 99 := str "hi" ]} /\ reachable (message_queue_ n').
Proof.
  destruct (node_run demo_put_inputs (demo_leader, demo_master)) as [[n' w']|] eqn:E; [|vm_compute in E; discriminate].
  exists n', w'. split; [reflexivity|]. split; [vm_compute in E; injection E as <- <-; reflexivity|].
  refine (proj1 (queue_contract_kept demo_put_inputs demo_leader n' demo_master w' reach_new _ demo_put_fits E)).
  vm_compute. discriminate.
Defined.

(** C11: the queue is the replay of the committed log: as long as no committed
    entry is cut from the log (what Raft's leader completeness is for), the
    stored messages and the committed ids are at every moment exactly what
    applying the entries at positions 1 to [commit_index_] to an empty queue
    gives, each once and in order, whatever deliveries and disconnections
    happen in between. *)
Theorem queue_replays_log `{ClusterNodeStorageInterface St, ClusterManagerInterface C, ClientManagerInterface K,
    ProtobufRuntime} (ins : list node_input) (n n' : ClusterNode St) (w w' : Master C K) :
  reachable (message_queue_ n) -> 0 <= commit_index_ n -> queue_current n ->
  log_fits ins (n, w) -> run_keeps_commits ins (n, w) -> node_run ins (n, w) = Ret (n', w') ->
  queue_current n'.
Proof. intros R C0 Q B KC S. destruct (node_run_queue ins n n' w w' R C0 B S) as [_ Q']. auto. Qed.

Lemma demo_put_keeps : run_keeps_commits demo_put_inputs (demo_leader, demo_master).
Proof.
  intros k s1 s2 R1 R2.
  do 5 (destruct k as [|k]; [vm_compute in R1; injection R1 as <-; vm_compute in R2; injection R2 as <-;
    split; vm_compute; reflexivity|]).
  vm_compute in R1. injection R1 as <-. vm_compute in R2. injection R2 as <-. split; vm_compute; reflexivity.
Qed.

Lemma queue_replays_log_witness :
  exists n' w', node_run demo_put_inputs (demo_leader, demo_master) = Ret (n', w') /\ commit_index_ n' = 1 /\
    queue_current n'.
Proof.
  destruct (node_run demo_put_inputs (demo_leader, demo_master)) as [[n' w']|] eqn:E; [|vm_compute in E; discriminate].
  exists n', w'. split; [reflexivity|]. split; [vm_compute in E; injection E as <- <-; reflexivity|].
  refine (queue_replays_log demo_put_inputs demo_leader n' demo_master w' reach_new _ eq_refl demo_put_fits demo_put_keeps E).
  vm_compute. discriminate.
Defined.
