(* ===== verification/NodeCommit.v ===== *)
(** * What a node takes for committed

    The commit index moves when a leader says so, or when a majority has
    acknowledged an index. *)

From S2P Require Import Prelude MessageQueue WireFormat FlowTypes FlowCodec FlowCodecFacts RaftMessage LogStorage ClusterManager ClientManager Configuration ClusterNode ClusterNodeFacts NodeElection NodeLog NodeTypes NodeQueue.

Local Open Scope Z_scope.

Section NodeCommit.
Context {St C K : Type}.
Context `{SI : ClusterNodeStorageInterface St, CI : ClusterManagerInterface C, KI : ClientManagerInterface K,
  RT : ProtobufRuntime}.
Abbreviation node := (ClusterNode St).
Abbreviation nstate := (node * Master C K)%type.

(** ** What moves the commit index *)

(** The followers that are known to have an index. *)
Definition synced_followers (index : Z) (m : gmap Z Z) : list Z :=
  map fst (List.filter (fun p => index <=? p.2) (map_iter m)).

Lemma synced_followers_spec index (m : gmap Z Z) :
  NoDup (synced_followers index m) /\ zlength (synced_followers index m) = count_synced index m /\
  forall f, f ∈ synced_followers index m -> exists x, m !! f = Some x /\ index <= x.
Proof.
  unfold synced_followers, count_synced. split_and!.
  - assert (ND : NoDup (map fst (map_iter m))).
    { rewrite (fmap_Permutation fst _ _ (map_iter_perm m) : map fst _ ≡ₚ map fst _). apply NoDup_fst_map_to_list. }
    revert ND. generalize (map_iter m). intros l. induction l as [|[f x] l IH]; [done|]. cbn [map fst List.filter]. intros [N ND]%NoDup_cons.
    destruct (index <=? (f, x).2); [|auto]. cbn [map fst]. constructor; [|auto]. intros X. apply N.
    apply list_elem_of_In, in_map_iff in X as (y & E & X). apply filter_In in X as [X _]. apply list_elem_of_In, in_map_iff. by exists y.
  - unfold zlength. by rewrite length_map.
  - intros f X. apply list_elem_of_In, in_map_iff in X as ([f' x] & E & X). cbn in E. subst f'. apply filter_In in X as [X L].
    exists x. split; [|by apply Z.leb_le in L]. by apply elem_of_map_iter, list_elem_of_In.
Qed.

(** The message that moved it, from [c] to [c']. *)
Inductive moves_commit (n : node) (m : RaftMessage) (c c' : Z) : Prop :=
  | moved_by_leader :
      type m = APPEND_ENTRIES_REQUEST -> c' = AppendEntriesRequest_leader_commit (get_append_request m) ->
      cur_term_ n <= AppendEntriesRequest_term (get_append_request m) ->
      check_if_previous_log_in_sync (AppendEntriesRequest_prev_log_term (get_append_request m))
        (AppendEntriesRequest_prev_log_index (get_append_request m)) n = Ret true ->
      c' < to_int (zlength (log_entries_ n)) -> moves_commit n m c c'
  | moved_by_majority fs :
      let resp := get_append_response m in
      type m = APPEND_ENTRIES_RESPONSE -> AppendEntriesResponse_append_result_success resp <> 0 ->
      c' = AppendEntriesResponse_last_index_synced resp -> NoDup fs -> total_nodes_ n ÷ 2 < zlength fs + 1 ->
      (forall f, f ∈ fs -> f = AppendEntriesResponse_follower_id resp \/ exists x, matched_index_ n !! f = Some x /\ c' <= x) ->
      moves_commit n m c c'.

Lemma append_request_commit now req (n n' : node) (w w' : Master C K) :
  append_request_result now req n w n' w' -> commit_index_ n' <> commit_index_ n ->
  commit_index_ n < commit_index_ n' /\ commit_index_ n' = AppendEntriesRequest_leader_commit req /\
  cur_term_ n <= AppendEntriesRequest_term req /\
  check_if_previous_log_in_sync (AppendEntriesRequest_prev_log_term req) (AppendEntriesRequest_prev_log_index req) n = Ret true /\
  commit_index_ n' < to_int (zlength (log_entries_ n)).
Proof.
  destruct (accept_leader_frame now req n) as (st & AL & _).
  intros [w1 T S|w1 T E S|n1 w1 n2 e w2 T E F A La S] Ne; [done|by rewrite AL in Ne|].
  rewrite (in_sync_log _ _ n) in E by apply accept_leader_log. apply append_log_entries_frame in A as (log & _ & ->). cbn in Ne.
  rewrite AL in F. apply follow_leader_commit_cases in F as [[-> _]|([L1 L2] & m1 & m2 & D & -> & Se)]; [done|].
  apply store_entries_frame in Se as (st' & -> & _). cbn in *. split_and!; done.
Qed.

Lemma append_response_commit resp (n n' : node) (w w' : Master C K) :
  append_response_result resp n w n' w' -> commit_index_ n' <> commit_index_ n ->
  commit_index_ n < commit_index_ n' /\ AppendEntriesResponse_append_result_success resp <> 0 /\
  commit_index_ n' = AppendEntriesResponse_last_index_synced resp /\
  total_nodes_ n ÷ 2 < count_synced (commit_index_ n') (<[AppendEntriesResponse_follower_id resp :=
    AppendEntriesResponse_last_index_synced resp]> (matched_index_ n)) + 1.
Proof.
  intros [p n1 w1 x S A|p S T|p x S T] Ne; [|done..].
  apply advance_commit_cases in A as [[-> _]|(L & M & m1 & m2 & D & -> & Se)]; [done|].
  apply store_entries_frame in Se as (st' & -> & _). cbn in *. split_and!; done.
Qed.

Lemma node_step_commit e (n n' : node) (w w' : Master C K) :
  node_step e (n, w) = Ret (n', w') -> commit_index_ n' <> commit_index_ n ->
  exists m ts, io_context_ n = HandleMessage m :: ts /\ commit_index_ n < commit_index_ n' /\
    moves_commit n m (commit_index_ n) (commit_index_ n').
Proof.
  unfold node_step. destruct e as [now rid| |now| |]; intros H Ne.
  - unfold run_posted_task in H. destruct (io_context_ n) as [|[m|id] ts] eqn:IO; [by injection H as <- <-| |].
    + exists m, ts. split; [done|]. unfold local_message_handler in H. destruct (type m) eqn:T; try (by injection H as <- <-).
      * apply handle_vote_request_cases, vote_request_ints in H as (_ & E & _). by rewrite E in Ne.
      * apply obind_ret in H as (n1 & V & H). injection H as <- <-.
        by apply handle_vote_response_cases in V as [->|(_ & _ & _ & [[-> _]|[-> _]])].
      * apply handle_append_request_cases, append_request_commit in H as (L & E & Te & Sy & B); [|done]. split; [done|].
        by apply moved_by_leader.
      * apply handle_append_response_cases in H as (n1 & w1 & A & U). apply trigger_entry_update_frame in U as (p & x & ->).
        apply append_response_commit in A as (L & S & E & Mj); [|done]. split; [done|]. cbn in *.
        set (resp := get_append_response m) in *.
        destruct (synced_followers_spec (commit_index_ n1) (<[AppendEntriesResponse_follower_id resp :=
          AppendEntriesResponse_last_index_synced resp]> (matched_index_ n))) as (ND & Ct & Sf).
        eapply moved_by_majority; [exact T|exact S|exact E|exact ND|lia|].
        intros f (y & Y & Ly)%Sf. apply lookup_insert_Some in Y as [[<- _]|[_ Y]]; [by left|right; eauto].
      * unfold handle_put_message in H. destruct (negb _) in H; [by injection H as <- <-|].
        by apply add_log_entry_frame in H as (p & x & ->).
      * unfold handle_commit_message in H. destruct (negb _) in H; [by injection H as <- <-|].
        by apply add_log_entry_frame in H as (p & x & ->).
      * by apply open_queue_queue in H as [[q ->] _].
    + by apply handle_disconnect_queue in H as [[q ->] _].
  - destruct (heartbeat_timer_ n); [|by injection H as <- <-]. by apply on_heartbeat_timer_node in H as (m & ->).
  - destruct (vote_timer_ n); [|by injection H as <- <-]. apply obind_ret in H as (n1 & V & H). injection H as <- <-.
    by apply on_vote_timer_cases in V as [[-> _]|[-> _]].
  - destruct (vote_delays_ n); [by injection H as <- <-|].
    by apply on_vote_delay_cases in H as [(-> & _ & _)|(x & -> & _)].
  - injection H as <- <-. by destruct (stats_timer_ n).
Qed.

(** ** Acknowledgements *)

(** Only a success answer changes what is known of a follower. *)
Lemma node_step_matched e (n n' : node) (w w' : Master C K) :
  node_step e (n, w) = Ret (n', w') ->
  matched_index_ n' = matched_index_ n \/
  exists m ts, io_context_ n = HandleMessage m :: ts /\ type m = APPEND_ENTRIES_RESPONSE /\
    let resp := get_append_response m in
    AppendEntriesResponse_append_result_success resp <> 0 /\
    matched_index_ n' = <[AppendEntriesResponse_follower_id resp := AppendEntriesResponse_last_index_synced resp]> (matched_index_ n).
Proof.
  unfold node_step. destruct e as [now rid| |now| |]; intros H.
  - unfold run_posted_task in H. destruct (io_context_ n) as [|[m|id] ts] eqn:IO; [injection H as <- <-; by left| |].
    + unfold local_message_handler in H. destruct (type m) eqn:T; try (injection H as <- <-; by left).
      * left. by apply handle_vote_request_cases in H as [w1 G D|n1 L Te [[-> _]|[-> T']]|n1 w1 L [(-> & _ & _)|[-> T']] D].
      * left. apply obind_ret in H as (n1 & V & H). injection H as <- <-.
        by apply handle_vote_response_cases in V as [->|(_ & _ & _ & [[-> _]|[-> _]])].
      * left. destruct (accept_leader_frame now (get_append_request m) (set_io_context_ ts n)) as (st & AL & _).
        apply handle_append_request_cases in H as [w1 Te S|w1 Te E S|n1 w1 n2 x w2 Te E F A La S]; [done|by rewrite AL|].
        apply append_log_entries_frame in A as (log & _ & ->). rewrite AL in F.
        by apply follow_leader_commit_frame in F as ((? & ? & ? & ->) & _).
      * apply handle_append_response_cases in H as (n1 & w1 & A & U). apply trigger_entry_update_frame in U as (p & x & ->).
        destruct A as [q n1 w1 y S A|q S Te|q y S Te]; [|by left..]. right. exists m, ts. split_and!; [done..|].
        by apply advance_commit_frame in A as ((? & ? & ? & ->) & _).
      * left. unfold handle_put_message in H. destruct (negb _) in H; [by injection H as <- <-|].
        by apply add_log_entry_frame in H as (p & x & ->).
      * left. unfold handle_commit_message in H. destruct (negb _) in H; [by injection H as <- <-|].
        by apply add_log_entry_frame in H as (p & x & ->).
      * left. by apply open_queue_queue in H as [[q ->] _].
    + left. by apply handle_disconnect_queue in H as [[q ->] _].
  - left. destruct (heartbeat_timer_ n); [|by injection H as <- <-]. by apply on_heartbeat_timer_node in H as (m & ->).
  - left. destruct (vote_timer_ n); [|by injection H as <- <-]. apply obind_ret in H as (n1 & V & H). injection H as <- <-.
    by apply on_vote_timer_cases in V as [[-> _]|[-> _]].
  - left. destruct (vote_delays_ n); [by injection H as <- <-|].
    by apply on_vote_delay_cases in H as [(-> & _ & _)|(x & -> & _)].
  - left. injection H as <- <-. by destruct (stats_timer_ n).
Qed.

(** The messages a node received in a run. *)
Definition arrived (ins : list node_input) : list RaftMessage :=
  omap (fun i => match i with MessageArrives msg => Some (deserialize_from_message msg) | _ => None end) ins.

(** A follower acknowledged an index. *)
Definition acked (rs : list RaftMessage) (f x : Z) : Prop :=
  exists r, r ∈ rs /\ type r = APPEND_ENTRIES_RESPONSE /\
    AppendEntriesResponse_append_result_success (get_append_response r) <> 0 /\
    AppendEntriesResponse_follower_id (get_append_response r) = f /\
    AppendEntriesResponse_last_index_synced (get_append_response r) = x.

(** Why [c] may be taken for committed. *)
Definition commit_justified (N : Z) (rs : list RaftMessage) (c : Z) : Prop :=
  (exists r, r ∈ rs /\ type r = APPEND_ENTRIES_REQUEST /\ AppendEntriesRequest_leader_commit (get_append_request r) = c) \/
  (exists fs, NoDup fs /\ N ÷ 2 < zlength fs + 1 /\ forall f, f ∈ fs -> exists x, c <= x /\ acked rs f x).

Record commit_inv (rs : list RaftMessage) (c0 : Z) (n : node) : Prop := {
  ci_tasks m : HandleMessage m ∈ io_context_ n -> m ∈ rs;
  ci_matched f x : matched_index_ n !! f = Some x -> x <= c0 \/ acked rs f x;
  ci_commit : c0 <= commit_index_ n /\ (commit_index_ n = c0 \/ commit_justified (total_nodes_ n) rs (commit_index_ n))
}.

Lemma commit_inv_step rs c0 e (n n' : node) (w w' : Master C K) :
  commit_inv rs c0 n -> node_step e (n, w) = Ret (n', w') -> commit_inv rs c0 n'.
Proof.
  intros [I1 I2 [I3 I4]] S. pose proof (node_step_forward _ _ _ _ _ S) as [_ _ F _ _]. pose proof (node_step_vote _ _ _ _ _ S) as [T _]. split.
  - intros m X. apply I1. destruct T as [<-|T]; [done|]. rewrite T in X. destruct (io_context_ n); [done|]. by right.
  - intros f x X. apply node_step_matched in S as [E|(m & ts & IO & Ty & Su & E)]; rewrite E in X; [by apply I2|].
    apply lookup_insert_Some in X as [[<- <-]|[_ X]]; [|by apply I2]. right. exists m. split; [|done]. apply I1. rewrite IO. by left.
  - destruct (decide (commit_index_ n' = commit_index_ n)) as [->|Ne]; [rewrite F; by split|].
    apply node_step_commit in S as (m & ts & IO & L & M); [|done]. split; [lia|]. right. rewrite F.
    assert (X : m ∈ rs) by (apply I1; rewrite IO; by left).
    destruct M as [Ty E _ _ _|fs resp Ty Su E ND Mj Sf]; [left; by exists m|]. right. exists fs. split_and!; [done..|].
    intros f [->|(x & Y & Lx)]%Sf.
    + exists (commit_index_ n'). split; [lia|]. exists m. by split_and!.
    + exists x. split; [lia|]. apply I2 in Y as [Y|Y]; [lia|done].
Qed.

Lemma commit_inv_more rs rs' c0 (n : node) : rs ⊆ rs' -> commit_inv rs c0 n -> commit_inv rs' c0 n.
Proof.
  intros Sub [I1 I2 [I3 I4]]. assert (A : forall f x, acked rs f x -> acked rs' f x) by (intros f x (r & R & X); exists r; auto).
  split; [auto|intros f x X; destruct (I2 f x X); auto|]. split; [done|]. destruct I4 as [I4|[(r & R & X)|(fs & X1 & X2 & X3)]]; [by left|right..].
  - left. exists r. auto.
  - right. exists fs. split_and!; [done..|]. intros f Y. destruct (X3 f Y) as (x & Lx & Q). eauto.
Qed.

Lemma commit_inv_run rs c0 ins (n n' : node) (w w' : Master C K) :
  commit_inv rs c0 n -> node_run ins (n, w) = Ret (n', w') -> commit_inv (rs ++ arrived ins) c0 n'.
Proof.
  revert rs n w. induction ins as [|i ins IH]; intros rs n w I R; [injection R as <- <-; unfold arrived; cbn; by rewrite app_nil_r|].
  cbn [node_run] in R. apply obind_ret in R as ([n1 w1] & S & R).
  destruct i as [e|msg|id]; cbn [node_input_step] in S.
  - apply (IH _ n1 w1); [by eapply commit_inv_step|done].
  - injection S as <- <-. change (arrived (MessageArrives msg :: ins)) with ([deserialize_from_message msg] ++ arrived ins).
    rewrite app_assoc. eapply IH; [|exact R]. apply (commit_inv_more rs (rs ++ [deserialize_from_message msg])) in I as [I1 I2 I3];
      [|intros x X; apply elem_of_app; by left].
    split; [|done|done]. intros m X. cbn in X. apply elem_of_app in X as [X|X]; [by apply I1|].
    apply list_elem_of_singleton in X. injection X as ->. apply elem_of_app. right. by left.
  - injection S as <- <-. eapply IH; [|exact R]. destruct I as [I1 I2 I3]. split; [|done|done].
    intros m X. cbn in X. apply elem_of_app in X as [X|X]; [by apply I1|]. by apply list_elem_of_singleton in X.
Qed.
End NodeCommit.

(** ** Properties *)

(** C10: commits are justified: in every run of a node that starts with an empty
    queue of tasks and knows of no follower beyond its commit index, the commit
    index stays where it was, or is what a leader announced in an append request
    the node received, or is an index that more than half of the cluster, the
    node itself included, have acknowledged to it: distinct followers from which
    it received a success answer for that index or a later one. *)
Theorem commit_needs_majority `{ClusterNodeStorageInterface St, ClusterManagerInterface C, ClientManagerInterface K,
    ProtobufRuntime} (ins : list node_input) (n n' : ClusterNode St) (w w' : Master C K) :
  io_context_ n = [] -> (forall f x, matched_index_ n !! f = Some x -> x <= commit_index_ n) ->
  node_run ins (n, w) = Ret (n', w') ->
  commit_index_ n <= commit_index_ n' /\
  (commit_index_ n' = commit_index_ n \/ commit_justified (total_nodes_ n) (arrived ins) (commit_index_ n')).
Proof.
  intros IO M R. assert (I : commit_inv [] (commit_index_ n) n).
  { split; [intros m X; rewrite IO in X; by apply not_elem_of_nil in X|intros f x X; left; by eapply M|]. split; [done|by left]. }
  assert (T : total_nodes_ n' = total_nodes_ n).
  { clear -R. revert n w R. induction ins as [|i ins IH]; intros n w R; [by injection R as <- <-|].
    cbn [node_run] in R. apply obind_ret in R as ([n1 w1] & S & R). rewrite (IH _ _ R).
    destruct i; cbn [node_input_step] in S; [by destruct (node_step_forward _ _ _ _ _ S)|by injection S as <- <-..]. }
  apply (commit_inv_run [] _ ins n n' w w') in I as [_ _ I]; [|done]. cbn [app] in I. by rewrite T in I.
Qed.

(** The leader of [demo_put_inputs] commits the message when the second of the
    three members acknowledges it. *)
Lemma commit_needs_majority_witness :
  exists n' w', node_run demo_put_inputs (demo_leader, demo_master) = Ret (n', w') /\ commit_index_ n' = 1 /\
    commit_justified 3 (arrived demo_put_inputs) 1.
Proof.
  destruct (node_run demo_put_inputs (demo_leader, demo_master)) as [[n' w']|] eqn:E; [|vm_compute in E; discriminate].
  assert (Cm : commit_index_ n' = 1) by (vm_compute in E; injection E as <- <-; reflexivity).
  assert (M : forall f x, matched_index_ demo_leader !! f = Some x -> x <= commit_index_ demo_leader).
  { intros f x X. change (({[ 1 := 0; 2 := 0 ]} : gmap Z Z) !! f = Some x) in X.
    change (x <= 0). apply lookup_insert_Some in X as [[_ <-]|[_ X]]; [done|]. by apply lookup_singleton_Some in X as [_ <-]. }
  exists n', w'. split; [reflexivity|]. split; [exact Cm|].
  destruct (commit_needs_majority demo_put_inputs demo_leader n' demo_master w' eq_refl M E) as [_ [X|X]].
  - rewrite Cm in X. vm_compute in X. discriminate X.
  - rewrite Cm in X. exact X.
Defined.


(** ** Committed entries are not protected *)

(** An entry that conflicts with the one at its place replaces it and cuts what
    follows. *)
Lemma append_loop_conflict prev e old log log' :
  0 <= prev < zlength log -> zlength log <= INT_MAX -> log !! S (Z.to_nat prev) = Some old -> LogEntry_term e <> LogEntry_term old ->
  append_loop 0 prev [e] log = Ret log' -> log' = take (S (Z.to_nat prev)) log ++ [e].
Proof.
  intros P L O T A. apply append_loop_one in A as Cs; [|done..]. destruct Cs as [->|Cs]; [exfalso|done].
  cbn [append_loop] in A. apply obind_ret in A as (x & X & A). apply int_add_ret in X as [-> _].
  apply obind_ret in A as (y & Y & A). apply int_add_ret in Y as [-> _]. apply obind_ret in A as (log1 & B & A). injection A as ->.
  rewrite to_int_small in B by (split; [apply zlength_nonneg|done]). pose proof (lookup_lt_Some _ _ _ O) as Lt. unfold zlength in *.
  rewrite (proj2 (Z.ltb_ge _ _)) in B by lia. apply obind_ret in B as (o & Vo & B). apply vec_at_ret in Vo as [_ Vo].
  replace (Z.to_nat (0 + prev + 1)) with (S (Z.to_nat prev)) in Vo by lia. rewrite O in Vo. injection Vo as <-.
  rewrite (proj2 (Z.eqb_neq _ _)) in B by congruence. apply obind_ret in B as (log2 & D & B). injection B as B.
  unfold clean_log_entries_out_of_sync in D. destruct (_ && _); [|done]. injection D as <-.
  apply (f_equal (fun l => l !! S (Z.to_nat prev))) in B. rewrite O in B. replace (Z.to_nat (0 + prev + 1)) with (S (Z.to_nat prev)) in B by lia.
  rewrite list_lookup_middle in B by (rewrite length_take; lia). injection B as ->. done.
Qed.


(** An inserted message is in the store afterwards. *)
Lemma exec_insert_stored q id m : is_Some (message_store_ (exec q (Insert id m)) !! id).
Proof.
  cbn. unfold insert_message. destruct (message_store_ q !! id) as [x|] eqn:E; cbn; [by rewrite E|]. rewrite lookup_insert_eq. eauto.
Qed.

Section Unprotected.
Context {St C K : Type}.
Context `{SI : ClusterNodeStorageInterface St, CI : ClusterManagerInterface C, KI : ClientManagerInterface K,
  RT : ProtobufRuntime}.
Abbreviation node := (ClusterNode St).

(** A vote request of a later term is granted, whatever it says of the log. *)
Lemma later_vote_granted vote (n n1 : node) (w w1 : Master C K) :
  state_ n <> LEADER -> cur_term_ n < RequestVoteRequest_term vote -> handle_vote_request vote (n, w) = Ret (n1, w1) ->
  sent (partition_id_ n) w w1 [(Some (RequestVoteRequest_candidate_id vote), vote_response (RequestVoteRequest_term vote) 1)] /\
  n1 = set_voted_for_ (RequestVoteRequest_candidate_id vote) (set_votes_collected_ 0 (set_cur_term_ (RequestVoteRequest_term vote) n)).
Proof.
  intros Nl Lt V%handle_vote_request_cases. destruct V as [w1 [G|[G _]] D|n1 L|n1 w1 _ [(_ & G & _)|[-> _]] D]; [lia..|done|lia|].
  split; [exact (send_to_sent _ _ _ _ _ _ D)|done].
Qed.

(** The check finds the previous entry where it is. *)
Lemma in_sync_known t i b prev (n : node) :
  0 <= i -> zlength (log_entries_ n) <= INT_MAX -> log_entries_ n !! Z.to_nat i = Some prev -> LogEntry_term prev = t ->
  check_if_previous_log_in_sync t i n = Ret b -> b = true.
Proof.
  intros I Sm Pr Pt Ck. unfold check_if_previous_log_in_sync in Ck. apply obind_ret in Ck as (y & Y & Ck). apply int_add_ret in Y as [-> _].
  rewrite to_int_small in Ck by (split; [apply zlength_nonneg|done]). pose proof (lookup_lt_Some _ _ _ Pr). unfold zlength in *.
  rewrite (proj2 (Z.ltb_ge _ _)) in Ck by lia. apply obind_ret in Ck as (z & Z1 & Ck). apply vec_at_ret in Z1 as [_ Z1].
  rewrite Pr in Z1. injection Z1 as <-. rewrite Pt, Z.eqb_refl in Ck. by injection Ck as <-.
Qed.

(** A queue that does not have the message of the last committed entry is not the
    replay of the log. *)
Lemma replay_has_last c log e :
  (length log <= Z.to_nat c)%nat -> log <> [] -> LogEntry_operation e = LogEntry_ADD -> is_Some ((replay c (log ++ [e])).1 !! LogEntry_message_id e).
Proof.
  intros L N Op. unfold replay. destruct log as [|d es]; [done|]. cbn [app drop] in *. rewrite drop_0.
  rewrite take_ge by (rewrite length_app; cbn [length] in *; lia). rewrite log_calls_app, foldl_app.
  assert (log_calls [e] = [Insert (LogEntry_message_id e) (LogEntry_message e)]) as -> by (unfold log_calls; cbn; unfold entry_calls; by rewrite Op).
  apply exec_insert_stored.
Qed.
End Unprotected.


(** A follower that has committed a message of term 1, and the requests of node 2
    in term 2, which has nothing in its log. *)
Definition demo_committed : ClusterNode ClusterNodeStorageMock :=
  set_message_queue_ (exec MessageQueue_new (Insert 5 (str "a")))
    (set_commit_index_ 1 (demo_node FOLLOWER 1 (-1) [dummy_entry; demo_entry 1 1 5 (str "a")] [])).

