(* ===== verification/NodeDelivery.v ===== *)
(** * Deliveries of a leader

    One round of [trigger_message_delivery] with the real client manager: every
    undelivered message goes to a consumer of the partition, in turn. *)

From S2P Require Import Prelude MessageQueue WireFormat FlowTypes FlowCodec FlowCodecFacts RaftMessage Session LogStorage ClusterManager ClientManager Configuration ClusterNode ClusterNodeFacts NodeElection NodeLog NodeTypes NodeQueue.

Local Open Scope Z_scope.

Section Delivery.
Context {St C : Type} `{SI : ClusterNodeStorageInterface St, CI : ClusterManagerInterface C, RT : ProtobufRuntime} {LW : ProtobufLaws RT}.
Abbreviation node := (ClusterNode St).

(** The consumers of a partition can be reached, after [d] earlier deliveries. *)
Record consumers_ready (p : Z) (clients : list Z) (d : Z) (k : ClientManager) : Prop := {
  ready_list : consumer_client_id_array_ k !! p = Some clients;
  ready_some : clients <> [];
  ready_ids : -1 ∉ clients;
  ready_count : map_at 0 (deliver_count_ k) p = d;
  ready_sessions : sessions_ok k clients
}.

(** A stored message and the packet that carries it. *)
Definition packed (p : Z) (store : gmap Z bytes) (id : Z) (b : Message) : Prop :=
  exists m, store !! id = Some m /\ deserialize_from_message b = set_partition_id p (delivery_message id m).

(** What [n'] and [k'] are after the messages [ids] were handed out. *)
Record dispatched (clients : list Z) (d : Z) (ids : list Z) (n n' : node) (k k' : ClientManager) : Prop := {
  disp_node : same_but_queue n n';
  disp_store : message_store_ (message_queue_ n') = message_store_ (message_queue_ n);
  disp_committed : committed_messages_ (message_queue_ n') = committed_messages_ (message_queue_ n);
  disp_undelivered id : id ∈ undelivered_messages_ (message_queue_ n') <-> id ∈ undelivered_messages_ (message_queue_ n) /\ id ∉ ids;
  disp_holder i id : ids !! i = Some id -> message_id_to_consumer_ (message_queue_ n') !! id = turns clients d (length ids) !! i;
  disp_other id : id ∉ ids -> message_id_to_consumer_ (message_queue_ n') !! id = message_id_to_consumer_ (message_queue_ n) !! id;
  disp_received : exists bs, Forall2 (packed (partition_id_ n) (message_store_ (message_queue_ n))) ids bs /\
    forall c, client_received k' c = (fun l => l ++ share c (turns clients d (length ids)) bs) <$> client_received k c
}.

Lemma turn_in clients d : clients <> [] -> nth (Z.to_nat (d mod zlength clients)) clients 0 ∈ clients.
Proof.
  intros N. assert (L : 0 < zlength clients) by (destruct clients; [done|unfold zlength; cbn; lia]).
  pose proof (Z.mod_pos_bound d _ L) as B. unfold zlength in B.
  destruct (lookup_lt_is_Some_2 clients (Z.to_nat (d mod zlength clients))) as [x X]; [unfold zlength; lia|].
  rewrite nth_lookup, X. by eapply list_elem_of_lookup_2.
Qed.

(** One message. *)
Lemma deliver_one_message p clients d id m (n : node) (w : Master C ClientManager) :
  partition_id_ n = p -> consumers_ready p clients d (client_manager_p_ w) -> 0 <= d < INT_MAX ->
  sendable (set_partition_id p (delivery_message id m)) = true ->
  let c := nth (Z.to_nat (d mod zlength clients)) clients 0 in
  exists b k', deliver_client (delivery_message id m) (n, w) = Ret (c, (n, mkMaster (cluster_manager_p_ w) k' (server_config_ w))) /\
    deserialize_from_message b = set_partition_id p (delivery_message id m) /\ consumers_ready p clients (d + 1) k' /\
    forall i, client_received k' i = (if i =? c then (fun l => l ++ [b]) <$> client_received (client_manager_p_ w) i else client_received (client_manager_p_ w) i).
Proof.
  intros Pt [A Ns Ni Dc So] D Fit c. destruct (sent_request _ Fit) as (b & Se & De). exists b.
  destruct (deliver_one_ok p b (client_manager_p_ w) clients d A Ns Dc D So) as (k' & E & A' & D' & S' & R').
  exists k'. split; [unfold deliver_client, serialize_raft_message; rewrite Pt, Se; cbn [obind]; rewrite E; reflexivity|].
  split; [done|]. split; [|exact R']. split; [by rewrite A'|done|done|done|by eapply sessions_ok_step].
Qed.

Lemma delivery_loop_dispatches p clients ids : forall d (n : node) (w : Master C ClientManager),
  partition_id_ n = p -> consumers_ready p clients d (client_manager_p_ w) -> 0 <= d -> d + zlength ids <= INT_MAX -> NoDup ids ->
  queue_wf (message_queue_ n) -> (forall id, id ∈ ids -> id ∈ undelivered_messages_ (message_queue_ n)) ->
  (forall id m, id ∈ ids -> message_store_ (message_queue_ n) !! id = Some m -> sendable (set_partition_id p (delivery_message id m)) = true) ->
  exists n' k', delivery_loop ids (n, w) = Ret (n', mkMaster (cluster_manager_p_ w) k' (server_config_ w)) /\
    dispatched clients d ids n n' (client_manager_p_ w) k'.
Proof.
  induction ids as [|id ids IH]; intros d n w Pt Cr D0 D1 ND W Un Fit.
  { exists n, (client_manager_p_ w). split; [by destruct w|]. split; try done; [apply same_but_queue_refl|intros id; set_solver|].
    exists []. split; [constructor|]. intros c. unfold share. cbn. destruct (client_received _ c); cbn; by rewrite ?app_nil_r. }
  apply NoDup_cons in ND as [Ni ND]. pose proof (Un id ltac:(by left)) as Ui. pose proof Ui as ([m Sm] & _)%(wf_undelivered _ W).
  assert (Lz : zlength (id :: ids) = zlength ids + 1) by (unfold zlength; cbn [length]; lia). pose proof (zlength_nonneg ids).
  rewrite delivery_loop_cons, (get_message_wf id _ Ui W). replace (set_message_queue_ (message_queue_ n) n) with n by (by destruct n).
  assert (Gm : (get_message id (message_queue_ n)).1 = m) by (unfold get_message, map_at; cbn; by rewrite Sm). rewrite Gm.
  destruct (deliver_one_message p clients d id m n w Pt Cr) as (b & k1 & -> & De & Cr1 & R1); [lia|apply Fit; [by left|done]|].
  set (c := nth (Z.to_nat (d mod zlength clients)) clients 0) in *. cbn [obind fst snd].
  rewrite (proj2 (Z.eqb_neq c (-1))).
  2: { intros E. apply (ready_ids _ _ _ _ Cr). rewrite <- E. apply turn_in, (ready_some _ _ _ _ Cr). }
  set (n1 := set_message_queue_ (deliver_message_to_client_id id c (message_queue_ n)).2 n).
  destruct (IH (d + 1) n1 (mkMaster (cluster_manager_p_ w) k1 (server_config_ w))) as (n' & k' & E & [H1 H2 H3 H4 H5 H6 (bs & H7 & H8)]).
  { done. } { done. } { lia. } { lia. } { done. }
  { exact (exec_wf _ (Deliver id c) Ui W). }
  { intros x X. cbn. apply elem_of_difference. split; [apply Un; by right|]. by intros ->%elem_of_singleton. }
  { intros x y X. apply Fit. by right. }
  exists n', k'. split; [exact E|]. split.
  - eapply same_but_queue_trans; [|exact H1]. apply same_but_queue_set.
  - rewrite H2. done.
  - rewrite H3. done.
  - intros x. rewrite H4. cbn. rewrite elem_of_difference, elem_of_singleton, not_elem_of_cons. tauto.
  - intros i x X. cbn [length]. rewrite turns_S. destruct i as [|i]; cbn in X |- *; [injection X as <-; rewrite H6 by done; apply lookup_insert_eq|by apply H5].
  - intros x [X1 X2]%not_elem_of_cons. rewrite H6 by done. cbn. by rewrite lookup_insert_ne.
  - exists (b :: bs). split; [constructor; [by exists m; rewrite Pt|exact H7]|]. intros x. rewrite H8. cbn [client_manager_p_]. rewrite R1. cbn [length]. rewrite turns_S.
    fold c. unfold share. cbn [zip zip_with List.filter fst]. rewrite (Z.eqb_sym c x). destruct (x =? c); [|done].
    cbn [map snd]. destruct (client_received (client_manager_p_ w) x); cbn; [|done]. by rewrite <- app_assoc.
Qed.
End Delivery.

(** ** Properties *)

(** C17: a delivery round hands out everything: when a leader delivers, with
    consumers of its partition that are connected, it ends with no undelivered
    message left; the messages go to the consumers in turn, in the order of
    their ids and starting where earlier deliveries stopped; the queue records
    for each message the consumer it went to, and each consumer's session gets
    exactly the messages recorded for it, as packets that decode to message and
    id; nothing else of the node changes. *)
Theorem delivery_round `{ClusterNodeStorageInterface St, CI : ClusterManagerInterface C} `{LW : ProtobufLaws} (clients : list Z) (d : Z)
    (n : ClusterNode St) (w : Master C ClientManager) :
  let ids := set_iter (undelivered_messages_ (message_queue_ n)) in
  state_ n = LEADER -> reachable (message_queue_ n) -> consumers_ready (partition_id_ n) clients d (client_manager_p_ w) ->
  0 <= d -> d + zlength ids <= INT_MAX ->
  (forall id m, message_store_ (message_queue_ n) !! id = Some m -> sendable (set_partition_id (partition_id_ n) (delivery_message id m)) = true) ->
  exists n' k', trigger_message_delivery (n, w) = Ret (n', mkMaster (cluster_manager_p_ w) k' (server_config_ w)) /\
    undelivered_messages_ (message_queue_ n') = ∅ /\ dispatched clients d ids n n' (client_manager_p_ w) k'.
Proof.
  intros ids L R Cr D0 D1 Fit. pose proof (reachable_wf _ R) as W.
  assert (Hc : has_consumers (client_manager_p_ w) = true).
  { cbn. unfold ClientManager_has_consumers. rewrite bool_decide_eq_false_2; [done|]. intros E. pose proof (ready_list _ _ _ _ Cr) as X.
    by rewrite E, lookup_empty in X. }
  destruct (delivery_loop_dispatches (partition_id_ n) clients ids d n w) as (n' & k' & E & Di); try done.
  { apply set_iter_NoDup. } { intros id X. by apply elem_of_set_iter. } { intros id m _. apply Fit. }
  exists n', k'. split; [|split; [|done]].
  - unfold trigger_message_delivery. rewrite L, bool_decide_eq_true_2, Hc by done. cbn [negb]. exact E.
  - apply leibniz_equiv, elem_of_equiv_empty. intros id X. apply (disp_undelivered _ _ _ _ _ _ _ Di) in X as [X1 X2]. apply X2. by apply elem_of_set_iter.
Qed.

(** A leader with three messages, and two consumers of its partition. *)
Definition demo_full : ClusterNode ClusterNodeStorageMock :=
  set_message_queue_ (foldl exec MessageQueue_new [Insert 12 (str "b"); Insert 11 (str "a"); Insert 13 (str "c")]) demo_leader.

Definition demo_consumers : ClientManager :=
  mkClientManager {[ 40 := 0; 41 := 1 ]} {[ 7 := [40; 41] ]} ∅
    {[ 0 := mkClientConnection 40 (start_read Session_new) []; 1 := mkClientConnection 41 (start_read Session_new) [] ]} 2 true.

Definition demo_delivering : Master (ClusterManager nat) ClientManager :=
  mkMaster (ClusterManager_new demo_endpoints) demo_consumers demo_config.

Lemma demo_consumers_ready : consumers_ready 7 [40; 41] 0 demo_consumers.
Proof.
  split; [reflexivity|done| |reflexivity|].
  - intros [E|[E|E%elem_of_nil]%elem_of_cons]%elem_of_cons; done.
  - split.
    + intros id [->|[->|E%elem_of_nil]%elem_of_cons]%elem_of_cons; [..|done]; by eexists.
    + intros id id' h E E'. unfold demo_consumers in E, E'. cbn [client_sessions_] in E, E'.
      apply lookup_insert_Some in E as [[<- <-]|[_ E]]; apply lookup_insert_Some in E' as [[<- E']|[_ E']]; try done;
        try (apply lookup_singleton_Some in E as [<- <-]); try (apply lookup_singleton_Some in E' as [<- E']); done.
Qed.

Lemma delivery_round_witness :
  exists n' k', trigger_message_delivery (demo_full, demo_delivering) = Ret (n', mkMaster (ClusterManager_new demo_endpoints) k' demo_config) /\
    undelivered_messages_ (message_queue_ n') = ∅ /\
    message_id_to_consumer_ (message_queue_ n') !! 11 = Some 40 /\ message_id_to_consumer_ (message_queue_ n') !! 12 = Some 41 /\
    message_id_to_consumer_ (message_queue_ n') !! 13 = Some 40.
Proof.
  assert (Re : reachable (message_queue_ demo_full)) by (apply calls_reachable; [apply reach_new|cbn; tauto]).
  destruct (delivery_round [40; 41] 0 demo_full demo_delivering eq_refl Re demo_consumers_ready) as (n' & k' & E & U & D).
  - lia.
  - vm_compute. discriminate.
  - intros id m X. change (message_store_ (message_queue_ demo_full)) with ({[ 13 := str "c"; 11 := str "a"; 12 := str "b" ]} : gmap Z bytes) in X.
    apply lookup_insert_Some in X as [[<- <-]|[_ X]]; [vm_compute; reflexivity|].
    apply lookup_insert_Some in X as [[<- <-]|[_ X]]; [vm_compute; reflexivity|].
    apply lookup_singleton_Some in X as [<- <-]. vm_compute. reflexivity.
  - exists n', k'. split; [exact E|]. split; [exact U|].
    pose proof (disp_holder _ _ _ _ _ _ _ D) as Ho. split_and!; [apply (Ho 0%nat)|apply (Ho 1%nat)|apply (Ho 2%nat)]; vm_compute; reflexivity.
Defined.
