(* ===== verification/NodePending.v ===== *)
(** * Requests that are never answered

    A node counts the append requests each of the others has not answered, in
    [pending_append_reqs_], and sends no entry to a node with
    [MAX_PENDING_APPEND] of them. The count goes down with answers only: what is
    lost stays counted. *)

From S2P Require Import Prelude MessageQueue WireFormat FlowTypes FlowCodec FlowCodecFacts RaftMessage LogStorage ClusterManager ClientManager Configuration ClusterNode ClusterNodeFacts NodeElection NodeLog NodeTypes NodeQueue.

Local Open Scope Z_scope.

Section Pending.
Context {St C K : Type}.
Context `{SI : ClusterNodeStorageInterface St, CI : ClusterManagerInterface C, KI : ClientManagerInterface K,
  RT : ProtobufRuntime} {CL : ClusterManagerLaws C}.
Abbreviation node := (ClusterNode St).
Abbreviation nstate := (node * Master C K)%type.
Variable f : Z.

(** How many requests to [f] count as unanswered. *)
Definition pending (n : node) : Z := map_at 0 (pending_append_reqs_ n) f.

(** A message that brings no entry to [f]. *)
Definition spares (m : option Z * RaftMessage) : Prop :=
  AppendEntriesRequest_entries (get_append_request m.2) = [] \/ exists g, m.1 = Some g /\ g <> f.

(** What was sent between two states of the managers brings no entry to [f]. *)
Definition spared (p : Z) (w w' : Master C K) : Prop := exists ms, sent p w w' ms /\ Forall spares ms.

Lemma spared_quiet p (w w' : Master C K) : cluster_manager_p_ w' = cluster_manager_p_ w -> spared p w w'.
Proof. intros E. exists []. split; [by apply sent_nil|constructor]. Qed.

Lemma spared_trans p (w1 w2 w3 : Master C K) : spared p w1 w2 -> spared p w2 w3 -> spared p w1 w3.
Proof.
  intros (a & A & Fa) (b & B & Fb). exists (a ++ b). split; [by eapply sent_app|]. by apply Forall_app.
Qed.

Lemma spared_to g m (n n' : node) (w w' : Master C K) :
  send_to g m (n, w) = Ret (n', w') -> spares (Some g, m) -> spared (partition_id_ n) w w'.
Proof. intros S%send_to_sent M. exists [(Some g, m)]. split; [done|]. by apply Forall_singleton. Qed.

Lemma spared_all m (n n' : node) (w w' : Master C K) :
  send_all m (n, w) = Ret (n', w') -> spares (None, m) -> spared (partition_id_ n) w w'.
Proof. intros S%send_all_sent M. exists [(None, m)]. split; [done|]. by apply Forall_singleton. Qed.

(** ** The handlers *)

(** No entry goes to a follower whose count has reached the limit. *)
Lemma trigger_pending g (n n' : node) (w w' : Master C K) :
  MAX_PENDING_APPEND <= pending n -> trigger_entry_update g (n, w) = Ret (n', w') ->
  pending n' = pending n /\ spared (partition_id_ n) w w'.
Proof.
  unfold pending. intros P. rewrite trigger_entry_update_eq. generalize (map_at 0 (next_index_ n) g). intros i. cbv zeta.
  destruct (_ && _); [|intros [= <- <-]; split; [done|by apply spared_quiet]].
  intros H. apply obind_ret in H as (prev & _ & H). apply obind_ret in H as (entry & _ & H).
  destruct (_ <? MAX_PENDING_APPEND) eqn:G; [|injection H as <- <-; split; [cbn; by rewrite map_at_touch|by apply spared_quiet]].
  apply Z.ltb_lt in G. assert (Ne : f <> g) by (intros ->; lia).
  apply obind_ret in H as ([n2 w2] & D & H). pose proof (send_to_node _ _ _ _ _ _ D) as ->. injection H as <- <-. split.
  - cbn. by rewrite map_at_insert, decide_False, map_at_touch.
  - apply spared_to in D; [exact D|]. right. by exists g.
Qed.

Lemma update_followers_pending fs (n n' : node) (w w' : Master C K) :
  MAX_PENDING_APPEND <= pending n -> update_followers fs (n, w) = Ret (n', w') ->
  pending n' = pending n /\ spared (partition_id_ n) w w'.
Proof.
  revert n w. induction fs as [|g fs IH]; intros n w P H; cbn [update_followers] in H.
  { injection H as <- <-. split; [done|by apply spared_quiet]. }
  apply obind_ret in H as ([n1 w1] & T & H). pose proof (trigger_entry_update_frame _ _ _ _ _ T) as (p & x & E).
  apply trigger_pending in T as [P1 S1]; [|done]. apply IH in H as [P2 S2]; [|lia]. split; [lia|].
  eapply spared_trans; [exact S1|]. by rewrite E in S2.
Qed.

Lemma add_log_entry_pending e (n n' : node) (w w' : Master C K) :
  MAX_PENDING_APPEND <= pending n -> add_log_entry e (n, w) = Ret (n', w') -> pending n' = pending n /\ spared (partition_id_ n) w w'.
Proof. unfold add_log_entry. intros P H. by apply update_followers_pending in H. Qed.

Lemma append_request_pending now req (n n' : node) (w w' : Master C K) :
  handle_append_request now req (n, w) = Ret (n', w') -> pending n' = pending n /\ spared (partition_id_ n) w w'.
Proof.
  intros H%handle_append_request_cases. destruct (accept_leader_frame now req n) as (st & AL & _).
  destruct H as [w1 _ S|w1 _ _ S|n1 w1 n2 x w2 _ _ F A _ S].
  - split; [done|]. apply spared_to in S; [exact S|by left].
  - rewrite AL in *. split; [done|]. apply spared_to in S; [exact S|by left].
  - rewrite AL in F. apply follow_leader_commit_frame in F as ((? & ? & ? & ->) & M & _). apply append_log_entries_frame in A as (log & _ & ->).
    split; [done|]. eapply spared_trans; [by apply spared_quiet|]. apply spared_to in S; [exact S|by left].
Qed.

Lemma vote_request_pending req (n n' : node) (w w' : Master C K) :
  handle_vote_request req (n, w) = Ret (n', w') -> pending n' = pending n /\ spared (partition_id_ n) w w'.
Proof.
  intros H%handle_vote_request_cases. destruct H as [w1 _ D|n1 _ _ [[-> _]|[-> _]]|n1 w1 _ [(-> & _ & _)|[-> _]] D];
    (split; [done|]); first [by apply spared_quiet|apply spared_to in D; [exact D|by left]].
Qed.

(** An answer of [g] is counted, and the rest of the handler sends nothing before
    the next entry. *)
Lemma append_response_counted resp (n n' : node) (w w' : Master C K) :
  handle_append_response resp (n, w) = Ret (n', w') ->
  let g := AppendEntriesResponse_follower_id resp in
  exists n1 w1, pending_append_reqs_ n1 = <[g := Z.max 0 (map_at 0 (pending_append_reqs_ n) g - 1)]> (pending_append_reqs_ n) /\
    partition_id_ n1 = partition_id_ n /\ cluster_manager_p_ w1 = cluster_manager_p_ w /\ trigger_entry_update g (n1, w1) = Ret (n', w').
Proof.
  intros H g. unfold handle_append_response in H. apply obind_ret in H as (d & D & H). apply int_sub_ret in D as [-> _].
  apply obind_ret in H as ([n1 w1] & R & H). exists n1, w1. destruct (negb _) in R.
  - apply obind_ret in R as ([n2 w2] & A & R). apply advance_commit_frame in A as ((st & ci & q & ->) & M & _).
    apply obind_ret in R as (x & _ & R). injection R as <- <-. done.
  - cbn [cur_term_ set_pending_append_reqs_] in R. destruct (_ <? _) in R; [by injection R as <- <-|].
    apply obind_ret in R as (x & _ & R). by injection R as <- <-.
Qed.

(** Whether a task is an answer of [f]. *)
Definition is_answer (t : node_task) : bool :=
  match t with
  | HandleMessage m => bool_decide (type m = APPEND_ENTRIES_RESPONSE) && (AppendEntriesResponse_follower_id (get_append_response m) =? f)
  | HandleDisconnect _ => false
  end.

Lemma append_response_pending resp (n n' : node) (w w' : Master C K) :
  MAX_PENDING_APPEND + Z.b2z (AppendEntriesResponse_follower_id resp =? f) <= pending n ->
  handle_append_response resp (n, w) = Ret (n', w') ->
  pending n' = pending n - Z.b2z (AppendEntriesResponse_follower_id resp =? f) /\ spared (partition_id_ n) w w'.
Proof.
  intros P (n1 & w1 & Pe & Pa & Cm & T)%append_response_counted. set (g := AppendEntriesResponse_follower_id resp) in *.
  assert (P1 : pending n1 = pending n - Z.b2z (g =? f)).
  { unfold pending in *. rewrite Pe, map_at_insert. destruct (decide (f = g)) as [<-|Ne].
    - rewrite Z.eqb_refl in *. cbn [Z.b2z] in *. unfold MAX_PENDING_APPEND in P. lia.
    - rewrite (proj2 (Z.eqb_neq g f)) by congruence. cbn [Z.b2z]. lia. }
  apply trigger_pending in T as [P2 S]; [|lia]. split; [lia|]. rewrite Pa in S. eapply spared_trans; [by apply spared_quiet|exact S].
Qed.

(** ** Heartbeats *)

Lemma count_heartbeats_at ids self m m' :
  NoDup ids -> f <> self -> count_heartbeats ids self m = Ret m' ->
  map_at 0 m' f = map_at 0 m f + Z.b2z (bool_decide (f ∈ ids)).
Proof.
  intros ND Ne. revert m. induction ND as [|i ids Ni ND IH]; intros m H; [injection H as <-; rewrite bool_decide_eq_false_2 by apply not_elem_of_nil; cbn [Z.b2z]; lia|]. cbn [count_heartbeats] in H.
  destruct (i =? self) eqn:G.
  - apply Z.eqb_eq in G as ->. apply IH in H as ->. do 2 f_equal. apply bool_decide_ext. rewrite elem_of_cons. naive_solver.
  - apply obind_ret in H as (c & E & H). apply int_add_ret in E as [-> _]. apply IH in H as ->. rewrite map_at_insert.
    destruct (decide (f = i)) as [->|Nf].
    + rewrite (bool_decide_eq_false_2 _ Ni), bool_decide_eq_true_2 by (by left). cbn. lia.
    + do 2 f_equal. apply bool_decide_ext. rewrite elem_of_cons. naive_solver.
Qed.

(** A heartbeat is counted whether it arrives or not. *)
Lemma heartbeat_pending (n n' : node) (w w' : Master C K) :
  f <> node_id_ n -> on_heartbeat_timer (n, w) = Ret (n', w') ->
  pending n' = pending n + Z.b2z (bool_decide (state_ n = LEADER) && bool_decide (f ∈ node_ids (total_nodes_ n))) /\
  spared (partition_id_ n) w w'.
Proof.
  intros Ne. unfold on_heartbeat_timer, pending. intros H. apply obind_ret in H as ([n1 w1] & E & H). injection H as <- <-.
  cbn [pending_append_reqs_ start_send_hearbeat set_heartbeat_timer_]. destruct (bool_decide (state_ n = LEADER)); cbn [andb].
  - apply obind_ret in E as (e & _ & E). apply obind_ret in E as ([n2 w2] & D & E). pose proof (send_all_node _ _ _ _ _ D) as ->.
    apply obind_ret in E as (m & M & E). injection E as <- <-. split; [|apply spared_all in D; [exact D|by left]].
    by apply count_heartbeats_at in M; [|apply NoDup_seqZ|done].
  - injection E as <- <-. split; [cbn; lia|by apply spared_quiet].
Qed.

(** ** Steps *)

(** Answers of [f] a step handles, and requests to [f] it counts regardless. *)
Definition answered (e : node_event) (n : node) : Z :=
  match e, io_context_ n with
  | TaskRuns _ _, t :: _ => Z.b2z (is_answer t)
  | _, _ => 0
  end.

Definition beaten (e : node_event) (n : node) : Z :=
  match e with
  | HeartbeatTimer => Z.b2z (heartbeat_timer_ n && (bool_decide (state_ n = LEADER) && bool_decide (f ∈ node_ids (total_nodes_ n))))
  | _ => 0
  end.

Lemma minus_none (x : Z) : x = x - Z.b2z false.
Proof. cbn. lia. Qed.

Lemma handler_pending now rid m (n n' : node) (w w' : Master C K) :
  MAX_PENDING_APPEND + Z.b2z (is_answer (HandleMessage m)) <= pending n -> local_message_handler now rid m (n, w) = Ret (n', w') ->
  pending n' = pending n - Z.b2z (is_answer (HandleMessage m)) /\ spared (partition_id_ n) w w'.
Proof.
  unfold local_message_handler, is_answer. destruct (type m); cbn [bool_decide andb Z.b2z]; intros P H.
  all: try (injection H as <- <-; split; [apply minus_none|by apply spared_quiet]).
  - apply vote_request_pending in H as [-> S]. split; [apply minus_none|done].
  - apply obind_ret in H as (n1 & V & H). injection H as <- <-. split; [|by apply spared_quiet].
    apply handle_vote_response_cases in V as [->|(_ & _ & _ & [[-> _]|[-> _]])]; apply minus_none.
  - apply append_request_pending in H as [-> S]. split; [apply minus_none|done].
  - rewrite bool_decide_eq_true_2 in * by done. cbn [andb] in *. by apply append_response_pending.
  - unfold handle_put_message in H. destruct (negb _) in H; [injection H as <- <-; split; [apply minus_none|by apply spared_quiet]|].
    apply add_log_entry_pending in H as [-> S]; [|exact P]. split; [apply minus_none|done].
  - unfold handle_commit_message in H. destruct (negb _) in H; [injection H as <- <-; split; [apply minus_none|by apply spared_quiet]|].
    apply add_log_entry_pending in H as [-> S]; [|exact P]. split; [apply minus_none|done].
  - apply open_queue_queue in H as [[q ->] S]. split; [apply minus_none|by apply spared_quiet].
Qed.

Lemma node_step_pending e (n n' : node) (w w' : Master C K) :
  f <> node_id_ n -> MAX_PENDING_APPEND + answered e n <= pending n -> node_step e (n, w) = Ret (n', w') ->
  pending n' = pending n - answered e n + beaten e n /\ spared (partition_id_ n) w w'.
Proof.
  intros Ne P. assert (Q : forall u u' : Master C K, cluster_manager_p_ u' = cluster_manager_p_ u -> pending n' = pending n ->
    answered e n = 0 -> beaten e n = 0 -> pending n' = pending n - answered e n + beaten e n /\ spared (partition_id_ n) u u').
  { intros u u' E -> -> ->. split; [lia|by apply spared_quiet]. }
  unfold node_step. destruct e as [now rid| |now| |]; intros H.
  - unfold answered in *. unfold run_posted_task in H. cbn [beaten] in *. destruct (io_context_ n) as [|[m|id] ts]; [injection H as <- <-; by apply Q|..].
    + apply handler_pending in H as [E S]; [|done]. split; [|exact S]. rewrite E. change (pending (set_io_context_ ts n)) with (pending n). lia.
    + apply handle_disconnect_queue in H as [[q ->] S]. by apply Q.
  - destruct (heartbeat_timer_ n) eqn:T; [|injection H as <- <-; apply Q; [done..|unfold beaten; by rewrite T]].
    apply heartbeat_pending in H as [-> S]; [|done]. split; [|exact S]. unfold beaten. rewrite T. cbn [answered andb]. lia.
  - destruct (vote_timer_ n); [|injection H as <- <-; by apply Q]. apply obind_ret in H as (n1 & V & H). injection H as <- <-.
    apply on_vote_timer_cases in V as [[-> _]|[-> _]]; by apply Q.
  - destruct (vote_delays_ n); [injection H as <- <-; by apply Q|]. apply on_vote_delay_cases in H as [(-> & -> & _)|(x & E & _ & _ & D)]; [by apply Q|].
    rewrite E. split; [cbn; unfold pending; cbn; lia|]. rewrite E in D. apply spared_all in D; [exact D|by left].
  - injection H as <- <-. destruct (stats_timer_ n); by apply Q.
Qed.

(** ** Runs *)

(** At no point of a run has [f] answered more than [k] requests above the
    heartbeats sent since the start. *)
Fixpoint outrun (k : Z) (ins : list node_input) (s : nstate) : bool :=
  match ins with
  | [] => true
  | i :: ins =>
      let k' := match i with Step e => k - answered e s.1 + beaten e s.1 | _ => k end in
      (0 <=? k') && match node_input_step i s with Ret s' => outrun k' ins s' | Fault _ => true end
  end.

Lemma input_pending k i (n n' : node) (w w' : Master C K) :
  f <> node_id_ n -> 0 <= k -> MAX_PENDING_APPEND + k <= pending n ->
  let k' := match i with Step e => k - answered e n + beaten e n | _ => k end in
  0 <= k' -> node_input_step i (n, w) = Ret (n', w') ->
  MAX_PENDING_APPEND + k' <= pending n' /\ spared (partition_id_ n) w w'.
Proof.
  intros Ne Kp P k' K0 H. destruct i as [e|msg|id]; cbn [node_input_step] in H.
  - assert (A : 0 = answered e n \/ 0 = beaten e n) by (destruct e; cbn; auto).
    assert (B : 0 <= answered e n /\ 0 <= beaten e n).
    { split; [unfold answered|unfold beaten]; repeat case_match; try done; unfold Z.b2z; case_match; done. }
    destruct (node_step_pending e n n' w w' Ne) as [-> S]; [|done|split; [unfold k'; lia|done]].
    unfold k' in K0. destruct A as [<-|A]; lia.
  - injection H as <- <-. split; [done|by apply spared_quiet].
  - injection H as <- <-. split; [done|by apply spared_quiet].
Qed.

Lemma run_pending k ins (n n' : node) (w w' : Master C K) :
  f <> node_id_ n -> 0 <= k -> MAX_PENDING_APPEND + k <= pending n -> outrun k ins (n, w) = true -> node_run ins (n, w) = Ret (n', w') ->
  MAX_PENDING_APPEND <= pending n' /\ spared (partition_id_ n) w w'.
Proof.
  revert k n w. induction ins as [|i ins IH]; intros k n w Ne Kp P O H; [injection H as <- <-; split; [lia|by apply spared_quiet]|].
  cbn [outrun node_run] in O, H. apply obind_ret in H as ([n1 w1] & S & H). rewrite S in O. apply andb_true_iff in O as [K0%Z.leb_le O].
  pose proof (input_pending k i n n1 w w1 Ne Kp P K0 S) as [P1 S1]. cbn [fst] in O.
  assert (Id : node_id_ n1 = node_id_ n /\ partition_id_ n1 = partition_id_ n).
  { destruct i as [e|msg|id]; cbn [node_input_step fst snd] in S; [by destruct (node_step_forward _ _ _ _ _ S)|by injection S as <- <-..]. }
  destruct Id as [Id Pa]. apply (IH _ n1 w1) in O as [P2 S2]; [|congruence|done|done|done]. split; [done|].
  rewrite Pa in S2. exact (spared_trans _ _ _ _ S1 S2).
Qed.
End Pending.

(** ** Properties *)

(** C35: a follower whose requests were lost is given up: let
    [MAX_PENDING_APPEND] append requests to a node [f] count as unanswered, and
    let [f], counted from then on, at no time have answered more requests than
    heartbeats were sent to it, as when those pending were lost and it answers
    every heartbeat since. Then over any such run the count stays at
    [MAX_PENDING_APPEND] or above, and no message sent brings [f] an entry. Each
    heartbeat is counted when it is sent, and its answer only makes up for
    that. (An answer to one of the requests that were pending at the start
    would lower the count, and entries would flow again.) *)
Theorem lost_requests_stop_replication `{ClusterNodeStorageInterface St, CI : ClusterManagerInterface C, CL : !ClusterManagerLaws C,
    ClientManagerInterface K, ProtobufRuntime} (f : Z) (ins : list node_input) (n n' : ClusterNode St) (w w' : Master C K) :
  f <> node_id_ n -> MAX_PENDING_APPEND <= map_at 0 (pending_append_reqs_ n) f -> outrun f 0 ins (n, w) = true ->
  node_run ins (n, w) = Ret (n', w') ->
  MAX_PENDING_APPEND <= map_at 0 (pending_append_reqs_ n') f /\ spared f (partition_id_ n) w w'.
Proof. intros Ne P. apply (run_pending f 0); [done|done|unfold pending; lia]. Qed.

(** A leader of three nodes whose second one missed two heartbeats; it gets a
    message, and sends a heartbeat which the node answers. *)
Definition demo_missed : ClusterNode ClusterNodeStorageMock :=
  set_heartbeat_timer_ true (set_pending_append_reqs_ {[ 1 := 2 ]} (set_next_index_ {[ 1 := 1; 2 := 1 ]} demo_leader)).

Definition demo_refused (follower : Z) : RaftMessage :=
  set_partition_id 7 (loadAppendEntriesResponse (AppendEntriesResponse_set_append_result_success 0
    (AppendEntriesResponse_set_follower_id follower (AppendEntriesResponse_set_term 4 AppendEntriesResponse_new))) RaftMessage_new).

Definition demo_missed_inputs : list node_input :=
  [MessageArrives (encode_demo (demo_put (str "hi"))); Step (TaskRuns 0 99); Step HeartbeatTimer;
   MessageArrives (encode_demo (demo_refused 1)); Step (TaskRuns 0 0)].

Lemma lost_requests_stop_replication_witness :
  exists n' w', node_run demo_missed_inputs (demo_missed, demo_master) = Ret (n', w') /\ length (log_entries_ n') = 2%nat /\
    length (requested (cluster_manager_p_ w')) = 2%nat /\ spared 1 7 demo_master w'.
Proof.
  destruct (node_run demo_missed_inputs (demo_missed, demo_master)) as [[n' w']|] eqn:E; [|vm_compute in E; discriminate].
  exists n', w'. split; [reflexivity|]. split; [vm_compute in E; injection E as <- <-; reflexivity|].
  split; [vm_compute in E; injection E as <- <-; reflexivity|].
  refine (proj2 (lost_requests_stop_replication 1 demo_missed_inputs demo_missed n' demo_master w' _ _ _ E)); vm_compute; done.
Defined.
