(* ===== verification/NodeRanges.v ===== *)
(** * The counters and tables of a node

    [NodeTypes] has the integers that go into messages. This file has the other
    integer members of [ClusterNode]: who leads, who was voted for, how many
    votes there are, when the last heartbeat came, and the tables of the
    followers, keys and values. They too stay in the ranges of their C++ types. *)

From S2P Require Import Prelude MessageQueue WireFormat FlowTypes FlowCodec FlowCodecFacts RaftMessage LogStorage ClusterManager ClientManager Configuration ClusterNode ClusterNodeFacts NodeElection NodeLog NodeTypes NodeQueue NodePending.

Local Open Scope Z_scope.

(** A map from [int] to [int]. *)
Definition ints (m : gmap Z Z) : Prop := map_Forall (fun k v => int32 k = true /\ int32 v = true) m.

#[export] Instance ints_dec m : Decision (ints m).
Proof. unfold ints. apply _. Defined.

Lemma ints_insert k v m : int32 k = true -> int32 v = true -> ints m -> ints (<[k := v]> m).
Proof. intros Hk Hv M. by apply map_Forall_insert_2. Qed.

Lemma ints_at k m : ints m -> int32 (map_at 0 m k) = true.
Proof. intros M. unfold map_at. destruct (m !! k) eqn:E; [by apply M in E as [_ E]|done]. Qed.

Lemma ints_touch k m : int32 k = true -> ints m -> ints (map_touch 0 m k).
Proof. intros Hk M. apply ints_insert; [done| |done]. by apply ints_at. Qed.

Lemma int32_max z k : 0 <= k <= 1 -> int32 z = true -> int32 (Z.max k z) = true.
Proof. rewrite !int32_spec. unfold INT_MIN, INT_MAX. lia. Qed.

(** ** The members, and the inputs they come from *)

Section Ranges.
Context {St C K : Type}.
Context `{SI : ClusterNodeStorageInterface St, CI : ClusterManagerInterface C, KI : ClientManagerInterface K,
  RT : ProtobufRuntime}.
Abbreviation node := (ClusterNode St).

Record members_ok (n : node) : Prop := {
  ok_total : int32 (total_nodes_ n) = true;
  ok_leader : int32 (cur_leader_ n) = true;
  ok_heartbeat : int64 (last_heart_beat_received_ n) = true;
  ok_votes : int32 (votes_collected_ n) = true;
  ok_voted : int32 (voted_for_ n) = true;
  ok_applied : int32 (last_applied_ n) = true;
  ok_next : ints (next_index_ n);
  ok_matched : ints (matched_index_ n);
  ok_pending : ints (pending_append_reqs_ n)
}.

(** The ids of nodes that the handlers take from messages. *)
Definition sender_ok (m : RaftMessage) : bool :=
  match type m with
  | APPEND_ENTRIES_REQUEST => NodeIdType (AppendEntriesRequest_leader_id (get_append_request m))
  | APPEND_ENTRIES_RESPONSE => NodeIdType (AppendEntriesResponse_follower_id (get_append_response m))
  | REQUEST_VOTE_REQUEST => NodeIdType (RequestVoteRequest_candidate_id (get_vote_request m))
  | _ => true
  end.

Definition sender_task_ok (t : node_task) : bool :=
  match t with HandleMessage m => sender_ok m | HandleDisconnect _ => true end.

(** The clock returns a [time_t]. *)
Definition clock_ok (e : node_event) : bool :=
  match e with TaskRuns now _ => int64 now | _ => true end.

Definition node_input_ok (i : node_input) : bool :=
  input_ok i &&
  match i with
  | Step e => clock_ok e
  | MessageArrives msg => sender_ok (deserialize_from_message msg)
  | ClientGone _ => true
  end.

(** ** The handlers *)

Lemma trigger_members f (n n' : node) (w w' : Master C K) :
  int32 f = true -> members_ok n -> trigger_entry_update f (n, w) = Ret (n', w') -> members_ok n'.
Proof.
  intros F [O1 O2 O3 O4 O5 O6 O7 O8 O9]. rewrite trigger_entry_update_eq. generalize (map_at 0 (next_index_ n) f). intros i. cbv zeta.
  assert (N' : ints (map_touch 0 (next_index_ n) f)) by (by apply ints_touch).
  destruct (_ && _); [|intros [= <- <-]; by split].
  intros H. apply obind_ret in H as (prev & _ & H). apply obind_ret in H as (entry & _ & H).
  assert (P' : ints (map_touch 0 (pending_append_reqs_ n) f)) by (by apply ints_touch).
  destruct (_ <? MAX_PENDING_APPEND) eqn:G; [|injection H as <- <-; by split].
  apply obind_ret in H as ([n2 w2] & D & H). pose proof (send_to_node _ _ _ _ _ _ D) as ->. injection H as <- <-.
  split; try done. apply ints_insert; [done| |done]. apply Z.ltb_lt in G. pose proof (ints_at f _ O9) as A.
  rewrite int32_spec in *. unfold MAX_PENDING_APPEND, INT_MIN, INT_MAX in *. lia.
Qed.

Lemma update_followers_members fs (n n' : node) (w w' : Master C K) :
  forallb int32 fs = true -> members_ok n -> update_followers fs (n, w) = Ret (n', w') -> members_ok n'.
Proof.
  revert n w. induction fs as [|f fs IH]; intros n w F O H; cbn [update_followers] in H; [by injection H as <- <-|].
  cbn [forallb] in F. apply andb_true_iff in F as [F1 F2]. apply obind_ret in H as ([n1 w1] & T & H).
  apply (IH n1 w1); [done| |done]. by eapply trigger_members.
Qed.

Lemma add_log_entry_members e (n n' : node) (w w' : Master C K) :
  members_ok n -> add_log_entry e (n, w) = Ret (n', w') -> members_ok n'.
Proof.
  intros O H. unfold add_log_entry in H. eapply update_followers_members; [| |exact H].
  - apply forallb_forall. intros f ((k & v) & <- & X%list_elem_of_In%elem_of_map_iter)%in_map_iff. by apply (ok_next _ O) in X as [X _].
  - by destruct O.
Qed.

Lemma append_request_members now req (n n' : node) (w w' : Master C K) :
  int64 now = true -> int32 (AppendEntriesRequest_leader_id req) = true -> members_ok n ->
  handle_append_request now req (n, w) = Ret (n', w') -> members_ok n'.
Proof.
  intros T L [O1 O2 O3 O4 O5 O6 O7 O8 O9] H%handle_append_request_cases. destruct (accept_leader_frame now req n) as (st & AL & _).
  destruct H as [w1 _ _|w1 _ _ _|n1 w1 n2 x w2 _ _ F A _ _]; [by split|rewrite AL; by split|].
  rewrite AL in F. apply follow_leader_commit_frame in F as ((? & ? & ? & ->) & _). apply append_log_entries_frame in A as (log & _ & ->).
  by split.
Qed.

Lemma append_response_members resp (n n' : node) (w w' : Master C K) :
  int32 (AppendEntriesResponse_follower_id resp) = true -> int32 (AppendEntriesResponse_last_index_synced resp) = true -> members_ok n ->
  handle_append_response resp (n, w) = Ret (n', w') -> members_ok n'.
Proof.
  intros F L [O1 O2 O3 O4 O5 O6 O7 O8 O9] H. unfold handle_append_response in H. apply obind_ret in H as (d & D & H).
  apply int_sub_ret in D as [-> D]. apply obind_ret in H as ([n1 w1] & R & H). eapply trigger_members; [exact F| |exact H].
  assert (P : ints (<[AppendEntriesResponse_follower_id resp := Z.max 0 (map_at 0 (pending_append_reqs_ n) (AppendEntriesResponse_follower_id resp) - 1)]>
    (pending_append_reqs_ n))) by (apply ints_insert; [done|by apply int32_max|done]).
  destruct (negb _) in R.
  - apply obind_ret in R as ([n2 w2] & A & R). apply advance_commit_frame in A as ((st & ci & q & ->) & _).
    apply obind_ret in R as (x & X & R). apply int_add_ret in X as [-> X]. injection R as <- <-.
    split; try done; [apply ints_insert; done|]. by apply ints_insert.
  - cbn [cur_term_ set_pending_append_reqs_] in R. destruct (_ <? _) in R; [injection R as <- <-; by split|].
    apply obind_ret in R as (x & X & R). apply int_sub_ret in X as [-> X]. injection R as <- <-.
    split; try done. apply ints_insert; [done|by apply int32_max|done].
Qed.

Lemma vote_request_members req (n n' : node) (w w' : Master C K) :
  int32 (RequestVoteRequest_candidate_id req) = true -> members_ok n -> handle_vote_request req (n, w) = Ret (n', w') -> members_ok n'.
Proof.
  intros F [O1 O2 O3 O4 O5 O6 O7 O8 O9] H%handle_vote_request_cases.
  destruct H as [w1 _ D|n1 _ _ [[-> _]|[-> _]]|n1 w1 _ [(-> & _ & _)|[-> _]] D]; by split.
Qed.

Lemma vote_response_members resp (n n' : node) : members_ok n -> handle_vote_response resp n = Ret n' -> members_ok n'.
Proof.
  intros O. pose proof O as [O1 O2 O3 O4 O5 O6 O7 O8 O9]. unfold handle_vote_response.
  destruct (bool_decide _); [by intros [= <-]|]. destruct (bool_decide _); [by intros [= <-]|]. destruct (_ =? 0); [by intros [= <-]|].
  destruct (_ <? cur_term_ n); [by intros [= <-]|]. intros H. apply obind_ret in H as (n1 & E & H).
  assert (O' : members_ok n1).
  { destruct (_ =? 1) in E; [|by injection E as <-]. apply obind_ret in E as (v & V & E). apply int_add_ret in V as [-> V].
    injection E as <-. by split. }
  destruct (_ <? _) in H; injection H as <-; [by destruct O'; split|done].
Qed.

Lemma vote_delay_members (n n' : node) (w w' : Master C K) :
  int32 (node_id_ n) = true -> members_ok n -> on_vote_delay (n, w) = Ret (n', w') -> members_ok n'.
Proof.
  intros I [O1 O2 O3 O4 O5 O6 O7 O8 O9]. unfold on_vote_delay. intros H. destruct (negb _) in H; [injection H as <- <-; by split|].
  apply obind_ret in H as (e & _ & H). apply obind_ret in H as (v & V & H). apply int_add_ret in V as [-> V].
  pose proof (send_all_node _ _ _ _ _ H) as ->. by split.
Qed.

Lemma heartbeat_members (n n' : node) (w w' : Master C K) :
  int32 (total_nodes_ n) = true -> members_ok n -> on_heartbeat_timer (n, w) = Ret (n', w') -> members_ok n'.
Proof.
  intros T [O1 O2 O3 O4 O5 O6 O7 O8 O9]. unfold on_heartbeat_timer. intros H. apply obind_ret in H as ([n1 w1] & E & H). injection H as <- <-.
  destruct (bool_decide _); [|injection E as <- <-; by split]. apply obind_ret in E as (e & _ & E).
  apply obind_ret in E as ([n2 w2] & D & E). pose proof (send_all_node _ _ _ _ _ D) as ->. apply obind_ret in E as (m & M & E).
  injection E as <- <-. split; try done. cbn [pending_append_reqs_ start_send_hearbeat set_heartbeat_timer_ set_pending_append_reqs_].
  assert (Ids : forall i, i ∈ node_ids (total_nodes_ n) -> int32 i = true).
  { intros i X%elem_of_seqZ. rewrite int32_spec in *. unfold INT_MIN, INT_MAX in *. lia. }
  clear - M Ids O9. revert M O9. generalize (pending_append_reqs_ n) as p. induction (node_ids (total_nodes_ n)) as [|i ids IH]; intros p M P.
  { by injection M as <-. }
  cbn [count_heartbeats] in M. destruct (i =? node_id_ n); [apply (IH ltac:(intros j J; apply Ids; by right) p M P)|].
  apply obind_ret in M as (c & A & M). apply int_add_ret in A as [-> A].
  apply (IH ltac:(intros j J; apply Ids; by right) _ M). apply ints_insert; [|done|done]. apply Ids. by left.
Qed.

Lemma handler_members now rid m (n n' : node) (w w' : Master C K) :
  int64 now = true -> message_ok m = true -> sender_ok m = true -> members_ok n ->
  local_message_handler now rid m (n, w) = Ret (n', w') -> members_ok n'.
Proof.
  intros T Mo So O. unfold local_message_handler, message_ok, sender_ok in *. destruct (type m); intros H; try (by injection H as <- <-).
  - by eapply vote_request_members.
  - apply obind_ret in H as (n1 & V & H). injection H as <- <-. by eapply vote_response_members.
  - by eapply append_request_members.
  - apply andb_true_iff in Mo as [_ Mo]. by eapply append_response_members.
  - unfold handle_put_message in H. destruct (negb _) in H; [by injection H as <- <-|]. by eapply add_log_entry_members.
  - unfold handle_commit_message in H. destruct (negb _) in H; [by injection H as <- <-|]. by eapply add_log_entry_members.
  - apply open_queue_queue in H as [[q ->] _]. by destruct O.
Qed.

Lemma node_step_members e (n n' : node) (w w' : Master C K) :
  clock_ok e = true -> node_ok n = true -> forallb sender_task_ok (io_context_ n) = true -> members_ok n ->
  node_step e (n, w) = Ret (n', w') -> members_ok n'.
Proof.
  intros T Ok Se O. apply node_ok_spec in Ok as (_ & I & _ & _ & _ & Ta). pose proof O as [O1 O2 O3 O4 O5 O6 O7 O8 O9].
  unfold node_step. destruct e as [now rid| |now| |].
  - unfold run_posted_task. destruct (io_context_ n) as [|[m|id] ts]; intros H; [by injection H as <- <-|..].
    + cbn [forallb] in Ta, Se. apply andb_true_iff in Ta as [Ta _]. apply andb_true_iff in Se as [Se _].
      eapply handler_members; [exact T|exact Ta|exact Se| |exact H]. by split.
    + apply handle_disconnect_queue in H as [[q ->] _]. by split.
  - destruct (heartbeat_timer_ n); intros H; [|by injection H as <- <-]. by eapply heartbeat_members.
  - destruct (vote_timer_ n); intros H; [|by injection H as <- <-]. apply obind_ret in H as (n1 & V & H). injection H as <- <-.
    apply on_vote_timer_cases in V as [[-> _]|[-> _]]; by split.
  - destruct (vote_delays_ n); intros H; [by injection H as <- <-|]. by eapply vote_delay_members.
  - intros [= <- <-]. destruct (stats_timer_ n); by split.
Qed.

Context {CL : ClusterManagerLaws C}.

Lemma node_run_members ins (n n' : node) (w w' : Master C K) :
  forallb node_input_ok ins = true -> node_ok n = true -> forallb sender_task_ok (io_context_ n) = true -> members_ok n ->
  node_run ins (n, w) = Ret (n', w') -> members_ok n'.
Proof.
  revert n w. induction ins as [|i ins IH]; intros n w Io Ok Se O H; [by injection H as <- <-|].
  cbn [forallb node_run] in Io, H. apply andb_true_iff in Io as [Ii Io]. apply obind_ret in H as ([n1 w1] & Sp & H).
  apply andb_true_iff in Ii as [Ii Ci]. destruct i as [e|msg|id]; cbn [node_input_step fst snd input_ok] in Sp, Ii.
  - apply (IH n1 w1); [done|by eapply node_step_ok| |by eapply node_step_members|done].
    apply node_step_vote in Sp as [[->| ->] _]; [done|by apply forallb_tail].
  - injection Sp as <- <-. eapply IH; [exact Io| | | |exact H]; [| |by destruct O].
    + apply node_ok_spec in Ok as (P & I & T & Co & L & Ta). apply node_ok_spec. cbn. do 5 (split; [done|]). rewrite forallb_app, Ta. cbn. by rewrite Ii.
    + cbn. rewrite forallb_app, Se. cbn. by rewrite Ci.
  - injection Sp as <- <-. eapply IH; [exact Io| | | |exact H]; [| |by destruct O].
    + apply node_ok_spec in Ok as (P & I & T & Co & L & Ta). apply node_ok_spec. cbn. do 5 (split; [done|]). by rewrite forallb_app, Ta.
    + cbn. by rewrite forallb_app, Se.
Qed.
End Ranges.

(** ** Properties *)

(** C13: types: from a node whose integer members are in the ranges of their C++
    types, over any run whose inputs are in range (what the handlers read of a
    message, the clock, the random ids), every integer member of the node is in
    range at the end: partition, id and number of nodes, term, leader, vote and
    votes, time of the last heartbeat, commit index, the fields of log entries
    and of waiting messages that are read, and the keys and values of the three
    tables of followers (the message queue is an object of its own and not meant);
    and every message the node asks the cluster manager to send carries exactly
    what its receiver will decode, itself in range. *)
Theorem sent_messages_arrive `{ClusterNodeStorageInterface St, CI : ClusterManagerInterface C, CL : !ClusterManagerLaws C,
    ClientManagerInterface K} `{LW : ProtobufLaws}
    (ins : list node_input) (n n' : ClusterNode St) (w w' : Master C K) :
  node_ok n = true -> members_ok n -> forallb sender_task_ok (io_context_ n) = true -> forallb node_input_ok ins = true ->
  node_run ins (n, w) = Ret (n', w') ->
  node_ok n' = true /\ members_ok n' /\
  exists out ms, requested (cluster_manager_p_ w') = requested (cluster_manager_p_ w) ++ out /\
    Forall2 (carries (partition_id_ n)) out ms /\
    map received out = map (fun m => (m.1, set_partition_id (partition_id_ n) m.2)) ms /\
    Forall (fun o => message_ok (received o).2 = true) out.
Proof.
  intros Ok O Se Io R. assert (Io' : forallb input_ok ins = true).
  { rewrite forallb_forall in *. intros i X. by apply Io, andb_true_iff in X as [X _]. }
  destruct (node_run_received ins n n' w w' Ok Io' R) as [Ok' Re]. split; [done|]. split; [|done]. exact (node_run_members ins n n' w w' Io Ok Se O R).
Qed.

Lemma demo_members_ok st t v log ts : int32 v = true -> members_ok (demo_node st t v log ts).
Proof. intros V. split; try done; by apply (bool_decide_unpack _). Qed.

Lemma sent_messages_arrive_witness :
  exists n' w', node_run demo_inputs (demo_node CANDIDATE 4 0 [dummy_entry] [], demo_master) = Ret (n', w') /\
    node_ok n' = true /\ length (requested (cluster_manager_p_ w')) = 2%nat.
Proof.
  destruct (node_run demo_inputs (demo_node CANDIDATE 4 0 [dummy_entry] [], demo_master)) as [[n' w']|] eqn:E;
    [|vm_compute in E; discriminate].
  exists n', w'. split; [reflexivity|].
  destruct (sent_messages_arrive demo_inputs (demo_node CANDIDATE 4 0 [dummy_entry] []) n' demo_master w'
    ltac:(vm_compute; reflexivity) (demo_members_ok CANDIDATE 4 0 [dummy_entry] [] eq_refl) eq_refl ltac:(vm_compute; reflexivity) E) as (N & _).
  split; [exact N|].
  assert (L : (let* s := node_run demo_inputs (demo_node CANDIDATE 4 0 [dummy_entry] [], demo_master) in
    Ret (length (requested (cluster_manager_p_ s.2)))) = Ret 2%nat) by (vm_compute; reflexivity).
  rewrite E in L. cbn [obind snd] in L. congruence.
Defined.
