(* ===== verification/NodeRecovery.v ===== *)
(** * Restarting a node

    What each step of a node hands to the storage, what the constructor of
    [ClusterNode] rebuilds from it, and what is lost. [stored_run] is a run of a
    node together with the rounds of its storage thread. *)

From S2P Require Import Prelude MessageQueue WireFormat FlowTypes FlowCodec FlowCodecFacts Decimal RaftMessage LogStorage ClusterManager ClientManager Configuration ClusterNode ClusterNodeFacts NodeElection NodeLog NodeQueue.

Local Open Scope Z_scope.

Section Construction.
Context {St : Type} `{SI : ClusterNodeStorageInterface St}.
Abbreviation node := (ClusterNode St).

(** What the constructor builds. *)
Lemma ClusterNode_new_spec config (st : St) gt gv rc log mrc md :
  load_log_entry_from_file st [dummy_entry] = Ret (rc, log) -> zlength log <= INT_MAX ->
  load_metadata_from_file st (mkLogEntryMetaData 0) = (mrc, md) ->
  exists n, ClusterNode_new config st gt gv = Ret n /\
    log_entries_ n = log /\ message_queue_ n = foldl exec MessageQueue_new (log_calls (drop 1 log)) /\
    commit_index_ n = (if mrc =? 0 then last_committed md else 0) /\
    partition_id_ n = config_partition_id config /\ node_id_ n = config_node_id config /\
    total_nodes_ n = config_total_nodes config /\
    state_ n = CANDIDATE /\ cur_term_ n = 0 /\ voted_for_ n = -1 /\ io_context_ n = [] /\ cluster_node_storage_p_ n = st.
Proof.
  intros E L M. unfold ClusterNode_new.
  set (n0 := set_log_entries_ _ _) at 1. assert (S0 : check_if_previous_log_in_sync 0 0 n0 = Ret true) by reflexivity.
  rewrite S0. cbn [obind]. cbn [app log_entries_ set_log_entries_ start_statistics_scheduler set_stats_timer_
    start_send_hearbeat set_heartbeat_timer_ start_vote_scheduler set_vote_timer_ cluster_node_storage_p_].
  rewrite E. cbn [obind snd log_entries_ set_log_entries_].
  match goal with |- context [commit_loop ?r 1 ?m] => set (n1 := m);
    destruct (commit_loop_total r 1 n1) as [n2 C2]; [lia|done|]; rewrite C2; apply commit_loop_calls in C2; [|lia|done] end.
  cbn [obind]. assert (S2 : cluster_node_storage_p_ n2 = st) by (by rewrite C2). rewrite S2, M.
  eexists. split; [reflexivity|].
  assert (Q : message_queue_ n2 = foldl exec MessageQueue_new (log_calls (drop 1 log))).
  { rewrite C2. cbn [message_queue_ set_message_queue_ n1 set_log_entries_ log_entries_].
    rewrite to_int_small by (split; [apply zlength_nonneg|done]). unfold zlength.
    by rewrite take_ge by (rewrite length_drop; lia). }
  destruct (mrc =? 0); rewrite <- Q, C2; done.
Qed.
End Construction.

(** ** What a step stores *)

Section Steps.
Context {St C K : Type}.
Context `{SI : ClusterNodeStorageInterface St, CI : ClusterManagerInterface C, KI : ClientManagerInterface K,
  RT : ProtobufRuntime}.
Abbreviation node := (ClusterNode St).

(** A step that moves the commit index makes one call on the storage, for the
    entry at the new index; any other step makes none. *)
Definition stores (n n' : node) : Prop :=
  (commit_index_ n' = commit_index_ n /\ cluster_node_storage_p_ n' = cluster_node_storage_p_ n) \/
  (commit_index_ n < commit_index_ n' /\
   store_log_entries_and_metadata (log_entries_ n) (commit_index_ n') (commit_index_ n' + 1)
     (mkLogEntryMetaData (commit_index_ n')) (cluster_node_storage_p_ n) = Ret (cluster_node_storage_p_ n')).

Lemma stores_same (n n' : node) :
  commit_index_ n' = commit_index_ n -> cluster_node_storage_p_ n' = cluster_node_storage_p_ n -> stores n n'.
Proof. by left. Qed.

Lemma commit_up_to_one_call l (n n1 n' : node) (w w' : Master C K) :
  commit_index_ n < l -> commit_log_entries (commit_index_ n + 1) (l + 1) (n, w) = Ret (n1, w') ->
  store_entries l (l + 1) (mkLogEntryMetaData l) (set_commit_index_ l n1) = Ret n' -> stores n n'.
Proof.
  intros L [[q ->] _]%commit_log_entries_queue (st & -> & S)%store_entries_frame. right. split; [exact L|exact S].
Qed.

Lemma follow_leader_commit_stores l (n n' : node) (w w' : Master C K) :
  follow_leader_commit l (n, w) = Ret (n', w') -> stores n n'.
Proof.
  intros [[-> ->]|([L _] & n1 & n2 & D & -> & S)]%follow_leader_commit_cases; [by apply stores_same|].
  by eapply commit_up_to_one_call.
Qed.

Lemma advance_commit_stores l (n n' : node) (w w' : Master C K) :
  advance_commit l (n, w) = Ret (n', w') -> stores n n'.
Proof.
  intros [[-> ->]|(L & _ & n1 & n2 & D & -> & S)]%advance_commit_cases; [by apply stores_same|].
  by eapply commit_up_to_one_call.
Qed.

Lemma append_request_stores now req (n n' : node) (w w' : Master C K) :
  append_request_result now req n w n' w' -> stores n n'.
Proof.
  intros [w1 T S|w1 T E S|n1 w1 n2 e w2 T E F A La S]; [by apply stores_same|..];
    destruct (accept_leader_frame now req n) as (st & AL & _).
  - rewrite AL. by apply stores_same.
  - rewrite AL in F. apply append_log_entries_frame in A as (log & _ & ->).
    apply follow_leader_commit_stores in F. exact F.
Qed.

Lemma append_response_stores resp (n n' : node) (w w' : Master C K) :
  append_response_result resp n w n' w' -> stores n n'.
Proof.
  intros [p n1 w1 x S A|p S T|p x S T]; [|by apply stores_same..]. apply advance_commit_stores in A. exact A.
Qed.

Lemma local_message_handler_stores now rid m (n n' : node) (w w' : Master C K) :
  local_message_handler now rid m (n, w) = Ret (n', w') -> stores n n'.
Proof.
  unfold local_message_handler. destruct (type m); intros H; try (injection H as <- <-; by apply stores_same).
  - apply handle_vote_request_cases in H as [w1 G D|n1 Le T [[-> _]|[-> T']]|n1 w1 Le [(-> & _ & _)|[-> T']] D];
      by apply stores_same.
  - apply obind_ret in H as (n1 & V & H). injection H as <- <-.
    apply handle_vote_response_cases in V as [->|(_ & T & _ & [[-> _]|[-> _]])]; by apply stores_same.
  - apply handle_append_request_cases in H. by eapply append_request_stores.
  - apply handle_append_response_cases in H as (n1 & w1 & A & U). apply append_response_stores in A.
    apply trigger_entry_update_frame in U as (p & x & ->). exact A.
  - unfold handle_put_message in H. destruct (negb _) in H; [injection H as <- <-; by apply stores_same|].
    apply add_log_entry_frame in H as (p & x & ->). by apply stores_same.
  - unfold handle_commit_message in H. destruct (negb _) in H; [injection H as <- <-; by apply stores_same|].
    apply add_log_entry_frame in H as (p & x & ->). by apply stores_same.
  - apply open_queue_queue in H as [[q ->] _]. by apply stores_same.
Qed.

Lemma node_step_stores e (n n' : node) (w w' : Master C K) : node_step e (n, w) = Ret (n', w') -> stores n n'.
Proof.
  unfold node_step. destruct e as [now rid| |now| |].
  - unfold run_posted_task. destruct (io_context_ n) as [|[m|id] ts] eqn:IO; intros H;
      [injection H as <- <-; by apply stores_same|..].
    + apply local_message_handler_stores in H. exact H.
    + apply handle_disconnect_queue in H as [[q ->] _]. by apply stores_same.
  - destruct (heartbeat_timer_ n); intros H; [|injection H as <- <-; by apply stores_same].
    apply on_heartbeat_timer_node in H as (m & ->). by apply stores_same.
  - destruct (vote_timer_ n); intros H; [|injection H as <- <-; by apply stores_same].
    apply obind_ret in H as (n1 & V & H). injection H as <- <-.
    apply on_vote_timer_cases in V as [[-> _]|[-> _]]; by apply stores_same.
  - destruct (vote_delays_ n); intros H; [injection H as <- <-; by apply stores_same|].
    apply on_vote_delay_cases in H as [(-> & _ & _)|(e & -> & _)]; by apply stores_same.
  - intros [= <- <-]. destruct (stats_timer_ n); by apply stores_same.
Qed.

Lemma input_step_stores i (n n' : node) (w w' : Master C K) : node_input_step i (n, w) = Ret (n', w') -> stores n n'.
Proof.
  destruct i as [e|msg|id]; cbn [node_input_step]; intros H;
    [by eapply node_step_stores|injection H as <- <-; by apply stores_same..].
Qed.
End Steps.

(** ** What a commit stores *)

Section Storing.
Context {C K : Type}.
Context `{CI : ClusterManagerInterface C, KI : ClientManagerInterface K, RT : ProtobufRuntime}.
Abbreviation node := (ClusterNode (ClusterNodeStorage * disk)).

(** The slice that is stored when the commit index moves to [l]. *)
Lemma store_last l (n n' : node) :
  store_entries l (l + 1) (mkLogEntryMetaData l) n = Ret n' ->
  exists x, log_entries_ n !! Z.to_nat l = Some x /\ 0 <= l < zlength (log_entries_ n) /\
    log_entry_buffers_ (cluster_node_storage_p_ n').1 = log_entry_buffers_ (cluster_node_storage_p_ n).1 ++ [x] /\
    metadata_buffer_ (cluster_node_storage_p_ n').1 = mkLogEntryMetaData l.
Proof.
  intros (st & -> & S)%store_entries_frame. cbn [store_log_entries_and_metadata ClusterNodeStorage_interface] in S.
  apply obind_ret in S as (s' & S & E). injection E as <-.
  unfold ClusterNodeStorage_store_log_entries_and_metadata, vec_range in S. inv_ret. split_if; [|done]. inv_ret.
  to_prop. unfold zlength in *. destruct (lookup_lt_is_Some_2 (log_entries_ n) (Z.to_nat l)) as [e X]; [lia|].
  exists e. split; [done|]. split; [lia|]. subst. cbn. split; [|done].
  replace (Z.to_nat (l + 1 - l)) with 1%nat by lia. rewrite (drop_S _ _ _ X). cbn. by rewrite take_0.
Qed.

Lemma commit_up_to_stores l (n n1 n' : node) (w w' : Master C K) :
  commit_log_entries (commit_index_ n + 1) (l + 1) (n, w) = Ret (n1, w') ->
  store_entries l (l + 1) (mkLogEntryMetaData l) (set_commit_index_ l n1) = Ret n' ->
  commit_index_ n' = l /\
  exists x, log_entries_ n !! Z.to_nat l = Some x /\ 0 <= l < zlength (log_entries_ n) /\
    log_entry_buffers_ (cluster_node_storage_p_ n').1 = log_entry_buffers_ (cluster_node_storage_p_ n).1 ++ [x] /\
    metadata_buffer_ (cluster_node_storage_p_ n').1 = mkLogEntryMetaData l.
Proof.
  intros [[q ->] _]%commit_log_entries_queue S. pose proof S as S'. apply store_last in S' as (x & X).
  apply store_entries_frame in S as (st & -> & _). split; [done|]. exists x. exact X.
Qed.

(** One entry is what is stored, and one or more are committed. *)
Lemma newly_committed_one c l (log : list LogEntry) (x : LogEntry) :
  0 <= c < l -> l < zlength log -> log !! Z.to_nat l = Some x ->
  (newly_committed c l log = [x] <-> l = c + 1).
Proof.
  unfold newly_committed, zlength. intros B L X. split.
  - intros E. apply (f_equal length) in E. rewrite length_take, length_drop in E. cbn in E. lia.
  - intros ->. replace (Z.to_nat (c + 1 - c)) with 1%nat by lia. rewrite (drop_S _ _ _ X). cbn. by rewrite take_0.
Qed.
End Storing.

(** ** Running with the storage thread *)

(** The log operations leave an empty record of deliveries empty. *)
Lemma from_log_undelivered q cs :
  forallb from_log cs = true -> message_id_to_consumer_ q = ∅ -> consumer_id_delivered_messages_ q = ∅ ->
  message_id_to_consumer_ (foldl exec q cs) = ∅ /\ consumer_id_delivered_messages_ (foldl exec q cs) = ∅.
Proof.
  revert q. induction cs as [|c cs IH]; intros q H M D; [done|]. cbn in H. apply andb_true_iff in H as [H1 H2].
  cbn [foldl]. destruct c as [id m|id| | |]; try done; apply IH; try done; cbn [exec]; unfold insert_message, commit_message;
    destruct (message_store_ q !! id); try done; unfold release_from_consumer; rewrite M, lookup_empty; done.
Qed.

Section Running.
Context {C K : Type}.
Context `{CI : ClusterManagerInterface C, KI : ClientManagerInterface K, RT : ProtobufRuntime}.
Abbreviation node := (ClusterNode (ClusterNodeStorage * disk)).
Abbreviation nstate := (node * Master C K)%type.

(** The node and its storage thread share the storage: an input of the node, or
    a round of the thread. *)
Inductive stored_input :=
  | NodeInput (i : node_input)
  | StorageRound.

Definition stored_step (x : stored_input) (s : nstate) : outcome nstate :=
  match x with
  | NodeInput i => node_input_step i s
  | StorageRound =>
      let '(st, d) := cluster_node_storage_p_ s.1 in
      Ret (set_cluster_node_storage_p_ (consume_and_store_messages st d) s.1, s.2)
  end.

Fixpoint stored_run (xs : list stored_input) (s : nstate) : outcome nstate :=
  match xs with
  | [] => Ret s
  | x :: xs => let* s := stored_step x s in stored_run xs s
  end.

(** A step that cuts no committed entry and commits at most one. *)
Definition commits_one (n n' : node) : bool :=
  bool_decide (commits_kept n n') && (commit_index_ n' <=? commit_index_ n + 1).

(** So is every step of the run, and the log always fits its index type. *)
Fixpoint commits_singly (xs : list stored_input) (s : nstate) : bool :=
  (zlength (log_entries_ s.1) <=? INT_MAX) &&
  match xs with
  | [] => true
  | x :: xs => match stored_step x s with Ret s' => commits_one s.1 s'.1 && commits_singly xs s' | Fault _ => true end
  end.

(** The entries a restart has to find. *)
Definition committed_entries (n : node) : list LogEntry :=
  take (Z.to_nat (commit_index_ n)) (drop 1 (log_entries_ n)).

(** Files and buffers hold the committed entries, and the commit index once
    there is one. *)
Record recoverable (s0 : ClusterNodeStorage) (n : node) : Prop := {
  rec_ready : storage_ready (cluster_node_storage_p_ n).1 (cluster_node_storage_p_ n).2;
  rec_files : same_files s0 (cluster_node_storage_p_ n).1;
  rec_log : durable_log (cluster_node_storage_p_ n).1 (cluster_node_storage_p_ n).2 =
    concat (map entry_record (committed_entries n));
  rec_metadata : 0 < commit_index_ n -> metadata_buffer_ (cluster_node_storage_p_ n).1 = mkLogEntryMetaData (commit_index_ n);
  rec_commit : 0 <= commit_index_ n < zlength (log_entries_ n);
  rec_reachable : reachable (message_queue_ n);
  rec_current : queue_current n
}.

Lemma committed_kept (n n' : node) :
  commits_kept n n' -> committed_entries n' = take (Z.to_nat (commit_index_ n')) (drop 1 (log_entries_ n)).
Proof. intros [_ E]. unfold committed_entries. rewrite !firstn_skipn_comm. cbn [Nat.add]. by rewrite E. Qed.

(** What a step stores is what it commits. *)
Lemma stores_recoverable s0 (n n' : node) :
  recoverable s0 n -> stores n n' -> commits_kept n n' -> commit_index_ n' <= commit_index_ n + 1 ->
  storage_ready (cluster_node_storage_p_ n').1 (cluster_node_storage_p_ n').2 /\
  same_files s0 (cluster_node_storage_p_ n').1 /\
  durable_log (cluster_node_storage_p_ n').1 (cluster_node_storage_p_ n').2 = concat (map entry_record (committed_entries n')) /\
  (0 < commit_index_ n' -> metadata_buffer_ (cluster_node_storage_p_ n').1 = mkLogEntryMetaData (commit_index_ n')).
Proof.
  intros [Re [F1 F2] L M [C0 _] _ _] S CK B. rewrite (committed_kept n n' CK). destruct S as [[E1 E2]|[Lt S]].
  - rewrite E1, E2. done.
  - destruct (cluster_node_storage_p_ n) as [st d], (cluster_node_storage_p_ n') as [st' d'].
    assert (E : commit_index_ n' = commit_index_ n + 1) by lia. cbn [fst snd] in *.
    apply (storage_step_ready (Store _ _ _ _)) in S as (R' & [F1' F2'] & L' & M' & _); [|done].
    split; [done|]. split; [by split; congruence|]. split; [|by intros _].
    rewrite L', L, <- concat_app, <- map_app. do 2 f_equal. cbn [stored_entries]. rewrite app_nil_r. unfold committed_entries.
    rewrite E. replace (Z.to_nat (commit_index_ n + 1 + 1 - (commit_index_ n + 1))) with 1%nat by lia.
    replace (Z.to_nat (commit_index_ n + 1)) with (1 + Z.to_nat (commit_index_ n))%nat by lia.
    rewrite <- drop_drop, take_take_drop. f_equal. lia.
Qed.

Lemma commits_kept_bound (n n' : node) : 0 <= commit_index_ n' -> commits_kept n n' -> commit_index_ n' < zlength (log_entries_ n').
Proof.
  intros C0 [B E]. apply (f_equal length) in E. rewrite !length_take in E. unfold zlength in *. lia.
Qed.

Lemma stored_step_recoverable s0 x (n n' : node) (w w' : Master C K) :
  recoverable s0 n -> zlength (log_entries_ n) <= INT_MAX -> commits_kept n n' -> commit_index_ n' <= commit_index_ n + 1 ->
  stored_step x (n, w) = Ret (n', w') -> recoverable s0 n'.
Proof.
  intros Rc L CK B S. destruct x as [i|]; cbn [stored_step fst snd] in S.
  - pose proof Rc as [_ _ _ _ [C0 _] Rq Cu]. destruct (input_step_queue i n n' w w' Rq C0 L S) as [Q C1].
    destruct (stores_recoverable s0 n n' Rc (input_step_stores _ _ _ _ _ S) CK B) as (R1 & R2 & R3 & R4).
    split; try done; [|exact (drives_reachable _ _ _ Rq Q)|by eapply queue_step_current].
    split; [lia|]. apply (commits_kept_bound n); [lia|done].
  - destruct Rc as [Re [F1 F2] Lo M C0 Rq Cu]. destruct (cluster_node_storage_p_ n) as [st d] eqn:E. injection S as <- <-.
    destruct (consume_and_store_messages st d) as [st' d'] eqn:T. cbn [fst snd] in *.
    destruct (storage_step_ready Tick st d st' d' Re) as (R' & [F1' F2'] & L' & M' & _); [cbn [storage_step fst snd]; by rewrite T|].
    split; cbn [cluster_node_storage_p_ set_cluster_node_storage_p_ fst snd]; try done.
    + split; congruence.
    + rewrite L'. cbn [stored_entries map concat]. rewrite app_nil_r. exact Lo.
    + intros P. rewrite M'. exact (M P).
Qed.

Lemma stored_run_recoverable s0 xs (n n' : node) (w w' : Master C K) :
  recoverable s0 n -> commits_singly xs (n, w) = true -> stored_run xs (n, w) = Ret (n', w') ->
  recoverable s0 n' /\ zlength (log_entries_ n') <= INT_MAX.
Proof.
  revert n w. induction xs as [|x xs IH]; intros n w Rc CS H; cbn [commits_singly fst] in CS;
    apply andb_true_iff in CS as [L%Z.leb_le CS]; [by injection H as <- <-|].
  cbn [stored_run] in H. apply obind_ret in H as ([n1 w1] & S & H). rewrite S in CS. cbn [fst] in CS.
  apply andb_true_iff in CS as [[CK%bool_decide_eq_true B%Z.leb_le]%andb_true_iff CS].
  apply (IH n1 w1); [by eapply stored_step_recoverable|done|done].
Qed.
End Running.

Section FirstStart.
Context `{LW : ProtobufLaws}.

(** A node that starts where neither of its files exists. *)
Lemma first_start_recoverable p i total g gt gv d n :
  let s0 := ClusterNodeStorage_new p i (mkLogEntryMetaData g) in
  (forall name, writable d name = true) ->
  files d !! storage_log_entry_filename_ s0 = None -> files d !! storage_metadata_file_name_ s0 = None ->
  ClusterNode_new (mkClusterNodeConfig p i total) (s0, d) gt gv = Ret n -> recoverable s0 n.
Proof.
  intros s0 W F1 F2 E.
  destruct (ClusterNode_new_spec (mkClusterNodeConfig p i total) (s0, d) gt gv 1 [dummy_entry] 0 (mkLogEntryMetaData 0))
    as (n1 & E' & E1 & E2 & E3 & _ & _ & _ & _ & _ & _ & _ & E4).
  - cbn [load_log_entry_from_file ClusterNodeStorage_interface fst snd].
    unfold ClusterNodeStorage_load_log_entry_from_file, LogEntryStorage_load_log_entry_from_file. rewrite F1. reflexivity.
  - vm_compute. discriminate.
  - cbn [load_metadata_from_file ClusterNodeStorage_interface fst snd].
    unfold ClusterNodeStorage_load_metadata_from_file, MetadataStorage_load_metadata_from_file. rewrite F2. reflexivity.
  - assert (n1 = n) as -> by congruence. cbn in E3. split; rewrite ?E4; cbn [fst snd].
    + by apply storage_new_names.
    + done.
    + unfold durable_log, committed_entries. rewrite F1, E1, E3. done.
    + lia.
    + rewrite E1, E3. vm_compute. split; [discriminate|reflexivity].
    + rewrite E2. apply new_calls_reachable, from_log_ok, log_calls_from_log.
    + unfold queue_current. by rewrite E2, E1, E3.
Qed.

(** Restarting from the files a recoverable node leaves. *)
Lemma recoverable_restart p i g g' gt gv total (n : ClusterNode (ClusterNodeStorage * disk)) :
  recoverable (ClusterNodeStorage_new p i (mkLogEntryMetaData g)) n ->
  0 < commit_index_ n <= INT_MAX -> zlength (committed_entries n) < INT_MAX -> forallb storable (committed_entries n) = true ->
  let d := (consume_and_store_messages (cluster_node_storage_p_ n).1 (cluster_node_storage_p_ n).2).2 in
  exists n', ClusterNode_new (mkClusterNodeConfig p i total) (ClusterNodeStorage_new p i (mkLogEntryMetaData g'), d) gt gv = Ret n' /\
    log_entries_ n' = dummy_entry :: committed_entries n /\ commit_index_ n' = commit_index_ n /\
    message_queue_ n' = foldl exec MessageQueue_new (log_calls (committed_entries n)).
Proof.
  intros [Re [F1 F2] Lo M _ _ _] B L ST d. subst d. set (s0 := ClusterNodeStorage_new p i _) in *.
  rewrite (tick_ready _ _ Re). destruct Re as (_ & _ & _ & N). cbn [snd]. unfold INT_MAX in *.
  match goal with |- context [(ClusterNodeStorage_new p i (mkLogEntryMetaData g'), ?d)] =>
    destruct (ClusterNode_new_spec (mkClusterNodeConfig p i total) (ClusterNodeStorage_new p i (mkLogEntryMetaData g'), d) gt gv
      0 (dummy_entry :: committed_entries n) 0 (mkLogEntryMetaData (commit_index_ n))) as (n' & E & E1 & E2 & E3 & _) end.
  - cbn [load_log_entry_from_file ClusterNodeStorage_interface fst snd].
    change (dummy_entry :: ?l) with ([dummy_entry] ++ l). apply load_records; [done|].
    change (storage_log_entry_filename_ (ClusterNodeStorage_new p i _)) with (storage_log_entry_filename_ s0).
    cbn [files disk_write]. rewrite <- F1, lookup_insert_ne, lookup_insert_eq by done. by rewrite Lo.
  - unfold zlength, INT_MAX in *. cbn [length]. lia.
  - cbn [load_metadata_from_file ClusterNodeStorage_interface fst snd]. apply load_metadata_saved.
    + apply int32_spec. unfold INT_MIN, INT_MAX. cbn. lia.
    + change (storage_metadata_file_name_ (ClusterNodeStorage_new p i _)) with (storage_metadata_file_name_ s0).
      cbn [files disk_write]. rewrite <- F2, lookup_insert_eq, M by lia. done.
  - exists n'. done.
Qed.
End FirstStart.

(** ** Properties *)

(** C34: what a commit stores: when a follower or the leader moves its commit
    index to [l], the storage is handed the entry at position [l] and the
    metadata [l], and nothing else. That is everything that was committed
    exactly when the index moved by one; when it jumps further, the entries in
    between are committed and applied to the queue but never stored. *)
Theorem commit_stores_last_entry `{ClusterManagerInterface C, ClientManagerInterface K, RT : ProtobufRuntime}
    (l : Z) (n n' : ClusterNode (ClusterNodeStorage * disk)) (w w' : Master C K) :
  0 <= commit_index_ n -> commit_index_ n' <> commit_index_ n ->
  follow_leader_commit l (n, w) = Ret (n', w') \/ advance_commit l (n, w) = Ret (n', w') ->
  exists x, log_entries_ n !! Z.to_nat l = Some x /\ commit_index_ n' = l /\
    log_entry_buffers_ (cluster_node_storage_p_ n').1 = log_entry_buffers_ (cluster_node_storage_p_ n).1 ++ [x] /\
    metadata_buffer_ (cluster_node_storage_p_ n').1 = mkLogEntryMetaData l /\
    (newly_committed (commit_index_ n) l (log_entries_ n) = [x] <-> l = commit_index_ n + 1).
Proof.
  intros C0 D S.
  assert (X : commit_index_ n < l /\ exists n1, commit_log_entries (commit_index_ n + 1) (l + 1) (n, w) = Ret (n1, w') /\
    store_entries l (l + 1) (mkLogEntryMetaData l) (set_commit_index_ l n1) = Ret n').
  { destruct S as [S|S].
    - apply follow_leader_commit_cases in S as [[-> _]|([L _] & n1 & n2 & S1 & -> & S2)]; [done|]. eauto.
    - apply advance_commit_cases in S as [[-> _]|(L & _ & n1 & n2 & S1 & -> & S2)]; [done|]. eauto. }
  destruct X as (L & n1 & S1 & S2). destruct (commit_up_to_stores l n n1 n' w w' S1 S2) as (E & x & X1 & X2 & X3 & X4).
  exists x. do 4 (split; [done|]). apply newly_committed_one; [lia|lia|done].
Qed.

(** A follower with two new entries, told that both are committed. *)
Definition demo_batch_node : ClusterNode (ClusterNodeStorage * disk) :=
  mkClusterNode 7 0 3 [] FOLLOWER CheckHeartbeat true true 0 4 1 0 0 1
    [dummy_entry; demo_entry 1 4 5 (str "a"); demo_entry 2 4 6 (str "b")] 0 0 ∅ ∅ ∅
    (ClusterNodeStorage_new 7 0 (mkLogEntryMetaData 0), demo_disk) MessageQueue_new.

(** What a restart of the node finds once its storage has been flushed: the
    messages, the commit index and the size of the log. *)
Definition demo_restart (n : ClusterNode (ClusterNodeStorage * disk)) : outcome (gmap Z bytes * Z * Z) :=
  let* n' := ClusterNode_new (mkClusterNodeConfig 7 0 3) (ClusterNodeStorage_new 7 0 (mkLogEntryMetaData 0),
    (consume_and_store_messages (cluster_node_storage_p_ n).1 (cluster_node_storage_p_ n).2).2) 0 0 in
  Ret (message_store_ (message_queue_ n'), commit_index_ n', zlength (log_entries_ n')).

(** The first of the two messages is gone after a restart, and the commit index
    points behind the log. *)
Lemma commit_stores_last_entry_witness :
  exists n' w', follow_leader_commit 2 (demo_batch_node, demo_master) = Ret (n', w') /\
    log_entry_buffers_ (cluster_node_storage_p_ n').1 = [demo_entry 2 4 6 (str "b")] /\
    message_store_ (message_queue_ n') = {[ 5 := str "a"; 6 := str "b" ]} /\
    demo_restart n' = Ret ({[ 6 := str "b" ]}, 2, 2).
Proof.
  destruct (follow_leader_commit 2 (demo_batch_node, demo_master)) as [[n' w']|] eqn:E; [|vm_compute in E; discriminate].
  exists n', w'. split; [reflexivity|].
  assert (D : commit_index_ n' <> commit_index_ demo_batch_node) by (vm_compute in E; injection E as <- <-; discriminate).
  destruct (commit_stores_last_entry 2 demo_batch_node n' demo_master w' ltac:(vm_compute; discriminate) D (or_introl E))
    as (x & X & _ & B & _). injection X as <-.
  split; [exact B|]. clear B D. vm_compute in E. injection E as <- <-. split; vm_compute; reflexivity.
Defined.

(** C20: crash recovery: let a node start for the first time (neither its log
    file nor its metadata file exists, and both can be written), and let it run
    on any inputs, interleaved in any way with the rounds of its storage
    thread, such that no step commits more than one entry or cuts a committed
    one. If it has committed something, then once the thread has made another
    round, restarting the node (with its background thread not yet running)
    rebuilds exactly its committed log, its commit index, and its queue: the
    stored messages and the committed ids are those of the node that stopped,
    no message is held by a consumer, and every message that was not committed
    is undelivered again. *)
Theorem restart_recovers_committed `{CI : ClusterManagerInterface C, KI : ClientManagerInterface K, LW : ProtobufLaws}
    (p i g g' gt gt' gv gv' total : Z) (xs : list stored_input) (d : disk)
    (n0 n : ClusterNode (ClusterNodeStorage * disk)) (w w' : Master C K) :
  let s0 := ClusterNodeStorage_new p i (mkLogEntryMetaData g) in
  (forall name, writable d name = true) ->
  files d !! storage_log_entry_filename_ s0 = None -> files d !! storage_metadata_file_name_ s0 = None ->
  ClusterNode_new (mkClusterNodeConfig p i total) (s0, d) gt gv = Ret n0 ->
  commits_singly xs (n0, w) = true -> stored_run xs (n0, w) = Ret (n, w') ->
  0 < commit_index_ n -> forallb storable (committed_entries n) = true ->
  let d' := (consume_and_store_messages (cluster_node_storage_p_ n).1 (cluster_node_storage_p_ n).2).2 in
  exists n', ClusterNode_new (mkClusterNodeConfig p i total)
      (ClusterNodeStorage_new p i (mkLogEntryMetaData g'), d') gt' gv' = Ret n' /\
    log_entries_ n' = dummy_entry :: take (Z.to_nat (commit_index_ n)) (drop 1 (log_entries_ n)) /\
    commit_index_ n' = commit_index_ n /\
    message_store_ (message_queue_ n') = message_store_ (message_queue_ n) /\
    committed_messages_ (message_queue_ n') = committed_messages_ (message_queue_ n) /\
    message_id_to_consumer_ (message_queue_ n') = ∅ /\ consumer_id_delivered_messages_ (message_queue_ n') = ∅ /\
    forall id, id ∈ undelivered_messages_ (message_queue_ n') <->
      is_Some (message_store_ (message_queue_ n) !! id) /\ id ∉ committed_messages_ (message_queue_ n).
Proof.
  intros s0 W F1 F2 E CS R P ST d'. pose proof (first_start_recoverable p i total g gt gv d n0 W F1 F2 E) as Rc.
  destruct (stored_run_recoverable s0 xs n0 n w w' Rc CS R) as [Rn L]. pose proof (rec_commit _ _ Rn) as B.
  destruct (recoverable_restart p i g g' gt' gv' total n Rn) as (n' & N & Lo & Ci & Q); [lia| |done|].
  { unfold zlength, committed_entries in *. rewrite length_take, length_drop. lia. }
  exists n'. do 3 (split; [done|]). fold (committed_entries n) in Lo.
  assert (Pe : persisted (message_queue_ n') = persisted (message_queue_ n)) by (rewrite Q; symmetry; apply Rn).
  destruct (from_log_undelivered MessageQueue_new (log_calls (committed_entries n)) (log_calls_from_log _) eq_refl eq_refl) as [M D].
  rewrite <- Q in M, D. assert (Rq : reachable (message_queue_ n'))
    by (rewrite Q; apply new_calls_reachable, from_log_ok, log_calls_from_log).
  injection Pe as Pe1 Pe2. do 4 (split; [done|]). intros id. rewrite (wf_undelivered _ (reachable_wf _ Rq)), Pe1, Pe2, M, lookup_empty.
  naive_solver.
Qed.

(** A node that gets two entries of a leader and hears, one at a time, that they
    are committed; its storage thread runs in between. *)
Definition demo_entries (leader_commit prev_index prev_term : Z) (es : list LogEntry) : stored_input :=
  NodeInput (MessageArrives (encode_demo (set_partition_id 7 (loadAppendEntriesRequest
    (AppendEntriesRequest_set_leader_commit leader_commit (demo_append_request 1 prev_index prev_term es)) RaftMessage_new)))).

Definition demo_recovery : list stored_input :=
  let run := NodeInput (Step (TaskRuns 0 0)) in
  [demo_entries 0 0 0 [demo_entry 1 1 5 (str "a"); demo_entry 2 1 6 (str "b")]; run; StorageRound;
   demo_entries 1 2 1 []; run; StorageRound; demo_entries 2 2 1 []; run].

Definition demo_first_start : outcome (ClusterNode (ClusterNodeStorage * disk)) :=
  ClusterNode_new (mkClusterNodeConfig 7 0 3) (ClusterNodeStorage_new 7 0 (mkLogEntryMetaData 99), demo_disk) 0 0.

Definition demo_recovery_ok : bool :=
  match demo_first_start with
  | Fault _ => false
  | Ret n0 =>
      commits_singly demo_recovery (n0, demo_master) &&
      match stored_run demo_recovery (n0, demo_master) with
      | Fault _ => false
      | Ret (n, _) => (commit_index_ n =? 2) && forallb storable (committed_entries n) &&
          bool_decide (message_store_ (message_queue_ n) = {[ 5 := str "a"; 6 := str "b" ]})
      end
  end.

Lemma restart_recovers_committed_witness :
  exists n0 n w' n', demo_first_start = Ret n0 /\ stored_run demo_recovery (n0, demo_master) = Ret (n, w') /\
    ClusterNode_new (mkClusterNodeConfig 7 0 3) (ClusterNodeStorage_new 7 0 (mkLogEntryMetaData 5),
      (consume_and_store_messages (cluster_node_storage_p_ n).1 (cluster_node_storage_p_ n).2).2) 0 0 = Ret n' /\
    commit_index_ n' = 2 /\ message_store_ (message_queue_ n') = {[ 5 := str "a"; 6 := str "b" ]}.
Proof.
  assert (X : demo_recovery_ok = true) by (vm_compute; reflexivity). unfold demo_recovery_ok in X.
  destruct demo_first_start as [n0|] eqn:E0; [|discriminate]. apply andb_true_iff in X as [CS X].
  destruct (stored_run demo_recovery (n0, demo_master)) as [[n w']|] eqn:E; [|discriminate].
  apply andb_true_iff in X as [[C2%Z.eqb_eq ST]%andb_true_iff MS%bool_decide_eq_true].
  destruct (restart_recovers_committed 7 0 99 5 0 0 0 0 3 demo_recovery demo_disk n0 n demo_master w'
    (fun _ => eq_refl) eq_refl eq_refl E0 CS E ltac:(by rewrite C2) ST) as (n' & N & _ & N2 & N3 & _).
  exists n0, n, w', n'. split; [reflexivity|]. split; [exact E|]. split; [exact N|]. split; [by rewrite N2|by rewrite N3].
Defined.

(** A restart forgets the vote: the term and the vote are not stored, so a
    node that comes back is in term 0 and has not voted, whatever it did
    before, and grants the next vote request of a term it has already voted
    in to another candidate. Two candidates can then both get its vote. *)
Theorem restart_forgets_vote `{SI : ClusterNodeStorageInterface St} (config : ClusterNodeConfig) (st : St)
    (gt gv rc mrc : Z) (log : list LogEntry) (md : LogEntryMetaData) :
  load_log_entry_from_file st [dummy_entry] = Ret (rc, log) -> zlength log <= INT_MAX ->
  load_metadata_from_file st (mkLogEntryMetaData 0) = (mrc, md) ->
  exists n, ClusterNode_new config st gt gv = Ret n /\ cur_term_ n = 0 /\ voted_for_ n = -1 /\
    forall now rid m ts, type m = REQUEST_VOTE_REQUEST -> 0 <= RequestVoteRequest_term (get_vote_request m) ->
      vote_cast (TaskRuns now rid) (set_io_context_ (HandleMessage m :: ts) n) =
        Some (RequestVoteRequest_term (get_vote_request m), RequestVoteRequest_candidate_id (get_vote_request m)).
Proof.
  intros E L M.
  destruct (ClusterNode_new_spec config st gt gv rc log mrc md E L M) as (n & N & _ & _ & _ & _ & _ & _ & S & T & V & _).
  exists n. split; [done|]. split; [done|]. split; [done|]. intros now rid m ts Ty P.
  unfold vote_cast. cbn [io_context_ set_io_context_ state_ cur_term_ voted_for_]. rewrite S, T, V, (bool_decide_eq_true_2 _ Ty).
  cbn [bool_decide negb andb]. destruct (Z.ltb_spec 0 (RequestVoteRequest_term (get_vote_request m))); [done|].
  by rewrite (proj2 (Z.eqb_eq _ _)) by lia.
Qed.

(** The node that voted for 1 in term 5 votes for 2 after a restart. *)
Lemma restart_forgets_vote_witness :
  exists n, ClusterNode_new (mkClusterNodeConfig 7 0 3) (mkClusterNodeStorageMock 7 0) 0 0 = Ret n /\
    vote_cast (TaskRuns 0 0) (set_io_context_ [HandleMessage (demo_vote_request 5 2)] n) = Some (5, 2).
Proof.
  destruct (restart_forgets_vote (SI := ClusterNodeStorageMock_interface) (mkClusterNodeConfig 7 0 3) (mkClusterNodeStorageMock 7 0) 0 0 0 0 [dummy_entry]
    (mkLogEntryMetaData 0) eq_refl ltac:(vm_compute; discriminate) eq_refl) as (n & N & _ & _ & V).
  exists n. split; [exact N|]. apply (V 0 0 (demo_vote_request 5 2) []); [reflexivity|vm_compute; discriminate].
Defined.
