(* ===== verification/Network.v ===== *)
(** * A cluster of nodes

    The nodes of one partition on different servers, with the messages between
    them in flight: what a node asks its cluster manager to send is put in
    flight, from where it arrives once or is lost, in any order. Timers fire,
    closures run, clients send and leave, and the managers change on their own
    at any time; a node whose step faults stays as it is, so a crashed node is
    one that takes no further steps. A node may also be restarted: it is then
    built anew by its constructor from what its storage holds.

    This file has the steps of a cluster, the messages under way in it and the
    lemma for invariants of nodes and messages; [ClusterElection],
    [ClusterLog], [ClusterMatching], [ClusterReplicas], [ClusterProgress],
    [ClusterReplication] and [ClusterCatchUp] have the properties. *)

From S2P Require Import Prelude MessageQueue WireFormat FlowTypes FlowCodec FlowCodecFacts RaftMessage LogStorage ClusterManager ClientManager Configuration ClusterNode ClusterNodeFacts NodeElection NodeLog NodeTypes.

Local Open Scope Z_scope.

(** ** Counting *)

Definition tally {A : Type} (P : A -> bool) (l : list A) : Z := zlength (List.filter P l).

Lemma tally_nil {A : Type} (P : A -> bool) : tally P [] = 0.
Proof. done. Qed.

Lemma tally_cons {A : Type} (P : A -> bool) x l : tally P (x :: l) = (if P x then 1 else 0) + tally P l.
Proof. unfold tally, zlength. cbn [List.filter]. destruct (P x); cbn [length]; lia. Qed.

Lemma tally_app {A : Type} (P : A -> bool) l l' : tally P (l ++ l') = tally P l + tally P l'.
Proof. unfold tally, zlength. rewrite List.filter_app, length_app. lia. Qed.

Lemma tally_nonneg {A : Type} (P : A -> bool) l : 0 <= tally P l.
Proof. apply zlength_nonneg. Qed.

Lemma tally_perm {A : Type} (P : A -> bool) l l' : l ≡ₚ l' -> tally P l = tally P l'.
Proof. induction 1; rewrite ?tally_cons; lia. Qed.

#[export] Instance tally_Proper {A : Type} (P : A -> bool) : Proper (Permutation ==> eq) (tally P).
Proof. intros l l' E. by apply tally_perm. Qed.

Lemma tally_pos {A : Type} (P : A -> bool) l x : x ∈ l -> P x = true -> 1 <= tally P l.
Proof.
  intros X E. apply list_elem_of_split in X as (l1 & l2 & ->). rewrite tally_app, tally_cons, E.
  pose proof (tally_nonneg P l1). pose proof (tally_nonneg P l2). lia.
Qed.

Lemma tally_zero {A : Type} (P : A -> bool) l : (forall x, x ∈ l -> P x = false) -> tally P l = 0.
Proof.
  induction l as [|x l IH]; intros H; [done|]. rewrite tally_cons, H by (by left). apply IH. intros y Y. apply H. by right.
Qed.

Lemma tally_exists {A : Type} (P : A -> bool) l : 0 < tally P l -> exists x, x ∈ l /\ P x = true.
Proof.
  induction l as [|x l IH]; [done|]. rewrite tally_cons. intros H. destruct (P x) eqn:E; [exists x; split; [by left|done]|].
  destruct IH as (y & Y & Q); [lia|]. exists y. split; [by right|done].
Qed.

Lemma tally_le {A : Type} (P : A -> bool) l l' : l ⊆+ l' -> tally P l <= tally P l'.
Proof. intros [k ->]%submseteq_Permutation. rewrite tally_app. pose proof (tally_nonneg P k). lia. Qed.

Lemma alter_at {A : Type} (f : A -> A) (m : gmap Z A) i x : m !! i = Some x -> alter f i m = <[i := f x]> m.
Proof. intros E. rewrite <- (insert_id m i x E) at 1. by rewrite alter_insert_eq. Qed.

Lemma alter_missing {A : Type} (f : A -> A) (m : gmap Z A) i : m !! i = None -> alter f i m = m.
Proof.
  intros E. apply map_eq. intros j. destruct (decide (j = i)) as [->|Ne]; [|by rewrite lookup_alter_ne].
  by rewrite lookup_alter_eq, E.
Qed.

Section Network.
Context {St C K : Type}.
Context `{SI : ClusterNodeStorageInterface St, CI : ClusterManagerInterface C, KI : ClientManagerInterface K,
  RT : ProtobufRuntime} {CL : ClusterManagerLaws C}.
Abbreviation node := (ClusterNode St).
Abbreviation nstate := (node * Master C K)%type.

(** ** Clusters and their steps *)

Record cluster := mkCluster {
  cluster_nodes : gmap Z nstate;
  in_flight : list (Z * Message)
}.

Inductive cluster_event :=
  | NodeEvent (id : Z) (e : node_event)
  | Arrives (k : nat)
  | Lost (k : nat)
  | ClientSends (id : Z) (r : RaftMessage)
  | ClientLeaves (id client_id : Z)
  | ManagersMove (id : Z) (w : Master C K)
  | Restarts (id : Z) (storage : St) (garbage_time garbage_votes : Z) (w : Master C K).

(** The packets a request puts in flight: a broadcast goes to every other
    node. *)
Definition packets (self : Z) (ids : list Z) (o : outgoing) : list (Z * Message) :=
  match o with
  | ToNode id b => [(id, b)]
  | ToAll b => map (fun id => (id, b)) (List.filter (fun id => negb (id =? self)) ids)
  end.

Definition node_ids_of (ns : gmap Z nstate) : list Z := map fst (map_to_list ns).

(** What the client manager forwards. *)
Definition client_type (r : RaftMessage) : bool :=
  match type r with CLIENT_OPEN_QUEUE | CLIENT_PUT_MESSAGE | CLIENT_COMMIT_MESSAGE => true | _ => false end.

Definition post (b : Message) (s : nstate) : nstate := (message_handler b s.1, s.2).

Definition cluster_step (e : cluster_event) (cl : cluster) : cluster :=
  let '(mkCluster ns fl) := cl in
  match e with
  | NodeEvent id ev =>
      match ns !! id with
      | None => cl
      | Some (n, w) =>
          match node_step ev (n, w) with
          | Fault _ => cl
          | Ret (n', w') =>
              let out := drop (length (requested (cluster_manager_p_ w))) (requested (cluster_manager_p_ w')) in
              mkCluster (<[id := (n', w')]> ns) (fl ++ concat (map (packets id (node_ids_of ns)) out))
          end
      end
  | Arrives k =>
      match fl !! k with
      | None => cl
      | Some (id, b) => mkCluster (alter (post b) id ns) (take k fl ++ drop (S k) fl)
      end
  | Lost k => mkCluster ns (take k fl ++ drop (S k) fl)
  | ClientSends id r =>
      match serialize_as_message r with
      | Ret b => mkCluster (alter (post b) id ns) fl
      | Fault _ => cl
      end
  | ClientLeaves id client_id => mkCluster (alter (fun s => (consumer_disconnected client_id s.1, s.2)) id ns) fl
  | ManagersMove id w => mkCluster (alter (fun s => (s.1, w)) id ns) fl
  | Restarts id storage garbage_time garbage_votes w =>
      match ns !! id with
      | None => cl
      | Some (n, _) =>
          match ClusterNode_new (mkClusterNodeConfig (partition_id_ n) (node_id_ n) (total_nodes_ n)) storage
                  garbage_time garbage_votes with
          | Fault _ => cl
          | Ret n' => mkCluster (<[id := (n', w)]> ns) fl
          end
      end
  end.

Fixpoint cluster_run (es : list cluster_event) (cl : cluster) : cluster :=
  match es with
  | [] => cl
  | e :: es => cluster_run es (cluster_step e cl)
  end.

(** A step in which a node becomes leader: the term and the node. *)
Definition elected (e : cluster_event) (cl : cluster) : list (Z * Z) :=
  match e with
  | NodeEvent id ev =>
      match cluster_nodes cl !! id with
      | Some (n, w) =>
          match node_step ev (n, w) with
          | Ret (n', _) =>
              if negb (bool_decide (state_ n = LEADER)) && bool_decide (state_ n' = LEADER) then [(cur_term_ n', id)] else []
          | Fault _ => []
          end
      | None => []
      end
  | _ => []
  end.

Fixpoint elections (es : list cluster_event) (cl : cluster) : list (Z * Z) :=
  match es with
  | [] => []
  | e :: es => elected e cl ++ elections es (cluster_step e cl)
  end.

(** Random ids are 64-bit integers; clients send what can be sent. *)
Definition cluster_event_ok (e : cluster_event) : bool :=
  match e with
  | NodeEvent _ ev => event_ok ev
  | ClientSends _ r => sendable r && client_type r
  | _ => true
  end.

Definition restarts (e : cluster_event) : bool :=
  match e with Restarts _ _ _ _ _ => true | _ => false end.

(** Events of a run in which no node restarts. *)
Definition steady (e : cluster_event) : bool := cluster_event_ok e && negb (restarts e).

(** A node of a cluster of [N] as it is constructed. *)
Definition fresh_member (N id : Z) (n : node) : Prop :=
  node_id_ n = id /\ total_nodes_ n = N /\ 0 <= id < N /\ state_ n = CANDIDATE /\ cur_term_ n = 0 /\ voted_for_ n = -1 /\
  vote_delays_ n = O /\ io_context_ n = [] /\ node_ok n = true.

Definition fresh_cluster (N : Z) (cl : cluster) : Prop :=
  0 < N /\ in_flight cl = [] /\ forall id n w, cluster_nodes cl !! id = Some (n, w) -> fresh_member N id n.

(** ** What is under way: packets in flight and messages waiting in a node *)

Definition waiting (id : Z) (n : node) : list (Z * RaftMessage) :=
  omap (fun t => match t with HandleMessage m => Some (id, m) | HandleDisconnect _ => None end) (io_context_ n).

Definition all_waiting (ns : gmap Z nstate) : list (Z * RaftMessage) :=
  concat (map (fun x => waiting x.1 x.2.1) (map_to_list ns)).

Definition decoded (fl : list (Z * Message)) : list (Z * RaftMessage) :=
  map (fun x => (x.1, deserialize_from_message x.2)) fl.

Definition mail (cl : cluster) : list (Z * RaftMessage) := decoded (in_flight cl) ++ all_waiting (cluster_nodes cl).

Lemma all_waiting_insert id s (ns : gmap Z nstate) :
  all_waiting (<[id := s]> ns) ≡ₚ waiting id s.1 ++ all_waiting (delete id ns).
Proof.
  unfold all_waiting. rewrite <- insert_delete_eq. rewrite map_to_list_insert by apply lookup_delete_eq. done.
Qed.

Lemma all_waiting_lookup id s (ns : gmap Z nstate) :
  ns !! id = Some s -> all_waiting ns ≡ₚ waiting id s.1 ++ all_waiting (delete id ns).
Proof. intros E. rewrite <- all_waiting_insert. by rewrite insert_id. Qed.

Lemma waiting_post id b (s : nstate) :
  waiting id (post b s).1 = waiting id s.1 ++ [(id, deserialize_from_message b)].
Proof. unfold waiting, post. cbn [fst io_context_ message_handler set_io_context_]. by rewrite omap_app. Qed.

Lemma node_ids_of_spec (ns : gmap Z nstate) : NoDup (node_ids_of ns).
Proof. unfold node_ids_of. apply (NoDup_fst_map_to_list ns). Qed.

(** What the packets of a step deliver. *)
Definition deliveries (self : Z) (ids : list Z) (m : option Z * RaftMessage) : list (Z * RaftMessage) :=
  match m.1 with
  | Some id => [(id, m.2)]
  | None => map (fun id => (id, m.2)) (List.filter (fun id => negb (id =? self)) ids)
  end.

Lemma decoded_packets self ids out :
  decoded (concat (map (packets self ids) out)) = concat (map (deliveries self ids) (map received out)).
Proof.
  unfold decoded. rewrite concat_map, !map_map. f_equal. apply map_ext. intros [b|id b]; [|done]. cbn. by rewrite map_map.
Qed.

(** What a node step adds to the mail. *)
Definition added (id p : Z) (ids : list Z) (ms : list (option Z * RaftMessage)) : list (Z * RaftMessage) :=
  concat (map (deliveries id ids) (map (fun m => (m.1, set_partition_id p m.2)) ms)).

Lemma added_elem id p ids ms x : x ∈ added id p ids ms -> exists m, m ∈ ms /\ x.2 = set_partition_id p m.2.
Proof.
  unfold added. intros X. apply list_elem_of_In, in_concat in X as (l & L & X). apply in_map_iff in L as (y & <- & Y).
  apply in_map_iff in Y as (m & <- & Y). exists m. split; [by apply list_elem_of_In|].
  unfold deliveries in X. cbn in X. destruct (m.1).
  - destruct X as [<-|[]]. done.
  - apply in_map_iff in X as (i & <- & _). done.
Qed.

(** The mail before and after a node step. *)
Lemma mail_count (P : Z * RaftMessage -> bool) id s (ns : gmap Z nstate) fl :
  ns !! id = Some s ->
  tally P (mail (mkCluster ns fl)) = tally P (decoded fl) + tally P (waiting id s.1) + tally P (all_waiting (delete id ns)).
Proof. intros E. unfold mail. cbn [in_flight cluster_nodes]. rewrite tally_app, (all_waiting_lookup id s) by done. rewrite tally_app. lia. Qed.

Lemma mail_count_insert (P : Z * RaftMessage -> bool) id s' (ns : gmap Z nstate) fl fl' :
  tally P (mail (mkCluster (<[id := s']> ns) (fl ++ fl'))) =
  tally P (decoded fl) + tally P (decoded fl') + tally P (waiting id s'.1) + tally P (all_waiting (delete id ns)).
Proof. unfold mail, decoded. cbn. rewrite tally_app, map_app, tally_app, all_waiting_insert, tally_app. lia. Qed.

Lemma waiting_cons id m ts (n n' : node) :
  io_context_ n = HandleMessage m :: ts -> io_context_ n' = ts -> waiting id n = (id, m) :: waiting id n'.
Proof. intros E E'. unfold waiting. by rewrite E, E'. Qed.

Lemma waiting_left (P : Z * RaftMessage -> bool) id (n n' : node) :
  tasks_left n n' -> tally P (waiting id n') <= tally P (waiting id n).
Proof.
  unfold waiting. intros [->| ->]; [done|]. destruct (io_context_ n) as [|[m|c] ts]; cbn [omap list_omap tail]; [done| |done].
  rewrite tally_cons. case_match; lia.
Qed.

Lemma remove_perm {A : Type} (l : list A) k x : l !! k = Some x -> l ≡ₚ x :: (take k l ++ drop (S k) l).
Proof. intros E. rewrite <- (take_drop_middle l k x E) at 1. by rewrite Permutation_middle. Qed.

Lemma remove_submseteq {A : Type} (l : list A) k : take k l ++ drop (S k) l ⊆+ l.
Proof.
  destruct (l !! k) as [x|] eqn:E.
  - rewrite (remove_perm l k x E) at 3. by apply submseteq_cons.
  - apply lookup_ge_None_1 in E. rewrite take_ge, drop_ge by lia. by rewrite app_nil_r.
Qed.

Lemma decoded_less fl fl' P : fl' ⊆+ fl -> tally P (decoded fl') <= tally P (decoded fl).
Proof. intros L. apply tally_le. unfold decoded. apply fmap_submseteq. exact L. Qed.

Context {LW : ProtobufLaws RT}.

(** What clients send is in range. *)
Lemma client_message_ok r : sendable r = true -> client_type r = true -> message_ok r = true.
Proof.
  intros Se Ct. unfold client_type in Ct. unfold message_ok. destruct (type r) eqn:T; try discriminate Ct.
  - apply Z.leb_le. unfold sendable in Se. rewrite !andb_true_iff, Z.leb_le in Se. destruct Se as [_ Se].
    pose proof (FlowMessage_put_size (flow_message_ r)). unfold get_put_message_request. lia.
  - unfold sendable, FlowMessage_ints in Se. rewrite !andb_true_iff in Se. unfold get_commit_message_request, FlowMessage_client_commit_message.
    assert (Q : opt_all ClientCommitMessage_ints (FlowMessage_client_commit_message_ (flow_message_ r)) = true) by tauto.
    destruct (FlowMessage_client_commit_message_ (flow_message_ r)) as [x|]; [|done]. cbn in Q |- *.
    unfold ClientCommitMessage_ints in Q. apply andb_true_iff in Q as [Q _]. unfold ClientCommitMessage_message_id.
    by destruct (ClientCommitMessage_message_id_ x).
  - done.
Qed.

(** ** Invariants of nodes and messages

    [I] is to hold of every node, whatever waits in it, and [J] of every message
    under way; [Q] is what a step needs besides of a node, and [R] of the ids of the
    nodes, and both are assumed. *)

Section Invariant.
Context (I : Z -> node -> Prop) (J : Z * RaftMessage -> Prop) (Q : node -> Prop) (R : Z -> Prop).

Definition node_holds (id : Z) (n : node) : Prop := node_ok n = true /\ I id n /\ Forall J (waiting id n).

Definition cluster_holds (cl : cluster) : Prop :=
  (forall id n w, cluster_nodes cl !! id = Some (n, w) -> node_holds id n) /\
  Forall (fun x => message_ok x.2 = true /\ J x) (decoded (in_flight cl)).

Hypothesis I_tasks : forall id ts n, I id n -> I id (set_io_context_ ts n).
Lemma holds_insert id n w ns fl fl' :
  cluster_holds (mkCluster ns fl) -> node_holds id n -> Forall (fun x => message_ok x.2 = true /\ J x) (decoded fl') ->
  cluster_holds (mkCluster (<[id := (n, w)]> ns) fl').
Proof.
  intros [Hn _] N F. split; [|exact F]. intros i x y X. cbn [cluster_nodes] in X.
  apply lookup_insert_Some in X as [[<- [= <- <-]]|[_ X]]; [done|]. by eapply Hn.
Qed.

Lemma node_holds_task id t (n : node) :
  node_holds id n -> task_ok t = true -> (forall m, t = HandleMessage m -> J (id, m)) ->
  node_holds id (set_io_context_ (io_context_ n ++ [t]) n).
Proof.
  intros (O & H & F) T Jt. split_and!; [|by apply I_tasks|].
  - apply node_ok_spec in O as (O1 & O2 & O3 & O4 & O5 & O6). apply node_ok_spec. cbn. rewrite forallb_app, O6. cbn. by rewrite T.
  - unfold waiting in *. cbn [io_context_ set_io_context_]. rewrite omap_app. apply Forall_app. split; [done|].
    destruct t as [m|c]; cbn; [|constructor]. constructor; [by apply Jt|constructor].
Qed.

Lemma holds_task id t ns fl fl' :
  cluster_holds (mkCluster ns fl) -> task_ok t = true -> (forall m, t = HandleMessage m -> J (id, m)) ->
  Forall (fun x => message_ok x.2 = true /\ J x) (decoded fl') ->
  cluster_holds (mkCluster (alter (fun s => (set_io_context_ (io_context_ s.1 ++ [t]) s.1, s.2)) id ns) fl').
Proof.
  intros H T Jt F. destruct (ns !! id) as [[n w]|] eqn:E.
  - rewrite (alter_at _ _ _ _ E). cbn [fst snd]. apply (holds_insert _ _ _ _ fl); [done| |done].
    apply node_holds_task; [|done..]. by apply (proj1 H id n w).
  - rewrite (alter_missing _ _ _ E). split; [apply H|done].
Qed.

Lemma holds_removed fl k :
  Forall (fun x => message_ok x.2 = true /\ J x) (decoded fl) ->
  Forall (fun x => message_ok x.2 = true /\ J x) (decoded (take k fl ++ drop (S k) fl)).
Proof.
  unfold decoded. rewrite !Forall_forall. intros F x X. apply F. eapply elem_of_submseteq; [exact X|].
  apply fmap_submseteq, remove_submseteq.
Qed.

(** A step of a node, for a node and messages of which what is to hold is
    known. *)
Lemma holds_node_step id ev n n' (w w' : Master C K) ns fl :
  event_ok ev = true -> cluster_holds (mkCluster ns fl) -> ns !! id = Some (n, w) -> node_step ev (n, w) = Ret (n', w') ->
  (forall ms, step_sends ev n n' ms -> I id n' /\ Forall J (added id (partition_id_ n) (node_ids_of ns) ms)) ->
  cluster_holds (cluster_step (NodeEvent id ev) (mkCluster ns fl)).
Proof.
  intros Ok H E Sp Step. cbn [cluster_step]. rewrite E, Sp. pose proof (proj1 H id n w E) as (O & _ & Wt).
  destruct (node_step_received ev n n' w w' O Ok Sp) as (out & ms & Rq & Ss & _ & Rc & Mo). rewrite Rq, drop_app_length.
  destruct (Step ms Ss) as [H' Ja]. apply (holds_insert _ _ _ _ fl); [done| |].
  - split_and!; [by eapply node_step_ok|done|]. pose proof (node_step_vote _ _ _ _ _ Sp) as [T _].
    unfold waiting in *. destruct T as [->| ->]; [done|]. destruct (io_context_ n) as [|[m|c] ts]; cbn in *; [done| |done].
    by inversion Wt.
  - unfold decoded at 1. rewrite map_app. apply Forall_app. split; [apply H|].
    fold (decoded (concat (map (packets id (node_ids_of ns)) out))). rewrite decoded_packets, Rc.
    fold (added id (partition_id_ n) (node_ids_of ns) ms). rewrite Forall_forall in Ja. rewrite Forall_forall in Mo. apply Forall_forall. intros x X. split; [|by apply Ja].
    apply added_elem in X as (m & X & ->). by apply Mo.
Qed.

(** Steps in which no node runs. *)
Lemma cluster_step_holds_quiet e cl :
  steady e = true -> (forall id ev, e <> NodeEvent id ev) -> (forall id r, e = ClientSends id r -> J (id, r)) ->
  cluster_holds cl -> cluster_holds (cluster_step e cl).
Proof.
  destruct cl as [ns fl]. intros [Ok Re]%andb_true_iff Ne Cl H.
  destruct e as [id ev|k|k|id r|id c|id w'|id st gt gv w']; [by destruct (Ne id ev)|..].
  - cbn [cluster_step]. destruct (fl !! k) as [[id b]|] eqn:E; [|done].
    assert (X : message_ok (deserialize_from_message b) = true /\ J (id, deserialize_from_message b)).
    { destruct H as [_ F]. rewrite Forall_forall in F. apply (F (id, deserialize_from_message b)). unfold decoded.
      apply list_elem_of_In, in_map_iff. exists (id, b). split; [done|]. apply list_elem_of_In. exact (list_elem_of_lookup_2 _ _ _ E). }
    apply (holds_task id (HandleMessage (deserialize_from_message b)) ns fl); [done|apply X|intros m [= <-]; apply X|].
    apply holds_removed, H.
  - split; [apply H|]. apply holds_removed, H.
  - cbn [cluster_step]. destruct (serialize_as_message r) as [b|] eqn:Sr; [|done]. cbn in Ok.
    apply andb_true_iff in Ok as [Se Ct]. pose proof (serialized_received _ _ Se Sr) as D.
    apply (holds_task id (HandleMessage (deserialize_from_message b)) ns fl); [done|..].
    + rewrite D. by apply client_message_ok.
    + intros m [= <-]. rewrite D. by apply Cl.
    + apply H.
  - apply (holds_task id (HandleDisconnect c) ns fl); [done|done|done|apply H].
  - cbn [cluster_step]. destruct (ns !! id) as [[n w]|] eqn:E; [|by rewrite (alter_missing _ _ _ E)].
    rewrite (alter_at _ _ _ _ E). apply (holds_insert _ _ _ _ fl); [done|by apply (proj1 H id n w)|apply H].
  - done.
Qed.

Hypothesis I_step : forall id e n n' (w w' : Master C K) ms ids,
  node_holds id n -> Q n -> Forall R (id :: ids) -> event_ok e = true -> node_step e (n, w) = Ret (n', w') -> step_sends e n n' ms ->
  I id n' /\ Forall J (added id (partition_id_ n) ids ms).

Lemma cluster_step_holds e cl :
  steady e = true -> (forall id r, e = ClientSends id r -> J (id, r)) ->
  (forall id n w, cluster_nodes cl !! id = Some (n, w) -> Q n /\ R id) -> cluster_holds cl -> cluster_holds (cluster_step e cl).
Proof.
  intros Ok Cl Qn H. destruct e as [id ev|k|k|id r|id c|id w'|id st gt gv w']; [|by apply cluster_step_holds_quiet..].
  apply andb_true_iff in Ok as [Ok _]. destruct cl as [ns fl]. cbn [cluster_nodes] in Qn.
  destruct (ns !! id) as [[n w]|] eqn:E; [|cbn [cluster_step]; by rewrite E].
  destruct (node_step ev (n, w)) as [[n' w']|] eqn:Sp; [|cbn [cluster_step]; by rewrite E, Sp].
  apply (holds_node_step id ev n n' w w'); [done..|]. intros ms Ss.
  apply (I_step id ev n n' w w' ms (node_ids_of ns)); try done; [by apply (proj1 H id n w)|by apply (Qn id n w)|].
  constructor; [by apply (Qn id n w)|]. apply Forall_forall. intros i X. unfold node_ids_of in X.
  apply list_elem_of_In, in_map_iff in X as ([i' [n1 w1]] & <- & X). apply list_elem_of_In, elem_of_map_to_list in X.
  by apply (Qn i' n1 w1).
Qed.
End Invariant.
End Network.

(** ** A cluster of three *)

(** A cluster of three nodes of partition 7, with in-memory storage and real
    managers. *)
Definition demo_member (id : Z) : ClusterNode ClusterNodeStorageMock :=
  match ClusterNode_new (mkClusterNodeConfig 7 id 3) (mkClusterNodeStorageMock 7 id) 0 0 with
  | Ret n => n
  | Fault _ => demo_node CANDIDATE 0 (-1) [] []
  end.

Definition demo_cluster : cluster (St := ClusterNodeStorageMock) (C := ClusterManager nat) (K := ClientManager) :=
  mkCluster {[ 0 := (demo_member 0, demo_master); 1 := (demo_member 1, demo_master); 2 := (demo_member 2, demo_master) ]} [].

Abbreviation demo_event := (cluster_event (St := ClusterNodeStorageMock) (C := ClusterManager nat) (K := ClientManager)).

Definition demo_task (id : Z) : demo_event := NodeEvent id (TaskRuns 0 (100 + id)).

(** Node 0 asks for votes and gets that of node 1. *)
Definition demo_election : list demo_event :=
  [NodeEvent 0 (VoteTimerFires 0); NodeEvent 0 VoteDelay; Arrives 1; demo_task 1; Arrives 1; demo_task 0].

Lemma demo_member_fresh id : In id [0; 1; 2] -> fresh_member 3 id (demo_member id).
Proof. cbn. intros [<-|[<-|[<-|[]]]]; split_and!; vm_compute; (reflexivity || discriminate). Qed.

Lemma demo_cluster_fresh : fresh_cluster 3 demo_cluster.
Proof.
  split; [lia|]. split; [reflexivity|]. intros id n w L. unfold demo_cluster in L. cbn [cluster_nodes] in L.
  apply lookup_insert_Some in L as [[<- [= <- _]]|[_ L]]; [apply demo_member_fresh; cbn; auto|].
  apply lookup_insert_Some in L as [[<- [= <- _]]|[_ L]]; [apply demo_member_fresh; cbn; auto|].
  apply lookup_singleton_Some in L as [<- [= <- _]]. apply demo_member_fresh. cbn. auto.
Qed.

