(* ===== verification/ClusterElection.v ===== *)
(** * Elections in a cluster

    Election safety: no two nodes of a cluster are elected in the same term, as
    long as no node restarts. The invariant counts votes: those cast, those under
    way and those counted by a candidate. *)

From S2P Require Import Prelude MessageQueue WireFormat FlowTypes FlowCodec FlowCodecFacts RaftMessage LogStorage ClusterManager ClientManager Configuration ClusterNode ClusterNodeFacts NodeElection NodeLog NodeTypes Network.

Local Open Scope Z_scope.

Section Election.
Context {St C K : Type}.
Context `{SI : ClusterNodeStorageInterface St, CI : ClusterManagerInterface C, KI : ClientManagerInterface K,
  RT : ProtobufRuntime} {CL : ClusterManagerLaws C}.
Abbreviation node := (ClusterNode St).
Abbreviation nstate := (node * Master C K)%type.

(** A vote request of candidate [c] for term [t] addressed to [d]. *)
Definition is_request (d t c : Z) (x : Z * RaftMessage) : bool :=
  (x.1 =? d) && bool_decide (type x.2 = REQUEST_VOTE_REQUEST) &&
  (RequestVoteRequest_term (get_vote_request x.2) =? t) && (RequestVoteRequest_candidate_id (get_vote_request x.2) =? c).

(** A granted vote for term [t] addressed to [c]. *)
Definition is_grant (c t : Z) (x : Z * RaftMessage) : bool :=
  (x.1 =? c) && bool_decide (type x.2 = REQUEST_VOTE_RESPONSE) &&
  (RequestVoteResponse_vote_result_term_granted (get_vote_response x.2) =? 1) &&
  (RequestVoteResponse_term (get_vote_response x.2) =? t).

(** ** What a step does to the election *)

(** A message that neither asks for a vote nor grants one. *)
Definition silent (r : RaftMessage) : bool :=
  negb (bool_decide (type r = REQUEST_VOTE_REQUEST)) &&
  negb (bool_decide (type r = REQUEST_VOTE_RESPONSE) &&
        (RequestVoteResponse_vote_result_term_granted (get_vote_response r) =? 1)).

Inductive election_step (n n' : node) : list (option Z * RaftMessage) -> Prop :=
  | election_quiet ms :
      tasks_left n n' -> vote_kept n n' ->
      (cur_term_ n' = cur_term_ n -> votes_collected_ n' = votes_collected_ n) ->
      (vote_delays_ n' <> O -> voted_for_ n' = -1 -> votes_collected_ n' = 0 \/
        vote_delays_ n <> O /\ voted_for_ n = -1 /\ votes_collected_ n' = votes_collected_ n) ->
      (state_ n' = LEADER -> state_ n = LEADER) ->
      Forall (fun m => silent m.2 = true) ms -> election_step n n' ms
  | election_counted m ts ms :
      io_context_ n = HandleMessage m :: ts -> io_context_ n' = ts -> type m = REQUEST_VOTE_RESPONSE ->
      RequestVoteResponse_vote_result_term_granted (get_vote_response m) = 1 ->
      let t := RequestVoteResponse_term (get_vote_response m) in
      cur_term_ n <= t -> cur_term_ n' = cur_term_ n \/ cur_term_ n' = t ->
      voted_for_ n' = voted_for_ n -> votes_collected_ n' = votes_collected_ n + 1 ->
      (state_ n' = LEADER -> total_nodes_ n ÷ 2 < votes_collected_ n') ->
      Forall (fun m => silent m.2 = true) ms -> election_step n n' ms
  | election_granted m ts :
      io_context_ n = HandleMessage m :: ts -> io_context_ n' = ts -> type m = REQUEST_VOTE_REQUEST ->
      let t := RequestVoteRequest_term (get_vote_request m) in
      let c := RequestVoteRequest_candidate_id (get_vote_request m) in
      cur_term_ n <= t -> cur_term_ n' = t -> voted_for_ n' = c ->
      (t = cur_term_ n -> voted_for_ n = -1 \/ voted_for_ n = c) ->
      (state_ n' = LEADER -> state_ n = LEADER) -> election_step n n' [(Some c, vote_response t 1)]
  | election_asked x :
      io_context_ n' = io_context_ n -> voted_for_ n = -1 -> vote_delays_ n <> O ->
      cur_term_ n' = cur_term_ n -> voted_for_ n' = node_id_ n -> votes_collected_ n' = votes_collected_ n + 1 ->
      state_ n' = state_ n -> election_step n n' [(None, loadVoteRequest (vote_request n x) RaftMessage_new)].

Lemma handler_keeps_tally now rid m (n n' : node) (w w' : Master C K) :
  type m <> REQUEST_VOTE_REQUEST -> type m <> REQUEST_VOTE_RESPONSE ->
  local_message_handler now rid m (n, w) = Ret (n', w') ->
  votes_collected_ n' = votes_collected_ n /\ vote_delays_ n' = vote_delays_ n.
Proof.
  intros T1 T2. unfold local_message_handler. destruct (type m); intros H; try done; try (by injection H as <- <-).
  - apply handle_append_request_cases in H. destruct (accept_leader_frame now (get_append_request m) n) as (st & E & _).
    destruct H as [| |n1 w1 n2 x w2 _ _ F A _ _]; [done|by rewrite E|].
    apply follow_leader_commit_frame in F as ((? & ? & ? & ->) & _). apply append_log_entries_frame in A as (log & _ & ->).
    by rewrite E.
  - apply handle_append_response_cases in H as (n1 & w1 & R & U). apply trigger_entry_update_frame in U as (p & x & ->).
    destruct R as [q n1 w1 y _ A|q _ _|q y _ _]; [|done..]. by apply advance_commit_frame in A as ((? & ? & ? & ->) & _).
  - unfold handle_put_message in H. destruct (negb _) in H; [by injection H as <- <-|].
    apply add_log_entry_frame in H as (p & x & ->). done.
  - unfold handle_commit_message in H. destruct (negb _) in H; [by injection H as <- <-|].
    apply add_log_entry_frame in H as (p & x & ->). done.
  - apply open_queue_queue in H as [[q ->] _]. done.
Qed.

Lemma no_vote_log (n : node) ms : Forall (log_message n) ms -> Forall (fun m => silent m.2 = true) ms.
Proof. intros F. eapply Forall_impl; [exact F|]. intros [f m] (_ & N1 & N2). unfold silent. by rewrite !bool_decide_eq_false_2. Qed.

Lemma no_vote_sends e (n n' : node) ms : step_sends e n n' ms -> vote_cast e n = None -> Forall (fun m => silent m.2 = true) ms.
Proof.
  intros [ms' _ F|now rid m ts g Ev Q Ty t c V'|x E V' La] V; [by eapply no_vote_log| |congruence].
  destruct g; [congruence|]. by repeat constructor.
Qed.

(** Steps that leave the tally alone. *)
Lemma election_same e (n n' : node) ms :
  step_sends e n n' ms -> vote_cast e n = None -> tasks_left n n' -> vote_kept n n' ->
  votes_collected_ n' = votes_collected_ n -> (vote_delays_ n' <> O -> vote_delays_ n <> O) ->
  voted_for_ n' = voted_for_ n -> (state_ n' = LEADER -> state_ n = LEADER) -> election_step n n' ms.
Proof.
  intros D V T Kp Vc Vd Vf L. apply election_quiet; try done.
  - intros D' F'. right. rewrite <- Vf, Vc. auto.
  - by eapply no_vote_sends.
Qed.

(** A step that casts no vote, when it handles a message. *)
Lemma handler_election now rid m ts (n n' : node) (w w' : Master C K) ms :
  node_ok n = true -> io_context_ n = HandleMessage m :: ts -> vote_cast (TaskRuns now rid) n = None ->
  local_message_handler now rid m (set_io_context_ ts n, w) = Ret (n', w') ->
  step_sends (TaskRuns now rid) n n' ms -> tasks_left n n' -> vote_kept n n' -> election_step n n' ms.
Proof.
  intros N IO V H D T Kp. destruct (decide (type m = REQUEST_VOTE_REQUEST)) as [Ty|Ty].
  { unfold local_message_handler in H. rewrite Ty in H. apply handle_vote_request_cases in H.
    destruct H as [w1 G Se|n1 L G1 G|n1 w1 L G Se].
    - by apply (election_same (TaskRuns now rid)).
    - apply election_quiet; try done; [destruct G as [[-> _]|[-> G]]; [done|intros X; exfalso; cbn in *; lia]| |].
      + destruct G as [[-> _]|[-> G]]; [by right|by left].
      + by eapply no_vote_sends.
    - exfalso. unfold vote_cast in V. rewrite IO, (bool_decide_eq_true_2 _ Ty), (bool_decide_eq_false_2 _ L) in V. cbn in V.
      cbn in G. replace (_ || _) with true in V; [done|]. symmetry.
      rewrite orb_true_iff, andb_true_iff, orb_true_iff, !Z.eqb_eq, Z.ltb_lt. destruct G as [(_ & G)|[_ G]]; [by right|by left]. }
  destruct (decide (type m = REQUEST_VOTE_RESPONSE)) as [Tr|Tr].
  { unfold local_message_handler in H. rewrite Tr in H. apply obind_ret in H as (n1 & R & H). injection H as -> <-.
    apply handle_vote_response_cases in R as [->|(Ca & Te & G & R)].
    { by apply (election_same (TaskRuns now rid)). }
    apply node_ok_spec in N as (_ & _ & _ & _ & _ & N). rewrite IO in N. cbn in N. apply andb_true_iff in N as [N _].
    unfold message_ok in N. rewrite Tr in N. rewrite andb_true_iff, orb_true_iff, !Z.eqb_eq in N. destruct N as [_ [N|N]]; [done|].
    rewrite N in R. cbn in R. apply (election_counted n n' m ts ms); try done.
    - by destruct R as [[-> _]|[-> _]].
    - destruct R as [[-> _]|[-> _]]; [by left|by right].
    - by destruct R as [[-> _]|[-> _]].
    - by destruct R as [[-> _]|[-> _]].
    - destruct R as [[-> R]|[-> R]]; cbn in *; [intros X; congruence|done].
    - by eapply no_vote_sends. }
  pose proof (handler_keeps_vote _ _ _ _ _ _ _ Ty H) as [K1 K2].
  pose proof (handler_keeps_tally _ _ _ _ _ _ _ Ty Tr H) as [K3 K4].
  pose proof (handler_keeps_follower _ _ _ _ _ _ _ Tr H) as K5. cbn in *.
  apply (election_same (TaskRuns now rid)); try done. by rewrite K4.
Qed.

Lemma node_step_election e (n n' : node) (w w' : Master C K) ms :
  node_ok n = true -> node_step e (n, w) = Ret (n', w') -> step_sends e n n' ms -> election_step n n' ms.
Proof.
  intros N H D. pose proof (node_step_vote _ _ _ _ _ H) as [T V]. destruct (vote_cast e n) as [[t c]|] eqn:VC.
  - destruct V as (V1 & V2 & V3 & V4 & V5). destruct D as [ms V' _|now rid m ts g -> Q Ty t' c' V'|x E V' La]; [congruence| |].
    + destruct g; [|congruence]. subst t' c'. assert (X : (t, c) = (RequestVoteRequest_term (get_vote_request m),
        RequestVoteRequest_candidate_id (get_vote_request m))) by congruence. injection X as -> ->.
      unfold node_step, run_posted_task in H. rewrite Q in H. pose proof H as H0.
      unfold local_message_handler in H. rewrite Ty in H. apply handle_vote_request_cases in H.
      apply (vote_request_cast now rid m ts n n' w w' Q Ty) in H as [IO _].
      apply (election_granted n n' m ts); try done.
      intros L. assert (Tn : type m <> REQUEST_VOTE_RESPONSE) by congruence. exact (handler_keeps_follower _ _ _ _ _ _ _ Tn H0 L).
    + subst e. unfold node_step in H. unfold vote_cast in VC. destruct (vote_delays_ n) eqn:Vd; [done|].
      destruct (voted_for_ n =? -1) eqn:Vf; [|done]. apply Z.eqb_eq in Vf.
      apply on_vote_delay_cases in H as [(_ & _ & X)|(y & E & _)]; [done|].
      apply election_asked; rewrite ?E; try done. by rewrite Vd.
  - unfold node_step in H. destruct e as [now rid| |now| |].
    + unfold run_posted_task in H. destruct (io_context_ n) as [|[m|id] ts] eqn:IO.
      * injection H as <- <-. by apply (election_same (TaskRuns now rid)).
      * by eapply handler_election.
      * apply handle_disconnect_queue in H as [[q ->] _]. by apply (election_same (TaskRuns now rid)).
    + destruct (heartbeat_timer_ n); [|injection H as <- <-; by apply (election_same HeartbeatTimer)].
      apply on_heartbeat_timer_node in H as (m & ->). by apply (election_same HeartbeatTimer).
    + destruct (vote_timer_ n); [|injection H as <- <-; by apply (election_same (VoteTimerFires now))].
      apply obind_ret in H as (n1 & R & H). injection H as -> <-.
      apply on_vote_timer_cases in R as [[-> R]|[-> R]]; [by apply (election_same (VoteTimerFires now))|].
      apply election_quiet; cbn; try done; [lia|by left|].
      by eapply no_vote_sends.
    + destruct (vote_delays_ n) eqn:Vd; [injection H as <- <-; by apply (election_same VoteDelay)|].
      apply on_vote_delay_cases in H as [(-> & _ & X)|(y & E & X & _)].
      * apply (election_same VoteDelay); try done. cbn. by rewrite Vd.
      * unfold vote_cast in VC. rewrite Vd in VC. by rewrite (proj2 (Z.eqb_eq _ _) X) in VC.
    + injection H as <- <-. apply (election_same StatsTimer); try done; by destruct (stats_timer_ n).
Qed.

(** ** The invariant of the election

    [V] are the votes cast so far: voter, term, candidate. *)

Definition cast (V : list (Z * Z * Z)) (v t c : Z) : Z := if bool_decide ((v, t, c) ∈ V) then 1 else 0.

Definition voters (V : list (Z * Z * Z)) (t c : Z) : Z := tally (fun x => (x.1.2 =? t) && (x.2 =? c)) V.

Lemma cast_elem V v t c : (v, t, c) ∈ V -> cast V v t c = 1.
Proof. intros H. unfold cast. by rewrite bool_decide_eq_true_2. Qed.

Lemma cast_range V v t c : 0 <= cast V v t c <= 1.
Proof. unfold cast. case_bool_decide; lia. Qed.

Lemma cast_pos V v t c : 0 < cast V v t c -> (v, t, c) ∈ V.
Proof. unfold cast. case_bool_decide; [done|lia]. Qed.

Lemma cast_other V x v t c : (v, t, c) <> x -> cast (x :: V) v t c = cast V v t c.
Proof. intros H. unfold cast. rewrite (bool_decide_ext _ ((v, t, c) ∈ V)); [done|]. rewrite elem_of_cons. tauto. Qed.

Lemma voters_elem V v t c : (v, t, c) ∈ V -> 1 <= voters V t c.
Proof. intros H. eapply tally_pos; [exact H|]. cbn. by rewrite !Z.eqb_refl. Qed.

Lemma voters_exists V t c : 0 < voters V t c -> exists v, (v, t, c) ∈ V.
Proof. intros ([[v t'] c'] & H & E)%tally_exists. cbn in E. to_prop. subst. eauto. Qed.

Lemma voters_cons V v t c t' c' : voters ((v, t, c) :: V) t' c' = (if (t =? t') && (c =? c') then 1 else 0) + voters V t' c'.
Proof. unfold voters. rewrite tally_cons. cbn. done. Qed.

Record election_inv (N : Z) (ns : gmap Z nstate) (M : list (Z * RaftMessage)) (V : list (Z * Z * Z)) (W : list (Z * Z)) : Prop := {
  inv_node id n w : ns !! id = Some (n, w) -> node_id_ n = id /\ total_nodes_ n = N /\ 0 <= id < N /\ node_ok n = true;
  (** votes lie in past terms, or are the recorded one *)
  inv_vote v t c : (v, t, c) ∈ V -> c <> -1 /\
    exists n w, ns !! v = Some (n, w) /\ t <= cur_term_ n /\ (t = cur_term_ n -> voted_for_ n = c);
  inv_nodup : NoDup V;
  inv_one v t c c' : (v, t, c) ∈ V -> (v, t, c') ∈ V -> c = c';
  (** one request to each node, from a candidate that voted for itself; it is
      answered at most once *)
  inv_requests d t c : tally (is_request d t c) M + cast V d t c <= cast V c t c;
  inv_grants c t : tally (is_grant c t) M <= voters V t c;
  (** the votes a candidate counted and those under way are different votes *)
  inv_tally c n w : ns !! c = Some (n, w) -> (c, cur_term_ n, c) ∈ V ->
    tally (is_grant c (cur_term_ n)) M + votes_collected_ n <= voters V (cur_term_ n) c;
  inv_delays c n w : ns !! c = Some (n, w) -> vote_delays_ n <> O -> voted_for_ n = -1 -> votes_collected_ n = 0;
  inv_wins t c : (t, c) ∈ W -> N ÷ 2 < voters V t c
}.

(** A candidate for which someone voted has voted for itself. *)
Lemma inv_asked N ns M V W v t c : election_inv N ns M V W -> (v, t, c) ∈ V -> (c, t, c) ∈ V.
Proof.
  intros I H%cast_elem. apply cast_pos. pose proof (inv_requests _ _ _ _ _ I v t c) as R.
  pose proof (tally_nonneg (is_request v t c) M). lia.
Qed.

Lemma inv_granted N ns M V W t c : election_inv N ns M V W -> 0 < voters V t c -> (c, t, c) ∈ V.
Proof. intros I (v & H)%voters_exists. by eapply inv_asked. Qed.

(** The node [id] takes a step from [n] to [n']. *)
Section Steps.
Context (N : Z) (ns : gmap Z nstate) (M M' : list (Z * RaftMessage)) (V : list (Z * Z * Z)) (W : list (Z * Z)).
Context (id : Z) (n n' : node) (w w' : Master C K).
Hypothesis I : election_inv N ns M V W.
Hypothesis E : ns !! id = Some (n, w).
Hypothesis Hid : node_id_ n' = node_id_ n.
Hypothesis Htotal : total_nodes_ n' = total_nodes_ n.
Hypothesis Hok : node_ok n' = true.
Hypothesis Hterm : cur_term_ n <= cur_term_ n'.

Lemma step_node i x y : <[id := (n', w')]> ns !! i = Some (x, y) ->
  node_id_ x = i /\ total_nodes_ x = N /\ 0 <= i < N /\ node_ok x = true.
Proof.
  intros H. apply lookup_insert_Some in H as [[<- [= <- <-]]|[_ H]]; [|by apply (inv_node _ _ _ _ _ I) in H].
  pose proof (inv_node _ _ _ _ _ I _ _ _ E) as (A1 & A2 & A3 & A4). by rewrite Hid, Htotal.
Qed.

(** Votes cast before the step. *)
Lemma step_old_vote v t c :
  (forall t0 c0, (id, t0, c0) ∈ V -> t0 = cur_term_ n' -> voted_for_ n' = c0) -> (v, t, c) ∈ V -> c <> -1 /\
  exists x y, <[id := (n', w')]> ns !! v = Some (x, y) /\ t <= cur_term_ x /\ (t = cur_term_ x -> voted_for_ x = c).
Proof.
  intros Kp H. pose proof (inv_vote _ _ _ _ _ I _ _ _ H) as (Nc & x & y & L & Le & Q). split; [done|].
  destruct (decide (v = id)) as [->|Nv].
  - rewrite E in L. injection L as <- <-. exists n', w'. rewrite lookup_insert_eq. split; [done|]. split; [lia|]. by apply Kp.
  - exists x, y. by rewrite lookup_insert_ne.
Qed.

(** A vote of the node in its new term was cast in this term. *)
Lemma step_vote_term t c : (id, t, c) ∈ V -> t <= cur_term_ n /\ (t = cur_term_ n -> voted_for_ n = c) /\ c <> -1.
Proof.
  intros H. pose proof (inv_vote _ _ _ _ _ I _ _ _ H) as (Nc & x & y & L & Le & Q). rewrite E in L. by injection L as <- <-.
Qed.

Lemma step_quiet :
  vote_kept n n' -> (cur_term_ n' = cur_term_ n -> votes_collected_ n' = votes_collected_ n) ->
  (vote_delays_ n' <> O -> voted_for_ n' = -1 -> votes_collected_ n' = 0 \/
    vote_delays_ n <> O /\ voted_for_ n = -1 /\ votes_collected_ n' = votes_collected_ n) ->
  (forall d t c, tally (is_request d t c) M' <= tally (is_request d t c) M) ->
  (forall c t, tally (is_grant c t) M' <= tally (is_grant c t) M) ->
  election_inv N (<[id := (n', w')]> ns) M' V W.
Proof.
  intros Kp Ta De Rq Gr. split.
  - exact step_node.
  - intros v t c H. apply step_old_vote; [|done]. intros t0 c0 X%step_vote_term ->. destruct X as (X1 & X2 & _).
    destruct Kp as [[K1 K2]|K1]; [rewrite K2; by apply X2|lia].
  - apply I.
  - apply I.
  - intros d t c. pose proof (inv_requests _ _ _ _ _ I d t c). specialize (Rq d t c). lia.
  - intros c t. pose proof (inv_grants _ _ _ _ _ I c t). specialize (Gr c t). lia.
  - intros c x y L H. specialize (Gr c (cur_term_ x)). apply lookup_insert_Some in L as [[<- [= <- <-]]|[Ne L]].
    + pose proof (step_vote_term _ _ H) as (X & _). assert (T : cur_term_ n' = cur_term_ n) by lia.
      rewrite (Ta T). rewrite T in H, Gr |- *. pose proof (inv_tally _ _ _ _ _ I _ _ _ E H). lia.
    + pose proof (inv_tally _ _ _ _ _ I _ _ _ L H). lia.
  - intros c x y L. apply lookup_insert_Some in L as [[<- [= <- <-]]|[Ne L]]; [|by apply (inv_delays _ _ _ _ _ I c x y)].
    intros D F. destruct (De D F) as [->|(D' & F' & ->)]; [done|]. by apply (inv_delays _ _ _ _ _ I id n w).
  - apply I.
Qed.

Lemma step_counted t :
  tally (is_grant id t) M' + 1 <= tally (is_grant id t) M ->
  cur_term_ n <= t -> cur_term_ n' = cur_term_ n \/ cur_term_ n' = t -> voted_for_ n' = voted_for_ n ->
  votes_collected_ n' = votes_collected_ n + 1 ->
  (forall d t c, tally (is_request d t c) M' <= tally (is_request d t c) M) ->
  (forall c t, tally (is_grant c t) M' <= tally (is_grant c t) M) ->
  election_inv N (<[id := (n', w')]> ns) M' V W /\ votes_collected_ n' <= voters V (cur_term_ n') id.
Proof.
  intros G Le Te Vf Vc Rq Gr.
  assert (A : (id, t, id) ∈ V).
  { eapply inv_granted; [exact I|]. pose proof (inv_grants _ _ _ _ _ I id t). pose proof (tally_nonneg (is_grant id t) M'). lia. }
  pose proof (step_vote_term _ _ A) as (A1 & A2 & A3). assert (T : t = cur_term_ n) by lia. specialize (A2 T).
  assert (T' : cur_term_ n' = cur_term_ n) by lia. subst t.
  pose proof (inv_tally _ _ _ _ _ I _ _ _ E A) as Ti. pose proof (tally_nonneg (is_grant id (cur_term_ n)) M').
  split; [|rewrite T'; lia]. split.
  - exact step_node.
  - intros v t c H'. apply step_old_vote; [|done]. intros t0 c0 X%step_vote_term ->. rewrite Vf. apply X. exact T'.
  - apply I.
  - apply I.
  - intros d t c. pose proof (inv_requests _ _ _ _ _ I d t c). specialize (Rq d t c). lia.
  - intros c t. pose proof (inv_grants _ _ _ _ _ I c t). specialize (Gr c t). lia.
  - intros c x y L H'. apply lookup_insert_Some in L as [[<- [= <- <-]]|[Ne L]].
    + rewrite T' in H' |- *. lia.
    + specialize (Gr c (cur_term_ x)). pose proof (inv_tally _ _ _ _ _ I _ _ _ L H'). lia.
  - intros c x y L. apply lookup_insert_Some in L as [[<- [= <- <-]]|[Ne L]]; [|by apply (inv_delays _ _ _ _ _ I c x y)].
    intros _ F. exfalso. rewrite Vf, A2 in F. done.
  - apply I.
Qed.

Lemma step_granted t c :
  cur_term_ n <= t -> cur_term_ n' = t -> voted_for_ n' = c -> (t = cur_term_ n -> voted_for_ n = -1 \/ voted_for_ n = c) ->
  tally (is_request id t c) M' + 1 <= tally (is_request id t c) M ->
  (forall d t c, tally (is_request d t c) M' <= tally (is_request d t c) M) ->
  tally (is_grant c t) M' <= tally (is_grant c t) M + 1 ->
  (forall c' t', (c', t') <> (c, t) -> tally (is_grant c' t') M' <= tally (is_grant c' t') M) ->
  election_inv N (<[id := (n', w')]> ns) M' ((id, t, c) :: V) W.
Proof.
  intros Le T' V' Vt Rq1 Rq Gr1 Gr.
  pose proof (inv_requests _ _ _ _ _ I id t c) as R0. pose proof (tally_nonneg (is_request id t c) M') as P0.
  pose proof (cast_range V id t c). pose proof (cast_range V c t c).
  assert (A : (c, t, c) ∈ V) by (apply cast_pos; lia).
  assert (Fresh : (id, t, c) ∉ V) by (intros X%cast_elem; lia).
  assert (Nc : c <> id) by (intros ->; done).
  assert (Nm : c <> -1) by (by apply (inv_vote _ _ _ _ _ I) in A as [A _]).
  assert (Cc : forall d t0, cast ((id, t, c) :: V) d t0 d = cast V d t0 d) by (intros; apply cast_other; congruence).
  assert (Old : forall t0 c0, (id, t0, c0) ∈ V -> t0 = t -> c0 = c).
  { intros t0 c0 X%step_vote_term ->. destruct X as (X1 & X2 & X3). assert (X : t = cur_term_ n) by lia.
    specialize (X2 X). destruct (Vt X); congruence. }
  split.
  - exact step_node.
  - intros v t0 c0 [X|X]%elem_of_cons.
    + injection X as -> -> ->. split; [done|]. exists n', w'. rewrite lookup_insert_eq. split; [done|]. split; [lia|done].
    + apply step_old_vote; [|done]. intros t1 c1 Y ->. rewrite V'. symmetry. by eapply Old.
  - constructor; [done|apply I].
  - intros v t0 c1 c2 [X|X]%elem_of_cons [Y|Y]%elem_of_cons; simplify_eq; [done|symmetry; by eapply Old|by eapply Old|].
    by eapply (inv_one _ _ _ _ _ I).
  - intros d t0 c0. rewrite Cc. pose proof (inv_requests _ _ _ _ _ I d t0 c0). pose proof (Rq d t0 c0).
    destruct (decide ((d, t0, c0) = (id, t, c))) as [X|X]; [|rewrite cast_other by done; lia]. injection X as -> -> ->.
    rewrite cast_elem by (by left). lia.
  - intros c0 t0. rewrite voters_cons. pose proof (inv_grants _ _ _ _ _ I c0 t0).
    destruct (decide ((c0, t0) = (c, t))) as [X|X]; [injection X as -> ->; rewrite !Z.eqb_refl; cbn; lia|].
    pose proof (Gr _ _ X). case_match; lia.
  - intros x m y L Hx. rewrite voters_cons. apply lookup_insert_Some in L as [[<- [= <- <-]]|[Ne L]].
    + exfalso. apply elem_of_cons in Hx as [X|X]; [congruence|]. rewrite T' in X. apply Nc. symmetry. by eapply Old.
    + apply elem_of_cons in Hx as [X|X]; [congruence|]. pose proof (inv_tally _ _ _ _ _ I _ _ _ L X).
      destruct (decide ((x, cur_term_ m) = (c, t))) as [Q|Q]; [injection Q as -> Tm; rewrite Tm in *; rewrite !Z.eqb_refl; cbn; lia|].
      pose proof (Gr _ _ Q). case_match; lia.
  - intros x m y L. apply lookup_insert_Some in L as [[<- [= <- <-]]|[Ne L]]; [|by apply (inv_delays _ _ _ _ _ I x m y)].
    intros _ F. congruence.
  - intros t0 c0 X. apply (inv_wins _ _ _ _ _ I) in X. rewrite voters_cons. case_match; lia.
Qed.

Lemma step_asked :
  cur_term_ n' = cur_term_ n -> voted_for_ n = -1 -> voted_for_ n' = id -> vote_delays_ n <> O ->
  votes_collected_ n' = votes_collected_ n + 1 ->
  (forall d t c, tally (is_request d t c) M' <= tally (is_request d t c) M +
     (if bool_decide ((t, c) = (cur_term_ n, id)) then (if bool_decide (d = id) then 0 else 1) else 0)) ->
  (forall c t, tally (is_grant c t) M' <= tally (is_grant c t) M) ->
  election_inv N (<[id := (n', w')]> ns) M' ((id, cur_term_ n, id) :: V) W.
Proof.
  intros T' Vn V' De Vc Rq Gr. set (t := cur_term_ n).
  pose proof (inv_node _ _ _ _ _ I _ _ _ E) as (_ & _ & Ri & _).
  assert (Fresh : forall c, (id, t, c) ∉ V).
  { intros c X%step_vote_term. destruct X as (_ & X2 & X3). specialize (X2 eq_refl). congruence. }
  assert (No : forall v, (v, t, id) ∉ V) by (intros v X%(inv_asked _ _ _ _ _ _ _ _ I); by eapply Fresh).
  assert (Z0 : voters V t id = 0).
  { pose proof (tally_nonneg (fun x => (x.1.2 =? t) && (x.2 =? id)) V) as P. fold (voters V t id) in P.
    destruct (decide (voters V t id = 0)) as [->|X]; [done|]. destruct (voters_exists V t id) as (v & Y); [lia|]. by apply No in Y. }
  split.
  - exact step_node.
  - intros v t0 c0 [X|X]%elem_of_cons.
    + injection X as -> -> ->. split; [lia|]. exists n', w'. rewrite lookup_insert_eq. split; [done|]. split; [lia|done].
    + apply step_old_vote; [|done]. intros t1 c1 Y ->. rewrite T' in Y. by apply Fresh in Y.
  - constructor; [apply No|apply I].
  - intros v t0 c1 c2 [X|X]%elem_of_cons [Y|Y]%elem_of_cons; simplify_eq; [done|by apply Fresh in Y|by apply Fresh in X|].
    by eapply (inv_one _ _ _ _ _ I).
  - intros d t0 c0. pose proof (inv_requests _ _ _ _ _ I d t0 c0) as R. specialize (Rq d t0 c0).
    pose proof (cast_range V c0 t0 c0) as Rc.
    destruct (bool_decide ((t0, c0) = (cur_term_ n, id))) eqn:X.
    + apply bool_decide_eq_true_1 in X. injection X as -> ->. fold t in R, Rq |- *.
      rewrite (cast_elem ((id, t, id) :: V) id t id) by (by left).
      assert (Cz : forall v, cast V v t id = 0) by (intros v; unfold cast; by rewrite bool_decide_eq_false_2 by apply No).
      rewrite !Cz in R. destruct (bool_decide_reflect (d = id)) as [Y|Y].
      * subst d. rewrite cast_elem by (by left). lia.
      * rewrite cast_other by congruence. rewrite Cz. lia.
    + apply bool_decide_eq_false_1 in X. rewrite !cast_other by (unfold t; congruence). lia.
  - intros c0 t0. rewrite voters_cons. pose proof (inv_grants _ _ _ _ _ I c0 t0). pose proof (Gr c0 t0). case_match; lia.
  - intros x m y L Hx. rewrite voters_cons. apply lookup_insert_Some in L as [[<- [= <- <-]]|[Ne L]].
    + rewrite T'. fold t. rewrite !Z.eqb_refl, Z0, Vc, (inv_delays _ _ _ _ _ I _ _ _ E De Vn). cbn.
      pose proof (inv_grants _ _ _ _ _ I id t). pose proof (Gr id t). lia.
    + apply elem_of_cons in Hx as [X|X]; [congruence|]. pose proof (inv_tally _ _ _ _ _ I _ _ _ L X).
      pose proof (Gr x (cur_term_ m)). case_match; lia.
  - intros x m y L. apply lookup_insert_Some in L as [[<- [= <- <-]]|[Ne L]]; [|by apply (inv_delays _ _ _ _ _ I x m y)].
    intros _ F. lia.
  - intros t0 c0 X. apply (inv_wins _ _ _ _ _ I) in X. rewrite voters_cons. case_match; lia.
Qed.
End Steps.

(** ** Steps of the cluster *)

Lemma silent_not_vote p r i d t c :
  silent r = true -> is_request d t c (i, set_partition_id p r) = false /\ is_grant c t (i, set_partition_id p r) = false.
Proof.
  intros S. unfold silent in S. apply andb_true_iff in S as [S1 S2]. apply negb_true_iff in S1, S2. unfold is_request, is_grant. cbn [snd].
  change (type (set_partition_id p r)) with (type r). change (get_vote_response (set_partition_id p r)) with (get_vote_response r).
  rewrite S1, andb_false_r. split; [done|]. rewrite <- (andb_assoc (i =? c)), S2. by rewrite andb_false_r.
Qed.

Lemma silent_added id p ids ms d t c :
  Forall (fun m => silent m.2 = true) ms ->
  tally (is_request d t c) (added id p ids ms) = 0 /\ tally (is_grant c t) (added id p ids ms) = 0.
Proof.
  intros F. rewrite Forall_forall in F.
  split; apply tally_zero; intros [i r] (m & X & E)%added_elem; cbn in E; subst r; by apply silent_not_vote, F.
Qed.

(** A vote under way, and a broadcast request. *)
Lemma added_grant id p ids c t d t' c' :
  tally (is_request d t' c') (added id p ids [(Some c, vote_response t 1)]) = 0 /\
  tally (is_grant c' t') (added id p ids [(Some c, vote_response t 1)]) = (if bool_decide ((c', t') = (c, t)) then 1 else 0).
Proof.
  unfold added. cbn [map concat deliveries fst snd app]. rewrite !tally_cons, !tally_nil.
  assert (R : is_request d t' c' (c, set_partition_id p (vote_response t 1)) = false) by (unfold is_request; cbn; by rewrite andb_false_r).
  assert (G : is_grant c' t' (c, set_partition_id p (vote_response t 1)) = (c =? c') && (t =? t')) by (unfold is_grant; cbn; by rewrite !andb_true_r).
  rewrite R, G. split; [done|]. case_bool_decide as Q.
  - injection Q as -> ->. by rewrite !Z.eqb_refl.
  - destruct (Z.eqb_spec c c'), (Z.eqb_spec t t'); cbn; try done. congruence.
Qed.

Lemma added_request id p ids req d t c :
  NoDup ids ->
  tally (is_request d t c) (added id p ids [(None, loadVoteRequest req RaftMessage_new)]) <=
    (if bool_decide ((t, c) = (RequestVoteRequest_term req, RequestVoteRequest_candidate_id req))
     then (if bool_decide (d = id) then 0 else 1) else 0) /\
  tally (is_grant c t) (added id p ids [(None, loadVoteRequest req RaftMessage_new)]) = 0.
Proof.
  intros Nd. unfold added. cbn [map concat deliveries fst snd]. rewrite app_nil_r.
  set (r := set_partition_id p (loadVoteRequest req RaftMessage_new)).
  assert (R : forall i, is_request d t c (i, r) = (i =? d) && (RequestVoteRequest_term req =? t) &&
    (RequestVoteRequest_candidate_id req =? c)) by (intros i; unfold is_request; cbn; by rewrite andb_true_r).
  assert (G : forall i, is_grant c t (i, r) = false) by (intros i; unfold is_grant; cbn; by rewrite andb_false_r).
  split; [|apply tally_zero; intros x X; apply list_elem_of_In, in_map_iff in X as (i & <- & _); apply G].
  clearbody r. induction Nd as [|i ids Ni Nd IH]; [cbn [List.filter map]; rewrite tally_nil; repeat case_bool_decide; lia|].
  cbn [List.filter]. destruct (Z.eqb_spec i id) as [Qi|Qi]; cbn [negb]; [exact IH|].
  cbn [map]. rewrite tally_cons, R. destruct (Z.eqb_spec i d) as [Qd|Qd]; cbn [andb]; [|exact IH].
  subst i. rewrite (bool_decide_eq_false_2 _ Qi).
  rewrite (tally_zero (is_request d t c)).
  - case_bool_decide as Q; [destruct (_ && _); lia|]. destruct (Z.eqb_spec (RequestVoteRequest_term req) t), (Z.eqb_spec (RequestVoteRequest_candidate_id req) c); cbn; try lia. congruence.
  - intros x X. apply list_elem_of_In, in_map_iff in X as (j & <- & J%filter_In). destruct J as [J _]. apply list_elem_of_In in J.
    rewrite R. destruct (Z.eqb_spec j d); [congruence|done].
Qed.

Lemma head_request id m : type m = REQUEST_VOTE_REQUEST ->
  is_request id (RequestVoteRequest_term (get_vote_request m)) (RequestVoteRequest_candidate_id (get_vote_request m)) (id, m) = true.
Proof. intros T. unfold is_request. cbn [fst snd]. by rewrite !Z.eqb_refl, (bool_decide_eq_true_2 _ T). Qed.

Lemma head_grant id m :
  type m = REQUEST_VOTE_RESPONSE -> RequestVoteResponse_vote_result_term_granted (get_vote_response m) = 1 ->
  is_grant id (RequestVoteResponse_term (get_vote_response m)) (id, m) = true.
Proof. intros T G. unfold is_grant. cbn [fst snd]. by rewrite G, !Z.eqb_refl, (bool_decide_eq_true_2 _ T). Qed.

(** A step of one node, as the counts of its mail show it. *)
Lemma election_step_inv N ns M M' V W id (n n' : node) (w w' : Master C K) ids ms rest :
  election_inv N ns M V W -> ns !! id = Some (n, w) -> forward n n' -> node_ok n' = true -> NoDup ids ->
  (forall P, tally P M = tally P (waiting id n) + tally P rest) ->
  (forall P, tally P M' = tally P (added id (partition_id_ n) ids ms) + tally P (waiting id n') + tally P rest) ->
  election_step n n' ms ->
  exists V', election_inv N (<[id := (n', w')]> ns) M' V' W /\
    (state_ n <> LEADER -> state_ n' = LEADER -> N ÷ 2 < voters V' (cur_term_ n') id).
Proof.
  intros I E F Ok Nd Cm Cm' S. destruct F as [_ Fi Ft Fc _].
  destruct S as [ms T Kp Ta De L Q|m ts ms Q Q' Ty G t Te Te' Vf Vc L Si|m ts Q Q' Ty t c Te Te' Vf Vt L|x Q Vn Vd Te Vf Vc Ls].
  - exists V. split; [|intros A B; by destruct (A (L B))]. apply (step_quiet N ns M M' V W id n n' w w'); try done.
    + intros d t c. rewrite Cm, Cm', (proj1 (silent_added _ _ _ _ d t c Q)). pose proof (waiting_left (is_request d t c) id n n' T). lia.
    + intros c t. rewrite Cm, Cm', (proj2 (silent_added _ _ _ _ 0 t c Q)). pose proof (waiting_left (is_grant c t) id n n' T). lia.
  - assert (Rq : forall d t c, tally (is_request d t c) M' <= tally (is_request d t c) M).
    { intros d t0 c. rewrite Cm, Cm', (waiting_cons id m ts n n' Q Q'), tally_cons, (proj1 (silent_added _ _ _ _ d t0 c Si)). case_match; lia. }
    assert (Gr : forall c t, tally (is_grant c t) M' <= tally (is_grant c t) M).
    { intros c t0. rewrite Cm, Cm', (waiting_cons id m ts n n' Q Q'), tally_cons, (proj2 (silent_added _ _ _ _ 0 t0 c Si)). case_match; lia. }
    destruct (step_counted N ns M M' V W id n n' w w' I E Fi Ft Ok Fc t) as [I' B]; try done.
    { rewrite Cm, Cm', (waiting_cons id m ts n n' Q Q'), tally_cons, (head_grant id m Ty G : is_grant id t (id, m) = true), (proj2 (silent_added _ _ _ _ 0 t id Si)). lia. }
    exists V. split; [done|]. intros _ L'. specialize (L L'). pose proof (inv_node _ _ _ _ _ I _ _ _ E) as (_ & <- & _). lia.
  - exists ((id, t, c) :: V). split; [|intros A B; by destruct (A (L B))].
    apply (step_granted N ns M M' V W id n n' w w'); try done.
    + rewrite Cm, Cm', (waiting_cons id m ts n n' Q Q'), tally_cons, (head_request id m Ty : is_request id t c (id, m) = true), (proj1 (added_grant _ _ _ _ _ _ _ _)). lia.
    + intros d t0 c0. rewrite Cm, Cm', (waiting_cons id m ts n n' Q Q'), tally_cons, (proj1 (added_grant _ _ _ _ _ _ _ _)). case_match; lia.
    + rewrite Cm, Cm', (waiting_cons id m ts n n' Q Q'), tally_cons, (proj2 (added_grant _ _ _ _ _ 0 _ _)), bool_decide_eq_true_2 by done. case_match; lia.
    + intros c0 t0 Ne. rewrite Cm, Cm', (waiting_cons id m ts n n' Q Q'), tally_cons, (proj2 (added_grant _ _ _ _ _ 0 _ _)), bool_decide_eq_false_2 by done. case_match; lia.
  - assert (Eq : waiting id n' = waiting id n) by (unfold waiting; by rewrite Q). pose proof (inv_node _ _ _ _ _ I _ _ _ E) as (Ei & _).
    exists ((id, cur_term_ n, id) :: V). split; [|intros A B; congruence].
    apply (step_asked N ns M M' V W id n n' w w'); try done; [congruence|..].
    + intros d t c. rewrite Cm, Cm', Eq. pose proof (proj1 (added_request id (partition_id_ n) ids (vote_request n x) d t c Nd)) as A.
      change (RequestVoteRequest_term (vote_request n x)) with (cur_term_ n) in A.
      change (RequestVoteRequest_candidate_id (vote_request n x)) with (node_id_ n) in A. rewrite Ei in A. lia.
    + intros c t. rewrite Cm, Cm', Eq, (proj2 (added_request id (partition_id_ n) ids (vote_request n x) 0 t c Nd)). lia.
Qed.

Context {LW : ProtobufLaws RT}.

Definition cluster_inv (N : Z) (cl : cluster) (W : list (Z * Z)) : Prop :=
  exists V, election_inv N (cluster_nodes cl) (mail cl) V W /\
    Forall (fun x => message_ok x.2 = true) (decoded (in_flight cl)).

Lemma inv_more_wins N ns M V W t c :
  election_inv N ns M V W -> N ÷ 2 < voters V t c -> election_inv N ns M V (W ++ [(t, c)]).
Proof.
  intros I B. split; try apply I. intros t' c' [X|X]%elem_of_app; [by apply (inv_wins _ _ _ _ _ I)|].
  apply list_elem_of_singleton in X. by injection X as -> ->.
Qed.

(** Mail may get lost. *)
Lemma inv_less_mail N ns M M' V W :
  election_inv N ns M V W -> (forall P, tally P M' <= tally P M) -> election_inv N ns M' V W.
Proof.
  intros I L. split; try apply I.
  - intros d t c. pose proof (inv_requests _ _ _ _ _ I d t c). specialize (L (is_request d t c)). lia.
  - intros c t. pose proof (inv_grants _ _ _ _ _ I c t). specialize (L (is_grant c t)). lia.
  - intros c n w X H'. pose proof (inv_tally _ _ _ _ _ I _ _ _ X H'). specialize (L (is_grant c (cur_term_ n))). lia.
Qed.

(** Only the tasks or the managers of a node change. *)
Lemma inv_same_node N ns M M' V W id (n : node) (w w' : Master C K) ts :
  election_inv N ns M V W -> ns !! id = Some (n, w) -> forallb task_ok ts = true ->
  (forall d t c, tally (is_request d t c) M' <= tally (is_request d t c) M) ->
  (forall c t, tally (is_grant c t) M' <= tally (is_grant c t) M) ->
  election_inv N (<[id := (set_io_context_ ts n, w')]> ns) M' V W.
Proof.
  intros I E Ok Rq Gr. apply (step_quiet N ns M M' V W id n (set_io_context_ ts n) w w'); try done.
  - pose proof (inv_node _ _ _ _ _ I _ _ _ E) as (_ & _ & _ & O). apply node_ok_spec in O as (O1 & O2 & O3 & O4 & O5 & _).
    by apply node_ok_spec.
  - by left.
  - by right.
Qed.

Lemma node_event_inv N id ev ns fl W :
  event_ok ev = true -> cluster_inv N (mkCluster ns fl) W ->
  cluster_inv N (cluster_step (NodeEvent id ev) (mkCluster ns fl)) (W ++ elected (NodeEvent id ev) (mkCluster ns fl)).
Proof.
  intros Ok (V & I & F). cbn [cluster_nodes in_flight] in I, F. unfold elected. cbn [cluster_step cluster_nodes].
  destruct (ns !! id) as [[n w]|] eqn:E; [|rewrite app_nil_r; by exists V].
  destruct (node_step ev (n, w)) as [[n' w']|] eqn:S; [|rewrite app_nil_r; by exists V].
  pose proof (inv_node _ _ _ _ _ I _ _ _ E) as (_ & _ & _ & On).
  pose proof (node_step_ok _ _ _ _ _ On Ok S) as On'. pose proof (node_step_forward _ _ _ _ _ S) as Fw.
  destruct (node_step_received ev n n' w w' On Ok S) as (out & ms & R & Ss & _ & Rc & Mo).
  pose proof (node_step_election ev n n' w w' ms On S Ss) as Es. rewrite R, drop_app_length.
  assert (D : decoded (concat (map (packets id (node_ids_of ns)) out)) = added id (partition_id_ n) (node_ids_of ns) ms).
  { by rewrite decoded_packets, Rc. }
  destruct (election_step_inv N ns (mail (mkCluster ns fl))
    (mail (mkCluster (<[id := (n', w')]> ns) (fl ++ concat (map (packets id (node_ids_of ns)) out)))) V W id n n' w w'
    (node_ids_of ns) ms (decoded fl ++ all_waiting (delete id ns)) I E Fw On' (node_ids_of_spec ns)) as (V' & I' & L); [| |exact Es|].
  { intros P. rewrite (mail_count P id _ _ _ E), tally_app. cbn [fst]. lia. }
  { intros P. rewrite mail_count_insert, D, tally_app. cbn [fst]. lia. }
  exists V'. cbn [cluster_nodes in_flight]. split.
  - destruct (bool_decide (state_ n = LEADER)) eqn:B1; cbn [negb andb]; [by rewrite app_nil_r|].
    destruct (bool_decide (state_ n' = LEADER)) eqn:B2; [|by rewrite app_nil_r].
    apply inv_more_wins; [done|]. apply L; [by apply bool_decide_eq_false_1 in B1|by apply bool_decide_eq_true_1 in B2].
  - unfold decoded. rewrite map_app. apply Forall_app. split; [done|]. fold (decoded (concat (map (packets id (node_ids_of ns)) out))).
    rewrite D. apply Forall_forall. intros x (m & X & ->)%added_elem. rewrite Forall_forall in Mo. by apply Mo.
Qed.

(** Clients send no votes. *)
Lemma client_type_silent r : client_type r = true -> silent r = true.
Proof. unfold client_type, silent. by destruct (type r). Qed.

Lemma silent_here r i d t c : silent r = true -> is_request d t c (i, r) = false /\ is_grant c t (i, r) = false.
Proof.
  unfold silent. rewrite andb_true_iff, !negb_true_iff. intros [S1 S2]. unfold is_request, is_grant. cbn [snd].
  rewrite S1, andb_false_r. split; [done|]. rewrite <- (andb_assoc (i =? c)), S2. by rewrite andb_false_r.
Qed.

(** A message is posted to a node; [fl'] is what is left in flight. *)
Lemma post_inv N ns fl fl' V W id b :
  election_inv N ns (mail (mkCluster ns fl)) V W -> message_ok (deserialize_from_message b) = true ->
  (forall P, tally P (decoded fl') <= tally P (decoded fl)) ->
  (forall d t c, is_request d t c (id, deserialize_from_message b) = true ->
     tally (is_request d t c) (decoded fl') + 1 <= tally (is_request d t c) (decoded fl)) ->
  (forall c t, is_grant c t (id, deserialize_from_message b) = true ->
     tally (is_grant c t) (decoded fl') + 1 <= tally (is_grant c t) (decoded fl)) ->
  election_inv N (alter (post b) id ns) (mail (mkCluster (alter (post b) id ns) fl')) V W.
Proof.
  intros I Ok Le Rq Gr. destruct (ns !! id) as [[n w]|] eqn:E.
  - rewrite (alter_at _ _ _ _ E). unfold post. cbn [fst snd].
    assert (Cn : forall P, tally P (mail (mkCluster (<[id := post b (n, w)]> ns) fl')) =
      tally P (decoded fl') + tally P (waiting id n) + tally P [(id, deserialize_from_message b)] + tally P (all_waiting (delete id ns))).
    { intros P. rewrite <- (app_nil_r fl') at 1. rewrite mail_count_insert, waiting_post, tally_app. cbn [fst]. unfold decoded at 2. cbn [map].
      rewrite tally_nil. lia. }
    apply (inv_same_node N ns (mail (mkCluster ns fl)) _ V W id n w w); [done|done| | |].
    + pose proof (inv_node _ _ _ _ _ I _ _ _ E) as (_ & _ & _ & O). apply node_ok_spec in O as (_ & _ & _ & _ & _ & O).
      rewrite forallb_app, O. cbn. by rewrite Ok.
    + intros d t c. unfold post in Cn. cbn [fst snd] in Cn. unfold message_handler in Cn. rewrite Cn, (mail_count _ id _ _ _ E). cbn [fst]. rewrite tally_cons, tally_nil.
      specialize (Rq d t c). specialize (Le (is_request d t c)). destruct (is_request d t c (id, _)); [specialize (Rq eq_refl)|]; lia.
    + intros c t. unfold post in Cn. cbn [fst snd] in Cn. unfold message_handler in Cn. rewrite Cn, (mail_count _ id _ _ _ E). cbn [fst]. rewrite tally_cons, tally_nil.
      specialize (Gr c t). specialize (Le (is_grant c t)). destruct (is_grant c t (id, _)); [specialize (Gr eq_refl)|]; lia.
  - rewrite (alter_missing _ _ _ E). eapply inv_less_mail; [exact I|]. intros P. unfold mail. cbn [in_flight cluster_nodes].
    rewrite !tally_app. specialize (Le P). lia.
Qed.

Lemma arrives_inv N k ns fl W : cluster_inv N (mkCluster ns fl) W -> cluster_inv N (cluster_step (Arrives k) (mkCluster ns fl)) W.
Proof.
  intros (V & I & F). cbn [cluster_nodes in_flight] in I, F. exists V. cbn [cluster_step].
  destruct (fl !! k) as [[id b]|] eqn:E; [|done]. cbn [cluster_nodes in_flight].
  pose proof (remove_perm fl k _ E) as Pm. set (fl' := take k fl ++ drop (S k) fl) in *.
  assert (Cn : forall P, tally P (decoded fl) = (if P (id, deserialize_from_message b) then 1 else 0) + tally P (decoded fl')).
  { intros P. unfold decoded. rewrite (tally_perm P _ _ (Permutation_map _ Pm)). cbn [map fst snd]. by rewrite tally_cons. }
  assert (F' : Forall (fun x => message_ok x.2 = true) (decoded ((id, b) :: fl'))).
  { unfold decoded in *. by rewrite <- (Permutation_map _ Pm). }
  inversion F' as [|? ? Fb Fr]. subst. split; [|exact Fr].
  eapply post_inv; [exact I|exact Fb|..].
  - intros P. rewrite Cn. case_match; lia.
  - intros d t c Q. rewrite Cn, Q. lia.
  - intros c t Q. rewrite Cn, Q. lia.
Qed.

Lemma lost_inv N k ns fl W : cluster_inv N (mkCluster ns fl) W -> cluster_inv N (cluster_step (Lost k) (mkCluster ns fl)) W.
Proof.
  intros (V & I & F). cbn [cluster_nodes in_flight] in I, F. exists V. cbn [cluster_step cluster_nodes in_flight].
  pose proof (remove_submseteq fl k) as L. split.
  - eapply inv_less_mail; [exact I|]. intros P. unfold mail. cbn [in_flight cluster_nodes]. rewrite !tally_app.
    pose proof (decoded_less fl _ P L). lia.
  - unfold decoded in *. rewrite Forall_forall in *. intros x X. apply F. eapply elem_of_submseteq; [exact X|].
    apply fmap_submseteq. exact L.
Qed.

Lemma client_sends_inv N id r ns fl W :
  sendable r && client_type r = true -> cluster_inv N (mkCluster ns fl) W ->
  cluster_inv N (cluster_step (ClientSends id r) (mkCluster ns fl)) W.
Proof.
  intros [Se Ct]%andb_true_iff (V & I & F). cbn [cluster_nodes in_flight] in I, F. exists V. cbn [cluster_step].
  destruct (serialize_as_message r) as [b|] eqn:Sr; [|done]. cbn [cluster_nodes in_flight]. split; [|done].
  pose proof (serialized_received _ _ Se Sr) as D. pose proof (client_message_ok r Se Ct) as Mo. pose proof (client_type_silent r Ct) as Si.
  eapply post_inv; [exact I|by rewrite D|done|..]; rewrite D.
  - intros d t c Q. by rewrite (proj1 (silent_here r id d t c Si)) in Q.
  - intros c t Q. by rewrite (proj2 (silent_here r id 0 t c Si)) in Q.
Qed.

(** The tasks or the managers of a node change, but not its mail. *)
Lemma same_mail_inv N id ns fl W (n : node) (w w' : Master C K) ts :
  ns !! id = Some (n, w) -> forallb task_ok ts = forallb task_ok (io_context_ n) ->
  waiting id (set_io_context_ ts n) = waiting id n -> cluster_inv N (mkCluster ns fl) W ->
  cluster_inv N (mkCluster (<[id := (set_io_context_ ts n, w')]> ns) fl) W.
Proof.
  intros E T Wt (V & I & F). cbn [cluster_nodes in_flight] in I, F. exists V. cbn [cluster_nodes in_flight]. split; [|done].
  assert (Cn : forall P, tally P (mail (mkCluster (<[id := (set_io_context_ ts n, w')]> ns) fl)) = tally P (mail (mkCluster ns fl))).
  { intros P. rewrite <- (app_nil_r fl) at 1. rewrite mail_count_insert, (mail_count P id _ _ _ E). cbn [fst]. rewrite Wt.
    unfold decoded. cbn [map]. rewrite tally_nil. lia. }
  apply (inv_same_node N ns (mail (mkCluster ns fl)) _ V W id n w w' _ I E).
  - pose proof (inv_node _ _ _ _ _ I _ _ _ E) as (_ & _ & _ & O). apply node_ok_spec in O as (_ & _ & _ & _ & _ & O). congruence.
  - intros d t x. rewrite Cn. lia.
  - intros x t. rewrite Cn. lia.
Qed.

Lemma cluster_step_inv N e cl W :
  steady e = true -> cluster_inv N cl W -> cluster_inv N (cluster_step e cl) (W ++ elected e cl).
Proof.
  destruct cl as [ns fl]. intros [Ok Re]%andb_true_iff I.
  destruct e as [id ev|k|k|id r|id c|id w'|id st gt gv w']; [by apply node_event_inv|..]; cbn [elected]; rewrite app_nil_r; [..|done].
  - by apply arrives_inv.
  - by apply lost_inv.
  - by apply client_sends_inv.
  - cbn [cluster_step]. destruct (ns !! id) as [[n w]|] eqn:E; [|by rewrite (alter_missing _ _ _ E)].
    rewrite (alter_at _ _ _ _ E). apply (same_mail_inv N id ns fl W n w w _ E); [..|done].
    + rewrite forallb_app. cbn. by rewrite andb_true_r.
    + unfold waiting. cbn [io_context_ set_io_context_]. rewrite omap_app. cbn. by rewrite app_nil_r.
  - cbn [cluster_step]. destruct (ns !! id) as [[n w]|] eqn:E; [|by rewrite (alter_missing _ _ _ E)].
    rewrite (alter_at _ _ _ _ E). cbn [fst]. replace n with (set_io_context_ (io_context_ n) n) at 1 by (by destruct n).
    by apply (same_mail_inv N id ns fl W n w w' (io_context_ n) E).
Qed.

Lemma cluster_run_inv N es cl W :
  forallb steady es = true -> cluster_inv N cl W -> cluster_inv N (cluster_run es cl) (W ++ elections es cl).
Proof.
  revert cl W. induction es as [|e es IH]; intros cl W F I; cbn [elections cluster_run]; [by rewrite app_nil_r|].
  cbn [forallb] in F. apply andb_true_iff in F as [Fe F]. rewrite app_assoc. apply IH; [done|]. by apply cluster_step_inv.
Qed.

Lemma fresh_inv N cl : fresh_cluster N cl -> cluster_inv N cl [].
Proof.
  intros (_ & Fl & Fm). exists []. rewrite Fl. split; [|constructor].
  assert (M0 : mail cl = []).
  { unfold mail, decoded, all_waiting. rewrite Fl. cbn [map app]. 
    assert (X : forall x, x ∈ map_to_list (cluster_nodes cl) -> waiting x.1 x.2.1 = []).
    { intros [id [n w]] X%elem_of_map_to_list. apply Fm in X as (_ & _ & _ & _ & _ & _ & _ & X & _). unfold waiting. cbn [fst snd]. by rewrite X. }
    induction (map_to_list (cluster_nodes cl)) as [|x l IH]; [done|]. cbn [map concat]. rewrite X by (by left).
    apply IH. intros y Y. apply X. by right. }
  rewrite M0. split.
  - intros id n w X%Fm. destruct X as (X1 & X2 & X3 & _ & _ & _ & _ & _ & X4). done.
  - intros v t c X%not_elem_of_nil. done.
  - constructor.
  - intros v t c c' X%not_elem_of_nil. done.
  - intros d t c. rewrite tally_nil. unfold cast. by rewrite !bool_decide_eq_false_2 by apply not_elem_of_nil.
  - intros c t. done.
  - intros c n w _ X%not_elem_of_nil. done.
  - intros c n w X%Fm. destruct X as (_ & _ & _ & _ & _ & _ & X & _). done.
  - intros t c X%not_elem_of_nil. done.
Qed.

(** Two sets of voters of one term have no voter in common. *)
Lemma voters_disjoint N ns M V W t a b : election_inv N ns M V W -> a <> b -> voters V t a + voters V t b <= Z.max 0 N.
Proof.
  intros I Ne. set (P c := fun x : Z * Z * Z => (x.1.2 =? t) && (x.2 =? c)).
  set (L := map (fun x : Z * Z * Z => x.1.1) (List.filter (P a) V ++ List.filter (P b) V)).
  assert (In1 : forall c v, v ∈ map (fun x : Z * Z * Z => x.1.1) (List.filter (P c) V) -> (v, t, c) ∈ V).
  { intros c v X. apply list_elem_of_In, in_map_iff in X as ([[v' t'] c'] & <- & X%filter_In). destruct X as [X Q].
    unfold P in Q. cbn in Q |- *. to_prop. subst. by apply list_elem_of_In. }
  assert (Nd1 : forall c, NoDup (map (fun x : Z * Z * Z => x.1.1) (List.filter (P c) V))).
  { intros c. pose proof (inv_nodup _ _ _ _ _ I) as Nd. clear - Nd. induction Nd as [|[[v0 t0] c0] V Nx Nd IH]; [constructor|].
    cbn [List.filter]. destruct (P c (v0, t0, c0)) eqn:Q; [|exact IH]. cbn [map]. constructor; [|exact IH].
    intros X. apply list_elem_of_In, in_map_iff in X as ([[v' t'] c'] & Ev & X%filter_In). destruct X as [X Q'].
    unfold P in Q, Q'. cbn in *. to_prop. subst. apply Nx. by apply list_elem_of_In. }
  assert (NdL : NoDup L).
  { unfold L. rewrite map_app. apply NoDup_app. split; [apply Nd1|]. split; [|apply Nd1].
    intros v X Y. apply In1 in X, Y. apply Ne. by eapply (inv_one _ _ _ _ _ I). }
  assert (Sub : L ⊆ seqZ 0 N).
  { intros v X. apply elem_of_seqZ. unfold L in X. rewrite map_app in X.
    apply elem_of_app in X as [X|X]; apply In1, (inv_vote _ _ _ _ _ I) in X as (_ & n & w & E & _);
      apply (inv_node _ _ _ _ _ I) in E as (_ & _ & E & _); lia. }
  pose proof (NoDup_submseteq _ _ NdL Sub) as Le%submseteq_length. unfold L in Le. rewrite length_map, length_app, length_seqZ in Le.
  unfold voters, tally, zlength. fold (P a) (P b). lia.
Qed.

(** So a term has one winner. *)
Lemma wins_unique N cl W t a b : 0 < N -> cluster_inv N cl W -> (t, a) ∈ W -> (t, b) ∈ W -> a = b.
Proof.
  intros P (V & I & _) A B. destruct (decide (a = b)) as [|Ne]; [done|exfalso].
  apply (inv_wins _ _ _ _ _ I) in A, B. pose proof (voters_disjoint _ _ _ _ _ t a b I Ne) as D.
  pose proof (Z.quot_rem' N 2). pose proof (Z.rem_bound_pos N 2). lia.
Qed.
End Election.

(** ** Properties *)

(** C1: election safety of the cluster: in every run of a cluster whose nodes
    start fresh and agree on its size, whatever is delayed, reordered or lost,
    whatever clients do and whichever nodes crash, no two nodes are elected in
    the same term (as long as no node restarts). *)
Theorem election_safety `{ClusterNodeStorageInterface St, CI : ClusterManagerInterface C, CL : !ClusterManagerLaws C,
    ClientManagerInterface K} `{LW : ProtobufLaws}
    (N : Z) (es : list (cluster_event (St := St) (C := C) (K := K))) (cl : cluster) :
  fresh_cluster N cl -> forallb steady es = true ->
  forall t a b, (t, a) ∈ elections es cl -> (t, b) ∈ elections es cl -> a = b.
Proof.
  intros F Ok t a b. pose proof (cluster_run_inv N es cl [] Ok (fresh_inv N cl F)) as I.
  apply (wins_unique N (cluster_run es cl)); [apply F|exact I].
Qed.

Lemma election_safety_witness :
  (1, 0) ∈ elections demo_election demo_cluster /\ forall b, (1, b) ∈ elections demo_election demo_cluster -> b = 0.
Proof.
  assert (A : (1, 0) ∈ elections demo_election demo_cluster) by (apply (bool_decide_unpack _); vm_compute; exact I).
  split; [exact A|]. intros b B.
  exact (election_safety 3 demo_election demo_cluster demo_cluster_fresh ltac:(vm_compute; reflexivity) 1 b 0 B A).
Defined.

(** Node 1, whose vote elected node 0, restarts; node 2 asks for votes in the same
    term. *)
Definition demo_restart_election : list demo_event :=
  demo_election ++ [Restarts 1 (mkClusterNodeStorageMock 7 1) 0 0 demo_master; NodeEvent 2 (VoteTimerFires 0);
    NodeEvent 2 VoteDelay; Arrives 1; demo_task 1; Arrives 2; demo_task 2].

(** Election safety does not survive a restart, because votes are not kept
    on disk: in a run of a fresh cluster of three, node 0 is elected in term 1
    with the vote of node 1, node 1 restarts with what it stored, votes in term 1
    again, and node 2 is elected in term 1 too. *)
Theorem restart_elects_second :
  fresh_cluster 3 demo_cluster /\ forallb cluster_event_ok demo_restart_election = true /\
  elections demo_restart_election demo_cluster = [(1, 0); (1, 2)].
Proof. split; [apply demo_cluster_fresh|]. split; vm_compute; reflexivity. Qed.
