(* ===== verification/ClusterLog.v ===== *)
(** * The logs of a cluster

    Integrity: the entries in the nodes' logs are what clients asked for. And two
    runs in which what is committed diverges: the code gives neither a single
    leader per term nor leaders that have what was committed. *)

From S2P Require Import Prelude MessageQueue WireFormat FlowTypes FlowCodec FlowCodecFacts RaftMessage LogStorage ClusterManager ClientManager Configuration ClusterNode ClusterNodeFacts NodeElection NodeLog NodeTypes NodeQueue NodeCommit Network ClusterElection.

Local Open Scope Z_scope.

(** ** Requests of clients *)

(** What an entry records is what the request [r] asks for. *)
Definition asks (r : RaftMessage) (e : LogEntry) : Prop :=
  type r = CLIENT_PUT_MESSAGE /\ LogEntry_operation e = LogEntry_ADD /\
    LogEntry_message e = ClientPutMessage_message (get_put_message_request r) \/
  type r = CLIENT_COMMIT_MESSAGE /\ LogEntry_operation e = LogEntry_COMMIT /\
    LogEntry_message_id e = ClientCommitMessage_message_id (get_commit_message_request r).

Definition asked (rs : list RaftMessage) (e : LogEntry) : Prop := exists r, r ∈ rs /\ asks r e.

(** The entries of a log after the placeholder. *)
Definition log_asked (rs : list RaftMessage) (log : list LogEntry) : Prop := log <> [] /\ Forall (asked rs) (drop 1 log).

Lemma log_asked_snoc rs log e : log_asked rs log -> asked rs e -> log_asked rs (log ++ [e]).
Proof.
  intros [Ne F] A. split; [by destruct log|]. destruct log as [|d es]; [done|]. cbn [drop app]. apply Forall_app. cbn in F. rewrite drop_0 in *. auto.
Qed.

Lemma log_asked_take rs log i : log_asked rs log -> log_asked rs (take (S i) log).
Proof.
  intros [Ne F]. destruct log as [|d es]; [done|]. split; [done|]. cbn [take drop] in *. rewrite drop_0 in *. by apply Forall_take.
Qed.

Lemma append_loop_asked rs i l es log log' :
  0 <= i -> 0 <= l -> log_asked rs log -> Forall (asked rs) es -> append_loop i l es log = Ret log' -> log_asked rs log'.
Proof.
  revert i log. induction es as [|e es IH]; intros i log Hi Hl A F H; cbn [append_loop] in H.
  { by injection H as <-. }
  inversion F as [|? ? Fe Fs]. subst. apply obind_ret in H as (x & X & H). apply int_add_ret in X as [-> _].
  apply obind_ret in H as (y & Y & H). apply int_add_ret in Y as [-> _].
  apply obind_ret in H as (log1 & B & H). eapply IH; [..|exact H]; [lia|done| |done].
  destruct (_ <? _); [injection B as <-; by apply log_asked_snoc|].
  apply obind_ret in B as (old & _ & B). destruct (_ =? _); [by injection B as <-|].
  apply obind_ret in B as (log2 & Cl & B). injection B as <-. apply log_asked_snoc; [|done].
  unfold clean_log_entries_out_of_sync in Cl. destruct (_ && _); [|done]. injection Cl as <-.
  replace (Z.to_nat (i + l + 1)) with (S (Z.to_nat (i + l))) by lia. by apply log_asked_take.
Qed.

(** A queue holds messages clients put, and its committed ids are ids clients
    committed. *)
Definition store_asked (rs : list RaftMessage) (s : gmap Z bytes * gset Z) : Prop :=
  (forall id m, s.1 !! id = Some m -> exists r, r ∈ rs /\ type r = CLIENT_PUT_MESSAGE /\
     m = ClientPutMessage_message (get_put_message_request r)) /\
  (forall id, id ∈ s.2 -> exists r, r ∈ rs /\ type r = CLIENT_COMMIT_MESSAGE /\
     id = ClientCommitMessage_message_id (get_commit_message_request r)).

Lemma entry_asked rs q e :
  asked rs e -> store_asked rs (persisted q) -> store_asked rs (persisted (foldl exec q (entry_calls e))).
Proof.
  intros (r & R & [(T & O & M)|(T & O & M)]) [P Q]; unfold entry_calls; rewrite O; cbn.
  - unfold insert_message. destruct (message_store_ q !! LogEntry_message_id e); [done|]. split; cbn; [|exact Q].
    intros id m. rewrite lookup_insert_Some. intros [[<- <-]|[_ X]]; [by exists r|by apply (P id)].
  - unfold commit_message, release_from_consumer. destruct (message_store_ q !! LogEntry_message_id e); [|done].
    destruct (message_id_to_consumer_ q !! _); (split; cbn; [exact P|]);
      intros id [X%elem_of_singleton|X]%elem_of_union; try (by apply Q); exists r; by rewrite X.
Qed.

Lemma entries_asked rs q es :
  Forall (asked rs) es -> store_asked rs (persisted q) -> store_asked rs (persisted (foldl exec q (log_calls es))).
Proof.
  intros F. revert q. induction F as [|e es A F IH]; intros q P; [done|].
  change (log_calls (e :: es)) with (entry_calls e ++ log_calls es). rewrite foldl_app. apply IH. by apply entry_asked.
Qed.

(** What a message under way may bring into a log. *)
Definition brings (rs : list RaftMessage) (m : RaftMessage) : Prop :=
  (type m = APPEND_ENTRIES_REQUEST -> Forall (asked rs) (AppendEntriesRequest_entries (get_append_request m))) /\
  (client_type m = true -> m ∈ rs).

Section Log.
Context {St C K : Type}.
Context `{SI : ClusterNodeStorageInterface St, CI : ClusterManagerInterface C, KI : ClientManagerInterface K,
  RT : ProtobufRuntime} {CL : ClusterManagerLaws C} {LW : ProtobufLaws RT}.
Abbreviation node := (ClusterNode St).
Abbreviation event := (cluster_event (St := St) (C := C) (K := K)).

Definition client_requests (es : list event) : list RaftMessage :=
  omap (fun e => match e with ClientSends _ r => Some r | _ => None end) es.

Lemma log_step_asked rs (n : node) log :
  log_asked rs (log_entries_ n) -> Forall (fun x => brings rs x.2) (waiting (node_id_ n) n) -> log_step n log -> log_asked rs log.
Proof.
  intros A F [|op id msg _ (m & ts & IO & R)|m ts log' IO T Te E B]; [done|..].
  - unfold waiting in F. rewrite IO in F. inversion F as [|? ? [_ Fm] _]. subst. cbn [snd] in Fm.
    apply log_asked_snoc; [done|]. exists m. unfold client_type in Fm.
    destruct R as [(T & -> & ->)|(T & -> & -> & ->)]; rewrite T in Fm; (split; [by apply Fm|]); [left|right]; done.
  - unfold waiting in F. rewrite IO in F. inversion F as [|? ? [Fm _] _]. subst. cbn [snd] in Fm.
    eapply append_loop_asked; [..|exact B]; [done| |done|by apply Fm].
    unfold check_if_previous_log_in_sync in E. apply obind_ret in E as (x & _ & E). destruct (_ <? _); [done|].
    apply obind_ret in E as (y & Y & _). by apply vec_at_ret in Y as [Y _].
Qed.

(** Append requests carry entries of the sender's log. *)
Lemma may_send_brings rs p (n : node) m : log_asked rs (log_entries_ n) -> may_send n m -> brings rs (set_partition_id p m.2).
Proof.
  intros [_ A] H. split; [|by destruct H].
  destruct H as [f i prev entry Hi P E|e S La|f|f e La|c t|c t S T V|e V La]; cbn [snd]; intros T'; try discriminate.
  - constructor; [|constructor]. change (LogEntry_CopyFrom entry LogEntry_new) with (LogEntry_MergeFrom entry LogEntry_new).
    rewrite LogEntry_merge_into_new. rewrite Forall_forall in A. apply A.
    apply (list_elem_of_lookup_2 _ (Z.to_nat i - 1)). rewrite lookup_drop. rewrite <- E. f_equal. lia.
  - constructor.
Qed.

Lemma step_sends_may e (n n' : node) ms :
  step_sends e n n' ms -> Forall (fun m => may_send n' m \/ type m.2 <> APPEND_ENTRIES_REQUEST /\ client_type m.2 = false) ms.
Proof.
  intros [ms' _ F|now rid m ts g _ _ _ t c _|x _ _ _].
  - eapply Forall_impl; [exact F|]. intros y [Y _]. by left.
  - constructor; [|constructor]. by right.
  - constructor; [|constructor]. by right.
Qed.

Lemma waiting_renamed i j (n : node) (P : RaftMessage -> Prop) :
  Forall (fun x => P x.2) (waiting i n) -> Forall (fun x => P x.2) (waiting j n).
Proof. unfold waiting. induction (io_context_ n) as [|[m|c] ts IH]; cbn; [done| |done]. inversion 1. constructor; auto. Qed.

(** A node whose log and queue come from clients. *)
Record node_asked (rs : list RaftMessage) (n : node) : Prop := {
  asked_log : log_asked rs (log_entries_ n);
  asked_queue : store_asked rs (persisted (message_queue_ n));
  asked_reachable : reachable (message_queue_ n);
  asked_commit : 0 <= commit_index_ n
}.

Definition log_small (n : node) : Prop := zlength (log_entries_ n) <= INT_MAX.

Lemma node_step_asked rs e (n n' : node) (w w' : Master C K) :
  node_asked rs n -> Forall (fun x => brings rs x.2) (waiting (node_id_ n) n) -> log_small n ->
  node_step e (n, w) = Ret (n', w') -> node_asked rs n'.
Proof.
  intros [A Q R C0] F L Sp. pose proof (node_step_queue _ _ _ _ _ R C0 L Sp) as D.
  pose proof (node_step_forward _ _ _ _ _ Sp) as Fw. split.
  - eapply log_step_asked; [exact A|exact F|by eapply node_step_log].
  - rewrite (drives_persisted _ _ _ R D). apply entries_asked; [|done]. unfold newly_committed. apply Forall_take.
    destruct A as [_ A]. replace (Z.to_nat (commit_index_ n + 1)) with (1 + Z.to_nat (commit_index_ n))%nat by lia.
    rewrite <- drop_drop. by apply Forall_drop.
  - exact (drives_reachable _ _ _ R D).
  - destruct Fw. lia.
Qed.

(** The invariant: logs hold what was asked, messages bring what was asked. *)
Definition integrity (rs : list RaftMessage) : cluster (St := St) (C := C) (K := K) -> Prop :=
  cluster_holds (fun _ => node_asked rs) (fun x => brings rs x.2).

(** The logs of a cluster stay smaller than [INT_MAX] entries. *)
Definition logs_fit (es : list event) (cl : cluster) : Prop :=
  forall k id n w, cluster_nodes (cluster_run (take k es) cl) !! id = Some (n, w) -> log_small n.

Lemma integrity_step rs e cl :
  steady e = true -> (forall id r, e = ClientSends id r -> r ∈ rs) ->
  (forall id n w, cluster_nodes cl !! id = Some (n, w) -> log_small n) -> integrity rs cl -> integrity rs (cluster_step e cl).
Proof.
  intros Ok Cl Sm H. apply (cluster_step_holds _ _ log_small (fun _ => True)); try done.
  - intros _ ts n [A Q R C0]. by split.
  - intros id ev n n' w w' ms ids (O & A & F) L _ Ev Sp Ss.
    assert (A' : node_asked rs n') by (eapply node_step_asked; [exact A|by eapply waiting_renamed|done..]).
    split; [exact A'|]. apply Forall_forall. intros x (m & X & ->)%added_elem.
    apply step_sends_may in Ss. rewrite Forall_forall in Ss. destruct (Ss m X) as [Y|[Y1 Y2]]; [by apply (may_send_brings _ _ n'); [apply A'|]|].
    split; [done|]. by intros Y%(eq_trans (eq_sym Y2)).
  - intros id r E. cbn [snd]. split; [|intros _; by eapply Cl].
    subst e. unfold steady, cluster_event_ok in Ok. rewrite !andb_true_iff in Ok. destruct Ok as [[_ Ct] _].
    intros T. unfold client_type in Ct. by rewrite T in Ct.
  - intros id n w E. split; [by eapply Sm|done].
Qed.

Lemma integrity_run rs es cl :
  forallb steady es = true -> client_requests es ⊆ rs -> logs_fit es cl -> integrity rs cl -> integrity rs (cluster_run es cl).
Proof.
  revert cl. induction es as [|e es IH]; intros cl Ok Sub L H; [done|]. cbn [forallb] in Ok. apply andb_true_iff in Ok as [Oe Ok].
  cbn [cluster_run]. apply IH; [done| | |].
  - intros r R. apply Sub. unfold client_requests in *. destruct e; cbn; try done. by right.
  - intros k. apply (L (S k)).
  - apply integrity_step; [done| |by apply (L O)|done]. intros id r ->. apply Sub. unfold client_requests. cbn. by left.
Qed.

(** A node that has nothing but the placeholder. *)
Definition empty_member (n : node) : Prop :=
  length (log_entries_ n) = 1%nat /\ message_queue_ n = MessageQueue_new /\ commit_index_ n = 0.

Definition empty_cluster (N : Z) (cl : cluster (St := St) (C := C) (K := K)) : Prop :=
  fresh_cluster N cl /\ forall id n w, cluster_nodes cl !! id = Some (n, w) -> empty_member n.

Lemma empty_integrity rs N cl : empty_cluster N cl -> integrity rs cl.
Proof.
  intros [(_ & Fl & Fm) L]. split; [|rewrite Fl; constructor]. intros id n w E. destruct (L id n w E) as (L1 & L2 & L3).
  apply Fm in E as (_ & _ & _ & _ & _ & _ & _ & Io & O). split_and!; [done| |unfold waiting; rewrite Io; constructor].
  split.
  - split; [by destruct (log_entries_ n)|]. destruct (log_entries_ n) as [|d [|x es]]; done.
  - rewrite L2. split; [intros id' m X; cbn in X; by rewrite lookup_empty in X|]. intros id' X. cbn in X. by apply elem_of_empty in X.
  - rewrite L2. apply reach_new.
  - lia.
Qed.
End Log.

(** ** Properties *)

(** C2: integrity: in every run of a cluster that starts empty, without restarts,
    whatever is delayed, reordered or lost, however often entries are sent again
    and however leaders change, every entry after the placeholder in the log of
    any node records a request that a client sent during the run; the messages
    in any node's queue, which are those it delivers, are messages clients put;
    and the ids committed in it are ids clients committed. *)
Theorem message_integrity `{ClusterNodeStorageInterface St, CI : ClusterManagerInterface C, CL : !ClusterManagerLaws C,
    ClientManagerInterface K} `{LW : ProtobufLaws}
    (N : Z) (es : list (cluster_event (St := St) (C := C) (K := K))) (cl : cluster) :
  empty_cluster N cl -> forallb steady es = true -> logs_fit es cl ->
  forall id n w, cluster_nodes (cluster_run es cl) !! id = Some (n, w) ->
    (forall i e, log_entries_ n !! S i = Some e -> asked (client_requests es) e) /\
    store_asked (client_requests es) (message_store_ (message_queue_ n), committed_messages_ (message_queue_ n)).
Proof.
  intros F Ok L id n w E. pose proof (empty_integrity (client_requests es) N cl F) as Hi.
  apply (integrity_run _ es) in Hi; [|done..]. destruct Hi as [Hn _]. apply Hn in E as (_ & [[_ A] Q _ _] & _).
  split; [|exact Q]. intros i e X.
  rewrite Forall_forall in A. apply A. apply (list_elem_of_lookup_2 _ i). by rewrite lookup_drop.
Qed.

(** What a node has committed. *)
Definition committed_messages `{ClusterNodeStorageInterface St} {C K : Type} (id : Z) (cl : cluster (St := St) (C := C) (K := K)) : list bytes :=
  match cluster_nodes cl !! id with
  | Some (n, _) => map LogEntry_message (take (Z.to_nat (commit_index_ n)) (drop 1 (log_entries_ n)))
  | None => []
  end.

Definition demo_put_message (m : bytes) : RaftMessage :=
  set_partition_id 7 (loadClientPutMessageRequest (ClientPutMessage_set_message m ClientPutMessage_new) RaftMessage_new).

Lemma demo_cluster_empty : empty_cluster 3 demo_cluster.
Proof.
  split; [apply demo_cluster_fresh|]. unfold demo_cluster. cbn [cluster_nodes]. intros id n w L.
  apply lookup_insert_Some in L as [[<- [= <- _]]|[_ L]]; [by split_and!|].
  apply lookup_insert_Some in L as [[<- [= <- _]]|[_ L]]; [by split_and!|].
  apply lookup_singleton_Some in L as [<- [= <- _]]. by split_and!.
Qed.

(** A message is put, and committed by the leader with the help of node 1. *)
Definition demo_put_run : list demo_event :=
  demo_election ++ [ClientSends 0 (demo_put_message (str "a")); demo_task 0; Arrives 1; demo_task 1; Arrives 2; demo_task 0].

Definition small_logs {St C K : Type} (cl : cluster (St := St) (C := C) (K := K)) : bool :=
  forallb (fun x => zlength (log_entries_ x.2.1) <=? INT_MAX) (map_to_list (cluster_nodes cl)).

Lemma small_logs_spec {St C K : Type} (cl : cluster (St := St) (C := C) (K := K)) id n w :
  small_logs cl = true -> cluster_nodes cl !! id = Some (n, w) -> log_small n.
Proof.
  unfold small_logs. rewrite forallb_forall. intros F X%elem_of_map_to_list%list_elem_of_In%F. by apply Z.leb_le in X.
Qed.

Lemma demo_put_run_fits : logs_fit demo_put_run demo_cluster.
Proof.
  intros k id n w. apply small_logs_spec. destruct (decide (k < 12)%nat) as [L|L].
  - do 12 (destruct k as [|k]; [vm_compute; reflexivity|]). lia.
  - rewrite take_ge by (cbn; lia). vm_compute. reflexivity.
Qed.

Lemma message_integrity_witness :
  exists n w, cluster_nodes (cluster_run demo_put_run demo_cluster) !! 0 = Some (n, w) /\
    message_store_ (message_queue_ n) = {[ 100 := str "a" ]} /\
    store_asked (client_requests demo_put_run) (message_store_ (message_queue_ n), committed_messages_ (message_queue_ n)).
Proof.
  destruct (cluster_nodes (cluster_run demo_put_run demo_cluster) !! 0) as [[n w]|] eqn:E; [|vm_compute in E; discriminate].
  exists n, w. split; [reflexivity|]. split; [vm_compute in E; injection E as <- <-; reflexivity|].
  assert (Ok : forallb steady demo_put_run = true) by (vm_compute; reflexivity).
  pose proof (message_integrity 3 demo_put_run demo_cluster demo_cluster_empty Ok demo_put_run_fits 0 n w) as M.
  exact (proj2 (M E)).
Defined.

(** The nodes that act as leaders of a term. *)
Definition leaders `{ClusterNodeStorageInterface St} {C K : Type} (t : Z) (cl : cluster (St := St) (C := C) (K := K)) : list Z :=
  map fst (List.filter (fun x => bool_decide (state_ x.2.1 = LEADER) && (cur_term_ x.2.1 =? t)) (map_to_list (cluster_nodes cl))).

(** Node 1 is elected in term 2 by node 2; node 0 hears of the term only. *)
Definition demo_second_election : list demo_event :=
  demo_election ++ [NodeEvent 1 (VoteTimerFires 0); NodeEvent 1 VoteDelay; Arrives 2; demo_task 0; Arrives 1; demo_task 2;
    Arrives 1; demo_task 1].

(** Then each of them gets a message from a client, and node 2 answers both. *)
Definition demo_two_leaders : list demo_event :=
  demo_second_election ++
  [ClientSends 0 (demo_put_message (str "a")); demo_task 0; ClientSends 1 (demo_put_message (str "b")); demo_task 1] ++
  [Arrives 2; demo_task 2; Arrives 4; demo_task 0; Arrives 3; demo_task 2; Arrives 3; demo_task 1].

(** A term can have two leaders although only one was elected in it, and
    they commit different messages at the same place: a run of a fresh cluster of
    three, without crashes or restarts, elects node 0 in term 1 and node 1 in
    term 2; both then act as leaders of term 2, because a leader takes over the
    term of a vote request and stays leader; node 0 commits one message and node
    1 another one as the first of the log. *)
Theorem two_leaders_in_term :
  fresh_cluster 3 demo_cluster /\ forallb steady demo_two_leaders = true /\
  elections demo_two_leaders demo_cluster = [(1, 0); (2, 1)] /\
  let cl := cluster_run demo_two_leaders demo_cluster in
  0 ∈ leaders 2 cl /\ 1 ∈ leaders 2 cl /\ committed_messages 0 cl = [str "a"] /\ committed_messages 1 cl = [str "b"].
Proof.
  split; [apply demo_cluster_fresh|]. split; [vm_compute; reflexivity|]. split; [vm_compute; reflexivity|].
  split; [apply (bool_decide_unpack _); vm_compute; exact I|]. split; [apply (bool_decide_unpack _); vm_compute; exact I|].
  split; vm_compute; reflexivity.
Qed.

(** Node 0 is elected and commits a message with the help of node 1; node 2,
    whose log is empty, is elected by node 1 and commits another one. *)
Definition demo_divergence : list demo_event :=
  demo_election ++
  [ClientSends 0 (demo_put_message (str "a")); demo_task 0; Arrives 1; demo_task 1; Arrives 2; demo_task 0] ++
  [NodeEvent 2 (VoteTimerFires 0); NodeEvent 2 (VoteTimerFires 0); NodeEvent 2 (VoteTimerFires 0); NodeEvent 2 VoteDelay;
   Arrives 2; demo_task 1; Arrives 3; demo_task 2] ++
  [ClientSends 2 (demo_put_message (str "b")); demo_task 2; Arrives 4; demo_task 1; Arrives 4; demo_task 2].

(** Two nodes of a fresh cluster of three can commit different messages at the
    same place, in a run without a crash. *)
Theorem committed_message_replaced :
  fresh_cluster 3 demo_cluster /\ forallb steady demo_divergence = true /\
  committed_messages 0 (cluster_run demo_divergence demo_cluster) = [str "a"] /\
  committed_messages 2 (cluster_run demo_divergence demo_cluster) = [str "b"].
Proof. split; [apply demo_cluster_fresh|]. split_and!; vm_compute; reflexivity. Qed.


(** A success answer carries the last index of the follower's log, whatever the
    leader knows of it. Where it lies past the end of the receiver's log and
    completes a majority, a node with file storage does not survive it: the slice
    it is to store ends behind the log. *)
Lemma ack_beyond_log_crashes `{CI : ClusterManagerInterface C, KI : ClientManagerInterface K} `{RT : ProtobufRuntime}
    (resp : AppendEntriesResponse) (n : ClusterNode (ClusterNodeStorage * disk)) (w : Master C K) :
  let last := AppendEntriesResponse_last_index_synced resp in
  AppendEntriesResponse_append_result_success resp <> 0 -> commit_index_ n < last -> zlength (log_entries_ n) <= last ->
  total_nodes_ n ÷ 2 < count_synced last (<[AppendEntriesResponse_follower_id resp := last]> (matched_index_ n)) + 1 ->
  forall r, handle_append_response resp (n, w) <> Ret r.
Proof.
  intros last Su Ci Lg Mj [n' w'] Hr. apply handle_append_response_cases in Hr as (n1 & w1 & R & _).
  destruct R as [p n1 w1 x _ A|p S _|p x S _]; [|done..]. unfold advance_commit in A. cbv zeta in A.
  cbn [commit_index_ total_nodes_ matched_index_ set_matched_index_ set_pending_append_reqs_] in A. fold last in A.
  rewrite (proj2 (Z.ltb_lt _ _) Ci), (proj2 (Z.ltb_lt _ _) Mj) in A.
  apply obind_ret in A as (stop & Ad & A). apply int_add_ret in Ad as [-> _]. apply obind_ret in A as ([n2 w2] & D & A).
  apply obind_ret in A as (n3 & S & _). apply commit_log_entries_queue in D as [[q ->] _].
  unfold store_entries in S. apply obind_ret in S as (st & S & _).
  cbn [log_entries_ set_message_queue_ set_commit_index_ cluster_node_storage_p_ set_matched_index_ set_pending_append_reqs_] in S.
  unfold store_log_entries_and_metadata in S. cbn in S. apply obind_ret in S as (st1 & S & _).
  unfold ClusterNodeStorage_store_log_entries_and_metadata in S. apply obind_ret in S as (u & _ & S).
  apply obind_ret in S as (sl & V & _). unfold vec_range in V. destruct (_ && _) eqn:G in V; [|done].
  apply andb_true_iff in G as [_ G%Z.leb_le]. cbn [log_entries_] in G. lia.
Qed.

(** C37: a follower with a longer log crashes its leader: let the heartbeat of a
    node with file storage reach a node that has the sender's last entry in place
    and more entries behind it, and whose term is not ahead. The receiver answers
    with success and the last index of its own log; and if that index, which lies
    past the end of the sender's log, is acknowledged by a majority with this
    answer (as in a cluster of three), the sender does not survive it: it takes
    an index it does not have for committed and reads past the end of its log. *)
Theorem longer_follower_crashes_leader `{SI : ClusterNodeStorageInterface St, CI : ClusterManagerInterface C, CI' : ClusterManagerInterface C',
    KI : ClientManagerInterface K, KI' : ClientManagerInterface K', RT : ProtobufRuntime}
    (now : Z) (e x prev : LogEntry) (n : ClusterNode (ClusterNodeStorage * disk)) (m m' : ClusterNode St)
    (w : Master C K) (v v' : Master C' K') :
  let last_index := LogEntry_index x in
  last (log_entries_ n) = Some e -> last (log_entries_ m) = Some x -> zlength (log_entries_ m) <= INT_MAX ->
  cur_term_ m <= cur_term_ n -> 0 <= LogEntry_index e ->
  log_entries_ m !! Z.to_nat (LogEntry_index e) = Some prev -> LogEntry_term prev = LogEntry_term e ->
  zlength (log_entries_ n) <= last_index -> commit_index_ n < last_index ->
  total_nodes_ n ÷ 2 < count_synced last_index (<[node_id_ m := last_index]> (matched_index_ n)) + 1 ->
  handle_append_request now (heartbeat_request n e) (m, v) = Ret (m', v') ->
  exists resp, sent (partition_id_ m) v v' [(Some (node_id_ n), loadAppendEntriesResponse resp RaftMessage_new)] /\
    AppendEntriesResponse_last_index_synced resp = last_index /\
    forall r, handle_append_response resp (n, w) <> Ret r.
Proof.
  intros last_index Le Lx Sm Te Ie Pr Pt Lg Ci Mj A. apply handle_append_request_cases in A.
  destruct (accept_leader_frame now (heartbeat_request n e) m) as (st & AL & _).
  destruct A as [v1 T _|v1 _ Ck _|m1 v1 m2 y v2 _ _ F Ap La S]; [cbn in T; lia|rewrite AL in Ck; by apply (in_sync_known _ _ _ prev) in Ck|].
  rewrite AL in F. apply follow_leader_commit_frame in F as ((st1 & c1 & q1 & ->) & Cm & _).
  unfold append_log_entries in Ap. apply obind_ret in Ap as (log & Ap & E2). cbn in Ap. injection Ap as <-. injection E2 as <-.
  cbn [log_entries_ set_log_entries_ set_cluster_node_storage_p_ set_commit_index_ set_message_queue_ set_cur_leader_ set_cur_term_
    set_last_heart_beat_received_ set_state_] in La. rewrite Lx in La. injection La as <-.
  eexists. split; [|split].
  - exact (sent_app _ _ _ _ [] _ (sent_nil _ v v1 Cm) (send_to_sent _ _ _ _ _ _ S)).
  - done.
  - apply ack_beyond_log_crashes; [discriminate|exact Ci|exact Lg|exact Mj].
Qed.

(** Three nodes with file storage, each on a disk of its own. *)
Abbreviation file_storage := (ClusterNodeStorage * disk)%type.

Definition file_member (id : Z) : ClusterNode file_storage :=
  match ClusterNode_new (mkClusterNodeConfig 7 id 3) (ClusterNodeStorage_new 7 id (mkLogEntryMetaData 0), demo_disk) 0 0 with
  | Ret n => n
  | Fault _ => mkClusterNode 7 id 3 [] CANDIDATE CheckHeartbeat false false 0 0 0 0 0 (-1) [] 0 0 ∅ ∅ ∅
                 (ClusterNodeStorage_new 7 id (mkLogEntryMetaData 0), demo_disk) MessageQueue_new
  end.

Definition file_cluster : cluster (St := file_storage) (C := ClusterManager nat) (K := ClientManager) :=
  mkCluster {[ 0 := (file_member 0, demo_master); 1 := (file_member 1, demo_master); 2 := (file_member 2, demo_master) ]} [].

Lemma file_member_fresh id : In id [0; 1; 2] -> fresh_member 3 id (file_member id).
Proof. cbn. intros [<-|[<-|[<-|[]]]]; split_and!; vm_compute; (reflexivity || discriminate). Qed.

Lemma file_cluster_fresh : fresh_cluster 3 file_cluster.
Proof.
  split; [lia|]. split; [reflexivity|]. intros id n w L. unfold file_cluster in L. cbn [cluster_nodes] in L.
  apply lookup_insert_Some in L as [[<- [= <- _]]|[_ L]]; [apply file_member_fresh; cbn; auto|].
  apply lookup_insert_Some in L as [[<- [= <- _]]|[_ L]]; [apply file_member_fresh; cbn; auto|].
  apply lookup_singleton_Some in L as [<- [= <- _]]. apply file_member_fresh. cbn. auto.
Qed.

Abbreviation file_event := (cluster_event (St := file_storage) (C := ClusterManager nat) (K := ClientManager)).

(** Node 1 leads term 2 with an empty log; node 0 has an entry of term 1. *)
Definition demo_short_leader : ClusterNode file_storage := set_state_ LEADER (set_cur_term_ 2 (file_member 1)).
Definition demo_long_follower : ClusterNode file_storage :=
  set_log_entries_ [dummy_entry; demo_entry 1 1 5 (str "a")] (set_cur_term_ 1 (file_member 0)).

Lemma longer_follower_crashes_leader_witness :
  exists m' v' resp, handle_append_request 0 (heartbeat_request demo_short_leader dummy_entry) (demo_long_follower, demo_master) = Ret (m', v') /\
    sent 7 demo_master v' [(Some 1, loadAppendEntriesResponse resp RaftMessage_new)] /\
    forall r, handle_append_response resp (demo_short_leader, demo_master) <> Ret r.
Proof.
  destruct (handle_append_request 0 (heartbeat_request demo_short_leader dummy_entry) (demo_long_follower, demo_master)) as [[m' v']|] eqn:A;
    [|vm_compute in A; discriminate].
  pose proof (longer_follower_crashes_leader 0 dummy_entry (demo_entry 1 1 5 (str "a")) dummy_entry demo_short_leader demo_long_follower m'
    demo_master demo_master v' ltac:(vm_compute; reflexivity) ltac:(vm_compute; reflexivity) ltac:(vm_compute; discriminate)
    ltac:(vm_compute; discriminate) ltac:(vm_compute; discriminate) ltac:(vm_compute; reflexivity) eq_refl ltac:(vm_compute; discriminate)
    ltac:(vm_compute; reflexivity) ltac:(vm_compute; reflexivity) A) as (resp & S & _ & F).
  exists m', v', resp. split; [reflexivity|]. split; [exact S|exact F].
Defined.

(** Node 0 is elected and logs a message that reaches nobody; node 1 is elected
    by node 2 in the next term, and its heartbeat reaches node 0, which answers. *)
Definition file_task (id : Z) : file_event := NodeEvent id (TaskRuns 0 (100 + id)).

Definition leader_change : list file_event :=
  [NodeEvent 0 (VoteTimerFires 0); NodeEvent 0 VoteDelay; Arrives 1; file_task 1; Arrives 1; file_task 0;
   ClientSends 0 (demo_put_message (str "a")); file_task 0] ++
  [NodeEvent 1 (VoteTimerFires 0); NodeEvent 1 VoteDelay; Arrives 3; file_task 2; Arrives 4; file_task 1;
   NodeEvent 1 HeartbeatTimer; Arrives 5; file_task 0; Arrives 5].

Definition next_step (id : Z) (e : node_event) (cl : cluster (St := file_storage) (C := ClusterManager nat) (K := ClientManager))
    : option (outcome unit) :=
  (fun s => let* _ := node_step e s in Ret tt) <$> (cluster_nodes cl !! id).

(** An ordinary change of leader can crash the new leader: in a run of a
    fresh cluster of three with file storage and without restarts, node 0 leads
    term 1 and logs a message that is not replicated yet, node 1 is elected
    in term 2 with an empty log and sends a heartbeat; node 0 steps down and
    answers with the last index of its own log; and when node 1 handles the
    answer it takes an index it does not have for committed and reads past the
    end of its log. *)
Theorem leader_change_crashes :
  fresh_cluster 3 file_cluster /\ forallb steady leader_change = true /\
  elections leader_change file_cluster = [(1, 0); (2, 1)] /\
  leaders 2 (cluster_run leader_change file_cluster) = [1] /\
  next_step 1 (TaskRuns 0 0) (cluster_run leader_change file_cluster) = Some (Fault OutOfRange).
Proof. split; [apply file_cluster_fresh|]. split_and!; vm_compute; reflexivity. Qed.
