(* ===== verification/ClusterMatching.v ===== *)
(** * Log matching in a cluster

    An entry that two nodes have at the same position and with the same term is
    the same entry, and so are all entries before it, as long as leaders keep
    their term and their log while they lead. The proof keeps every entry ever
    created in a ghost history, with the term of the entry before it. *)

From S2P Require Import Prelude MessageQueue WireFormat FlowTypes FlowCodec FlowCodecFacts RaftMessage LogStorage ClusterManager ClientManager Configuration ClusterNode ClusterNodeFacts NodeElection NodeLog NodeTypes NodeQueue Network ClusterElection ClusterLog.

Local Open Scope Z_scope.

(** ** Histories of entries *)

(** An entry as its leader created it: at which position, after an entry of
    which term, and by whom. *)
Record creation := mkCreation {
  created_at : nat;
  created_after : Z;
  created_entry : LogEntry;
  creator : Z
}.

Abbreviation created_term h := (LogEntry_term (created_entry h)).

(** [e] was created for position [i] after an entry of term [t]. *)
Definition created (H : list creation) (i : nat) (t : Z) (e : LogEntry) : Prop := exists c, mkCreation i t e c ∈ H.

(** A log whose entries, after the placeholder, follow each other as they were
    created. *)
Definition linked (H : list creation) (log : list LogEntry) : Prop :=
  log !! O = Some dummy_entry /\
  forall i e, log !! S i = Some e -> exists p, log !! i = Some p /\ created H (S i) (LogEntry_term p) e.

(** No two entries were created for one position in one term. *)
Definition functional (H : list creation) : Prop :=
  forall h h', h ∈ H -> h' ∈ H -> created_at h = created_at h' -> created_term h = created_term h' -> h = h'.

Lemma created_more H H' i t e : H ⊆ H' -> created H i t e -> created H' i t e.
Proof. intros Sub [c X]. exists c. auto. Qed.

Lemma linked_more H H' log : H ⊆ H' -> linked H log -> linked H' log.
Proof.
  intros Sub [D L]. split; [done|]. intros i e (p & P & X)%L. exists p. split; [done|]. by eapply created_more.
Qed.

Lemma linked_snoc H log p e :
  linked H log -> last log = Some p -> created H (length log) (LogEntry_term p) e -> linked H (log ++ [e]).
Proof.
  intros [D L] La X. rewrite last_lookup in La. pose proof (lookup_lt_Some _ _ _ D) as Ln. split; [by rewrite lookup_app_l by lia|].
  intros i x Y. destruct (decide (S i < length log)%nat) as [Lt|Ge].
  - rewrite lookup_app_l in Y by lia. rewrite lookup_app_l by lia. by apply L.
  - pose proof (lookup_lt_Some _ _ _ Y) as Li. rewrite length_app in Li. cbn in Li. assert (S i = length log) as Si by lia.
    rewrite Si in Y |- *. rewrite list_lookup_middle in Y by done. injection Y as <-. exists p. split; [|done].
    rewrite lookup_app_l by lia. rewrite <- La. f_equal. lia.
Qed.

Lemma linked_take H log i : linked H log -> linked H (take (S i) log).
Proof.
  intros [D L]. split; [by rewrite lookup_take_lt by lia|]. intros j e X.
  destruct (decide (S j < S i)%nat) as [Lt|Ge]; [|by rewrite lookup_take_ge in X by lia].
  rewrite lookup_take_lt in X by lia. rewrite lookup_take_lt by lia. by apply L.
Qed.

(** Logs that are linked in a functional history match. *)
Lemma linked_match H a b : functional H -> linked H a -> linked H b -> logs_match a b.
Proof.
  intros Fu [Da La] [Db Lb] i. induction i as [|i IH]; intros x y X Y T.
  - destruct a as [|u a], b as [|v b]; try done. injection Da as ->. injection Db as ->. done.
  - destruct (La i x X) as (p & P & c & Cx). destruct (Lb i y Y) as (q & Q & d & Cy).
    pose proof (Fu _ _ Cx Cy eq_refl T) as E. injection E as Tp <- _.
    rewrite (take_S_r a (S i) x X), (take_S_r b (S i) x Y). f_equal. by eapply IH.
Qed.

(** ** Append requests *)

(** What an append request carries was created after what it says precedes it. *)
Definition follows (H : list creation) (m : RaftMessage) : Prop :=
  let req := get_append_request m in
  type m = APPEND_ENTRIES_REQUEST ->
  AppendEntriesRequest_entries req = [] \/
  exists e, AppendEntriesRequest_entries req = [e] /\
    created H (S (Z.to_nat (AppendEntriesRequest_prev_log_index req))) (AppendEntriesRequest_prev_log_term req) e.

Lemma follows_more H H' m : H ⊆ H' -> follows H m -> follows H' m.
Proof.
  intros Sub F T. destruct (F T) as [E|(e & E & X)]; [by left|right]. exists e. split; [done|]. by eapply created_more.
Qed.

Section Nodes.
Context {St C K : Type}.
Context `{SI : ClusterNodeStorageInterface St, CI : ClusterManagerInterface C, KI : ClientManagerInterface K,
  RT : ProtobufRuntime} {CL : ClusterManagerLaws C} {LW : ProtobufLaws RT}.
Abbreviation node := (ClusterNode St).

(** A log stays linked, or a leader creates an entry. *)
Lemma log_step_linked H (n : node) log :
  linked H (log_entries_ n) -> Forall (fun x => follows H x.2) (waiting (node_id_ n) n) -> log_small n -> log_step n log ->
  linked H log \/
  exists p e, state_ n = LEADER /\ last (log_entries_ n) = Some p /\ LogEntry_term e = cur_term_ n /\ log = log_entries_ n ++ [e].
Proof.
  intros L F Sm [|op id msg Ld _|m ts log' IO T Te E B]; [by left|right|left].
  - destruct (last_is_Some (log_entries_ n)) as [_ [p La]]; [intros E; destruct L as [D _]; by rewrite E in D|].
    exists p, (new_entry op id msg n). done.
  - unfold waiting in F. rewrite IO in F. inversion F as [|? ? Fm _]. subst. cbn [snd] in Fm.
    apply in_sync_spec in E as (Pr & p & P & Tp); [|done]. destruct (Fm T) as [En|(e & En & X)]; rewrite En in B.
    { cbn in B. by injection B as <-. }
    apply append_loop_one in B as [->| ->]; [done| |done|exact Sm]. set (i := Z.to_nat _) in *.
    assert (Li : (i < length (log_entries_ n))%nat) by (by eapply lookup_lt_Some).
    apply (linked_snoc _ _ p); [by apply linked_take| |].
    + rewrite last_lookup, length_take, Nat.min_l by lia. cbn [Nat.pred]. by rewrite lookup_take_lt by lia.
    + rewrite length_take, Nat.min_l, Tp by lia. done.
Qed.

(** Append requests carry a piece of the sender's log. *)
Lemma may_send_follows H p (n : node) m : linked H (log_entries_ n) -> may_send n m -> follows H (set_partition_id p m.2).
Proof.
  intros [_ L] S. destruct S as [f i prev entry Hi P E|e S La|f|f e La|c t|c t S T V|e V La]; cbn [snd]; intros T'; try discriminate; [right|by left].
  exists entry. split.
  - assert (Cp : LogEntry_CopyFrom entry LogEntry_new = entry) by apply LogEntry_merge_into_new.
    unfold entry_request. rewrite Cp. done.
  - replace (Z.to_nat i) with (S (Z.to_nat (i - 1))) in E by lia. destruct (L _ _ E) as (q & Q & X). rewrite P in Q. injection Q as <-. exact X.
Qed.

Lemma step_sends_follows H e id p ids (n n' : node) ms :
  linked H (log_entries_ n') -> step_sends e n n' ms -> Forall (fun x => follows H x.2) (added id p ids ms).
Proof.
  intros L Ss%step_sends_may. rewrite Forall_forall in Ss. apply Forall_forall. intros x (m & X & ->)%added_elem.
  destruct (Ss m X) as [Y|[Y _]]; [by apply (may_send_follows _ _ n')|]. by intros T.
Qed.

(** A leader that steps down has seen a later term. *)
Lemma step_down e (n n' : node) (w w' : Master C K) :
  node_step e (n, w) = Ret (n', w') -> state_ n = LEADER -> state_ n' <> LEADER -> cur_term_ n < cur_term_ n'.
Proof.
  unfold node_step. destruct e as [now rid| |now| |]; intros H L Nl.
  - unfold run_posted_task in H. destruct (io_context_ n) as [|[m|c] ts]; [injection H as <- <-; by destruct Nl| |].
    + unfold local_message_handler in H. destruct (type m); try (injection H as <- <-; by destruct Nl).
      * apply handle_vote_request_cases in H. revert Nl.
        destruct H as [w1 G D|n1 Lt Te [[-> _]|[-> T']]|n1 w1 Lt [(-> & _ & _)|[-> T']] D]; intros Nl; by destruct Nl.
      * apply obind_ret in H as (n1 & V & H). injection H as <- <-. unfold handle_vote_response in V. cbn in V. rewrite L in V. injection V as <-. by destruct Nl.
      * apply handle_append_request_cases in H. set (n0 := set_io_context_ ts n) in *. set (req := get_append_request m) in *.
        assert (X : cur_term_ n' = cur_term_ (accept_leader now req n0) /\ state_ n' = state_ (accept_leader now req n0) \/ state_ n' = LEADER).
        { destruct H as [w1 Te S|w1 Te E S|n1 w1 n2 x w2 Te E F A La S]; [by right|by left|left].
          apply append_log_entries_frame in A as (log & _ & ->). by apply follow_leader_commit_frame in F as ((? & ? & ? & ->) & _). }
        destruct X as [[-> E]|E]; [|by destruct Nl]. rewrite E in Nl. unfold accept_leader in *. cbn [state_ n0 set_io_context_] in *. rewrite L in *.
        rewrite (bool_decide_eq_false_2 (LEADER = CANDIDATE)), (bool_decide_eq_true_2 (LEADER = LEADER)) in Nl by done. cbn [orb andb] in Nl.
        cbn in Nl |- *. destruct (cur_term_ n <? AppendEntriesRequest_term req) eqn:G; [by apply Z.ltb_lt in G|]. by destruct Nl.
      * apply handle_append_response_cases in H as (n1 & w1 & R & U). apply trigger_entry_update_frame in U as (p & x & ->). revert Nl.
        destruct R as [q n1 w1 y _ A|q _ _|q y _ _]; [apply advance_commit_frame in A as ((? & ? & ? & ->) & _)|..]; intros Nl; by destruct Nl.
      * unfold handle_put_message in H. destruct (negb _) in H; [injection H as <- <-; by destruct Nl|]. apply add_log_entry_frame in H as (p & x & ->). by destruct Nl.
      * unfold handle_commit_message in H. destruct (negb _) in H; [injection H as <- <-; by destruct Nl|]. apply add_log_entry_frame in H as (p & x & ->). by destruct Nl.
      * apply open_queue_queue in H as [[q ->] _]. by destruct Nl.
    + apply handle_disconnect_queue in H as [[q ->] _]. by destruct Nl.
  - destruct (heartbeat_timer_ n); [|injection H as <- <-; by destruct Nl]. apply on_heartbeat_timer_node in H as (m & ->). by destruct Nl.
  - destruct (vote_timer_ n); [|injection H as <- <-; by destruct Nl]. apply obind_ret in H as (n1 & V & H). injection H as <- <-.
    apply on_vote_timer_cases in V as [[-> _]|[-> X]]; [by destruct Nl|done].
  - destruct (vote_delays_ n); [injection H as <- <-; by destruct Nl|]. apply on_vote_delay_cases in H as [(-> & _ & _)|(x & -> & _)]; by destruct Nl.
  - injection H as <- <-. destruct (stats_timer_ n); by destruct Nl.
Qed.
End Nodes.

(** ** Runs in which leaders keep their term and their log *)

Section Matching.
Context {St C K : Type}.
Context `{SI : ClusterNodeStorageInterface St, CI : ClusterManagerInterface C, KI : ClientManagerInterface K,
  RT : ProtobufRuntime} {CL : ClusterManagerLaws C} {LW : ProtobufLaws RT}.
Abbreviation node := (ClusterNode St).
Abbreviation event := (cluster_event (St := St) (C := C) (K := K)).
Abbreviation cluster' := (cluster (St := St) (C := C) (K := K)).

(** A node that leads before and after a step keeps its term, and only adds to its
    log. *)
Definition keeps_office (n n' : node) : bool :=
  negb (bool_decide (state_ n = LEADER)) || negb (bool_decide (state_ n' = LEADER)) ||
  ((cur_term_ n' =? cur_term_ n) && bool_decide (log_entries_ n `prefix_of` log_entries_ n')).

(** The step of the node that runs, if one runs and does not fault, satisfies [P]. *)
Definition checked_step (P : node -> node -> bool) (e : event) (cl : cluster') : bool :=
  match e with
  | NodeEvent id ev =>
      match cluster_nodes cl !! id with
      | Some (n, w) =>
          match node_step ev (n, w) with
          | Ret (n', _) => P n n'
          | Fault _ => true
          end
      | None => true
      end
  | _ => true
  end.

Fixpoint checked (P : node -> node -> bool) (es : list event) (cl : cluster') : bool :=
  match es with
  | [] => true
  | e :: es => checked_step P e cl && checked P es (cluster_step e cl)
  end.

Abbreviation orderly_step := (checked_step keeps_office).

Abbreviation orderly := (checked keeps_office).

Lemma keeps_office_spec (n n' : node) :
  keeps_office n n' = true -> state_ n = LEADER -> state_ n' = LEADER ->
  cur_term_ n' = cur_term_ n /\ log_entries_ n `prefix_of` log_entries_ n'.
Proof.
  unfold keeps_office. intros O L L'. rewrite !bool_decide_eq_true_2 in O by done. cbn [negb orb] in O.
  by apply andb_true_iff in O as [O1%Z.eqb_eq O2%bool_decide_eq_true_1].
Qed.

(** ** The invariant *)

(** A leader was elected in its term; what a node created is in past terms, or
    in the log of the leader it still is. *)
Definition accounts (W : list (Z * Z)) (H : list creation) (id : Z) (n : node) : Prop :=
  (state_ n = LEADER -> (cur_term_ n, id) ∈ W) /\
  forall h, h ∈ H -> creator h = id ->
    created_term h < cur_term_ n \/
    state_ n = LEADER /\ cur_term_ n = created_term h /\ log_entries_ n !! created_at h = Some (created_entry h).

Record matching_inv (N : Z) (W : list (Z * Z)) (H : list creation) (cl : cluster') : Prop := {
  match_elections : cluster_inv N cl W;
  match_holds : cluster_holds (fun _ n => linked H (log_entries_ n)) (fun x => follows H x.2) cl;
  match_accounts id n w : cluster_nodes cl !! id = Some (n, w) -> accounts W H id n;
  match_functional : functional H;
  match_won h : h ∈ H -> (created_term h, creator h) ∈ W
}.

(** What happens to a node of which something else than its queue of tasks is
    looked at, when no node runs. *)
Lemma quiet_nodes e (cl : cluster') id n' w' :
  steady e = true -> (forall id ev, e <> NodeEvent id ev) -> cluster_nodes (cluster_step e cl) !! id = Some (n', w') ->
  exists n w ts, cluster_nodes cl !! id = Some (n, w) /\ n' = set_io_context_ ts n.
Proof.
  intros Ok Ne X. assert (Same : forall n w, cluster_nodes cl !! id = Some (n, w) -> exists n0 w0 ts, cluster_nodes cl !! id = Some (n0, w0) /\ n = set_io_context_ ts n0).
  { intros n w E. exists n, w, (io_context_ n). split; [done|by destruct n]. }
  assert (Alt : forall f i, (forall s, exists ts, (f s).1 = set_io_context_ ts s.1) -> alter f i (cluster_nodes cl) !! id = Some (n', w') ->
    exists n w ts, cluster_nodes cl !! id = Some (n, w) /\ n' = set_io_context_ ts n).
  { intros f i Hf Y. destruct (decide (id = i)) as [->|Nid]; [|rewrite lookup_alter_ne in Y by done; by eapply Same].
    rewrite lookup_alter_eq in Y. destruct (cluster_nodes cl !! i) as [[n w]|]; [|done]. cbn in Y. injection Y as Y.
    destruct (Hf (n, w)) as [ts Ht]. rewrite Y in Ht. cbn in Ht. by exists n, w, ts. }
  destruct cl as [ns fl]. destruct e as [i ev|k|k|i r|i c|i w1|i st gt gv w1]; cbn [cluster_step cluster_nodes] in *; [by destruct (Ne i ev)|..|].
  - destruct (fl !! k) as [[i b]|]; [|by eapply Same]. eapply Alt; [|exact X]. intros s. by eexists.
  - by eapply Same.
  - destruct (serialize_as_message r); [|by eapply Same]. eapply Alt; [|exact X]. intros s. by eexists.
  - eapply Alt; [|exact X]. intros s. by eexists.
  - eapply Alt; [|exact X]. intros [n w]. exists (io_context_ n). by destruct n.
  - by unfold steady in Ok; rewrite andb_false_r in Ok.
Qed.

Lemma accounts_tasks W H id ts (n : node) : accounts W H id n -> accounts W H id (set_io_context_ ts n).
Proof. done. Qed.

(** ** Steps *)

Lemma holds_more H H' (cl : cluster') : H ⊆ H' ->
  cluster_holds (fun _ n => linked H (log_entries_ n)) (fun x => follows H x.2) cl ->
  cluster_holds (fun _ n => linked H' (log_entries_ n)) (fun x => follows H' x.2) cl.
Proof.
  intros Sub [Hn Hf]. split.
  - intros id n w E. destruct (Hn id n w E) as (O & L & F). split_and!; [done|by eapply linked_more|].
    eapply Forall_impl; [exact F|]. intros x. by apply follows_more.
  - eapply Forall_impl; [exact Hf|]. intros x [X1 X2]. split; [done|]. by eapply follows_more.
Qed.

Lemma quiet_matching N W H e (cl : cluster') :
  steady e = true -> (forall id ev, e <> NodeEvent id ev) -> matching_inv N W H cl ->
  matching_inv N (W ++ elected e cl) H (cluster_step e cl).
Proof.
  intros Ok Ne [I1 I2 I3 I4 I5]. assert (El : elected e cl = []) by (destruct e; try done; by destruct (Ne id e)).
  pose proof (cluster_step_inv N e cl W Ok I1) as I1'. rewrite El, app_nil_r in *. split; [done| | |done|done].
  - apply cluster_step_holds_quiet; try done. intros id r ->. cbn [snd]. intros T.
    unfold steady, cluster_event_ok, client_type in Ok. rewrite T in Ok. by rewrite !andb_false_r in Ok.
  - intros id n' w' X. destruct (quiet_nodes e cl id n' w' Ok Ne X) as (n & w & ts & E & ->). apply accounts_tasks. by eapply I3.
Qed.

(** What the node that runs accounts for afterwards, apart from what it creates. *)
Lemma accounts_step W H id ev (n n' : node) (w w' : Master C K) :
  accounts W H id n -> node_step ev (n, w) = Ret (n', w') -> keeps_office n n' = true ->
  accounts (W ++ if negb (bool_decide (state_ n = LEADER)) && bool_decide (state_ n' = LEADER) then [(cur_term_ n', id)] else []) H id n'.
Proof.
  intros [A1 A2] Sp Ko. pose proof (fwd_term _ _ (node_step_forward _ _ _ _ _ Sp)) as Fw. split.
  - intros L'. apply elem_of_app. destruct (decide (state_ n = LEADER)) as [L|L].
    + left. destruct (keeps_office_spec n n' Ko L L') as [-> _]. by apply A1.
    + right. rewrite bool_decide_eq_false_2, bool_decide_eq_true_2 by done. by left.
  - intros h X Cr. destruct (A2 h X Cr) as [Lt|(L & T & Lg)]; [left; lia|].
    destruct (decide (state_ n' = LEADER)) as [L'|L'].
    + right. destruct (keeps_office_spec n n' Ko L L') as [E Pr]. split_and!; [done|lia|]. by eapply prefix_lookup_Some.
    + left. pose proof (step_down _ _ _ _ _ Sp L L'). lia.
Qed.

Lemma node_matching_at N W H H' id ev (n n' : node) (w w' : Master C K) ns fl :
  let e : event := NodeEvent id ev in
  let W' := W ++ elected e (mkCluster ns fl) in
  matching_inv N W H (mkCluster ns fl) -> steady e = true -> ns !! id = Some (n, w) -> node_step ev (n, w) = Ret (n', w') ->
  H ⊆ H' -> (forall h, h ∈ H' -> h ∈ H \/ creator h = id) -> linked H' (log_entries_ n') -> functional H' ->
  (forall h, h ∈ H' -> (created_term h, creator h) ∈ W') -> accounts W' H' id n' ->
  matching_inv N W' H' (cluster_step e (mkCluster ns fl)).
Proof.
  intros e W' [I1 I2 I3 I4 I5] Ok E Sp Sub New L Fu Wo Ac. split; [by apply cluster_step_inv| | |done|done].
  - apply andb_true_iff in Ok as [Ok _].
    apply (holds_node_step (fun _ n => linked H' (log_entries_ n)) (fun x => follows H' x.2) id ev n n' w w'); [done|by eapply holds_more|done|done|].
    intros ms Ss. split; [done|]. by eapply step_sends_follows.
  - intros i x y X. unfold e in X. cbn [cluster_step] in X. rewrite E, Sp in X. cbn [cluster_nodes] in X.
    apply lookup_insert_Some in X as [[<- [= <- <-]]|[Ne X]]; [done|]. destruct (I3 i x y X) as [A1 A2]. split.
    + intros Ld. apply elem_of_app. left. by apply A1.
    + intros h Xh Cr. apply A2; [|done]. destruct (New h Xh) as [Y|Y]; [done|congruence].
Qed.

Lemma node_matching N W H id ev (cl : cluster') :
  let e : event := NodeEvent id ev in
  0 < N -> steady e = true -> orderly_step e cl = true -> (forall id n w, cluster_nodes cl !! id = Some (n, w) -> log_small n) ->
  matching_inv N W H cl -> exists H', matching_inv N (W ++ elected e cl) H' (cluster_step e cl).
Proof.
  intros e HN Ok Or Sm Inv. destruct cl as [ns fl]. unfold e in *. cbn [cluster_nodes checked_step] in *. pose proof Inv as [I1 I2 I3 I4 I5].
  destruct (ns !! id) as [[n w]|] eqn:E; [|exists H; cbn [elected cluster_step cluster_nodes]; rewrite E, app_nil_r; done].
  destruct (node_step ev (n, w)) as [[n' w']|] eqn:Sp; [|exists H; cbn [elected cluster_step cluster_nodes]; rewrite E, Sp, app_nil_r; done].
  pose proof (accounts_step W H id ev n n' w w' (I3 _ _ _ E) Sp Or) as Ac.
  set (W' := W ++ elected (NodeEvent id ev) (mkCluster ns fl)).
  assert (Ac' : accounts W' H id n') by (unfold W', elected; cbn [cluster_nodes]; rewrite E, Sp; exact Ac).
  assert (Wo : forall h, h ∈ H -> (created_term h, creator h) ∈ W') by (intros h X; apply elem_of_app; left; by apply I5).
  destruct (proj1 I2 id n w E) as (_ & L & F).
  destruct (log_step_linked H n (log_entries_ n')) as [L'|(p & x & Ld & La & Tx & Lg)];
    [done|by eapply (waiting_renamed id)|by eapply Sm|by eapply node_step_log| |].
  { exists H. apply (node_matching_at N W H H id ev n n' w w'); try done. by left. }
  set (h0 := mkCreation (length (log_entries_ n)) (LogEntry_term p) x id). exists (h0 :: H).
  assert (Sub : H ⊆ h0 :: H) by (intros h X; by right).
  assert (Won : (cur_term_ n, id) ∈ W) by (by apply (I3 _ _ _ E)).
  assert (Fresh : forall h, h ∈ H -> created_at h = created_at h0 -> created_term h <> created_term h0).
  { intros h X At Te. cbn in At, Te. rewrite Tx in Te. assert (Cr : creator h = id).
    { apply (wins_unique N (mkCluster ns fl) W (cur_term_ n)); [done|done|rewrite <- Te; by apply I5|done]. }
    destruct (proj2 (I3 _ _ _ E) h X Cr) as [Lt|(_ & _ & Lk)]; [lia|]. rewrite At in Lk. apply lookup_lt_Some in Lk. cbn in Lk. lia. }
  apply (node_matching_at N W H (h0 :: H) id ev n n' w w'); try done.
  - intros h [->|X]%elem_of_cons; [by right|by left].
  - rewrite Lg. apply (linked_snoc _ _ p); [|done|exists id; by left]. by eapply linked_more; [|exact L].
  - intros h h' [->|X]%elem_of_cons [->|X']%elem_of_cons At Te; [done|by destruct (Fresh h' X')|by destruct (Fresh h X)|by apply I4].
  - intros h [->|X]%elem_of_cons; [|by apply Wo]. apply elem_of_app. left. cbn. by rewrite Tx.
  - destruct Ac' as [A1 A2]. split; [done|]. intros h [->|X]%elem_of_cons Cr; [|by apply A2]. cbn. rewrite Tx, Lg, list_lookup_middle by done.
    destruct (decide (state_ n' = LEADER)) as [L'|L'].
    + right. by destruct (keeps_office_spec n n' Or Ld L') as [-> _].
    + left. by eapply step_down.
Qed.

Lemma matching_run N W H es (cl : cluster') :
  0 < N -> forallb steady es = true -> orderly es cl = true -> logs_fit es cl -> matching_inv N W H cl ->
  exists H', matching_inv N (W ++ elections es cl) H' (cluster_run es cl).
Proof.
  intros HN. revert W H cl. induction es as [|e es IH]; intros W H cl Ok Or Lf I; [exists H; cbn; by rewrite app_nil_r|].
  cbn [forallb checked] in Ok, Or. apply andb_true_iff in Ok as [Oe Ok]. apply andb_true_iff in Or as [Ore Or]. cbn [elections cluster_run].
  rewrite app_assoc. assert (S : exists H1, matching_inv N (W ++ elected e cl) H1 (cluster_step e cl)).
  { destruct e as [id ev|k|k|id r|id c|id w1|id st gt gv w1]; [|exists H; by apply quiet_matching..].
    apply (node_matching N W H); try done. apply (Lf O). }
  destruct S as [H1 I1]. apply (IH _ H1); try done. intros k. apply (Lf (S k)).
Qed.

(** A cluster of new nodes without stored entries. *)
Definition blank_cluster (N : Z) (cl : cluster') : Prop :=
  fresh_cluster N cl /\ forall id n w, cluster_nodes cl !! id = Some (n, w) -> log_entries_ n = [dummy_entry].

Lemma blank_matching N cl : blank_cluster N cl -> matching_inv N [] [] cl.
Proof.
  intros [F Lg]. split; [by apply fresh_inv| | |intros h h' X; by apply not_elem_of_nil in X|intros h X; by apply not_elem_of_nil in X].
  - destruct F as (_ & Fl & Fm). split; [|rewrite Fl; constructor]. intros id n w E. pose proof (Lg _ _ _ E) as L.
    apply Fm in E as (_ & _ & _ & _ & _ & _ & _ & Io & O). split_and!; [done| |unfold waiting; rewrite Io; constructor].
    rewrite L. split; [done|]. intros i e X. by destruct i.
  - intros id n w E. destruct F as (_ & _ & Fm). apply Fm in E as (_ & _ & _ & St0 & _). split; [congruence|]. intros h X. by apply not_elem_of_nil in X.
Qed.

Lemma run_logs_match N es (cl : cluster') :
  blank_cluster N cl -> forallb steady es = true -> orderly es cl = true -> logs_fit es cl ->
  forall a b na nb wa wb, cluster_nodes (cluster_run es cl) !! a = Some (na, wa) ->
    cluster_nodes (cluster_run es cl) !! b = Some (nb, wb) -> logs_match (log_entries_ na) (log_entries_ nb).
Proof.
  intros F Ok Or Lf a b na nb wa wb A B.
  destruct (matching_run N [] [] es cl (proj1 (proj1 F)) Ok Or Lf (blank_matching N cl F)) as (H' & [_ [Hn _] _ Fu _]).
  apply Hn in A as (_ & La & _). apply Hn in B as (_ & Lb & _). by apply (linked_match H').
Qed.
End Matching.

(** ** Properties *)

(** C3: log matching: in every run of a cluster of new nodes, without restarts,
    whatever is delayed, reordered or lost and however leaders change, in which
    no node changes its term or drops entries while it leads, the logs of any two
    nodes match: an entry of the same term at the same position is the same entry
    in both, and so are all entries before it. *)
Theorem log_matching `{ClusterNodeStorageInterface St, CI : ClusterManagerInterface C, CL : !ClusterManagerLaws C,
    ClientManagerInterface K} `{LW : ProtobufLaws}
    (N : Z) (es : list (cluster_event (St := St) (C := C) (K := K))) (cl : cluster) :
  blank_cluster N cl -> forallb steady es = true -> checked keeps_office es cl = true -> logs_fit es cl ->
  forall a b na nb wa wb, cluster_nodes (cluster_run es cl) !! a = Some (na, wa) ->
    cluster_nodes (cluster_run es cl) !! b = Some (nb, wb) -> logs_match (log_entries_ na) (log_entries_ nb).
Proof. intros F Ok Or Lf. by apply (run_logs_match N es cl). Qed.

Lemma demo_cluster_blank : blank_cluster 3 demo_cluster.
Proof.
  split; [apply demo_cluster_fresh|]. unfold demo_cluster. cbn [cluster_nodes]. intros id n w L.
  apply lookup_insert_Some in L as [[<- [= <- _]]|[_ L]]; [reflexivity|].
  apply lookup_insert_Some in L as [[<- [= <- _]]|[_ L]]; [reflexivity|].
  apply lookup_singleton_Some in L as [<- [= <- _]]. reflexivity.
Qed.

(** The log of a node. *)
Definition log_of {St C K : Type} (id : Z) (cl : cluster (St := St) (C := C) (K := K)) : list LogEntry :=
  match cluster_nodes cl !! id with Some (n, _) => log_entries_ n | None => [] end.

Lemma log_of_match {St C K : Type} a b (cl : cluster (St := St) (C := C) (K := K)) :
  (forall na nb wa wb, cluster_nodes cl !! a = Some (na, wa) -> cluster_nodes cl !! b = Some (nb, wb) ->
    logs_match (log_entries_ na) (log_entries_ nb)) -> logs_match (log_of a cl) (log_of b cl).
Proof.
  unfold log_of. destruct (cluster_nodes cl !! a) as [[na wa]|]; [|intros _ i x y X; done].
  destruct (cluster_nodes cl !! b) as [[nb wb]|]; [|intros _ i x y _ Y; done]. intros M. by apply (M na nb wa wb).
Qed.

Lemma log_matching_witness :
  length (log_of 0 (cluster_run demo_put_run demo_cluster)) = 2%nat /\
  logs_match (log_of 0 (cluster_run demo_put_run demo_cluster)) (log_of 1 (cluster_run demo_put_run demo_cluster)).
Proof.
  split; [vm_compute; reflexivity|].
  assert (Ok : forallb steady demo_put_run = true) by (vm_compute; reflexivity).
  assert (Or : checked keeps_office demo_put_run demo_cluster = true) by (vm_compute; reflexivity).
  exact (log_of_match 0 1 _ (log_matching 3 demo_put_run demo_cluster demo_cluster_blank Ok Or demo_put_run_fits 0 1)).
Defined.

(** The condition on leaders is needed, and the code does not ensure it: in the
    run of [two_leaders_in_term] a leader takes over the term of a vote request,
    and two nodes have different entries of one term at one position. *)
Theorem disorderly_logs_differ :
  blank_cluster 3 demo_cluster /\ forallb steady demo_two_leaders = true /\ checked keeps_office demo_two_leaders demo_cluster = false /\
  let cl := cluster_run demo_two_leaders demo_cluster in ~ logs_match (log_of 0 cl) (log_of 1 cl).
Proof.
  split; [apply demo_cluster_blank|]. split; [vm_compute; reflexivity|]. split; [vm_compute; reflexivity|]. intros cl M.
  destruct (log_of 0 cl !! 1%nat) as [x|] eqn:X; [|vm_compute in X; discriminate].
  destruct (log_of 1 cl !! 1%nat) as [y|] eqn:Y; [|vm_compute in Y; discriminate].
  assert (T : LogEntry_term x = LogEntry_term y) by (vm_compute in X, Y; injection X as <-; injection Y as <-; reflexivity).
  pose proof (M 1%nat x y X Y T) as E. vm_compute in E. discriminate E.
Qed.
