(* ===== verification/ClusterReplicas.v ===== *)
(** * Agreement of the replicas of a queue

    Each node of a cluster has its own copy of the message queue of the
    partition. Where logs match and committed entries stay in place, the copies
    agree: they differ only in how far their nodes have committed. *)

From S2P Require Import Prelude MessageQueue WireFormat FlowTypes FlowCodec FlowCodecFacts RaftMessage LogStorage ClusterManager ClientManager Configuration ClusterNode ClusterNodeFacts NodeElection NodeLog NodeTypes NodeQueue Network ClusterElection ClusterLog ClusterMatching.

Local Open Scope Z_scope.

Section Replicas.
Context {St C K : Type}.
Context `{SI : ClusterNodeStorageInterface St, CI : ClusterManagerInterface C, KI : ClientManagerInterface K,
  RT : ProtobufRuntime} {CL : ClusterManagerLaws C} {LW : ProtobufLaws RT}.
Abbreviation node := (ClusterNode St).
Abbreviation event := (cluster_event (St := St) (C := C) (K := K)).
Abbreviation cluster' := (cluster (St := St) (C := C) (K := K)).

(** [commits_kept] as a check of a step. *)
Definition keeps_commits (n n' : node) : bool := bool_decide (commits_kept n n').

(** A queue that shows the committed part of the log. *)
Record replica (n : node) : Prop := {
  replica_reachable : reachable (message_queue_ n);
  replica_commit : 0 <= commit_index_ n < zlength (log_entries_ n);
  replica_current : queue_current n
}.

Lemma replica_tasks ts (n : node) : replica n -> replica (set_io_context_ ts n).
Proof. intros [R C0 Q]. by split. Qed.

Lemma replica_step ev (n n' : node) (w w' : Master C K) :
  replica n -> log_small n -> node_step ev (n, w) = Ret (n', w') -> commits_kept n n' -> replica n'.
Proof.
  intros [R C0 Q] L Sp Kc. pose proof (node_step_queue _ _ _ _ _ R (proj1 C0) L Sp) as D.
  pose proof (fwd_commit _ _ (node_step_forward _ _ _ _ _ Sp)) as Fw. split.
  - exact (drives_reachable _ _ _ R D).
  - split; [lia|]. destruct Kc as [B E%(f_equal length)]. rewrite !length_take in E. unfold zlength in *. lia.
  - by eapply queue_step_current; [exact R|lia|exact D|exact Kc|].
Qed.

Definition all_replicas (cl : cluster') : Prop := forall id n w, cluster_nodes cl !! id = Some (n, w) -> replica n.

Lemma replicas_step e (cl : cluster') :
  steady e = true -> checked_step keeps_commits e cl = true -> (forall id n w, cluster_nodes cl !! id = Some (n, w) -> log_small n) ->
  all_replicas cl -> all_replicas (cluster_step e cl).
Proof.
  intros Ok Kc Sm H i x y X. assert (Cs : (exists id ev, e = NodeEvent id ev) \/ forall id ev, e <> NodeEvent id ev) by (destruct e; eauto).
  destruct Cs as [(id & ev & ->)|Ne].
  - destruct cl as [ns fl]. cbn [checked_step cluster_step cluster_nodes] in *. destruct (ns !! id) as [[n w]|] eqn:E; [|by eapply H].
    destruct (node_step ev (n, w)) as [[n' w']|] eqn:Sp; [|by eapply H]. cbn [cluster_nodes] in X.
    apply lookup_insert_Some in X as [[<- [= <- <-]]|[_ X]]; [|by eapply H]. apply bool_decide_eq_true_1 in Kc.
    by eapply replica_step; [eapply H|eapply Sm|..].
  - destruct (quiet_nodes e cl i x y Ok) as (n & w & ts & E & ->); [done..|]. by eapply replica_tasks, H.
Qed.

Lemma replicas_run es (cl : cluster') :
  forallb steady es = true -> checked keeps_commits es cl = true -> logs_fit es cl -> all_replicas cl -> all_replicas (cluster_run es cl).
Proof.
  revert cl. induction es as [|e es IH]; intros cl Ok Kc Lf H; [done|]. cbn [forallb checked] in Ok, Kc.
  apply andb_true_iff in Ok as [Oe Ok]. apply andb_true_iff in Kc as [Ke Kc]. cbn [cluster_run].
  apply IH; [done|done|intros k; apply (Lf (S k))|]. apply replicas_step; try done. apply (Lf O).
Qed.

Lemma empty_replicas N (cl : cluster') : empty_cluster N cl -> all_replicas cl.
Proof.
  intros [_ E] id n w (L & Q & C0)%E. split.
  - rewrite Q. apply reach_new.
  - rewrite C0. unfold zlength. lia.
  - unfold queue_current. by rewrite Q, C0.
Qed.

(** Where the log of [nb] has the last entry [na] committed, in place and with its
    term, the committed log of [na] is the beginning of that of [nb]. *)
Lemma replicas_compare (na nb : node) x y :
  replica na -> replica nb -> logs_match (log_entries_ na) (log_entries_ nb) -> commit_index_ na <= commit_index_ nb ->
  log_entries_ na !! Z.to_nat (commit_index_ na) = Some x -> log_entries_ nb !! Z.to_nat (commit_index_ na) = Some y ->
  LogEntry_term x = LogEntry_term y ->
  persisted (message_queue_ nb) =
    persisted (foldl exec (message_queue_ na) (log_calls (newly_committed (commit_index_ na) (commit_index_ nb) (log_entries_ nb)))).
Proof.
  intros [Ra Ca Qa] [Rb Cb Qb] M Le X Y T. rewrite Qb. unfold replay. rewrite (replay_split (commit_index_ na)) by lia.
  rewrite foldl_app. apply persisted_foldl; [apply log_calls_from_log|]. rewrite Qa. by apply replay_agree, eq_sym, (M _ x y).
Qed.
End Replicas.

(** ** Properties *)

(** C4: the replicas of a queue agree: in every run of a cluster of new nodes,
    without restarts, in which leaders keep their term and log and committed
    entries stay in place, a node whose log has the last entry another node
    committed has the persisted queue of that node with the entries it committed
    since applied to it, in order; when both have committed equally far, they
    have the same messages and the same committed ids. *)
Theorem replicas_agree `{ClusterNodeStorageInterface St, CI : ClusterManagerInterface C, CL : !ClusterManagerLaws C,
    ClientManagerInterface K} `{LW : ProtobufLaws}
    (N : Z) (es : list (cluster_event (St := St) (C := C) (K := K))) (cl : cluster) :
  blank_cluster N cl -> empty_cluster N cl -> forallb steady es = true -> logs_fit es cl ->
  checked keeps_office es cl = true -> checked keeps_commits es cl = true ->
  forall a b na nb wa wb x y, cluster_nodes (cluster_run es cl) !! a = Some (na, wa) ->
    cluster_nodes (cluster_run es cl) !! b = Some (nb, wb) -> commit_index_ na <= commit_index_ nb ->
    log_entries_ na !! Z.to_nat (commit_index_ na) = Some x -> log_entries_ nb !! Z.to_nat (commit_index_ na) = Some y ->
    LogEntry_term x = LogEntry_term y ->
    persisted (message_queue_ nb) =
      persisted (foldl exec (message_queue_ na) (log_calls (newly_committed (commit_index_ na) (commit_index_ nb) (log_entries_ nb)))) /\
    (commit_index_ na = commit_index_ nb -> persisted (message_queue_ na) = persisted (message_queue_ nb)).
Proof.
  intros F E Ok Lf Or Kc a b na nb wa wb x y A B Le X Y T.
  pose proof (replicas_run es cl Ok Kc Lf (empty_replicas N cl E)) as R. pose proof (R _ _ _ A) as Ra. pose proof (R _ _ _ B) as Rb.
  assert (M : logs_match (log_entries_ na) (log_entries_ nb)) by (by eapply (run_logs_match N es cl)).
  pose proof (replicas_compare na nb x y Ra Rb M Le X Y T) as P. split; [exact P|]. intros Ci. rewrite P, Ci, newly_committed_none. done.
Qed.

(** What a node has committed: the index, and the term of the entry there. *)
Definition tip {St C K : Type} (id : Z) (cl : cluster (St := St) (C := C) (K := K)) : option (Z * Z) :=
  x ← cluster_nodes cl !! id; e ← log_entries_ x.1 !! Z.to_nat (commit_index_ x.1); Some (commit_index_ x.1, LogEntry_term e).

(** The persisted queue of a node. *)
Definition queue_of {St C K : Type} (id : Z) (cl : cluster (St := St) (C := C) (K := K)) : option (gmap Z bytes * gset Z) :=
  x ← cluster_nodes cl !! id; Some (persisted (message_queue_ x.1)).

Lemma tip_lookup {St C K : Type} id c t (cl : cluster (St := St) (C := C) (K := K)) :
  tip id cl = Some (c, t) ->
  exists n w e, cluster_nodes cl !! id = Some (n, w) /\ commit_index_ n = c /\ log_entries_ n !! Z.to_nat c = Some e /\ LogEntry_term e = t /\
    queue_of id cl = Some (persisted (message_queue_ n)).
Proof.
  unfold tip, queue_of. destruct (cluster_nodes cl !! id) as [[n w]|]; [|done]. cbn. intros X.
  destruct (log_entries_ n !! _) as [e|] eqn:E; [|done]. injection X as <- <-. by exists n, w, e.
Qed.

(** The leader's heartbeat tells node 1 that the message of [demo_put_run] is
    committed. *)
Definition demo_replicated : list demo_event := demo_put_run ++ [NodeEvent 0 HeartbeatTimer; Arrives 3; demo_task 1].

Lemma demo_replicated_fits : logs_fit demo_replicated demo_cluster.
Proof.
  intros k id n w. apply small_logs_spec. destruct (decide (k < 15)%nat) as [L|L].
  - do 15 (destruct k as [|k]; [vm_compute; reflexivity|]). lia.
  - rewrite take_ge by (cbn; lia). vm_compute. reflexivity.
Qed.

Lemma replicas_agree_witness :
  let cl := cluster_run demo_replicated demo_cluster in
  queue_of 0 cl = Some ({[ 100 := str "a" ]}, ∅) /\ queue_of 0 cl = queue_of 1 cl.
Proof.
  intros cl. split; [vm_compute; reflexivity|].
  assert (A : tip 0 cl = Some (1, 1)) by (vm_compute; reflexivity). assert (B : tip 1 cl = Some (1, 1)) by (vm_compute; reflexivity).
  apply tip_lookup in A as (na & wa & x & La & Ca & Ea & Ta & Qa). apply tip_lookup in B as (nb & wb & y & Lb & Cb & Eb & Tb & Qb).
  assert (Ok : forallb steady demo_replicated = true) by (vm_compute; reflexivity).
  assert (Or : checked keeps_office demo_replicated demo_cluster = true) by (vm_compute; reflexivity).
  assert (Kc : checked keeps_commits demo_replicated demo_cluster = true) by (vm_compute; reflexivity).
  rewrite Qa, Qb. f_equal. rewrite <- Ca in Ea, Eb.
  refine (proj2 (replicas_agree 3 demo_replicated demo_cluster demo_cluster_blank demo_cluster_empty Ok demo_replicated_fits Or Kc
    0 1 na nb wa wb x y La Lb _ Ea Eb _) _); lia.
Defined.
