(* ===== verification/ClusterProgress.v ===== *)
(** * Progress of elections

    A started cluster of two or more nodes can elect any of its nodes: the
    schedule is given. A cluster of one node never elects it, because votes are
    only counted when an answer of another node arrives. *)

From S2P Require Import Prelude MessageQueue WireFormat FlowTypes FlowCodec FlowCodecFacts RaftMessage LogStorage ClusterManager ClientManager Configuration ClusterNode ClusterNodeFacts NodeElection NodeLog NodeTypes Network ClusterElection.

Local Open Scope Z_scope.

(** ** A single node *)

Section Single.
Context {St C K : Type}.
Context `{SI : ClusterNodeStorageInterface St, CI : ClusterManagerInterface C, KI : ClientManagerInterface K,
  RT : ProtobufRuntime} {CL : ClusterManagerLaws C} {LW : ProtobufLaws RT}.
Abbreviation node := (ClusterNode St).

(** The only node is no leader, and no vote is asked for or under way. *)
Definition alone (id : Z) (n : node) : Prop := id = 0 /\ state_ n <> LEADER.

Definition leaderless : cluster (St := St) (C := C) (K := K) -> Prop :=
  cluster_holds alone (fun x => silent x.2 = true).

Lemma silent_set_partition p r : silent (set_partition_id p r) = silent r.
Proof. done. Qed.

Lemma alone_step id e (n n' : node) (w w' : Master C K) ms ids :
  node_holds alone (fun x => silent x.2 = true) id n -> Forall (fun i => i = 0) (id :: ids) -> event_ok e = true ->
  node_step e (n, w) = Ret (n', w') -> step_sends e n n' ms ->
  alone id n' /\ Forall (fun x => silent x.2 = true) (added id (partition_id_ n) ids ms).
Proof.
  intros (O & (-> & L) & F) R Ev Sp Ss. inversion R as [|? ? _ Ri]. subst.
  assert (Si : Forall (fun m => silent m.2 = true) ms -> Forall (fun x => silent x.2 = true) (added 0 (partition_id_ n) ids ms)).
  { intros Fm. apply Forall_forall. intros x (m & X & ->)%added_elem. rewrite silent_set_partition. rewrite Forall_forall in Fm. by apply Fm. }
  destruct (node_step_election e n n' w w' ms O Sp Ss) as
    [ms T Kp Ta De Ls Q|m ts ms Q Q' Ty G t Te Te' Vf Vc Ls Qs|m ts Q Q' Ty t c Te Te' Vf Vt Ls|x Q Vn Vd Te Vf Vc Ls].
  - split; [|by apply Si]. split; [done|]. auto.
  - exfalso. unfold waiting in F. rewrite Q in F. inversion F as [|? ? X _]. subst. cbn [snd] in X. unfold silent in X.
    by rewrite Ty, G in X.
  - exfalso. unfold waiting in F. rewrite Q in F. inversion F as [|? ? X _]. subst. cbn [snd] in X. unfold silent in X.
    by rewrite Ty in X.
  - split; [split; [done|congruence]|]. unfold added, deliveries. cbn [map concat fst]. rewrite app_nil_r.
    replace (List.filter (fun i => negb (i =? 0)) ids) with (@nil Z); [constructor|].
    clear - Ri. induction Ri as [|i ids -> Ri IH]; [done|]. exact IH.
Qed.

Lemma leaderless_step e cl : steady e = true -> leaderless cl -> leaderless (cluster_step e cl).
Proof.
  intros Ok H. apply (cluster_step_holds _ _ (fun _ => True) (fun i => i = 0)); try done.
  - intros id ev n n' w w' ms ids Hn _. by apply alone_step.
  - intros id r ->. apply client_type_silent. unfold steady, cluster_event_ok in Ok. rewrite !andb_true_iff in Ok. tauto.
  - intros id n w E. apply H in E as (_ & [-> _] & _). done.
Qed.

(** Nobody is elected in a step to a leaderless cluster. *)
Lemma leaderless_elected e cl : leaderless (cluster_step e cl) -> elected e cl = [].
Proof.
  destruct e as [id ev| | | | | |]; try done. intros [H _]. unfold elected. destruct cl as [ns fl]. cbn [cluster_nodes].
  cbn [cluster_step] in H. destruct (ns !! id) as [[n w]|] eqn:E; [|done]. destruct (node_step ev (n, w)) as [[n' w']|]; [|done].
  cbn [cluster_nodes] in H. destruct (H id n' w') as (_ & [_ L] & _); [apply lookup_insert_eq|].
  by rewrite (bool_decide_eq_false_2 (state_ n' = LEADER)), andb_false_r.
Qed.

Lemma leaderless_run es cl :
  forallb steady es = true -> leaderless cl -> elections es cl = [] /\ leaderless (cluster_run es cl).
Proof.
  revert cl. induction es as [|e es IH]; intros cl Ok H; [done|]. cbn [forallb] in Ok. apply andb_true_iff in Ok as [Oe Ok].
  pose proof (leaderless_step e cl Oe H) as H1. cbn [elections cluster_run]. rewrite (leaderless_elected e cl H1). by apply IH.
Qed.

Lemma fresh_leaderless cl : fresh_cluster 1 cl -> leaderless cl.
Proof.
  intros (_ & Fl & Fm). split; [|rewrite Fl; constructor]. intros id n w (_ & _ & Ri & S & _ & _ & _ & Io & O)%Fm.
  split_and!; [done|split; [lia|congruence]|]. unfold waiting. by rewrite Io.
Qed.
End Single.

(** ** Votes *)

Section Votes.
Context {St C K : Type}.
Context `{SI : ClusterNodeStorageInterface St, CI : ClusterManagerInterface C, KI : ClientManagerInterface K,
  RT : ProtobufRuntime} {LW : ProtobufLaws RT}.
Abbreviation node := (ClusterNode St).

Lemma vote_request_fits p req :
  int64 p = true -> RequestVoteRequest_ints req = true -> RequestVoteRequest_IsInitialized req = true ->
  sendable (set_partition_id p (loadVoteRequest req RaftMessage_new)) = true.
Proof.
  intros P I R. unfold sendable. rewrite !andb_true_iff. split_and!.
  - unfold FlowMessage_ints. cbn. by rewrite P, I.
  - unfold FlowMessage_IsInitialized. cbn. by rewrite R.
  - apply Z.leb_le. apply andb_true_iff in I as [_ I%bool_decide_eq_true_1]. apply RequestVoteRequest_size_bound in I.
    rewrite FlowMessage_size_sum. cbn. change (zlength []) with 0. pose proof (MessageSize_bound (RequestVoteRequest_ByteSizeLong req)).
    destruct sizes_bounded as (_ & B2 & B3 & _). pose proof (B2 p). pose proof (B3 0). unfold MAX_BODY_LENGTH. lia.
Qed.

Lemma vote_response_fits p t g : int64 p = true -> int32 t = true -> int32 g = true ->
  sendable (set_partition_id p (vote_response t g)) = true.
Proof.
  intros P T G. assert (I : RequestVoteResponse_ints (RequestVoteResponse_set_vote_result_term_granted g
    (RequestVoteResponse_set_term t RequestVoteResponse_new)) = true) by (unfold RequestVoteResponse_ints; cbn; by rewrite T, G).
  unfold sendable. rewrite !andb_true_iff. split_and!; [|done|].
  - unfold FlowMessage_ints. cbn. by rewrite P, I.
  - apply Z.leb_le. apply andb_true_iff in I as [_ I%bool_decide_eq_true_1]. apply RequestVoteResponse_size_bound in I.
    rewrite FlowMessage_size_sum. cbn. cbn in I. change (zlength []) with 0.
    match goal with |- context [MessageSize ?x] => pose proof (MessageSize_bound x) end.
    destruct sizes_bounded as (_ & B2 & B3 & _). pose proof (B2 p). pose proof (B3 1). unfold MAX_BODY_LENGTH. lia.
Qed.

(** A candidate of term 1 with [v] votes and nothing to do. *)
Record candidate (N c v : Z) (n : node) : Prop := {
  cand_id : node_id_ n = c;
  cand_total : total_nodes_ n = N;
  cand_state : state_ n = CANDIDATE;
  cand_term : cur_term_ n = 1;
  cand_votes : votes_collected_ n = v;
  cand_tasks : io_context_ n = []
}.

(** The messages of the election. *)
Definition asks_vote (c : Z) (r : RaftMessage) : Prop :=
  type r = REQUEST_VOTE_REQUEST /\ RequestVoteRequest_term (get_vote_request r) = 1 /\
  RequestVoteRequest_candidate_id (get_vote_request r) = c.

Definition gives_vote (r : RaftMessage) : Prop :=
  type r = REQUEST_VOTE_RESPONSE /\ RequestVoteResponse_term (get_vote_response r) = 1 /\
  RequestVoteResponse_vote_result_term_granted (get_vote_response r) = 1.

(** A fresh node whose timer fires, and then its delay. *)
Lemma fresh_asks N c now (n : node) (w : Master C K) :
  fresh_member N c n -> vote_timer_ n = CheckHeartbeat ->
  exists n1 n2 w2 b, node_step (VoteTimerFires now) (n, w) = Ret (n1, w) /\ state_ n1 = CANDIDATE /\
    node_step VoteDelay (n1, w) = Ret (n2, w2) /\ candidate N c 1 n2 /\
    cluster_manager_p_ w2 = broad_cast b (cluster_manager_p_ w) /\ asks_vote c (deserialize_from_message b).
Proof.
  intros (I1 & I2 & I3 & I4 & I5 & I6 & I7 & I8 & O) V. apply node_ok_spec in O as (O1 & O2 & O3 & O4 & O5 & O6).
  destruct (log_entries_ n) as [|d es] eqn:Lg; [done|]. destruct (last_is_Some (d :: es)) as [_ [e La]]; [done|].
  destruct (log_ok_last _ _ O5 La) as [E1 E2].
  set (n1 := set_vote_timer_ RestartScheduler (set_vote_delays_ (S (vote_delays_ n)) (set_votes_collected_ 0 (set_voted_for_ (-1) (set_cur_term_ 1 n))))).
  assert (S1 : node_step (VoteTimerFires now) (n, w) = Ret (n1, w)).
  { unfold node_step. rewrite V. unfold on_vote_timer. rewrite I4. cbn [bool_decide]. rewrite (bool_decide_eq_false_2 (CANDIDATE = FOLLOWER)) by done.
    cbn [andb]. rewrite I4, (bool_decide_eq_true_2 (CANDIDATE = CANDIDATE)), I5 by done. reflexivity. }
  exists n1. unfold node_step at 2. change (vote_delays_ n1) with (S (vote_delays_ n)). cbv iota. unfold on_vote_delay. cbv zeta.
  change (voted_for_ (set_vote_delays_ _ n1)) with (-1). cbn [negb Z.eqb Pos.eqb].
  change (log_entries_ (set_vote_delays_ _ n1)) with (log_entries_ n). rewrite Lg.
  unfold vec_back. rewrite La. cbn [obind].
  change (int_add (votes_collected_ (set_vote_delays_ _ n1)) 1) with (Ret 1). cbn [obind].
  match goal with |- context [send_all (loadVoteRequest ?req RaftMessage_new) (?x, w)] => set (r := req); set (n2 := x) end.
  assert (Fit : sendable (set_partition_id (partition_id_ n2) (loadVoteRequest r RaftMessage_new)) = true).
  { apply vote_request_fits; [exact O1| |done]. unfold r, RequestVoteRequest_ints. cbn. by rewrite O2, E1, E2. }
  destruct (sent_request _ Fit) as (b & Se & D). unfold send_all, serialize_raft_message. rewrite Se. cbn [obind].
  exists n2. eexists. exists b. split; [exact S1|]. split; [exact I4|]. split; [reflexivity|]. rewrite D. split_and!; try done.
Qed.

(** A fresh node that gets the request votes. *)
Lemma fresh_votes N c v now rid m (n : node) (w : Master C K) :
  fresh_member N v n -> asks_vote c m ->
  exists n' w' b, node_step (TaskRuns now rid) (set_io_context_ [HandleMessage m] n, w) = Ret (n', w') /\ state_ n' = CANDIDATE /\
    cluster_manager_p_ w' = write_message c b (cluster_manager_p_ w) /\ gives_vote (deserialize_from_message b).
Proof.
  intros (I1 & I2 & I3 & I4 & I5 & I6 & I7 & I8 & O) (T & Te & Ca). apply node_ok_spec in O as (O1 & _).
  unfold node_step, run_posted_task. cbn [io_context_ set_io_context_]. unfold local_message_handler. rewrite T.
  unfold handle_vote_request. cbv zeta. rewrite Te, Ca. cbn [cur_term_ set_io_context_]. rewrite I5. cbn [Z.ltb Z.compare Z.eqb orb andb].
  cbn [state_ set_io_context_ set_votes_collected_ set_cur_term_]. rewrite I4. cbn [bool_decide].
  rewrite (bool_decide_eq_true_2 (CANDIDATE = CANDIDATE)) by done. cbn [orb].
  match goal with |- context [send_to c (vote_response 1 1) (?x, w)] => set (n2 := x) end.
  assert (Fit : sendable (set_partition_id (partition_id_ n2) (vote_response 1 1)) = true) by (by apply vote_response_fits).
  destruct (sent_request _ Fit) as (b & Se & D). unfold send_to, serialize_raft_message. rewrite Se. cbn [obind].
  exists n2. eexists. exists b. split; [reflexivity|]. rewrite D. split_and!; try done.
Qed.

(** A candidate that gets a vote counts it. *)
Lemma candidate_counts N c v now rid m (n : node) (w : Master C K) :
  candidate N c v n -> gives_vote m -> 0 <= v < INT_MAX ->
  exists n', node_step (TaskRuns now rid) (set_io_context_ [HandleMessage m] n, w) = Ret (n', w) /\ cur_term_ n' = 1 /\
    (if N ÷ 2 <? v + 1 then state_ n' = LEADER else candidate N c (v + 1) n').
Proof.
  intros [I1 I2 I3 I4 I5 I6] (T & Te & G) Hv.
  unfold node_step, run_posted_task. cbn [io_context_ set_io_context_]. unfold local_message_handler. rewrite T.
  cbn [fst snd]. unfold handle_vote_response. cbn [state_ set_io_context_]. rewrite I3, !bool_decide_eq_false_2 by done. rewrite G, Te. cbn [Z.eqb Pos.eqb].
  cbn [cur_term_ set_io_context_]. rewrite I4. cbn [Z.ltb Z.compare Pos.compare Pos.compare_cont].
  cbn [votes_collected_ set_io_context_]. rewrite I5.
  assert (A : int_add v 1 = Ret (v + 1)).
  { unfold int_add, int_checked. by rewrite (proj2 (int32_spec (v + 1))) by (unfold INT_MIN, INT_MAX in *; lia). }
  rewrite A. cbn [obind]. cbn [total_nodes_ set_votes_collected_ votes_collected_ set_io_context_]. rewrite I2.
  destruct (N ÷ 2 <? v + 1); cbn [obind]; (eexists; split; [reflexivity|]); split; try done.
Qed.
End Votes.

(** ** A schedule that elects a node *)

Section Schedule.
Context {St C K : Type}.
Context `{SI : ClusterNodeStorageInterface St, CI : ClusterManagerInterface C, KI : ClientManagerInterface K,
  RT : ProtobufRuntime} {CL : ClusterManagerLaws C} {LW : ProtobufLaws RT}.
Abbreviation node := (ClusterNode St).
Abbreviation event := (cluster_event (St := St) (C := C) (K := K)).
Abbreviation cluster' := (cluster (St := St) (C := C) (K := K)).

(** All nodes are there, fresh, and with their timers running. *)
Definition started_cluster (N : Z) (cl : cluster') : Prop :=
  fresh_cluster N cl /\ (forall id, 0 <= id < N -> is_Some (cluster_nodes cl !! id)) /\
  forall id n w, cluster_nodes cl !! id = Some (n, w) -> vote_timer_ n = CheckHeartbeat.

(** The other nodes, in the order in which a broadcast reaches them. *)
Definition others (c : Z) (cl : cluster') : list Z := List.filter (fun i => negb (i =? c)) (node_ids_of (cluster_nodes cl)).

(** A round between [c] and [v]: a message of [c] arrives at [v] and is handled,
    and so is the answer; [first] messages are in flight before the one for [v],
    and [left] after it. *)
Definition ask_round (c v : Z) (first left : nat) : list event :=
  [Arrives first; NodeEvent v (TaskRuns 0 0); Arrives (first + left); NodeEvent c (TaskRuns 0 0)].

Fixpoint ask_rounds (c : Z) (first : nat) (vs : list Z) (k : nat) : list event :=
  match k, vs with
  | S k, v :: vs => ask_round c v first (length vs) ++ ask_rounds c first vs k
  | _, _ => []
  end.

(** The candidate's timer and delay, then rounds for a majority with its own
    vote. *)
Definition campaign (N c : Z) (cl : cluster') : list event :=
  let timer : event := NodeEvent c (VoteTimerFires 0) in
  [timer; NodeEvent c VoteDelay] ++ ask_rounds c 0 (others c (cluster_step timer cl)) (Z.to_nat (N ÷ 2)).

Lemma node_event_step id e n n' w w' out ns fl :
  ns !! id = Some (n, w) -> node_step e (n, w) = Ret (n', w') ->
  requested (cluster_manager_p_ w') = requested (cluster_manager_p_ w) ++ out ->
  cluster_step (NodeEvent id e) (mkCluster ns fl) =
    mkCluster (<[id := (n', w')]> ns) (fl ++ concat (map (packets id (node_ids_of ns)) out)) /\
  elected (NodeEvent id e) (mkCluster ns fl) =
    if negb (bool_decide (state_ n = LEADER)) && bool_decide (state_ n' = LEADER) then [(cur_term_ n', id)] else [].
Proof.
  intros E S R. unfold elected. cbn [cluster_step cluster_nodes]. rewrite E, S, R, drop_app_length. done.
Qed.

Lemma arrives_step k id b n w ns (fl : list (Z * Message)) :
  fl !! k = Some (id, b) -> ns !! id = Some (n, w) ->
  cluster_step (Arrives k) (mkCluster ns fl) =
    mkCluster (<[id := (set_io_context_ (io_context_ n ++ [HandleMessage (deserialize_from_message b)]) n, w)]> ns) (take k fl ++ drop (S k) fl).
Proof. intros F E. cbn [cluster_step]. rewrite F, (alter_at _ _ _ _ E). done. Qed.

Lemma drop_middle {A : Type} (l l' : list A) x : drop (S (length l)) (l ++ x :: l') = l'.
Proof. induction l as [|y l IH]; [done|exact IH]. Qed.

(** Who becomes leader when a node changes. *)
Definition became (id : Z) (n n' : node) : list (Z * Z) :=
  if negb (bool_decide (state_ n = LEADER)) && bool_decide (state_ n' = LEADER) then [(cur_term_ n', id)] else [].

Definition to_nodes (out : list (Z * Message)) : list outgoing := map (fun x => ToNode x.1 x.2) out.

Lemma packets_to_nodes c ids out : concat (map (packets c ids) (to_nodes out)) = out.
Proof. induction out as [|[f b] out IH]; [done|]. cbn. by f_equal. Qed.

(** A round changes the two nodes as their handlers do, consumes the message,
    and puts in flight what [c] sends in return. *)
Lemma exchange out c x b b1 n n1 nc n3 w w1 wc w3 ns (fl rest : list (Z * Message)) :
  x <> c -> ns !! x = Some (n, w) -> ns !! c = Some (nc, wc) -> io_context_ n = [] -> io_context_ nc = [] ->
  node_step (TaskRuns 0 0) (set_io_context_ [HandleMessage (deserialize_from_message b)] n, w) = Ret (n1, w1) ->
  requested (cluster_manager_p_ w1) = requested (cluster_manager_p_ w) ++ [ToNode c b1] ->
  node_step (TaskRuns 0 0) (set_io_context_ [HandleMessage (deserialize_from_message b1)] nc, wc) = Ret (n3, w3) ->
  requested (cluster_manager_p_ w3) = requested (cluster_manager_p_ wc) ++ to_nodes out ->
  let es := ask_round c x (length fl) (length rest) in
  let cl := mkCluster ns (fl ++ (x, b) :: rest) in
  elections es cl = became x n n1 ++ became c nc n3 /\
  exists ns', cluster_run es cl = mkCluster ns' (fl ++ rest ++ out) /\ ns' !! c = Some (n3, w3) /\ ns' !! x = Some (n1, w1) /\
    forall i, i <> c -> i <> x -> ns' !! i = ns !! i.
Proof.
  intros Nx Ex Ec Iox Ioc S1 M1 S3 M3 es cl. unfold es, cl, ask_round. cbn [cluster_run elections].
  change (elected (Arrives ?k) ?c) with (@nil (Z * Z)). cbn [app].
  rewrite (arrives_step (length fl) x b n w), take_app_length, drop_middle, Iox by (done || by apply list_lookup_middle). cbn [app].
  set (nx := set_io_context_ [HandleMessage (deserialize_from_message b)] n). set (ns1 := <[x := (nx, w)]> ns).
  destruct (node_event_step x (TaskRuns 0 0) nx n1 w w1 [ToNode c b1] ns1 (fl ++ rest)) as [-> ->];
    [apply lookup_insert_eq|exact S1|exact M1|]. cbn [map packets concat app].
  set (ns2 := <[x := (n1, w1)]> ns1).
  assert (Ec2 : ns2 !! c = Some (nc, wc)) by (unfold ns2, ns1; by rewrite !lookup_insert_ne by done).
  rewrite <- length_app, (arrives_step (length (fl ++ rest)) c b1 nc wc) by (exact Ec2 || by apply list_lookup_middle).
  rewrite take_app_length, drop_middle, !app_nil_r, Ioc. cbn [app].
  set (ny := set_io_context_ [HandleMessage (deserialize_from_message b1)] nc). set (ns3 := <[c := (ny, wc)]> ns2).
  destruct (node_event_step c (TaskRuns 0 0) ny n3 wc w3 (to_nodes out) ns3 (fl ++ rest)) as [-> ->];
    [apply lookup_insert_eq|exact S3|exact M3|]. rewrite packets_to_nodes, <- app_assoc, ?app_nil_r. split; [done|].
  eexists. split; [done|]. unfold ns3, ns2, ns1. split_and!.
  - apply lookup_insert_eq.
  - rewrite !lookup_insert_ne by done. apply lookup_insert_eq.
  - intros i Ni Nj. by rewrite !lookup_insert_ne by done.
Qed.

(** The campaign under way: the candidate has [v] votes, the nodes [vs] are still
    fresh and their requests in flight. *)
Record campaigning (N c v : Z) (b : Message) (vs : list Z) (cl : cluster') : Prop := {
  camp_candidate : exists n w, cluster_nodes cl !! c = Some (n, w) /\ candidate N c v n;
  camp_voters i : i ∈ vs -> i <> c /\ exists n w, cluster_nodes cl !! i = Some (n, w) /\ fresh_member N i n;
  camp_flight : in_flight cl = map (fun i => (i, b)) vs
}.

Lemma campaign_round N c v b x vs (cl : cluster') :
  campaigning N c v b (x :: vs) cl -> NoDup (x :: vs) -> asks_vote c (deserialize_from_message b) -> 0 <= v < INT_MAX ->
  let es := ask_round c x 0 (length vs) in
  if N ÷ 2 <? v + 1 then
    elections es cl = [(1, c)] /\ exists n w, cluster_nodes (cluster_run es cl) !! c = Some (n, w) /\ state_ n = LEADER /\ cur_term_ n = 1
  else elections es cl = [] /\ campaigning N c (v + 1) b vs (cluster_run es cl).
Proof.
  intros [(nc & wc & Ec & Cd) Vo Fl] ND As Hv. destruct cl as [ns fl]. cbn [cluster_nodes in_flight] in *. subst fl.
  destruct (Vo x ltac:(by left)) as (Nx & n & w & Ex & Fx). pose proof Fx as (_ & _ & _ & Sx & _ & _ & _ & Iox & _).
  apply NoDup_cons in ND as [Nv ND].
  destruct (fresh_votes N c x 0 0 _ n w Fx As) as (n1 & w1 & b1 & S1 & L1 & M1 & G1).
  destruct (candidate_counts N c v 0 0 _ nc wc Cd G1 Hv) as (n3 & S3 & T3 & R3).
  destruct (exchange [] c x b b1 n n1 nc n3 w w1 wc wc ns [] (map (fun i => (i, b)) vs) Nx Ex Ec Iox (cand_tasks _ _ _ _ Cd) S1)
    as (El & ns' & Rn & Ec' & _ & Ei); [by rewrite M1, requested_write_message|exact S3|by rewrite app_nil_r|].
  rewrite app_nil_r in Rn. cbn [app length] in El, Rn. rewrite length_map in El, Rn. cbv zeta. cbn [map]. rewrite El, Rn.
  unfold became. rewrite L1, (cand_state _ _ _ _ Cd), (bool_decide_eq_false_2 (CANDIDATE = LEADER)), andb_false_r by done.
  cbn [negb andb app]. rewrite T3. cbn [cluster_nodes in_flight]. destruct (N ÷ 2 <? v + 1).
  - rewrite bool_decide_eq_true_2 by done. split; [done|]. by exists n3, wc.
  - rewrite bool_decide_eq_false_2 by (destruct R3 as [_ _ R3 _ _ _]; congruence). split; [done|]. split; cbn [cluster_nodes in_flight]; [by exists n3, wc| |done].
    intros i X. destruct (Vo i ltac:(by right)) as (Ni & ni & wi & E & Fi). split; [done|]. exists ni, wi. split; [|done].
    rewrite Ei; [done|done|]. by intros ->.
Qed.

Lemma elections_app es es' (cl : cluster') : elections (es ++ es') cl = elections es cl ++ elections es' (cluster_run es cl).
Proof. revert cl. induction es as [|e es IH]; intros cl; [done|]. cbn [app elections cluster_run]. by rewrite IH, app_assoc. Qed.

Lemma cluster_run_app es es' (cl : cluster') : cluster_run (es ++ es') cl = cluster_run es' (cluster_run es cl).
Proof. revert cl. induction es as [|e es IH]; intros cl; [done|]. cbn [app cluster_run]. by rewrite IH. Qed.

Lemma campaign_rounds N c b k vs v (cl : cluster') :
  campaigning N c v b vs cl -> NoDup vs -> asks_vote c (deserialize_from_message b) -> (0 < k <= length vs)%nat ->
  0 <= v -> v + Z.of_nat k = N ÷ 2 + 1 -> 0 < N <= INT_MAX ->
  elections (ask_rounds c 0 vs k) cl = [(1, c)] /\
  exists n w, cluster_nodes (cluster_run (ask_rounds c 0 vs k) cl) !! c = Some (n, w) /\ state_ n = LEADER /\ cur_term_ n = 1.
Proof.
  revert vs v cl. induction k as [|k IH]; intros vs v cl Cm ND As Hk Hv Sum HN; [lia|].
  destruct vs as [|x vs]; [cbn in Hk; lia|]. cbn [ask_rounds]. rewrite elections_app, cluster_run_app.
  pose proof (Z.quot_rem' N 2) as Q. pose proof (Z.rem_bound_pos N 2 ltac:(lia) ltac:(lia)) as Q'. unfold INT_MAX in *.
  pose proof (campaign_round N c v b x vs cl Cm ND As ltac:(unfold INT_MAX; lia)) as R. cbv zeta in R.
  destruct k as [|k].
  - rewrite (proj2 (Z.ltb_lt _ _)) in R by lia. destruct R as [-> R]. by destruct vs.
  - rewrite (proj2 (Z.ltb_ge _ _)) in R by lia. destruct R as [-> R]. apply NoDup_cons in ND as [_ ND].
    apply (IH vs (v + 1)); try done; cbn [length] in Hk; lia.
Qed.

Lemma NoDup_filter' {A : Type} (f : A -> bool) (l : list A) : NoDup l -> NoDup (List.filter f l).
Proof. rewrite !NoDup_ListNoDup. apply List.NoDup_filter. Qed.

(** There are enough others. *)
Lemma others_count N c (cl : cluster') :
  (forall id, 0 <= id < N -> is_Some (cluster_nodes cl !! id)) -> 0 <= c < N -> (Z.to_nat (N - 1) <= length (others c cl))%nat.
Proof.
  intros Al Hc. assert (P : seqZ 0 N ⊆+ c :: others c cl).
  { apply NoDup_submseteq; [apply NoDup_seqZ|]. intros i X%elem_of_seqZ. destruct (decide (i = c)) as [->|Ne]; [by left|]. right.
    unfold others. apply list_elem_of_In, filter_In. rewrite (proj2 (Z.eqb_neq i c)) by done. split; [|done].
    destruct (Al i ltac:(lia)) as [s E]. unfold node_ids_of. apply in_map_iff. exists (i, s). split; [done|].
    apply list_elem_of_In. by apply elem_of_map_to_list. }
  apply submseteq_length in P. rewrite length_seqZ in P. cbn [length] in P. lia.
Qed.

Lemma others_spec c (cl : cluster') i : i ∈ others c cl -> i <> c /\ exists s, cluster_nodes cl !! i = Some s.
Proof.
  unfold others. intros X. apply list_elem_of_In, filter_In in X as [X Ne]. split; [by apply negb_true_iff, Z.eqb_neq in Ne|].
  unfold node_ids_of in X. apply in_map_iff in X as ([j s] & <- & X). apply list_elem_of_In, elem_of_map_to_list in X. eauto.
Qed.
End Schedule.

(** ** Properties *)

(** C5: elections can succeed: in any started cluster of two or more nodes, each
    of them can be elected in term 1: the schedule lets its timer fire and its
    delay pass, delivers its requests to half of the others, and their answers
    back; it elects the node and nobody else, and afterwards the node is the
    leader. *)
Theorem election_succeeds `{ClusterNodeStorageInterface St, CI : ClusterManagerInterface C, CL : !ClusterManagerLaws C,
    ClientManagerInterface K} `{LW : ProtobufLaws} (N c : Z) (cl : cluster (St := St) (C := C) (K := K)) :
  started_cluster N cl -> 2 <= N <= INT_MAX -> 0 <= c < N ->
  elections (campaign N c cl) cl = [(1, c)] /\
  exists n w, cluster_nodes (cluster_run (campaign N c cl) cl) !! c = Some (n, w) /\ state_ n = LEADER /\ cur_term_ n = 1.
Proof.
  intros St0 HN Hc. pose proof St0 as ((_ & Fl & Fm) & Al & Ti). destruct (Al c Hc) as [[n w] E].
  destruct (fresh_asks N c 0 n w (Fm _ _ _ E) (Ti _ _ _ E)) as (n1 & n2 & w2 & b & S1 & L1 & S2 & Cd & M2 & As).
  destruct cl as [ns fl]. cbn [in_flight cluster_nodes] in *. subst fl. set (ns1 := <[c := (n1, w)]> ns).
  destruct (node_event_step c (VoteTimerFires 0) n n1 w w [] ns [] E S1) as [R1 X1]; [by rewrite app_nil_r|]. cbn [map concat app] in R1. fold ns1 in R1.
  destruct (node_event_step c VoteDelay n1 n2 w w2 [ToAll b] ns1 []) as [R2 X2];
    [apply lookup_insert_eq|exact S2|by rewrite M2, requested_broad_cast|]. cbn [map concat app packets] in R2. rewrite app_nil_r in R2.
  unfold campaign. cbv zeta. rewrite elections_app, cluster_run_app. cbn [elections cluster_run]. rewrite R1, R2, X1, X2.
  rewrite (bool_decide_eq_false_2 (state_ n1 = LEADER)), (bool_decide_eq_false_2 (state_ n2 = LEADER)), !andb_false_r
    by (rewrite ?L1, ?(cand_state _ _ _ _ Cd); done). cbn [app].
  pose proof (Z.quot_rem' N 2). pose proof (Z.rem_bound_pos N 2 ltac:(lia) ltac:(lia)).
  apply (campaign_rounds N c b _ _ 1); try done; try lia.
  - split; cbn [cluster_nodes in_flight].
    + exists n2, w2. by rewrite lookup_insert_eq.
    + intros i (Ne & [ni wi] & Ei)%others_spec. split; [done|]. exists ni, wi. cbn [cluster_nodes] in Ei. unfold ns1 in *.
      rewrite lookup_insert_ne in Ei by done. rewrite !lookup_insert_ne by done. split; [done|]. by apply (Fm i ni wi).
    + done.
  - unfold others. apply NoDup_filter', node_ids_of_spec.
  - pose proof (others_count N c (mkCluster ns1 [])) as Co. cbn [cluster_nodes] in Co. assert (Z.to_nat (N - 1) <= length (others c (mkCluster ns1 [])))%nat; [|lia].
    apply Co; [|done]. intros i Hi. unfold ns1. destruct (decide (i = c)) as [->|Ne]; [rewrite lookup_insert_eq; by eexists|].
    rewrite lookup_insert_ne by done. by apply Al.
Qed.

Lemma demo_cluster_started : started_cluster 3 demo_cluster.
Proof.
  split; [apply demo_cluster_fresh|]. split.
  - intros id Hi. assert (id = 0 \/ id = 1 \/ id = 2) as [->|[->| ->]] by lia; eexists; reflexivity.
  - intros id n w L. unfold demo_cluster in L. cbn [cluster_nodes] in L.
    apply lookup_insert_Some in L as [[<- [= <- _]]|[_ L]]; [reflexivity|].
    apply lookup_insert_Some in L as [[<- [= <- _]]|[_ L]]; [reflexivity|].
    apply lookup_singleton_Some in L as [<- [= <- _]]. reflexivity.
Qed.

Lemma election_succeeds_witness : elections (campaign 3 2 demo_cluster) demo_cluster = [(1, 2)].
Proof.
  refine (proj1 (election_succeeds 3 2 demo_cluster demo_cluster_started _ _)); [split; [lia|vm_compute; discriminate]|lia].
Defined.

(** C38: a cluster of one node never gets a leader: whatever its timers do and
    whatever clients send, in no run is the node elected, so it is never the
    leader and every message put to it is dropped. *)
Theorem single_node_never_leads `{ClusterNodeStorageInterface St, CI : ClusterManagerInterface C, CL : !ClusterManagerLaws C,
    ClientManagerInterface K} `{LW : ProtobufLaws} (es : list (cluster_event (St := St) (C := C) (K := K))) (cl : cluster) :
  fresh_cluster 1 cl -> forallb steady es = true ->
  elections es cl = [] /\
  forall id n w, cluster_nodes (cluster_run es cl) !! id = Some (n, w) ->
    state_ n <> LEADER /\ forall rid req, handle_put_message rid req (n, w) = Ret (n, w).
Proof.
  intros F Ok. destruct (leaderless_run es cl Ok (fresh_leaderless cl F)) as [El [Hn _]]. split; [done|].
  intros id n w E. apply Hn in E as (_ & [_ L] & _). split; [done|]. intros rid req. unfold handle_put_message.
  by rewrite bool_decide_eq_false_2.
Qed.

(** A server alone. *)
Definition demo_alone : ClusterNode ClusterNodeStorageMock :=
  match ClusterNode_new (mkClusterNodeConfig 7 0 1) (mkClusterNodeStorageMock 7 0) 0 0 with
  | Ret n => n
  | Fault _ => demo_node CANDIDATE 0 (-1) [] []
  end.

Definition demo_single : cluster (St := ClusterNodeStorageMock) (C := ClusterManager nat) (K := ClientManager) :=
  mkCluster {[ 0 := (demo_alone, demo_master) ]} [].

Lemma single_node_never_leads_witness :
  elections [NodeEvent 0 (VoteTimerFires 0); NodeEvent 0 VoteDelay; NodeEvent 0 (VoteTimerFires 9)] demo_single = [].
Proof.
  refine (proj1 (single_node_never_leads [NodeEvent 0 (VoteTimerFires 0); NodeEvent 0 VoteDelay; NodeEvent 0 (VoteTimerFires 9)] demo_single _ _)).
  - split; [lia|]. split; [reflexivity|]. intros id n w L. unfold demo_single in L. cbn [cluster_nodes] in L.
    apply lookup_singleton_Some in L as [<- [= <- _]]. split_and!; vm_compute; (reflexivity || discriminate).
  - reflexivity.
Defined.
