(* ===== verification/ClusterReplication.v ===== *)
(** * Progress of replication

    A leader whose followers are in sync commits what a client puts to it: one
    round of messages with half of the others is enough. *)

From S2P Require Import Prelude MessageQueue WireFormat FlowTypes FlowCodec FlowCodecFacts RaftMessage LogStorage ClusterManager ClientManager Configuration ClusterNode ClusterNodeFacts NodeElection NodeLog NodeTypes NodeQueue Network ClusterElection ClusterProgress.

Local Open Scope Z_scope.

(** ** Operations that succeed *)

Lemma int_add_ok a b : INT_MIN <= a + b <= INT_MAX -> int_add a b = Ret (a + b).
Proof. intros H. apply int_add_ret. split; [done|]. by apply int32_spec. Qed.

Lemma int_sub_ok a b : INT_MIN <= a - b <= INT_MAX -> int_sub a b = Ret (a - b).
Proof. intros H. apply int_sub_ret. split; [done|]. by apply int32_spec. Qed.

Lemma map_touch_present {A : Type} (d : A) (m : gmap Z A) k x : m !! k = Some x -> map_touch d m k = m.
Proof. intros E. unfold map_touch, map_at. rewrite E. by apply insert_id. Qed.

Lemma lookup_last {A : Type} (l : list A) x : (l ++ [x]) !! Z.to_nat (zlength l) = Some x.
Proof. unfold zlength. rewrite Nat2Z.id. by apply list_lookup_middle. Qed.

Lemma zlength_snoc {A : Type} (l : list A) x : zlength (l ++ [x]) = zlength l + 1.
Proof. unfold zlength. rewrite length_app. cbn. lia. Qed.

(** A follower that was behind counts once it has the index. *)
Lemma count_synced_insert i f (m : gmap Z Z) :
  (forall x, m !! f = Some x -> x < i) -> count_synced i (<[f := i]> m) = count_synced i m + 1.
Proof.
  intros B. assert (T : forall m, count_synced i m = tally (fun p => i <=? p.2) (map_to_list m)).
  { intros m'. unfold count_synced. fold (tally (fun p : Z * Z => i <=? p.2) (map_iter m')). by rewrite map_iter_perm. }
  rewrite !T. rewrite <- insert_delete_eq, map_to_list_insert by apply lookup_delete_eq. rewrite tally_cons. cbn [snd].
  rewrite Z.leb_refl. destruct (m !! f) as [x|] eqn:E.
  - rewrite <- (insert_id m f x E) at 2. rewrite <- (insert_delete_eq m), map_to_list_insert by apply lookup_delete_eq.
    rewrite tally_cons. cbn [snd]. rewrite (proj2 (Z.leb_gt _ _)) by (by apply B). lia.
  - rewrite delete_id by done. lia.
Qed.

Section Handlers.
Context {St C K : Type}.
Context `{SI : ClusterNodeStorageInterface St, CI : ClusterManagerInterface C, KI : ClientManagerInterface K,
  RT : ProtobufRuntime} {SL : ClusterNodeStorageLaws St} {CL : ClusterManagerLaws C} {LW : ProtobufLaws RT}.
Abbreviation node := (ClusterNode St).

(** ** Messages of replication fit *)

Lemma append_request_fits p req e :
  int64 p = true -> AppendEntriesRequest_ints req = true -> AppendEntriesRequest_IsInitialized req = true ->
  AppendEntriesRequest_entries_ req = [e] -> entry_ok e = true -> zlength (LogEntry_message e) <= 800 ->
  sendable (set_partition_id p (loadAppendEntriesRequest req RaftMessage_new)) = true.
Proof.
  intros P I R En E Sz. unfold sendable. rewrite !andb_true_iff. split_and!.
  - unfold FlowMessage_ints. cbn. by rewrite P, I.
  - unfold FlowMessage_IsInitialized. cbn. by rewrite R.
  - apply Z.leb_le. apply andb_true_iff in I as [_ I%bool_decide_eq_true_1].
    apply (AppendEntriesRequest_size_entries _ 866) in I.
    2: { rewrite En. pose proof (LogEntry_size_message e E). pose proof (MessageSize_bound (LogEntry_ByteSizeLong e)).
      change (zlength [e]) with 1. cbn [map foldr]. lia. }
    rewrite FlowMessage_size_sum. cbn. change (zlength []) with 0. pose proof (MessageSize_bound (AppendEntriesRequest_ByteSizeLong req)).
    destruct sizes_bounded as (_ & B2 & B3 & _). pose proof (B2 p). pose proof (B3 2). unfold MAX_BODY_LENGTH. lia.
Qed.

Lemma append_response_fits p resp :
  int64 p = true -> AppendEntriesResponse_ints resp = true -> AppendEntriesResponse_IsInitialized resp = true ->
  sendable (set_partition_id p (loadAppendEntriesResponse resp RaftMessage_new)) = true.
Proof.
  intros P I R. unfold sendable. rewrite !andb_true_iff. split_and!.
  - unfold FlowMessage_ints. cbn. by rewrite P, I.
  - unfold FlowMessage_IsInitialized. cbn. by rewrite R.
  - apply Z.leb_le. apply andb_true_iff in I as [_ I%bool_decide_eq_true_1]. apply AppendEntriesResponse_size_bound in I.
    rewrite FlowMessage_size_sum. cbn. change (zlength []) with 0. pose proof (MessageSize_bound (AppendEntriesResponse_ByteSizeLong resp)).
    destruct sizes_bounded as (_ & B2 & B3 & _). pose proof (B2 p). pose proof (B3 3). unfold MAX_BODY_LENGTH. lia.
Qed.

(** ** Commits without deliveries *)

Lemma commit_quiet i j (n : node) (w : Master C K) :
  0 < i -> zlength (log_entries_ n) <= INT_MAX -> state_ n <> LEADER \/ has_consumers (client_manager_p_ w) = false ->
  commit_log_entries i j (n, w) =
    Ret (set_message_queue_ (foldl exec (message_queue_ n) (log_calls (take (Z.to_nat (j - i)) (drop (Z.to_nat i) (log_entries_ n))))) n, w).
Proof.
  intros I L Q. unfold commit_log_entries. destruct (commit_loop_total (Z.to_nat (j - i)) i n I L) as [n1 E]. rewrite E. cbn [obind].
  apply commit_loop_calls in E; [|done..]. subst n1. unfold trigger_message_delivery. cbn [state_ set_message_queue_].
  destruct Q as [Q|Q]; [by rewrite bool_decide_eq_false_2|]. rewrite Q. by destruct (bool_decide _).
Qed.

Lemma follow_quiet k (n : node) (w : Master C K) :
  state_ n <> LEADER -> 0 <= commit_index_ n -> zlength (log_entries_ n) <= INT_MAX ->
  exists n', follow_leader_commit k (n, w) = Ret (n', w) /\ same_but_commit n n'.
Proof.
  intros S C0 L. unfold follow_leader_commit. destruct (_ && _) eqn:G; [|exists n; split; [done|apply same_but_commit_refl]].
  apply andb_true_iff in G as [G1%Z.ltb_lt G2%Z.ltb_lt]. rewrite to_int_small in G2 by (split; [apply zlength_nonneg|done]).
  rewrite commit_quiet by (done || lia || by left). cbn [obind]. unfold store_entries.
  match goal with |- context [store_log_entries_and_metadata ?l ?a ?b ?md ?s] =>
    destruct (store_accepts l a b md s) as [st E]; [cbn; lia..|] end.
  rewrite E. cbn [obind]. eexists. split; [done|]. do 3 eexists. done.
Qed.

(** ** A follower *)

(** A follower that is in sync with a leader of term [t] whose log is [L], and
    has nothing to do. *)
Record in_sync (t : Z) (L : list LogEntry) (f : Z) (n : node) : Prop := {
  sync_id : node_id_ n = f;
  sync_ok : node_ok n = true;
  sync_state : state_ n <> LEADER;
  sync_term : cur_term_ n <= t;
  sync_tasks : io_context_ n = [];
  sync_log : log_entries_ n = L;
  sync_commit : 0 <= commit_index_ n
}.

(** The request for one more entry, and the answer. *)
Definition replicates (c t : Z) (L : list LogEntry) (e : LogEntry) (r : RaftMessage) : Prop :=
  let req := get_append_request r in
  type r = APPEND_ENTRIES_REQUEST /\ AppendEntriesRequest_term req = t /\ AppendEntriesRequest_leader_id req = c /\
  AppendEntriesRequest_prev_log_index req = zlength L - 1 /\
  (exists p, last L = Some p /\ AppendEntriesRequest_prev_log_term req = LogEntry_term p) /\
  AppendEntriesRequest_entries req = [e].

Definition confirms (f i : Z) (r : RaftMessage) : Prop :=
  let resp := get_append_response r in
  type r = APPEND_ENTRIES_RESPONSE /\ AppendEntriesResponse_append_result_success resp = 1 /\
  AppendEntriesResponse_follower_id resp = f /\ AppendEntriesResponse_last_index_synced resp = i.

Lemma last_in_sync (L : list LogEntry) p (n : node) :
  last L = Some p -> log_entries_ n = L -> zlength L <= INT_MAX ->
  check_if_previous_log_in_sync (LogEntry_term p) (zlength L - 1) n = Ret true.
Proof.
  intros La E B. unfold check_if_previous_log_in_sync. rewrite E, last_lookup in *. pose proof (lookup_lt_Some _ _ _ La) as Lt.
  unfold zlength in *. rewrite int_add_ok by (unfold INT_MIN, INT_MAX in *; lia). cbn [obind].
  rewrite to_int_small, (proj2 (Z.ltb_ge _ _)) by lia.
  assert (V : vec_at L (Z.of_nat (length L) - 1) = Ret p).
  { apply vec_at_ret. split; [lia|]. rewrite <- La. f_equal. lia. }
  rewrite V. cbn [obind]. by rewrite Z.eqb_refl.
Qed.

Lemma append_next (L : list LogEntry) e (n : node) :
  log_entries_ n = L -> 0 < zlength L < INT_MAX -> append_log_entries (zlength L - 1) [e] n = Ret (set_log_entries_ (L ++ [e]) n).
Proof.
  intros E B. unfold append_log_entries. rewrite E. cbn [append_loop]. rewrite int_add_ok by (unfold INT_MIN; lia). cbn [obind].
  rewrite int_add_ok by (unfold INT_MIN; lia). cbn [obind]. rewrite to_int_small, (proj2 (Z.ltb_lt _ _)) by lia. done.
Qed.

Lemma follower_takes c t L e f now rid m (n : node) (w : Master C K) :
  in_sync t L f n -> replicates c t L e m -> int32 t = true -> LogEntry_index e = zlength L -> 0 < zlength L < INT_MAX ->
  exists n' w' b, node_step (TaskRuns now rid) (set_io_context_ [HandleMessage m] n, w) = Ret (n', w') /\
    requested (cluster_manager_p_ w') = requested (cluster_manager_p_ w) ++ [ToNode c b] /\
    confirms f (zlength L) (deserialize_from_message b) /\ state_ n' <> LEADER /\ log_entries_ n' = L ++ [e].
Proof.
  intros [I1 I2 I3 I4 I5 I6 I7] (T & Te & Ld & Pi & (p & La & Pt) & En) It Ie B. apply node_ok_spec in I2 as (O1 & O2 & _).
  unfold node_step, run_posted_task. cbn [io_context_ set_io_context_]. unfold local_message_handler. rewrite T.
  unfold handle_append_request. cbv zeta. rewrite Te, (proj2 (Z.ltb_ge _ _)) by (cbn; lia).
  destruct (accept_leader_frame now (get_append_request m) (set_io_context_ [] (set_io_context_ [HandleMessage m] n))) as (st & -> & Hst). rewrite Te, Ld, Pi, Pt, En.
  match goal with |- context [check_if_previous_log_in_sync _ _ ?x] => set (n1 := x) end.
  rewrite (last_in_sync L p n1 La) by (done || lia). cbn [obind negb].
  assert (S1 : state_ n1 <> LEADER) by (cbn; destruct Hst as [->|[-> _]]; done).
  destruct (follow_quiet (AppendEntriesRequest_leader_commit (get_append_request m)) n1 w S1 I7) as (n2 & -> & F); [change (log_entries_ n1) with (log_entries_ n); rewrite I6; lia|].
  cbn [obind]. destruct F as (s2 & c2 & q2 & ->). rewrite append_next by (done || lia). cbn [obind log_entries_ set_log_entries_].
  unfold vec_back. rewrite last_snoc. cbn [obind]. rewrite Ie.
  match goal with |- context [send_to c (append_response 1 (zlength L) ?x) _] => set (n3 := x) end.
  assert (Fit : sendable (set_partition_id (partition_id_ n3) (append_response 1 (zlength L) n3)) = true).
  { apply append_response_fits; [exact O1| |done]. unfold AppendEntriesResponse_ints. cbn. rewrite It, O2.
    by rewrite (proj2 (int32_spec (zlength L))) by (unfold INT_MIN; lia). }
  destruct (sent_request _ Fit) as (b & Se & D). unfold send_to, serialize_raft_message. rewrite Se. cbn [obind].
  exists n3. eexists. exists b. split; [reflexivity|]. cbn [cluster_manager_p_]. rewrite requested_write_message, D. split_and!; done.
Qed.

(** ** The leader sends *)

(** No more requests are pending than the leader allows itself. *)
Definition pending_ok (n : node) : Prop := forall f, 0 <= map_at 0 (pending_append_reqs_ n) f <= MAX_PENDING_APPEND.

Lemma set_next_same (n : node) : set_next_index_ (next_index_ n) n = n.
Proof. by destruct n. Qed.

Lemma entry_request_frame i p e (n n' : node) : same_but_replication n n' -> entry_request n' i p e = entry_request n i p e.
Proof. by intros (x & y & ->). Qed.

Lemma trigger_sends f i p e b (n : node) (w : Master C K) :
  1 <= i < zlength (log_entries_ n) -> zlength (log_entries_ n) <= INT_MAX ->
  log_entries_ n !! Z.to_nat (i - 1) = Some p -> log_entries_ n !! Z.to_nat i = Some e -> next_index_ n !! f = Some i ->
  map_at 0 (pending_append_reqs_ n) f < MAX_PENDING_APPEND ->
  serialize_raft_message (loadAppendEntriesRequest (entry_request n (i - 1) p e) RaftMessage_new) n = Ret b ->
  exists pd, trigger_entry_update f (n, w) =
      Ret (set_pending_append_reqs_ pd n, mkMaster (write_message f b (cluster_manager_p_ w)) (client_manager_p_ w) (server_config_ w)) /\
    forall g, map_at 0 pd g = map_at 0 (pending_append_reqs_ n) g + if decide (g = f) then 1 else 0.
Proof.
  intros B Bm Pr En Nx Pe Se. assert (M : map_at 0 (next_index_ n) f = i) by (unfold map_at; by rewrite Nx).
  rewrite trigger_entry_update_eq. cbv zeta. rewrite M.
  rewrite to_int_small, (proj2 (Z.leb_le 1 _)), (proj2 (Z.leb_le i _)) by lia. cbn [andb].
  rewrite (proj2 (vec_at_ret _ _ p)), (proj2 (vec_at_ret _ _ e)) by (split; [lia|done]). cbn [obind].
  rewrite (proj2 (Z.ltb_lt _ _) Pe). unfold touch_next. rewrite (map_touch_present _ _ _ _ Nx), set_next_same.
  unfold send_to. change (serialize_raft_message ?m (touch_pending f n)) with (serialize_raft_message m n). rewrite Se. cbn [obind fst snd].
  eexists. split; [unfold touch_pending; rewrite set_pending_twice; reflexivity|]. cbn. intros g. unfold map_touch, map_at at 1.
  destruct (decide (g = f)) as [->|Ne]; [by rewrite lookup_insert_eq|]. rewrite !lookup_insert_ne by done. unfold map_at. lia.
Qed.

Lemma lookup_before_last {A : Type} (l : list A) x p : last l = Some p -> (l ++ [x]) !! Z.to_nat (zlength l - 1) = Some p.
Proof.
  rewrite last_lookup. intros La. pose proof (lookup_lt_Some _ _ _ La). unfold zlength. rewrite lookup_app_l by lia. rewrite <- La. f_equal. lia.
Qed.

Lemma update_followers_sends fs L p e b (n : node) (w : Master C K) :
  log_entries_ n = L ++ [e] -> last L = Some p -> 0 < zlength L < INT_MAX -> NoDup fs ->
  (forall f, f ∈ fs -> next_index_ n !! f = Some (zlength L) /\ map_at 0 (pending_append_reqs_ n) f < MAX_PENDING_APPEND) ->
  serialize_raft_message (loadAppendEntriesRequest (entry_request n (zlength L - 1) p e) RaftMessage_new) n = Ret b ->
  pending_ok n ->
  exists n' w', update_followers fs (n, w) = Ret (n', w') /\
    requested (cluster_manager_p_ w') = requested (cluster_manager_p_ w) ++ map (fun f => ToNode f b) fs /\
    client_manager_p_ w' = client_manager_p_ w /\ same_but_replication n n' /\ pending_ok n'.
Proof.
  intros Lg La B. revert n w Lg. induction fs as [|f fs IH]; intros n w Lg ND Nx Se Po.
  { exists n, w. cbn. rewrite app_nil_r. split_and!; try done. apply same_but_replication_refl. }
  apply NoDup_cons in ND as [Nf ND]. destruct (Nx f ltac:(by left)) as [Nxf Pf].
  destruct (trigger_sends f (zlength L) p e b n w) as (pd & E & Pd);
    [rewrite Lg, zlength_snoc; lia|rewrite Lg, zlength_snoc; lia|rewrite Lg; by apply lookup_before_last|rewrite Lg; apply lookup_last|done..|]. cbn [update_followers]. rewrite E. cbn [obind].
  match goal with |- context [update_followers fs (?x, ?y)] => set (n1 := x); set (w1 := y) end.
  assert (Fr : same_but_replication n n1) by (exists pd, (next_index_ n); by destruct n).
  destruct (IH n1 w1) as (n' & w' & -> & Rq & Cm & Fr' & Po'); [done|done| |by rewrite (entry_request_frame _ _ _ _ _ Fr)| |].
  - intros g G. destruct (Nx g ltac:(by right)) as [Nxg Pg]. split; [exact Nxg|]. change (pending_append_reqs_ n1) with pd. rewrite Pd.
    rewrite decide_False by (by intros ->). lia.
  - intros g. change (pending_append_reqs_ n1) with pd. rewrite Pd. pose proof (Po g). destruct (decide (g = f)) as [->|_]; lia.
  - exists n', w'. split_and!; [done| |exact Cm|exact (same_but_replication_trans _ _ _ Fr Fr')|exact Po'].
    rewrite Rq. unfold w1. cbn [cluster_manager_p_ map]. by rewrite requested_write_message, <- app_assoc.
Qed.

(** ** The leader counts *)

(** A leader of term [t] whose log is [L] and whose entry [i] has been confirmed by
    [a] followers. *)
Record leads (N c t : Z) (L : list LogEntry) (k i a : Z) (n : node) : Prop := {
  lead_id : node_id_ n = c;
  lead_total : total_nodes_ n = N;
  lead_state : state_ n = LEADER;
  lead_term : cur_term_ n = t;
  lead_tasks : io_context_ n = [];
  lead_log : log_entries_ n = L;
  lead_commit : commit_index_ n = k;
  lead_pending : pending_ok n;
  lead_synced : count_synced i (matched_index_ n) = a
}.

Lemma trigger_nothing f (n : node) (w : Master C K) :
  zlength (log_entries_ n) <= INT_MAX -> zlength (log_entries_ n) <= map_at 0 (next_index_ n) f ->
  trigger_entry_update f (n, w) = Ret (touch_next f n, w).
Proof.
  intros B G. rewrite trigger_entry_update_eq. cbv zeta. rewrite to_int_small by (split; [apply zlength_nonneg|done]).
  rewrite (proj2 (Z.leb_gt (map_at _ _ _) _)), andb_false_r by lia. done.
Qed.

(** The last entry commits when a majority has it. *)
Lemma leader_commits L i (n : node) (w : Master C K) :
  log_entries_ n = L -> zlength L = i + 1 -> i < INT_MAX -> 0 <= commit_index_ n < i -> has_consumers (client_manager_p_ w) = false ->
  total_nodes_ n ÷ 2 < count_synced i (matched_index_ n) + 1 ->
  exists st, advance_commit i (n, w) = Ret (set_cluster_node_storage_p_ st (set_commit_index_ i
    (set_message_queue_ (foldl exec (message_queue_ n) (log_calls (drop (Z.to_nat (commit_index_ n + 1)) L))) n)), w).
Proof.
  intros Lg Ll Li Ck Hc Mj. unfold advance_commit. rewrite (proj2 (Z.ltb_lt _ _)), (proj2 (Z.ltb_lt _ _)), int_add_ok by (unfold INT_MIN; lia).
  cbn [obind]. rewrite commit_quiet by (rewrite ?Lg; lia || by right). cbn [obind]. rewrite Lg, take_ge by (rewrite length_drop; unfold zlength in *; lia).
  cbn [commit_index_ set_commit_index_ set_message_queue_]. rewrite Z.max_r by lia. unfold store_entries.
  match goal with |- context [store_log_entries_and_metadata ?l ?a ?b ?md ?s] =>
    destruct (store_accepts l a b md s) as [st E]; [lia|cbn; rewrite Lg; lia|] end.
  rewrite E. cbn [obind]. by exists st.
Qed.

Lemma leader_counts N c t L k i a f now rid m (n : node) (w : Master C K) :
  leads N c t L k i a n -> confirms f i m -> zlength L = i + 1 -> i < INT_MAX -> 0 <= k < i ->
  (forall x, matched_index_ n !! f = Some x -> x < i) -> has_consumers (client_manager_p_ w) = false ->
  exists n', node_step (TaskRuns now rid) (set_io_context_ [HandleMessage m] n, w) = Ret (n', w) /\
    matched_index_ n' = <[f := i]> (matched_index_ n) /\
    if N ÷ 2 <? a + 1 + 1 then
      state_ n' = LEADER /\ cur_term_ n' = t /\ log_entries_ n' = L /\ commit_index_ n' = i /\
      message_queue_ n' = foldl exec (message_queue_ n) (log_calls (drop (Z.to_nat (k + 1)) L))
    else leads N c t L k i (a + 1) n' /\ message_queue_ n' = message_queue_ n.
Proof.
  intros [I1 I2 I3 I4 I5 I6 I7 I8 I9] (T & Su & Fi & La) Ll Li Ck Ma Hc. pose proof (count_synced_insert i f _ Ma) as Ct. rewrite I9 in Ct.
  unfold node_step, run_posted_task. cbn [io_context_ set_io_context_]. unfold local_message_handler. rewrite T.
  unfold handle_append_response. cbv zeta. rewrite Fi, La, Su. cbn [Z.eqb negb].
  pose proof (I8 f) as Pf. unfold MAX_PENDING_APPEND in Pf. cbn [pending_append_reqs_ set_io_context_].
  rewrite int_sub_ok by (unfold INT_MIN, INT_MAX; lia). cbn [obind].
  match goal with |- context [advance_commit i (?x, w)] => set (n1 := x) end.
  assert (Rest : forall n2 : node, matched_index_ n2 = <[f := i]> (matched_index_ n) -> log_entries_ n2 = L ->
    (let* next := int_add (map_at 0 (matched_index_ n2) f) 1 in Ret (set_next_index_ (<[f := next]> (next_index_ n2)) n2, w)) =
      Ret (set_next_index_ (<[f := i + 1]> (next_index_ n2)) n2, w) /\
    trigger_entry_update f (set_next_index_ (<[f := i + 1]> (next_index_ n2)) n2, w) =
      Ret (touch_next f (set_next_index_ (<[f := i + 1]> (next_index_ n2)) n2), w)).
  { intros n2 M2 L2. split.
    - unfold map_at. rewrite M2, lookup_insert_eq. cbn [default from_option id]. by rewrite int_add_ok by (unfold INT_MIN; lia).
    - apply trigger_nothing; cbn [log_entries_ next_index_ set_next_index_]; rewrite L2; [lia|]. unfold map_at. rewrite lookup_insert_eq. cbn. lia. }
  destruct (N ÷ 2 <? a + 1 + 1) eqn:Mj.
  - apply Z.ltb_lt in Mj. destruct (leader_commits L i n1 w) as (st & E); [exact I6|done|done|cbn; lia|done|cbn; rewrite I2, Ct; lia|].
    rewrite E. cbn [obind]. match type of E with _ = Ret (?x, w) => destruct (Rest x) as [R1 R2]; [done|exact I6|] end.
    rewrite R1. cbn [obind]. rewrite R2. eexists. split; [reflexivity|]. cbn. rewrite I6, I7. done.
  - assert (E : advance_commit i (n1, w) = Ret (n1, w)).
    { unfold advance_commit. cbn [commit_index_ total_nodes_ matched_index_ n1 set_matched_index_ set_pending_append_reqs_ set_io_context_].
      rewrite I2, Ct, Mj. by destruct (_ <? i). }
    rewrite E. cbn [obind]. destruct (Rest n1) as [R1 R2]; [done|exact I6|]. rewrite R1. cbn [obind]. rewrite R2.
    eexists. split; [reflexivity|]. split; [done|]. split; [|done]. split; try done.
    intros g. pose proof (I8 g) as Pg. unfold MAX_PENDING_APPEND in *.
    match goal with |- context [pending_append_reqs_ ?x] =>
      change (pending_append_reqs_ x) with (<[f := Z.max 0 (map_at 0 (pending_append_reqs_ n) f - 1)]> (pending_append_reqs_ n)) end.
    set (d := map_at 0 (pending_append_reqs_ n) f) in *. unfold map_at.
    destruct (decide (g = f)) as [->|Ne]; [|rewrite lookup_insert_ne by done; exact Pg]. rewrite lookup_insert_eq. cbn [default from_option id]. lia.
Qed.

(** ** The leader takes a message *)

Definition followers (n : node) : list Z := map fst (map_iter (next_index_ n)).

(** A leader whose followers have its whole log, as far as it knows. *)
Record ready (N c t : Z) (L : list LogEntry) (k : Z) (n : node) : Prop := {
  ready_leads : leads N c t L k (zlength L) 0 n;
  ready_ok : node_ok n = true;
  ready_next f x : next_index_ n !! f = Some x <-> (0 <= f < N /\ f <> c) /\ x = zlength L;
  ready_pending f : map_at 0 (pending_append_reqs_ n) f < MAX_PENDING_APPEND;
  ready_matched f x : matched_index_ n !! f = Some x -> x < zlength L
}.

Lemma followers_elem N c t L k (n : node) f : ready N c t L k n -> f ∈ followers n <-> 0 <= f < N /\ f <> c.
Proof.
  intros R. unfold followers. rewrite list_elem_of_In, in_map_iff. split.
  - intros ([g x] & <- & X). apply list_elem_of_In, elem_of_map_iter in X. by apply (ready_next _ _ _ _ _ _ R) in X as [X _].
  - intros F. exists (f, zlength L). split; [done|]. apply list_elem_of_In, elem_of_map_iter. by apply (ready_next _ _ _ _ _ _ R).
Qed.

Lemma followers_NoDup (n : node) : NoDup (followers n).
Proof.
  unfold followers. rewrite (fmap_Permutation fst _ _ (map_iter_perm (next_index_ n)) : map fst _ ≡ₚ map fst _).
  apply NoDup_fst_map_to_list.
Qed.

Lemma leader_takes N c t L k now rid r (n : node) (w : Master C K) :
  ready N c t L k n -> type r = CLIENT_PUT_MESSAGE -> 0 < zlength L < INT_MAX -> int64 rid = true ->
  let m := ClientPutMessage_message (get_put_message_request r) in
  let e := new_entry LogEntry_ADD rid m n in
  zlength m <= 800 ->
  exists n' w' b, node_step (TaskRuns now rid) (set_io_context_ [HandleMessage r] n, w) = Ret (n', w') /\
    requested (cluster_manager_p_ w') = requested (cluster_manager_p_ w) ++ map (fun f => ToNode f b) (followers n) /\
    client_manager_p_ w' = client_manager_p_ w /\ leads N c t (L ++ [e]) k (zlength L) 0 n' /\
    matched_index_ n' = matched_index_ n /\ message_queue_ n' = message_queue_ n /\ replicates c t L e (deserialize_from_message b).
Proof.
  intros R T B Ir m e Sz. pose proof R as [[I1 I2 I3 I4 I5 I6 I7 I8 I9] O Nx Pe Ma]. apply node_ok_spec in O as (O1 & O2 & O3 & O4 & O5 & _).
  rewrite I6 in O5. destruct (last_is_Some L) as [_ [p La]]; [intros ->; done|]. destruct (log_ok_last _ _ O5 La) as [_ Ip].
  unfold node_step, run_posted_task. cbn [io_context_ set_io_context_]. unfold local_message_handler. rewrite T.
  unfold handle_put_message. change (state_ (set_io_context_ _ _)) with (state_ n). rewrite I3, bool_decide_eq_true_2 by done. cbn [negb].
  unfold add_log_entry. fold m. change (new_entry LogEntry_ADD rid m (set_io_context_ _ _)) with e.
  change (log_entries_ (set_io_context_ _ _)) with (log_entries_ n). rewrite I6.
  match goal with |- context [update_followers _ (?x, w)] => set (n1 := x) end. change (map fst (map_iter (next_index_ n1))) with (followers n).
  assert (Ee : entry_ok e = true) by (apply new_entry_ok; [done|exact Ir|unfold MAX_BODY_LENGTH; lia|exact O3]).
  assert (Cp : LogEntry_CopyFrom e LogEntry_new = e) by apply LogEntry_merge_into_new.
  set (req := entry_request n1 (zlength L - 1) p e).
  assert (Fit : sendable (set_partition_id (partition_id_ n1) (loadAppendEntriesRequest req RaftMessage_new)) = true).
  { unfold entry_ok in Ee. apply (append_request_fits _ _ e); [exact O1| | |unfold req, entry_request; by rewrite Cp|done|exact Sz].
    all: unfold req, entry_request; rewrite Cp; rewrite !andb_true_iff in Ee; destruct Ee as [[E1 E2] _].
    - unfold AppendEntriesRequest_ints. cbn -[LogEntry_ints]. rewrite O3, O2, O4, Ip, E1. by rewrite (proj2 (int32_spec (zlength L - 1))) by (unfold INT_MIN; lia).
    - unfold AppendEntriesRequest_IsInitialized. cbn -[LogEntry_IsInitialized]. by rewrite E2. }
  destruct (sent_request _ Fit) as (b & Se & D).
  destruct (update_followers_sends (followers n) L p e b n1 w) as (n' & w' & -> & Rq & Cm & Fr & Po); try done.
  { apply followers_NoDup. }
  { intros f F. split; [|apply Pe]. apply Nx. by rewrite <- (followers_elem N c t L k n f R). }
  exists n', w', b. rewrite D. destruct Fr as (x & y & ->). split_and!; try done.
  unfold replicates, req, entry_request. rewrite Cp. split_and!; try done. by exists p.
Qed.
End Handlers.

(** ** A schedule that replicates a message *)

Section Replication.
Context {St C K : Type}.
Context `{SI : ClusterNodeStorageInterface St, CI : ClusterManagerInterface C, KI : ClientManagerInterface K,
  RT : ProtobufRuntime} {SL : ClusterNodeStorageLaws St} {CL : ClusterManagerLaws C} {LW : ProtobufLaws RT}.
Abbreviation node := (ClusterNode St).
Abbreviation event := (cluster_event (St := St) (C := C) (K := K)).
Abbreviation cluster' := (cluster (St := St) (C := C) (K := K)).

(** A cluster with a leader [n0] that has no consumer, and whose other nodes are in
    sync with it; there may be other messages in flight. *)
Definition led_cluster (N c : Z) (n0 : node) (cl : cluster') : Prop :=
  let L := log_entries_ n0 in
  ready N c (cur_term_ n0) L (commit_index_ n0) n0 /\ 0 <= commit_index_ n0 < zlength L /\ zlength L < INT_MAX /\
  (exists w, cluster_nodes cl !! c = Some (n0, w) /\ has_consumers (client_manager_p_ w) = false) /\
  forall f, 0 <= f < N -> f <> c -> exists n w, cluster_nodes cl !! f = Some (n, w) /\ in_sync (cur_term_ n0) L f n.

(** The leader gets the message, sends it to its followers, and hears from half
    of them. *)
Definition replication (N c rid : Z) (r : RaftMessage) (n0 : node) (cl : cluster') : list event :=
  [ClientSends c r; NodeEvent c (TaskRuns 0 rid)] ++
  ask_rounds c (length (in_flight cl)) (followers n0) (Z.to_nat (N ÷ 2)).

Section Rounds.
Context (N c t k : Z) (L : list LogEntry) (e : LogEntry) (q : MessageQueue) (b : Message) (fl : list (Z * Message)).
Hypothesis Ht : int32 t = true.
Hypothesis He : LogEntry_index e = zlength L.
Hypothesis HL : 0 < zlength L < INT_MAX.
Hypothesis Hk : 0 <= k < zlength L.
Hypothesis Hb : replicates c t L e (deserialize_from_message b).

(** The rounds under way: [a] followers, [ds], have confirmed, the requests for [vs]
    are in flight. *)
Record replicating (a : Z) (vs ds : list Z) (cl : cluster') : Prop := {
  rep_leader : exists n w, cluster_nodes cl !! c = Some (n, w) /\ leads N c t (L ++ [e]) k (zlength L) a n /\
    has_consumers (client_manager_p_ w) = false /\ message_queue_ n = q /\
    forall f x, f ∈ vs -> matched_index_ n !! f = Some x -> x < zlength L;
  rep_followers i : i ∈ vs -> i <> c /\ exists n w, cluster_nodes cl !! i = Some (n, w) /\ in_sync t L i n;
  rep_done i : i ∈ ds -> i <> c /\ exists n w, cluster_nodes cl !! i = Some (n, w) /\ log_entries_ n = L ++ [e];
  rep_distinct : NoDup (vs ++ ds);
  rep_flight : in_flight cl = fl ++ map (fun i => (i, b)) vs
}.

(** The message is committed, and on the nodes [ds] besides the leader. *)
Definition replicated (ds : list Z) (cl : cluster') : Prop :=
  (exists n w, cluster_nodes cl !! c = Some (n, w) /\ state_ n = LEADER /\ cur_term_ n = t /\ log_entries_ n = L ++ [e] /\
    commit_index_ n = zlength L /\ message_queue_ n = foldl exec q (log_calls (drop (Z.to_nat (k + 1)) (L ++ [e])))) /\
  NoDup ds /\ forall i, i ∈ ds -> i <> c /\ exists n w, cluster_nodes cl !! i = Some (n, w) /\ log_entries_ n = L ++ [e].

Lemma replication_round a x vs ds (cl : cluster') :
  replicating a (x :: vs) ds cl ->
  let cl' := cluster_run (ask_round c x (length fl) (length vs)) cl in
  if N ÷ 2 <? a + 1 + 1 then replicated (x :: ds) cl' else replicating (a + 1) vs (x :: ds) cl'.
Proof.
  intros [(nc & wc & Ec & Ld & Hc & Hq & Hm) Fo Do ND Fl]. destruct cl as [ns fl']. cbn [cluster_nodes in_flight] in *. subst fl'.
  destruct (Fo x ltac:(by left)) as (Nx & n & w & Ex & Sx).
  destruct (follower_takes c t L e x 0 0 _ n w Sx Hb Ht He HL) as (n1 & w1 & b1 & S1 & M1 & G1 & L1 & Lg1).
  destruct (leader_counts N c t (L ++ [e]) k (zlength L) a x 0 0 _ nc wc Ld G1) as (n3 & S3 & Ma & R3);
    [apply zlength_snoc|lia|lia|intros y; apply Hm; by left|done|].
  destruct (exchange [] c x b b1 n n1 nc n3 w w1 wc wc ns fl (map (fun i => (i, b)) vs) Nx Ex Ec (sync_tasks _ _ _ _ Sx)
    (lead_tasks _ _ _ _ _ _ _ _ Ld) S1 M1 S3) as (_ & ns' & Rn & Ec' & Ex' & Ei); [by rewrite app_nil_r|].
  rewrite app_nil_r, length_map in Rn. cbv zeta. cbn [map]. rewrite Rn. rewrite <- app_comm_cons in ND. pose proof ND as [Nv ND']%NoDup_cons.
  assert (Do' : forall i, i ∈ x :: ds -> i <> c /\ exists n w, ns' !! i = Some (n, w) /\ log_entries_ n = L ++ [e]).
  { intros i [->|X]%elem_of_cons; [split; [done|by exists n1, w1]|]. destruct (Do i X) as (Ni & ni & wi & E & Lg). split; [done|].
    exists ni, wi. rewrite Ei; [done|done|]. intros ->. apply Nv, elem_of_app. by right. }
  rewrite Permutation_middle in ND. destruct (N ÷ 2 <? a + 1 + 1).
  - destruct R3 as (R1 & R2 & R4 & R5 & R6). split; [|split; [by apply NoDup_app in ND as (_ & _ & ND)|exact Do']].
    exists n3, wc. rewrite <- Hq. done.
  - destruct R3 as [R3 Rq]. split; cbn [cluster_nodes in_flight]; [| |exact Do'|done|done].
    + exists n3, wc. split_and!; [done|done|done|by rewrite Rq|]. intros f y F Y. rewrite Ma in Y.
      rewrite lookup_insert_ne in Y by (intros <-; apply Nv, elem_of_app; by left). apply (Hm f y); [by right|done].
    + intros i X. destruct (Fo i ltac:(by right)) as (Ni & ni & wi & E & Si). split; [done|]. exists ni, wi. split; [|done].
      rewrite Ei; [done|done|]. intros ->. apply Nv, elem_of_app. by left.
Qed.

Lemma replication_rounds r a vs ds (cl : cluster') :
  replicating a vs ds cl -> (0 < r <= length vs)%nat -> a + Z.of_nat r = N ÷ 2 -> zlength ds = a ->
  exists ds', replicated ds' (cluster_run (ask_rounds c (length fl) vs r) cl) /\ zlength ds' = N ÷ 2.
Proof.
  revert a vs ds cl. induction r as [|r IH]; intros a vs ds cl R Hr Sum Ld; [lia|].
  destruct vs as [|x vs]; [cbn in Hr; lia|]. cbn [ask_rounds]. rewrite cluster_run_app. pose proof (replication_round a x vs ds cl R) as R'.
  assert (Lx : zlength (x :: ds) = a + 1) by (unfold zlength in *; cbn [length]; lia). cbv zeta in R'. destruct r as [|r].
  - rewrite (proj2 (Z.ltb_lt _ _)) in R' by lia. exists (x :: ds). split; [by destruct vs|lia].
  - rewrite (proj2 (Z.ltb_ge _ _)) in R' by lia. apply (IH (a + 1) vs (x :: ds)); [done|cbn [length] in Hr; lia|lia|done].
Qed.
End Rounds.

(** There are enough followers. *)
Lemma followers_count N c t L k (n : node) : ready N c t L k n -> 0 <= c < N -> (Z.to_nat (N - 1) <= length (followers n))%nat.
Proof.
  intros R Hc. assert (P : seqZ 0 N ⊆+ c :: followers n).
  { apply NoDup_submseteq; [apply NoDup_seqZ|]. intros i X%elem_of_seqZ. destruct (decide (i = c)) as [->|Ne]; [by left|]. right.
    apply (followers_elem _ _ _ _ _ _ _ R). split; [lia|done]. }
  apply submseteq_length in P. rewrite length_seqZ in P. cbn [length] in P. lia.
Qed.

Lemma followers_packets b (fs : list Z) : map (fun f => ToNode f b) fs = to_nodes (map (fun i => (i, b)) fs).
Proof. unfold to_nodes. by rewrite map_map. Qed.

(** The first two steps of the schedule. *)
Lemma replication_starts N c rid r (n0 : node) (cl : cluster') :
  led_cluster N c n0 cl -> sendable r = true -> type r = CLIENT_PUT_MESSAGE -> int64 rid = true ->
  let m := ClientPutMessage_message (get_put_message_request r) in
  let e := new_entry LogEntry_ADD rid m n0 in
  zlength m <= 800 ->
  exists b, replicates c (cur_term_ n0) (log_entries_ n0) e (deserialize_from_message b) /\
    replicating N c (cur_term_ n0) (commit_index_ n0) (log_entries_ n0) e (message_queue_ n0) b (in_flight cl) 0 (followers n0) []
      (cluster_run [ClientSends c r; NodeEvent c (TaskRuns 0 rid)] cl).
Proof.
  intros (R & Ck & Lb & (w & Ec & Hc) & Fo) Se Ty Ir m e Sz. destruct cl as [ns fl]. cbn [cluster_nodes in_flight] in *.
  destruct (sent_request r Se) as (b0 & S0 & D0). cbn [cluster_run].
  assert (E1 : cluster_step (ClientSends c r) (mkCluster ns fl) = mkCluster (<[c := (set_io_context_ [HandleMessage r] n0, w)]> ns) fl).
  { cbn [cluster_step]. rewrite S0, (alter_at _ _ _ _ Ec). unfold post, message_handler. cbn [fst snd]. rewrite D0.
    by rewrite (lead_tasks _ _ _ _ _ _ _ _ (ready_leads _ _ _ _ _ _ R)). }
  rewrite E1. destruct (leader_takes N c (cur_term_ n0) _ _ 0 rid r n0 w R Ty ltac:(lia) Ir Sz) as (n1 & w1 & b & S1 & M1 & Cm & Ld & Ma & Qu & Rp).
  destruct (node_event_step c (TaskRuns 0 rid) (set_io_context_ [HandleMessage r] n0) n1 w w1 (map (fun f => ToNode f b) (followers n0)) (<[c := (set_io_context_ [HandleMessage r] n0, w)]> ns) fl) as [-> _];
    [apply lookup_insert_eq|exact S1|exact M1|]. rewrite (followers_packets b), packets_to_nodes. exists b. split; [exact Rp|].
  split; cbn [cluster_nodes in_flight]; [| |by intros i X%elem_of_nil|rewrite app_nil_r; apply followers_NoDup|done].
  - exists n1, w1. rewrite lookup_insert_eq. split_and!; [done|exact Ld|by rewrite Cm|done|]. intros f x _. rewrite Ma. apply (ready_matched _ _ _ _ _ _ R).
  - intros i [Hi Ni]%(followers_elem _ _ _ _ _ _ _ R). split; [done|]. rewrite !lookup_insert_ne by done. by apply Fo.
Qed.
End Replication.

(** ** Properties *)


(** The cluster of three after the election of node 0; the request for the vote
    of node 2 is still in flight. *)
Definition demo_led : cluster (St := ClusterNodeStorageMock) (C := ClusterManager nat) (K := ClientManager) :=
  cluster_run demo_election demo_cluster.

Definition demo_led_node (id : Z) : ClusterNode ClusterNodeStorageMock * Master (ClusterManager nat) ClientManager :=
  default (demo_member id, demo_master) (cluster_nodes demo_led !! id).

Lemma demo_led_follower f : In f [1; 2] -> in_sync (cur_term_ (demo_led_node 0).1) (log_entries_ (demo_led_node 0).1) f (demo_led_node f).1.
Proof. cbn. intros [<-|[<-|[]]]; split; vm_compute; (reflexivity || discriminate). Qed.

Lemma demo_led_ready :
  let n := (demo_led_node 0).1 in ready 3 0 (cur_term_ n) (log_entries_ n) (commit_index_ n) n.
Proof.
  intros n. assert (Nx : next_index_ n = {[ 1 := 1; 2 := 1 ]}) by (vm_compute; reflexivity).
  assert (Ma : matched_index_ n = {[ 1 := 0; 2 := 0 ]}) by (vm_compute; reflexivity).
  assert (Pe : pending_append_reqs_ n = ∅) by (vm_compute; reflexivity). assert (Lg : zlength (log_entries_ n) = 1) by (vm_compute; reflexivity).
  split.
  - split; try (vm_compute; reflexivity). intros f. unfold map_at. rewrite Pe, lookup_empty. vm_compute. split; discriminate.
  - vm_compute. reflexivity.
  - intros f x. rewrite Nx, Lg, lookup_insert_Some, lookup_singleton_Some. lia.
  - intros f. unfold map_at. rewrite Pe, lookup_empty. vm_compute. reflexivity.
  - intros f x. rewrite Ma, Lg, lookup_insert_Some, lookup_singleton_Some. lia.
Qed.

Lemma demo_led_cluster : led_cluster 3 0 (demo_led_node 0).1 demo_led.
Proof.
  split; [apply demo_led_ready|]. split; [vm_compute; split; [discriminate|reflexivity]|]. split; [vm_compute; reflexivity|]. split.
  - exists (demo_led_node 0).2. split; vm_compute; reflexivity.
  - intros f Hf Ne. exists (demo_led_node f).1, (demo_led_node f).2. assert (f = 1 \/ f = 2) as F by lia.
    split; [|apply demo_led_follower; cbn; lia]. destruct F as [->| ->]; vm_compute; reflexivity.
Qed.

