(* ===== verification/ClusterCatchUp.v ===== *)
(** * Followers that lag behind

    A leader finds the place where the log of a follower ends by going back one
    entry at a time, and then sends the missing entries one by one. *)

From S2P Require Import Prelude MessageQueue WireFormat FlowTypes FlowCodec FlowCodecFacts RaftMessage LogStorage ClusterManager ClientManager Configuration ClusterNode ClusterNodeFacts NodeElection NodeLog NodeTypes NodeQueue Network ClusterElection ClusterLog ClusterMatching ClusterReplicas ClusterProgress ClusterReplication.

Local Open Scope Z_scope.

Section CatchUp.
Context {St C K : Type}.
Context `{SI : ClusterNodeStorageInterface St, CI : ClusterManagerInterface C, KI : ClientManagerInterface K,
  RT : ProtobufRuntime} {SL : ClusterNodeStorageLaws St} {CL : ClusterManagerLaws C} {LW : ProtobufLaws RT}.
Abbreviation node := (ClusterNode St).
Abbreviation event := (cluster_event (St := St) (C := C) (K := K)).
Abbreviation cluster' := (cluster (St := St) (C := C) (K := K)).

(** A log that can be replicated: its entries are typed, carry their positions,
    and have messages that leave room for the fields around them. *)
Record replicable (L : list LogEntry) : Prop := {
  rp_size : zlength L < INT_MAX;
  rp_ok : log_ok L = true;
  rp_index i e : L !! i = Some e -> LogEntry_index e = Z.of_nat i;
  rp_message i e : L !! S i = Some e -> zlength (LogEntry_message e) <= 800
}.

(** The leader [c] of term [t], the follower [f] and the leader's log [L]. *)
Context (c f t : Z) (L : list LogEntry).
Hypothesis HL : replicable L.
Hypothesis Hc : int32 c = true.
Hypothesis Hf : int32 f = true.
Hypothesis Ht : int32 t = true.
Hypothesis Hcf : f <> c.

Record serves (n : node) : Prop := {
  serves_id : node_id_ n = c;
  serves_partition : int64 (partition_id_ n) = true;
  serves_state : state_ n = LEADER;
  serves_term : cur_term_ n = t;
  serves_tasks : io_context_ n = [];
  serves_log : log_entries_ n = L;
  serves_commit : 0 <= commit_index_ n < zlength L;
  serves_pending : 0 <= map_at 0 (pending_append_reqs_ n) f <= MAX_PENDING_APPEND
}.

(** The follower has the first [p] entries. *)
Record lags (p : nat) (n : node) : Prop := {
  lags_id : node_id_ n = f;
  lags_partition : int64 (partition_id_ n) = true;
  lags_state : state_ n <> LEADER;
  lags_term : cur_term_ n <= t;
  lags_tasks : io_context_ n = [];
  lags_log : log_entries_ n = take p L;
  lags_commit : 0 <= commit_index_ n;
  lags_prefix : (1 <= p <= length L)%nat
}.

(** A request of the leader: its entries follow position [q]. *)
Record probe (q : nat) (es : list LogEntry) (r : RaftMessage) : Prop := {
  probe_type : type r = APPEND_ENTRIES_REQUEST;
  probe_term : AppendEntriesRequest_term (get_append_request r) = t;
  probe_leader : AppendEntriesRequest_leader_id (get_append_request r) = c;
  probe_index : AppendEntriesRequest_prev_log_index (get_append_request r) = Z.of_nat q;
  probe_prev : exists p, L !! q = Some p /\ AppendEntriesRequest_prev_log_term (get_append_request r) = LogEntry_term p;
  probe_entries : AppendEntriesRequest_entries (get_append_request r) = es;
  probe_next : es = [] \/ exists e, es = [e] /\ L !! S q = Some e
}.

Definition rejects (r : RaftMessage) : Prop :=
  let resp := get_append_response r in
  type r = APPEND_ENTRIES_RESPONSE /\ AppendEntriesResponse_append_result_success resp = 0 /\
  AppendEntriesResponse_follower_id resp = f /\ AppendEntriesResponse_term resp = t.

(** ** The follower *)

(** How much of the log the follower has after it accepted a request. *)
Definition taken (p q : nat) (es : list LogEntry) : nat :=
  if (S q =? p)%nat && negb (bool_decide (es = [])) then S p else p.

Lemma lags_size p (n : node) : lags p n -> zlength (log_entries_ n) = Z.of_nat p /\ Z.of_nat p < INT_MAX.
Proof.
  intros [_ _ _ _ _ Lg _ P]. rewrite Lg. pose proof (rp_size _ HL) as B. unfold zlength in *. rewrite length_take, Nat.min_l by lia. lia.
Qed.

Lemma lags_lookup p q (n : node) : lags p n -> (q < p)%nat -> log_entries_ n !! q = L !! q.
Proof. intros Lg Q. rewrite (lags_log _ _ Lg). by rewrite lookup_take_lt. Qed.

(** Appending what follows [q] to the first [p] entries. *)
Lemma append_taken p q es (n : node) :
  log_entries_ n = take p L -> (1 <= p <= length L)%nat -> (q < p)%nat -> es = [] \/ (exists e, es = [e] /\ L !! S q = Some e) ->
  append_log_entries (Z.of_nat q) es n = Ret (set_log_entries_ (take (taken p q es) L) n) /\ (1 <= taken p q es <= length L)%nat.
Proof.
  intros Lg Pp Q Es. pose proof (rp_size _ HL) as B. unfold zlength in B.
  assert (Ll : length (take p L) = p) by (rewrite length_take; lia).
  unfold append_log_entries. rewrite Lg. destruct Es as [->|(e & -> & E)].
  { cbn [append_loop obind]. unfold taken. rewrite bool_decide_eq_true_2 by done. cbn [negb]. by rewrite andb_false_r. }
  unfold taken. rewrite bool_decide_eq_false_2 by done. cbn [negb]. rewrite andb_true_r. pose proof (lookup_lt_Some _ _ _ E) as Lt.
  cbn [append_loop]. rewrite int_add_ok by (unfold INT_MIN; lia). cbn [obind]. rewrite int_add_ok by (unfold INT_MIN; lia). cbn [obind].
  unfold zlength. rewrite Ll, to_int_small by lia. destruct (Nat.eqb_spec (S q) p) as [Eq|Ne].
  - rewrite (proj2 (Z.ltb_lt _ _)) by lia. cbn [obind]. subst p. rewrite <- (take_S_r L (S q) e E). split; [done|lia].
  - rewrite (proj2 (Z.ltb_ge _ _)) by lia. rewrite (proj2 (vec_at_ret _ _ e)); [cbn [obind]; by rewrite Z.eqb_refl|].
    split; [lia|]. rewrite lookup_take_lt by lia. rewrite <- E. f_equal. lia.
Qed.

Lemma last_taken p : (1 <= p <= length L)%nat -> exists e, last (take p L) = Some e /\ LogEntry_index e = Z.of_nat p - 1.
Proof.
  intros P. destruct (lookup_lt_is_Some_2 L (p - 1)) as [e E]; [lia|]. exists e. split.
  - rewrite last_lookup, length_take, Nat.min_l by lia. rewrite <- E. rewrite lookup_take_lt by lia. f_equal. lia.
  - rewrite (rp_index _ HL _ _ E). lia.
Qed.

(** The answer a node of term [t] sends. *)
Lemma answer_sent success i (n : node) (w : Master C K) :
  node_id_ n = f -> cur_term_ n = t -> int64 (partition_id_ n) = true -> int32 success = true -> int32 i = true ->
  exists b, send_to c (append_response success i n) (n, w) =
      Ret (n, mkMaster (write_message c b (cluster_manager_p_ w)) (client_manager_p_ w) (server_config_ w)) /\
    deserialize_from_message b = set_partition_id (partition_id_ n) (append_response success i n).
Proof.
  intros I T P S Ii. assert (Fit : sendable (set_partition_id (partition_id_ n) (append_response success i n)) = true).
  { apply append_response_fits; [done| |done]. unfold AppendEntriesResponse_ints. cbn. by rewrite I, T, Ht, Hf, S, Ii. }
  destruct (sent_request _ Fit) as (b & Se & D). exists b. unfold send_to, serialize_raft_message. by rewrite Se.
Qed.

Lemma accepted_leader now m (n : node) : type m = APPEND_ENTRIES_REQUEST -> AppendEntriesRequest_term (get_append_request m) = t ->
  AppendEntriesRequest_leader_id (get_append_request m) = c -> state_ n <> LEADER ->
  exists st, accept_leader now (get_append_request m) n =
    set_cur_leader_ c (set_cur_term_ t (set_last_heart_beat_received_ now (set_state_ st n))) /\ st <> LEADER.
Proof.
  intros T Te Ld S. destruct (accept_leader_frame now (get_append_request m) n) as (st & -> & Hst). exists st. rewrite Te, Ld.
  split; [done|]. destruct Hst as [->|[-> _]]; done.
Qed.

Lemma follower_answers p q es now rid m (n : node) (w : Master C K) :
  lags p n -> probe q es m ->
  exists n' w' b, node_step (TaskRuns now rid) (set_io_context_ [HandleMessage m] n, w) = Ret (n', w') /\
    requested (cluster_manager_p_ w') = requested (cluster_manager_p_ w) ++ [ToNode c b] /\
    if (q <? p)%nat then lags (taken p q es) n' /\ confirms f (Z.of_nat (taken p q es) - 1) (deserialize_from_message b)
    else lags p n' /\ rejects (deserialize_from_message b).
Proof.
  intros Lg [T Te Ld Pi (pe & Pe & Pt) En Es]. pose proof (lags_size p n Lg) as [Sz Bz]. pose proof Lg as [I1 I2 I3 I4 I5 I6 I7 I8].
  unfold node_step, run_posted_task. cbn [io_context_ set_io_context_]. unfold local_message_handler. rewrite T.
  unfold handle_append_request. cbv zeta. rewrite Te, (proj2 (Z.ltb_ge _ _)) by (cbn; lia).
  set (n0 := set_io_context_ [] (set_io_context_ [HandleMessage m] n)).
  destruct (accepted_leader now m n0 T Te Ld I3) as (st & -> & Hst). rewrite Ld, Pi, Pt, En.
  match goal with |- context [check_if_previous_log_in_sync _ _ ?x] => set (n1 := x) end.
  assert (Lg1 : lags p n1) by (split; try done; cbn; lia).
  assert (Ck : check_if_previous_log_in_sync (LogEntry_term pe) (Z.of_nat q) n1 = Ret (q <? p)%nat).
  { unfold check_if_previous_log_in_sync. pose proof (lookup_lt_Some _ _ _ Pe) as Lq. pose proof (rp_size _ HL) as B. unfold zlength in B.
    rewrite int_add_ok by (unfold INT_MIN; lia). cbn [obind]. change (log_entries_ n1) with (log_entries_ n). rewrite Sz, to_int_small by lia.
    destruct (Nat.ltb_spec q p); [|by rewrite (proj2 (Z.ltb_lt _ _)) by lia]. rewrite (proj2 (Z.ltb_ge _ _)) by lia.
    rewrite (proj2 (vec_at_ret _ _ pe)); [cbn [obind]; by rewrite Z.eqb_refl|]. split; [lia|].
    rewrite Nat2Z.id, (lags_lookup p q n Lg) by lia. done. }
  rewrite Ck. cbn [obind]. destruct (Nat.ltb_spec q p) as [Q|Q]; cbn [negb].
  - destruct (follow_quiet (AppendEntriesRequest_leader_commit (get_append_request m)) n1 w Hst I7) as (n2 & Ef & Fc);
      [change (log_entries_ n1) with (log_entries_ n); lia|].
    rewrite Ef. cbn [obind]. pose proof (follow_leader_commit_frame _ _ _ _ _ Ef) as (_ & _ & Cm). destruct Fc as (s2 & c2 & q2 & ->).
    match goal with |- context [append_log_entries _ _ ?x] => destruct (append_taken p q es x) as [-> Tk]; [exact I6|done|done|exact Es|] end.
    cbn [obind log_entries_ set_log_entries_]. destruct (last_taken _ Tk) as (e & La & Ie). unfold vec_back. rewrite La. cbn [obind]. rewrite Ie.
    match goal with |- context [send_to c (append_response _ _ ?x) _] => set (n3 := x) end.
    destruct (answer_sent 1 (Z.of_nat (taken p q es) - 1) n3 w) as (b & -> & D); [done|done|done|done| |].
    { apply int32_spec. pose proof (rp_size _ HL) as B. unfold zlength, INT_MIN in *. lia. }
    exists n3. eexists. exists b. split; [reflexivity|]. cbn [cluster_manager_p_]. rewrite requested_write_message, D. split; [done|]. split; [|by split_and!].
    split; try done. cbn in Cm |- *. change (commit_index_ n1) with (commit_index_ n) in Cm. lia.
  - destruct (answer_sent 0 (-1) n1 w) as (b & -> & D); [done..|].
    exists n1. eexists. exists b. split; [reflexivity|]. cbn [cluster_manager_p_]. rewrite requested_write_message, D. by split_and!.
Qed.

(** ** The leader *)

Lemma next_lookup (n : node) i : next_index_ n !! f = Some i -> map_at 0 (next_index_ n) f = i.
Proof. intros E. unfold map_at. by rewrite E. Qed.

(** The leader sends the entry at the follower's next index. *)
Lemma leader_sends i (n : node) (w : Master C K) :
  serves n -> next_index_ n !! f = Some (Z.of_nat (S i)) -> (S i < length L)%nat -> map_at 0 (pending_append_reqs_ n) f < MAX_PENDING_APPEND ->
  exists n' b e, trigger_entry_update f (n, w) =
      Ret (n', mkMaster (write_message f b (cluster_manager_p_ w)) (client_manager_p_ w) (server_config_ w)) /\
    serves n' /\ next_index_ n' = next_index_ n /\ matched_index_ n' = matched_index_ n /\ probe i [e] (deserialize_from_message b).
Proof.
  intros [I1 I2 I3 I4 I5 I6 I7 I8] Nx Lt Pe. pose proof (rp_size _ HL) as B. unfold zlength in B.
  destruct (lookup_lt_is_Some_2 L i) as [p P]; [lia|]. destruct (lookup_lt_is_Some_2 L (S i)) as [e E]; [lia|].
  pose proof (log_ok_entry _ _ _ (rp_ok _ HL) E) as Ee. destruct (log_ok_lookup _ _ _ (rp_ok _ HL) P) as [_ Ip].
  assert (Cp : LogEntry_CopyFrom e LogEntry_new = e) by apply LogEntry_merge_into_new.
  replace (Z.of_nat (S i)) with (Z.of_nat i + 1) in Nx by lia.
  set (req := entry_request n (Z.of_nat i + 1 - 1) p e).
  assert (Fit : sendable (set_partition_id (partition_id_ n) (loadAppendEntriesRequest req RaftMessage_new)) = true).
  { pose proof Ee as Ee'. unfold entry_ok in Ee'. rewrite !andb_true_iff in Ee'. destruct Ee' as [[E1 E2] _].
    apply (append_request_fits _ _ e); [exact I2| | |unfold req, entry_request; by rewrite Cp|done|exact (rp_message _ HL _ _ E)].
    all: unfold req, entry_request; rewrite Cp.
    - unfold AppendEntriesRequest_ints. cbn -[LogEntry_ints Z.of_nat]. rewrite I4, I1, Ht, Hc, Ip, E1.
      rewrite (proj2 (int32_spec _)) by (unfold INT_MIN; lia). by rewrite (proj2 (int32_spec (commit_index_ n))) by (unfold zlength, INT_MIN in *; lia).
    - unfold AppendEntriesRequest_IsInitialized. cbn -[LogEntry_IsInitialized]. by rewrite E2. }
  destruct (sent_request _ Fit) as (b & Se & D).
  destruct (trigger_sends f (Z.of_nat i + 1) p e b n w) as (pd & Tr & Pd); try done.
  { rewrite I6. unfold zlength. lia. } { rewrite I6. unfold zlength. lia. }
  { rewrite I6, <- P. f_equal. lia. } { rewrite I6, <- E. f_equal. lia. }
  exists (set_pending_append_reqs_ pd n), b, e. split; [exact Tr|]. split; [|split; [done|split; [done|]]].
  - split; try done. cbn. rewrite Pd, decide_True by done. unfold MAX_PENDING_APPEND in *. lia.
  - rewrite D. split; try done; [cbn; lia|by exists p|unfold req, entry_request; rewrite Cp; done|right; by exists e].
Qed.

(** The window of the follower after an answer. *)
Lemma window_opens (n : node) :
  serves n -> 0 <= map_at 0 (<[f := Z.max 0 (map_at 0 (pending_append_reqs_ n) f - 1)]> (pending_append_reqs_ n)) f < MAX_PENDING_APPEND.
Proof. intros Sv. pose proof (serves_pending _ Sv). unfold map_at at 1 3. rewrite lookup_insert_eq. cbn [default from_option id]. unfold MAX_PENDING_APPEND in *. lia. Qed.

(** A rejection: back by one entry. *)
Lemma leader_retries i now rid m (n : node) (w : Master C K) :
  serves n -> next_index_ n !! f = Some (Z.of_nat i) -> (i <= length L)%nat -> (1 < length L)%nat -> rejects m ->
  exists n' w' b e, node_step (TaskRuns now rid) (set_io_context_ [HandleMessage m] n, w) = Ret (n', w') /\
    requested (cluster_manager_p_ w') = requested (cluster_manager_p_ w) ++ to_nodes [(f, b)] /\
    client_manager_p_ w' = client_manager_p_ w /\ serves n' /\ next_index_ n' !! f = Some (Z.of_nat (S (i - 2))) /\
    probe (i - 2) [e] (deserialize_from_message b).
Proof.
  intros Sv Nx Li Ln (T & Su & Fi & Te). pose proof (window_opens n Sv) as Wo. pose proof Sv as [I1 I2 I3 I4 I5 I6 I7 I8].
  pose proof (rp_size _ HL) as B. unfold zlength in B. unfold MAX_PENDING_APPEND in I8.
  unfold node_step, run_posted_task. cbn [io_context_ set_io_context_]. unfold local_message_handler. rewrite T.
  unfold handle_append_response. cbv zeta. rewrite Fi, Su. cbn [Z.eqb negb]. cbn [pending_append_reqs_ set_io_context_].
  rewrite int_sub_ok by (unfold INT_MIN, INT_MAX; lia). cbn [obind]. rewrite Te.
  cbn [cur_term_ set_pending_append_reqs_ set_io_context_]. rewrite I4, Z.ltb_irrefl.
  cbn [next_index_ set_pending_append_reqs_ set_io_context_]. rewrite (next_lookup n _ Nx), int_sub_ok by (unfold INT_MIN; lia). cbn [obind].
  replace (Z.max 1 (Z.of_nat i - 1)) with (Z.of_nat (S (i - 2))) by lia.
  match goal with |- context [trigger_entry_update f (?x, w)] => set (n1 := x) end.
  assert (Sv1 : serves n1) by (split; try done; cbn [pending_append_reqs_ n1 set_next_index_ set_pending_append_reqs_]; unfold MAX_PENDING_APPEND in *; lia).
  destruct (leader_sends (i - 2) n1 w Sv1) as (n' & b & e & Tr & Sv' & Nx' & _ & Pr); [apply lookup_insert_eq|lia|exact (proj2 Wo)|].
  rewrite Tr. exists n'. eexists. exists b, e. split; [reflexivity|]. cbn [cluster_manager_p_ client_manager_p_].
  rewrite requested_write_message, Nx'. split; [done|]. split; [done|]. split; [done|]. split; [apply lookup_insert_eq|done].
Qed.

(** Any index of the log may become committed. *)
Lemma advance_quiet l (n : node) (w : Master C K) :
  log_entries_ n = L -> 0 <= commit_index_ n < zlength L -> l < zlength L -> has_consumers (client_manager_p_ w) = false ->
  exists n', advance_commit l (n, w) = Ret (n', w) /\ same_but_commit n n' /\ 0 <= commit_index_ n' < zlength L.
Proof.
  intros Lg Ck Ll Hcs. pose proof (rp_size _ HL) as B. unfold advance_commit.
  destruct (Z.ltb_spec (commit_index_ n) l); [|exists n; split; [done|split; [apply same_but_commit_refl|done]]].
  destruct (_ <? _); [|exists n; split; [done|split; [apply same_but_commit_refl|done]]].
  rewrite int_add_ok by (unfold INT_MIN; lia). cbn [obind]. rewrite commit_quiet by (rewrite ?Lg; lia || by right). cbn [obind].
  cbn [commit_index_ set_commit_index_ set_message_queue_]. rewrite Z.max_r by lia. unfold store_entries.
  match goal with |- context [store_log_entries_and_metadata ?lg ?a ?b ?md ?s] =>
    destruct (store_accepts lg a b md s) as [st E]; [lia|cbn; rewrite Lg; lia|] end.
  rewrite E. cbn [obind]. eexists. split; [reflexivity|]. split; [by do 3 eexists|cbn; lia].
Qed.

(** A confirmation: on to the next entry, if there is one. *)
Lemma leader_advances p now rid m (n : node) (w : Master C K) :
  serves n -> (1 <= p <= length L)%nat -> confirms f (Z.of_nat p - 1) m -> has_consumers (client_manager_p_ w) = false ->
  exists n' w' out, node_step (TaskRuns now rid) (set_io_context_ [HandleMessage m] n, w) = Ret (n', w') /\
    requested (cluster_manager_p_ w') = requested (cluster_manager_p_ w) ++ to_nodes out /\
    client_manager_p_ w' = client_manager_p_ w /\ serves n' /\ next_index_ n' !! f = Some (Z.of_nat p) /\
    matched_index_ n' !! f = Some (Z.of_nat p - 1) /\
    if (p <? length L)%nat then exists b e, out = [(f, b)] /\ probe (p - 1) [e] (deserialize_from_message b) else out = [].
Proof.
  intros Sv Pp (T & Su & Fi & La) Hcs. pose proof (window_opens n Sv) as Wo. pose proof Sv as [I1 I2 I3 I4 I5 I6 I7 I8].
  pose proof (rp_size _ HL) as B. unfold zlength in B. unfold MAX_PENDING_APPEND in I8.
  unfold node_step, run_posted_task. cbn [io_context_ set_io_context_]. unfold local_message_handler. rewrite T.
  unfold handle_append_response. cbv zeta. rewrite Fi, Su, La. cbn [Z.eqb negb]. cbn [pending_append_reqs_ set_io_context_].
  rewrite int_sub_ok by (unfold INT_MIN, INT_MAX; lia). cbn [obind].
  match goal with |- context [advance_commit _ (?x, w)] => set (n1 := x) end.
  destruct (advance_quiet (Z.of_nat p - 1) n1 w) as (n2 & -> & Fr & Ck); [exact I6|exact I7|unfold zlength; lia|done|].
  cbn [obind]. destruct Fr as (s2 & c2 & q2 & ->). cbn [matched_index_ set_cluster_node_storage_p_ set_commit_index_ set_message_queue_ n1 set_matched_index_].
  unfold map_at at 1. rewrite lookup_insert_eq. cbn [default from_option id]. rewrite int_add_ok by (unfold INT_MIN; lia). cbn [obind].
  replace (Z.of_nat p - 1 + 1) with (Z.of_nat p) by lia.
  match goal with |- context [trigger_entry_update f (?x, w)] => set (n3 := x) end.
  assert (Sv3 : serves n3) by (split; try done; cbn [pending_append_reqs_ n3 n1 set_next_index_ set_pending_append_reqs_ set_cluster_node_storage_p_ set_commit_index_ set_message_queue_ set_matched_index_]; unfold MAX_PENDING_APPEND in *; lia).
  assert (Nx3 : next_index_ n3 !! f = Some (Z.of_nat p)) by apply lookup_insert_eq.
  assert (Ma3 : matched_index_ n3 !! f = Some (Z.of_nat p - 1)) by apply lookup_insert_eq.
  destruct (Nat.ltb_spec p (length L)) as [Lt|Ge].
  - destruct (leader_sends (p - 1) n3 w Sv3) as (n' & b & e & Tr & Sv' & Nx' & Ma' & Pr);
      [replace (S (p - 1)) with p by lia; exact Nx3|lia|exact (proj2 Wo)|].
    rewrite Tr. exists n'. eexists. exists [(f, b)]. split; [reflexivity|]. cbn [cluster_manager_p_ client_manager_p_].
    rewrite requested_write_message, Nx', Ma'. split_and!; try done. by exists b, e.
  - rewrite trigger_nothing; [|rewrite (serves_log _ Sv3); unfold zlength; lia|rewrite (serves_log _ Sv3), (next_lookup _ _ Nx3); unfold zlength; lia].
    eexists. exists w, []. split; [reflexivity|]. split; [by rewrite app_nil_r|]. split; [done|]. unfold touch_next. rewrite (map_touch_present _ _ _ _ Nx3), set_next_same. by split_and!.
Qed.

(** ** Rounds *)

(** The leader takes [i] for the follower's next index, and a request for what
    follows [q] is in flight. *)
Record catching (p i q : nat) (es : list LogEntry) (fl rest : list (Z * Message)) (cl : cluster') : Prop := {
  catching_leader : exists n w, cluster_nodes cl !! c = Some (n, w) /\ serves n /\ next_index_ n !! f = Some (Z.of_nat i) /\
    has_consumers (client_manager_p_ w) = false;
  catching_follower : exists n w, cluster_nodes cl !! f = Some (n, w) /\ lags p n;
  catching_request : exists b, in_flight cl = fl ++ (f, b) :: rest /\ probe q es (deserialize_from_message b);
  catching_next : (i <= length L)%nat
}.

(** The follower has the whole log, and the leader knows. *)
Definition caught (cl : cluster') : Prop :=
  (exists n w, cluster_nodes cl !! c = Some (n, w) /\ serves n /\ next_index_ n !! f = Some (zlength L) /\
    matched_index_ n !! f = Some (zlength L - 1)) /\
  exists n w, cluster_nodes cl !! f = Some (n, w) /\ log_entries_ n = L.

Lemma catch_round p i q es fl rest cl :
  catching p i q es fl rest cl ->
  let cl' := cluster_run (ask_round c f (length fl) (length rest)) cl in
  if (q <? p)%nat then
    let p' := taken p q es in
    if (p' <? length L)%nat then exists e, catching p' p' (p' - 1) [e] (fl ++ rest) [] cl' else caught cl'
  else exists e, catching p (S (i - 2)) (i - 2) [e] (fl ++ rest) [] cl'.
Proof.
  intros [(n & w & Ec & Sv & Nx & Hcs) (m & v & Ef & Lg) (b & Fl & Pb) Li]. destruct cl as [ns fl']. cbn [cluster_nodes in_flight] in *. subst fl'.
  destruct (follower_answers p q es 0 0 _ m v Lg Pb) as (m1 & v1 & b1 & S1 & M1 & R1).
  pose proof (probe_prev _ _ _ Pb) as (pe & Pe & _). apply lookup_lt_Some in Pe. pose proof (lags_prefix _ _ Lg) as Lp.
  destruct (Nat.ltb_spec q p) as [Q|Q]; destruct R1 as [Lg1 An].
  - set (p' := taken p q es) in *. pose proof (lags_prefix _ _ Lg1) as Lp1.
    destruct (leader_advances p' 0 0 _ n w Sv Lp1 An Hcs) as (n3 & w3 & out & S3 & M3 & Cm & Sv3 & Nx3 & Ma3 & Out).
    destruct (exchange out c f b b1 m m1 n n3 v v1 w w3 ns fl rest Hcf Ef Ec (lags_tasks _ _ Lg) (serves_tasks _ Sv) S1 M1 S3 M3)
      as (_ & ns' & Rn & Ec' & Ef' & _). cbv zeta. rewrite Rn. destruct (Nat.ltb_spec p' (length L)) as [Lt|Ge].
    + destruct Out as (b2 & e & -> & Pr). exists e. split; cbn [cluster_nodes in_flight]; [|by exists m1, v1| |lia].
      * exists n3, w3. rewrite Cm. done.
      * exists b2. by rewrite app_assoc.
    + assert (p' = length L) as E by lia. split; [exists n3, w3|exists m1, v1]; cbn [cluster_nodes].
      * rewrite E in Nx3, Ma3. done.
      * split; [done|]. rewrite (lags_log _ _ Lg1), E. by rewrite take_ge.
  - destruct (leader_retries i 0 0 _ n w Sv Nx Li ltac:(lia) An) as (n3 & w3 & b2 & e & S3 & M3 & Cm & Sv3 & Nx3 & Pr).
    destruct (exchange [(f, b2)] c f b b1 m m1 n n3 v v1 w w3 ns fl rest Hcf Ef Ec (lags_tasks _ _ Lg) (serves_tasks _ Sv) S1 M1 S3 M3)
      as (_ & ns' & Rn & Ec' & Ef' & _). cbv zeta. rewrite Rn. exists e. split; cbn [cluster_nodes in_flight]; [|by exists m1, v1| |lia].
    + exists n3, w3. rewrite Cm. done.
    + exists b2. by rewrite app_assoc.
Qed.

Fixpoint catch_rounds (first k : nat) : list event :=
  match k with
  | O => []
  | S k => ask_round c f first 0 ++ catch_rounds first k
  end.

(** How many more rounds it takes at most when the entry at [S i] is in flight. *)
Definition rounds_left (p i : nat) : nat := (length L - p) + (S i - p) + (if (S i <? p)%nat then 1 else 0).

Lemma catch_up_rounds d p i e fl cl :
  catching p (S i) i [e] fl [] cl -> (rounds_left p i <= d)%nat ->
  exists k, (k <= d)%nat /\ caught (cluster_run (catch_rounds (length fl) k) cl).
Proof.
  revert p i e cl. induction d as [|d IH]; intros p i e cl Ca Le.
  all: pose proof Ca as [_ (m & v & _ & Lg) (b & _ & Pb) _]; pose proof (lags_prefix _ _ Lg) as Lp.
  all: destruct (probe_next _ _ _ Pb) as [Ne|(e' & [= <-] & E)]; [done|]; apply lookup_lt_Some in E.
  { exfalso. unfold rounds_left in Le. destruct (Nat.ltb_spec (S i) p); lia. }
  pose proof (catch_round p (S i) i [e] fl [] cl Ca) as R. cbv zeta in R. cbn [length] in R. rewrite app_nil_r in R.
  assert (Next : forall p' i' e', catching p' (S i') i' [e'] fl [] (cluster_run (ask_round c f (length fl) 0) cl) -> (rounds_left p' i' <= d)%nat ->
    exists k, (k <= S d)%nat /\ caught (cluster_run (catch_rounds (length fl) k) cl)).
  { intros p' i' e' Ca' Le'. destruct (IH p' i' e' _ Ca' Le') as (k & Lk & Ck). exists (S k). split; [lia|]. cbn [catch_rounds]. by rewrite cluster_run_app. }
  unfold rounds_left in Le. destruct (Nat.ltb_spec i p) as [Q|Q].
  - unfold taken in R. rewrite bool_decide_eq_false_2 in R by done. cbn [negb] in R. rewrite andb_true_r in R.
    set (p' := if (S i =? p)%nat then S p else p) in R. destruct (Nat.ltb_spec p' (length L)) as [Lt|Ge].
    + destruct R as [e2 R]. unfold p' in *. clear p'. destruct (Nat.eqb_spec (S i) p) as [Eq|Nq].
      * apply (Next (S p) p e2); [by replace (S p - 1)%nat with p in R by lia|]. unfold rounds_left. destruct (Nat.ltb_spec (S p) (S p)); lia.
      * apply (Next p (p - 1)%nat e2); [by replace (S (p - 1)) with p by lia|]. unfold rounds_left.
        destruct (Nat.ltb_spec (S (p - 1)) p); destruct (Nat.ltb_spec (S i) p); lia.
    + exists 1%nat. split; [lia|]. exact R.
  - destruct R as [e2 R]. apply (Next p (S i - 2)%nat e2 R). unfold rounds_left. destruct (Nat.ltb_spec (S i) p); [lia|].
    destruct (Nat.ltb_spec (S (S i - 2)) p); lia.
Qed.

(** ** The heartbeat *)

Lemma count_heartbeats_ok ids self m :
  NoDup ids -> (forall g, g ∈ ids -> 0 <= map_at 0 m g < INT_MAX) ->
  exists m', count_heartbeats ids self m = Ret m' /\ forall g, map_at 0 m g <= map_at 0 m' g <= map_at 0 m g + 1 /\ (g ∉ ids -> map_at 0 m' g = map_at 0 m g).
Proof.
  intros ND. revert m. induction ND as [|i ids Ni ND IH]; intros m B; [exists m; split; [done|]; intros g; split; [lia|done]|].
  cbn [count_heartbeats]. destruct (i =? self).
  - destruct (IH m) as (m' & E & Q); [intros g G; apply B; by right|]. exists m'. split; [done|]. intros g. destruct (Q g) as [Q1 Q2]. split; [done|].
    intros G. apply Q2. intros X. apply G. by right.
  - pose proof (B i ltac:(by left)) as Bi. rewrite int_add_ok by (unfold INT_MIN; lia). cbn [obind].
    destruct (IH (<[i := map_at 0 m i + 1]> m)) as (m' & E & Q).
    { intros g G. rewrite map_at_insert, decide_False by (by intros ->). apply B. by right. }
    exists m'. split; [done|]. intros g. destruct (Q g) as [Q1 Q2]. rewrite map_at_insert in Q1, Q2. destruct (decide (g = i)) as [->|Ne].
    + specialize (Q2 Ni). split; [lia|]. intros G. destruct G. by left.
    + split; [done|]. intros G. apply Q2. intros X. apply G. by right.
Qed.

Lemma heartbeat_probes (n : node) (w : Master C K) :
  serves n -> heartbeat_timer_ n = true -> (forall g, 0 <= map_at 0 (pending_append_reqs_ n) g < INT_MAX) ->
  map_at 0 (pending_append_reqs_ n) f < MAX_PENDING_APPEND ->
  exists n' w' b, node_step HeartbeatTimer (n, w) = Ret (n', w') /\
    requested (cluster_manager_p_ w') = requested (cluster_manager_p_ w) ++ [ToAll b] /\ client_manager_p_ w' = client_manager_p_ w /\
    serves n' /\ next_index_ n' = next_index_ n /\ probe (length L - 1) [] (deserialize_from_message b).
Proof.
  intros [I1 I2 I3 I4 I5 I6 I7 I8] Hb Pe Pf. pose proof (rp_size _ HL) as B. unfold zlength in *.
  destruct (last_taken (length L)) as (e & La & Ie); [lia|]. rewrite take_ge in La by lia. destruct (log_ok_last _ _ (rp_ok _ HL) La) as [Ii Ip].
  unfold node_step. rewrite Hb. unfold on_heartbeat_timer. rewrite I3, bool_decide_eq_true_2 by done.
  unfold vec_back. rewrite I6, La. cbn [obind].
  match goal with |- context [send_all (loadAppendEntriesRequest ?r _) _] => set (req := r) end.
  assert (Fit : sendable (set_partition_id (partition_id_ n) (loadAppendEntriesRequest req RaftMessage_new)) = true).
  { assert (Ri : AppendEntriesRequest_ints req = true).
    { unfold req, AppendEntriesRequest_ints. cbn. rewrite I4, I1, Ht, Hc, Ii, Ip. by rewrite (proj2 (int32_spec _)) by (unfold INT_MIN; lia). }
    unfold sendable. rewrite !andb_true_iff. split_and!; [unfold FlowMessage_ints; cbn; by rewrite I2, Ri|done|]. apply Z.leb_le.
    apply andb_true_iff in Ri as [_ Ri%bool_decide_eq_true_1]. apply (AppendEntriesRequest_size_entries _ 0) in Ri; [|done].
    rewrite FlowMessage_size_sum. cbn. change (zlength []) with 0. pose proof (MessageSize_bound (AppendEntriesRequest_ByteSizeLong req)).
    destruct sizes_bounded as (_ & B2 & B3 & _). pose proof (B2 (partition_id_ n)). pose proof (B3 2). unfold MAX_BODY_LENGTH. lia. }
  destruct (sent_request _ Fit) as (b & Se & D). unfold send_all, serialize_raft_message. rewrite Se. cbn [obind].
  destruct (count_heartbeats_ok (node_ids (total_nodes_ n)) (node_id_ n) (pending_append_reqs_ n)) as (m' & -> & Q); [apply NoDup_seqZ|intros g _; apply Pe|].
  cbn [obind]. eexists. eexists. exists b. split; [reflexivity|]. cbn [cluster_manager_p_ client_manager_p_]. rewrite requested_broad_cast. split; [done|]. split; [done|].
  split; [|split; [done|]].
  - split; try done. cbn. destruct (Q f) as [Qf _]. pose proof (Pe f). unfold MAX_PENDING_APPEND in *. lia.
  - rewrite D. split; try done; [unfold req; cbn -[Z.of_nat]; lia| |by left]. exists e. split; [|done]. rewrite <- La, last_lookup. f_equal. lia.
Qed.

(** The broadcast puts a request to the follower in flight, among others. *)
Lemma heartbeat_in_flight p i (n m : node) (w v : Master C K) (cl : cluster') :
  cluster_nodes cl !! c = Some (n, w) -> cluster_nodes cl !! f = Some (m, v) -> serves n -> lags p m ->
  heartbeat_timer_ n = true -> (forall g, 0 <= map_at 0 (pending_append_reqs_ n) g < INT_MAX) ->
  map_at 0 (pending_append_reqs_ n) f < MAX_PENDING_APPEND -> next_index_ n !! f = Some (Z.of_nat i) -> (i <= length L)%nat ->
  has_consumers (client_manager_p_ w) = false ->
  exists fl rest, catching p i (length L - 1) [] fl rest (cluster_step (NodeEvent c HeartbeatTimer) cl).
Proof.
  intros Ec Ef Sv Lg Hb Pe Pf Nx Li Hcs. destruct cl as [ns fl0]. cbn [cluster_nodes] in *.
  destruct (heartbeat_probes n w Sv Hb Pe Pf) as (n' & w' & b & Sp & Rq & Cm & Sv' & Nx' & Pr).
  destruct (node_event_step c HeartbeatTimer n n' w w' [ToAll b] ns fl0 Ec Sp Rq) as [-> _]. cbn [map concat packets]. rewrite app_nil_r.
  assert (X : f ∈ List.filter (fun id => negb (id =? c)) (node_ids_of ns)).
  { apply list_elem_of_In, filter_In. rewrite (proj2 (Z.eqb_neq f c)) by done. split; [|done]. unfold node_ids_of. apply in_map_iff.
    exists (f, (m, v)). split; [done|]. apply list_elem_of_In. by apply elem_of_map_to_list. }
  apply list_elem_of_split in X as (l1 & l2 & ->). rewrite map_app. cbn [map].
  exists (fl0 ++ map (fun id => (id, b)) l1), (map (fun id => (id, b)) l2). split; cbn [cluster_nodes in_flight]; [| | |done].
  - exists n', w'. rewrite lookup_insert_eq, Nx', Cm. done.
  - exists m, v. by rewrite lookup_insert_ne.
  - exists b. by rewrite <- app_assoc.
Qed.

Lemma catch_up_all p i fl rest cl :
  catching p i (length L - 1) [] fl rest cl ->
  exists k, (k <= 2 * length L)%nat /\
    caught (cluster_run (ask_round c f (length fl) (length rest) ++ catch_rounds (length fl + length rest) k) cl).
Proof.
  intros Ca. pose proof Ca as [_ (m & v & _ & Lg) _ Li]. pose proof (lags_prefix _ _ Lg) as Lp.
  pose proof (catch_round _ _ _ _ _ _ _ Ca) as R. cbv zeta in R. unfold taken in R. rewrite bool_decide_eq_true_2 in R by done. cbn [negb] in R.
  rewrite andb_false_r in R. destruct (Nat.ltb_spec (length L - 1) p) as [Q|Q].
  - destruct (Nat.ltb_spec p (length L)) as [Lt|Ge]; [lia|]. exists O. split; [lia|]. by rewrite cluster_run_app.
  - destruct R as [e R]. destruct (catch_up_rounds (2 * length L) _ _ _ _ _ R) as (k & Lk & Ck).
    + unfold rounds_left. destruct (Nat.ltb_spec (S (i - 2)) p); lia.
    + exists k. split; [done|]. by rewrite cluster_run_app, <- length_app.
Qed.
End CatchUp.

(** ** Properties *)

(** C7: a follower that lags behind catches up: a leader whose log can be
    replicated and a follower that has only the beginning of it, how little that
    may be, and whatever place the leader has for it in [next_index_], need one
    heartbeat and at most two exchanges for each entry until the follower has
    the whole log and the leader knows it; other messages may be in flight all
    the time. The leader has no consumer to deliver to, and less than
    [MAX_PENDING_APPEND] requests to the follower pending. *)
Theorem follower_catches_up `{SI : ClusterNodeStorageInterface St, SL : !ClusterNodeStorageLaws St, CI : ClusterManagerInterface C,
    CL : !ClusterManagerLaws C, ClientManagerInterface K} `{LW : ProtobufLaws} (c f : Z) (p i : nat)
    (n m : ClusterNode St) (w v : Master C K) (cl : cluster (St := St) (C := C) (K := K)) :
  let L := log_entries_ n in
  cluster_nodes cl !! c = Some (n, w) -> cluster_nodes cl !! f = Some (m, v) -> f <> c ->
  node_ok n = true -> node_ok m = true -> replicable L ->
  serves c f (cur_term_ n) L n -> lags f (cur_term_ n) L p m -> heartbeat_timer_ n = true ->
  (forall g, 0 <= map_at 0 (pending_append_reqs_ n) g < INT_MAX) -> map_at 0 (pending_append_reqs_ n) f < MAX_PENDING_APPEND ->
  next_index_ n !! f = Some (Z.of_nat i) -> (i <= length L)%nat -> has_consumers (client_manager_p_ w) = false ->
  exists first left k, (k <= 2 * length L)%nat /\
    let es := NodeEvent c HeartbeatTimer :: ask_round c f first left ++ catch_rounds c f (first + left) k in
    exists n' w' m' v', cluster_nodes (cluster_run es cl) !! c = Some (n', w') /\ cluster_nodes (cluster_run es cl) !! f = Some (m', v') /\
      state_ n' = LEADER /\ cur_term_ n' = cur_term_ n /\ log_entries_ n' = L /\ log_entries_ m' = L /\
      matched_index_ n' !! f = Some (zlength L - 1) /\ next_index_ n' !! f = Some (zlength L).
Proof.
  intros L Ec Ef Ne On Om HL Sv Lg Hb Pe Pf Nx Li Hcs. apply node_ok_spec in On as (_ & In & It & _). apply node_ok_spec in Om as (_ & Im & _).
  rewrite (serves_id _ _ _ _ _ Sv) in In. rewrite (lags_id _ _ _ _ _ Lg) in Im.
  destruct (heartbeat_in_flight c f (cur_term_ n) L HL In It Ne p i n m w v cl Ec Ef Sv Lg Hb Pe Pf Nx Li Hcs) as (fl & rest & Ca).
  destruct (catch_up_all c f (cur_term_ n) L HL In Im It Ne p i fl rest _ Ca) as (k & Lk & (n' & w' & E1 & Sv' & Nx' & Ma') & m' & v' & E2 & Lg').
  exists (length fl), (length rest), k. split; [done|]. cbv zeta. cbn [cluster_run]. exists n', w', m', v'.
  destruct Sv' as [_ _ S3 S4 _ S6 _ _]. by split_and!.
Qed.

(** A leader with three entries that takes its followers to be up to date, and a
    new node. *)
Definition demo_ahead : ClusterNode ClusterNodeStorageMock :=
  set_next_index_ {[ 1 := 4; 2 := 4 ]} (demo_node LEADER 4 0 demo_leader_log []).

Definition demo_lagging : cluster (St := ClusterNodeStorageMock) (C := ClusterManager nat) (K := ClientManager) :=
  mkCluster {[ 0 := (demo_ahead, demo_master); 1 := (demo_member 1, demo_master) ]} [].

Lemma demo_log_replicable : replicable demo_leader_log.
Proof.
  split; [vm_compute; reflexivity|vm_compute; reflexivity|..].
  - intros i e E. do 4 (destruct i as [|i]; [injection E as <-; vm_compute; reflexivity|]). done.
  - intros i e E. do 3 (destruct i as [|i]; [injection E as <-; vm_compute; discriminate|]). done.
Qed.

Lemma follower_catches_up_witness :
  exists es n w, cluster_nodes (cluster_run es demo_lagging) !! 1 = Some (n, w) /\ log_entries_ n = demo_leader_log.
Proof.
  assert (Pe : forall g, map_at 0 (pending_append_reqs_ demo_ahead) g = 0) by (intros g; reflexivity).
  assert (Sv : serves 0 1 (cur_term_ demo_ahead) (log_entries_ demo_ahead) demo_ahead) by (split; vm_compute; (reflexivity || intuition discriminate)).
  assert (Lg : lags 1 (cur_term_ demo_ahead) (log_entries_ demo_ahead) 1 (demo_member 1)) by (split; vm_compute; (reflexivity || discriminate || lia)).
  destruct (follower_catches_up 0 1 1 4 demo_ahead (demo_member 1) demo_master demo_master demo_lagging eq_refl eq_refl ltac:(done)
    ltac:(vm_compute; reflexivity) ltac:(vm_compute; reflexivity) demo_log_replicable Sv Lg eq_refl) as (a & r & k & _ & n' & w' & m' & v' & _ & E & _ & _ & _ & Lm & _).
  - intros g. rewrite Pe. vm_compute. split; [discriminate|reflexivity].
  - rewrite Pe. vm_compute. reflexivity.
  - vm_compute. reflexivity.
  - vm_compute. lia.
  - vm_compute. reflexivity.
  - eexists. exists m', v'. split; [exact E|exact Lm].
Defined.

(** Two heartbeats of a leader are lost, then it gets a message; from there on
    heartbeats and their answers all arrive. *)
Definition demo_beat : list demo_event :=
  [NodeEvent 0 HeartbeatTimer; Arrives 0; Arrives 0; demo_task 1; demo_task 2; Arrives 0; Arrives 0; demo_task 0; demo_task 0].

Definition demo_two_lost : list demo_event :=
  demo_election ++ [Lost 0; NodeEvent 0 HeartbeatTimer; Lost 0; Lost 0; NodeEvent 0 HeartbeatTimer; Lost 0; Lost 0;
    ClientSends 0 (demo_put_message (str "a")); demo_task 0].

(** The limit on pending requests is needed for catching up: after two lost
    heartbeats the leader has a message that it sends to nobody and cannot
    commit, although it exchanges heartbeats with both followers. *)
Theorem two_lost_heartbeats_stop_cluster :
  forallb (fun k =>
    let cl := cluster_run (demo_two_lost ++ concat (repeat demo_beat k)) demo_cluster in
    bool_decide (in_flight cl = []) && bool_decide (map (fun id => length (log_of id cl)) [0; 1; 2] = [2%nat; 1%nat; 1%nat]) &&
    bool_decide (tip 0 cl = Some (0, 0))) [0; 1; 2; 3]%nat = true.
Proof. vm_compute. reflexivity. Qed.
