(* ===== verification/ClusterMaster.v ===== *)
(** * The server process

    [ClusterMaster] (src/src/flowmq/cluster_master.hpp and cluster_master.cpp):
    the partitions of a server and the two managers they share, and
    [RunServer] (src/src/application/cluster_node.cpp), which reads the
    configuration and puts them together. The managers' closures call the
    master, which posts to the io_context of a partition; the io_contexts of
    the partitions run in threads of their own, so a step of the server is a
    step of any of them. *)

From S2P Require Import Prelude MessageQueue WireFormat FlowTypes FlowCodec FlowCodecFacts Decimal RaftMessage Session LogStorage Logging ClusterManager ClientManager Configuration ClusterNode ClusterNodeFacts NodeElection NodeLog NodeQueue NodeRecovery.

Local Open Scope Z_scope.

Section ClusterMaster.
Context {St results_type : Type} `{!Inhabited results_type}.
Context `{SI : ClusterNodeStorageInterface St, RT : ProtobufRuntime}.
Abbreviation node := (ClusterNode St).

(** [nodes_], and the members a node reaches through [cluster_master_]. *)
Record ClusterMaster := mkClusterMaster {
  nodes_ : gmap Z node;
  members : Master (ClusterManager results_type) ClientManager
}.

Definition set_nodes (ns : gmap Z node) (m : ClusterMaster) : ClusterMaster := mkClusterMaster ns (members m).
Definition set_cluster_manager (c : ClusterManager results_type) (m : ClusterMaster) : ClusterMaster :=
  mkClusterMaster (nodes_ m) (mkMaster c (client_manager_p_ (members m)) (server_config_ (members m))).
Definition set_client_manager (k : ClientManager) (m : ClusterMaster) : ClusterMaster :=
  mkClusterMaster (nodes_ m) (mkMaster (cluster_manager_p_ (members m)) k (server_config_ (members m))).

(** The constructor starts both managers. *)
Definition ClusterMaster_new (cluster_manager_p : ClusterManager results_type) (client_manager_p : ClientManager)
    (server_config : ServerConfiguration) : ClusterMaster :=
  mkClusterMaster ∅ (mkMaster (start cluster_manager_p) (ClientManager_start client_manager_p) server_config).

Definition add_cluster_node (partition_id : Z) (cluster_node : node) (m : ClusterMaster) : ClusterMaster :=
  set_nodes (<[partition_id := cluster_node]> (nodes_ m)) m.

(** An unknown partition fails the assertion. *)
Definition ClusterMaster_message_handler (msg : Message) (m : ClusterMaster) : outcome ClusterMaster :=
  let raft_msg := deserialize_from_message msg in
  match nodes_ m !! partition_id raft_msg with
  | None => Fault AssertFailed
  | Some n => Ret (set_nodes (<[partition_id raft_msg := message_handler msg n]> (nodes_ m)) m)
  end.

Definition client_disconnected (client_id : Z) (m : ClusterMaster) : ClusterMaster :=
  set_nodes (consumer_disconnected client_id <$> nodes_ m) m.

Definition get_nodes (m : ClusterMaster) : gmap Z node := nodes_ m.

(** ** Steps of the process *)

(** The managers call the handlers the constructor registered. *)
Fixpoint dispatch (msgs : list Message) (m : ClusterMaster) : outcome ClusterMaster :=
  match msgs with
  | [] => Ret m
  | msg :: msgs => let* m := ClusterMaster_message_handler msg m in dispatch msgs m
  end.

Definition client_call (e : client_event) (m : ClusterMaster) : outcome ClusterMaster :=
  match e with
  | ToMaster msg => ClusterMaster_message_handler msg m
  | ClientDisconnected id => Ret (client_disconnected id m)
  end.

Fixpoint client_calls (es : list client_event) (m : ClusterMaster) : outcome ClusterMaster :=
  match es with
  | [] => Ret m
  | e :: es => let* m := client_call e m in client_calls es m
  end.

(** The completion handlers of the shared io_context, and the closures of the
    partitions' io_contexts. *)
Inductive server_event :=
  | NodeRuns (partition_id : Z) (e : node_event)
  | ClusterAccepted (error : bool)
  | ClusterConnected (n : nat) (error : bool)
  | ClusterRetry (n : nat)
  | ClusterPosted
  | ClusterSession (h : Z) (i : session_input)
  | ClientAccepted (error : bool) (id : Z)
  | ClientSession (h : Z) (i : session_input).

Definition server_step (e : server_event) (m : ClusterMaster) : outcome ClusterMaster :=
  let c := cluster_manager_p_ (members m) in
  let k := client_manager_p_ (members m) in
  match e with
  | NodeRuns p ev =>
      match nodes_ m !! p with
      | None => Ret m
      | Some n =>
          let* s := node_step ev (n, members m) in
          Ret (mkClusterMaster (<[p := s.1]> (nodes_ m)) s.2)
      end
  | ClusterAccepted error =>
      if accepting c then let* c := on_accept error c in Ret (set_cluster_manager c m) else Ret m
  | ClusterConnected n error => Ret (set_cluster_manager (on_connect n error c) m)
  | ClusterRetry n => Ret (set_cluster_manager (on_retry_timer n c) m)
  | ClusterPosted => Ret (set_cluster_manager (run_posted c) m)
  | ClusterSession h i =>
      let* r := on_session h i c in
      dispatch r.1 (set_cluster_manager r.2 m)
  | ClientAccepted error id =>
      Ret (if client_accepting k then set_client_manager (client_on_accept error id k) m else m)
  | ClientSession h i =>
      let* r := client_on_session h i k in
      client_calls r.1 (set_client_manager r.2 m)
  end.

Fixpoint server_run (es : list server_event) (m : ClusterMaster) : outcome ClusterMaster :=
  match es with
  | [] => Ret m
  | e :: es => let* m := server_step e m in server_run es m
  end.
End ClusterMaster.
Arguments ClusterMaster : clear implicits.
Arguments mkClusterMaster {St results_type}.

(** ** Starting a server *)

Section RunServer.
Context {results_type : Type} `{!Inhabited results_type, RT : ProtobufRuntime}.
(** [tcp::resolver::resolve], which throws where the name is unknown. *)
Variable resolve : bytes -> bytes -> outcome results_type.
(** Whether a [tcp::acceptor] can be opened on a port; its constructor throws
    where the port is taken. *)
Variable can_listen : Z -> bool.

(** [static_cast<unsigned short>(stoi(port))]. *)
Definition port_number (port : bytes) : outcome Z :=
  let* p := stoi port in Ret (p mod 2 ^ 16).

(** The loop over [server_nodes] from position [i] on: the port to listen on
    for other servers ([this_endpoint] keeps the value of the last match, port
    0 if there is none), and the endpoints of the other servers with their
    positions. *)
Fixpoint cluster_endpoints (i : Z) (current_node : Z) (nodes : list ServerPoint) (this_endpoint : Z)
    : outcome (Z * list (Z * results_type)) :=
  match nodes with
  | [] => Ret (this_endpoint, [])
  | (id, host, cluster_port, client_port) :: nodes =>
      if id =? current_node then
        let* p := port_number cluster_port in
        cluster_endpoints (i + 1) current_node nodes p
      else
        let* e := resolve host cluster_port in
        let* r := cluster_endpoints (i + 1) current_node nodes this_endpoint in
        Ret (r.1, (i, e) :: r.2)
  end.

(** The loop over the partitions: a storage and a node for each; [garbage] is
    what members without an initializer hold, [d] is the disk. *)
Fixpoint add_partitions (partitions : list Z) (cur_node_id total_nodes garbage : Z) (d : disk)
    (m : ClusterMaster (ClusterNodeStorage * disk) results_type)
    : outcome (ClusterMaster (ClusterNodeStorage * disk) results_type) :=
  match partitions with
  | [] => Ret m
  | partition_id :: partitions =>
      let storage_p := (ClusterNodeStorage_new partition_id cur_node_id (mkLogEntryMetaData garbage), d) in
      let* node_p := ClusterNode_new (mkClusterNodeConfig partition_id cur_node_id total_nodes) storage_p garbage garbage in
      add_partitions partitions cur_node_id total_nodes garbage d (add_cluster_node partition_id node_p m)
  end.

(** The acceptor that the constructors of both managers open. *)
Definition open_acceptor (port : Z) : outcome unit := if can_listen port then Ret tt else Fault Thrown.

(** [RunServer] up to running the io_contexts: the two ports that are listened
    on, and the master. [config_file] is the content of the file, if it can be
    opened. *)
Definition RunServer (config_file : option bytes) (cur_node garbage : Z) (d : disk)
    : outcome (Z * Z * ClusterMaster (ClusterNodeStorage * disk) results_type) :=
  match config_file with
  | None => Fault Thrown
  | Some in_file =>
      let* config := load_config garbage in_file in
      let config := if 0 <=? cur_node then set_current_node cur_node config else config in
      let cur_node_id := current_node config in
      let* r := open_logger (str "flowmq_log_" ++ to_string cur_node_id ++ str ".log") Logger_new d in
      let d := r.2 in
      let* r := cluster_endpoints 0 (current_node config) (server_nodes config) 0 in
      let '(this_endpoint, others) := r in
      let* me := vec_at (server_nodes config) cur_node_id in
      let* client_facing_endpoint := port_number me.2 in
      let* _ := open_acceptor this_endpoint in
      let* _ := open_acceptor client_facing_endpoint in
      let master := ClusterMaster_new (ClusterManager_new others) ClientManager_new config in
      let* _ := assert (0 <? zlength (partitions_ids config)) in
      let* master := add_partitions (partitions_ids config) cur_node_id (to_int (zlength (server_nodes config))) garbage d master in
      Ret (this_endpoint, client_facing_endpoint, master)
  end.

(** [main]: the second argument overrides the current node; an exception is
    reported, and the process returns 0 all the same. *)
Definition main (argv : list bytes) (read_file : bytes -> option bytes) (garbage : Z) (d : disk)
    : outcome (Z * option (Z * Z * ClusterMaster (ClusterNodeStorage * disk) results_type)) :=
  match argv with
  | _ :: config_file :: rest =>
      let* cur_node := match rest with [] => Ret (-1) | a :: _ => atoi (a ++ [NUL]) end in
      match RunServer (read_file config_file) cur_node garbage d with
      | Fault Thrown => Ret (0, None)
      | Fault f => Fault f
      | Ret r => Ret (0, Some r)
      end
  | _ => Ret (1, None)
  end.
End RunServer.

(** ** The nodes of a server *)

Section ServerNodes.
Context {St results_type : Type} `{!Inhabited results_type}.
Context `{SI : ClusterNodeStorageInterface St, RT : ProtobufRuntime}.
Abbreviation node := (ClusterNode St).
Abbreviation server := (ClusterMaster St results_type).

(** Tasks are posted to a node, and nothing else happens to it. *)
Definition posts (n n' : node) : Prop := exists ts, n' = set_io_context_ (io_context_ n ++ ts) n.

(** The same partitions, with tasks posted to them. *)
Definition nodes_post (ns ns' : gmap Z node) : Prop :=
  forall p, match ns !! p, ns' !! p with
            | Some n, Some n' => posts n n'
            | None, None => True
            | _, _ => False
            end.

Lemma posts_refl n : posts n n.
Proof. exists []. rewrite app_nil_r. by destruct n. Qed.

Lemma posts_trans n1 n2 n3 : posts n1 n2 -> posts n2 n3 -> posts n1 n3.
Proof. intros [ts ->] [ts' ->]. exists (ts ++ ts'). by rewrite app_assoc. Qed.

#[local] Instance nodes_post_preorder : PreOrder nodes_post.
Proof.
  split.
  - intros ns p. destruct (ns !! p); [apply posts_refl|done].
  - intros a b c H1 H2 p. specialize (H1 p). specialize (H2 p).
    destruct (a !! p), (b !! p), (c !! p); try done. by eapply posts_trans.
Qed.

Lemma message_handler_posts msg (n : node) : posts n (message_handler msg n).
Proof. by eexists. Qed.

Lemma consumer_disconnected_posts id (n : node) : posts n (consumer_disconnected id n).
Proof. by eexists. Qed.

(** What a call of the master does. *)
Lemma master_message_handler_posts msg (m m' : server) :
  ClusterMaster_message_handler msg m = Ret m' -> nodes_post (nodes_ m) (nodes_ m') /\ members m' = members m.
Proof.
  unfold ClusterMaster_message_handler. destruct (nodes_ m !! _) as [n|] eqn:E; [|done]. intros [= <-].
  split; [|done]. intros p. cbn [nodes_ set_nodes]. rewrite lookup_insert. case_decide as D.
  - subst. rewrite E. apply message_handler_posts.
  - destruct (nodes_ m !! p); [apply posts_refl|done].
Qed.

Lemma client_disconnected_nodes id (m : server) : nodes_post (nodes_ m) (nodes_ (client_disconnected id m)).
Proof.
  intros p. cbn [client_disconnected nodes_ set_nodes]. rewrite lookup_fmap.
  destruct (nodes_ m !! p); [apply consumer_disconnected_posts|done].
Qed.

Lemma client_call_posts e (m m' : server) :
  client_call e m = Ret m' -> nodes_post (nodes_ m) (nodes_ m') /\ members m' = members m.
Proof.
  destruct e as [msg|id]; cbn [client_call]; [apply master_message_handler_posts|].
  intros [= <-]. split; [apply client_disconnected_nodes|done].
Qed.

Lemma dispatch_posts msgs (m m' : server) :
  dispatch msgs m = Ret m' -> nodes_post (nodes_ m) (nodes_ m') /\ members m' = members m.
Proof.
  revert m. induction msgs as [|x msgs IH]; intros m H; cbn [dispatch] in H; [by injection H as <-|].
  apply obind_ret in H as (m1 & E & H). apply master_message_handler_posts in E as [E1 E2]. apply IH in H as [H1 H2].
  split; [by transitivity (nodes_ m1)|congruence].
Qed.

Lemma client_calls_posts es (m m' : server) :
  client_calls es m = Ret m' -> nodes_post (nodes_ m) (nodes_ m') /\ members m' = members m.
Proof.
  revert m. induction es as [|x es IH]; intros m H; cbn [client_calls] in H; [by injection H as <-|].
  apply obind_ret in H as (m1 & E & H). apply client_call_posts in E as [E1 E2]. apply IH in H as [H1 H2].
  split; [by transitivity (nodes_ m1)|congruence].
Qed.

(** A step of the server runs one closure of one node, or posts to nodes. *)
Definition server_node_step (e : server_event) (m m' : server) : Prop :=
  (exists p ev n n', e = NodeRuns p ev /\ nodes_ m !! p = Some n /\
     node_step ev (n, members m) = Ret (n', members m') /\ nodes_ m' = <[p := n']> (nodes_ m)) \/
  nodes_post (nodes_ m) (nodes_ m').

Lemma server_step_nodes e (m m' : server) : server_step e m = Ret m' -> server_node_step e m m'.
Proof.
  destruct e as [p ev|err|k err|k| |h i|err id|h i]; cbn [server_step]; intros H.
  - destruct (nodes_ m !! p) as [n|] eqn:E; [|injection H as <-; by right].
    apply obind_ret in H as ([n' w'] & S & H). injection H as <-. left. by exists p, ev, n, n'.
  - right. destruct (accepting _); [|by injection H as <-]. apply obind_ret in H as (c & _ & H). by injection H as <-.
  - injection H as <-. by right.
  - injection H as <-. by right.
  - injection H as <-. by right.
  - right. apply obind_ret in H as (r & _ & H). by apply dispatch_posts in H as [H _].
  - right. injection H as <-. by destruct (client_accepting _).
  - right. apply obind_ret in H as (r & _ & H). by apply client_calls_posts in H as [H _].
Qed.

Lemma posts_forward (n n' : node) : posts n n' -> forward n n'.
Proof. intros [ts ->]. split; cbn; lia. Qed.

(** One partition of a server, over a step. *)
Lemma server_step_partition e p (m m' : server) (n : node) :
  server_step e m = Ret m' -> nodes_ m !! p = Some n ->
  exists n', nodes_ m' !! p = Some n' /\
    ((exists ev, e = NodeRuns p ev /\ node_step ev (n, members m) = Ret (n', members m')) \/ posts n n').
Proof.
  intros S E. destruct (server_step_nodes e m m' S) as [(q & ev & x & n' & -> & X & N & ->)|P].
  - destruct (decide (p = q)) as [->|D].
    + exists n'. rewrite lookup_insert_eq. split; [done|]. left. exists ev. split; [done|]. congruence.
    + exists n. rewrite lookup_insert_ne by done. split; [done|]. right. apply posts_refl.
  - specialize (P p). rewrite E in P. destruct (nodes_ m' !! p) as [n'|]; [|done]. exists n'. auto.
Qed.

(** The partitions of a server stay the same. *)
Lemma server_step_dom e (m m' : server) : server_step e m = Ret m' -> dom (nodes_ m') = dom (nodes_ m).
Proof.
  intros [(q & ev & x & n' & -> & X & N & ->)|P]%server_step_nodes.
  - rewrite dom_insert_L. apply elem_of_dom_2 in X. apply subseteq_union_1_L, singleton_subseteq_l, X.
  - apply set_eq. intros p. rewrite !elem_of_dom. specialize (P p).
    destruct (nodes_ m !! p), (nodes_ m' !! p); split; intros [? Y]; try done; by eexists.
Qed.

(** The tasks that calls of the master's handlers bring to partition [p]: the
    messages for [p], and every disconnection. *)
Definition mail (p : Z) (calls : list client_event) : list node_task :=
  omap (fun e => match e with
                 | ToMaster msg => let r := deserialize_from_message msg in if partition_id r =? p then Some (HandleMessage r) else None
                 | ClientDisconnected id => Some (HandleDisconnect id)
                 end) calls.

(** What a step of the server is to do to the node [n] of partition [p]. *)
Definition partition_step (p : Z) (e : server_event) (m m' : server) (n n' : node) : Prop :=
  match e with
  | NodeRuns q ev => if q =? p then node_step ev (n, members m) = Ret (n', members m') else n' = n
  | ClusterSession h i => exists msgs c, on_session h i (cluster_manager_p_ (members m)) = Ret (msgs, c) /\
      n' = set_io_context_ (io_context_ n ++ mail p (map ToMaster msgs)) n
  | ClientSession h i => exists calls k, client_on_session h i (client_manager_p_ (members m)) = Ret (calls, k) /\
      n' = set_io_context_ (io_context_ n ++ mail p calls) n
  | _ => n' = n
  end.

Lemma mail_none (n : node) : n = set_io_context_ (io_context_ n ++ []) n.
Proof. rewrite app_nil_r. by destruct n. Qed.

Lemma client_calls_mail p calls (m m' : server) (n : node) :
  client_calls calls m = Ret m' -> nodes_ m !! p = Some n ->
  nodes_ m' !! p = Some (set_io_context_ (io_context_ n ++ mail p calls) n).
Proof.
  revert m n. induction calls as [|e calls IH]; intros m n H E; cbn [client_calls] in H.
  { injection H as <-. cbn [mail omap list_omap]. by rewrite <- mail_none. }
  apply obind_ret in H as (m1 & S & H). destruct e as [msg|id]; cbn [client_call] in S.
  - unfold ClusterMaster_message_handler in S. destruct (nodes_ m !! partition_id (deserialize_from_message msg)) as [x|] eqn:X; [|done]. injection S as <-.
    unfold mail. cbn [omap list_omap]. destruct (partition_id (deserialize_from_message msg) =? p) eqn:Q.
    + apply Z.eqb_eq in Q. rewrite Q in X, H. rewrite E in X. injection X as <-.
      rewrite (IH _ (message_handler msg n) H) by (cbn [nodes_ set_nodes]; by rewrite lookup_insert_eq). cbn. by rewrite <- app_assoc.
    + apply Z.eqb_neq in Q. apply (IH _ n H). cbn [nodes_ set_nodes]. by rewrite lookup_insert_ne.
  - injection S as <-. unfold mail. cbn [omap list_omap].
    rewrite (IH _ (consumer_disconnected id n) H) by (cbn [client_disconnected nodes_ set_nodes]; by rewrite lookup_fmap, E). cbn. by rewrite <- app_assoc.
Qed.

Lemma dispatch_calls msgs (m : server) : dispatch msgs m = client_calls (map ToMaster msgs) m.
Proof. revert m. induction msgs as [|x msgs IH]; intros m; [done|]. cbn [dispatch map client_calls client_call]. destruct (ClusterMaster_message_handler x m); [apply IH|done]. Qed.

Lemma server_step_exact p e (m m' : server) (n : node) :
  server_step e m = Ret m' -> nodes_ m !! p = Some n -> exists n', nodes_ m' !! p = Some n' /\ partition_step p e m m' n n'.
Proof.
  destruct e as [q ev|err|j err|j| |h i|err id|h i]; cbn [server_step partition_step]; intros H E.
  - destruct (q =? p) eqn:Q.
    + apply Z.eqb_eq in Q as ->. rewrite E in H. apply obind_ret in H as ([n' w'] & S & H). injection H as <-. exists n'. cbn. by rewrite lookup_insert_eq.
    + apply Z.eqb_neq in Q. exists n. split; [|done]. destruct (nodes_ m !! q); [|by injection H as <-].
      apply obind_ret in H as (s & _ & H). injection H as <-. cbn. by rewrite lookup_insert_ne.
  - exists n. split; [|done]. destruct (accepting _); [|by injection H as <-]. apply obind_ret in H as (c & _ & H). by injection H as <-.
  - injection H as <-. by exists n.
  - injection H as <-. by exists n.
  - injection H as <-. by exists n.
  - apply obind_ret in H as ([msgs c] & S & H). cbn [fst snd] in H. rewrite dispatch_calls in H.
    apply (client_calls_mail p _ _ _ n) in H; [|done]. eexists. split; [exact H|]. by exists msgs, c.
  - injection H as <-. exists n. split; [|done]. by destruct (client_accepting _).
  - apply obind_ret in H as ([calls k] & S & H). cbn [fst snd] in H.
    apply (client_calls_mail p _ _ _ n) in H; [|done]. eexists. split; [exact H|]. by exists calls, k.
Qed.

(** The log of the partition stays smaller than [INT_MAX] entries. *)
Definition partition_fits (es : list server_event) (p : Z) (m : server) : Prop :=
  forall k m' n', server_run (take k es) m = Ret m' -> nodes_ m' !! p = Some n' -> zlength (log_entries_ n') <= INT_MAX.

Lemma server_run_partition es p (m m' : server) (n : node) :
  server_run es m = Ret m' -> nodes_ m !! p = Some n ->
  reachable (message_queue_ n) -> 0 <= commit_index_ n -> partition_fits es p m ->
  exists n', nodes_ m' !! p = Some n' /\ forward n n' /\ reachable (message_queue_ n').
Proof.
  revert m n. induction es as [|e es IH]; intros m n H E R C0 B.
  { injection H as <-. exists n. auto using forward_refl. }
  cbn [server_run] in H. apply obind_ret in H as (m1 & S & H).
  destruct (server_step_partition e p m m1 n S E) as (n1 & E1 & N).
  assert (F : forward n n1) by (destruct N as [(ev & _ & N)|N]; [by eapply node_step_forward|by apply posts_forward]).
  assert (R1 : reachable (message_queue_ n1)).
  { destruct N as [(ev & _ & N)|[ts ->]]; [|done]. apply node_step_queue in N; [|done|done|exact (B O m n eq_refl E)].
    exact (drives_reachable _ _ _ R N). }
  destruct (IH m1 n1) as (n' & E' & F' & R'); try done.
  - destruct F. lia.
  - intros k m2 n2 S2. apply (B (1 + k)%nat). cbn [Nat.add take server_run]. by rewrite S.
  - exists n'. split; [done|]. split; [by eapply forward_trans|done].
Qed.

(** ** A message of a client *)

(** The reads that bring a client's message [r] in. *)
Definition client_message (h : Z) (r : RaftMessage) : list server_event :=
  [ClientSession h (HeaderRead (Some (header_bytes (zlength (encoding r)))));
   ClientSession h (BodyRead (Some (encoding r)))].

Lemma client_message_run {LW : ProtobufLaws RT} h r c (m : server) :
  client_connections (client_manager_p_ (members m)) !! h = Some c -> ready (client_session c) -> sendable r = true ->
  exists msg s k, deserialize_from_message msg = r /\
    k = set_client_connection h (mkClientConnection (client_id c) s (client_written c)) (client_manager_p_ (members m)) /\
    ready s /\
    server_run (client_message h r) m =
      (let* x := handle_message msg (client_id c) k in client_calls x.1 (set_client_manager x.2 m)).
Proof.
  intros E Rd Hs. destruct (sendable_size r Hs) as [_ Bd]. destruct (on_body_ok (client_session c) r Rd Hs) as (msg & OB & D & R' & _).
  exists msg. eexists. eexists. split; [done|]. split; [reflexivity|]. split; [exact R'|].
  unfold client_message. cbn [server_run server_step client_on_session].
  unfold client_on_session. rewrite E. cbn [session_step]. rewrite on_header_ok by done.
  cbn [obind client_run_handlers fst snd client_calls set_client_manager members client_manager_p_ set_client_connection
    client_connections client_id client_session client_written].
  rewrite lookup_insert_eq. cbn [client_session client_id client_written session_step]. rewrite OB. cbn [obind].
  cbn [client_run_handlers client_run_handler]. unfold set_client_connection.
  cbn [client_connections client_sessions_ consumer_client_id_array_ deliver_count_ client_next_handle client_accepting].
  rewrite insert_insert_eq. destruct (handle_message _ _ _) as [[out k]|]; [|done]. cbn [obind fst snd].
  rewrite app_nil_r. unfold set_client_manager. cbn [members nodes_ cluster_manager_p_ server_config_ client_manager_p_].
  by destruct (client_calls out _).
Qed.

Lemma handle_message_forwards msg id k :
  type (deserialize_from_message msg) = CLIENT_PUT_MESSAGE \/ type (deserialize_from_message msg) = CLIENT_COMMIT_MESSAGE \/
    type (deserialize_from_message msg) = CLIENT_OPEN_QUEUE ->
  exists k', handle_message msg id k = Ret ([ToMaster msg], k').
Proof. unfold handle_message. intros [->|[->| ->]]; eauto. Qed.
End ServerNodes.

(** ** What [RunServer] builds *)

Section Startup.
Context {results_type : Type} `{!Inhabited results_type, RT : ProtobufRuntime}.
Variable resolve : bytes -> bytes -> outcome results_type.
Abbreviation server := (ClusterMaster (ClusterNodeStorage * disk) results_type).

Lemma zlength_cons {A : Type} (x : A) l : zlength (x :: l) = Z.succ (zlength l).
Proof. unfold zlength. cbn [length]. lia. Qed.

Lemma seqZ_zlength_cons {A : Type} i (x : A) l : seqZ i (zlength (x :: l)) = i :: seqZ (Z.succ i) (zlength l).
Proof. rewrite zlength_cons. pose proof (zlength_nonneg l). rewrite seqZ_cons by lia. by rewrite Z.pred_succ. Qed.

(** A server point whose names resolve and whose ports are numbers. *)
Definition point_ok (p : ServerPoint) : Prop :=
  let '(_, host, cluster_port, client_port) := p in
  is_ret (resolve host cluster_port) = true /\ is_ret (port_number cluster_port) = true /\ is_ret (port_number client_port) = true.

(** The endpoints get the positions of the other servers as ids. *)
Lemma cluster_endpoints_positions i cur nodes t :
  Forall point_ok nodes ->
  exists port others, cluster_endpoints resolve i cur nodes t = Ret (port, others) /\
    map fst others = map fst (List.filter (fun x => negb (x.2.1.1.1 =? cur)) (zip (seqZ i (zlength nodes)) nodes)).
Proof.
  revert i t. induction nodes as [|[[[id host] cp] kp] nodes IH]; intros i t F.
  { by exists t, []. }
  inv F. rename select (point_ok _) into P. destruct P as (P1 & P2 & _).
  rewrite seqZ_zlength_cons. cbn [zip_with List.filter fst snd cluster_endpoints].
  destruct (id =? cur); cbn [negb].
  - destruct (port_number cp) as [p|]; [|done]. cbn [obind]. rewrite <- Z.add_1_r. by apply IH.
  - destruct (resolve host cp) as [e|]; [|done]. cbn [obind].
    destruct (IH (i + 1) t) as (port & others & -> & M); [done|]. cbn [obind fst snd].
    exists port, ((i, e) :: others). split; [done|]. cbn [map fst]. rewrite M, <- Z.add_1_r. done.
Qed.

(** The port is that of an entry of this server, if there is one. *)
Lemma cluster_endpoints_port i cur nodes t port others :
  cluster_endpoints resolve i cur nodes t = Ret (port, others) ->
  (port = t /\ forall p, p ∈ nodes -> p.1.1.1 <> cur) \/ exists p, p ∈ nodes /\ p.1.1.1 = cur /\ port_number p.1.2 = Ret port.
Proof.
  revert i t others. induction nodes as [|[[[id host] cp] kp] nodes IH]; intros i t others H; cbn [cluster_endpoints] in H.
  { injection H as <- <-. left. split; [done|]. by intros p ?%not_elem_of_nil. }
  destruct (id =? cur) eqn:Q.
  - apply Z.eqb_eq in Q. apply obind_ret in H as (x & X & H). right. apply IH in H as [[-> _]|(p & P & R)].
    + exists (id, host, cp, kp). split; [by left|]. by split.
    + exists p. split; [by right|done].
  - apply Z.eqb_neq in Q. apply obind_ret in H as (e & _ & H). apply obind_ret in H as ([port' o] & E & H). cbn in H. injection H as <- <-.
    apply IH in E as [[-> N]|(p & P & R)]; [left|right].
    + split; [done|]. intros p [->|P]%elem_of_cons; [done|by apply N].
    + exists p. split; [by right|done].
Qed.

(** When the id of every server is its position, they are the other ids. *)
Lemma positions_are_ids i cur (nodes : list ServerPoint) :
  (forall k p, nodes !! k = Some p -> p.1.1.1 = i + Z.of_nat k) ->
  map fst (List.filter (fun x : Z * ServerPoint => negb (x.2.1.1.1 =? cur)) (zip (seqZ i (zlength nodes)) nodes)) =
  List.filter (fun x => negb (x =? cur)) (seqZ i (zlength nodes)).
Proof.
  revert i. induction nodes as [|p nodes IH]; intros i H; [done|].
  rewrite seqZ_zlength_cons. cbn [zip_with List.filter snd].
  rewrite (H O p eq_refl), Z.add_0_r.
  assert (R : map fst (List.filter (fun x : Z * ServerPoint => negb (x.2.1.1.1 =? cur)) (zip (seqZ (Z.succ i) (zlength nodes)) nodes)) =
    List.filter (fun x => negb (x =? cur)) (seqZ (Z.succ i) (zlength nodes))).
  { apply IH. intros k q Q. rewrite (H (S k) q Q). lia. }
  destruct (i =? cur); cbn [negb]; [exact R|]. cbn [map fst]. f_equal. exact R.
Qed.

(** The storage of a partition can be loaded. *)
Definition storage_loads (partition_id node_id garbage : Z) (d : disk) : Prop :=
  exists rc log, zlength log <= INT_MAX /\ ClusterNodeStorage_load_log_entry_from_file
    (ClusterNodeStorage_new partition_id node_id (mkLogEntryMetaData garbage)) [dummy_entry] d = Ret (rc, log).

(** A node as [RunServer] constructs it. *)
Definition fresh_node (p cur total : Z) (n : ClusterNode (ClusterNodeStorage * disk)) : Prop :=
  partition_id_ n = p /\ node_id_ n = cur /\ total_nodes_ n = total /\ state_ n = CANDIDATE /\
  io_context_ n = [] /\ reachable (message_queue_ n).

Lemma add_partitions_spec ps cur total g d (m : server) :
  Forall (fun p => storage_loads p cur g d) ps ->
  (forall p n, nodes_ m !! p = Some n -> fresh_node p cur total n) ->
  exists m', add_partitions ps cur total g d m = Ret m' /\ members m' = members m /\
    dom (nodes_ m') = dom (nodes_ m) ∪ list_to_set ps /\
    (forall p n, nodes_ m' !! p = Some n -> fresh_node p cur total n).
Proof.
  revert m. induction ps as [|p ps IH]; intros m F H; cbn [add_partitions].
  { exists m. split_and!; try done. cbn. set_solver. }
  inv F. rename select (storage_loads _ _ _ _) into L. destruct L as (rc & log & B & L).
  set (st := (ClusterNodeStorage_new p cur (mkLogEntryMetaData g), d)).
  assert (L' : load_log_entry_from_file st [dummy_entry] = Ret (rc, log)) by exact L.
  destruct (load_metadata_from_file st (mkLogEntryMetaData 0)) as [mrc md] eqn:M.
  destruct (ClusterNode_new_spec (mkClusterNodeConfig p cur total) st g g rc log mrc md L' B M)
    as (n & -> & _ & Q & _ & P1 & P2 & P3 & P4 & _ & _ & P5 & _). cbn [obind].
  assert (N : fresh_node p cur total n).
  { split_and!; try done. rewrite Q. apply new_calls_reachable, from_log_ok, log_calls_from_log. }
  destruct (IH (add_cluster_node p n m)) as (m' & E1 & E2 & E3 & E4); [done|..].
  { intros q x. cbn [add_cluster_node nodes_ set_nodes]. rewrite lookup_insert. case_decide; [|apply H].
    intros [= <-]. by subst. }
  exists m'. split_and!; try done. rewrite E3. cbn [add_cluster_node nodes_ set_nodes]. rewrite dom_insert_L. cbn.
  clear. set_solver.
Qed.

(** A manager that starts connects to each of its endpoints. *)
Lemma connect_all (eps : list (Z * results_type)) (c : ClusterManager results_type) :
  outgoing_sessions_ c = ∅ ->
  map fst (connecting (foldl (fun c p => connect p.1 c) c eps)) = map fst (connecting c) ++ map fst eps.
Proof.
  revert c. induction eps as [|[id e] eps IH]; intros c H; [by rewrite app_nil_r|]. cbn [foldl fst map].
  rewrite IH; unfold connect; rewrite H, lookup_empty; cbn; [|done]. by rewrite map_app, <- app_assoc.
Qed.

Lemma start_connects (eps : list (Z * results_type)) :
  map fst (connecting (start (ClusterManager_new eps))) = map fst eps.
Proof. unfold start. rewrite connect_all by done. done. Qed.
End Startup.

(** ** Properties *)

(** C27: the partitions of a server process are kept apart: over any interleaving
    of network completions, client and cluster messages and closures of the
    partitions' threads, the set of partitions stays the same, and the node of
    each keeps its identity, moves its term and commit index only forward, and
    keeps its queue within its contract (while its log has at most [INT_MAX]
    entries). And in every step of the run exactly this happens to the node of
    a partition [p]: its own closure runs; or the messages a session just
    delivered whose partition is [p], and the disconnections, are added to its
    tasks, in order; in all other steps it is not touched. *)
Theorem server_partitions_invariant `{!Inhabited results_type, ClusterNodeStorageInterface St, ProtobufRuntime}
    (es : list server_event) (p : Z) (m m' : ClusterMaster St results_type) (n : ClusterNode St) :
  server_run es m = Ret m' -> nodes_ m !! p = Some n ->
  reachable (message_queue_ n) -> 0 <= commit_index_ n -> partition_fits es p m ->
  dom (nodes_ m') = dom (nodes_ m) /\
  (exists n', nodes_ m' !! p = Some n' /\ forward n n' /\ reachable (message_queue_ n')) /\
  forall k e m1 m2 n1, server_run (take k es) m = Ret m1 -> es !! k = Some e -> server_step e m1 = Ret m2 -> nodes_ m1 !! p = Some n1 ->
    exists n2, nodes_ m2 !! p = Some n2 /\ partition_step p e m1 m2 n1 n2.
Proof.
  intros S E R C0 B. split; [|split; [by eapply server_run_partition|]].
  - clear E R C0 B. revert m S. induction es as [|e es IH]; intros m S; [by injection S as <-|].
    cbn [server_run] in S. apply obind_ret in S as (m1 & S1 & S). rewrite (IH m1 S). by eapply server_step_dom.
  - intros k e m1 m2 n1 _ _ S2 E1. by eapply server_step_exact.
Qed.

(** C28: a put request travels through the process: when a client's session
    reads the request for a partition whose node is leader and idle, and the
    node then runs, the node's log gains exactly one entry, in its term and
    with the next position, that adds the client's bytes as a message; the
    other partitions are as before. *)
Theorem client_put_reaches_log `{!Inhabited results_type, ClusterNodeStorageInterface St} `{LW : ProtobufLaws}
    (h now rid : Z) (r : RaftMessage) (c : client_connection) (m m' : ClusterMaster St results_type) (n : ClusterNode St) :
  let p := partition_id r in
  client_connections (client_manager_p_ (members m)) !! h = Some c -> ready (client_session c) ->
  sendable r = true -> type r = CLIENT_PUT_MESSAGE ->
  nodes_ m !! p = Some n -> state_ n = LEADER -> io_context_ n = [] ->
  server_run (client_message h r ++ [NodeRuns p (TaskRuns now rid)]) m = Ret m' ->
  (exists n', nodes_ m' !! p = Some n' /\
     log_entries_ n' = log_entries_ n ++
       [new_entry LogEntry_ADD rid (ClientPutMessage_message (get_put_message_request r)) n]) /\
  forall q, q <> p -> nodes_ m' !! q = nodes_ m !! q.
Proof.
  intros p E Rd Hs T En L IO S.
  destruct (client_message_run h r c m E Rd Hs) as (msg & s & k & D & _ & _ & SR).
  assert (SA : forall a b (x : ClusterMaster St results_type), server_run (a ++ b) x = let* y := server_run a x in server_run b y).
  { intros a b. induction a as [|e a IH]; intros x; [done|]. cbn [app server_run]. destruct (server_step e x); [apply IH|done]. }
  rewrite SA, SR in S. destruct (handle_message_forwards msg (client_id c) k) as [k' HM]; [rewrite D; auto|].
  rewrite HM in S. cbn [obind fst snd client_calls client_call] in S.
  unfold ClusterMaster_message_handler in S. cbn [nodes_ set_client_manager] in S. rewrite D in S. fold p in S. rewrite En in S.
  cbn [obind server_run server_step nodes_ set_nodes] in S. rewrite lookup_insert_eq in S.
  apply obind_ret in S as (m1 & S & Fi). injection Fi as <-. apply obind_ret in S as ([n' w'] & S & Fi). injection Fi as <-.
  unfold node_step, run_posted_task, message_handler in S. cbn [io_context_ set_io_context_] in S. rewrite IO, D in S.
  cbn [app] in S. unfold local_message_handler in S. rewrite T in S. unfold handle_put_message in S.
  cbn [state_ set_io_context_] in S. rewrite L in S. rewrite bool_decide_eq_true_2 in S by done. cbn [negb] in S.
  apply add_log_entry_log in S. cbn [nodes_ fst snd]. split.
  - exists n'. rewrite lookup_insert_eq. split; [done|exact S].
  - intros q Dq. by rewrite !lookup_insert_ne.
Qed.

(** The master asserts that it has the partition a client's message names. *)
Lemma unknown_partition_stops `{!Inhabited results_type, ClusterNodeStorageInterface St} `{LW : ProtobufLaws}
    (h : Z) (r : RaftMessage) (c : client_connection) (m : ClusterMaster St results_type) :
  client_connections (client_manager_p_ (members m)) !! h = Some c -> ready (client_session c) -> sendable r = true ->
  type r ∈ [CLIENT_OPEN_QUEUE; CLIENT_PUT_MESSAGE; CLIENT_COMMIT_MESSAGE] -> nodes_ m !! partition_id r = None ->
  server_run (client_message h r) m = Fault AssertFailed.
Proof.
  intros E Rd Hs T N. destruct (client_message_run h r c m E Rd Hs) as (msg & s & k & D & _ & _ & ->).
  destruct (handle_message_forwards msg (client_id c) k) as [k' ->].
  { rewrite D. set_unfold in T. tauto. }
  cbn [obind fst snd client_calls client_call]. unfold ClusterMaster_message_handler.
  cbn [nodes_ set_client_manager]. by rewrite D, N.
Qed.

(** Any client can stop the server: a well-formed message that names a
    partition the server does not have fails an assertion of the master, and
    one of a type clients do not send is thrown out of the io_context; both
    end the process with every partition it runs. *)
Theorem client_message_stops_server `{!Inhabited results_type, ClusterNodeStorageInterface St} `{LW : ProtobufLaws}
    (h : Z) (r : RaftMessage) (c : client_connection) (m : ClusterMaster St results_type) :
  client_connections (client_manager_p_ (members m)) !! h = Some c -> ready (client_session c) -> sendable r = true ->
  let from_client := bool_decide (type r ∈ [CLIENT_OPEN_QUEUE; CLIENT_PUT_MESSAGE; CLIENT_COMMIT_MESSAGE]) in
  (from_client = true -> nodes_ m !! partition_id r = None -> server_run (client_message h r) m = Fault AssertFailed) /\
  (from_client = false -> server_run (client_message h r) m = Fault Thrown).
Proof.
  intros E Rd Hs. cbv zeta. split; [intros T%bool_decide_eq_true_1; by eapply unknown_partition_stops|].
  intros T. destruct (client_message_run h r c m E Rd Hs) as (msg & s & k & D & _ & _ & ->).
  unfold handle_message. rewrite D. destruct (type r); done.
Qed.

(** A server with one partition, whose node leads, and one connected client. *)
Definition demo_server : ClusterMaster ClusterNodeStorageMock nat :=
  mkClusterMaster {[ 7 := demo_node LEADER 4 0 [dummy_entry] [] ]}
    (mkMaster (start (ClusterManager_new demo_endpoints))
       (client_on_accept false 40 (ClientManager_start ClientManager_new)) demo_config).

Definition demo_put_request (p : Z) : RaftMessage :=
  set_partition_id p (loadClientPutMessageRequest (ClientPutMessage_set_message (str "hi") ClientPutMessage_new) RaftMessage_new).

Lemma demo_server_client : client_connections (client_manager_p_ (members demo_server)) !! 0 =
  Some (mkClientConnection 40 (start_read Session_new) []).
Proof. reflexivity. Qed.

Lemma session_new_ready : ready (start_read Session_new).
Proof. split; [reflexivity|vm_compute; reflexivity]. Qed.

Lemma client_message_stops_server_witness :
  server_run (client_message 0 (demo_put_request 8)) demo_server = Fault AssertFailed /\
  server_run (client_message 0 (demo_vote_request 5 1)) demo_server = Fault Thrown.
Proof.
  assert (S1 : sendable (demo_put_request 8) = true) by (vm_compute; reflexivity).
  assert (S2 : sendable (demo_vote_request 5 1) = true) by (vm_compute; reflexivity).
  destruct (client_message_stops_server 0 _ _ demo_server demo_server_client session_new_ready S1) as [H1 _].
  destruct (client_message_stops_server 0 _ _ demo_server demo_server_client session_new_ready S2) as [_ H2].
  split; [exact (H1 eq_refl eq_refl)|exact (H2 eq_refl)].
Defined.

Definition demo_put_events : list server_event :=
  client_message 0 (demo_put_request 7) ++ [NodeRuns 7 (TaskRuns 0 99)].

Lemma client_put_reaches_log_witness :
  exists m' n', server_run demo_put_events demo_server = Ret m' /\ nodes_ m' !! 7 = Some n' /\
    length (log_entries_ n') = 2%nat.
Proof.
  destruct (server_run demo_put_events demo_server) as [m'|] eqn:E; [|vm_compute in E; discriminate].
  assert (S1 : sendable (demo_put_request 7) = true) by (vm_compute; reflexivity).
  destruct (client_put_reaches_log 0 0 99 (demo_put_request 7) _ demo_server m' _ demo_server_client session_new_ready S1
    eq_refl eq_refl eq_refl eq_refl E) as [(n' & N & L) _].
  exists m', n'. split; [reflexivity|]. split; [exact N|]. rewrite L. reflexivity.
Defined.

Lemma server_partitions_invariant_witness :
  exists m' n', server_run demo_put_events demo_server = Ret m' /\ nodes_ m' !! 7 = Some n' /\ cur_term_ n' >= 4.
Proof.
  destruct (server_run demo_put_events demo_server) as [m'|] eqn:E; [|vm_compute in E; discriminate].
  destruct (server_partitions_invariant demo_put_events 7 demo_server m' (demo_node LEADER 4 0 [dummy_entry] []) E eq_refl
    reach_new) as (_ & (n' & N & F & _) & _).
  - vm_compute. discriminate.
  - intros k m1 n1 R X. do 4 (destruct k as [|k]; [vm_compute in R; injection R as <-; vm_compute in X; injection X as <-;
      vm_compute; discriminate|]).
    vm_compute in R. injection R as <-. vm_compute in X. injection X as <-. vm_compute. discriminate.
  - exists m', n'. split; [reflexivity|]. split; [exact N|]. apply fwd_term in F. cbn in F. lia.
Defined.

(** C26: a server starts: let the configuration load, have at least one partition
    and number every server by its position; let the node id, which is the one of
    the command line or else the one of the file, be one of them; let ports be
    numbers, names resolve, the two ports of this server be free, its log file be
    writable and the stored logs be readable. Then [RunServer] gets as far as
    running the io_contexts: it listens on the two ports of its entry, connects
    to exactly the other servers under the ids their nodes use, and has one
    candidate per configured partition, each with this server's id, the size of
    the cluster and a queue in its contract. *)
Theorem server_starts `{!Inhabited results_type, ProtobufRuntime} (resolve : bytes -> bytes -> outcome results_type)
    (can_listen : Z -> bool) (in_file : bytes) (cur_node garbage : Z) (d : disk) (config : ServerConfiguration) :
  let cur := if 0 <=? cur_node then cur_node else current_node config in
  let log_file := str "flowmq_log_" ++ to_string cur ++ str ".log" in
  load_config garbage in_file = Ret config ->
  0 <= cur < zlength (server_nodes config) -> zlength (server_nodes config) <= INT_MAX ->
  (forall k p, server_nodes config !! k = Some p -> p.1.1.1 = Z.of_nat k) ->
  Forall (point_ok resolve) (server_nodes config) -> partitions_ids config <> [] ->
  (forall p port, server_nodes config !! Z.to_nat cur = Some p ->
     port_number p.1.2 = Ret port \/ port_number p.2 = Ret port -> can_listen port = true) ->
  writable d log_file = true ->
  (forall l d' p, open_logger log_file Logger_new d = Ret (l, d') -> p ∈ partitions_ids config -> storage_loads p cur garbage d') ->
  exists me port client_port m, RunServer resolve can_listen (Some in_file) cur_node garbage d = Ret (port, client_port, m) /\
    server_nodes config !! Z.to_nat cur = Some me /\ port_number me.1.2 = Ret port /\ port_number me.2 = Ret client_port /\
    map fst (connecting (cluster_manager_p_ (members m))) =
      List.filter (fun i => negb (i =? cur)) (seqZ 0 (zlength (server_nodes config))) /\
    dom (nodes_ m) = list_to_set (partitions_ids config) /\
    forall p n, nodes_ m !! p = Some n -> fresh_node p cur (zlength (server_nodes config)) n.
Proof.
  intros cur log_file LC Cu B I F P Li W L. unfold RunServer. rewrite LC. cbn [obind].
  set (config' := if 0 <=? cur_node then set_current_node cur_node config else config).
  assert (Cf : current_node config' = cur /\ server_nodes config' = server_nodes config /\ partitions_ids config' = partitions_ids config).
  { unfold config', cur. by destruct (0 <=? cur_node). }
  destruct Cf as (-> & -> & ->). fold log_file. unfold open_logger in *. cbn [ofstream_ Logger_new] in *. rewrite W in *. cbn [obind].
  destruct (cluster_endpoints_positions resolve 0 cur (server_nodes config) 0 F) as (port & others & E & M). rewrite E. cbn [obind].
  destruct (vec_at_in_range (server_nodes config) cur Cu) as (me & -> & V). cbn [obind].
  assert (Pm : port_number me.1.2 = Ret port).
  { apply cluster_endpoints_port in E as [[_ N]|(p & X & Ip & Pp)].
    - destruct (N me (list_elem_of_lookup_2 _ _ _ V)). rewrite (I _ _ V). lia.
    - apply list_elem_of_lookup_1 in X as [k X]. assert (Ek : k = Z.to_nat cur) by (rewrite (I _ _ X) in Ip; lia).
      rewrite Ek in X. assert (Eq : Some p = Some me) by (rewrite <- X; exact V). by injection Eq as ->. }
  pose proof (Forall_lookup_1 _ _ _ _ F V) as K. destruct (port_number me.2) as [cport|] eqn:Pk; [|by destruct me as [[[??]?]?], K as (_ & _ & K); cbn in Pk; rewrite Pk in K].
  cbn [obind]. unfold open_acceptor. rewrite (Li me port V (or_introl Pm)), (Li me cport V (or_intror Pk)). cbn [obind].
  assert (A : 0 <? zlength (partitions_ids config) = true).
  { apply Z.ltb_lt. destruct (partitions_ids config); [done|]. unfold zlength. cbn [length]. lia. }
  rewrite A. cbn [assert obind].
  match goal with |- context [add_partitions ?ps ?c ?t ?g ?d' ?m0] =>
    destruct (add_partitions_spec ps c t g d' m0) as (m & -> & E2 & E3 & E4); [| |cbn [obind]] end.
  - apply Forall_forall. intros p Hp. by eapply L.
  - intros p n X. cbn in X. by rewrite lookup_empty in X.
  - exists me, port, cport, m. split; [reflexivity|]. split; [done|]. split; [done|]. split; [done|].
    rewrite E2. cbn [members ClusterMaster_new cluster_manager_p_]. split; [|split; [rewrite E3; cbn; clear; set_solver|]].
    + rewrite start_connects, M. apply positions_are_ids. intros k p X. by rewrite (I _ _ X).
    + intros p n X. apply E4 in X. by rewrite to_int_small in X by (split; [apply zlength_nonneg|done]).
Qed.

(** A name resolves to the length of its host and port. *)
Definition demo_resolve (host port : bytes) : outcome nat := Ret (length (host ++ port)).

Lemma server_starts_witness :
  exists port client_port m, RunServer demo_resolve (fun _ => true) (Some (write_lines (config_lines demo_config))) 2 0 demo_disk =
      Ret (port, client_port, m) /\ map fst (connecting (cluster_manager_p_ (members m))) = [0; 1].
Proof.
  destruct (server_starts demo_resolve (fun _ => true) (write_lines (config_lines demo_config)) 2 0 demo_disk demo_config)
    as (me & port & cport & m & R & _ & _ & _ & Cn & _).
  - vm_compute. reflexivity.
  - vm_compute. split; [discriminate|reflexivity].
  - vm_compute. discriminate.
  - intros [|[|[|k]]] x X; try discriminate X; injection X as <-; reflexivity.
  - repeat constructor; vm_compute; reflexivity.
  - discriminate.
  - reflexivity.
  - reflexivity.
  - intros l d' x D X. exists 1, [dummy_entry]. split; [vm_compute; discriminate|].
    unfold open_logger in D. cbn [ofstream_ Logger_new] in D. change (writable demo_disk _) with true in D. cbv iota in D. injection D as <- <-. set_unfold in X. destruct X as [->|[->|[->|[]]]]; vm_compute; reflexivity.
  - exists port, cport, m. split; [exact R|exact Cn].
Defined.

(** The example in the comment of configuration.hpp numbers its servers 0 and
    2. Server 2 does not start: its client port is looked up at position 2 of a
    vector of two. Server 0 starts, but knows the other one as 1, so an answer
    to server 2 finds no session. *)
Definition sparse_config : ServerConfiguration :=
  mkServerConfiguration 0 [(0, str "localhost", str "12", str "9000"); (2, str "localhost", str "13", str "9001")] [7].

Theorem sparse_ids_break_server :
  let file := Some (write_lines (config_lines sparse_config)) in
  RunServer demo_resolve (fun _ => true) file 2 0 demo_disk = Fault OutOfRange /\
  (let* r := RunServer demo_resolve (fun _ => true) file 0 0 demo_disk in
   Ret (map fst (connecting (cluster_manager_p_ (members r.2))))) = Ret [1].
Proof. split; vm_compute; reflexivity. Qed.
