(* ===== verification/Link.v ===== *)
(** * Between two servers

    What a node asks its cluster manager to send goes through the manager's
    posted closures to a session, over the connection to the other server's
    session, through its cluster manager and its master, into the queue of the
    node of the same partition. The steps of [Network] are an abstraction of
    this path, in which a message is in flight from the request to the queue. *)

From S2P Require Import Prelude MessageQueue WireFormat FlowTypes FlowCodec FlowCodecFacts RaftMessage Session LogStorage ClusterManager ClientManager Configuration ClusterNode ClusterNodeFacts NodeElection NodeLog NodeTypes ClusterMaster.

Local Open Scope Z_scope.

(** The reads with which a session takes a message off the connection. *)
Definition message_reads (h : Z) (m : Message) : list server_event :=
  [ClusterSession h (HeaderRead (Some (take (Z.to_nat HEADER_LENGTH) (write_bytes m))));
   ClusterSession h (BodyRead (Some (drop (Z.to_nat HEADER_LENGTH) (write_bytes m))))].

(** The messages a node sends, as one of its peers receives them. *)
Definition addressed (p id : Z) (ms : list (option Z * RaftMessage)) : list RaftMessage :=
  flat_map (fun m => match m.1 with
                     | None => [set_partition_id p m.2]
                     | Some i => if i =? id then [set_partition_id p m.2] else []
                     end) ms.

Section Link.
Context {St results_type : Type} `{!Inhabited results_type}.
Context `{SI : ClusterNodeStorageInterface St, RT : ProtobufRuntime} {LW : ProtobufLaws RT}.
Abbreviation node := (ClusterNode St).
Abbreviation server := (ClusterMaster St results_type).

Lemma server_run_app a b (s : server) : server_run (a ++ b) s = let* s := server_run a s in server_run b s.
Proof. revert s. induction a as [|e a IH]; intros s; [done|]. cbn [app server_run]. destruct (server_step e s); [apply IH|done]. Qed.

(** ** Receiving *)

(** Messages posted to a node. *)
Definition posted_to (rs : list RaftMessage) (n : node) : node := set_io_context_ (io_context_ n ++ map HandleMessage rs) n.

(** One message, off an incoming session and into the queue of its partition. *)
Lemma message_read h i k r m n (s : server) :
  sessions (cluster_manager_p_ (members s)) !! h = Some k -> role k = Incoming i -> ready (session k) ->
  sendable r = true -> serialize_as_message r = Ret m -> nodes_ s !! partition_id r = Some n ->
  exists k' s', server_run (message_reads h m) s = Ret s' /\ nodes_ s' = <[partition_id r := posted_to [r] n]> (nodes_ s) /\
    sessions (cluster_manager_p_ (members s')) !! h = Some k' /\ role k' = Incoming i /\ ready (session k').
Proof.
  intros E Ro Rd Hs Se N. destruct (sendable_size r Hs) as [_ Bd].
  pose proof (header_bytes_length _ (small_body _ Bd)) as Hh.
  destruct (on_body_ok (session k) r Rd Hs) as (msg & OB & D & R' & _).
  rewrite serialize_as_message_eq in Se. pose proof (write_bytes_wire r Message_new m Hs Message_new_wf Se) as Wi.
  unfold message_reads. rewrite Wi. unfold wire. change (Z.to_nat HEADER_LENGTH) with 20%nat.
  rewrite take_app_length', drop_app_length' by done.
  cbn [server_run server_step]. unfold on_session. rewrite E. cbn [session_step]. rewrite on_header_ok by done.
  cbn [obind run_handlers fst snd dispatch set_cluster_manager members cluster_manager_p_ sessions upd_sessions].
  rewrite lookup_insert_eq. cbn [session role session_step written]. rewrite OB. cbn [obind].
  rewrite Ro. cbn [run_handlers run_handler fst snd app dispatch obind].
  unfold ClusterMaster_message_handler. cbn [nodes_ set_cluster_manager]. rewrite D, N. cbn [obind].
  eexists. eexists. split; [reflexivity|]. cbn [nodes_ set_nodes set_cluster_manager members cluster_manager_p_ sessions upd_sessions].
  split; [|rewrite lookup_insert_eq; split; [reflexivity|]; split; [done|exact R']].
  unfold message_handler, posted_to. rewrite D. done.
Qed.

(** A stream of messages for one partition. *)
Lemma messages_read h i p rs ms k n (s : server) :
  sessions (cluster_manager_p_ (members s)) !! h = Some k -> role k = Incoming i -> ready (session k) ->
  Forall2 (fun r m => sendable r = true /\ serialize_as_message r = Ret m /\ partition_id r = p) rs ms ->
  nodes_ s !! p = Some n ->
  exists s', server_run (concat (map (message_reads h) ms)) s = Ret s' /\ nodes_ s' = <[p := posted_to rs n]> (nodes_ s).
Proof.
  intros E Ro Rd F. revert k n s E Ro Rd. induction F as [|r m rs ms (Hs & Se & P) F IH]; intros k n s E Ro Rd N.
  - exists s. split; [done|]. unfold posted_to. cbn [map]. rewrite app_nil_r. rewrite insert_id; [done|]. rewrite N. by destruct n.
  - subst p. destruct (message_read h i k r m n s E Ro Rd Hs Se N) as (k1 & s1 & R1 & N1 & E1 & Ro1 & Rd1).
    cbn [map concat]. rewrite server_run_app, R1. cbn [obind].
    destruct (IH k1 (posted_to [r] n) s1 E1 Ro1 Rd1) as (s' & R' & N'); [by rewrite N1, lookup_insert_eq|].
    exists s'. split; [exact R'|]. rewrite N', N1, insert_insert_eq. f_equal.
    unfold posted_to. cbn [map io_context_ set_io_context_]. by rewrite <- app_assoc.
Qed.

(** ** Sending *)

Lemma posted_run k (s : server) :
  server_run (repeat ClusterPosted k) s = Ret (set_cluster_manager (Nat.iter k run_posted (cluster_manager_p_ (members s))) s).
Proof.
  revert s. induction k as [|k IH]; intros s; cbn [repeat server_run server_step obind].
  - cbn. by destruct s as [ns [c x y]].
  - rewrite IH. rewrite Nat.iter_succ_r. done.
Qed.

(** What is posted for a peer, and what it decodes to. *)
Lemma carried p id out ms :
  Forall2 (carries p) out ms -> (forall m b, m ∈ ms -> serialize_as_message (set_partition_id p m.2) = Ret b -> sendable (set_partition_id p m.2) = true) ->
  Forall2 (fun r m => sendable r = true /\ serialize_as_message r = Ret m /\ partition_id r = p) (addressed p id ms) (messages_for id out).
Proof.
  intros F G. induction F as [|o m out ms (b & Se & O) F IH]; [constructor|].
  assert (IH' : Forall2 (fun r m => sendable r = true /\ serialize_as_message r = Ret m /\ partition_id r = p)
    (addressed p id ms) (messages_for id out)) by (apply IH; intros; eapply G; [by right|done]). clear IH.
  assert (S1 : sendable (set_partition_id p m.2) = true) by (eapply G; [by left|exact Se]).
  unfold addressed, messages_for. cbn [flat_map]. fold (addressed p id ms). fold (messages_for id out).
  destruct (m.1) as [i|]; subst o; [destruct (i =? id)|]; cbn [app]; [constructor|..]; try done; constructor; done.
Qed.

(** Requests are only posted. *)
Lemma requests_posted (c : ClusterManager results_type) out : foldl request c out = set_posted (posted c ++ out) c.
Proof.
  revert c. induction out as [|o out IH]; intros c; cbn [foldl].
  - rewrite app_nil_r. by destruct c.
  - rewrite IH. destruct o as [m|id m]; cbn; by rewrite <- app_assoc.
Qed.

(** What a node step asks for is what is posted, and each request carries one
    message. *)
Lemma node_runs_posted p e n (s s' : server) :
  nodes_ s !! p = Some n -> partition_id_ n = p -> node_ok n = true -> event_ok e = true ->
  manager_wf (cluster_manager_p_ (members s)) -> posted (cluster_manager_p_ (members s)) = [] ->
  server_run [NodeRuns p e] s = Ret s' ->
  exists n' ms, nodes_ s' !! p = Some n' /\ step_sends e n n' ms /\
    Forall2 (carries p) (posted (cluster_manager_p_ (members s'))) ms /\
    manager_wf (cluster_manager_p_ (members s')) /\
    (forall id, written_to (cluster_manager_p_ (members s')) id = written_to (cluster_manager_p_ (members s)) id) /\
    (forall m b, m ∈ ms -> serialize_as_message (set_partition_id p m.2) = Ret b -> sendable (set_partition_id p m.2) = true).
Proof.
  intros N P On Oe W Po R. cbn [server_run server_step] in R. rewrite N in R. apply obind_ret in R as (s1 & R & E).
  injection E as ->. apply obind_ret in R as ([n' w'] & Sp & E). injection E as <-. cbn [nodes_ members fst snd].
  pose proof (node_step_ok _ _ _ _ _ On Oe Sp) as On'.
  destruct (node_step_sends _ _ _ _ _ Sp) as (ms & (out & M & F) & Ss). rewrite P in F.
  exists n', ms. rewrite lookup_insert_eq, M, requests_posted, Po. do 2 (split; [done|]). split; [exact F|].
  split; [by apply set_posted_wf|]. split; [done|].
  intros m b X. rewrite <- P. intros Se. by eapply (step_sends_sendable e n n' ms m b).
Qed.

(** Running every posted closure. *)
Lemma posted_written id before (s : server) :
  manager_wf (cluster_manager_p_ (members s)) -> written_to (cluster_manager_p_ (members s)) id = Some before ->
  let out := posted (cluster_manager_p_ (members s)) in
  exists s2, server_run (repeat ClusterPosted (length out)) s = Ret s2 /\ nodes_ s2 = nodes_ s /\
    posted (cluster_manager_p_ (members s2)) = [] /\
    written_to (cluster_manager_p_ (members s2)) id = Some (before ++ messages_for id out).
Proof.
  intros W Wr out. eexists. split; [apply posted_run|]. split; [done|].
  change (Nat.iter (length out) run_posted ?c) with (run_all_posted c).
  destruct (run_all_written (cluster_manager_p_ (members s)) id W) as [E1 E2]. split; [exact E2|].
  cbn [members set_cluster_manager cluster_manager_p_]. rewrite E1, Wr. done.
Qed.

(** The messages the requests carry are what the peer decodes. *)
Lemma addressed_decoded p rs ms :
  Forall2 (fun r m => sendable r = true /\ serialize_as_message r = Ret m /\ partition_id r = p) rs ms ->
  map deserialize_from_message ms = rs.
Proof. induction 1 as [|r m rs ms (Se & S & _) _ IH]; [done|]. cbn [map]. by rewrite IH, (serialized_received r m Se S). Qed.
End Link.

(** ** Properties *)

(** C14: what a node sends reaches the peer: let a node of partition [p] take a
    step on a server with no closure left to run, whose cluster manager has a
    session to server [id], and let [out] be the closures the step's requests
    have posted. Each of them carries one message the step may send, with the
    partition set. Running the closures gives the session, after what it had
    been given before, exactly the messages of [out] that are broadcast or
    addressed to [id], each once and in the order of the requests, and leaves
    no closure. When another server reads these bytes off an incoming session,
    its node of partition [p] has in its queue, after what was there, exactly
    these messages in the same order, decoded to what the node sent; its nodes
    are not changed otherwise. *)
Theorem messages_reach_peer `{!Inhabited results_type, ClusterNodeStorageInterface St} `{LW : ProtobufLaws}
    (eps : list (Z * results_type)) (p id h i : Z) (e : node_event) (n nb : ClusterNode St) (k : connection)
    (written_before : list Message) (s s' peer : ClusterMaster St results_type) :
  NoDup (map fst eps) -> manager_reachable eps (cluster_manager_p_ (members s)) ->
  nodes_ s !! p = Some n -> partition_id_ n = p -> node_ok n = true -> event_ok e = true ->
  posted (cluster_manager_p_ (members s)) = [] -> written_to (cluster_manager_p_ (members s)) id = Some written_before ->
  server_run [NodeRuns p e] s = Ret s' ->
  sessions (cluster_manager_p_ (members peer)) !! h = Some k -> role k = Incoming i -> ready (session k) ->
  nodes_ peer !! p = Some nb ->
  let out := posted (cluster_manager_p_ (members s')) in
  let new := messages_for id out in
  exists n' ms s2 peer', nodes_ s' !! p = Some n' /\ step_sends e n n' ms /\ Forall2 (carries p) out ms /\
    server_run (repeat ClusterPosted (length out)) s' = Ret s2 /\ nodes_ s2 = nodes_ s' /\
    posted (cluster_manager_p_ (members s2)) = [] /\
    written_to (cluster_manager_p_ (members s2)) id = Some (written_before ++ new) /\
    server_run (concat (map (message_reads h) new)) peer = Ret peer' /\
    nodes_ peer' = <[p := posted_to (map deserialize_from_message new) nb]> (nodes_ peer) /\
    map deserialize_from_message new = addressed p id ms.
Proof.
  intros ND MR N P On Oe Po Wr R E Ro Rd Nb out new. pose proof (manager_reachable_inv eps ND _ MR) as [W _].
  destruct (node_runs_posted p e n s s' N P On Oe W Po R) as (n' & ms & N' & Ss & F & W' & Wr' & G).
  destruct (posted_written id written_before s') as (s2 & R2 & N2 & P2 & Wr2); [done|by rewrite Wr'|].
  pose proof (carried p id out ms F G) as F'. pose proof (addressed_decoded p _ _ F') as D.
  destruct (messages_read h i p (addressed p id ms) new k nb peer E Ro Rd F' Nb) as (peer' & R' & Np).
  exists n', ms, s2, peer'. fold new in D. rewrite D. done.
Qed.

(** A server whose partition 7 leads and that is connected to server 1, and the
    other server with an accepted connection. *)
Definition demo_sender : ClusterMaster ClusterNodeStorageMock nat :=
  mkClusterMaster {[ 7 := demo_node LEADER 4 0 [dummy_entry] [] ]}
    (mkMaster (on_connect 0 false (start (ClusterManager_new demo_endpoints))) ClientManager_new demo_config).

Definition demo_peer : ClusterMaster ClusterNodeStorageMock nat :=
  mkClusterMaster {[ 7 := demo_node FOLLOWER 4 0 [dummy_entry] [] ]}
    (mkMaster (match on_accept false (start (ClusterManager_new demo_endpoints)) with Ret c => c | Fault _ => ClusterManager_new [] end)
       ClientManager_new demo_config).

Lemma messages_reach_peer_witness :
  exists s' new peer' rs, server_run [NodeRuns 7 HeartbeatTimer] demo_sender = Ret s' /\ length new = 1%nat /\
    new = messages_for 1 (posted (cluster_manager_p_ (members s'))) /\
    server_run (concat (map (message_reads 0) new)) demo_peer = Ret peer' /\
    nodes_ peer' !! 7 = Some (posted_to rs (demo_node FOLLOWER 4 0 [dummy_entry] [])).
Proof.
  destruct (server_run [NodeRuns 7 HeartbeatTimer] demo_sender) as [s'|] eqn:R; [|vm_compute in R; discriminate].
  destruct (messages_reach_peer demo_endpoints 7 1 0 0 HeartbeatTimer (demo_node LEADER 4 0 [dummy_entry] [])
    (demo_node FOLLOWER 4 0 [dummy_entry] []) (mkConnection (Incoming 0) (start_read Session_new) []) [] demo_sender s' demo_peer)
    as (n' & ms & s2 & peer' & N' & Ss & F & R2 & N2 & P2 & W & Rp & Np & D).
  - by_eval.
  - eapply reachable_step; [apply reachable_start|]. apply step_connect.
  - reflexivity.
  - reflexivity.
  - vm_compute. reflexivity.
  - reflexivity.
  - reflexivity.
  - reflexivity.
  - exact R.
  - reflexivity.
  - reflexivity.
  - exact session_new_ready.
  - reflexivity.
  - exists s', (messages_for 1 (posted (cluster_manager_p_ (members s')))), peer', (addressed 7 1 ms).
    split; [reflexivity|]. split; [|split; [reflexivity|split; [exact Rp|rewrite Np, <- D; apply lookup_insert_eq]]].
    clear -R. vm_compute in R. injection R as <-. vm_compute. reflexivity.
Defined.
