(* ===== verification/Clients.v ===== *)
(** * The client library

    [GenericClient] (src/src/flowmq/generic_client.hpp and generic_client.cpp)
    keeps one session to a server; [SimpleClient]
    (src/src/flowmq_client/simple_client.hpp) opens a partition on it, follows
    the redirection to the leader, sends and commits messages and hands
    deliveries to the application. Sessions live on after they are replaced, as
    long as a completion of theirs is pending, so the model keeps all of them
    and [session_] is a handle. *)

From S2P Require Import Prelude WireFormat FlowTypes FlowCodec FlowCodecFacts RaftMessage Session.

Local Open Scope Z_scope.

Section Clients.
Context {results_type : Type} `{RT : ProtobufRuntime}.

(** A session object and the messages given to [async_write] on its socket,
    with the endpoint it was connected to. *)
Record client_link := mkClientLink {
  link_endpoint : results_type;
  link_session : Session;
  link_written : list Message
}.

Record GenericClient := mkGenericClient {
  running_ : bool;
  session_ : option Z;
  endpoints_ : results_type;
  (** the io_context: session objects by handle *)
  links : gmap Z client_link;
  next_link : Z
}.

Definition GenericClient_new (endpoints : results_type) : GenericClient := mkGenericClient true None endpoints ∅ 0.

(** [connect]: the call blocks and throws where the server cannot be reached;
    [reached] says whether it can. *)
Definition GenericClient_connect (reached : bool) (g : GenericClient) : outcome GenericClient :=
  if reached then
    Ret (mkGenericClient (running_ g) (Some (next_link g)) (endpoints_ g)
      (<[next_link g := mkClientLink (endpoints_ g) (start_read Session_new) []]> (links g)) (next_link g + 1))
  else Fault Thrown.

Definition GenericClient_start (reached : bool) (g : GenericClient) : outcome GenericClient := GenericClient_connect reached g.

Definition reset_endpoint (endpoints : results_type) (g : GenericClient) : GenericClient :=
  mkGenericClient (running_ g) (session_ g) endpoints (links g) (next_link g).

Definition set_links (ls : gmap Z client_link) (g : GenericClient) : GenericClient :=
  mkGenericClient (running_ g) (session_ g) (endpoints_ g) ls (next_link g).

(** [session_->...]: the pointer is null until the client has been started. *)
Definition with_session (f : client_link -> client_link) (g : GenericClient) : outcome GenericClient :=
  match session_ g with
  | None => Fault NullDeref
  | Some h => Ret (set_links (alter f h (links g)) g)
  end.

Definition GenericClient_write_message (msg : Message) (g : GenericClient) : outcome GenericClient :=
  with_session (fun l => mkClientLink (link_endpoint l) (link_session l) (link_written l ++ [msg])) g.

(** [stop] and the destructor. *)
Definition GenericClient_stop (g : GenericClient) : outcome GenericClient :=
  with_session (fun l => mkClientLink (link_endpoint l) (close (link_session l)) (link_written l)) g.

Definition GenericClient_destroy (g : GenericClient) : outcome GenericClient := GenericClient_stop g.

Definition running (g : GenericClient) : bool := running_ g.

(** The disconnect handler registered on every session. *)
Definition session_closed (g : GenericClient) : GenericClient :=
  mkGenericClient false (session_ g) (endpoints_ g) (links g) (next_link g).

(** ** SimpleClient *)

Definition RETRIES_LIMIT : Z := 10.

Record SimpleClient := mkSimpleClient {
  generic_client_ : GenericClient;
  client_partition_id_ : Z;
  stopped_ : bool;
  stats_timer_armed : bool;
  open_queue_msg_ : RaftMessage;
  retries_ : Z;
  (** a caller of [open_queue_sync] waits on [condition_] *)
  opening : bool;
  (** calls of the application's handler: message and id, in order *)
  handled : list (bytes * Z)
}.

Definition set_generic (g : GenericClient) (c : SimpleClient) : SimpleClient :=
  mkSimpleClient g (client_partition_id_ c) (stopped_ c) (stats_timer_armed c) (open_queue_msg_ c) (retries_ c) (opening c) (handled c).
Definition set_stopped (b : bool) (c : SimpleClient) : SimpleClient :=
  mkSimpleClient (generic_client_ c) (client_partition_id_ c) b (stats_timer_armed c) (open_queue_msg_ c) (retries_ c) (opening c) (handled c).
Definition set_stats (b : bool) (c : SimpleClient) : SimpleClient :=
  mkSimpleClient (generic_client_ c) (client_partition_id_ c) (stopped_ c) b (open_queue_msg_ c) (retries_ c) (opening c) (handled c).
Definition set_opening (m : RaftMessage) (b : bool) (c : SimpleClient) : SimpleClient :=
  mkSimpleClient (generic_client_ c) (client_partition_id_ c) (stopped_ c) (stats_timer_armed c) m (retries_ c) b (handled c).
Definition add_handled (m : bytes) (id : Z) (c : SimpleClient) : SimpleClient :=
  mkSimpleClient (generic_client_ c) (client_partition_id_ c) (stopped_ c) (stats_timer_armed c) (open_queue_msg_ c) (retries_ c)
    (opening c) (handled c ++ [(m, id)]).

(** [stats] arms its timer. *)
Definition stats (c : SimpleClient) : SimpleClient := set_stats true c.

Definition SimpleClient_new (partition_id : Z) (endpoints : results_type) : SimpleClient :=
  stats (mkSimpleClient (GenericClient_new endpoints) partition_id false false RaftMessage_new 0 false []).

Definition SimpleClient_start (reached : bool) (c : SimpleClient) : outcome SimpleClient :=
  let c := set_stopped false c in
  let* g := GenericClient_start reached (generic_client_ c) in
  Ret (set_generic g c).

Definition SimpleClient_stop (c : SimpleClient) : outcome SimpleClient :=
  let c := set_stopped true c in
  let* g := GenericClient_stop (generic_client_ c) in
  Ret (set_generic g c).

(** The closure of the stats timer. *)
Definition on_client_stats (c : SimpleClient) : SimpleClient :=
  let c := set_stats false c in
  if stopped_ c then c else stats c.

(** [generic_client_.write_message(raft_msg.serialize_as_message())]. *)
Definition send (raft_msg : RaftMessage) (c : SimpleClient) : outcome SimpleClient :=
  let* m := serialize_as_message raft_msg in
  let* g := GenericClient_write_message m (generic_client_ c) in
  Ret (set_generic g c).

(** [open_queue_sync] up to the wait; what it returns when it is woken. *)
Definition open_queue_sync (queue_name : bytes) (mode : Z) (c : SimpleClient) : outcome SimpleClient :=
  let req := ClientOpenQueue_set_queue_name queue_name (ClientOpenQueue_set_open_mode mode ClientOpenQueue_new) in
  let msg := set_partition_id (client_partition_id_ c) (loadClientOpenQueueRequest req (open_queue_msg_ c)) in
  let c := set_opening msg false c in
  let* c := send msg c in
  Ret (set_opening msg true c).

Definition open_queue_result (c : SimpleClient) : Z := if retries_ c <? RETRIES_LIMIT then 1 else 0.

Definition SimpleClient_commit_message (message_id : Z) (c : SimpleClient) : outcome SimpleClient :=
  let req := ClientCommitMessage_set_message_id message_id ClientCommitMessage_new in
  send (set_partition_id (client_partition_id_ c) (loadClientCommitMessageRequest req RaftMessage_new)) c.

Definition SimpleClient_send_message (message : bytes) (c : SimpleClient) : outcome SimpleClient :=
  let req := ClientPutMessage_set_message message ClientPutMessage_new in
  send (set_partition_id (client_partition_id_ c) (loadClientPutMessageRequest req RaftMessage_new)) c.

(** [tcp::resolver::resolve], which throws where the name is unknown. *)
Variable resolve : bytes -> bytes -> outcome results_type.

(** The handler of a session; [reached] says whether the leader it is
    redirected to can be reached. *)
Definition SimpleClient_handle_message (msg : Message) (reached : bool) (c : SimpleClient) : outcome SimpleClient :=
  let raft_msg := deserialize (take (Z.to_nat (body_length msg)) (body msg)) in
  let* c :=
    match type raft_msg with
    | CLIENT_OPEN_QUEUE_RESPONSE =>
        let resp := get_open_queue_response raft_msg in
        match ClientOpenQueueResponse_status resp with
        | ERROR =>
            if bool_decide (ClientOpenQueueResponse_leader_ip resp = []) then Ret c
            else
              let* e := resolve (ClientOpenQueueResponse_leader_ip resp) (ClientOpenQueueResponse_leader_port resp) in
              let* g := GenericClient_start reached (reset_endpoint e (generic_client_ c)) in
              send (open_queue_msg_ c) (set_generic g c)
        | SUCCESS => Ret (set_opening RaftMessage_new false c)
        end
    | _ => Ret c
    end in
  match type raft_msg with
  | SERVER_SEND_MESSAGE =>
      let req := get_server_send_essage raft_msg in
      Ret (add_handled (ServerSendMessage_message req) (ServerSendMessage_message_id req) c)
  | _ => Ret c
  end.

(** What the io_context and the application do to a client. *)
Inductive client_action :=
  | Start (reached : bool)
  | Stop
  | OpenQueue (queue_name : bytes) (mode : Z)
  | CommitMessage (message_id : Z)
  | SendMessage (message : bytes)
  | Stats
  | LinkInput (h : Z) (i : session_input) (reached : bool).

Fixpoint link_events (es : list session_event) (reached : bool) (c : SimpleClient) : outcome SimpleClient :=
  match es with
  | [] => Ret c
  | MsgHandler m :: es => let* c := SimpleClient_handle_message m reached c in link_events es reached c
  | DisconnectedHandler :: es => link_events es reached (set_generic (session_closed (generic_client_ c)) c)
  end.

Definition client_step (a : client_action) (c : SimpleClient) : outcome SimpleClient :=
  match a with
  | Start reached => SimpleClient_start reached c
  | Stop => SimpleClient_stop c
  | OpenQueue q mode => open_queue_sync q mode c
  | CommitMessage id => SimpleClient_commit_message id c
  | SendMessage m => SimpleClient_send_message m c
  | Stats => Ret (if stats_timer_armed c then on_client_stats c else c)
  | LinkInput h i reached =>
      match links (generic_client_ c) !! h with
      | None => Ret c
      | Some l =>
          let* r := session_step i (link_session l) in
          link_events r.1 reached (set_generic (set_links (<[h := mkClientLink (link_endpoint l) r.2 (link_written l)]>
            (links (generic_client_ c))) (generic_client_ c)) c)
      end
  end.

Fixpoint client_run (as_ : list client_action) (c : SimpleClient) : outcome SimpleClient :=
  match as_ with
  | [] => Ret c
  | a :: as_ => let* c := client_step a c in client_run as_ c
  end.
End Clients.
Arguments GenericClient : clear implicits.
Arguments SimpleClient : clear implicits.

(** Conversion unfolds what is sent last. *)
#[global] Strategy 100 [serialize_as_message] 90 [send].

(** ** Properties *)

Section ClientFacts.
Context {results_type : Type} `{RT : ProtobufRuntime}.
Variable resolve : bytes -> bytes -> outcome results_type.
Abbreviation client := (SimpleClient results_type).

Lemma send_retries m (c c' : client) : send m c = Ret c' -> retries_ c' = retries_ c.
Proof.
  unfold send. intros H. apply obind_ret in H as (b & _ & H). apply obind_ret in H as (g & _ & H). by injection H as <-.
Qed.

Lemma handle_message_retries msg b (c c' : client) : SimpleClient_handle_message resolve msg b c = Ret c' -> retries_ c' = retries_ c.
Proof.
  unfold SimpleClient_handle_message. set (r := deserialize _). intros H. apply obind_ret in H as (c1 & E & H).
  transitivity (retries_ c1); [by destruct (type r); injection H as <-|]. clear H.
  destruct (type r); try by injection E as <-.
  destruct (ClientOpenQueueResponse_status _); [by injection E as <-|]. case_bool_decide; [by injection E as <-|].
  apply obind_ret in E as (e & _ & E). apply obind_ret in E as (g & _ & E). by apply send_retries in E.
Qed.

Lemma link_events_retries es b (c c' : client) : link_events resolve es b c = Ret c' -> retries_ c' = retries_ c.
Proof.
  revert c. induction es as [|[m|] es IH]; intros c H; cbn [link_events] in H; [by injection H as <-|..].
  - apply obind_ret in H as (c1 & E & H). apply handle_message_retries in E. apply IH in H. congruence.
  - by apply IH in H.
Qed.

Lemma client_step_retries a (c c' : client) : client_step resolve a c = Ret c' -> retries_ c' = retries_ c.
Proof.
  destruct a as [b| |q m|id|m| |h i b]; cbn [client_step]; intros H.
  - unfold SimpleClient_start in H. apply obind_ret in H as (g & _ & H). by injection H as <-.
  - unfold SimpleClient_stop in H. apply obind_ret in H as (g & _ & H). by injection H as <-.
  - unfold open_queue_sync in H. apply obind_ret in H as (c1 & E & H). apply send_retries in E. injection H as <-. exact E.
  - unfold SimpleClient_commit_message in H. by apply send_retries in H.
  - unfold SimpleClient_send_message in H. by apply send_retries in H.
  - injection H as <-. destruct (stats_timer_armed c); [|done]. unfold on_client_stats. cbv zeta. by destruct (stopped_ _).
  - destruct (links (generic_client_ c) !! h); [|by injection H as <-]. apply obind_ret in H as (r & _ & H).
    by apply link_events_retries in H.
Qed.

Lemma client_run_retries as_ (c c' : client) : client_run resolve as_ c = Ret c' -> retries_ c' = retries_ c.
Proof.
  revert c. induction as_ as [|a as_ IH]; intros c H; cbn [client_run] in H; [by injection H as <-|].
  apply obind_ret in H as (c1 & E & H). apply client_step_retries in E. apply IH in H. congruence.
Qed.

(** The reads that bring a server's message [r] in on session [h]. *)
Definition server_message (h : Z) (r : RaftMessage) (reached : bool) : list client_action :=
  [LinkInput h (HeaderRead (Some (header_bytes (zlength (encoding r))))) reached;
   LinkInput h (BodyRead (Some (encoding r))) reached].

Lemma server_message_run {LW : ProtobufLaws RT} h r b l (c : client) :
  links (generic_client_ c) !! h = Some l -> ready (link_session l) -> sendable r = true ->
  exists msg s, deserialize_from_message msg = r /\ ready s /\
    client_run resolve (server_message h r b) c =
      SimpleClient_handle_message resolve msg b
        (set_generic (set_links (<[h := mkClientLink (link_endpoint l) s (link_written l)]> (links (generic_client_ c)))
           (generic_client_ c)) c).
Proof.
  intros E Rd Hs. destruct (sendable_size r Hs) as [_ Bd].
  destruct (on_body_ok (link_session l) r Rd Hs) as (msg & OB & D & R' & _).
  exists msg. eexists. split; [done|]. split; [exact R'|]. unfold server_message.
  cbn [client_run client_step]. rewrite E. cbn [session_step]. rewrite on_header_ok by done.
  cbn [obind fst snd link_events generic_client_ set_generic links set_links].
  rewrite lookup_insert_eq. cbn [link_session link_endpoint link_written session_step]. rewrite OB. cbn [obind fst snd link_events].
  rewrite insert_insert_eq. unfold set_generic, set_links. cbn.
  destruct (SimpleClient_handle_message _ _ _ _); done.
Qed.
End ClientFacts.

(** The delivery of message [m] with its id, as the server sends it for a
    partition. *)
Definition server_delivery (p id : Z) (m : bytes) : RaftMessage :=
  set_partition_id p (loadServerSendMessageRequest (ServerSendMessage_set_message m
    (ServerSendMessage_set_message_id id ServerSendMessage_new)) RaftMessage_new).

(** C30: a delivery reaches the application: when a session of the client reads
    a delivery the server wrote, the application's handler is called once with
    exactly the message's bytes and id, and nothing is sent. *)
Theorem delivery_reaches_handler {results_type : Type} `{LW : ProtobufLaws} (resolve : bytes -> bytes -> outcome results_type)
    (h p id : Z) (m : bytes) (b : bool) (l : client_link) (c : SimpleClient results_type) :
  links (generic_client_ c) !! h = Some l -> ready (link_session l) -> sendable (server_delivery p id m) = true ->
  exists c' l', client_run resolve (server_message h (server_delivery p id m) b) c = Ret c' /\
    handled c' = handled c ++ [(m, id)] /\ opening c' = opening c /\
    links (generic_client_ c') !! h = Some l' /\ link_written l' = link_written l /\ ready (link_session l').
Proof.
  intros E Rd Hs. destruct (server_message_run resolve h _ b l c E Rd Hs) as (msg & s & D & R & ->).
  unfold SimpleClient_handle_message. change (deserialize (take (Z.to_nat (body_length msg)) (body msg)))
    with (deserialize_from_message msg). rewrite D. cbn [type server_delivery].
  eexists. eexists. split; [reflexivity|]. split; [reflexivity|]. split; [reflexivity|].
  split; [cbn; apply lookup_insert_eq|]. split; [reflexivity|exact R].
Qed.

Definition demo_resolve_client (host port : bytes) : outcome nat := Ret (length (host ++ port)).

(** A client with a session, that waits for the answer to an open request. *)
Definition demo_client : outcome (SimpleClient nat) :=
  client_run demo_resolve_client [Start true; OpenQueue (str "q") 0] (SimpleClient_new 7 0%nat).

Lemma delivery_reaches_handler_witness :
  exists c c', demo_client = Ret c /\
    client_run demo_resolve_client (server_message 0 (server_delivery 7 99 (str "hi")) true) c = Ret c' /\
    handled c' = [(str "hi", 99)].
Proof.
  destruct demo_client as [c|] eqn:E; [|vm_compute in E; discriminate]. exists c.
  assert (L : exists l, links (generic_client_ c) !! 0 = Some l /\ link_session l = start_read Session_new /\ handled c = []).
  { vm_compute in E. injection E as <-. eexists. split; [reflexivity|]. split; vm_compute; reflexivity. }
  destruct L as (l & L1 & L2 & L3).
  destruct (delivery_reaches_handler demo_resolve_client 0 7 99 (str "hi") true l c L1) as (c' & l' & R & H1 & _).
  - rewrite L2. split; [reflexivity|vm_compute; reflexivity].
  - vm_compute. reflexivity.
  - exists c'. split; [reflexivity|]. split; [exact R|]. rewrite H1, L3. reflexivity.
Defined.

(** C31: a redirection is followed: when the server answers an open request
    with an error and the leader's address, the client connects to that
    address, makes the new session its current one, and sends on it the request
    it is waiting for, once; its caller keeps waiting, and is woken, with result
    1, when the leader answers with success. *)
Theorem redirect_is_followed {results_type : Type} `{RT : ProtobufRuntime} (resolve : bytes -> bytes -> outcome results_type)
    (msg ok : Message) (e : results_type) (request : Message) (c : SimpleClient results_type) :
  let resp := get_open_queue_response (deserialize_from_message msg) in
  type (deserialize_from_message msg) = CLIENT_OPEN_QUEUE_RESPONSE -> ClientOpenQueueResponse_status resp = ERROR ->
  ClientOpenQueueResponse_leader_ip resp <> [] ->
  resolve (ClientOpenQueueResponse_leader_ip resp) (ClientOpenQueueResponse_leader_port resp) = Ret e ->
  serialize_as_message (open_queue_msg_ c) = Ret request -> retries_ c = 0 ->
  exists c', SimpleClient_handle_message resolve msg true c = Ret c' /\
    session_ (generic_client_ c') = Some (next_link (generic_client_ c)) /\
    links (generic_client_ c') = <[next_link (generic_client_ c) := mkClientLink e (start_read Session_new) [request]]>
      (links (generic_client_ c)) /\
    opening c' = opening c /\ handled c' = handled c /\
    (type (deserialize_from_message ok) = CLIENT_OPEN_QUEUE_RESPONSE ->
     ClientOpenQueueResponse_status (get_open_queue_response (deserialize_from_message ok)) = SUCCESS ->
     exists c'', SimpleClient_handle_message resolve ok true c' = Ret c'' /\ opening c'' = false /\ open_queue_result c'' = 1).
Proof.
  intros resp T S I R M Z0.
  assert (D : forall x, deserialize (take (Z.to_nat (body_length x)) (body x)) = deserialize_from_message x) by reflexivity.
  unfold SimpleClient_handle_message. rewrite D, T. fold resp. rewrite S, bool_decide_eq_false_2 by done.
  rewrite R. cbn [obind GenericClient_start GenericClient_connect]. unfold send.
  change (open_queue_msg_ c) with (open_queue_msg_ (set_generic (generic_client_ c) c)) in M.
  cbn [open_queue_msg_ set_generic] in M. rewrite M. cbn [obind].
  unfold GenericClient_write_message, with_session. cbn. eexists. split; [reflexivity|]. cbn.
  split; [done|]. split; [by rewrite alter_insert_eq|]. split; [done|]. split; [done|].
  intros T' S'. rewrite D, T', S'. cbn. eexists. split; [reflexivity|]. split; [done|]. unfold open_queue_result. cbn. by rewrite Z0.
Qed.

(** The answer of a follower, and of the leader it names. *)
Definition demo_open_response (status : Status) (ip : bytes) : RaftMessage :=
  set_partition_id 7 (loadClientOpenQueueResponse (ClientOpenQueueResponse_set_leader_port (str "9001")
    (ClientOpenQueueResponse_set_leader_ip ip (ClientOpenQueueResponse_set_error_message []
    (ClientOpenQueueResponse_set_status status ClientOpenQueueResponse_new)))) RaftMessage_new).

Definition encode_response (r : RaftMessage) : Message :=
  match serialize_as_message r with Ret m => m | Fault _ => mkMessage 0 [] end.

Lemma redirect_is_followed_witness :
  exists c c' c'', demo_client = Ret c /\
    SimpleClient_handle_message demo_resolve_client (encode_response (demo_open_response ERROR (str "localhost"))) true c = Ret c' /\
    SimpleClient_handle_message demo_resolve_client (encode_response (demo_open_response SUCCESS [])) true c' = Ret c'' /\
    opening c' = true /\ opening c'' = false.
Proof.
  destruct demo_client as [c|] eqn:E; [|vm_compute in E; discriminate]. exists c.
  assert (L : retries_ c = 0 /\ opening c = true /\ is_ret (serialize_as_message (open_queue_msg_ c)) = true).
  { vm_compute in E. injection E as <-. split_and!; vm_compute; reflexivity. }
  destruct L as (L1 & L2 & L3). destruct (serialize_as_message (open_queue_msg_ c)) as [request|] eqn:M; [|discriminate].
  destruct (redirect_is_followed demo_resolve_client (encode_response (demo_open_response ERROR (str "localhost")))
    (encode_response (demo_open_response SUCCESS [])) 13%nat request c) as (c' & H1 & _ & _ & H2 & _ & H3).
  - vm_compute. reflexivity.
  - vm_compute. reflexivity.
  - vm_compute. discriminate.
  - vm_compute. reflexivity.
  - exact M.
  - exact L1.
  - destruct H3 as (c'' & H3 & H4 & _); [vm_compute; reflexivity..|].
    exists c', c''. split; [reflexivity|]. split; [exact H1|]. split; [exact H3|]. split; [congruence|exact H4].
Defined.

(** Opening a queue cannot fail, only hang: the retry counter that
    [open_queue_sync] tests is never changed, so over any run of a client the
    result is 1; and an error answer of a server that does not know the leader
    (or names one without an address) leaves the client exactly as it was, with
    its caller waiting on the condition. *)
Theorem open_queue_never_fails {results_type : Type} `{RT : ProtobufRuntime} (resolve : bytes -> bytes -> outcome results_type)
    (p : Z) (e : results_type) (as_ : list client_action) (c : SimpleClient results_type) :
  client_run resolve as_ (SimpleClient_new p e) = Ret c ->
  open_queue_result c = 1 /\
  forall msg b, type (deserialize_from_message msg) = CLIENT_OPEN_QUEUE_RESPONSE ->
    ClientOpenQueueResponse_status (get_open_queue_response (deserialize_from_message msg)) = ERROR ->
    ClientOpenQueueResponse_leader_ip (get_open_queue_response (deserialize_from_message msg)) = [] ->
    SimpleClient_handle_message resolve msg b c = Ret c.
Proof.
  intros R%client_run_retries. split.
  - unfold open_queue_result. rewrite R. reflexivity.
  - intros msg b T S I. unfold SimpleClient_handle_message.
    change (deserialize (take (Z.to_nat (body_length msg)) (body msg))) with (deserialize_from_message msg).
    by rewrite T, S, I.
Qed.

Lemma open_queue_never_fails_witness :
  exists c, demo_client = Ret c /\ opening c = true /\ open_queue_result c = 1 /\
    SimpleClient_handle_message demo_resolve_client (encode_response (demo_open_response ERROR [])) true c = Ret c.
Proof.
  destruct demo_client as [c|] eqn:E; [|vm_compute in E; discriminate]. exists c.
  destruct (open_queue_never_fails demo_resolve_client 7 0%nat _ c E) as [H1 H2].
  split; [reflexivity|]. split; [vm_compute in E; injection E as <-; reflexivity|]. split; [exact H1|].
  apply H2; vm_compute; reflexivity.
Defined.

(** A client that is destroyed, or stopped, before it was started goes through
    a null session. *)
Lemma unstarted_client_crashes {results_type : Type} (e : results_type) :
  GenericClient_destroy (GenericClient_new e) = Fault NullDeref /\ SimpleClient_stop (SimpleClient_new 0 e) = Fault NullDeref.
Proof. done. Qed.
