(* ===== verification/Console.v ===== *)
(** * The interactive client

    src/src/application/client.cpp: lines typed at a terminal become requests.
    The line "open" opens a queue, a line in which "commit" occurs commits a
    message, any other line is put into the queue. The io_context with the
    session runs in a second thread, so what the server sends comes in between;
    that thread is joinable when the loop throws, and its destructor then ends
    the process before the handler of [main] runs. *)

From S2P Require Import Prelude WireFormat FlowTypes FlowCodec FlowCodecFacts Decimal RaftMessage Session LogStorage ClusterManager ClientManager Configuration ClusterNode NodeTypes ClusterMaster Clients.

Local Open Scope Z_scope.

Section Console.
Context {results_type : Type} `{RT : ProtobufRuntime}.
(** [FlowMessage::DebugString] of the protobuf library. *)
Context (DebugString : FlowMessage -> bytes).
Abbreviation generic := (GenericClient results_type).

Definition console_open_queue (queue_name : bytes) (mode : Z) (client : generic) : outcome generic :=
  let req := ClientOpenQueue_set_queue_name queue_name (ClientOpenQueue_set_open_mode mode ClientOpenQueue_new) in
  let* m := serialize_as_message (loadClientOpenQueueRequest req RaftMessage_new) in
  GenericClient_write_message m client.

Definition console_commit_message (message_id : Z) (client : generic) : outcome generic :=
  let req := ClientCommitMessage_set_message_id message_id ClientCommitMessage_new in
  let* m := serialize_as_message (loadClientCommitMessageRequest req RaftMessage_new) in
  GenericClient_write_message m client.

(** The process: the client, whether the loop waits in [std::getline] (the test
    of [running] comes before it), and what was printed. *)
Record Console := mkConsole {
  console_client : generic;
  in_getline : bool;
  printed : list bytes
}.

Definition print (b : bytes) (c : Console) : Console := mkConsole (console_client c) (in_getline c) (printed c ++ [b]).
Definition set_console_client (g : generic) (c : Console) : Console := mkConsole g (in_getline c) (printed c).
Definition set_in_getline (b : bool) (c : Console) : Console := mkConsole (console_client c) b (printed c).

(** The handler registered on the client. *)
Definition on_received (msg : Message) (c : Console) : Console :=
  print (RaftMessage_DebugString DebugString (deserialize (take (Z.to_nat (body_length msg)) (body msg))))
    (print (str "received message : ") c).

(** [line.find(sub) != npos]. *)
Fixpoint contains (sub line : bytes) : bool :=
  bool_decide (take (length sub) line = sub) ||
  match line with
  | [] => false
  | _ :: line => contains sub line
  end.

(** The request a line that is no command becomes. *)
Definition put_request (line : bytes) : RaftMessage :=
  loadClientPutMessageRequest (ClientPutMessage_set_message line ClientPutMessage_new) RaftMessage_new.

(** The body of the loop. *)
Definition on_line (line : bytes) (c : Console) : outcome Console :=
  if bool_decide (line = str "open") then
    let* g := console_open_queue (str "test_queue") 0 (console_client c) in
    Ret (set_console_client g c)
  else if contains (str "commit") line then
    let* msg_id := stoi (drop 6 line) in
    if msg_id =? -1 then Ret c
    else
      let* g := console_commit_message msg_id (console_client c) in
      Ret (print (str "committing message id " ++ to_string msg_id) (set_console_client g c))
  else
    let* m := serialize_as_message (put_request line) in
    let* g := GenericClient_write_message m (console_client c) in
    Ret (set_console_client g c).

Inductive console_input :=
  | Typed (line : bytes)
  | EndOfInput
  | ConsoleSession (h : Z) (i : session_input).

Fixpoint console_events (es : list session_event) (c : Console) : Console :=
  match es with
  | [] => c
  | MsgHandler m :: es => console_events es (on_received m c)
  | DisconnectedHandler :: es => console_events es (set_console_client (session_closed (console_client c)) c)
  end.

Definition console_step (i : console_input) (c : Console) : outcome Console :=
  match i with
  | Typed line =>
      if in_getline c then
        let* c := on_line line c in
        Ret (set_in_getline (running (console_client c)) c)
      else Ret c
  | EndOfInput => Ret (set_in_getline false c)
  | ConsoleSession h i =>
      match links (console_client c) !! h with
      | None => Ret c
      | Some l =>
          let* r := session_step i (link_session l) in
          Ret (console_events r.1 (set_console_client (set_links (<[h := mkClientLink (link_endpoint l) r.2 (link_written l)]>
            (links (console_client c))) (console_client c)) c))
      end
  end.

Fixpoint console_run (is_ : list console_input) (c : Console) : outcome Console :=
  match is_ with
  | [] => Ret c
  | i :: is_ => let* c := console_step i c in console_run is_ c
  end.

(** [main] up to the loop: an exit code, or the running process. Exceptions are
    caught while there is no second thread yet. *)
Definition console_main (argv : list bytes) (resolve : bytes -> bytes -> outcome results_type) (reached : bool)
    : outcome (Z + Console) :=
  match argv with
  | [_; host; port; user_name] =>
      match (let* e := resolve host port in GenericClient_start reached (GenericClient_new e)) with
      | Ret g => Ret (inr (mkConsole g (running g) [str "client started "]))
      | Fault Thrown => Ret (inl 0)
      | Fault f => Fault f
      end
  | _ => Ret (inl 1)
  end.
End Console.
Arguments Console : clear implicits.

(** ** Facts *)

Lemma contains_spec sub line : contains sub line = true <-> exists a b, line = a ++ sub ++ b.
Proof.
  split.
  - induction line as [|x line IH]; cbn [contains]; rewrite orb_true_iff, bool_decide_eq_true.
    + intros [E|]; [|done]. exists [], []. rewrite take_nil in E. by rewrite <- E.
    + intros [E|E].
      * exists [], (drop (length sub) (x :: line)). rewrite <- E at 1. cbn [app]. symmetry. apply take_drop.
      * destruct (IH E) as (a & b & ->). by exists (x :: a), b.
  - intros (a & b & ->). induction a as [|x a IH].
    + cbn [app]. destruct (sub ++ b) eqn:E; cbn [contains]; rewrite orb_true_iff, bool_decide_eq_true; left; rewrite <- E; by apply take_app_length.
    + cbn [app contains]. by rewrite IH, orb_true_r.
Qed.

Section ConsoleFacts.
Context {results_type : Type} `{LW : ProtobufLaws}.

(** A message given to a client with a session. *)
Lemma write_message_link h l m (g : GenericClient results_type) :
  session_ g = Some h -> links g !! h = Some l ->
  GenericClient_write_message m g =
    Ret (set_links (<[h := mkClientLink (link_endpoint l) (link_session l) (link_written l ++ [m])]> (links g)) g).
Proof.
  intros S L. unfold GenericClient_write_message, with_session. rewrite S. do 2 f_equal.
  apply map_eq. intros i. destruct (decide (i = h)) as [->|N].
  - by rewrite lookup_alter_eq, L, lookup_insert_eq.
  - by rewrite lookup_alter_ne, lookup_insert_ne.
Qed.

(** Lines of up to 960 bytes fit into a message, and so do message ids. *)
Lemma put_request_sendable line : zlength line <= 960 -> sendable (put_request line) = true.
Proof.
  intros L. unfold sendable. rewrite !andb_true_iff. split_and!; [done|done|]. apply Z.leb_le. rewrite FlowMessage_size_sum. cbn.
  rewrite ClientPutMessage_size_sum. cbn. change (zlength []) with 0.
  destruct sizes_bounded as (_ & _ & B3 & _). pose proof (B3 10). pose proof (StringSize_bound line).
  match goal with |- context [MessageSize ?n] => pose proof (MessageSize_bound n) end. unfold MAX_BODY_LENGTH. lia.
Qed.

Definition commit_request (id : Z) : RaftMessage :=
  loadClientCommitMessageRequest (ClientCommitMessage_set_message_id id ClientCommitMessage_new) RaftMessage_new.

Lemma commit_request_sendable id : int64 id = true -> sendable (commit_request id) = true.
Proof.
  intros I. unfold sendable. rewrite !andb_true_iff. split_and!; [|done|].
  - unfold FlowMessage_ints. cbn. unfold ClientCommitMessage_ints. cbn. by rewrite I.
  - apply Z.leb_le. rewrite FlowMessage_size_sum. cbn. rewrite ClientCommitMessage_size_sum. cbn. change (zlength []) with 0.
    destruct sizes_bounded as (_ & B2 & B3 & _). pose proof (B3 11). pose proof (B2 id).
    match goal with |- context [MessageSize ?n] => pose proof (MessageSize_bound n) end. unfold MAX_BODY_LENGTH. lia.
Qed.

(** The text after the word. *)
Lemma stoi_written id : int64 id = true -> stoi (SPACE :: to_string id) = if int32 id then Ret id else Fault Thrown.
Proof.
  intros I%int64_spec. unfold stoi. change (scan_int (SPACE :: to_string id)) with (scan_int (to_string id)).
  rewrite <- (app_nil_r (to_string id)), scan_int_written by (done || (unfold INT64_MIN, INT64_MAX in *; lia)). done.
Qed.
End ConsoleFacts.

(** ** Properties *)

(** C32: a typed line is a put for partition 0: a line of at most 960 bytes that
    is not "open" and in which "commit" does not occur is written to the client's
    session once, as a request to put exactly its bytes; the request names no
    partition, so a server reads it as one for partition 0, and a server that
    has no partition 0 is stopped by it. *)
Theorem typed_line_is_put `{!Inhabited results_type, ClusterNodeStorageInterface St} `{LW : ProtobufLaws}
    (DebugString : FlowMessage -> bytes) (h : Z) (l : client_link) (line : bytes) (c : Console results_type) :
  in_getline c = true -> session_ (console_client c) = Some h -> links (console_client c) !! h = Some l ->
  line <> str "open" -> contains (str "commit") line = false -> zlength line <= 960 ->
  exists c' l' m, console_step DebugString (Typed line) c = Ret c' /\ in_getline c' = running (console_client c) /\
    links (console_client c') !! h = Some l' /\ link_written l' = link_written l ++ [m] /\
    (let r := deserialize_from_message m in
     type r = CLIENT_PUT_MESSAGE /\ partition_id r = 0 /\ ClientPutMessage_message (get_put_message_request r) = line /\
     forall hs k (server : ClusterMaster St results_type), client_connections (client_manager_p_ (members server)) !! hs = Some k ->
       ready (client_session k) -> nodes_ server !! 0 = None -> server_run (client_message hs r) server = Fault AssertFailed).
Proof.
  intros G Se L No Nc Sz. pose proof (put_request_sendable line Sz) as Hs. destruct (sent_request _ Hs) as (m & S & D).
  cbn [console_step]. rewrite G. unfold on_line. rewrite (bool_decide_eq_false_2 _ No), Nc, S. cbn [obind].
  rewrite (write_message_link h l m _ Se L). cbn [obind].
  eexists. eexists. exists m. split; [reflexivity|]. split; [done|]. split; [apply lookup_insert_eq|]. split; [done|].
  rewrite D. split_and!; [done..|]. intros hs k server E Rd N. apply (unknown_partition_stops hs _ k); try done. by right; left.
Qed.

(** A client with its session, waiting for a line. *)
Definition demo_console : Console nat :=
  mkConsole (mkGenericClient true (Some 0) 0%nat {[ 0 := mkClientLink 0%nat (start_read Session_new) [] ]} 1) true [].

Lemma typed_line_is_put_witness :
  exists c' l' m, console_step (fun _ => []) (Typed (str "hello")) demo_console = Ret c' /\
    links (console_client c') !! 0 = Some l' /\ link_written l' = [m] /\
    server_run (client_message 0 (deserialize_from_message m)) demo_server = Fault AssertFailed.
Proof.
  destruct (typed_line_is_put (St := ClusterNodeStorageMock) (fun _ => []) 0 (mkClientLink 0%nat (start_read Session_new) []) (str "hello") demo_console
    eq_refl eq_refl eq_refl ltac:(discriminate) eq_refl ltac:(vm_compute; discriminate)) as (c' & l' & m & A & _ & B & W & _ & _ & _ & S).
  exists c', l', m. split; [exact A|]. split; [exact B|]. split; [exact W|].
  exact (S 0 _ demo_server demo_server_client session_new_ready eq_refl).
Defined.

(** Committing from the console works for 32-bit ids only: typing "commit "
    and the decimal text of a message id sends a commit of that id if it fits an
    [int] (and is not -1, which is silently dropped); the ids servers give out
    are 64-bit, and any id outside [int] throws in [std::stoi], which ends the
    process. *)
Theorem console_commits_small_ids {results_type : Type} `{LW : ProtobufLaws} (DebugString : FlowMessage -> bytes)
    (h : Z) (l : client_link) (id : Z) (c : Console results_type) :
  in_getline c = true -> session_ (console_client c) = Some h -> links (console_client c) !! h = Some l -> int64 id = true ->
  let r := console_step DebugString (Typed (str "commit " ++ to_string id)) c in
  (int32 id = false -> r = Fault Thrown) /\
  (id = -1 -> exists c', r = Ret c' /\ console_client c' = console_client c) /\
  (int32 id = true -> id <> -1 -> exists c' l' m, r = Ret c' /\
     links (console_client c') !! h = Some l' /\ link_written l' = link_written l ++ [m] /\
     type (deserialize_from_message m) = CLIENT_COMMIT_MESSAGE /\
     ClientCommitMessage_message_id (get_commit_message_request (deserialize_from_message m)) = id).
Proof.
  intros G Se L I. cbv zeta. cbn [console_step]. rewrite G. unfold on_line.
  rewrite (bool_decide_eq_false_2 (_ = str "open")) by done.
  assert (Cn : contains (str "commit") (str "commit " ++ to_string id) = true).
  { apply contains_spec. by exists [], (SPACE :: to_string id). }
  rewrite Cn. change (drop 6 (str "commit " ++ to_string id)) with (SPACE :: to_string id). rewrite (stoi_written id I). split_and!.
  - by intros ->.
  - intros ->. cbn. eauto.
  - intros J Ne. rewrite J. cbn [obind]. rewrite (proj2 (Z.eqb_neq _ _) Ne).
    destruct (sent_request _ (commit_request_sendable id I)) as (m & S & D). unfold console_commit_message.
    fold (commit_request id). rewrite S. cbn [obind]. rewrite (write_message_link h l m _ Se L). cbn [obind].
    eexists. eexists. exists m. split; [reflexivity|]. split; [apply lookup_insert_eq|]. split; [done|]. by rewrite D.
Qed.

Lemma console_commits_small_ids_witness :
  console_step (fun _ => []) (Typed (str "commit 4294967296")) demo_console = Fault Thrown.
Proof.
  exact (proj1 (console_commits_small_ids (fun _ => []) 0 (mkClientLink 0%nat (start_read Session_new) []) 4294967296 demo_console
    eq_refl eq_refl eq_refl eq_refl) eq_refl).
Defined.

(** A sentence with the word in it ends the process too. *)
Lemma console_sentence : console_step (fun _ => []) (Typed (str "please commit")) demo_console = Fault Thrown.
Proof. vm_compute. reflexivity. Qed.
